(* ===== verification/_CoqProject ===== *)
-Q . S2P
Prelude.v
PyJson.v
Sha256.v
JsonText.v
JsonRoundtrip.v
PyText.v
Tail.v
RegistryTables.v
ActionProfiles.v
DataProfiles.v
Seeds.v
Builder.v
Validator.v
RunTests.v
Dashboard.v
BuilderFacts.v
ValidatorFacts.v
RegistryFacts.v
Soundness.v
RegistryCli.v
KeyOrder.v
RegistryProperties.v
RunTestsFacts.v
Sse.v
ConsoleFacts.v
ConsoleProperties.v
PdfCanvas.v
PdfPages.v
PdfLayout.v
PdfCards.v
PdfBuild.v
PdfFacts.v
PdfText.v
PayloadText.v
PdfDocument.v
ArtifactProperties.v
PdfFigures.v
PdfProperties.v
CheckRegistry.v
ToolProperties.v
LatencyProbe.v
LatencyFacts.v
LatencyProperties.v
ConsoleStart.v
