(* ===== verification/Prelude.v ===== *)
(** * HFT-BOT: the experiment registry and its tooling, verified

    The repository holds a C++ trading engine and the Python tooling around it.
    The core of the Python code is the experiment registry: a closed list of 106
    experiment cards that are generated from seeds and profile tables, hashed,
    written as a JSON artifact and validated fail-closed (no card may grant an
    authority, claim PnL or lose a blocker).  Beside it are the tool runner,
    which decides what the operations console may run and records the results;
    the check of the tool registry; the console server, which streams a log file
    to browsers and drives the runner over HTTP; a renderer that lays the
    registry out as a PDF report; and a read-only latency probe.  This library
    models that code and proves what makes it correct.

    ** The parts and where they are

    - [Prelude]: Python exceptions and the [result] monad, strings, sets,
      insertion-ordered dicts as association lists, [sorted(set(...))].
    - [PyJson]: JSON values as Python sees them: truth value, [==] (with
      [True == 1] and numeric equality), hashability, subscripts and [.get],
      [str] and [repr], well-formedness, the key-sorted normal form [canon] and
      the equivalence [≡] of values that differ in key order only.
    - [Sha256]: SHA-256 on bytes, executable, with the standard test vectors.
    - [JsonText]: [json.dumps] in the two layouts the code uses
      ([_canonical_json], the indented artifact) and [json.loads].
      [JsonRoundtrip]: the decoder inverts every layout and always terminates.
    - [RegistryTables], [ActionProfiles], [DataProfiles]: the constant tables and
      profile functions of tools/experiment_registry.py, value by value.
    - [Seeds]: tools/experiment_registry_seeds.py: the 106 registrations,
      [_register], [_register_model], [_validate_seeds], the import.
    - [Builder]: [_external_contract] .. [_build_card], [_summary_for_cards],
      [build_registry].  [BuilderFacts]: the shape of every table entry, the
      steps of [_build_card] as the record [card_parts], totality, blockers.
    - [Validator]: [validate_registry], one definition per block of the
      function, in the monad [vres] that records messages and may raise; the
      file system ([file_at], [ROOT]) and the text of a caught exception
      ([exc_text]) are parameters.  [ValidatorFacts]: a built card passes each
      check.  [RegistryFacts]: the built registry passes all that does not read
      files.  [Soundness]: what passes is what the builder makes.
    - [RegistryCli]: [_write_registry], [_read_registry], [_print_summary] and
      [main] of tools/experiment_registry.py, on the state of the artifact file,
      with the claim about them.
    - [KeyOrder]: the verdict of the validator does not depend on key order, as a
      simulation of runs.  [ArtifactProperties]: the claim that the check of the
      artifact is complete.
    - [PyText]: the string and bytes methods of the console code: [split],
      [splitlines], [strip], [decode("utf-8", "replace")], [int], and
      [json.dumps] with its default ASCII escapes, which [json_loads] inverts.
    - [Tail]: [file_size], [tail_lines] and [stream_new_lines] of
      dashboard_server.py; the file is a sequence of observations.
    - [RunTests]: tools/run_tests.py: [may_run], [parse_output], the class
      [Mocks], [run_tool], [record], [runnable_test_set], [main].  The state is
      the trace of what was done to the outside, the running mocks and the
      results file; what the operating system answers is a function of the
      trace.  [RunTestsFacts]: what a run starts, stops and runs.
    - [Dashboard]: the handler class of dashboard_server.py: [do_GET],
      [do_POST], [handle_stream]; it calls [RunTests] and [Tail].  [Sse]: a
      reference decoder of event streams.  [ConsoleFacts]: the handlers as
      clients of the runner.
    - [ConsoleProperties]: the claims about tail, runner and handlers.
    - [ConsoleStart]: [main] of dashboard_server.py after argument parsing.
    - [PdfCanvas]: the canvas calls as the data type [call], the drawing monad
      [draw], the constants and the drawing helpers of
      tools/render_experiment_registry_pdf.py ([_split_lines] .. [_card_by_id]).
      [PdfPages]: its fifteen summary pages.  [PdfLayout]:
      [_layout_detail_sections], with the invariant of the layout state and the
      abstract view of pages as finished columns and an open one.  [PdfCards]:
      the sections of a card.  [PdfBuild]: the card pages, [build_pdf], [main].
      [PdfFacts]: what each page needs and draws.  [PdfText]: wrapping keeps the
      visible text.  [PayloadText]: the written artifact is UTF-8.
      [PdfDocument]: the built registry has what the pages need.
      [PdfFigures]: counting cards, the texts a page prints and the bars of its
      charts.  [PdfProperties]: the claims.
    - [CheckRegistry]: tools/check_registry.py.  [ToolProperties]: the claims
      about it, with the console as its client.
    - [LatencyProbe]: tools/latency_probe_auth.py as a trace of effects.
      [LatencyFacts], [LatencyProperties]: the claims about it.
    - [RegistryProperties]: the claims about the registry, with their witnesses.

    ** What the theorems show

    The registry builds and validates: [build_registry] returns, with one card
    per authority ID in order, and [validate_registry] accepts it exactly on the
    file systems whose evidence files have the registered content (C1, C12).
    Validation is sound: nothing else is accepted, and an accepted card has the
    content of the built card or exhibits a hash collision (C2 to C5).  Cards
    fail closed: totality on validated seeds, never strategy-eligible, every
    missing cost, required external datum or missing signal input is a blocker
    with its remediation contract (C6 to C11).  Text: the artifact
    reads back as the sorted registry (C13).  Errors: inputs on which the validator
    raises instead of reporting (C15), and the exact blockers or the exception of a
    valid cost list (C16).  The registry command line succeeds only on the
    generated artifact and writes only what validates (C17), and it is complete:
    validation does not depend on the order of keys, so what [--write] leaves, and
    every text with the same content, passes the check exactly when the evidence
    files match (C14).
    The log tail: history and live lines are the complete lines of the file,
    without gap or overlap, across partial writes, and the event stream decodes to
    them (C18 to C21).  The runner: every mock stopped, only sanctioned commands on every
    path, fail-closed verdicts, records that read back (C22 to C25).  The
    handlers: a POST runs nothing else, and what the console shows is what the
    server does (C26, C27).
    The renderer: a layout ends, fits its columns, loses no text and is stable
    under rounding (C28, C29, C32, C33); a document has every page, numbered up
    to the total it announces, and rendering what the builder wrote succeeds (C30,
    C31); the families page shows the counts of any registry (C34), and the figures
    printed as literals are those of the built registry (C35).
    The tool check is exact, and makes the answers of the console certain (C36,
    C37).  The probe only reads, accounts for every sample and computes
    percentiles within its list (C38 to C40).
    Further theorems that stand without a number: import of the seeds and
    rejection of duplicates, canonical text as identity, the round trip of every
    layout, totality of the decoder,
    the chunked file hash, the summary of the built registry, escaping paths and
    malformed bindings, child profiles, rotation of the log, the policy as an
    allow-list, the run-all set and the fail-soft endpoints.

    ** Bounds and fuel

    [json_loads] starts with fuel [S (2 * length)]; [decoder_total] proves that
    no text exhausts it.  The file-hash loop starts with fuel [S (length)];
    [update_all_eq] proves that it reaches the end.
    The backward loop of [tail_lines] starts with fuel [S (size / block + 1)],
    one pass per block of 64 KiB; [tail_loop_suffix] proves that it ends at the
    start of the file or with enough lines.  The loop that
    places the lines of an entry starts with as much fuel as there are lines;
    [layout_columns_fit] proves that it ends, when a column has room for a heading
    and a line (36.7 points; an A3 page leaves 665).  All other recursion is
    structural.

    ** What is not modelled

    Python floats are decimals [JDec m e] in shortest form with at most fifteen
    digits and no exponent ([wf_json]); other floats, [NaN] and lone surrogates
    are [Unmodelled] in the decoder.  Strings are their UTF-8 bytes; [upper] and
    [repr] treat ASCII only.  The file system has no symbolic links and does not
    change during a run.  The order in which Python prints a set inside an error
    message is left open by Python; the model uses list order.  The recursion
    limit of the interpreter is not modelled.  Shared objects: the code copies
    ([copy.deepcopy]) every table value before it changes it, so values stand for
    objects.
    A read of the log tail sees the file at one moment; the clock of the event
    stream counts milliseconds.  A failure of [free_port] or of the stop of a
    mock is not modelled.  The page of the console, the watchtower package and
    argparse are parameters.
    The drawing library reportlab is the class [Reportlab] of [PdfCanvas]: page
    sizes and the width of a text are parameters, a document is the list of calls
    on the canvas.  Lengths are exact rationals; [layout_rounding_safe] bounds
    what rounding could change.  The renderer sees one registry file during a run.
    In the probe a float is the rational it stands for, products with a fraction
    for a percentile are computed in binary64; a URL outside printable ASCII or
    with an IPv6 address is [Unmodelled].
    Not modelled: the HTML page of the console, the C++ engine and exchange
    client, the test doubles, vendored libraries, documents, the interleaving of
    console requests on threads. *)

From stdpp Require Import base list strings numbers.
From Stdlib Require Import ZArith Lia Bool Ascii.

(** ** Python exceptions and the result monad

    A Python function that may raise is a function into [result]: [Ok] carries
    the value it returns, [Raise] the exception that leaves it.  [Unmodelled]
    marks an input outside the modelled part of the standard library. *)

Inductive exn :=
| KeyError (k : string)
| ValueError (msg : string)
| TypeError (msg : string)
| AttributeError (attr : string)
| IndexError
| OSError (msg : string)
| JSONDecodeError
| UnicodeDecodeError
| ZeroDivisionError
| AssertionError (msg : string)
| RuntimeError (msg : string)
| Unmodelled (what : string).

Inductive result (A : Type) :=
| Ok (a : A)
| Raise (e : exn).
Arguments Ok {A} a.
Arguments Raise {A} e.

#[export] Instance result_ret : MRet result := fun A a => Ok a.
#[export] Instance result_bind : MBind result := fun A B f m =>
  match m with Ok a => f a | Raise e => Raise e end.
#[export] Instance result_fmap : FMap result := fun A B f m =>
  match m with Ok a => Ok (f a) | Raise e => Raise e end.

(** Lifting a lookup: a missing key raises [KeyError]. *)
Definition or_raise {A} (e : exn) (o : option A) : result A :=
  match o with Some a => Ok a | None => Raise e end.

Definition is_ok {A} (r : result A) : bool :=
  match r with Ok _ => true | Raise _ => false end.

(** A list comprehension whose body may raise: left to right, first exception
    wins. *)
Fixpoint mapR {A B} (f : A -> result B) (l : list A) : result (list B) :=
  match l with
  | [] => Ok []
  | a :: l' => b ← f a; bs ← mapR f l'; Ok (b :: bs)
  end.

(** [all(...)] and [any(...)] over a generator that may raise: they stop at the
    first deciding element. *)
Fixpoint allR {A} (f : A -> result bool) (l : list A) : result bool :=
  match l with
  | [] => Ok true
  | a :: l' => b ← f a; if b : bool then allR f l' else Ok false
  end.

Fixpoint anyR {A} (f : A -> result bool) (l : list A) : result bool :=
  match l with
  | [] => Ok false
  | a :: l' => b ← f a; if b : bool then Ok true else anyR f l'
  end.

(** Short-circuit [and] of two tests that may raise. *)
Definition andR (a : result bool) (b : result bool) : result bool :=
  x ← a; if x : bool then b else Ok false.

Declare Scope py_scope.
Delimit Scope py_scope with py.
Infix "&&&" := andR (at level 40, left associativity) : py_scope.

(** ** Strings and string sets *)

Definition str_in (s : string) (l : list string) : bool := existsb (String.eqb s) l.

(** [p in s] for strings: [p] is a contiguous part of [s]. *)
Fixpoint substr (p s : string) : bool :=
  String.prefix p s ||
  match s with
  | EmptyString => false
  | String _ s' => substr p s'
  end.

Definition upper_ascii (c : ascii) : ascii :=
  let n := nat_of_ascii c in
  if (97 <=? n) && (n <=? 122) then ascii_of_nat (n - 32) else c.

(** [str.upper] on the ASCII letters, the identity elsewhere. *)
Fixpoint upper (s : string) : string :=
  match s with
  | EmptyString => EmptyString
  | String c s' => String (upper_ascii c) (upper s')
  end.

(** [s.startswith(p)] *)
Definition startswith (p s : string) : bool := String.prefix p s.

(** ** Association lists: Python dicts in insertion order *)

Section Assoc.
Context {A : Type}.
Implicit Types (l : list (string * A)).

Fixpoint assoc (k : string) l : option A :=
  match l with
  | [] => None
  | (k', v) :: l' => if String.eqb k k' then Some v else assoc k l'
  end.

(** [d[k] = v]: an existing key keeps its position, a new one goes last. *)
Fixpoint assoc_set (k : string) (v : A) l : list (string * A) :=
  match l with
  | [] => [(k, v)]
  | (k', v') :: l' =>
      if String.eqb k k' then (k', v) :: l' else (k', v') :: assoc_set k v l'
  end.

(** [d.pop(k, None)] *)
Fixpoint assoc_del (k : string) l : list (string * A) :=
  match l with
  | [] => []
  | (k', v') :: l' =>
      if String.eqb k k' then l' else (k', v') :: assoc_del k l'
  end.

Definition keys l : list string := map fst l.
End Assoc.

(** Every key occurs once. *)
Fixpoint nodupb (l : list string) : bool :=
  match l with
  | [] => true
  | k :: l' => negb (str_in k l') && nodupb l'
  end.

(** [sorted(set(l))] on strings: insertion into a strictly increasing list. *)
Fixpoint set_insert (s : string) (l : list string) : list string :=
  match l with
  | [] => [s]
  | t :: l' =>
      match String.compare s t with
      | Lt => s :: t :: l'
      | Eq => t :: l'
      | Gt => t :: set_insert s l'
      end
  end.

Definition sorted_set (l : list string) : list string := foldr set_insert [] l.

(** * Lemmas *)

Create HintDb pydb.

Lemma str_in_spec s l : str_in s l = true <-> In s l.
Proof.
  unfold str_in. rewrite existsb_exists. split.
  - intros (x & Hin & ->%String.eqb_eq). done.
  - intros Hin. exists s. by rewrite String.eqb_refl.
Qed.

Lemma str_in_false s l : str_in s l = false <-> ~ In s l.
Proof. rewrite <- str_in_spec. by destruct (str_in s l). Qed.

Lemma nodupb_spec l : nodupb l = true <-> List.NoDup l.
Proof.
  induction l as [|k l IH]; simpl.
  - split; [constructor|done].
  - rewrite andb_true_iff, negb_true_iff, IH, str_in_false.
    split; [intros []; by constructor|intros H; by inversion H].
Qed.

Section AssocLemmas.
Context {A : Type}.
Implicit Types (l : list (string * A)).

Lemma assoc_in k v l : assoc k l = Some v -> In (k, v) l.
Proof.
  induction l as [|[k' v'] l IH]; simpl; [done|].
  destruct (String.eqb_spec k k') as [->|]; [intros [= ->]|]; auto.
Qed.

Lemma assoc_none k l : assoc k l = None <-> ~ In k (keys l).
Proof.
  induction l as [|[k' v'] l IH]; simpl; [intuition|].
  destruct (String.eqb_spec k k') as [->|Hne]; [intuition congruence|].
  rewrite IH. intuition congruence.
Qed.

Lemma in_assoc k v l : List.NoDup (keys l) -> In (k, v) l -> assoc k l = Some v.
Proof.
  induction l as [|[k' v'] l IH]; simpl; [done|].
  inversion 1 as [|? ? Hni Hnd]; subst. intros [[= -> ->]|Hin].
  - by rewrite String.eqb_refl.
  - destruct (String.eqb_spec k k') as [->|]; [|auto].
    destruct Hni. by apply (in_map fst) in Hin.
Qed.

Lemma assoc_set_same k v l : assoc k (assoc_set k v l) = Some v.
Proof.
  induction l as [|[k' v'] l IH]; simpl; [by rewrite String.eqb_refl|].
  destruct (String.eqb_spec k k') as [->|Hne]; simpl.
  - by rewrite String.eqb_refl.
  - apply String.eqb_neq in Hne. by rewrite Hne.
Qed.

Lemma assoc_set_other k k0 v l :
  k0 <> k -> assoc k0 (assoc_set k v l) = assoc k0 l.
Proof.
  intros Hne. induction l as [|[k' v'] l IH]; simpl.
  - apply String.eqb_neq in Hne. by rewrite Hne.
  - destruct (String.eqb_spec k k') as [->|]; simpl.
    + apply String.eqb_neq in Hne. by rewrite Hne.
    + by rewrite IH.
Qed.

Lemma assoc_set_fresh k v l : ~ In k (keys l) -> assoc_set k v l = l ++ [(k, v)].
Proof.
  induction l as [|[k' v'] l IH]; simpl; [done|]. intros Hni.
  destruct (String.eqb_spec k k') as [->|]; [intuition|]. by rewrite IH by intuition.
Qed.

Lemma keys_assoc_set_in k k0 v l :
  In k0 (keys (assoc_set k v l)) <-> k0 = k \/ In k0 (keys l).
Proof.
  induction l as [|[k' v'] l IH]; simpl; [intuition|].
  destruct (String.eqb_spec k k') as [->|]; simpl; [intuition congruence|].
  rewrite IH. intuition congruence.
Qed.

Lemma assoc_set_nodup k v l :
  List.NoDup (keys l) -> List.NoDup (keys (assoc_set k v l)).
Proof.
  induction l as [|[k' v'] l IH]; simpl; [repeat constructor; auto|].
  inversion 1; subst. destruct (String.eqb_spec k k') as [->|]; simpl.
  - by constructor.
  - constructor; [|auto]. rewrite keys_assoc_set_in. intuition congruence.
Qed.
End AssocLemmas.

(** Inversion of a successful bind, the step every proof about a function that
    may raise starts with. *)
Lemma bind_ok {A B} (m : result A) (f : A -> result B) b :
  (m ≫= f) = Ok b <-> exists a, m = Ok a /\ f a = Ok b.
Proof.
  destruct m; simpl; split.
  - eauto.
  - by intros (? & [= ->] & ?).
  - done.
  - by intros (? & ? & ?).
Qed.

Lemma Ok_inj {A} (a b : A) : Ok a = Ok b -> a = b.
Proof. congruence. Qed.

Lemma or_raise_ok {A} e (o : option A) a : or_raise e o = Ok a <-> o = Some a.
Proof. destruct o; simpl; split; congruence. Qed.

(** [inv_ok] turns hypotheses [m ≫= f = Ok b] into the results of their steps. *)
Ltac inv_ok :=
  repeat match goal with
  | H : (_ ≫= _) = Ok _ |- _ =>
      apply bind_ok in H; let x := fresh "x" in let E := fresh "E" in
      destruct H as (x & E & H)
  | H : or_raise _ _ = Ok _ |- _ => apply or_raise_ok in H
  | H : Ok _ = Ok _ |- _ => apply Ok_inj in H; subst
  | H : Raise _ = Ok _ |- _ => discriminate H
  end.

Lemma mapR_ok_Forall2 {A B} (f : A -> result B) l bs :
  mapR f l = Ok bs <-> Forall2 (fun a b => f a = Ok b) l bs.
Proof.
  revert bs. induction l as [|a l IH]; simpl; intros bs; split.
  - by intros [= <-].
  - by inversion 1.
  - intros H. inv_ok. constructor; [done|by apply IH].
  - inversion 1 as [|? b ? bs' Hf Hl]; subst. rewrite Hf. simpl.
    apply IH in Hl. by rewrite Hl.
Qed.

Lemma mapR_total {A B} (f : A -> result B) (g : A -> B) l :
  (forall a, In a l -> f a = Ok (g a)) -> mapR f l = Ok (map g l).
Proof.
  induction l as [|a l IH]; simpl; intros H; [done|].
  rewrite H by auto. simpl. by rewrite IH by auto.
Qed.

Lemma allR_true {A} (f : A -> result bool) l :
  (forall a, In a l -> f a = Ok true) -> allR f l = Ok true.
Proof.
  induction l as [|a l IH]; simpl; intros H; [done|].
  rewrite H by auto. simpl. auto.
Qed.

Lemma allR_true_inv {A} (f : A -> result bool) l :
  allR f l = Ok true -> forall a, In a l -> f a = Ok true.
Proof.
  induction l as [|a l IH]; simpl; intros H x; [done|].
  destruct (f a) as [[]|] eqn:E; simpl in H; try done. intros [<-|Hin]; auto.
Qed.

Lemma andR_true a b : andR a b = Ok true <-> a = Ok true /\ b = Ok true.
Proof. destruct a as [[]|]; simpl; split; intuition congruence. Qed.

(** [sorted_set] keeps the elements, sorts them and drops duplicates. *)
Lemma set_insert_in s x l : In x (set_insert s l) <-> x = s \/ In x l.
Proof.
  induction l as [|t l IH]; simpl; [intuition|].
  destruct (String.compare s t) eqn:E; simpl.
  - apply String.compare_eq_iff in E as ->. intuition congruence.
  - intuition congruence.
  - rewrite IH. intuition congruence.
Qed.

Lemma sorted_set_in x l : In x (sorted_set l) <-> In x l.
Proof.
  induction l as [|s l IH]; simpl; [done|].
  rewrite set_insert_in, IH. intuition congruence.
Qed.

Definition str_lt (a b : string) : Prop := String.compare a b = Lt.

Lemma str_compare_gt_lt a b : String.compare a b = Gt -> str_lt b a.
Proof.
  unfold str_lt. rewrite String.compare_antisym.
  by destruct (String.compare b a).
Qed.

Lemma ascii_compare_trans a b c :
  Ascii.compare a b = Lt -> Ascii.compare b c = Lt -> Ascii.compare a c = Lt.
Proof.
  unfold Ascii.compare. rewrite !N.compare_lt_iff. lia.
Qed.

Lemma str_lt_trans a b c : str_lt a b -> str_lt b c -> str_lt a c.
Proof.
  unfold str_lt. revert b c.
  induction a as [|x a IH]; intros [|y b] [|z c]; simpl; try done.
  destruct (Ascii.compare x y) eqn:Exy; try done;
  destruct (Ascii.compare y z) eqn:Eyz; try done; intros H1 H2.
  - apply Ascii.compare_eq_iff in Exy as ->, Eyz as ->.
    unfold Ascii.compare. rewrite N.compare_refl. eauto.
  - apply Ascii.compare_eq_iff in Exy as ->. by rewrite Eyz.
  - apply Ascii.compare_eq_iff in Eyz as ->. by rewrite Exy.
  - by rewrite (ascii_compare_trans _ _ _ Exy Eyz).
Qed.

Lemma str_compare_refl a : String.compare a a = Eq.
Proof.
  induction a as [|x a IH]; simpl; [done|].
  unfold Ascii.compare. by rewrite N.compare_refl.
Qed.

Lemma str_lt_irrefl a : ~ str_lt a a.
Proof. unfold str_lt. by rewrite str_compare_refl. Qed.

Inductive increasing : list string -> Prop :=
| increasing_nil : increasing []
| increasing_cons x l :
    (forall y, In y l -> str_lt x y) -> increasing l -> increasing (x :: l).

Lemma set_insert_increasing s l : increasing l -> increasing (set_insert s l).
Proof.
  induction 1 as [|t l Hlt Hinc IH]; simpl.
  - constructor; [by intros ? []|constructor].
  - destruct (String.compare s t) eqn:E.
    + by constructor.
    + constructor; [|by constructor]. intros y [->|Hy]; [done|].
      eapply str_lt_trans; [exact E|auto].
    + constructor; [|done]. intros y [->|Hy]%set_insert_in; [|auto].
      by apply str_compare_gt_lt.
Qed.

Lemma sorted_set_increasing l : increasing (sorted_set l).
Proof.
  induction l as [|s l IH]; simpl; [constructor|by apply set_insert_increasing].
Qed.

Lemma increasing_nodup l : increasing l -> List.NoDup l.
Proof.
  induction 1 as [|x l Hlt _ IH]; constructor; [|done].
  intros Hin. exact (str_lt_irrefl _ (Hlt _ Hin)).
Qed.

#[export] Hint Resolve sorted_set_increasing set_insert_increasing : pydb.
