(* ===== verification/PyJson.v ===== *)
(** * Python values of JSON shape

    The registry, its cards and seeds are Python values built from [None],
    [bool], [int], [float], [str], [list] and [dict].  [json] is that type, a
    dict being its items in insertion order.  The operations are Python's:
    [d[k]], [d.get(k, x)], truth value, [==] (order-insensitive on dicts, and
    comparing [bool], [int] and [float] by value), [in], [set], [str] and
    [repr].

    A float is kept as the decimal [m / 10^e] of its shortest representation.
    [wf_json] holds of every value Python can build: dict keys are unique and
    decimals are in shortest form. *)

From stdpp Require Import base list strings numbers sorting.
From Stdlib Require Import ZArith Lia Bool Ascii DecimalString DecimalZ DecimalPos.
From S2P Require Import Prelude.

Unset Elimination Schemes.
Inductive json :=
| JNull
| JBool (b : bool)
| JInt (z : Z)
| JDec (m : Z) (e : nat)
| JStr (s : string)
| JList (l : list json)
| JObj (d : list (string * json)).
Set Elimination Schemes.

(** Literals: [obj ["k" ~> v; ...]] is a dict display, [strs] a list of strings. *)
Definition obj (d : list (string * json)) : json := JObj d.
Definition strs (l : list string) : json := JList (map JStr l).
Notation "k ~> v" := (@pair string json k v) (at level 60, right associativity).

(** ** Type tests, truth and hashing *)

Definition is_dict (v : json) : bool := match v with JObj _ => true | _ => false end.
Definition is_list (v : json) : bool := match v with JList _ => true | _ => false end.
Definition is_str (v : json) : bool := match v with JStr _ => true | _ => false end.
Definition is_none (v : json) : bool := match v with JNull => true | _ => false end.

(** [bool(v)] *)
Definition truthy (v : json) : bool :=
  match v with
  | JNull => false
  | JBool b => b
  | JInt z => negb (z =? 0)%Z
  | JDec m _ => negb (m =? 0)%Z
  | JStr s => negb (String.eqb s EmptyString)
  | JList l => match l with [] => false | _ => true end
  | JObj d => match d with [] => false | _ => true end
  end.

(** Lists and dicts are unhashable: they cannot be members of a set or keys. *)
Definition hashable (v : json) : bool := negb (is_list v || is_dict v).

Definition need_hashable (v : json) : result unit :=
  if hashable v then Ok tt else Raise (TypeError "unhashable type").

(** ** Equality *)

(** The numeric value [m / 10^e] of the three numeric types. *)
Definition num_of (v : json) : option (Z * nat) :=
  match v with
  | JBool b => Some ((if b then 1 else 0)%Z, 0)
  | JInt z => Some (z, 0)
  | JDec m e => Some (m, e)
  | _ => None
  end.

Definition num_eqb (x y : option (Z * nat)) : bool :=
  match x, y with
  | Some (m, e), Some (m', e') =>
      (m * 10 ^ Z.of_nat e' =? m' * 10 ^ Z.of_nat e)%Z
  | _, _ => false
  end.

(** [a == b] *)
Fixpoint py_eq (a b : json) {struct a} : bool :=
  match a, b with
  | JNull, JNull => true
  | JStr s, JStr t => String.eqb s t
  | JList l, JList l' =>
      (fix list_eq (l l' : list json) {struct l} : bool :=
         match l, l' with
         | [], [] => true
         | x :: l, y :: l' => py_eq x y && list_eq l l'
         | _, _ => false
         end) l l'
  | JObj d, JObj d' =>
      (length d =? length d')%nat &&
      forallb (fun kv =>
        match kv with
        | (k, v) => match assoc k d' with Some w => py_eq v w | None => false end
        end) d
  | _, _ => num_eqb (num_of a) (num_of b)
  end.

(** [v == "s"] *)
Definition eq_str (v : json) (s : string) : bool := py_eq v (JStr s).

(** [v in S] for a set of strings: an unhashable [v] raises. *)
Definition in_strset (v : json) (S : list string) : result bool :=
  _ ← need_hashable v;
  Ok (match v with JStr s => str_in s S | _ => false end).

(** [v in l] for a list. *)
Definition in_list (v : json) (l : list json) : bool := existsb (py_eq v) l.

(** ** Dict and list access *)

(** [d[k]] *)
Definition getitem (v : json) (k : string) : result json :=
  match v with
  | JObj d => or_raise (KeyError k) (assoc k d)
  | _ => Raise (TypeError "value is not subscriptable by a string")
  end.

(** [d.get(k, x)] *)
Definition get_default (v : json) (k : string) (x : json) : result json :=
  match v with
  | JObj d => Ok (match assoc k d with Some w => w | None => x end)
  | _ => Raise (AttributeError "get")
  end.

(** [d.get(k)] *)
Definition get (v : json) (k : string) : result json := get_default v k JNull.

(** [d[k] = x] *)
Definition setitem (v : json) (k : string) (x : json) : result json :=
  match v with
  | JObj d => Ok (JObj (assoc_set k x d))
  | _ => Raise (TypeError "value does not support item assignment by a string")
  end.

(** [d.pop(k, None)] on a copy, returning the copy. *)
Definition popitem (v : json) (k : string) : result json :=
  match v with
  | JObj d => Ok (JObj (assoc_del k d))
  | _ => Raise (AttributeError "pop")
  end.

(** Iteration over a value that the code expects to be a list. *)
Definition as_list (v : json) : result (list json) :=
  match v with
  | JList l => Ok l
  | JObj d => Ok (map (fun kv => JStr (fst kv)) d)
  | JStr s => Ok (map (fun c => JStr (String c EmptyString)) (String.list_ascii_of_string s))
  | _ => Raise (TypeError "value is not iterable")
  end.

(** The items of a dict (the rest raises, as [.items()] does). *)
Definition as_items (v : json) : result (list (string * json)) :=
  match v with JObj d => Ok d | _ => Raise (AttributeError "items") end.

(** [{**d1, **d2}] *)
Definition merge (d1 d2 : list (string * json)) : list (string * json) :=
  fold_left (fun acc kv => assoc_set (fst kv) (snd kv) acc) d2 d1.

(** [len(set(l))] up to [==]: the number of distinct values. *)
Fixpoint distinct (l : list json) : list json :=
  match l with
  | [] => []
  | v :: l' => if in_list v l' then distinct l' else v :: distinct l'
  end.

(** [set(l)] raises when an element is unhashable. *)
Definition py_set (l : list json) : result (list json) :=
  if forallb hashable l then Ok (distinct l) else Raise (TypeError "unhashable type").

(** ** [str] and [repr]

    [repr] of a string quotes with an apostrophe, or with the double quote when
    the text has an apostrophe and no double quote; bytes outside ASCII are
    shown as they are. *)

Definition dquote : ascii := ascii_of_nat 34.
Definition squote : ascii := ascii_of_nat 39.
Definition backslash : ascii := ascii_of_nat 92.
Definition newline : ascii := ascii_of_nat 10.
Definition str1 (c : ascii) : string := String c EmptyString.

Definition hex_digit (n : nat) : ascii :=
  if n <? 10 then ascii_of_nat (48 + n) else ascii_of_nat (87 + n).

Fixpoint has_char (c : ascii) (s : string) : bool :=
  match s with
  | EmptyString => false
  | String c' s' => Ascii.eqb c c' || has_char c s'
  end.

Definition repr_char (q c : ascii) : string :=
  let n := nat_of_ascii c in
  if Ascii.eqb c q || Ascii.eqb c backslash then String backslash (str1 c)
  else if n =? 9 then String backslash "t"
  else if n =? 10 then String backslash "n"
  else if n =? 13 then String backslash "r"
  else if (n <? 32) || (n =? 127) then
    String backslash (String "x" (String (hex_digit (n / 16)) (str1 (hex_digit (n mod 16)))))
  else str1 c.

Fixpoint repr_chars (q : ascii) (s : string) : string :=
  match s with
  | EmptyString => EmptyString
  | String c s' => repr_char q c +:+ repr_chars q s'
  end.

Definition repr_str (s : string) : string :=
  let q := if has_char squote s && negb (has_char dquote s) then dquote else squote in
  String q (repr_chars q s +:+ str1 q).

(** Decimal digits of an integer. *)
Definition show_Z (z : Z) : string := NilZero.string_of_int (Z.to_int z).
Definition show_nat (n : nat) : string := show_Z (Z.of_nat n).

Fixpoint zeros (n : nat) : string :=
  match n with O => EmptyString | S n' => String "0" (zeros n') end.

(** [m / 10^e] with exactly [e] digits after the point. *)
Definition show_dec (m : Z) (e : nat) : string :=
  let a := Z.abs m in
  let frac := show_Z (a mod 10 ^ Z.of_nat e)%Z in
  (if (m <? 0)%Z then "-" else EmptyString) +:+ show_Z (a / 10 ^ Z.of_nat e)%Z +:+ "." +:+
  zeros (e - String.length frac) +:+ frac.

Fixpoint py_repr (v : json) : string :=
  match v with
  | JNull => "None"
  | JBool b => if b then "True" else "False"
  | JInt z => show_Z z
  | JDec m e => show_dec m e
  | JStr s => repr_str s
  | JList l => "[" +:+ String.concat ", " (map py_repr l) +:+ "]"
  | JObj d =>
      "{" +:+ String.concat ", "
        (map (fun kv => match kv with (k, w) => repr_str k +:+ ": " +:+ py_repr w end) d)
      +:+ "}"
  end.

(** [str(v)], also the text an f-string inserts for [v]. *)
Definition py_str (v : json) : string :=
  match v with JStr s => s | _ => py_repr v end.

(** ** Well-formed values and the key-sorted normal form *)

(** A decimal in shortest form. *)
Definition shortest_dec (m : Z) (e : nat) : bool :=
  (1 <=? e)%nat && ((e =? 1)%nat || negb (m mod 10 =? 0)%Z).

(** A decimal that Python prints without exponent and reads back exactly: at
    most fifteen digits and not below one ten-thousandth. *)
Definition short_dec (m : Z) (e : nat) : bool :=
  (String.length (show_Z (Z.abs m / 10 ^ Z.of_nat e)) + e <=? 15)%nat &&
  ((m =? 0) || (10 ^ Z.of_nat e <=? Z.abs m * 10 ^ 4))%Z.

Definition wf_dec (m : Z) (e : nat) : bool := shortest_dec m e && short_dec m e.

Fixpoint wf_json (v : json) : bool :=
  match v with
  | JDec m e => wf_dec m e
  | JList l => forallb wf_json l
  | JObj d => nodupb (map fst d) && forallb (fun kv => match kv with (_, w) => wf_json w end) d
  | _ => true
  end.

(** [sorted(d.items())] on unique keys, by Python's order on [str]: code points,
    which is the order of the UTF-8 bytes. *)
Fixpoint item_insert {A} (kv : string * A) (l : list (string * A)) : list (string * A) :=
  match l with
  | [] => [kv]
  | kv' :: l' =>
      if String.leb (fst kv) (fst kv') then kv :: kv' :: l' else kv' :: item_insert kv l'
  end.

Definition sort_items {A} (d : list (string * A)) : list (string * A) :=
  foldr item_insert [] d.

(** The value with every dict sorted by key, at every depth: the order
    [json.dumps(..., sort_keys=True)] prints. *)
Fixpoint canon (v : json) : json :=
  match v with
  | JList l => JList (map canon l)
  | JObj d => JObj (sort_items (map (fun kv => match kv with (k, w) => (k, canon w) end) d))
  | _ => v
  end.

(** Two values are equivalent when they differ in the order of dict keys only. *)
#[export] Instance json_equiv : Equiv json := fun v w => canon v = canon w.

(** * Lemmas *)

Section JsonInd.
Variable P : json -> Prop.
Hypothesis Hnull : P JNull.
Hypothesis Hbool : forall b, P (JBool b).
Hypothesis Hint : forall z, P (JInt z).
Hypothesis Hdec : forall m e, P (JDec m e).
Hypothesis Hstr : forall s, P (JStr s).
Hypothesis Hlist : forall l, Forall P l -> P (JList l).
Hypothesis Hobj : forall d, Forall (fun kv => P (snd kv)) d -> P (JObj d).

(** Induction over a value and everything nested in it. *)
Fixpoint json_ind (v : json) : P v :=
  match v with
  | JNull => Hnull
  | JBool b => Hbool b
  | JInt z => Hint z
  | JDec m e => Hdec m e
  | JStr s => Hstr s
  | JList l =>
      Hlist l ((fix go (l : list json) : Forall P l :=
        match l with
        | [] => List.Forall_nil P
        | x :: l' => @List.Forall_cons _ P x l' (json_ind x) (go l')
        end) l)
  | JObj d =>
      Hobj d ((fix go (d : list (string * json)) : Forall (fun kv => P (snd kv)) d :=
        match d with
        | [] => List.Forall_nil _
        | kv :: d' => @List.Forall_cons _ _ kv d' (json_ind (snd kv)) (go d')
        end) d)
  end.
End JsonInd.

(** [==] is reflexive on well-formed values. *)
Lemma num_eqb_refl x : num_eqb (Some x) (Some x) = true.
Proof. destruct x. simpl. apply Z.eqb_refl. Qed.

Lemma py_eq_refl v : wf_json v = true -> py_eq v v = true.
Proof.
  induction v as [|b|z|m e|s|l IH|d IH] using json_ind; intros Hwf;
    try done; try apply num_eqb_refl.
  - apply String.eqb_refl.
  - cbn [wf_json] in Hwf. cbn [py_eq].
    induction IH as [|x l Hx _ IHl]; [done|]. simpl in *.
    apply andb_true_iff in Hwf as [H1 H2]. by rewrite Hx, IHl.
  - cbn [wf_json] in Hwf. apply andb_true_iff in Hwf as [Hnd Hwf].
    apply nodupb_spec in Hnd. cbn [py_eq]. rewrite Nat.eqb_refl. simpl.
    apply forallb_forall. intros [k v] Hin.
    rewrite (in_assoc k v) by done.
    rewrite forallb_forall in Hwf. rewrite List.Forall_forall in IH.
    by apply (IH _ Hin), (Hwf _ Hin).
Qed.

Lemma eq_str_true v s : eq_str v s = true <-> v = JStr s.
Proof.
  unfold eq_str. destruct v; cbn; try (split; congruence); try (split; [done|congruence]).
  rewrite String.eqb_eq. split; congruence.
Qed.

Lemma eq_str_refl s : eq_str (JStr s) s = true.
Proof. by apply eq_str_true. Qed.

Lemma in_list_strs s l : in_list (JStr s) (map JStr l) = str_in s l.
Proof.
  unfold in_list, str_in. induction l as [|t l IH]; simpl; [done|].
  cbn in *. by rewrite IH.
Qed.

Lemma in_strset_str s S : in_strset (JStr s) S = Ok (str_in s S).
Proof. done. Qed.

(** A dict equal to a display with the key has the key, with an equal value. *)
Lemma py_eq_obj_get d d' k v :
  py_eq (JObj d) (JObj d') = true -> assoc k d = Some v ->
  exists w, assoc k d' = Some w /\ py_eq v w = true.
Proof.
  intros [_ H]%andb_true_iff Hk. rewrite forallb_forall in H.
  specialize (H _ (assoc_in _ _ _ Hk)). simpl in H.
  destruct (assoc k d') as [w|]; [eauto|done].
Qed.

(** [sort_items] permutes. *)
Lemma item_insert_perm {A} (kv : string * A) l : item_insert kv l ≡ₚ kv :: l.
Proof.
  induction l as [|kv' l IH]; simpl; [done|].
  destruct (String.leb _ _); [done|]. rewrite IH. apply Permutation_swap.
Qed.

Lemma sort_items_perm {A} (l : list (string * A)) : sort_items l ≡ₚ l.
Proof.
  induction l as [|kv l IH]; simpl; [done|]. by rewrite item_insert_perm, IH.
Qed.

Lemma keys_perm {A} (l l' : list (string * A)) : l ≡ₚ l' -> keys l ≡ₚ keys l'.
Proof. apply Permutation_map. Qed.

(** Lookup does not depend on the order of unique keys. *)
Lemma assoc_perm {A} k (l l' : list (string * A)) :
  List.NoDup (keys l) -> l ≡ₚ l' -> assoc k l = assoc k l'.
Proof.
  intros Hnd Hp.
  assert (List.NoDup (keys l')) as Hnd'.
  { eapply Permutation_NoDup; [by apply keys_perm|done]. }
  destruct (assoc k l) as [v|] eqn:E.
  - symmetry. apply in_assoc; [done|]. eapply Permutation_in; [done|].
    by apply assoc_in.
  - symmetry. apply assoc_none. apply assoc_none in E. intros Hin. apply E.
    eapply Permutation_in; [|done]. symmetry. by apply keys_perm.
Qed.

Lemma keys_canon_items d :
  keys (map (fun kv : string * json => match kv with (k, w) => (k, canon w) end) d) = keys d.
Proof.
  unfold keys. rewrite map_map. apply map_ext. by intros [].
Qed.

Lemma wf_obj_iff d :
  wf_json (JObj d) = true <->
  List.NoDup (keys d) /\ forall k w, In (k, w) d -> wf_json w = true.
Proof.
  cbn [wf_json]. rewrite andb_true_iff, nodupb_spec, forallb_forall.
  split; (intros [H1 H2]; split; [done|]).
  - intros k w Hin. apply (H2 _ Hin).
  - intros [k w] Hin. by apply (H2 k).
Qed.

Lemma wf_list_iff l : wf_json (JList l) = true <-> forall v, In v l -> wf_json v = true.
Proof. cbn [wf_json]. apply forallb_forall. Qed.

(** Conversely, when the keys are unique, nothing of the display is missing. *)
Lemma py_eq_obj_get_r d d' k w :
  List.NoDup (keys d) -> py_eq (JObj d) (JObj d') = true -> assoc k d' = Some w ->
  exists v, assoc k d = Some v /\ py_eq v w = true.
Proof.
  intros Hnd Heq Hk.
  assert (In k (keys d)) as Hin.
  { assert (incl (keys d) (keys d')) as Hincl.
    { intros x Hx. destruct (assoc x d) as [v|] eqn:E; [|by apply assoc_none in E].
      destruct (py_eq_obj_get _ _ _ _ Heq E) as (w' & Hw' & _).
      apply assoc_in in Hw'. by apply (in_map fst) in Hw'. }
    assert (incl (keys d') (keys d)) as Hincl'.
    { apply NoDup_length_incl; [done| |done]. unfold keys. rewrite !length_map.
      apply andb_true_iff in Heq as [Hl _]. apply Nat.eqb_eq in Hl. by rewrite Hl. }
    apply Hincl'. apply assoc_in in Hk. by apply (in_map fst) in Hk. }
  destruct (assoc k d) as [v|] eqn:E; [|by apply assoc_none in E].
  exists v. split; [done|]. destruct (py_eq_obj_get _ _ _ _ Heq E) as (w' & Hw' & He).
  rewrite Hk in Hw'. by injection Hw' as <-.
Qed.

Lemma py_eq_getitem v w k x :
  wf_json v = true -> py_eq v w = true -> getitem w k = Ok x ->
  exists y, getitem v k = Ok y /\ py_eq y x = true /\ wf_json y = true.
Proof.
  destruct w as [| | | | | |d']; try done. destruct v as [| | | | | |d]; try done.
  cbn [getitem]. intros [Hnd Hwf]%wf_obj_iff Heq Hk.
  destruct (assoc k d') as [x'|] eqn:E; [|done]. injection Hk as <-.
  destruct (py_eq_obj_get_r _ _ _ _ Hnd Heq E) as (y & Hy & He). exists y. rewrite Hy.
  split; [done|]. split; [done|]. apply (Hwf k). by apply assoc_in.
Qed.

Lemma py_eq_str v s : py_eq v (JStr s) = true -> v = JStr s.
Proof. apply eq_str_true. Qed.

Lemma py_eq_strs v l : py_eq v (strs l) = true -> v = strs l.
Proof.
  destruct v as [| | | | |l'|]; try done. unfold strs. intros H. f_equal. revert l H.
  induction l' as [|x l' IH]; intros [|s l] H; try done. cbn [map py_eq] in H.
  apply andb_true_iff in H as [Hx H]. apply py_eq_str in Hx as ->. cbn [map]. f_equal. by apply IH.
Qed.

Lemma strs_inj l l' : strs l = strs l' -> l = l'.
Proof.
  unfold strs. intros [= H]. revert l' H.
  induction l as [|x l IH]; intros [|y l'] H; try done. injection H as -> H. f_equal. auto.
Qed.

Lemma py_eq_false v : py_eq v (JBool false) = true -> truthy v = false.
Proof.
  destruct v as [|[]|z|m e| | |]; cbn; try done.
  - intros H%Z.eqb_eq. apply negb_false_iff, Z.eqb_eq. lia.
  - intros H%Z.eqb_eq. apply negb_false_iff, Z.eqb_eq. lia.
Qed.

Lemma wf_strs l : wf_json (strs l) = true.
Proof. apply wf_list_iff. intros v (s & <- & _)%in_map_iff. done. Qed.

Lemma wf_canon v : wf_json v = true -> wf_json (canon v) = true.
Proof.
  induction v as [| | | | |l IH|d IH] using json_ind; intros Hwf; try done.
  - apply wf_list_iff. intros w (x & <- & Hin)%in_map_iff.
    rewrite List.Forall_forall in IH. apply IH; [done|].
    by apply (proj1 (wf_list_iff l) Hwf).
  - apply wf_obj_iff in Hwf as [Hnd Hwf]. apply wf_obj_iff. split.
    + eapply Permutation_NoDup; [|by rewrite <- keys_canon_items in Hnd].
      symmetry. apply keys_perm, sort_items_perm.
    + intros k w Hin. eapply Permutation_in in Hin; [|apply sort_items_perm].
      apply in_map_iff in Hin as ([k' w'] & [= -> <-] & Hin).
      rewrite List.Forall_forall in IH. apply (IH _ Hin), (Hwf _ _ Hin).
Qed.

(** Sorting the keys of a well-formed value does not change what it is [==] to. *)
Lemma py_eq_canon_l v w : wf_json v = true -> py_eq v w = true -> py_eq (canon v) w = true.
Proof.
  revert w. induction v as [| | | | |l IH|d IH] using json_ind; intros w Hwf Heq; try done.
  - destruct w as [| | | | |l'|]; try done. cbn [canon py_eq] in *.
    cbn [wf_json] in Hwf. revert l' Heq.
    induction IH as [|x l Hx _ IHl]; intros [|y l'] Heq; simpl in *; try done.
    apply andb_true_iff in Heq as [H1 H2]. apply andb_true_iff in Hwf as [W1 W2].
    by rewrite Hx, IHl.
  - destruct w as [| | | | | |d']; try done.
    apply wf_obj_iff in Hwf as [_ Hwf]. cbn [canon py_eq] in *.
    apply andb_true_iff in Heq as [Hlen Heq]. apply andb_true_iff. split.
    { erewrite Permutation_length by apply sort_items_perm. by rewrite length_map. }
    rewrite forallb_forall in *. intros [k v] Hin.
    eapply Permutation_in in Hin; [|apply sort_items_perm].
    apply in_map_iff in Hin as ([k' v'] & [= -> <-] & Hin).
    specialize (Heq _ Hin). simpl in Heq. destruct (assoc k d'); [|done].
    rewrite List.Forall_forall in IH. apply (IH _ Hin); [|done]. by apply (Hwf k).
Qed.

(** *** Sorted keys are unique *)

Definition key_lt {A} (a b : string * A) : Prop := str_lt (fst a) (fst b).

Lemma leb_false_lt a b : String.leb a b = false -> str_lt b a.
Proof.
  unfold String.leb. intros H. apply str_compare_gt_lt. by destruct (String.compare a b).
Qed.

Lemma leb_true_lt a b : String.leb a b = true -> a <> b -> str_lt a b.
Proof.
  unfold String.leb, str_lt. intros H Hne. destruct (String.compare a b) eqn:E; try done.
  by apply String.compare_eq_iff in E.
Qed.

Lemma item_insert_sorted {A} (kv : string * A) l :
  ~ In (fst kv) (keys l) -> StronglySorted key_lt l -> StronglySorted key_lt (item_insert kv l).
Proof.
  intros Hni Hs. induction Hs as [|kv' l Hs IH Hall]; cbn [item_insert].
  - repeat constructor.
  - destruct (String.leb (fst kv) (fst kv')) eqn:E.
    + assert (str_lt (fst kv) (fst kv')) as Hlt.
      { apply leb_true_lt; [done|]. intros Heq. apply Hni. left. done. }
      constructor; [by constructor|]. constructor; [done|].
      eapply List.Forall_impl; [|exact Hall]. intros x Hx. by eapply str_lt_trans.
    + constructor; [apply IH; intros Hin; apply Hni; by right|].
      rewrite item_insert_perm. constructor; [by apply leb_false_lt|done].
Qed.

Lemma sort_items_sorted {A} (d : list (string * A)) :
  List.NoDup (keys d) -> StronglySorted key_lt (sort_items d).
Proof.
  induction d as [|kv d IH]; intros Hnd; [constructor|]. inversion Hnd as [|? ? Hni Hnd' ]; subst.
  cbn [sort_items foldr]. apply item_insert_sorted; [|by apply IH].
  intros Hin. apply Hni. eapply Permutation_in; [|exact Hin]. apply keys_perm, sort_items_perm.
Qed.

(** Sorting forgets the order of the items. *)
Lemma sort_items_unique {A} (d d' : list (string * A)) :
  List.NoDup (keys d) -> d ≡ₚ d' -> sort_items d = sort_items d'.
Proof.
  intros Hnd Hp. assert (List.NoDup (keys d')) as Hnd'.
  { eapply Permutation_NoDup; [by apply keys_perm|done]. }
  apply (StronglySorted_unique_strong key_lt).
  - intros x y _ _ H1 H2. exfalso. eapply str_lt_irrefl, str_lt_trans; [exact H1|exact H2].
  - by apply sort_items_sorted.
  - by apply sort_items_sorted.
  - by rewrite !sort_items_perm.
Qed.

(** Dicts with the same items in another order are equivalent. *)
Lemma obj_perm_equiv d d' : List.NoDup (keys d) -> d ≡ₚ d' -> JObj d ≡ JObj d'.
Proof.
  intros Hnd Hp. unfold equiv, json_equiv. cbn [canon]. f_equal. apply sort_items_unique.
  - by rewrite keys_canon_items.
  - by apply Permutation_map.
Qed.

#[export] Instance json_equiv_equivalence : Equivalence (≡@{json}).
Proof.
  split; unfold equiv, json_equiv; [intros v; reflexivity|by intros v w|by intros u v w -> ].
Qed.

(** *** Removing a key *)

Lemma assoc_del_perm {A} k (v : A) d : assoc k d = Some v -> d ≡ₚ (k, v) :: assoc_del k d.
Proof.
  induction d as [|[k' w] d IH]; cbn [assoc assoc_del]; [done|].
  destruct (String.eqb_spec k k') as [->|_]; [by intros [= ->]|].
  intros H. rewrite (IH H) at 1. apply Permutation_swap.
Qed.

Lemma wf_assoc_del k v d :
  assoc k d = Some v -> wf_json (JObj d) = true -> wf_json (JObj (assoc_del k d)) = true.
Proof.
  intros Hk [Hnd Hwf]%wf_obj_iff. pose proof (assoc_del_perm k v d Hk) as Hp.
  apply wf_obj_iff. split.
  - apply keys_perm in Hp. apply (Permutation_NoDup Hp) in Hnd. by inversion Hnd.
  - intros k' w Hin. apply (Hwf k'). eapply Permutation_in; [symmetry; exact Hp|]. by right.
Qed.

(** Two dicts that agree on a key and are equivalent without it are equivalent. *)
Lemma equiv_with_key k v d d' :
  wf_json (JObj d) = true -> wf_json (JObj d') = true ->
  assoc k d = Some v -> assoc k d' = Some v ->
  JObj (assoc_del k d) ≡ JObj (assoc_del k d') -> JObj d ≡ JObj d'.
Proof.
  intros [Hnd _]%wf_obj_iff [Hnd' _]%wf_obj_iff Hk Hk' He.
  unfold equiv, json_equiv in *. cbn [canon] in *. injection He as He. f_equal.
  apply sort_items_unique; [by rewrite keys_canon_items|].
  rewrite (assoc_del_perm k v d Hk), (assoc_del_perm k v d' Hk'). cbn [map].
  apply Permutation_cons; [done|].
  rewrite <- (sort_items_perm (map _ (assoc_del k d))), He. apply sort_items_perm.
Qed.
