(* ===== verification/Sha256.v ===== *)
(** * SHA-256

    [hashlib.sha256(data).hexdigest()] of the standard library, used by
    [_sha256] and [_file_sha256] of [tools/experiment_registry.py]: FIPS 180-4
    on 32-bit words kept as [Z] with the wrap-around written out. *)

From stdpp Require Import base list strings numbers.
From Stdlib Require Import ZArith Lia Bool Ascii.
From S2P Require Import Prelude PyJson.

Local Open Scope Z_scope.

Definition w32 (x : Z) : Z := x mod 2 ^ 32.
Definition add32 (x y : Z) : Z := w32 (x + y).
Definition rotr (n x : Z) : Z := Z.lor (Z.shiftr x n) (w32 (Z.shiftl x (32 - n))).
Definition shr (n x : Z) : Z := Z.shiftr x n.

Definition Ch (x y z : Z) : Z := Z.lxor (Z.land x y) (Z.land (Z.lxor x (2 ^ 32 - 1)) z).
Definition Maj (x y z : Z) : Z := Z.lxor (Z.lxor (Z.land x y) (Z.land x z)) (Z.land y z).
Definition bsig0 (x : Z) : Z := Z.lxor (Z.lxor (rotr 2 x) (rotr 13 x)) (rotr 22 x).
Definition bsig1 (x : Z) : Z := Z.lxor (Z.lxor (rotr 6 x) (rotr 11 x)) (rotr 25 x).
Definition ssig0 (x : Z) : Z := Z.lxor (Z.lxor (rotr 7 x) (rotr 18 x)) (shr 3 x).
Definition ssig1 (x : Z) : Z := Z.lxor (Z.lxor (rotr 17 x) (rotr 19 x)) (shr 10 x).

Definition K256 : list Z :=
  [1116352408; 1899447441; 3049323471; 3921009573; 961987163; 1508970993; 2453635748;
   2870763221; 3624381080; 310598401; 607225278; 1426881987; 1925078388; 2162078206;
   2614888103; 3248222580; 3835390401; 4022224774; 264347078; 604807628; 770255983;
   1249150122; 1555081692; 1996064986; 2554220882; 2821834349; 2952996808; 3210313671;
   3336571891; 3584528711; 113926993; 338241895; 666307205; 773529912; 1294757372;
   1396182291; 1695183700; 1986661051; 2177026350; 2456956037; 2730485921; 2820302411;
   3259730800; 3345764771; 3516065817; 3600352804; 4094571909; 275423344; 430227734;
   506948616; 659060556; 883997877; 958139571; 1322822218; 1537002063; 1747873779;
   1955562222; 2024104815; 2227730452; 2361852424; 2428436474; 2756734187; 3204031479;
   3329325298].

(** The eight working variables a..h. *)
Record regs := Regs { ra : Z; rb : Z; rc : Z; rd : Z; re : Z; rf : Z; rg : Z; rh : Z }.

Definition H256 : regs :=
  Regs 1779033703 3144134277 1013904242 2773480762 1359893119 2600822924 528734635 1541459225.

Definition round (s : regs) (kw : Z * Z) : regs :=
  let '(k, w) := kw in
  let t1 := add32 (add32 (add32 (rh s) (bsig1 (re s))) (Ch (re s) (rf s) (rg s))) (add32 k w) in
  let t2 := add32 (bsig0 (ra s)) (Maj (ra s) (rb s) (rc s)) in
  Regs (add32 t1 t2) (ra s) (rb s) (rc s) (add32 (rd s) t1) (re s) (rf s) (rg s).

(** The message schedule: [window] holds the last sixteen words. *)
Fixpoint schedule (n : nat) (window : list Z) : list Z :=
  match n with
  | O => []
  | S n' =>
      match window with
      | w0 :: rest =>
          let w := add32 (add32 (ssig1 (nth 13 rest 0)) (nth 8 rest 0))
                         (add32 (ssig0 (nth 0 rest 0)) w0) in
          w0 :: schedule n' (rest ++ [w])
      | [] => []
      end
  end.

Definition add_regs (s t : regs) : regs :=
  Regs (add32 (ra s) (ra t)) (add32 (rb s) (rb t)) (add32 (rc s) (rc t)) (add32 (rd s) (rd t))
       (add32 (re s) (re t)) (add32 (rf s) (rf t)) (add32 (rg s) (rg t)) (add32 (rh s) (rh t)).

Definition compress (s : regs) (block : list Z) : regs :=
  add_regs s (fold_left round (combine K256 (schedule 64 block)) s).

(** Big-endian words of a padded message, sixteen to a block. *)
Fixpoint words_be (bs : list Z) : list Z :=
  match bs with
  | a :: b :: c :: d :: bs' => (a * 2 ^ 24 + b * 2 ^ 16 + c * 2 ^ 8 + d) :: words_be bs'
  | _ => []
  end.

Fixpoint blocks (n : nat) (ws : list Z) : list (list Z) :=
  match n with
  | O => []
  | S n' => take 16 ws :: blocks n' (drop 16 ws)
  end.

Fixpoint bytes_be (n : nat) (x : Z) : list Z :=
  match n with
  | O => []
  | S n' => bytes_be n' (x / 256) ++ [x mod 256]
  end.

Fixpoint str_bytes (s : string) : list Z :=
  match s with
  | EmptyString => []
  | String c s' => Z.of_N (N_of_ascii c) :: str_bytes s'
  end.

(** Append 0x80, zeros up to 56 bytes modulo 64, and the length in bits. *)
Definition pad (bs : list Z) : list Z :=
  let n := Z.of_nat (length bs) in
  bs ++ [128] ++ replicate (Z.to_nat ((55 - n) mod 64)) 0 ++ bytes_be 8 (8 * n).

Definition hex_byte (b : Z) : string :=
  String (hex_digit (Z.to_nat (b / 16))) (str1 (hex_digit (Z.to_nat (b mod 16)))).

Definition hex_word (w : Z) : string :=
  foldr (fun b acc => hex_byte b +:+ acc) EmptyString (bytes_be 4 w).

Definition digest (s : regs) : string :=
  hex_word (ra s) +:+ hex_word (rb s) +:+ hex_word (rc s) +:+ hex_word (rd s) +:+
  hex_word (re s) +:+ hex_word (rf s) +:+ hex_word (rg s) +:+ hex_word (rh s).

Definition sha256_hex (data : string) : string :=
  let ws := words_be (pad (str_bytes data)) in
  digest (fold_left compress (blocks (length ws / 16)%nat ws) H256).

(** * Lemmas *)

Example sha256_abc :
  sha256_hex "abc" = "ba7816bf8f01cfea414140de5dae2223b00361a396177a9cb410ff61f20015ad".
Proof. vm_compute. reflexivity. Qed.

Example sha256_empty :
  sha256_hex EmptyString = "e3b0c44298fc1c149afbf4c8996fb92427ae41e4649b934ca495991b7852b855".
Proof. vm_compute. reflexivity. Qed.

(** Concatenation of texts. *)
Lemma append_cons x (a b : string) : String x a +:+ b = String x (a +:+ b).
Proof. reflexivity. Qed.

Lemma append_assoc (a b c : string) : (a +:+ b) +:+ c = a +:+ (b +:+ c).
Proof. induction a as [|x a IH]; [done|]. by rewrite !append_cons, IH. Qed.

Lemma append_nil_r (a : string) : a +:+ EmptyString = a.
Proof. induction a as [|x a IH]; [done|]. by rewrite append_cons, IH. Qed.

Lemma string_length_app s t : String.length (s +:+ t) = (String.length s + String.length t)%nat.
Proof. induction s; simpl; [done|]. by f_equal. Qed.

(** A digest is 64 characters, for every input. *)
Lemma sha256_hex_length data : String.length (sha256_hex data) = 64%nat.
Proof.
  assert (forall w, String.length (hex_word w) = 8%nat) as Hw by done.
  unfold sha256_hex, digest. rewrite !string_length_app, !Hw. done.
Qed.
