(* ===== verification/JsonText.v ===== *)
(** * JSON text

    [json.dumps] as [tools/experiment_registry.py] calls it: [_canonical_json]
    (sorted keys, no spaces, non-ASCII text kept) and the indented artifact of
    [_write_registry].  Text is the UTF-8 bytes of the output. *)

From stdpp Require Import base list strings numbers.
From Stdlib Require Import ZArith Lia Bool Ascii.
From S2P Require Import Prelude PyJson Sha256.

(** The escapes of [json.dumps(..., ensure_ascii=False)]. *)
Definition esc_char (c : ascii) : string :=
  let n := nat_of_ascii c in
  if n =? 34 then String backslash (str1 dquote)
  else if n =? 92 then String backslash (str1 backslash)
  else if n =? 8 then String backslash "b"
  else if n =? 9 then String backslash "t"
  else if n =? 10 then String backslash "n"
  else if n =? 12 then String backslash "f"
  else if n =? 13 then String backslash "r"
  else if n <? 32 then
    String backslash ("u00" +:+ String (hex_digit (n / 16)) (str1 (hex_digit (n mod 16))))
  else str1 c.

Fixpoint esc (s : string) : string :=
  match s with
  | EmptyString => EmptyString
  | String c s' => esc_char c +:+ esc s'
  end.

Definition quote (s : string) : string := String dquote (esc s +:+ str1 dquote).

(** Items joined by a separator. *)
Fixpoint join (sep : string) (l : list string) : string :=
  match l with
  | [] => EmptyString
  | [s] => s
  | s :: l' => s +:+ sep +:+ join sep l'
  end.

(** One line of JSON with the given item and key separators. *)
Fixpoint print (isep ksep : string) (v : json) : string :=
  match v with
  | JNull => "null"
  | JBool b => if b then "true" else "false"
  | JInt z => show_Z z
  | JDec m e => show_dec m e
  | JStr s => quote s
  | JList l => "[" +:+ join isep (map (print isep ksep) l) +:+ "]"
  | JObj d =>
      "{" +:+ join isep
        (map (fun kv => match kv with (k, w) => quote k +:+ ksep +:+ print isep ksep w end) d)
      +:+ "}"
  end.

Fixpoint spaces (n : nat) : string :=
  match n with O => EmptyString | S n' => String " " (spaces n') end.

(** [indent=2]: one item per line, [lvl] levels deep. *)
Fixpoint print_indent (lvl : nat) (v : json) : string :=
  let nl k := String newline (spaces (2 * k)) in
  match v with
  | JList [] => "[]"
  | JObj [] => "{}"
  | JList l =>
      "[" +:+ nl (S lvl) +:+ join ("," +:+ nl (S lvl)) (map (print_indent (S lvl)) l)
      +:+ nl lvl +:+ "]"
  | JObj d =>
      "{" +:+ nl (S lvl) +:+ join ("," +:+ nl (S lvl))
        (map (fun kv => match kv with (k, w) => quote k +:+ ": " +:+ print_indent (S lvl) w end) d)
      +:+ nl lvl +:+ "}"
  | _ => print "," ": " v
  end.

(** ** The ASCII spelling of a string *)

Definition hex4 (n : N) : string :=
  let d k := hex_digit (N.to_nat ((n / k) mod 16)) in
  String (d 4096%N) (String (d 256%N) (String (d 16%N) (str1 (d 1%N)))).

Definition u_escape (n : N) : string := String backslash (String "u" (hex4 n)).

(** The escape of a code point: two surrogates above U+FFFF. *)
Definition esc_code (n : N) : string :=
  if (n <? 65536)%N then u_escape n
  else let m := (n - 65536)%N in u_escape (55296 + m / 1024)%N +:+ u_escape (56320 + m mod 1024)%N.

(** The escapes of [ensure_ascii=True]. *)
Fixpoint esc_ascii (s : string) : string :=
  match s with
  | EmptyString => EmptyString
  | String c s1 =>
      let n := N_of_ascii c in
      let low d := (N_of_ascii d mod 64)%N in
      if (n <? 127)%N then esc_char c +:+ esc_ascii s1
      else if (n =? 127)%N then esc_code n +:+ esc_ascii s1
      else match s1 with
      | EmptyString => str1 c
      | String c1 s2 =>
          if (n <? 224)%N then esc_code ((n mod 32) * 64 + low c1)%N +:+ esc_ascii s2
          else match s2 with
          | EmptyString => String c (str1 c1)
          | String c2 s3 =>
              if (n <? 240)%N then
                esc_code (((n mod 16) * 64 + low c1) * 64 + low c2)%N +:+ esc_ascii s3
              else match s3 with
              | EmptyString => String c (String c1 (str1 c2))
              | String c3 s4 =>
                  esc_code ((((n mod 8) * 64 + low c1) * 64 + low c2) * 64 + low c3)%N
                  +:+ esc_ascii s4
              end
          end
      end
  end.

Definition quote_ascii (s : string) : string := String dquote (esc_ascii s +:+ str1 dquote).

(** ** The canonical text *)

(** [_canonical_json]: keys sorted at every depth, separators [","] and [":"]. *)
Definition _canonical_json (value : json) : string := print "," ":" (canon value).

(** [_sha256] *)
Definition _sha256 (value : json) : string := sha256_hex (_canonical_json value).

(** The payload [_write_registry] writes. *)
Definition registry_payload (registry : json) : string :=
  print_indent 0 (canon registry) +:+ str1 newline.

(** ** [json.loads]

    The decoder of the standard library, on the UTF-8 bytes of the text.  A
    malformed text raises [JSONDecodeError].  [Unmodelled] stands for inputs
    outside the value model: [NaN] and the infinities, exponents, negative zero,
    more than fifteen significant digits, and surrogate escapes. *)

Definition is_ws (c : ascii) : bool :=
  let n := nat_of_ascii c in (n =? 32) || (n =? 9) || (n =? 10) || (n =? 13).

Fixpoint skip_ws (s : string) : string :=
  match s with
  | String c s' => if is_ws c then skip_ws s' else s
  | EmptyString => EmptyString
  end.

Definition is_digit (c : ascii) : bool :=
  let n := nat_of_ascii c in (48 <=? n) && (n <=? 57).

(** The leading digits of a text and the rest. *)
Fixpoint span_digits (s : string) : string * string :=
  match s with
  | String c s' =>
      if is_digit c then let (d, r) := span_digits s' in (String c d, r) else (EmptyString, s)
  | EmptyString => (EmptyString, EmptyString)
  end.

Fixpoint digits_value (acc : Z) (s : string) : Z :=
  match s with
  | String c s' => digits_value (10 * acc + Z.of_nat (nat_of_ascii c - 48))%Z s'
  | EmptyString => acc
  end.

(** Shortest decimal: drop trailing zeros, keep one digit after the point. *)
Fixpoint norm_dec (m : Z) (e : nat) : Z * nat :=
  match e with
  | S (S e' as e1) => if (m mod 10 =? 0)%Z then norm_dec (m / 10) e1 else (m, e)
  | _ => (m, e)
  end.

(** The integer part of a number: a zero alone, or the digits. *)
Definition int_part (s : string) : string * string :=
  match s with
  | String c s' => if nat_of_ascii c =? 48 then (str1 c, s') else span_digits s
  | EmptyString => (EmptyString, EmptyString)
  end.

(** The exponent mark. *)
Definition starts_exp (t : string) : bool :=
  match t with
  | String c _ => (nat_of_ascii c =? 69) || (nat_of_ascii c =? 101)
  | EmptyString => false
  end.

(** A number without its sign. *)
Definition parse_number (neg : bool) (s : string) : result (json * string) :=
  let signed z := if neg then (- z)%Z else z in
  let '(ip, r) := int_part s in
  match ip with
  | EmptyString => Raise JSONDecodeError
  | _ =>
      match r with
      | String dot r' =>
          let '(fp, r'') := span_digits r' in
          if (nat_of_ascii dot =? 46) && negb (String.eqb fp EmptyString) then
            if starts_exp r'' then Raise (Unmodelled "exponent")
            else
              let m := digits_value 0 (ip +:+ fp) in
              if (15 <? String.length (ip +:+ fp)) || (neg && (m =? 0)%Z)
              then Raise (Unmodelled "float")
              else let '(m', e') := norm_dec m (String.length fp) in Ok (JDec (signed m') e', r'')
          else if starts_exp r then Raise (Unmodelled "exponent")
          else Ok (JInt (signed (digits_value 0 ip)), r)
      | EmptyString => Ok (JInt (signed (digits_value 0 ip)), r)
      end
  end.

Definition hex_value (c : ascii) : option N :=
  let n := N_of_ascii c in
  if ((48 <=? n) && (n <=? 57))%N then Some (n - 48)%N
  else if ((97 <=? n) && (n <=? 102))%N then Some (n - 87)%N
  else if ((65 <=? n) && (n <=? 70))%N then Some (n - 55)%N
  else None.

(** The value of four hexadecimal digits. *)
Definition hex_quad (h1 h2 h3 h4 : ascii) : option N :=
  match hex_value h1, hex_value h2, hex_value h3, hex_value h4 with
  | Some a, Some b, Some d, Some f => Some (((a * 16 + b) * 16 + d) * 16 + f)%N
  | _, _, _, _ => None
  end.

(** UTF-8 of a code point that is not a surrogate. *)
Definition utf8_encode (cp : N) : string :=
  (if cp <? 128 then str1 (ascii_of_N cp)
   else if cp <? 2048 then
     String (ascii_of_N (192 + cp / 64)) (str1 (ascii_of_N (128 + cp mod 64)))
   else if cp <? 65536 then
     String (ascii_of_N (224 + cp / 4096))
       (String (ascii_of_N (128 + (cp / 64) mod 64)) (str1 (ascii_of_N (128 + cp mod 64))))
   else
     String (ascii_of_N (240 + cp / 262144))
       (String (ascii_of_N (128 + (cp / 4096) mod 64))
         (String (ascii_of_N (128 + (cp / 64) mod 64)) (str1 (ascii_of_N (128 + cp mod 64))))))%N.

(** A high and a low surrogate, and the code point the pair stands for. *)
Definition high_surrogate (cp : N) : bool := ((55296 <=? cp) && (cp <=? 56319))%N.
Definition low_surrogate (cp : N) : bool := ((56320 <=? cp) && (cp <=? 57343))%N.
Definition join_surrogates (hi lo : N) : N := (65536 + (hi - 55296) * 1024 + (lo - 56320))%N.

Definition simple_escape (c : ascii) : option ascii :=
  let n := nat_of_ascii c in
  if (n =? 34) || (n =? 92) || (n =? 47) then Some c
  else if n =? 98 then Some (ascii_of_nat 8)
  else if n =? 102 then Some (ascii_of_nat 12)
  else if n =? 110 then Some (ascii_of_nat 10)
  else if n =? 114 then Some (ascii_of_nat 13)
  else if n =? 116 then Some (ascii_of_nat 9)
  else None.

(** The characters of a string up to its closing quote. *)
Fixpoint parse_str (s : string) : result (string * string) :=
  match s with
  | EmptyString => Raise JSONDecodeError
  | String c s1 =>
      if nat_of_ascii c =? 34 then Ok (EmptyString, s1)
      else if nat_of_ascii c =? 92 then
        match s1 with
        | EmptyString => Raise JSONDecodeError
        | String e s2 =>
            match simple_escape e with
            | Some c' => '(t, r) ← parse_str s2; Ok (String c' t, r)
            | None =>
                if nat_of_ascii e =? 117 then
                  match s2 with
                  | String h1 (String h2 (String h3 (String h4 s3))) =>
                      match hex_quad h1 h2 h3 h4 with
                      | None => Raise JSONDecodeError
                      | Some cp =>
                          if high_surrogate cp then
                            match s3 with
                            | String b (String u (String h5 (String h6 (String h7 (String h8 s4))))) =>
                                if (nat_of_ascii b =? 92) && (nat_of_ascii u =? 117) then
                                  match hex_quad h5 h6 h7 h8 with
                                  | None => Raise JSONDecodeError
                                  | Some lo =>
                                      if low_surrogate lo then
                                        '(t, r) ← parse_str s4;
                                        Ok (utf8_encode (join_surrogates cp lo) +:+ t, r)
                                      else Raise (Unmodelled "lone surrogate")
                                  end
                                else Raise (Unmodelled "lone surrogate")
                            | _ => Raise (Unmodelled "lone surrogate")
                            end
                          else if low_surrogate cp then Raise (Unmodelled "lone surrogate")
                          else '(t, r) ← parse_str s3; Ok (utf8_encode cp +:+ t, r)
                      end
                  | _ => Raise JSONDecodeError
                  end
                else Raise JSONDecodeError
            end
        end
      else if nat_of_ascii c <? 32 then Raise JSONDecodeError
      else '(t, r) ← parse_str s1; Ok (String c t, r)
  end.

(** The keyword [k] at the start of [s]: what follows it. *)
Fixpoint strip (k s : string) : option string :=
  match k, s with
  | EmptyString, _ => Some s
  | String a k', String b s' => if Ascii.eqb a b then strip k' s' else None
  | _, EmptyString => None
  end.

Definition parse_word (s : string) : result (json * string) :=
  match strip "null" s, strip "true" s, strip "false" s with
  | Some r, _, _ => Ok (JNull, r)
  | _, Some r, _ => Ok (JBool true, r)
  | _, _, Some r => Ok (JBool false, r)
  | _, _, _ =>
      match strip "NaN" s, strip "Infinity" s with
      | None, None => Raise JSONDecodeError
      | _, _ => Raise (Unmodelled "NaN or Infinity")
      end
  end.

(** [scan_once]: one value at the start of the text.  [parse_items] and
    [parse_members] read a list or dict after its first delimiter, the text
    starting at an item.  Every call consumes text, so the length is enough
    fuel. *)
Fixpoint parse_value (fuel : nat) (s : string) {struct fuel} : result (json * string) :=
  match fuel with
  | O => Raise (Unmodelled "nesting")
  | S fuel =>
      match s with
      | EmptyString => Raise JSONDecodeError
      | String c s' =>
          let n := nat_of_ascii c in
          if n =? 34 then '(t, r) ← parse_str s'; Ok (JStr t, r)
          else if n =? 91 then
            match skip_ws s' with
            | String c' r => if nat_of_ascii c' =? 93 then Ok (JList [], r)
                             else '(l, r') ← parse_items fuel (String c' r); Ok (JList l, r')
            | EmptyString => Raise JSONDecodeError
            end
          else if n =? 123 then
            match skip_ws s' with
            | String c' r => if nat_of_ascii c' =? 125 then Ok (JObj [], r)
                             else '(d, r') ← parse_members fuel (String c' r);
                                  Ok (JObj (merge [] d), r')
            | EmptyString => Raise JSONDecodeError
            end
          else if n =? 45 then
            match strip "Infinity" s' with
            | Some _ => Raise (Unmodelled "NaN or Infinity")
            | None => parse_number true s'
            end
          else if is_digit c then parse_number false s
          else parse_word s
      end
  end
with parse_items (fuel : nat) (s : string) {struct fuel} : result (list json * string) :=
  match fuel with
  | O => Raise (Unmodelled "nesting")
  | S fuel =>
      '(v, r) ← parse_value fuel s;
      match skip_ws r with
      | String c r' =>
          if nat_of_ascii c =? 93 then Ok ([v], r')
          else if nat_of_ascii c =? 44 then
            '(l, r'') ← parse_items fuel (skip_ws r'); Ok (v :: l, r'')
          else Raise JSONDecodeError
      | EmptyString => Raise JSONDecodeError
      end
  end
with parse_members (fuel : nat) (s : string) {struct fuel}
    : result (list (string * json) * string) :=
  match fuel with
  | O => Raise (Unmodelled "nesting")
  | S fuel =>
      match s with
      | String q s' =>
          if negb (nat_of_ascii q =? 34) then Raise JSONDecodeError
          else
            '(k, r) ← parse_str s';
            match skip_ws r with
            | String c r1 =>
                if negb (nat_of_ascii c =? 58) then Raise JSONDecodeError
                else
                  '(v, r2) ← parse_value fuel (skip_ws r1);
                  match skip_ws r2 with
                  | String c' r3 =>
                      if nat_of_ascii c' =? 125 then Ok ([(k, v)], r3)
                      else if nat_of_ascii c' =? 44 then
                        '(d, r4) ← parse_members fuel (skip_ws r3); Ok ((k, v) :: d, r4)
                      else Raise JSONDecodeError
                  | EmptyString => Raise JSONDecodeError
                  end
            | EmptyString => Raise JSONDecodeError
            end
      | EmptyString => Raise JSONDecodeError
      end
  end.

Definition json_loads (text : string) : result json :=
  let s := skip_ws text in
  '(v, r) ← parse_value (S (2 * String.length s)) s;
  match skip_ws r with
  | EmptyString => Ok v
  | _ => Raise JSONDecodeError
  end.

(** UTF-8 validity, as [read_text] with the utf-8 encoding demands it. *)
Fixpoint utf8_valid (s : string) : bool :=
  let cont c lo hi := let n := nat_of_ascii c in (lo <=? n) && (n <=? hi) in
  match s with
  | EmptyString => true
  | String c s1 =>
      let n := nat_of_ascii c in
      if n <? 128 then utf8_valid s1
      else match s1 with
      | EmptyString => false
      | String c1 s2 =>
          if (194 <=? n) && (n <=? 223) then cont c1 128 191 && utf8_valid s2
          else match s2 with
          | EmptyString => false
          | String c2 s3 =>
              if (224 <=? n) && (n <=? 239) then
                cont c1 (if n =? 224 then 160 else 128) (if n =? 237 then 159 else 191)
                && cont c2 128 191 && utf8_valid s3
              else match s3 with
              | EmptyString => false
              | String c3 s4 =>
                  (240 <=? n) && (n <=? 244)
                  && cont c1 (if n =? 240 then 144 else 128) (if n =? 244 then 143 else 191)
                  && cont c2 128 191 && cont c3 128 191 && utf8_valid s4
              end
          end
      end
  end.

(** * Lemmas *)

(** The canonical text, and so the hash, ignores the order of dict keys. *)
#[export] Instance canonical_json_proper : Proper ((≡) ==> (=)) _canonical_json.
Proof. intros v w H. unfold _canonical_json. by rewrite H. Qed.

#[export] Instance sha256_proper : Proper ((≡) ==> (=)) _sha256.
Proof. intros v w H. unfold _sha256. by rewrite H. Qed.
