(* ===== verification/JsonRoundtrip.v ===== *)
(** * Reading back what was printed

    [json_loads] inverts [_canonical_json]: the text determines the value up to
    the order of dict keys.  Hence two values with the same canonical text, the
    text that is hashed, are equivalent. *)

From stdpp Require Import base list strings numbers.
From Stdlib Require Import ZArith Lia Bool Ascii Decimal DecimalString DecimalPos DecimalFacts.
From S2P Require Import Prelude PyJson Sha256 JsonText.

(** The end of a value: the text ends, or a blank or separator follows. *)
Definition stop (rest : string) : bool :=
  match rest with
  | EmptyString => true
  | String c _ =>
      let n := nat_of_ascii c in is_ws c || (n =? 44) || (n =? 93) || (n =? 125)
  end.

Fixpoint all_ws (s : string) : bool :=
  match s with String c s' => is_ws c && all_ws s' | EmptyString => true end.

Fixpoint all_digits (s : string) : bool :=
  match s with String c s' => is_digit c && all_digits s' | EmptyString => true end.

(** The two spellings of a string: as it is, or with ASCII characters only. *)
Inductive quoting (s : string) : string -> Prop :=
| Q_raw : quoting s (quote s)
| Q_ascii : utf8_valid s = true -> quoting s (quote_ascii s).

(** The texts of a value: any amount of blanks between the tokens. *)
Inductive renders : json -> string -> Prop :=
| R_null : renders JNull "null"
| R_bool b : renders (JBool b) (if b then "true" else "false")
| R_int z : renders (JInt z) (show_Z z)
| R_dec m e : renders (JDec m e) (show_dec m e)
| R_str s q : quoting s q -> renders (JStr s) q
| R_nil w : all_ws w = true -> renders (JList []) ("[" +:+ w +:+ "]")
| R_list w l t : all_ws w = true -> renders_items l t -> renders (JList l) ("[" +:+ w +:+ t)
| R_empty w : all_ws w = true -> renders (JObj []) ("{" +:+ w +:+ "}")
| R_obj w d t : all_ws w = true -> renders_members d t -> renders (JObj d) ("{" +:+ w +:+ t)
with renders_items : list json -> string -> Prop :=
| RI_one v s w : renders v s -> all_ws w = true -> renders_items [v] (s +:+ w +:+ "]")
| RI_cons v s w w' l t :
    renders v s -> all_ws w = true -> all_ws w' = true -> renders_items l t ->
    renders_items (v :: l) (s +:+ w +:+ "," +:+ w' +:+ t)
with renders_members : list (string * json) -> string -> Prop :=
| RM_one k q v s w1 w2 w :
    quoting k q -> renders v s -> all_ws w1 = true -> all_ws w2 = true -> all_ws w = true ->
    renders_members [(k, v)] (q +:+ w1 +:+ ":" +:+ w2 +:+ s +:+ w +:+ "}")
| RM_cons k q v s w1 w2 w w' d t :
    quoting k q -> renders v s -> all_ws w1 = true -> all_ws w2 = true -> all_ws w = true ->
    all_ws w' = true -> renders_members d t ->
    renders_members ((k, v) :: d)
      (q +:+ w1 +:+ ":" +:+ w2 +:+ s +:+ w +:+ "," +:+ w' +:+ t).

Scheme renders_mut := Induction for renders Sort Prop
  with renders_items_mut := Induction for renders_items Sort Prop
  with renders_members_mut := Induction for renders_members Sort Prop.
Combined Scheme renders_ind3 from renders_mut, renders_items_mut, renders_members_mut.

(** * Lemmas *)

(** ** Strings *)

Lemma parse_str_char c t :
  parse_str (esc_char c +:+ t) = ('(x, r) ← parse_str t; Ok (String c x, r)).
Proof. destruct c as [[] [] [] [] [] [] [] []]; reflexivity. Qed.

Lemma parse_str_esc s rest : parse_str (esc s +:+ String dquote rest) = Ok (s, rest).
Proof.
  induction s as [|c s IH]; [done|]. cbn [esc]. rewrite append_assoc, parse_str_char, IH. done.
Qed.

(** *** The ASCII spelling *)

Lemma ascii_of_N_eq c n : n = N_of_ascii c -> ascii_of_N n = c.
Proof. intros ->. apply ascii_N_embedding. Qed.

Lemma hex_digit_value m : (m < 16)%N -> hex_value (hex_digit (N.to_nat m)) = Some m.
Proof.
  intros H. assert (m ∈ (N.of_nat <$> seq 0 16)) as Hin.
  { apply list_elem_of_fmap. exists (N.to_nat m). split; [lia|]. apply elem_of_seq. lia. }
  cbn in Hin. repeat (apply elem_of_cons in Hin as [->|Hin]; [reflexivity|]).
  by apply elem_of_nil in Hin.
Qed.

Lemma hex4_quad n : (n < 65536)%N ->
  exists h1 h2 h3 h4, hex4 n = String h1 (String h2 (String h3 (str1 h4))) /\
    hex_quad h1 h2 h3 h4 = Some n.
Proof.
  intros H. unfold hex4. do 4 eexists. split; [reflexivity|]. unfold hex_quad.
  rewrite !hex_digit_value by (apply N.mod_lt; lia). f_equal.
  pose proof (N.Div0.div_mod n 16). pose proof (N.Div0.div_mod (n / 16) 16).
  pose proof (N.Div0.div_mod (n / 256) 16). pose proof (N.Div0.div_mod (n / 4096) 16).
  replace (n / 256)%N with (n / 16 / 16)%N in * by (rewrite N.Div0.div_div; reflexivity).
  replace (n / 4096)%N with (n / 16 / 16 / 16)%N in * by (rewrite !N.Div0.div_div; reflexivity).
  rewrite N.div_1_r, (N.mod_small (n / 16 / 16 / 16)); [lia|].
  rewrite !N.Div0.div_div. apply N.Div0.div_lt_upper_bound. lia.
Qed.

Lemma high_surrogate_spec n : high_surrogate n = true <-> (55296 <= n <= 56319)%N.
Proof. unfold high_surrogate. rewrite andb_true_iff, !N.leb_le. lia. Qed.

Lemma low_surrogate_spec n : low_surrogate n = true <-> (56320 <= n <= 57343)%N.
Proof. unfold low_surrogate. rewrite andb_true_iff, !N.leb_le. lia. Qed.

(** One escape is read back as the UTF-8 of its code point. *)
Lemma parse_u_escape n t : (n < 65536)%N -> high_surrogate n = false -> low_surrogate n = false ->
  parse_str (u_escape n +:+ t) = ('(x, r) ← parse_str t; Ok (utf8_encode n +:+ x, r)).
Proof.
  intros H Hh Hl. destruct (hex4_quad n H) as (h1 & h2 & h3 & h4 & E & Hq).
  unfold u_escape. rewrite E, !append_cons. cbn [parse_str]. unfold str1.
  change (nat_of_ascii backslash =? 34) with false. change (nat_of_ascii backslash =? 92) with true.
  change (simple_escape "u") with (@None ascii). change (nat_of_ascii "u" =? 117) with true.
  cbn beta iota. rewrite append_cons. change (EmptyString +:+ t) with t.
  by rewrite Hq, Hh, Hl.
Qed.

Lemma parse_surrogates hi lo t : high_surrogate hi = true -> low_surrogate lo = true ->
  parse_str (u_escape hi +:+ u_escape lo +:+ t)
  = ('(x, r) ← parse_str t; Ok (utf8_encode (join_surrogates hi lo) +:+ x, r)).
Proof.
  intros Hh Hl. assert (hi < 65536 /\ lo < 65536)%N as [H1 H2].
  { apply high_surrogate_spec in Hh. apply low_surrogate_spec in Hl. lia. }
  destruct (hex4_quad hi H1) as (h1 & h2 & h3 & h4 & E & Hq).
  destruct (hex4_quad lo H2) as (h5 & h6 & h7 & h8 & E' & Hq').
  unfold u_escape. rewrite E, E', !append_cons. cbn [parse_str]. unfold str1.
  change (nat_of_ascii backslash =? 34) with false. change (nat_of_ascii backslash =? 92) with true.
  change (simple_escape "u") with (@None ascii). change (nat_of_ascii "u" =? 117) with true.
  cbn beta iota. rewrite !append_cons. change (EmptyString +:+ t) with t.
  change (EmptyString +:+ ?x) with x. cbn beta iota.
  rewrite Hq, Hh. change (nat_of_ascii backslash =? 92) with true.
  change (nat_of_ascii "u" =? 117) with true. cbn [andb]. by rewrite Hq', Hl.
Qed.

Lemma parse_esc_code n t : (n < 1114112)%N -> high_surrogate n = false -> low_surrogate n = false ->
  parse_str (esc_code n +:+ t) = ('(x, r) ← parse_str t; Ok (utf8_encode n +:+ x, r)).
Proof.
  intros H Hh Hl. unfold esc_code. destruct (N.ltb_spec n 65536); [by apply parse_u_escape|].
  cbv zeta. rewrite append_assoc. remember (n - 65536)%N as m eqn:Em.
  pose proof (N.Div0.div_mod m 1024). pose proof (N.mod_lt m 1024 ltac:(done)).
  assert (m / 1024 < 1024)%N by (apply N.Div0.div_lt_upper_bound; lia).
  pose proof (N.le_0_l (m mod 1024)). pose proof (N.le_0_l (m / 1024)).
  rewrite parse_surrogates; [|apply high_surrogate_spec; lia|apply low_surrogate_spec; lia].
  replace (join_surrogates _ _) with n; [done|]. unfold join_surrogates. lia.
Qed.

(** Goals on quotients and remainders by constants. *)
Ltac divmod := zify; Z.to_euclidean_division_equations; lia.

Ltac same_bytes :=
  unfold str1; repeat (apply (f_equal2 String); [apply ascii_of_N_eq; divmod|]); reflexivity.

(** The UTF-8 of a code point is the bytes it was taken from. *)
Lemma utf8_two c c1 n :
  (194 <= N_of_ascii c < 224)%N -> (128 <= N_of_ascii c1 < 192)%N ->
  n = (N_of_ascii c mod 32 * 64 + N_of_ascii c1 mod 64)%N ->
  utf8_encode n = String c (str1 c1) /\ (128 <= n < 2048)%N.
Proof.
  intros Hc H1 En.
  assert (n = (N_of_ascii c - 192) * 64 + (N_of_ascii c1 - 128))%N by divmod.
  split; [|lia]. unfold utf8_encode.
  rewrite (proj2 (N.ltb_ge n 128)), (proj2 (N.ltb_lt n 2048)) by lia. same_bytes.
Qed.

Lemma utf8_three c c1 c2 n :
  (224 <= N_of_ascii c < 240)%N -> (128 <= N_of_ascii c1 < 192)%N -> (128 <= N_of_ascii c2 < 192)%N ->
  (N_of_ascii c = 224 -> 160 <= N_of_ascii c1)%N -> (N_of_ascii c = 237 -> N_of_ascii c1 < 160)%N ->
  n = ((N_of_ascii c mod 16 * 64 + N_of_ascii c1 mod 64) * 64 + N_of_ascii c2 mod 64)%N ->
  utf8_encode n = String c (String c1 (str1 c2)) /\ (2048 <= n < 65536)%N /\
  ~ (55296 <= n <= 57343)%N.
Proof.
  intros Hc H1 H2 Hlo Hhi En.
  assert (n = ((N_of_ascii c - 224) * 64 + (N_of_ascii c1 - 128)) * 64 + (N_of_ascii c2 - 128))%N
    by divmod.
  split; [|lia]. unfold utf8_encode.
  rewrite (proj2 (N.ltb_ge n 128)), (proj2 (N.ltb_ge n 2048)), (proj2 (N.ltb_lt n 65536)) by lia.
  same_bytes.
Qed.

Lemma utf8_four c c1 c2 c3 n :
  (240 <= N_of_ascii c <= 244)%N -> (128 <= N_of_ascii c1 < 192)%N ->
  (128 <= N_of_ascii c2 < 192)%N -> (128 <= N_of_ascii c3 < 192)%N ->
  (N_of_ascii c = 240 -> 144 <= N_of_ascii c1)%N -> (N_of_ascii c = 244 -> N_of_ascii c1 < 144)%N ->
  n = (((N_of_ascii c mod 8 * 64 + N_of_ascii c1 mod 64) * 64 + N_of_ascii c2 mod 64) * 64
       + N_of_ascii c3 mod 64)%N ->
  utf8_encode n = String c (String c1 (String c2 (str1 c3))) /\ (65536 <= n < 1114112)%N.
Proof.
  intros Hc H1 H2 H3 Hlo Hhi En.
  assert (n = (((N_of_ascii c - 240) * 64 + (N_of_ascii c1 - 128)) * 64 + (N_of_ascii c2 - 128)) * 64
              + (N_of_ascii c3 - 128))%N by divmod.
  split; [|lia]. unfold utf8_encode.
  rewrite (proj2 (N.ltb_ge n 128)), (proj2 (N.ltb_ge n 2048)), (proj2 (N.ltb_ge n 65536)) by lia.
  same_bytes.
Qed.

Lemma cont_byte c lo hi :
  ((lo <=? nat_of_ascii c) && (nat_of_ascii c <=? hi)) = true ->
  (N.of_nat lo <= N_of_ascii c <= N.of_nat hi)%N.
Proof.
  unfold nat_of_ascii. intros [H1 H2]%andb_true_iff. apply Nat.leb_le in H1, H2. lia.
Qed.

(** The second byte of a sequence whose first byte narrows its range. *)
Lemma cont_byte2 c c1 lo lo' hi hi' a b :
  ((if nat_of_ascii c =? a then lo' else lo) <=? nat_of_ascii c1) &&
  (nat_of_ascii c1 <=? (if nat_of_ascii c =? b then hi' else hi)) = true ->
  (lo <= lo')%nat -> (hi' <= hi)%nat ->
  (N.of_nat lo <= N_of_ascii c1 <= N.of_nat hi)%N /\
  (N_of_ascii c = N.of_nat a -> N.of_nat lo' <= N_of_ascii c1)%N /\
  (N_of_ascii c = N.of_nat b -> N_of_ascii c1 <= N.of_nat hi')%N.
Proof.
  intros [H1 H2]%(cont_byte _ _ _) Hlo Hhi. unfold nat_of_ascii in *.
  destruct (Nat.eqb_spec (N.to_nat (N_of_ascii c)) a), (Nat.eqb_spec (N.to_nat (N_of_ascii c)) b); lia.
Qed.

(** A code point that is not a surrogate. *)
Lemma read_code n bytes t x r :
  utf8_encode n = bytes -> (n < 1114112)%N -> ~ (55296 <= n <= 57343)%N ->
  parse_str t = Ok (x, r) -> parse_str (esc_code n +:+ t) = Ok (bytes +:+ x, r).
Proof.
  intros <- H Hs Ht. rewrite parse_esc_code, Ht; [done|done|..]; apply not_true_iff_false;
    rewrite ?high_surrogate_spec, ?low_surrogate_spec; lia.
Qed.

Lemma parse_str_esc_ascii s rest :
  utf8_valid s = true -> parse_str (esc_ascii s +:+ String dquote rest) = Ok (s, rest).
Proof.
  remember (String.length s) as len eqn:Hn. revert s Hn.
  induction len as [len IH] using lt_wf_ind. intros s ->. destruct s as [|c s1]; [done|].
  assert (forall t, (String.length t < String.length (String c s1))%nat -> utf8_valid t = true ->
    parse_str (esc_ascii t +:+ String dquote rest) = Ok (t, rest)) as Hrec by (intros; by eapply IH).
  cbn [utf8_valid esc_ascii]. cbv zeta. clear IH.
  destruct (N.ltb_spec (N_of_ascii c) 127) as [Hc|Hc].
  { rewrite (proj2 (Nat.ltb_lt (nat_of_ascii c) 128)) by (unfold nat_of_ascii; lia).
    intros Hv. rewrite append_assoc, parse_str_char, Hrec; [done|cbn; lia|done]. }
  destruct (N.eqb_spec (N_of_ascii c) 127) as [E|E].
  { rewrite (proj2 (Nat.ltb_lt (nat_of_ascii c) 128)) by (unfold nat_of_ascii; lia).
    intros Hv. rewrite append_assoc.
    apply (read_code _ (str1 c)); [|lia|lia|apply Hrec; [cbn; lia|done]].
    rewrite <- (ascii_N_embedding c), E. reflexivity. }
  rewrite (proj2 (Nat.ltb_ge (nat_of_ascii c) 128)) by (unfold nat_of_ascii; lia).
  destruct s1 as [|c1 s2]; [done|].
  destruct ((194 <=? nat_of_ascii c) && (nat_of_ascii c <=? 223)) eqn:E2.
  { apply cont_byte in E2. rewrite (proj2 (N.ltb_lt _ 224)) by lia.
    intros [H1%cont_byte Hv]%andb_true_iff. rewrite append_assoc.
    destruct (utf8_two c c1 _ ltac:(lia) ltac:(lia) eq_refl) as [Eu Hb].
    apply (read_code _ _ _ _ _ Eu); [lia|lia|apply Hrec; [cbn; lia|done]]. }
  destruct s2 as [|c2 s3]; [done|].
  destruct ((224 <=? nat_of_ascii c) && (nat_of_ascii c <=? 239)) eqn:E3.
  { apply cont_byte in E3. rewrite (proj2 (N.ltb_ge _ 224)), (proj2 (N.ltb_lt _ 240)) by lia.
    intros [[H1 H2%cont_byte]%andb_true_iff Hv]%andb_true_iff. rewrite append_assoc.
    destruct (cont_byte2 _ _ _ _ _ _ _ _ H1 ltac:(lia) ltac:(lia)) as (H1r & Hlo & Hhi).
    destruct (utf8_three c c1 c2 _ ltac:(lia) ltac:(lia) ltac:(lia) ltac:(lia) ltac:(lia) eq_refl)
      as (Eu & Hb & Hs).
    apply (read_code _ _ _ _ _ Eu); [lia|lia|apply Hrec; [cbn; lia|done]]. }
  destruct s3 as [|c3 s4]; [done|].
  intros [[[[Hcc%cont_byte H1]%andb_true_iff H2%cont_byte]%andb_true_iff
    H3%cont_byte]%andb_true_iff Hv]%andb_true_iff.
  rewrite (proj2 (N.ltb_ge _ 224)), (proj2 (N.ltb_ge _ 240)), append_assoc by lia.
  destruct (cont_byte2 _ _ _ _ _ _ _ _ H1 ltac:(lia) ltac:(lia)) as (H1r & Hlo & Hhi).
  destruct (utf8_four c c1 c2 c3 _ ltac:(lia) ltac:(lia) ltac:(lia) ltac:(lia)
    ltac:(lia) ltac:(lia) eq_refl) as (Eu & Hb).
  apply (read_code _ _ _ _ _ Eu); [lia|lia|apply Hrec; [cbn; lia|done]].
Qed.

(** ** Digits *)

Lemma span_digits_app d rest :
  all_digits d = true -> match rest with String c _ => is_digit c = false | _ => True end ->
  span_digits (d +:+ rest) = (d, rest).
Proof.
  intros Hd Hr. induction d as [|c d IH]; cbn in *.
  - destruct rest as [|c rest]; [done|].
    change (EmptyString +:+ String c rest) with (String c rest). cbn [span_digits]. by rewrite Hr.
  - apply andb_true_iff in Hd as [Hc Hd]. rewrite append_cons. cbn [span_digits].
    by rewrite Hc, IH.
Qed.

Lemma all_digits_app s t : all_digits (s +:+ t) = all_digits s && all_digits t.
Proof. induction s as [|c s IH]; [done|]. rewrite append_cons. cbn. by rewrite IH, andb_assoc. Qed.

Lemma digits_value_app acc s t : digits_value acc (s +:+ t) = digits_value (digits_value acc s) t.
Proof. revert acc. induction s as [|c s IH]; intros acc; [done|]. apply IH. Qed.

Lemma digits_value_acc acc s :
  digits_value acc s = (acc * 10 ^ Z.of_nat (String.length s) + digits_value 0 s)%Z.
Proof.
  revert acc. induction s as [|c s IH]; intros acc.
  - cbn. lia.
  - cbn [digits_value String.length]. rewrite (IH (10 * acc + _)%Z), (IH (10 * 0 + _)%Z).
    rewrite Nat2Z.inj_succ, Z.pow_succ_r by lia. lia.
Qed.

Lemma digit_range c : is_digit c = true -> (48 <= nat_of_ascii c <= 57)%nat.
Proof. unfold is_digit. intros [H1%Nat.leb_le H2%Nat.leb_le]%andb_true_iff. lia. Qed.

Lemma digits_value_nonneg s : (0 <= digits_value 0 s)%Z.
Proof.
  induction s as [|c s IH]; [done|]. cbn [digits_value]. rewrite digits_value_acc.
  assert (0 <= 10 ^ Z.of_nat (String.length s))%Z by (apply Z.pow_nonneg; lia). nia.
Qed.

(** A number that does not start with [0] has few digits. *)
Lemma digits_value_lower c s :
  is_digit c = true -> nat_of_ascii c <> 48 ->
  (10 ^ Z.of_nat (String.length s) <= digits_value 0 (String c s))%Z.
Proof.
  intros Hc%digit_range Hn. cbn [digits_value]. rewrite digits_value_acc.
  pose proof (digits_value_nonneg s).
  assert (0 <= 10 ^ Z.of_nat (String.length s))%Z by (apply Z.pow_nonneg; lia).
  assert (1 <= Z.of_nat (nat_of_ascii c - 48))%Z by lia. nia.
Qed.

Lemma uint_digits u : all_digits (NilEmpty.string_of_uint u) = true.
Proof. induction u; cbn; auto. Qed.

Lemma uint_value_pos u p :
  digits_value (Z.pos p) (NilEmpty.string_of_uint u) = Z.pos (Pos.of_uint_acc u p).
Proof.
  revert p. induction u as [|u IH|u IH|u IH|u IH|u IH|u IH|u IH|u IH|u IH|u IH]; intros p;
    [done|..]; cbn [NilEmpty.string_of_uint digits_value Pos.of_uint_acc]; rewrite <- IH; f_equal;
    rewrite ?Pos2Z.inj_add, Pos2Z.inj_mul;
    match goal with |- context [Z.of_nat ?n] =>
      let v := eval vm_compute in (Z.of_nat n) in change (Z.of_nat n) with v end; lia.
Qed.

Lemma uint_value u : digits_value 0 (NilEmpty.string_of_uint u) = Z.of_N (Pos.of_uint u).
Proof.
  induction u as [|u IH|u IH|u IH|u IH|u IH|u IH|u IH|u IH|u IH|u IH]; [done|exact IH|..];
    cbn [NilEmpty.string_of_uint digits_value Pos.of_uint]; cbn [Z.of_N];
    rewrite <- uint_value_pos; reflexivity.
Qed.

(** What [show_Z] prints for a natural number. *)
Record numeral (z : Z) (s : string) : Prop := {
  num_digits : all_digits s = true;
  num_value : digits_value 0 s = z;
  num_head : exists c t, s = String c t /\ is_digit c = true /\
    (nat_of_ascii c = 48 -> t = EmptyString)
}.

Lemma pos_head p : exists c t, NilEmpty.string_of_uint (Pos.to_uint p) = String c t /\
  is_digit c = true /\ nat_of_ascii c <> 48.
Proof.
  assert (unorm (Pos.to_uint p) = Pos.to_uint p) as Hn.
  { rewrite <- Unsigned.to_of, Unsigned.of_to. done. }
  pose proof (Unsigned.to_uint_nonzero p) as Hz.
  assert (nzhead (Pos.to_uint p) <> Nil) as Hnz by (intros H%unorm_0; congruence).
  rewrite unorm_nzhead in Hn by done.
  destruct (Pos.to_uint p) as [|u|u|u|u|u|u|u|u|u|u]; [done| |do 2 eexists; repeat split; done..].
  by apply nzhead_nonzero in Hn.
Qed.

Lemma show_Z_pos p : numeral (Z.pos p) (show_Z (Z.pos p)).
Proof.
  assert (show_Z (Z.pos p) = NilEmpty.string_of_uint (Pos.to_uint p)) as ->.
  { unfold show_Z. cbn. pose proof (Unsigned.to_uint_nonnil p) as Hn. by destruct (Pos.to_uint p). }
  split.
  - apply uint_digits.
  - rewrite uint_value, Unsigned.of_to. done.
  - destruct (pos_head p) as (c & t & -> & Hc & Hn). exists c, t. done.
Qed.

Lemma show_Z_nat z : (0 <= z)%Z -> numeral z (show_Z z).
Proof.
  destruct z as [|p|p]; [|intros _; apply show_Z_pos|lia]. intros _. split; [done..|].
  exists "0"%char, EmptyString. done.
Qed.

Lemma show_Z_neg p : show_Z (Z.neg p) = String "-" (show_Z (Z.pos p)).
Proof. done. Qed.

(** ** Numbers *)

Lemma stop_spec rest :
  stop rest = true ->
  match rest with
  | EmptyString => True
  | String c _ => is_digit c = false /\ nat_of_ascii c <> 46 /\ nat_of_ascii c <> 69 /\
                  nat_of_ascii c <> 101
  end.
Proof.
  destruct rest as [|c rest]; [done|]. cbn [stop]. unfold is_digit, is_ws.
  generalize (nat_of_ascii c). intros n H. rewrite !orb_true_iff, !Nat.eqb_eq in H.
  split; [|lia]. apply andb_false_iff. rewrite !Nat.leb_gt. lia.
Qed.

(** The integer part of a numeral is read whole. *)
Lemma int_part_numeral z s rest :
  numeral z s -> match rest with String c _ => is_digit c = false | _ => True end ->
  int_part (s +:+ rest) = (s, rest).
Proof.
  intros [Hd Hv (c & t & -> & Hc & Hz)] Hr. unfold int_part.
  destruct (Nat.eqb_spec (nat_of_ascii c) 48) as [E|E].
  - rewrite (Hz E), append_cons. cbn beta iota. by rewrite E.
  - rewrite append_cons. cbn beta iota. rewrite (proj2 (Nat.eqb_neq _ _) E).
    rewrite <- append_cons. by apply span_digits_app.
Qed.

Lemma parse_number_int neg z s rest :
  numeral z s -> stop rest = true ->
  parse_number neg (s +:+ rest) = Ok (JInt (if neg then - z else z)%Z, rest).
Proof.
  intros Hn Hs. apply stop_spec in Hs. unfold parse_number.
  rewrite (int_part_numeral z) by first [done|destruct rest; [done|apply Hs]].
  destruct Hn as [Hd Hv (c & t & -> & Hc & Hz)]. cbn beta iota zeta.
  destruct rest as [|x rest]; [by rewrite Hv|]. destruct Hs as (_ & H46 & H69 & H101).
  destruct (span_digits rest) as [fp r'']. unfold starts_exp at 2.
  rewrite (proj2 (Nat.eqb_neq _ _) H46), (proj2 (Nat.eqb_neq _ _) H69), (proj2 (Nat.eqb_neq _ _) H101).
  cbn [andb orb]. by rewrite Hv.
Qed.

(** *** Decimals *)

Lemma zeros_digits n : all_digits (zeros n) = true.
Proof. by induction n. Qed.

Lemma zeros_length n : String.length (zeros n) = n.
Proof. induction n; [done|]. cbn. by f_equal. Qed.

Lemma zeros_value n : digits_value 0 (zeros n) = 0%Z.
Proof. by induction n. Qed.

Lemma numeral_length z s e :
  numeral z s -> (z < 10 ^ Z.of_nat e)%Z -> (1 <= e)%nat -> (String.length s <= e)%nat.
Proof.
  intros [_ Hv (c & t & -> & Hc & Hz)] Hlt He. cbn [String.length].
  destruct (Nat.eq_dec (nat_of_ascii c) 48) as [E|E]; [by rewrite (Hz E)|].
  pose proof (digits_value_lower c t Hc E) as Hlow. rewrite Hv in Hlow.
  assert (10 ^ Z.of_nat (String.length t) < 10 ^ Z.of_nat e)%Z as Hp by lia.
  apply Z.pow_lt_mono_r_iff in Hp; lia.
Qed.

(** The digits after the point. *)
Definition frac_part (a : Z) (e : nat) : string :=
  let frac := show_Z (a mod 10 ^ Z.of_nat e)%Z in zeros (e - String.length frac) +:+ frac.

Lemma frac_part_spec a e :
  (0 <= a)%Z -> (1 <= e)%nat ->
  all_digits (frac_part a e) = true /\ String.length (frac_part a e) = e /\
  digits_value 0 (frac_part a e) = (a mod 10 ^ Z.of_nat e)%Z.
Proof.
  intros Ha He. unfold frac_part.
  assert (0 < 10 ^ Z.of_nat e)%Z as Hp by (apply Z.pow_pos_nonneg; lia).
  pose proof (Z.mod_pos_bound a _ Hp) as Hm.
  pose proof (show_Z_nat _ (proj1 Hm)) as Hn.
  pose proof (numeral_length _ _ e Hn (proj2 Hm) He) as Hl.
  rewrite all_digits_app, zeros_digits, string_length_app, zeros_length, digits_value_app, zeros_value.
  destruct Hn as [-> -> _]. split; [done|]. split; [lia|done].
Qed.

Lemma norm_dec_id m e : (1 <= e)%nat -> ((e =? 1)%nat || negb (m mod 10 =? 0)%Z) = true ->
  norm_dec m e = (m, e).
Proof.
  intros He H. destruct e as [|[|e]]; [lia|done|]. cbn [norm_dec].
  cbn in H. destruct (m mod 10 =? 0)%Z; done.
Qed.

Lemma abs_mod10 m : (Z.abs m mod 10 =? 0)%Z = (m mod 10 =? 0)%Z.
Proof.
  destruct (Z.abs_spec m) as [[_ ->]|[_ ->]]; [done|].
  apply eq_true_iff_eq. rewrite !Z.eqb_eq. split; intros H.
  - apply Z.mod_divide in H; [|lia]. apply Z.mod_divide; [lia|]. by apply Z.divide_opp_r.
  - apply Z.mod_divide in H; [|lia]. apply Z.mod_divide; [lia|]. by apply Z.divide_opp_r in H.
Qed.

Lemma parse_number_dec (neg : bool) m e rest :
  shortest_dec m e = true -> short_dec m e = true -> neg = (m <? 0)%Z -> stop rest = true ->
  parse_number neg (show_Z (Z.abs m / 10 ^ Z.of_nat e) +:+ String "." (frac_part (Z.abs m) e +:+ rest))
  = Ok (JDec m e, rest).
Proof.
  intros [He%Nat.leb_le Hw]%andb_true_iff [Hlen%Nat.leb_le _]%andb_true_iff Hneg Hs.
  apply stop_spec in Hs. set (a := Z.abs m) in *.
  assert (0 < 10 ^ Z.of_nat e)%Z as Hp by (apply Z.pow_pos_nonneg; lia).
  assert (0 <= a / 10 ^ Z.of_nat e)%Z as Hq by (apply Z.div_pos; lia).
  pose proof (show_Z_nat _ Hq) as Hn. set (ip := show_Z (a / 10 ^ Z.of_nat e)%Z) in *.
  destruct (frac_part_spec a e ltac:(lia) He) as (Hfd & Hfl & Hfv).
  set (fp := frac_part a e) in *. unfold parse_number.
  rewrite (int_part_numeral _ _ _ Hn) by done. cbn beta iota zeta.
  rewrite (span_digits_app fp) by first [done|destruct rest; [done|apply Hs]].
  destruct Hn as [Hd Hv (c & t & Hip & _)].
  assert (starts_exp rest = false) as ->.
  { destruct rest as [|x rest]; [done|]. destruct Hs as (_ & _ & H69 & H101). unfold starts_exp.
    by rewrite (proj2 (Nat.eqb_neq _ _) H69), (proj2 (Nat.eqb_neq _ _) H101). }
  assert (digits_value 0 (ip +:+ fp) = a) as ->.
  { rewrite digits_value_app, Hv, digits_value_acc, Hfl, Hfv, Z.mul_comm.
    symmetry. apply Z.div_mod. lia. }
  assert (String.eqb fp EmptyString = false) as ->.
  { destruct fp; [|done]. cbn in Hfl. lia. }
  rewrite string_length_app, Hfl. rewrite (proj2 (Nat.ltb_ge _ _) Hlen).
  assert ((neg && (a =? 0)%Z) = false) as ->.
  { subst neg a. destruct (Z.ltb_spec m 0); [|done]. cbn. apply Z.eqb_neq. lia. }
  rewrite norm_dec_id by (subst a; rewrite ?abs_mod10; done).
  rewrite Hip. cbn beta iota. subst neg a.
  change ((nat_of_ascii ".") =? 46) with true. cbn [negb andb orb].
  do 3 f_equal. destruct (Z.ltb_spec m 0); lia.
Qed.

Lemma merge_nodup d acc : List.NoDup (keys acc ++ keys d) -> merge acc d = acc ++ d.
Proof.
  revert acc. induction d as [|[k v] d IH]; intros acc Hnd; cbn [merge fold_left fst snd].
  - by rewrite List.app_nil_r.
  - cbn [keys map fst] in Hnd. rewrite assoc_set_fresh.
    2:{ intros Hin. apply NoDup_remove_2 in Hnd. apply Hnd, in_app_iff. by left. }
    fold (merge (acc ++ [(k, v)]) d). rewrite IH; [by rewrite <- List.app_assoc|].
    unfold keys in *. rewrite map_app. cbn [map fst]. by rewrite <- List.app_assoc.
Qed.

(** ** Values *)

(** The compact printer of [_canonical_json]. *)
#[local] Abbreviation pr := (print "," ":").

Lemma print_dec m e :
  pr (JDec m e) = (if (m <? 0)%Z then "-" else EmptyString) +:+
    show_Z (Z.abs m / 10 ^ Z.of_nat e) +:+ String "." (frac_part (Z.abs m) e).
Proof. reflexivity. Qed.

Lemma numeral_head z s rest :
  numeral z s -> exists c t, s +:+ rest = String c t /\ is_digit c = true.
Proof.
  intros [_ _ (c & t & -> & Hc & _)]. exists c, (t +:+ rest). by rewrite append_cons.
Qed.

(** A value starts with a character that is neither blank nor a closing one. *)
Lemma digit_head c : is_digit c = true -> is_ws c = false /\ nat_of_ascii c <> 93.
Proof.
  intros H%digit_range. unfold is_ws. split; [|lia].
  rewrite !orb_false_iff, !Nat.eqb_neq. lia.
Qed.

Lemma div_pow_nonneg m e : (0 <= Z.abs m / 10 ^ Z.of_nat e)%Z.
Proof. apply Z.div_pos; [lia|]. apply Z.pow_pos_nonneg; lia. Qed.

Lemma print_head v :
  exists c t, pr v = String c t /\ is_ws c = false /\ nat_of_ascii c <> 93.
Proof.
  destruct v as [|[]|z|m e|s|l|d]; try by (do 2 eexists; split; [reflexivity|]; done).
  - destruct (Z.le_gt_cases 0 z) as [Hz|Hz].
    + destruct (numeral_head _ _ EmptyString (show_Z_nat z Hz)) as (c & t & E & Hc).
      rewrite append_nil_r in E. exists c, t. split; [exact E|by apply digit_head].
    + destruct z as [|p|p]; [lia|lia|]. do 2 eexists. by split; [apply show_Z_neg|].
  - rewrite print_dec.
    destruct (numeral_head _ _ (String "." (frac_part (Z.abs m) e))
      (show_Z_nat _ (div_pow_nonneg m e))) as (c & t & E & Hc). rewrite E.
    destruct (m <? 0)%Z; [by do 2 eexists|]. exists c, t. split; [done|by apply digit_head].
Qed.

Lemma skip_ws_head c t : is_ws c = false -> skip_ws (String c t) = String c t.
Proof. intros H. cbn. by rewrite H. Qed.

Lemma skip_ws_app w c t : all_ws w = true -> is_ws c = false -> skip_ws (w +:+ String c t) = String c t.
Proof.
  intros Hw Hc. induction w as [|x w IH]; [by apply skip_ws_head|].
  cbn in Hw. apply andb_true_iff in Hw as [Hx Hw]. rewrite append_cons. cbn [skip_ws].
  rewrite Hx. by apply IH.
Qed.

Lemma skip_ws_all w : all_ws w = true -> skip_ws w = EmptyString.
Proof.
  induction w as [|c w IH]; [done|]. cbn. intros [Hc Hw]%andb_true_iff. rewrite Hc. auto.
Qed.

Lemma stop_ws w c t : all_ws w = true -> stop (String c t) = true -> stop (w +:+ String c t) = true.
Proof.
  destruct w as [|x w]; [done|]. cbn [all_ws]. intros [Hx _]%andb_true_iff _.
  rewrite append_cons. cbn [stop]. by rewrite Hx.
Qed.

Lemma digit_value_dispatch fuel c t :
  is_digit c = true -> parse_value (S fuel) (String c t) = parse_number false (String c t).
Proof.
  intros Hc. pose proof (digit_range _ Hc). cbn [parse_value].
  rewrite (proj2 (Nat.eqb_neq _ 34)), (proj2 (Nat.eqb_neq _ 91)), (proj2 (Nat.eqb_neq _ 123)),
    (proj2 (Nat.eqb_neq _ 45)), Hc by lia. done.
Qed.

Lemma minus_dispatch fuel c t :
  is_digit c = true ->
  parse_value (S fuel) (String "-" (String c t)) = parse_number true (String c t).
Proof.
  intros Hc%digit_range.
  change (match (if Ascii.eqb "I" c then strip "nfinity" t else None) with
          | Some _ => Raise (Unmodelled "NaN or Infinity")
          | None => parse_number true (String c t)
          end = parse_number true (String c t)).
  destruct (Ascii.eqb_spec "I" c) as [<-|_]; [|done]. change (nat_of_ascii "I") with 73 in Hc. lia.
Qed.

Lemma read_int fuel z rest :
  stop rest = true -> parse_value (S fuel) (show_Z z +:+ rest) = Ok (JInt z, rest).
Proof.
  intros Hs. destruct (Z.le_gt_cases 0 z) as [Hz|Hz].
  - pose proof (show_Z_nat z Hz) as Hn. destruct (numeral_head _ _ rest Hn) as (c & t & E & Hc).
    rewrite E, digit_value_dispatch, <- E by done. by rewrite (parse_number_int false z).
  - destruct z as [|p|p]; [lia|lia|]. pose proof (show_Z_pos p) as Hn.
    destruct (numeral_head _ _ rest Hn) as (c & t & E & Hc).
    rewrite show_Z_neg, append_cons, E, minus_dispatch, <- E by done.
    by rewrite (parse_number_int true (Z.pos p)).
Qed.

Lemma read_dec fuel m e rest :
  wf_dec m e = true -> stop rest = true ->
  parse_value (S fuel) (show_dec m e +:+ rest) = Ok (JDec m e, rest).
Proof.
  intros [Hw Hsh]%andb_true_iff Hs. change (show_dec m e) with (pr (JDec m e)).
  rewrite print_dec, !append_assoc, append_cons.
  set (s := show_Z _ +:+ _).
  destruct (numeral_head _ _ (String "." (frac_part (Z.abs m) e +:+ rest))
    (show_Z_nat _ (div_pow_nonneg m e))) as (c & t & E & Hc).
  assert (s = String c t) as Es by exact E.
  pose proof (parse_number_dec (m <? 0)%Z m e rest Hw Hsh eq_refl Hs) as Hp.
  fold s in Hp. rewrite Es in *. destruct (m <? 0)%Z.
  - change ("-" +:+ String c t) with (String "-" (String c t)). by rewrite minus_dispatch.
  - change (EmptyString +:+ String c t) with (String c t). by rewrite digit_value_dispatch.
Qed.

(** Both spellings are read back. *)
Lemma quoting_app s q rest : quoting s q ->
  exists t, q +:+ rest = String dquote (t +:+ String dquote rest) /\
    parse_str (t +:+ String dquote rest) = Ok (s, rest).
Proof.
  destruct 1 as [|H]; eexists; unfold quote, quote_ascii; rewrite append_cons, append_assoc;
    (split; [reflexivity|]); [apply parse_str_esc|by apply parse_str_esc_ascii].
Qed.

Lemma read_str fuel s q rest :
  quoting s q -> parse_value (S fuel) (q +:+ rest) = Ok (JStr s, rest).
Proof.
  intros (t & -> & Hp)%(quoting_app _ _ rest). cbn [parse_value].
  change (nat_of_ascii dquote =? 34) with true. cbn beta iota zeta. by rewrite Hp.
Qed.

(** ** Heads of texts *)

Definition value_head (s : string) : Prop :=
  exists c t, s = String c t /\ is_ws c = false /\ nat_of_ascii c <> 93.

Lemma renders_head v s rest : renders v s -> value_head (s +:+ rest).
Proof.
  assert (forall s, value_head s -> value_head (s +:+ rest)) as Happ.
  { intros s' (c & t & -> & ? & ?). exists c, (t +:+ rest). by rewrite append_cons. }
  destruct 1; try by (apply Happ; do 2 eexists; split; [reflexivity|]; done).
  - apply Happ. destruct b; by do 2 eexists.
  - apply Happ, (print_head (JInt z)).
  - apply Happ, (print_head (JDec m e)).
  - destruct (quoting_app _ _ rest H) as (t & -> & _). by do 2 eexists.
Qed.

Lemma items_head l t rest : renders_items l t -> value_head (t +:+ rest).
Proof. destruct 1; rewrite append_assoc; by eapply renders_head. Qed.

Lemma members_head d t rest : renders_members d t -> exists t', t +:+ rest = String dquote t'.
Proof.
  destruct 1; rewrite append_assoc;
    match goal with |- context [_ +:+ ?r = _] =>
      match goal with H : quoting _ _ |- _ => destruct (quoting_app _ _ r H) as (? & -> & _) end end;
    eauto.
Qed.

(** ** Values *)

(** Tests of a literal character reduce. *)
Ltac eval_chars :=
  repeat match goal with
  | |- context [nat_of_ascii ?c =? ?n] =>
      let b := eval vm_compute in (nat_of_ascii c =? n) in
      lazymatch b with
      | true => change (nat_of_ascii c =? n) with true
      | false => change (nat_of_ascii c =? n) with false
      end
  end; cbn [negb]; cbn beta iota zeta.

Definition reads_value (v : json) (s : string) : Prop := forall fuel rest,
  wf_json v = true -> (2 * String.length s <= fuel)%nat -> stop rest = true ->
  parse_value fuel (s +:+ rest) = Ok (v, rest).

Definition reads_items (l : list json) (t : string) : Prop := forall fuel rest,
  forallb wf_json l = true -> (2 * String.length t <= fuel)%nat ->
  parse_items fuel (t +:+ rest) = Ok (l, rest).

Definition reads_members (d : list (string * json)) (t : string) : Prop := forall fuel rest,
  forallb (fun kv => match kv with (_, w) => wf_json w end) d = true ->
  (2 * String.length t <= fuel)%nat ->
  parse_members fuel (t +:+ rest) = Ok (d, rest).

Lemma value_head_length v s : renders v s -> (1 <= String.length s)%nat.
Proof.
  intros H. destruct (renders_head v s EmptyString H) as (c & t & E & _).
  rewrite append_nil_r in E. rewrite E. cbn. lia.
Qed.

Lemma read_list w l t :
  all_ws w = true -> renders_items l t -> reads_items l t -> reads_value (JList l) ("[" +:+ w +:+ t).
Proof.
  intros Hw Ht IH fuel rest Hwf Hf Hs. rewrite !string_length_app in Hf. cbn [String.length] in Hf.
  destruct fuel as [|fuel]; [lia|]. rewrite !append_assoc.
  change ("[" +:+ ?x) with (String "[" x). cbn [parse_value]. eval_chars.
  destruct (items_head l t rest Ht) as (c & t' & E & Hws & H93).
  rewrite E, skip_ws_app by done. rewrite (proj2 (Nat.eqb_neq _ _) H93), <- E.
  rewrite IH by (try done; lia). reflexivity.
Qed.

Lemma read_obj w d t :
  all_ws w = true -> renders_members d t -> reads_members d t ->
  reads_value (JObj d) ("{" +:+ w +:+ t).
Proof.
  intros Hw Ht IH fuel rest Hwf Hf Hs. rewrite !string_length_app in Hf. cbn [String.length] in Hf.
  cbn [wf_json] in Hwf. apply andb_true_iff in Hwf as [Hnd Hwf].
  destruct fuel as [|fuel]; [lia|]. rewrite !append_assoc.
  change ("{" +:+ ?x) with (String "{" x). cbn [parse_value]. eval_chars.
  destruct (members_head d t rest Ht) as (t' & E). rewrite E, skip_ws_app by done.
  eval_chars. rewrite <- E. rewrite IH by (try done; lia). cbn [mbind result_bind].
  rewrite (merge_nodup _ []); [done|]. by apply nodupb_spec.
Qed.

Lemma read_item v s w fuel c rest :
  reads_value v s -> wf_json v = true -> all_ws w = true -> is_ws c = false ->
  stop (String c rest) = true -> (2 * String.length s <= fuel)%nat ->
  parse_value fuel (s +:+ w +:+ String c rest) = Ok (v, w +:+ String c rest) /\
  skip_ws (w +:+ String c rest) = String c rest.
Proof.
  intros Hv Hwf Hw Hc Hs Hf. split; [|by apply skip_ws_app].
  apply Hv; [done|done|]. by apply stop_ws.
Qed.

Lemma read_key w1 w2 rest s :
  all_ws w1 = true -> all_ws w2 = true -> value_head (s +:+ rest) ->
  skip_ws (w1 +:+ ":" +:+ w2 +:+ s +:+ rest) = String ":" (w2 +:+ s +:+ rest) /\
  skip_ws (w2 +:+ s +:+ rest) = s +:+ rest.
Proof.
  intros H1 H2 (c & t & -> & Hc & _). split; [by apply skip_ws_app|by apply skip_ws_app].
Qed.

(** With fuel for a text of at least one character, one step can be taken. *)
Lemma reads_intro v s :
  renders v s ->
  (forall fuel rest, wf_json v = true -> stop rest = true ->
     parse_value (S fuel) (s +:+ rest) = Ok (v, rest)) ->
  reads_value v s.
Proof.
  intros Hr H fuel rest Hwf Hf Hs. apply value_head_length in Hr.
  destruct fuel as [|fuel]; [lia|auto].
Qed.

Lemma read_one v s w : reads_value v s -> all_ws w = true -> reads_items [v] (s +:+ w +:+ "]").
Proof.
  intros Hv Hw fuel rest Hwf Hf. rewrite !string_length_app in Hf. cbn [String.length] in Hf.
  cbn [forallb] in Hwf. rewrite andb_true_r in Hwf. destruct fuel as [|fuel]; [lia|].
  rewrite !append_assoc. change ("]" +:+ rest) with (String "]" rest).
  destruct (read_item v s w fuel "]" rest Hv Hwf Hw) as [H1 H2]; [done|done|lia|].
  cbn [parse_items]. rewrite H1. cbn [mbind result_bind]. by rewrite H2.
Qed.

Lemma read_cons v s w w' l t :
  reads_value v s -> all_ws w = true -> all_ws w' = true -> renders_items l t -> reads_items l t ->
  reads_items (v :: l) (s +:+ w +:+ "," +:+ w' +:+ t).
Proof.
  intros Hv Hw Hw' Ht Hl fuel rest Hwf Hf. rewrite !string_length_app in Hf.
  cbn [String.length] in Hf. cbn [forallb] in Hwf. apply andb_true_iff in Hwf as [Hwv Hwl].
  destruct fuel as [|fuel]; [lia|].
  rewrite !append_assoc. change ("," +:+ ?x) with (String "," x).
  destruct (read_item v s w fuel "," (w' +:+ t +:+ rest) Hv Hwv Hw) as [H1 H2]; [done|done|lia|].
  cbn [parse_items]. rewrite H1. cbn [mbind result_bind]. rewrite H2. eval_chars.
  destruct (items_head l t rest Ht) as (c & t' & E & Hc & _).
  rewrite E, skip_ws_app, <- E by done. rewrite Hl by (try done; lia). reflexivity.
Qed.

(** The first member of a text is read; [k] continues after its value. *)
Lemma read_member k q v s w1 w2 fuel after r :
  quoting k q -> renders v s -> all_ws w1 = true -> all_ws w2 = true ->
  parse_value fuel (s +:+ after) = Ok (v, r) ->
  parse_members (S fuel) (q +:+ w1 +:+ ":" +:+ w2 +:+ s +:+ after) =
  match skip_ws r with
  | String c' r3 =>
      if nat_of_ascii c' =? 125 then Ok ([(k, v)], r3)
      else if nat_of_ascii c' =? 44 then
        '(d, r4) ← parse_members fuel (skip_ws r3); Ok ((k, v) :: d, r4)
      else Raise JSONDecodeError
  | EmptyString => Raise JSONDecodeError
  end.
Proof.
  intros Hq Hv H1 H2 Hp.
  destruct (quoting_app _ _ (w1 +:+ ":" +:+ w2 +:+ s +:+ after) Hq) as (t & -> & E1).
  destruct (read_key w1 w2 after s H1 H2 (renders_head v s after Hv)) as (E2 & E3).
  cbn [parse_members]. eval_chars. rewrite E1. cbn [mbind result_bind]. rewrite E2. eval_chars.
  rewrite E3, Hp. reflexivity.
Qed.

Lemma read_one_member k q v s w1 w2 w :
  quoting k q -> renders v s -> reads_value v s -> all_ws w1 = true -> all_ws w2 = true -> all_ws w = true ->
  reads_members [(k, v)] (q +:+ w1 +:+ ":" +:+ w2 +:+ s +:+ w +:+ "}").
Proof.
  intros Hq Hr Hv H1 H2 Hw fuel rest Hwf Hf. rewrite !string_length_app in Hf.
  cbn [String.length] in Hf. cbn [forallb] in Hwf. rewrite andb_true_r in Hwf.
  destruct fuel as [|fuel]; [lia|]. rewrite !append_assoc.
  change ("}" +:+ rest) with (String "}" rest).
  destruct (read_item v s w fuel "}" rest Hv Hwf Hw) as [E1 E2]; [done|done|lia|].
  rewrite (read_member k q v s w1 w2 fuel _ _ Hq Hr H1 H2 E1), E2. reflexivity.
Qed.

Lemma read_cons_member k q v s w1 w2 w w' d t :
  quoting k q -> renders v s -> reads_value v s -> all_ws w1 = true -> all_ws w2 = true -> all_ws w = true ->
  all_ws w' = true -> renders_members d t -> reads_members d t ->
  reads_members ((k, v) :: d) (q +:+ w1 +:+ ":" +:+ w2 +:+ s +:+ w +:+ "," +:+ w' +:+ t).
Proof.
  intros Hq Hr Hv H1 H2 Hw Hw' Ht Hd fuel rest Hwf Hf. rewrite !string_length_app in Hf.
  cbn [String.length] in Hf. cbn [forallb] in Hwf. apply andb_true_iff in Hwf as [Hwv Hwd].
  destruct fuel as [|fuel]; [lia|]. rewrite !append_assoc.
  change (s +:+ w +:+ "," +:+ ?x) with (s +:+ w +:+ String "," x).
  destruct (read_item v s w fuel "," (w' +:+ t +:+ rest) Hv Hwv Hw) as [E1 E2]; [done|done|lia|].
  rewrite (read_member k q v s w1 w2 fuel _ _ Hq Hr H1 H2 E1), E2. eval_chars.
  destruct (members_head d t rest Ht) as (t' & E).
  rewrite E, skip_ws_app, <- E by done. rewrite Hd by (try done; lia). reflexivity.
Qed.

(** The reader inverts every layout. *)
Lemma read_back :
  (forall v s, renders v s -> reads_value v s) /\
  (forall l t, renders_items l t -> reads_items l t) /\
  (forall d t, renders_members d t -> reads_members d t).
Proof.
  apply renders_ind3; intros.
  - apply reads_intro; [constructor|done].
  - apply reads_intro; [constructor|]. by destruct b.
  - apply reads_intro; [constructor|]. intros. by apply read_int.
  - apply reads_intro; [constructor|]. intros. by apply read_dec.
  - apply reads_intro; [by constructor|]. intros. by apply read_str.
  - apply reads_intro; [by constructor|]. intros. rewrite !append_assoc.
    change ("[" +:+ ?x) with (String "[" x). change ("]" +:+ ?x) with (String "]" x).
    cbn [parse_value]. eval_chars. by rewrite skip_ws_app.
  - by apply read_list.
  - apply reads_intro; [by constructor|]. intros. rewrite !append_assoc.
    change ("{" +:+ ?x) with (String "{" x). change ("}" +:+ ?x) with (String "}" x).
    cbn [parse_value]. eval_chars. by rewrite skip_ws_app.
  - by apply read_obj.
  - by apply read_one.
  - by apply read_cons.
  - by apply read_one_member.
  - by apply read_cons_member.
Qed.

Lemma loads_text v s w :
  renders v s -> wf_json v = true -> all_ws w = true -> json_loads (s +:+ w) = Ok v.
Proof.
  intros Hr Hwf Hw. unfold json_loads.
  destruct (renders_head v s w Hr) as (c & t & E & Hc & _).
  rewrite E, skip_ws_head, <- E by done.
  rewrite (proj1 read_back v s Hr).
  - cbn [mbind result_bind]. by rewrite skip_ws_all.
  - done.
  - rewrite string_length_app. lia.
  - destruct w as [|x w]; [done|]. cbn in Hw |- *. apply andb_true_iff in Hw as [-> _]. done.
Qed.

(** ** The two printers *)

Lemma join_cons sep s t l : join sep (s :: t :: l) = s +:+ sep +:+ join sep (t :: l).
Proof. reflexivity. Qed.

Lemma items_render (f : json -> string) l w w' :
  Forall (fun v => renders v (f v)) l -> l <> [] -> all_ws w = true -> all_ws w' = true ->
  renders_items l (join ("," +:+ w') (map f l) +:+ w +:+ "]").
Proof.
  intros HF Hne Hw Hw'. induction HF as [|v l Hv HF IH]; [done|]. destruct l as [|v2 l].
  - by apply RI_one.
  - cbn [map]. rewrite join_cons, !append_assoc.
    apply (RI_cons v (f v) EmptyString w'); try done. by apply IH.
Qed.

Definition text_member (q : string -> string) (f : json -> string) (ksep : string)
    (kv : string * json) : string :=
  match kv with (k, v) => q k +:+ ksep +:+ f v end.

Lemma members_render (q : string -> string) (f : json -> string) d w w' w2 :
  Forall (fun kv => quoting (fst kv) (q (fst kv)) /\ renders (snd kv) (f (snd kv))) d -> d <> [] ->
  all_ws w = true -> all_ws w' = true -> all_ws w2 = true ->
  renders_members d (join ("," +:+ w') (map (text_member q f (":" +:+ w2)) d) +:+ w +:+ "}").
Proof.
  intros HF Hne Hw Hw' H2. induction HF as [|[k v] d [Hq Hv] HF IH]; [done|]. destruct d as [|kv2 d].
  - cbn [map join]. unfold text_member. rewrite !append_assoc.
    by apply (RM_one k (q k) v (f v) EmptyString w2 w).
  - cbn [map]. rewrite join_cons. unfold text_member at 1. rewrite !append_assoc.
    apply (RM_cons k (q k) v (f v) EmptyString w2 EmptyString w'); try done. by apply IH.
Qed.

Lemma print_renders v : renders v (pr v).
Proof.
  induction v as [|b|z|m e|s|l IH|d IH] using json_ind; [constructor..|by repeat constructor| |].
  - destruct l as [|v l]; [exact (R_nil EmptyString eq_refl)|].
    apply (R_list EmptyString); [done|].
    by apply (items_render (print "," ":") (v :: l) EmptyString EmptyString).
  - destruct d as [|kv d]; [exact (R_empty EmptyString eq_refl)|].
    apply (R_obj EmptyString); [done|].
    apply (members_render quote (print "," ":") (kv :: d) EmptyString EmptyString EmptyString);
      try done. eapply List.Forall_impl; [|exact IH]. intros kv' ?. split; [constructor|done].
Qed.

Lemma all_ws_spaces n : all_ws (String newline (spaces n)) = true.
Proof. cbn. by induction n. Qed.

Lemma print_indent_renders v lvl : renders v (print_indent lvl v).
Proof.
  revert lvl. induction v as [|b|z|m e|s|l IH|d IH] using json_ind; intros lvl;
    try (apply print_renders).
  - destruct l as [|v l]; [exact (R_nil EmptyString eq_refl)|]. cbn -[join map spaces].
    apply R_list; [apply all_ws_spaces|].
    apply (items_render (print_indent (S lvl)) (v :: l)); [|done|apply all_ws_spaces..].
    eapply List.Forall_impl; [|exact IH]. auto.
  - destruct d as [|kv d]; [exact (R_empty EmptyString eq_refl)|]. cbn -[join map spaces].
    apply R_obj; [apply all_ws_spaces|].
    apply (members_render quote (print_indent (S lvl)) (kv :: d) _ _ " ");
      [|done|apply all_ws_spaces..|done].
    eapply List.Forall_impl; [|exact IH]. intros kv' ?. split; [constructor|auto].
Qed.

(** What was written is read back. *)
Lemma loads_canonical v : wf_json v = true -> json_loads (_canonical_json v) = Ok (canon v).
Proof.
  intros H. rewrite <- (append_nil_r (_canonical_json v)).
  apply loads_text; [apply print_renders|by apply wf_canon|done].
Qed.

Lemma loads_payload v : wf_json v = true -> json_loads (registry_payload v) = Ok (canon v).
Proof. intros H. apply loads_text; [apply print_indent_renders|by apply wf_canon|done]. Qed.

(** The canonical text determines the value up to key order. *)
Lemma canonical_json_inj v w :
  wf_json v = true -> wf_json w = true -> _canonical_json v = _canonical_json w -> v ≡ w.
Proof.
  intros Hv Hw H. apply loads_canonical in Hv, Hw. rewrite H, Hw in Hv. by apply Ok_inj in Hv.
Qed.

(** ** The fuel of the reader is enough for every text *)

(** A reader that succeeds consumes text; one that fails does not fail for
    want of fuel. *)
Definition progress {A} (s : string) (res : result (A * string)) : Prop :=
  match res with
  | Ok (_, r) => (String.length r < String.length s)%nat
  | Raise e => e <> Unmodelled "nesting"
  end.

Lemma progress_bind {A B} (s : string) (res : result (A * string)) (f : A * string -> result (B * string)) :
  progress s res ->
  (forall a r, (String.length r < String.length s)%nat -> progress s (f (a, r))) ->
  progress s (res ≫= f).
Proof. destruct res as [[a r]|e]; cbn; auto. Qed.

Lemma progress_weaken {A} (s s' : string) (res : result (A * string)) :
  (String.length s <= String.length s')%nat -> progress s res -> progress s' res.
Proof. destruct res as [[a r]|e]; cbn; [lia|auto]. Qed.

Lemma skip_ws_length s : (String.length (skip_ws s) <= String.length s)%nat.
Proof. induction s as [|c s IH]; cbn; [lia|]. destruct (is_ws c); cbn; lia. Qed.

Lemma span_digits_length s d r :
  span_digits s = (d, r) -> (String.length d + String.length r = String.length s)%nat.
Proof.
  revert d r. induction s as [|c s IH]; intros d r H; cbn in H.
  - by injection H as <- <-.
  - destruct (is_digit c); [|by injection H as <- <-].
    destruct (span_digits s) as [d' r'] eqn:E. injection H as <- <-.
    cbn. by rewrite (IH _ _ eq_refl).
Qed.

Lemma strip_length k s r : strip k s = Some r -> (String.length k + String.length r = String.length s)%nat.
Proof.
  revert s. induction k as [|a k IH]; intros s H; cbn in H.
  - by injection H as <-.
  - destruct s as [|b s]; [done|]. destruct (Ascii.eqb a b); [|done]. cbn. by rewrite (IH _ H).
Qed.

Lemma parse_word_progress s : progress s (parse_word s).
Proof.
  unfold parse_word.
  destruct (strip "null" s) as [r|] eqn:E1; [apply strip_length in E1; cbn in *; lia|].
  destruct (strip "true" s) as [r|] eqn:E2; [apply strip_length in E2; cbn in *; lia|].
  destruct (strip "false" s) as [r|] eqn:E3; [apply strip_length in E3; cbn in *; lia|].
  destruct (strip "NaN" s), (strip "Infinity" s); done.
Qed.

Lemma int_part_length s ip r :
  int_part s = (ip, r) -> (String.length ip + String.length r = String.length s)%nat.
Proof.
  unfold int_part. destruct s as [|c s]; [by intros [= <- <-]|].
  destruct (nat_of_ascii c =? 48); [by intros [= <- <-]|apply span_digits_length].
Qed.

Lemma parse_number_progress neg s : progress s (parse_number neg s).
Proof.
  unfold parse_number. destruct (int_part s) as [ip r] eqn:E. apply int_part_length in E.
  destruct ip as [|c ip]; [done|]. cbn [String.length] in E.
  destruct r as [|dot r']; [cbn; lia|].
  destruct (span_digits r') as [fp r''] eqn:E'. apply span_digits_length in E'.
  cbn [String.length] in E.
  destruct (_ && _); [|destruct (starts_exp _); cbn; [done|lia]].
  destruct (starts_exp r''); [done|]. destruct (_ || _); [done|].
  destruct (norm_dec _ _) as [m e]. cbn. lia.
Qed.

Lemma parse_str_progress s : progress s (parse_str s).
Proof.
  remember (String.length s) as n eqn:Hn. revert s Hn.
  induction n as [n IH] using lt_wf_ind. intros s ->.
  destruct s as [|c s1]; [done|]. cbn [parse_str].
  destruct (nat_of_ascii c =? 34); [cbn; lia|].
  assert (forall s' (g : string -> string), (String.length s' < String.length (String c s1))%nat ->
    progress (String c s1) ('(t, r) ← parse_str s'; Ok (g t, r))) as Hrec.
  { intros s' g Hl. apply progress_bind; [|by intros a r Hr; cbn in *].
    eapply progress_weaken; [|by eapply IH]. lia. }
  destruct (nat_of_ascii c =? 92).
  - destruct s1 as [|e s2]; [done|]. destruct (simple_escape e) as [c'|].
    + apply (Hrec s2 (String c')). cbn. lia.
    + destruct (nat_of_ascii e =? 117); [|done].
      destruct s2 as [|h1 [|h2 [|h3 [|h4 s3]]]]; try done.
      destruct (hex_quad h1 h2 h3 h4) as [cp|]; [|done]. destruct (high_surrogate cp).
      * destruct s3 as [|b [|u [|h5 [|h6 [|h7 [|h8 s4]]]]]]; try done.
        destruct (_ && _); [|done]. destruct (hex_quad h5 h6 h7 h8) as [lo|]; [|done].
        destruct (low_surrogate lo); [|done].
        eapply (Hrec s4 (fun t => utf8_encode _ +:+ t)). cbn. lia.
      * destruct (low_surrogate cp); [done|].
        eapply (Hrec s3 (fun t => utf8_encode _ +:+ t)). cbn. lia.
  - destruct (nat_of_ascii c <? 32); [done|]. apply (Hrec s1 (String c)). cbn. lia.
Qed.

Lemma parse_progress fuel :
  (forall s, (2 * String.length s < fuel)%nat -> progress s (parse_value fuel s)) /\
  (forall s, (2 * String.length s + 1 < fuel)%nat -> progress s (parse_items fuel s)) /\
  (forall s, (2 * String.length s + 1 < fuel)%nat -> progress s (parse_members fuel s)).
Proof.
  induction fuel as [|fuel (IHv & IHi & IHm)]; [repeat split; intros; lia|]. repeat split.
  - intros [|c s] Hf; [done|]. cbn [String.length] in Hf. cbn [parse_value]. cbn zeta.
    pose proof (skip_ws_length s) as Hsk.
    destruct (nat_of_ascii c =? 34).
    { apply progress_bind; [|by intros a r Hr; cbn in *].
      eapply progress_weaken; [|apply parse_str_progress]. cbn. lia. }
    destruct (nat_of_ascii c =? 91).
    { destruct (skip_ws s) as [|c' r]; [done|]. cbn [String.length] in Hsk.
      destruct (nat_of_ascii c' =? 93); [cbn; lia|].
      apply progress_bind; [|by intros a r' Hr; cbn in *].
      eapply progress_weaken; [|apply IHi]; cbn; lia. }
    destruct (nat_of_ascii c =? 123).
    { destruct (skip_ws s) as [|c' r]; [done|]. cbn [String.length] in Hsk.
      destruct (nat_of_ascii c' =? 125); [cbn; lia|].
      apply progress_bind; [|by intros a r' Hr; cbn in *].
      eapply progress_weaken; [|apply IHm]; cbn; lia. }
    destruct (nat_of_ascii c =? 45).
    { destruct (strip "Infinity" s); [done|].
      eapply progress_weaken; [|apply parse_number_progress]. cbn. lia. }
    destruct (is_digit c); [apply parse_number_progress|apply parse_word_progress].
  - intros s Hf. cbn [parse_items]. apply progress_bind; [apply IHv; lia|]. intros v r Hr.
    pose proof (skip_ws_length r) as Hsk. destruct (skip_ws r) as [|c r']; [done|].
    cbn [String.length] in Hsk. destruct (nat_of_ascii c =? 93); [cbn; lia|].
    destruct (nat_of_ascii c =? 44); [|done]. pose proof (skip_ws_length r') as Hsk'.
    apply progress_bind; [|by intros a r2 Hr2; cbn in *].
    eapply progress_weaken; [|apply IHi]; lia.
  - intros [|q s] Hf; [done|]. cbn [String.length] in Hf. cbn [parse_members].
    destruct (negb _); [done|]. apply progress_bind.
    { eapply progress_weaken; [|apply parse_str_progress]. cbn. lia. }
    intros k r Hr. pose proof (skip_ws_length r) as Hsk. destruct (skip_ws r) as [|c r1]; [done|].
    cbn [String.length] in Hr, Hsk. destruct (negb _); [done|].
    pose proof (skip_ws_length r1) as Hsk1. apply progress_bind.
    { eapply progress_weaken; [|apply IHv]; cbn; lia. }
    intros v r2 Hr2. pose proof (skip_ws_length r2) as Hsk2.
    cbn [String.length] in Hr2. destruct (skip_ws r2) as [|c' r3]; [done|].
    cbn [String.length] in Hsk2. destruct (nat_of_ascii c' =? 125); [cbn; lia|].
    destruct (nat_of_ascii c' =? 44); [|done]. pose proof (skip_ws_length r3) as Hsk3.
    apply progress_bind; [|by intros a r4 Hr4; cbn in *].
    eapply progress_weaken; [|apply IHm]; cbn; lia.
Qed.

Lemma loads_has_fuel text : json_loads text <> Raise (Unmodelled "nesting").
Proof.
  unfold json_loads. set (s := skip_ws text).
  pose proof (proj1 (parse_progress (S (2 * String.length s))) s ltac:(lia)) as H.
  destruct (parse_value _ s) as [[v r]|e]; cbn in *; [|congruence].
  by destruct (skip_ws r).
Qed.
