(* ===== verification/PyText.v ===== *)
(** * Text and bytes

    The string and bytes methods the console code uses: [split], [splitlines],
    [strip], [rfind], slices, [decode("utf-8", "replace")], [int] and
    [json.dumps] with its default ASCII escapes.  A [str] is its UTF-8 bytes. *)

From stdpp Require Import base list strings numbers.
From Stdlib Require Import ZArith Lia Bool Ascii.
From S2P Require Import Prelude PyJson Sha256 JsonText JsonRoundtrip.

(** ** Lists *)

(** [l[-n:]] for [n >= 1] *)
Definition lastn {A} (n : nat) (l : list A) : list A := skipn (length l - n) l.

(** ** Pieces *)

(** [data.split(b"\n")]: always at least one piece. *)
Fixpoint split_nl (s : string) : list string :=
  match s with
  | EmptyString => [EmptyString]
  | String c s' =>
      if Ascii.eqb c newline then EmptyString :: split_nl s'
      else match split_nl s' with
           | [] => [str1 c]
           | p :: ps => String c p :: ps
           end
  end.

(** [data.count(b"\n")] *)
Fixpoint count_nl (s : string) : nat :=
  match s with
  | EmptyString => 0
  | String c s' => (if Ascii.eqb c newline then 1 else 0) + count_nl s'
  end.

(** ASCII white space, as [bytes.strip] sees it. *)
Definition is_space (c : ascii) : bool :=
  let n := nat_of_ascii c in (n =? 32) || ((9 <=? n) && (n <=? 13)).

(** [not line.strip()] *)
Fixpoint blank (s : string) : bool :=
  match s with String c s' => is_space c && blank s' | EmptyString => true end.

Definition nonblank (s : string) : bool := negb (blank s).

(** The text up to its last newline, the newline included, and what follows:
    [nl = s.rfind(b"\n")], [s[:nl + 1]] and [s[nl + 1:]], or [None] when there
    is no newline. *)
Fixpoint cut_last_nl (s : string) : option (string * string) :=
  match s with
  | EmptyString => None
  | String c s' =>
      match cut_last_nl s' with
      | Some (a, b) => Some (String c a, b)
      | None => if Ascii.eqb c newline then Some (str1 c, s') else None
      end
  end.

(** [f.seek(pos); f.read(len)] *)
Definition slice (pos len : Z) (s : string) : string :=
  String.substring (Z.to_nat pos) (Z.to_nat len) s.

(** [s.split(sep, 1)] for a one-character separator: what is before it and what
    is after it, if it occurs. *)
Fixpoint split_once (sep : ascii) (s : string) : string * option string :=
  match s with
  | EmptyString => (EmptyString, None)
  | String c s' =>
      if Ascii.eqb c sep then (EmptyString, Some s')
      else let '(a, b) := split_once sep s' in (String c a, b)
  end.

(** [s.split(sep)] *)
Fixpoint split_on (sep : ascii) (s : string) : list string :=
  match s with
  | EmptyString => [EmptyString]
  | String c s' =>
      if Ascii.eqb c sep then EmptyString :: split_on sep s'
      else match split_on sep s' with [] => [str1 c] | p :: ps => String c p :: ps end
  end.

(** The bytes of the white space character of [str] that the text starts with,
    0 if there is none: U+0009-000D, U+001C-0020, U+0085, U+00A0, U+1680,
    U+2000-200A, U+2028, U+2029, U+202F, U+205F and U+3000. *)
Definition space_bytes (s : string) : nat :=
  let b k := match String.get k s with Some c => nat_of_ascii c | None => 0 end in
  if (b 0 =? 32) || ((9 <=? b 0) && (b 0 <=? 13)) || ((28 <=? b 0) && (b 0 <=? 31)) then 1
  else if (b 0 =? 194) && ((b 1 =? 133) || (b 1 =? 160)) then 2
  else if (b 0 =? 225) && (b 1 =? 154) && (b 2 =? 128) then 3
  else if (b 0 =? 226) && (b 1 =? 128) &&
          (((128 <=? b 2) && (b 2 <=? 138)) || (b 2 =? 168) || (b 2 =? 169) || (b 2 =? 175)) then 3
  else if (b 0 =? 226) && (b 1 =? 129) && (b 2 =? 159) then 3
  else if (b 0 =? 227) && (b 1 =? 128) && (b 2 =? 128) then 3
  else 0.

(** [s.split()]: the runs of characters that are not white space; [skip] bytes
    of a white space character are still to be passed over. *)
Fixpoint split_ws (skip : nat) (s cur : string) : list string :=
  match s with
  | EmptyString => if String.eqb cur EmptyString then [] else [cur]
  | String c s' =>
      match skip with
      | S skip => split_ws skip s' cur
      | O =>
          match space_bytes s with
          | S skip =>
              if String.eqb cur EmptyString then split_ws skip s' EmptyString
              else cur :: split_ws skip s' EmptyString
          | O => split_ws 0 s' (cur +:+ str1 c)
          end
      end
  end.

(** [s.replace(c, "")] *)
Fixpoint remove_char (x : ascii) (s : string) : string :=
  match s with
  | EmptyString => EmptyString
  | String c s' => if Ascii.eqb c x then remove_char x s' else String c (remove_char x s')
  end.

(** [text.splitlines()]: the line boundaries of [str], "\r\n" being one. *)
Fixpoint splitlines (s cur : string) : list string :=
  match s with
  | EmptyString => if String.eqb cur EmptyString then [] else [cur]
  | String c s' =>
      let n := nat_of_ascii c in
      if n =? 13 then
        match s' with
        | String d s'' => if nat_of_ascii d =? 10 then cur :: splitlines s'' EmptyString
                          else cur :: splitlines s' EmptyString
        | EmptyString => [cur]
        end
      else if (n =? 10) || (n =? 11) || (n =? 12) || ((28 <=? n) && (n <=? 30)) then
        cur :: splitlines s' EmptyString
      else if n =? 194 then
        match s' with
        | String d s'' => if nat_of_ascii d =? 133 then cur :: splitlines s'' EmptyString
                          else splitlines s' (cur +:+ str1 c)
        | EmptyString => [cur +:+ str1 c]
        end
      else if n =? 226 then
        match s' with
        | String d (String e s'') =>
            if (nat_of_ascii d =? 128) && ((nat_of_ascii e =? 168) || (nat_of_ascii e =? 169))
            then cur :: splitlines s'' EmptyString
            else splitlines s' (cur +:+ str1 c)
        | _ => splitlines s' (cur +:+ str1 c)
        end
      else splitlines s' (cur +:+ str1 c)
  end.

(** ** Decoding *)

(** U+FFFD *)
Definition replacement : string :=
  String (ascii_of_nat 239) (String (ascii_of_nat 191) (str1 (ascii_of_nat 189))).

Definition byte_in (lo hi : nat) (c : ascii) : bool :=
  (lo <=? nat_of_ascii c) && (nat_of_ascii c <=? hi).

(** [data.decode("utf-8", "replace")]: a maximal valid prefix of a sequence that
    cannot be completed becomes one replacement character. *)
Fixpoint decode_replace (s : string) : string :=
  match s with
  | EmptyString => EmptyString
  | String c s1 =>
      let n := nat_of_ascii c in
      let lo1 := if n =? 224 then 160 else if n =? 240 then 144 else 128 in
      let hi1 := if n =? 237 then 159 else if n =? 244 then 143 else 191 in
      if n <? 128 then String c (decode_replace s1)
      else if negb ((194 <=? n) && (n <=? 244)) then replacement +:+ decode_replace s1
      else match s1 with
      | EmptyString => replacement
      | String c1 s2 =>
          if negb (byte_in lo1 hi1 c1) then replacement +:+ decode_replace s1
          else if n <=? 223 then String c (String c1 (decode_replace s2))
          else match s2 with
          | EmptyString => replacement
          | String c2 s3 =>
              if negb (byte_in 128 191 c2) then replacement +:+ decode_replace s2
              else if n <=? 239 then String c (String c1 (String c2 (decode_replace s3)))
              else match s3 with
              | EmptyString => replacement
              | String c3 s4 =>
                  if negb (byte_in 128 191 c3) then replacement +:+ decode_replace s3
                  else String c (String c1 (String c2 (String c3 (decode_replace s4))))
              end
          end
      end
  end.

(** ** [json.dumps] with its defaults *)

(** [json.dumps(v, separators=(isep, ksep))] *)
Fixpoint dumps (isep ksep : string) (v : json) : string :=
  match v with
  | JStr s => quote_ascii s
  | JList l => "[" +:+ join isep (map (dumps isep ksep) l) +:+ "]"
  | JObj d =>
      "{" +:+ join isep
        (map (fun kv => match kv with (k, w) => quote_ascii k +:+ ksep +:+ dumps isep ksep w end) d)
      +:+ "}"
  | _ => print isep ksep v
  end.

(** [json.dumps(v, indent=2)] *)
Fixpoint dumps_indent (lvl : nat) (v : json) : string :=
  let nl k := String newline (spaces (2 * k)) in
  match v with
  | JList [] => "[]"
  | JObj [] => "{}"
  | JList l =>
      "[" +:+ nl (S lvl) +:+ join ("," +:+ nl (S lvl)) (map (dumps_indent (S lvl)) l)
      +:+ nl lvl +:+ "]"
  | JObj d =>
      "{" +:+ nl (S lvl) +:+ join ("," +:+ nl (S lvl))
        (map (fun kv => match kv with (k, w) => quote_ascii k +:+ ": " +:+ dumps_indent (S lvl) w end) d)
      +:+ nl lvl +:+ "}"
  | _ => dumps ", " ": " v
  end.

(** Every text of a value is valid UTF-8: no lone surrogates. *)
Fixpoint utf8_json (v : json) : bool :=
  match v with
  | JStr s => utf8_valid s
  | JList l => forallb utf8_json l
  | JObj d => forallb (fun kv => match kv with (k, w) => utf8_valid k && utf8_json w end) d
  | _ => true
  end.

(** ** [int] of a text *)

Fixpoint strip_left (s : string) : string :=
  match s with String c s' => if is_space c then strip_left s' else s | EmptyString => s end.

Fixpoint strip_right (s : string) : string :=
  match s with
  | EmptyString => EmptyString
  | String c s' => if blank s then EmptyString else String c (strip_right s')
  end.

(** Digits, single underscores between them allowed; [prev] is whether a digit
    came just before. *)
Fixpoint int_digits (acc : Z) (prev : bool) (s : string) : option Z :=
  match s with
  | EmptyString => if prev then Some acc else None
  | String c s' =>
      if is_digit c then int_digits (10 * acc + Z.of_nat (nat_of_ascii c - 48)) true s'
      else if (nat_of_ascii c =? 95) && prev then int_digits acc false s'
      else None
  end.

(** [int(s)], [None] when it raises [ValueError]. *)
Definition py_int (s : string) : option Z :=
  match strip_right (strip_left s) with
  | EmptyString => None
  | String c s' as t =>
      if nat_of_ascii c =? 45 then Z.opp <$> int_digits 0 false s'
      else if nat_of_ascii c =? 43 then int_digits 0 false s'
      else int_digits 0 false t
  end.

(** [len(s)]: the bytes that do not continue a character. *)
Fixpoint char_count (s : string) : nat :=
  match s with
  | EmptyString => 0
  | String c s' => (if byte_in 128 191 c then 0 else 1) + char_count s'
  end.

(** [%-ns] *)
Definition pad_right (n : nat) (s : string) : string := s +:+ spaces (n - char_count s).

(** * Lemmas *)

(** Valid UTF-8 decodes to itself. *)
Lemma decode_valid s : utf8_valid s = true -> decode_replace s = s.
Proof.
  remember (String.length s) as n eqn:Hn. revert s Hn.
  induction n as [n IH] using lt_wf_ind. intros s ->. destruct s as [|c s1]; [done|].
  cbn [utf8_valid decode_replace]. set (k := nat_of_ascii c).
  assert (forall t, (String.length t < String.length (String c s1))%nat -> utf8_valid t = true ->
    decode_replace t = t) as Hrec by (intros; by eapply IH).
  destruct (k <? 128) eqn:E1; [intros H; rewrite Hrec; [done|cbn; lia|done]|].
  destruct s1 as [|c1 s2]; [done|].
  destruct ((194 <=? k) && (k <=? 223)) eqn:E2.
  { apply andb_true_iff in E2 as [L%Nat.leb_le U%Nat.leb_le]. intros [H1 H2]%andb_true_iff.
    replace ((194 <=? k) && (k <=? 244)) with true
      by (symmetry; apply andb_true_iff; rewrite !Nat.leb_le; lia). cbn [negb].
    rewrite !(proj2 (Nat.eqb_neq k _)) by lia. unfold byte_in.
    rewrite H1. cbn [negb]. rewrite (proj2 (Nat.leb_le k 223)) by lia.
    rewrite Hrec; [done|cbn; lia|done]. }
  destruct s2 as [|c2 s3]; [done|].
  destruct ((224 <=? k) && (k <=? 239)) eqn:E3.
  { apply andb_true_iff in E3 as [L%Nat.leb_le U%Nat.leb_le].
    intros [[H1 H2]%andb_true_iff H3]%andb_true_iff.
    replace ((194 <=? k) && (k <=? 244)) with true
      by (symmetry; apply andb_true_iff; rewrite !Nat.leb_le; lia). cbn [negb].
    rewrite (proj2 (Nat.eqb_neq k 240)), (proj2 (Nat.eqb_neq k 244)) by lia. unfold byte_in.
    rewrite H1. cbn [negb]. rewrite (proj2 (Nat.leb_gt k 223)) by lia. rewrite H2. cbn [negb].
    rewrite (proj2 (Nat.leb_le k 239)) by lia. rewrite Hrec; [done|cbn; lia|done]. }
  destruct s3 as [|c3 s4]; [done|]. rewrite !andb_true_iff, !Nat.leb_le.
  intros [[[[[L U] [H1a H1b]] [H2a H2b]] [H3a H3b]] H4].
  replace ((194 <=? k) && (k <=? 244)) with true
    by (symmetry; apply andb_true_iff; rewrite !Nat.leb_le; lia). cbn [negb].
  rewrite (proj2 (Nat.eqb_neq k 224)), (proj2 (Nat.eqb_neq k 237)) by lia. unfold byte_in.
  rewrite (proj2 (Nat.leb_le _ (nat_of_ascii c1)) H1a), (proj2 (Nat.leb_le (nat_of_ascii c1) _) H1b).
  rewrite (proj2 (Nat.leb_gt k 223)), (proj2 (Nat.leb_gt k 239)) by lia.
  rewrite !(proj2 (Nat.leb_le 128 _)), !(proj2 (Nat.leb_le _ 191)) by lia. cbn [negb andb].
  rewrite Hrec; [done|cbn; lia|done].
Qed.

(** ** Pieces *)

Lemma split_nl_cons s : exists p ps, split_nl s = p :: ps.
Proof.
  induction s as [|c s (p & ps & IH)]; cbn; [by exists EmptyString, []|].
  destruct (Ascii.eqb c newline); [by eexists _, _|]. rewrite IH. by eexists _, _.
Qed.

Lemma split_nl_length s : length (split_nl s) = S (count_nl s).
Proof.
  induction s as [|c s IH]; [done|]. cbn. destruct (Ascii.eqb c newline); cbn; [by rewrite IH|].
  destruct (split_nl_cons s) as (p & ps & E). rewrite E in *. done.
Qed.

(** Splitting a concatenation joins the piece across the seam. *)
Lemma split_nl_app s t P p d D :
  split_nl s = P ++ [p] -> split_nl t = d :: D -> split_nl (s +:+ t) = P ++ (p +:+ d) :: D.
Proof.
  intros Hs Ht. revert P p Hs. induction s as [|c s IH]; intros P p Hs.
  - cbn in Hs. destruct P as [|x P]; [|by destruct P].
    injection Hs as <-. exact Ht.
  - rewrite append_cons. cbn [split_nl] in *. destruct (Ascii.eqb c newline) eqn:E.
    + destruct P as [|x P]; [by destruct (split_nl_cons s) as (q & qs & E'); rewrite E' in Hs|].
      injection Hs as <- Hs. cbn. by rewrite (IH P p Hs).
    + destruct (split_nl_cons s) as (q & qs & E'). rewrite E' in Hs.
      destruct P as [|x P].
      * injection Hs as <- ->. rewrite (IH [] q E'). reflexivity.
      * injection Hs as <- ->. rewrite (IH (q :: P) p E'). reflexivity.
Qed.

Lemma split_nl_last s : exists P p, split_nl s = P ++ [p].
Proof.
  destruct (split_nl_cons s) as (p & ps & ->). destruct (exists_last (l := p :: ps)) as (P & q & E);
    [done|]. eauto.
Qed.

Lemma lastn_app {A} n (l l' : list A) : (n <= length l')%nat -> lastn n (l ++ l') = lastn n l'.
Proof.
  intros H. unfold lastn. rewrite length_app, skipn_app.
  rewrite skipn_all2 by lia. cbn. f_equal. lia.
Qed.

Lemma lastn_all {A} n (l : list A) : (length l <= n)%nat -> lastn n l = l.
Proof. intros H. unfold lastn. by replace (length l - n) with 0 by lia. Qed.

(** ** ASCII texts need no further escape *)

(** Decoding gives valid text. *)
Lemma decode_replace_valid s : utf8_valid (decode_replace s) = true.
Proof.
  remember (String.length s) as n eqn:Hn. revert s Hn.
  induction n as [n IH] using lt_wf_ind. intros s ->. destruct s as [|c s1]; [done|].
  assert (forall t, (String.length t < String.length (String c s1))%nat ->
    utf8_valid (decode_replace t) = true) as Hrec by (intros; by eapply IH). clear IH.
  assert (forall t, utf8_valid (replacement +:+ t) = utf8_valid t) as Hrep by done.
  cbn [decode_replace]. cbv zeta. set (k := nat_of_ascii c).
  destruct (k <? 128) eqn:E1; [cbn [utf8_valid]; fold k; rewrite E1; apply Hrec; cbn; lia|].
  destruct ((194 <=? k) && (k <=? 244)) eqn:E2; cbn [negb].
  2:{ rewrite Hrep. apply Hrec. cbn. lia. }
  apply andb_true_iff in E2 as [E2%Nat.leb_le E2'%Nat.leb_le].
  destruct s1 as [|c1 s2]; [done|]. unfold byte_in.
  match goal with |- context [negb ?b] => destruct b eqn:H1 end; cbn [negb].
  2:{ rewrite Hrep. apply Hrec. cbn. lia. }
  destruct (k <=? 223) eqn:E3.
  { cbn [utf8_valid]. fold k. rewrite E1, (proj2 (Nat.leb_le 194 k)), E3 by done. cbn [andb].
    apply Nat.leb_le in E3.
    destruct (Nat.eqb_spec k 224), (Nat.eqb_spec k 240), (Nat.eqb_spec k 237), (Nat.eqb_spec k 244);
      try lia. rewrite H1. apply Hrec. cbn. lia. }
  apply Nat.leb_gt in E3. destruct s2 as [|c2 s3]; [done|].
  destruct ((128 <=? nat_of_ascii c2) && (nat_of_ascii c2 <=? 191)) eqn:H2; cbn [negb].
  2:{ rewrite Hrep. apply Hrec. cbn. lia. }
  destruct (k <=? 239) eqn:E4.
  { cbn [utf8_valid]. fold k.
    rewrite E1, (proj2 (Nat.leb_gt k 223)), andb_false_r, (proj2 (Nat.leb_le 224 k)), E4 by lia.
    apply Nat.leb_le in E4. cbn [andb]. rewrite H2, (Hrec s3) by (cbn; lia).
    destruct (Nat.eqb_spec k 240), (Nat.eqb_spec k 244); try lia.
    rewrite H1. done. }
  apply Nat.leb_gt in E4. destruct s3 as [|c3 s4]; [done|].
  destruct ((128 <=? nat_of_ascii c3) && (nat_of_ascii c3 <=? 191)) eqn:H3; cbn [negb].
  2:{ rewrite Hrep. apply Hrec. cbn. lia. }
  cbn [utf8_valid]. fold k.
  rewrite E1, (proj2 (Nat.leb_gt k 223)), andb_false_r, (proj2 (Nat.leb_gt k 239)), andb_false_r by lia.
  rewrite (proj2 (Nat.leb_le 240 k)), (proj2 (Nat.leb_le k 244)), H2, H3, (Hrec s4) by (cbn; lia).
  destruct (Nat.eqb_spec k 224), (Nat.eqb_spec k 237); try lia.
  cbn [andb]. rewrite H1. done.
Qed.

(** ** The text of [json.dumps] *)

Lemma utf8_items_quoting (f : json -> string) d :
  forallb (fun kv => match kv with (k, w) => utf8_valid k && utf8_json w end) d = true ->
  Forall (fun kv => utf8_json (snd kv) = true -> renders (snd kv) (f (snd kv))) d ->
  Forall (fun kv => quoting (fst kv) (quote_ascii (fst kv)) /\ renders (snd kv) (f (snd kv))) d.
Proof.
  induction d as [|[k w] d IH]; intros H HF; constructor; inversion_clear HF as [|? ? Hw HF'];
    cbn [forallb] in H; apply andb_true_iff in H as [[Hk Hw']%andb_true_iff Hd]; [|by apply IH].
  split; [by constructor|by apply Hw].
Qed.

Lemma utf8_list_renders (f : json -> string) l :
  forallb utf8_json l = true -> Forall (fun v => utf8_json v = true -> renders v (f v)) l ->
  Forall (fun v => renders v (f v)) l.
Proof.
  induction l as [|v l IH]; intros H HF; constructor; inversion_clear HF as [|? ? Hv HF'];
    cbn [forallb] in H; apply andb_true_iff in H as [Hv' Hl]; [by apply Hv|by apply IH].
Qed.

Lemma dumps_renders w' w2 v :
  all_ws w' = true -> all_ws w2 = true -> utf8_json v = true ->
  renders v (dumps ("," +:+ w') (":" +:+ w2) v).
Proof.
  intros Hw' Hw2. induction v as [|b|z|m e|s|l IH|d IH] using json_ind; intros Hu;
    [exact R_null|exact (R_bool b)|exact (R_int z)|exact (R_dec m e)|by apply R_str, Q_ascii| |].
  - destruct l as [|v l]; [exact (R_nil EmptyString eq_refl)|].
    apply (R_list EmptyString); [done|].
    apply (items_render (dumps ("," +:+ w') (":" +:+ w2)) (v :: l) EmptyString w'); try done.
    by apply utf8_list_renders.
  - destruct d as [|kv d]; [exact (R_empty EmptyString eq_refl)|].
    apply (R_obj EmptyString); [done|].
    apply (members_render quote_ascii (dumps ("," +:+ w') (":" +:+ w2)) (kv :: d) EmptyString w' w2);
      try done. by apply utf8_items_quoting.
Qed.

Lemma dumps_indent_renders v lvl : utf8_json v = true -> renders v (dumps_indent lvl v).
Proof.
  revert lvl. induction v as [|b|z|m e|s|l IH|d IH] using json_ind; intros lvl Hu;
    try (by apply (dumps_renders " " " ")).
  - destruct l as [|v l]; [exact (R_nil EmptyString eq_refl)|]. cbn -[join map spaces].
    apply R_list; [apply all_ws_spaces|].
    apply (items_render (dumps_indent (S lvl)) (v :: l)); [|done|apply all_ws_spaces..].
    apply utf8_list_renders; [done|]. eapply List.Forall_impl; [|exact IH]. auto.
  - destruct d as [|kv d]; [exact (R_empty EmptyString eq_refl)|]. cbn -[join map spaces].
    apply R_obj; [apply all_ws_spaces|].
    apply (members_render quote_ascii (dumps_indent (S lvl)) (kv :: d) _ _ " ");
      [|done|apply all_ws_spaces..|done].
    apply utf8_items_quoting; [done|]. eapply List.Forall_impl; [|exact IH]. auto.
Qed.

(** [json.loads] inverts [json.dumps]. *)
Lemma loads_dumps w' w2 v :
  all_ws w' = true -> all_ws w2 = true -> utf8_json v = true -> wf_json v = true ->
  json_loads (dumps ("," +:+ w') (":" +:+ w2) v) = Ok v.
Proof.
  intros. rewrite <- (append_nil_r (dumps _ _ _)).
  apply loads_text; [by apply dumps_renders|done|done].
Qed.

Lemma loads_dumps_indent v :
  utf8_json v = true -> wf_json v = true -> json_loads (dumps_indent 0 v) = Ok v.
Proof.
  intros. rewrite <- (append_nil_r (dumps_indent _ _)).
  apply loads_text; [by apply dumps_indent_renders|done|done].
Qed.
