(* ===== verification/Tail.v ===== *)
(** * The log tail of the console

    [file_size], [tail_lines] and [stream_new_lines] of dashboard_server.py.
    One pass of the code over the file is an observation: the size that
    [os.path.getsize] gave (or that it raised) and the bytes that opening the
    file gave (or that it raised); between two observations the file may change.
    The generator is a step on its two local variables. *)

From stdpp Require Import base list strings numbers.
From Stdlib Require Import ZArith Lia Bool Ascii.
From S2P Require Import Prelude PyJson Sha256 JsonText PyText.

Record observation := Observation {
  o_size : option Z;
  o_data : option string
}.

(** A file that does not change between the two calls. *)
Definition stable (content : string) : observation :=
  Observation (Some (Z.of_nat (String.length content))) (Some content).

(** [file_size] *)
Definition file_size (o : observation) : Z :=
  match o_size o with Some size => size | None => (-1)%Z end.

(** ** Backfill *)

Definition block : Z := 65536.

(** The loop of [tail_lines] reads blocks backwards from [pos]. *)
Fixpoint tail_loop (fuel : nat) (content : string) (n pos : Z) (data : string) : string :=
  match fuel with
  | O => data
  | S fuel =>
      if (0 <? pos)%Z && (Z.of_nat (count_nl data) <=? n)%Z then
        let read := Z.min block pos in
        let pos' := (pos - read)%Z in
        tail_loop fuel content n pos' (slice pos' read content +:+ data)
      else data
  end.

(** [tail_lines]: each pass moves [pos] back by a block or to the start. *)
Definition tail_lines (o : observation) (n : Z) : list string * Z :=
  let size := file_size o in
  if (size <=? 0)%Z || (n <=? 0)%Z then ([], Z.max size 0)
  else match o_data o with
  | None => ([], Z.max size 0)
  | Some content =>
      let data := tail_loop (S (Z.to_nat (size / block + 1))) content n size EmptyString in
      let lines := List.filter nonblank (split_nl data) in
      (map decode_replace (lastn (Z.to_nat n) lines), size)
  end.

(** ** Live tail *)

(** The lines of a text that ends in a newline. *)
Definition yielded (complete : string) : list (option string) :=
  map (fun ln => Some (decode_replace ln)) (List.filter nonblank (split_nl complete)).

(** One pass of the loop of [stream_new_lines]: the new [pos] and [pending], and
    what is yielded, [None] being an idle tick. *)
Definition stream_step (st : Z * string) (o : observation)
    : (Z * string) * list (option string) :=
  let size := file_size o in
  if (size <? 0)%Z then (st, [None])
  else
    let '(pos, pending) := if (size <? fst st)%Z then (0%Z, EmptyString) else st in
    if (pos <? size)%Z then
      match o_data o with
      | None => ((pos, pending), [None])
      | Some content =>
          let pending := pending +:+ slice pos (size - pos) content in
          match cut_last_nl pending with
          | Some (complete, rest) => ((size, rest), yielded complete)
          | None => ((size, pending), [None])
          end
      end
    else ((pos, pending), [None]).

Fixpoint stream_run (st : Z * string) (os : list observation)
    : (Z * string) * list (option string) :=
  match os with
  | [] => (st, [])
  | o :: os' =>
      let '(st', out) := stream_step st o in
      let '(st'', out') := stream_run st' os' in
      (st'', out ++ out')
  end.

(** [stream_new_lines(path, start_pos)] over a sequence of observations. *)
Definition stream_new_lines (start_pos : Z) (os : list observation) : list (option string) :=
  snd (stream_run (start_pos, EmptyString) os).

(** ** What they should give *)

(** The last line of a text, which no newline ends. *)
Definition last_piece (s : string) : string := List.last (split_nl s) EmptyString.

(** The lines that a newline ends and that are not blank. *)
Definition complete_lines (s : string) : list string :=
  List.filter nonblank (removelast (split_nl s)).

(** The lines a client is sent, ticks dropped. *)
Definition lines_of (out : list (option string)) : list string :=
  flat_map (fun x => match x with Some l => [l] | None => [] end) out.

(** * Lemmas *)

(** ** Slices *)

Lemma substring_all s : String.substring 0 (String.length s) s = s.
Proof. induction s as [|c s IH]; [done|]. cbn. by rewrite IH. Qed.


Lemma substring_skip a b s : String.substring (String.length a) b (a +:+ s) = String.substring 0 b s.
Proof. induction a as [|c a IH]; [done|]. rewrite append_cons. exact IH. Qed.

Lemma substring_prefix s t : String.substring 0 (String.length s) (s +:+ t) = s.
Proof. induction s as [|c s IH]; [by destruct t|]. rewrite append_cons. cbn. by rewrite IH. Qed.

(** A text cut at a position. *)
Lemma string_cut k s : (k <= String.length s)%nat ->
  exists a b, s = a +:+ b /\ String.length a = k.
Proof.
  revert s. induction k as [|k IH]; intros s H; [by exists EmptyString, s|].
  destruct s as [|c s]; [cbn in H; lia|]. cbn in H.
  destruct (IH s ltac:(lia)) as (a & b & -> & <-). by exists (String c a), b.
Qed.

(** ** The backward loop *)

(** What the loop has read is a suffix of the file. *)
Lemma tail_loop_suffix fuel content n pos pre data :
  content = pre +:+ data -> pos = Z.of_nat (String.length pre) ->
  (pos <= Z.of_nat fuel * block)%Z ->
  exists pre' data', content = pre' +:+ data' /\ tail_loop fuel content n pos data = data' /\
    (pre' = EmptyString \/ (n < Z.of_nat (count_nl data'))%Z).
Proof.
  revert pos pre data. induction fuel as [|fuel IH]; intros pos pre data Hc Hp Hf.
  { exists pre, data. split; [done|]. split; [done|]. left. destruct pre; [done|]. cbn in Hp. lia. }
  cbn [tail_loop]. destruct (Z.ltb_spec 0 pos) as [H0|H0]; cbn [andb].
  2:{ exists pre, data. split; [done|]. split; [done|]. left. destruct pre; [done|]. cbn in Hp. lia. }
  destruct (Z.leb_spec (Z.of_nat (count_nl data)) n) as [Hn|Hn].
  2:{ exists pre, data. split; [done|]. split; [done|]. by right. }
  set (read := Z.min block pos).
  assert (0 < read <= pos)%Z as Hr by (unfold read, block; lia).
  destruct (string_cut (Z.to_nat (pos - read)) pre) as (a & b & Hab & Ha); [lia|].
  subst pre. rewrite string_length_app in Hp.
  assert (slice (pos - read) read content = b) as ->.
  { unfold slice. rewrite Hc, append_assoc, <- Ha, substring_skip.
    replace (Z.to_nat read) with (String.length b) by lia. apply substring_prefix. }
  apply (IH _ a).
  - by rewrite Hc, append_assoc.
  - lia.
  - unfold read, block in *. lia.
Qed.

(** ** Pieces *)

Lemma filter_length_ge {A} (f : A -> bool) (l : list A) x :
  forallb f l = true -> (length l <= length (List.filter f (l ++ [x])))%nat.
Proof.
  intros H. rewrite List.filter_app, length_app.
  assert (List.filter f l = l) as ->; [|lia].
  induction l as [|y l IH]; [done|]. cbn in *. apply andb_true_iff in H as [-> H]. by rewrite IH.
Qed.

(** The last lines of a suffix with enough newlines are those of the text, when
    no line is blank. *)
Lemma lastn_suffix pre data n :
  forallb nonblank (removelast (split_nl (pre +:+ data))) = true ->
  (n < count_nl data)%nat ->
  lastn n (List.filter nonblank (split_nl (pre +:+ data)))
  = lastn n (List.filter nonblank (split_nl data)).
Proof.
  intros Hd Hn. destruct (split_nl_last pre) as (P & p & Hp).
  destruct (split_nl_cons data) as (d & D & Hdata). pose proof (split_nl_length data) as Hl.
  rewrite Hdata in Hl. cbn in Hl. rewrite (split_nl_app _ _ _ _ _ _ Hp Hdata) in *. rewrite Hdata.
  destruct (exists_last (l := D)) as (Q & q & ->); [by destruct D; cbn in *; [lia|]|].
  rewrite length_app in Hl. cbn in Hl.
  assert (forallb nonblank Q = true) as HQ.
  { replace (P ++ (p +:+ d) :: Q ++ [q]) with ((P ++ (p +:+ d) :: Q) ++ [q]) in Hd
      by (by rewrite <- app_assoc). rewrite removelast_last, forallb_app in Hd.
    apply andb_true_iff in Hd as [_ Hd]. cbn in Hd. by apply andb_true_iff in Hd as [_ Hd]. }
  pose proof (filter_length_ge nonblank Q q HQ) as Hge.
  replace (P ++ (p +:+ d) :: Q ++ [q]) with ((P ++ [p +:+ d]) ++ (Q ++ [q]))
    by (by rewrite <- app_assoc).
  change (d :: Q ++ [q]) with ([d] ++ (Q ++ [q])).
  rewrite !(List.filter_app nonblank _ (Q ++ [q])), !lastn_app by lia. done.
Qed.

(** ** Backfill is the end of the file *)

(** No line of the file that a newline ends is blank. *)
Definition dense (content : string) : bool := forallb nonblank (removelast (split_nl content)).

Lemma tail_lines_eq content n :
  (0 < n)%Z -> dense content = true ->
  tail_lines (stable content) n =
  (map decode_replace (lastn (Z.to_nat n) (List.filter nonblank (split_nl content))),
   Z.of_nat (String.length content)).
Proof.
  intros Hn Hd. unfold tail_lines, file_size, stable. cbn [o_size o_data].
  set (size := Z.of_nat (String.length content)).
  rewrite (proj2 (Z.leb_gt n 0)) by lia. rewrite orb_false_r.
  destruct (Z.leb_spec size 0) as [H0|H0].
  { destruct content; [|cbn in size; lia]. reflexivity. }
  destruct (tail_loop_suffix (S (Z.to_nat (size / block + 1))) content n size content EmptyString)
    as (pre & data & Hc & -> & Hpre).
  - by rewrite append_nil_r.
  - done.
  - unfold block. pose proof (Z.div_mod size 65536 ltac:(lia)) as Hdm.
    pose proof (Z.mod_pos_bound size 65536 ltac:(lia)).
    assert (0 <= size / 65536)%Z by (apply Z.div_pos; lia). lia.
  - f_equal. f_equal. destruct Hpre as [->|Hcount]; [by subst content|]. subst content.
    symmetry. apply lastn_suffix; [exact Hd|lia].
Qed.

(** ** The live tail *)

Lemma split_no_nl s : count_nl s = 0 -> split_nl s = [s].
Proof.
  induction s as [|c s IH]; [done|]. cbn. destruct (Ascii.eqb c newline); [done|].
  intros H. by rewrite IH.
Qed.

(** Cutting at the last newline is dropping the last piece. *)
Lemma cut_last_nl_spec s :
  match cut_last_nl s with
  | Some (a, b) => exists p P, split_nl s = p :: P ++ [b] /\ split_nl a = p :: P ++ [EmptyString]
  | None => split_nl s = [s]
  end.
Proof.
  induction s as [|c s IH]; [done|]. cbn [cut_last_nl split_nl].
  destruct (cut_last_nl s) as [[a b]|].
  - destruct IH as (p & P & Hs & Ha). cbn [split_nl]. rewrite Hs, Ha.
    destruct (Ascii.eqb c newline); [by exists EmptyString, (p :: P)|by exists (String c p), P].
  - destruct (Ascii.eqb c newline) eqn:E; rewrite IH; [|done].
    exists EmptyString, []. split; [done|]. cbn. by rewrite E.
Qed.

Lemma complete_snoc s P b :
  split_nl s = P ++ [b] -> complete_lines s = List.filter nonblank P /\ last_piece s = b.
Proof.
  intros H. unfold complete_lines, last_piece. rewrite H, removelast_last, last_last. done.
Qed.

Lemma filter_snoc_empty P : List.filter nonblank (P ++ [EmptyString]) = List.filter nonblank P.
Proof. rewrite List.filter_app. cbn. apply app_nil_r. Qed.

(** What one pass yields and keeps, when it reads. *)
Lemma cut_lines s :
  match cut_last_nl s with
  | Some (a, b) => lines_of (yielded a) = map decode_replace (complete_lines s) /\ b = last_piece s
  | None => complete_lines s = [] /\ s = last_piece s
  end.
Proof.
  pose proof (cut_last_nl_spec s) as H. destruct (cut_last_nl s) as [[a b]|].
  - destruct H as (p & P & Hs & Ha). destruct (complete_snoc s (p :: P) b Hs) as [-> ->].
    split; [|done]. unfold yielded. rewrite Ha.
    change (p :: P ++ [EmptyString]) with ((p :: P) ++ [EmptyString]). rewrite filter_snoc_empty.
    generalize (List.filter nonblank (p :: P)). clear. induction l as [|x l IH]; [done|].
    cbn. by f_equal.
  - destruct (complete_snoc s [] s H) as [-> ->]. done.
Qed.

Lemma count_nl_piece s P p : split_nl s = P ++ [p] -> split_nl p = [p].
Proof.
  revert P p. induction s as [|c s IH]; intros P p H; cbn in H.
  - destruct P as [|x P]; [by injection H as <-|by destruct P].
  - destruct (split_nl_cons s) as (q & qs & E). destruct (Ascii.eqb c newline) eqn:Ec.
    + destruct P as [|x P]; [by rewrite E in H|]. injection H as _ H. by eapply IH.
    + rewrite E in H. destruct P as [|x P].
      * injection H as <- ->. cbn. rewrite Ec. by rewrite (IH [] q E).
      * injection H as _ ->. exact (IH (q :: P) p E).
Qed.

(** The lines of a concatenation, in two passes. *)
Lemma complete_lines_app s t :
  complete_lines (s +:+ t) = complete_lines s ++ complete_lines (last_piece s +:+ t) /\
  last_piece (s +:+ t) = last_piece (last_piece s +:+ t).
Proof.
  destruct (split_nl_last s) as (P & p & Hs). destruct (split_nl_cons t) as (d & D & Ht).
  destruct (complete_snoc s P p Hs) as [-> ->].
  pose proof (split_nl_app s t P p d D Hs Ht) as Hst.
  pose proof (split_nl_app p t [] p d D (count_nl_piece s P p Hs) Ht) as Hpt. cbn [app] in Hpt.
  destruct (exists_last (l := (p +:+ d) :: D)) as (Q & q & E); [done|].
  rewrite E in Hst, Hpt. destruct (complete_snoc _ _ _ Hpt) as [-> ->].
  rewrite app_assoc in Hst. destruct (complete_snoc _ _ _ Hst) as [-> ->].
  by rewrite List.filter_app.
Qed.

(** Observations of a file that only grows, up to [content]: each sees a size
    between the last position and the length of [content] and the bytes up to
    it, or nothing. *)
Inductive grows (content : string) : Z -> list observation -> Z -> Prop :=
| grows_nil pos : grows content pos [] pos
| grows_gone pos data os pos' :
    grows content pos os pos' -> grows content pos (Observation None data :: os) pos'
| grows_unreadable pos size os pos' :
    (pos <= size)%Z -> grows content pos os pos' ->
    grows content pos (Observation (Some size) None :: os) pos'
| grows_more pos size seen more os pos' :
    (pos <= size)%Z -> size = Z.of_nat (String.length seen) ->
    (exists later, content = seen +:+ later) -> grows content size os pos' ->
    grows content pos (Observation (Some size) (Some (seen +:+ more)) :: os) pos'.

Lemma prefix_split (a b c d : string) :
  a +:+ b = c +:+ d -> (String.length a <= String.length c)%nat ->
  exists x, c = a +:+ x /\ b = x +:+ d.
Proof.
  revert c. induction a as [|k a IH]; intros c H Hl; [by exists c|].
  destruct c as [|k' c]; [cbn in Hl; lia|]. rewrite !append_cons in H. injection H as <- H.
  cbn in Hl. destruct (IH c H ltac:(lia)) as (x & -> & ->). by exists x.
Qed.

Lemma lines_of_app a b : lines_of (a ++ b) = lines_of a ++ lines_of b.
Proof. apply flat_map_app. Qed.

(** A pass that reads [x] more bytes. *)
Lemma stream_step_more pre pending x more size :
  size = Z.of_nat (String.length (pre +:+ x)) ->
  exists out,
    stream_step (Z.of_nat (String.length pre), last_piece pending)
      (Observation (Some size) (Some ((pre +:+ x) +:+ more)))
    = ((size, last_piece (pending +:+ x)), out) /\
    complete_lines (pending +:+ x) = complete_lines pending ++ complete_lines (last_piece pending +:+ x)
    /\ lines_of out = map decode_replace (complete_lines (last_piece pending +:+ x)).
Proof.
  intros Hs. destruct (complete_lines_app pending x) as [Hcl Hlp].
  rewrite string_length_app in Hs. unfold stream_step, file_size. cbn [o_size o_data fst].
  rewrite (proj2 (Z.ltb_ge size 0)), (proj2 (Z.ltb_ge size _)) by lia.
  destruct (Z.ltb_spec (Z.of_nat (String.length pre)) size) as [Hlt|Hge].
  - assert (slice (Z.of_nat (String.length pre)) (size - Z.of_nat (String.length pre))
      ((pre +:+ x) +:+ more) = x) as ->.
    { unfold slice. rewrite Nat2Z.id, append_assoc, substring_skip.
      replace (Z.to_nat (size - Z.of_nat (String.length pre))) with (String.length x) by lia.
      apply substring_prefix. }
    pose proof (cut_lines (last_piece pending +:+ x)) as Hcut. rewrite Hlp.
    destruct (cut_last_nl (last_piece pending +:+ x)) as [[a b]|].
    + destruct Hcut as [Hy ->]. eexists. split; [reflexivity|]. split; [done|exact Hy].
    + destruct Hcut as [Hy Hp]. rewrite <- Hp. eexists. split; [reflexivity|]. split; [done|].
      by rewrite Hy.
  - assert (x = EmptyString) as -> by (destruct x; [done|cbn in Hs; lia]).
    assert (size = Z.of_nat (String.length pre)) as -> by (cbn in Hs; lia).
    rewrite append_nil_r in *. exists [None]. split; [done|]. split; [done|].
    assert (complete_lines (last_piece pending) = []) as Hnil.
    { destruct (split_nl_last pending) as (P & p & Hp). destruct (complete_snoc _ _ _ Hp) as [_ ->].
      destruct (complete_snoc p [] p (count_nl_piece _ _ _ Hp)) as [-> _]. done. }
    rewrite append_nil_r, Hnil. done.
Qed.

Lemma stream_run_grows content base pos os pos' :
  grows content pos os pos' ->
  forall dn later, content = base +:+ dn +:+ later -> pos = Z.of_nat (String.length (base +:+ dn)) ->
  exists x later' out,
    content = base +:+ (dn +:+ x) +:+ later' /\
    pos' = Z.of_nat (String.length (base +:+ dn +:+ x)) /\
    stream_run (pos, last_piece dn) os = ((pos', last_piece (dn +:+ x)), out) /\
    map decode_replace (complete_lines (dn +:+ x))
      = map decode_replace (complete_lines dn) ++ lines_of out.
Proof.
  induction 1 as [pos|pos data os pos' Hg IH|pos size os pos' Hle Hg IH
                 |pos size seen more os pos' Hle Hsz [rest Hpre] Hg IH]; intros dn later Hc Hp.
  - exists EmptyString, later, []. rewrite !append_nil_r. by rewrite app_nil_r.
  - destruct (IH dn later Hc Hp) as (x & l & out & H1 & H2 & H3 & H4).
    exists x, l, (None :: out). cbn [stream_run]. unfold stream_step, file_size. cbn [o_size].
    cbn beta iota zeta. change (-1 <? 0)%Z with true. cbn beta iota. by rewrite H3.
  - destruct (IH dn later Hc Hp) as (x & l & out & H1 & H2 & H3 & H4).
    exists x, l, (None :: out). cbn [stream_run]. unfold stream_step, file_size.
    cbn [o_size o_data fst]. rewrite (proj2 (Z.ltb_ge size 0)), (proj2 (Z.ltb_ge size pos)) by lia.
    destruct (pos <? size)%Z; by rewrite H3.
  - destruct (prefix_split (base +:+ dn) later seen rest) as (x & -> & ->).
    { by rewrite append_assoc, <- Hc, <- Hpre. }
    { lia. }
    destruct (stream_step_more (base +:+ dn) dn x more size Hsz) as (out & Hstep & Hcl & Hout).
    destruct (IH (dn +:+ x) rest) as (y & l & out' & H1 & H2 & H3 & H4).
    { rewrite Hpre. by rewrite !append_assoc. }
    { by rewrite Hsz, append_assoc. }
    exists (x +:+ y), l, (out ++ out'). rewrite <- !append_assoc in *.
    split; [by rewrite !append_assoc in *|]. split; [by rewrite !append_assoc in *|]. split.
    + cbn [stream_run]. rewrite Hp, Hstep. by rewrite H3.
    + rewrite H4, Hcl, map_app, lines_of_app, Hout. by rewrite app_assoc.
Qed.

(** From a position, the live tail delivers the complete lines that follow it. *)
Lemma stream_new_lines_eq content base os pos' :
  (exists later, content = base +:+ later) ->
  grows content (Z.of_nat (String.length base)) os pos' ->
  exists x later, content = base +:+ x +:+ later /\ pos' = Z.of_nat (String.length (base +:+ x)) /\
    lines_of (stream_new_lines (Z.of_nat (String.length base)) os)
    = map decode_replace (complete_lines x).
Proof.
  intros [later Hc] Hg.
  destruct (stream_run_grows content base _ os pos' Hg EmptyString later) as
    (x & l & out & H1 & H2 & H3 & H4).
  - exact Hc.
  - by rewrite append_nil_r.
  - exists x, l. split; [exact H1|]. split; [exact H2|]. unfold stream_new_lines.
    change EmptyString with (last_piece EmptyString). rewrite H3. symmetry. exact H4.
Qed.

(** The last lines of two lists in a row. *)
Lemma lastn_plus {A} n (l k : list A) : lastn n l ++ k = lastn (n + length k) (l ++ k).
Proof.
  unfold lastn. rewrite length_app, skipn_app.
  replace (length l + length k - (n + length k)) with (length l - n) by lia.
  replace (length l - n - length l) with 0 by lia. done.
Qed.

(** The lines of a text that ends in a newline are all complete. *)
Lemma ends_nl_lines s :
  last_piece s = EmptyString -> complete_lines s = List.filter nonblank (split_nl s).
Proof.
  intros H. destruct (split_nl_last s) as (P & p & Hs). destruct (complete_snoc s P p Hs) as [-> Hp].
  rewrite H in Hp. subst p. by rewrite Hs, filter_snoc_empty.
Qed.
