(* ===== verification/RegistryTables.v ===== *)
(** * Constant tables of the experiment registry

    The module-level constants of [tools/experiment_registry.py]: the universe
    of experiment IDs, the closed vocabularies, the remediation catalog of the
    critical blockers, the cost components, the source bindings and the current
    evidence.  A Python set or tuple of strings is the list of its elements in
    source order. *)

From stdpp Require Import base list strings numbers.
From Stdlib Require Import ZArith Lia Bool Ascii.
From S2P Require Import Prelude PyJson.

(** The registry schema and identity. *)
Definition SCHEMA_VERSION : string := "monetizable-experiment-registry-v1".

Definition REGISTRY_ID : string := "DEEP03-ALL-ANGLES-MONETIZATION-V1".

(** The 106 atomic directions, in the order of the authority document. *)
Definition ATOMIC_IDS : list string :=
  [
    "A01-SPREAD-CAPTURE";
    "A02-TOXICITY-MARKOUT";
    "A03-DEPLETION-REFILL";
    "A04-QUEUE-LAMBDA-DISTANCE";
    "A05-SNBD-LIQUIDITY-REGIMES";
    "A06-QUOTE-LIFETIME-BURST";
    "A07A-OCCUPANCY-FINGERPRINT";
    "A07B-COORDINATED-RETREAT";
    "A07C-ADVERSE-SELECTION-TRANSFER";
    "A07D-ANCHOR-MANIPULABILITY";
    "A08-PRICE-GRID-ROUND-NUMBER";
    "A09-LIQUIDITY-SEASONALITY";
    "A10-CROSS-MARKET-QUOTE-SPILLOVER";
    "A11-ONE-SIDED-PROVISION";
    "A12-GENERIC-PASSIVE-SCALPING";
    "A13-T90-RANGE";
    "A14-T90-REBUILD";
    "A15-FAIR-MICROPRICE-PAST-FLOW";
    "A16-INVENTORY-RESERVATION-SKEW";
    "A17-DYNAMIC-QUOTE-RADIUS";
    "A18-TIME-SHRINKING-CAP";
    "A19-NO-TRADE-QUOTE-JUMP";
    "A20-SYSTEM-LOAD-QUEUE-GROWTH";
    "B01-MOMENTUM-CONTINUATION";
    "B02-MEAN-REVERSION";
    "B03-POST-JUMP-CONTINUATION-VS-REVERSAL";
    "B04-LARGE-FLOW-CONTINUATION-VS-REVERSAL";
    "B05-OFI-PREDICTIVITY";
    "B06-BOOK-IMBALANCE-PREDICTIVITY";
    "B07-MICROPRICE-PREDICTIVITY";
    "B08-CONTINUOUS-PRICE-CALIBRATION";
    "B09-LISTING-TO-START-DRIFT";
    "B10-INPLAY-PROXY-PRICE-EROSION";
    "B11-REALIZED-VOL-BY-TIME";
    "B12-JUMP-HAZARD";
    "B13-CALM-TO-BURST";
    "B14-VOL-HARVEST";
    "B15-VOL-BREAKOUT";
    "B16-CS-ASK";
    "B17-CS-BID-CONTROL";
    "C01-THREEWAY-OVERROUND";
    "C02-BRACKET-MONOTONICITY";
    "C03-THRESHOLD-MONOTONICITY";
    "C04-SAME-EVENT-FAMILY-COHERENCE";
    "C05-SOCCER-POISSON";
    "C06-WITHIN-EVENT-LEADLAG";
    "C07-STALE-LEG";
    "C08-COMBO-VS-LEG-COST";
    "C09-PAYOUT-STATE-DOMINANCE";
    "C10-MULTIDAY-SERIES";
    "D01-RFQ-FLOW-CENSUS";
    "D02-RFQ-SIZE-INTENT";
    "D03-RFQ-LIFECYCLE-SURVIVAL";
    "D04-RFQ-COMBO-DEMAND-LEG-PRESSURE";
    "D05-RFQ-REQUESTER-HASH";
    "D06-RFQ-DIRECTION-VOL-SIGNAL";
    "D07-RFQ-TO-CLOB-IMPACT";
    "D08-RFQ-DIRECT-QUOTE-PNL";
    "D09-MVE-CATALOG-SCHEMA";
    "D10-MVE-DIRECT-TRADING";
    "E01-SETTLEMENT-CONVERGENCE";
    "E02-EXPIRY-LIQUIDITY-MIGRATION";
    "E03-FREEZE-WINDOW";
    "E04-SETTLEMENT-CALIBRATION";
    "E05-TERMINAL-EXCEPTION-STATES";
    "E06-HOLD-TO-TERMINAL-TAIL";
    "F01-PARTICIPANT-MIX-PROXY";
    "F02-FEE-STRUCTURE-EFFECT";
    "F03-NEW-MARKET-COLD-START";
    "F04-CROSS-SECTIONAL-RANK";
    "F05-SCANNER-SPREAD-FLOW-DEPTH";
    "F06-NICHE-COMPOSITE";
    "F07-LOW-OCC-INDEPENDENT-FAIR";
    "F08-SPORT-FACTORY";
    "F09-TENNIS-BO3-BO5";
    "F10-BASEBALL-ONE-SIDE";
    "F11-GOLF-THIN-LONG-LIFECYCLE";
    "F12-EXTERNAL-ODDS-LEADLAG";
    "F13-EXTERNAL-SPORT-STATE";
    "F14-PROVIDER-PRICE-LATENCY-TIER";
    "F15-BLINDNESS-EVPI";
    "F16-COURTSIDE-SPEED-OUT-OF-SCOPE";
    "F17-CRYPTO-SPOT-ANCHOR-OUT-OF-SCOPE";
    "G01-CHANGEPOINT-REGIME";
    "G02-HMM-HSMM-STATE";
    "G03-POINT-PROCESS-HAWKES";
    "G04-GARCH-STOCHASTIC-VOL";
    "G05-STATE-SPACE-KALMAN";
    "G06-PCA-FACTOR-CLUSTER";
    "G07-COINTEGRATION-VECM";
    "G08-REGULARIZED-GLM-SURVIVAL";
    "G09-TREE-BOOSTING";
    "G10-NEURAL-SEQUENCE";
    "G11-ENSEMBLE-STACKING";
    "G12-DRIFT-CALIBRATION-RETRAINING";
    "P01-STRATEGY-OVERLAP-PRECEDENCE";
    "P02-ROUTER-ABSTENTION-SWITCH";
    "P03-COMMON-ROOT-COVARIANCE-COTAIL";
    "P04-MULTIMARKET-ALLOCATION";
    "P05-BRACKET-HEDGE";
    "P06-DYNAMIC-DAILY-SELECTION";
    "P07-CAPACITY-FILL-DECAY-IMPACT";
    "P08-PROGRESSIVE-SCALING";
    "P09-MANUAL-SYSTEM-COEXISTENCE";
    "P10-COMMERCIAL-ROC-COST";
    "P11-UNCLASSIFIED-BACKLOG"
  ].

(** Family letter to family name. *)
Definition FAMILY_NAMES : list (string * string) :=
  [("A", "MICROSTRUCTURE_AND_MAKER");
   ("B", "DIRECTIONAL_AND_VOLATILITY");
   ("C", "RELATIVE_VALUE");
   ("D", "RFQ_AND_MVE");
   ("E", "TERMINAL_AND_SETTLEMENT");
   ("F", "ECOLOGY_EXTERNAL_AND_SPORT");
   ("G", "MODEL_METHODS");
   ("P", "PORTFOLIO_AND_META")].

(** Closed vocabularies. *)
Definition EXECUTION_VENUES : list string :=
  [
    "NONE";
    "KALSHI_CLOB";
    "KALSHI_RFQ";
    "KALSHI_CLOB_AND_RFQ";
    "KALSHI_MVE_PRIVATE_EXECUTION";
    "KALSHI_MULTI_MARKET_CLOB";
    "POLICY_ROUTER_OVER_KALSHI"
  ].

(** EXTERNAL_DEPENDENCIES *)
Definition EXTERNAL_DEPENDENCIES : list string :=
  [
    "NOT_REQUIRED";
    "REQUIRED";
    "OPTIONAL_REFINEMENT";
    "INHERIT_OWNER";
    "INHERIT_CHILDREN"
  ].

(** Action profiles that need a confirmed child strategy. *)
Definition CHILD_DEPENDENT_ACTION_PROFILES : list string :=
  [
    "MAKER_FILTER";
    "RFQ_GUARD";
    "ROUTER";
    "SIZE_RISK";
    "CHILD_HEDGE";
    "T90_REBUILD";
    "COMMERCIAL_ROC"
  ].

(** The critical blockers. *)
Definition CRITICAL_BLOCKERS : list string :=
  [
    "MISSING_SIGNAL_INPUT";
    "TIMESTAMP_SEMANTICS_UNKNOWN";
    "EXTERNAL_SPORTS_DATA_MISSING";
    "EXTERNAL_API_UNVERIFIED";
    "VENUE_PERMISSION_MISSING";
    "INSTRUMENT_MAPPING_UNKNOWN";
    "ACTION_INCOMPLETE";
    "BASELINE_INCOMPLETE";
    "FEE_UNKNOWN";
    "FILL_MODEL_MISSING";
    "OWN_ORDER_CALIBRATION_MISSING";
    "LATENCY_UNMEASURED";
    "SETTLEMENT_MISSING";
    "PAYOUT_EXHAUSTIVENESS_MISSING";
    "RFQ_PRIVATE_EVENTS_MISSING";
    "RFQ_PUBLIC_DATA_UNRELEASED";
    "MVE_PRIVATE_EVENTS_MISSING";
    "MULTI_LEG_ENGINE_MISSING";
    "CONFIRMED_CHILD_STRATEGIES_MISSING";
    "PRIVATE_ACCOUNT_STATE_MISSING";
    "INSUFFICIENT_QUALITY_DATES";
    "SAMPLE_TOO_SMALL";
    "DATA_INTEGRITY_BLOCKED";
    "RISK_GATES_MISSING";
    "OPERATING_COST_UNKNOWN";
    "OUT_OF_SCOPE_CURRENT_PROGRAM"
  ].

(** Blocker to (missing evidence, acquisition path, blocking stage). *)
Definition BLOCKER_REMEDIATION_CATALOG : list (string * (string * string * string)) := [
  ("MISSING_SIGNAL_INPUT", (
    "The card-specific real-time signal field is not captured.",
    "Add an append-only source adapter with schema, event time, receive time, mapping and quality receipts.",
    "SIGNAL"));
  ("TIMESTAMP_SEMANTICS_UNKNOWN", (
    "Publication/event/as-of and local receive clocks are not proven causal.",
    "Retain raw payloads plus source, wall and monotonic receive clocks; audit revisions and future-as-of sentinels.",
    "SIGNAL"));
  ("EXTERNAL_SPORTS_DATA_MISSING", (
    "The named direct sports-state or odds variables are absent.",
    "Capture an approved official/licensed source forward, or buy a point-in-time historical product after license review.",
    "SIGNAL"));
  ("EXTERNAL_API_UNVERIFIED", (
    "API fields, coverage, point-in-time behavior, license or cost are unverified.",
    "Run a read-only provider canary and schema/clock/license/spend audit before admitting a release.",
    "SIGNAL"));
  ("VENUE_PERMISSION_MISSING", (
    "The experiment has no shadow, RFQ-write or live-order authority.",
    "Request a separate least-privilege execution authority only after the research card is frozen.",
    "EXECUTION"));
  ("INSTRUMENT_MAPPING_UNKNOWN", (
    "Outcome, root, leg or external-event mapping is not authoritative.",
    "Build a versioned catalog/rules mapping with manual exception review and exact hash receipts.",
    "SIGNAL"));
  ("ACTION_INCOMPLETE", (
    "No deterministic side/price/quantity/timing/exit action is bound.",
    "Create a new immutable action-card revision; do not promote the research direction itself.",
    "ACTION"));
  ("BASELINE_INCOMPLETE", (
    "No comparable executable control policy is frozen.",
    "Define a same-opportunity no-trade or executable policy baseline before reading outcomes.",
    "DESIGN"));
  ("FEE_UNKNOWN", (
    "Exact order-level maker/taker fee, rounding, rebate or override is absent.",
    "Version fee facts by series/date/role/account and reconcile simulated fees to private account charges.",
    "PNL"));
  ("FILL_MODEL_MISSING", (
    "Strict stateful fill, partial fill, depth, cancel race or impact is not calibrated.",
    "Run pessimistic replay, then shadow own orders and reconcile to separately authorized micro-live fills.",
    "EXECUTION"));
  ("OWN_ORDER_CALIBRATION_MISSING", (
    "Public book data does not reveal own queue position or order lifecycle.",
    "Capture client order IDs, acknowledgements, queue proxies, cancels and fills in shadow/micro-live.",
    "EXECUTION"));
  ("LATENCY_UNMEASURED", (
    "Decision, place, cancel-effective, hedge or exit latency is not measured.",
    "Instrument monotonic timestamps at decision/send/ack/effective/fill and replay p50/p95/p99 paths.",
    "EXECUTION"));
  ("SETTLEMENT_MISSING", (
    "Terminal payout and every legal void/cancel/retire/postpone path are incomplete.",
    "Capture settlements and lifecycle changes append-only and bind versioned market rules to each contract.",
    "PNL"));
  ("PAYOUT_EXHAUSTIVENESS_MISSING", (
    "The proposed leg set is not proven exhaustive across all legal payout states.",
    "Create an audited state-by-leg payout matrix from market rules and settlement metadata.",
    "SIGNAL"));
  ("RFQ_PRIVATE_EVENTS_MISSING", (
    "Accepted side, quote, confirmation, execution, fill or fee events are absent.",
    "Use a separately authorized RFQ participant to capture private lifecycle receipts and correlate them to fills.",
    "EXECUTION"));
  ("RFQ_PUBLIC_DATA_UNRELEASED", (
    "No eligible fresh exact-version RFQ release is bound to the experiment.",
    "Complete the fresh RFQ seal/quality/manifest chain and same-date CLOB join; never repair the old damaged set.",
    "SIGNAL"));
  ("MVE_PRIVATE_EVENTS_MISSING", (
    "MVE package/leg order, acknowledgement, fill and fee lifecycle is absent.",
    "Capture the admitted MVE private execution interface and reconcile package/leg events to positions and settlement.",
    "EXECUTION"));
  ("MULTI_LEG_ENGINE_MISSING", (
    "Atomic/orphan-safe multi-leg execution and reconciliation do not exist.",
    "Build a joint replay/shadow engine with worst-sequence reserve, partial-leg unwind and shared risk ledger.",
    "EXECUTION"));
  ("CONFIRMED_CHILD_STRATEGIES_MISSING", (
    "The router, portfolio or increment has no confirmed executable child policies.",
    "Confirm children independently, then bind immutable child fingerprints and a common-root ledger.",
    "DESIGN"));
  ("PRIVATE_ACCOUNT_STATE_MISSING", (
    "Authoritative positions, open orders, fills or ownership state are absent.",
    "Capture least-privilege read-only account snapshots and reconcile system-owned order/position ledgers.",
    "RISK"));
  ("INSUFFICIENT_QUALITY_DATES", (
    "Independent clean dates/roots are below the frozen evidence requirement.",
    "Continue the automatic sealed daily pipeline to a preregistered fixed end; never extend based on results.",
    "INFERENCE"));
  ("SAMPLE_TOO_SMALL", (
    "Eligible independent roots/events are too sparse for the frozen estimand.",
    "Accrue to the preregistered end or close as not estimable; do not pool away the niche.",
    "INFERENCE"));
  ("DATA_INTEGRITY_BLOCKED", (
    "An input object or release failed immutable integrity checks.",
    "Quarantine the whole damaged object/release and use only a newly sealed clean acquisition.",
    "DATA"));
  ("RISK_GATES_MISSING", (
    "Capital, inventory, tail, concentration, stop or emergency-exit limits are not complete.",
    "Freeze root/event/day caps, collateral, tail limits, emergency tokens and reduce-only exits.",
    "RISK"));
  ("OPERATING_COST_UNKNOWN", (
    "Provider, compute/storage/egress, labor/on-call or incident cost is not measured.",
    "Bind invoices and metered usage to UTC day/card/root allocation rules; unknown operating cost blocks commercial ROC.",
    "PNL"));
  ("OUT_OF_SCOPE_CURRENT_PROGRAM", (
    "The direction is excluded from the current Sports program.",
    "Keep it closed unless a new operator-approved program and lineage explicitly admit it.",
    "PROGRAM"))
].

(** (experiment, blocker) to its own (missing evidence, acquisition path). *)
Definition CARD_SPECIFIC_GAP_OVERRIDES : list ((string * string) * (string * string)) := [
  (("A07D-ANCHOR-MANIPULABILITY", "MISSING_SIGNAL_INPUT"), (
    "No independently sourced fair anchor and visible cost-to-move series is bound.",
    "Define an actually independent anchor, prove it excludes circular Kalshi inputs, and capture its as-of path."));
  (("A20-SYSTEM-LOAD-QUEUE-GROWTH", "MISSING_SIGNAL_INPUT"), (
    "Decision-queue age, event-loop lag, send backlog and cancel-effective system telemetry are absent.",
    "Instrument the production/shadow engine with monotonic queue/load/send/ack timestamps and seal daily telemetry."));
  (("F07-LOW-OCC-INDEPENDENT-FAIR", "MISSING_SIGNAL_INPUT"), (
    "No independent fair-value source or model with non-circular inputs is available.",
    "Register the fair model/source, its inputs and as-of clock; prove no contemporaneous target-book leakage."));
  (("F15-BLINDNESS-EVPI", "CONFIRMED_CHILD_STRATEGIES_MISSING"), (
    "No immutable eligible owner card, decision/opportunity ledger, loss functional, or future-oracle rule is bound.",
    "Confirm and fingerprint one owner revision, seal its decision ledger, then freeze the loss functional and non-causal oracle rule before outcome reads."));
  (("A16-INVENTORY-RESERVATION-SKEW", "PRIVATE_ACCOUNT_STATE_MISSING"), (
    "The strategy cannot observe reconciled own inventory and resting-order exposure.",
    "Add read-only positions/open-orders/fills snapshots and a system-owned order reconciliation ledger."));
  (("E03-FREEZE-WINDOW", "PRIVATE_ACCOUNT_STATE_MISSING"), (
    "The early-exit policy lacks an authoritative position to reduce.",
    "Bind read-only position/open-order snapshots at every freeze decision and reconcile the reduce-only quantity."));
  (("E06-HOLD-TO-TERMINAL-TAIL", "PRIVATE_ACCOUNT_STATE_MISSING"), (
    "The hold-versus-exit comparison lacks exact owned fill and residual position identity.",
    "Bind the original private fill, subsequent position ledger and paired executable exit opportunity."));
  (("P05-BRACKET-HEDGE", "CONFIRMED_CHILD_STRATEGIES_MISSING"), (
    "The hedge has no confirmed primary child exposure to offset.",
    "Confirm and fingerprint the primary child first, then bind the exact bracket hedge legs."));
  (("P09-MANUAL-SYSTEM-COEXISTENCE", "PRIVATE_ACCOUNT_STATE_MISSING"), (
    "Manual and automated order ownership, precedence and self-trade state are not observable.",
    "Add system ownership tags, read-only account reconciliation and explicit manual/system precedence receipts."))
].

(** A cost component as the code writes it: four string fields. *)
Definition cost_item (type role status rule : string) : json :=
  obj ["type" ~> JStr type; "role" ~> JStr role; "status" ~> JStr status; "rule" ~> JStr rule].

(** Costs every action bears. *)
Definition COMMON_COST_COMPONENTS : list json := [
  cost_item "EXCHANGE_MAKER_FEE" "CASH_DEDUCTION" "MISSING"
    "exact per-fill fee_cost or versioned series/date fee formula";
  cost_item "EXCHANGE_TAKER_FEE" "CASH_DEDUCTION" "MISSING"
    "exact entry/exit/hedge fee including rounding and rebates";
  cost_item "SPREAD_CROSSING" "EXECUTION_MODEL_INPUT" "CONSERVATIVE_MODELED"
    "use executable ask on buys and executable bid on sells";
  cost_item "SLIPPAGE_MARKET_IMPACT" "EXECUTION_MODEL_INPUT" "MISSING"
    "walk exact L2 for requested quantity at decision-effective time";
  cost_item "PLACE_CANCEL_EXIT_LATENCY" "EXECUTION_MODEL_INPUT" "MISSING"
    "separate measured placement, cancel-effective, hedge and exit paths";
  cost_item "INVENTORY_TERMINAL_VOID" "RISK_DIAGNOSTIC" "MISSING"
    "joint worst legal terminal state unless actual settlement is bound";
  cost_item "COLLATERAL_AND_CAPITAL" "OPERATING_EXPENSE" "MISSING"
    "peak collateral, capital-time and capacity reported separately"
].

(** Closed vocabulary of cost types. *)
Definition COST_TYPES : list string :=
  [
    "EXCHANGE_MAKER_FEE";
    "EXCHANGE_TAKER_FEE";
    "SPREAD_CROSSING";
    "SLIPPAGE_MARKET_IMPACT";
    "PLACE_CANCEL_EXIT_LATENCY";
    "INVENTORY_TERMINAL_VOID";
    "COLLATERAL_AND_CAPITAL";
    "RFQ_SELECTION_AND_CONFIRMATION";
    "MVE_PACKAGE_EXECUTION_AND_PARTIAL";
    "DATA_API";
    "POLICY_SWITCH_AND_OVERLAP";
    "DATA_PROVIDER_LICENSE_API";
    "CLOUD_COMPUTE_STORAGE_EGRESS";
    "OPS_LABOR_AND_INCIDENT"
  ].

(** Closed vocabulary of cost roles. *)
Definition COST_ROLES : list string :=
  ["CASH_DEDUCTION"; "EXECUTION_MODEL_INPUT"; "OPERATING_EXPENSE"; "RISK_DIAGNOSTIC"].

(** Closed vocabulary of cost statuses. *)
Definition COST_STATUSES : list string :=
  ["MISSING"; "CONSERVATIVE_MODELED"].

(** Closed vocabulary of baseline types. *)
Definition BASELINE_TYPES : list string :=
  ["NOT_APPLICABLE"; "NO_TRADE"; "UNFILTERED_QUOTER"; "CUSTOM_EXECUTABLE"].

(** The external source catalog. *)
Definition EXTERNAL_SOURCE_CATALOG : json :=
  obj [
    "current_system_state" ~> JStr "No direct external sports adapter, decoder, schema or capture is present. All external sports variables are MISSING until point-in-time evidence, clock semantics and license are independently verified.";
    "sources" ~> JList [
      obj [
        "source_id" ~> JStr "KALSHI_MILESTONES_LIVE_DATA";
        "kind" ~> JStr "DIRECT_SPORT_LABEL_AND_LIVE_STATE";
        "status" ~> JStr "AVAILABLE_API_NOT_CAPTURED";
        "official_docs" ~> strs [
          "https://docs.kalshi.com/api-reference/milestone/get-milestones";
          "https://docs.kalshi.com/api-reference/live-data/get-live-data";
          "https://docs.kalshi.com/api-reference/live-data/get-multiple-live-data";
          "https://docs.kalshi.com/api-reference/live-data/get-game-stats"
        ];
        "historical_backfill" ~> JStr "SNAPSHOT_ONLY_NOT_POINT_IN_TIME";
        "live_use" ~> JStr "POSSIBLE_AFTER_APPEND_ONLY_CAPTURE_AND_CLOCK_AUDIT";
        "notes" ~> JStr "Milestones can map sports entities to Kalshi events; Live Data can expose score/period/game state. Mutable current snapshots must never be backfilled as if known historically."
      ];
      obj [
        "source_id" ~> JStr "THE_ODDS_API";
        "kind" ~> JStr "EXTERNAL_ODDS";
        "status" ~> JStr "CANDIDATE_NOT_LICENSED_OR_CAPTURED";
        "official_docs" ~> strs ["https://the-odds-api.com/liveapi/guides/v4/"];
        "historical_backfill" ~> JStr "PREGAME_SNAPSHOT_CANDIDATE";
        "live_use" ~> JStr "LATENCY_TOO_COARSE_FOR_UNAUDITED_FAST_ACTION";
        "notes" ~> JStr "Provider time, latency, commercial use and exact fields require receipt."
      ];
      obj [
        "source_id" ~> JStr "OPTICODDS";
        "kind" ~> JStr "ODDS_RESULTS_LINEUPS_INJURIES";
        "status" ~> JStr "CANDIDATE_NOT_LICENSED_OR_CAPTURED";
        "official_docs" ~> strs ["https://developer.opticodds.com/docs/odds-api-getting-started-guide"];
        "historical_backfill" ~> JStr "PREGAME_ODDS_CANDIDATE_WITH_RETENTION_LIMIT";
        "live_use" ~> JStr "SSE_CANDIDATE_AFTER_COMMERCIAL_AND_CLOCK_AUDIT";
        "notes" ~> JStr "Do not treat an endpoint name as verified availability."
      ];
      obj [
        "source_id" ~> JStr "SPORTRADAR";
        "kind" ~> JStr "PLAY_BY_PLAY_ROSTER_INJURY_AND_ODDS_PRODUCTS";
        "status" ~> JStr "CANDIDATE_NOT_LICENSED_OR_CAPTURED";
        "official_docs" ~> strs ["https://developer.sportradar.com/"];
        "historical_backfill" ~> JStr "SPORT_AND_PRODUCT_SPECIFIC_UNKNOWN_UNTIL_CONTRACT";
        "live_use" ~> JStr "CANDIDATE_AFTER_COMMERCIAL_AND_CLOCK_AUDIT";
        "notes" ~> JStr "Product, league, timestamps, storage and trading use require verification."
      ];
      obj [
        "source_id" ~> JStr "PINNACLE_DIRECT";
        "kind" ~> JStr "EXTERNAL_ODDS";
        "status" ~> JStr "NOT_AVAILABLE_BY_DEFAULT_LEGAL_AUTH_REQUIRED";
        "official_docs" ~> JList [];
        "historical_backfill" ~> JStr "NO_DEFAULT_PUBLIC_ACCESS";
        "live_use" ~> JStr "NO_DEFAULT_PUBLIC_ACCESS";
        "notes" ~> JStr "No scraping or assumed access."
      ];
      obj [
        "source_id" ~> JStr "NOAA_NWS_NCEI";
        "kind" ~> JStr "WEATHER_CONTROL";
        "status" ~> JStr "PUBLIC_CANDIDATE_NOT_MAPPED";
        "official_docs" ~> strs [
          "https://www.weather.gov/documentation/services-web-api";
          "https://www.ncei.noaa.gov/support/access-data-service-api-user-documentation"
        ];
        "historical_backfill" ~> JStr "POSSIBLE_AFTER_VENUE_STATION_MAPPING";
        "live_use" ~> JStr "SLOW_CONTROL_NOT_LOW_LATENCY_TRIGGER";
        "notes" ~> JStr "Venue coordinates, roof state, QC delay and receive clock remain required."
      ]
    ]
  ].

(** The five evidence files the registry binds by SHA-256. *)
Definition SOURCE_BINDINGS : list json := [
  obj [
    "role" ~> JStr "ATOMIC_DIRECTION_AUTHORITY";
    "path" ~> JStr "Deepresearch V3/registry/sources/DEEP03_ATOMIC_DIRECTION_AUTHORITY_V1.json";
    "sha256" ~> JStr "85db70587525ab34af7b5e1cba8bb70929581ea2ff64eb075eabaf5f98ea337e";
    "local_required" ~> JBool true;
    "note" ~> JStr "Local immutable extraction of plan section 4.7.2; it binds the origin document SHA ded84065... and the exact 106-ID universe."
  ];
  obj [
    "role" ~> JStr "CURRENT_RESULT_EVIDENCE";
    "path" ~> JStr "Deepresearch V3/run_2026-07-22_D3-W2A/RESULTS.json";
    "sha256" ~> JStr "e2265284704a828ec9dd0c700c66f16bdf11c9729530b583e9578561e27782f6";
    "local_required" ~> JBool true;
    "note" ~> JStr "Descriptive results only; no card inherits a PnL claim from this file."
  ];
  obj [
    "role" ~> JStr "CURRENT_ESTIMABILITY_EVIDENCE";
    "path" ~> JStr "Deepresearch V3/run_2026-07-22_D3-W2A/ESTIMABILITY_PREFLIGHT.json";
    "sha256" ~> JStr "50a63f633db2edccfc315d482684d5d6ea488fdbd5526106e9a2c60b5831c7de";
    "local_required" ~> JBool true;
    "note" ~> JStr "Used to distinguish observable signals from executable economics."
  ];
  obj [
    "role" ~> JStr "CURRENT_L2_SIGNAL_EVIDENCE";
    "path" ~> JStr "Deepresearch V3/run_2026-07-22_D3-W2A/FULLSCOPE_L2_REPORT_TABLES.json";
    "sha256" ~> JStr "e97fe0376cf4700829ed5afccc6eeaa10f4c368b417d335b0e1af7df490d0f52";
    "local_required" ~> JBool true;
    "note" ~> JStr "Direct source for A03 refill and A07B retreat/control observations."
  ];
  obj [
    "role" ~> JStr "CURRENT_EXCLUSION_EVIDENCE";
    "path" ~> JStr "Deepresearch V3/run_2026-07-22_D3-W2A/EXCLUSION_WATERFALL.json";
    "sha256" ~> JStr "3e8136820158d320bbc1df52edb7239af9d29c281308c7c97dad3297d0deef4a";
    "local_required" ~> JBool true;
    "note" ~> JStr "Direct source for the C04 payout/fill feasibility exclusion."
  ]
].

(** Release dates, and the dates whose L2 capture is clean. *)
Definition AVAILABLE_RELEASE_DATES : list string :=
  [
    "2026-07-10";
    "2026-07-11";
    "2026-07-12";
    "2026-07-13";
    "2026-07-14";
    "2026-07-15";
    "2026-07-16";
    "2026-07-17"
  ].

(** The L2-clean dates. *)
Definition L2_ESTIMATOR_CLEAN_DATES : list string :=
  ["2026-07-12"; "2026-07-15"; "2026-07-17"].

(** The evidence measured so far, by experiment. *)
Definition OBSERVED_SIGNAL_EVIDENCE : list (string * json) := [
  "A01-SPREAD-CAPTURE" ~> obj [
    "status" ~> JStr "DESCRIPTIVE_GROSS_SIGNAL_ONLY";
    "values" ~> obj [
      "pooled_signed_markout_logodds" ~> obj [
        "1s" ~> JDec 38 3;
        "5s" ~> JDec 46 3;
        "30s" ~> JDec 56 3
      ];
      "interpretation" ~> JStr "Pooled half-spread exceeded signed markout in most large-sport cells, before fees, fills, latency and executable exit."
    ];
    "source" ~> JStr "RESULTS.json::base_methods[D3-B01-MARKOUT]"
  ];
  "A03-DEPLETION-REFILL" ~> obj [
    "status" ~> JStr "DESCRIPTIVE_CLEAN_L2_DATES_ONLY";
    "values" ~> obj [
      "dates" ~> strs L2_ESTIMATOR_CLEAN_DATES;
      "refill_hazard_0_100ms" ~> JList [
        JDec 245 3;
        JDec 293 3;
        JDec 308 3
      ];
      "cumulative_refill_probability_1s" ~> JList [
        JDec 572 3;
        JDec 505 3;
        JDec 52 2
      ];
      "interpretation" ~> JStr "Displayed depth often refilled quickly; this is not own-order queue survival, fill probability or PnL."
    ];
    "source" ~> JStr "FULLSCOPE_L2_REPORT_TABLES.json::refill_hazard"
  ];
  "A07B-COORDINATED-RETREAT" ~> obj [
    "status" ~> JStr "OUTCOME_NOT_ESTIMABLE_FROM_DELIVERED_TABLES";
    "values" ~> obj [
      "retreat_episode_rows" ~> JInt 853294;
      "matched_control_rates" ~> JList [
        JDec 19 3;
        JDec 19 3;
        JDec 16 3
      ];
      "depth_smd" ~> JList [
        JDec (-32) 2;
        JDec (-31) 2;
        JDec (-4) 1
      ];
      "interpretation" ~> JStr "Event extraction exists, but delivered tables lack the required event-minus-control price outcome and depth matching is imbalanced."
    ];
    "source" ~> JStr "FULLSCOPE_L2_REPORT_TABLES.json::match_coverage"
  ];
  "A11-ONE-SIDED-PROVISION" ~> obj [
    "status" ~> JStr "DESCRIPTIVE_NARROW_PRESTART_SIGNAL_ONLY";
    "values" ~> obj [
      "tennis_prestart_duration_seconds" ~> obj [
        "p50" ~> JDec 1001 3;
        "p95" ~> JDec 30999 3
      ];
      "basketball_prestart_p50_seconds" ~> JDec 5001 3;
      "interpretation" ~> JStr "Only a narrow pre-scheduled-start cell looked transient; the broad one-sided fade was contradicted and no fill/PnL was measured."
    ];
    "source" ~> JStr "RESULTS.json::base_methods[D3-B02-ONESIDE]"
  ];
  "C04-SAME-EVENT-FAMILY-COHERENCE" ~> obj [
    "status" ~> JStr "NOT_ESTIMABLE";
    "values" ~> obj [
      "candidate_families" ~> JInt 28080;
      "payout_exhaustive_survivors" ~> JInt 0;
      "fee_and_fill_feasible_survivors" ~> JInt 0
    ];
    "source" ~> JStr "EXCLUSION_WATERFALL.json::D3-B03-XMKT"
  ]
].

(** Registered overlap rules. *)
Definition OVERLAP_PRECEDENCE_BY_EXPERIMENT : list (string * string) := [
  ("B08-CONTINUOUS-PRICE-CALIBRATION",
   "B08 owns only lifecycle opportunities outside E04_PRE_FREEZE_NEAR_TERMINAL_WINDOW; it abstains inside E04's window.");
  ("E04-SETTLEMENT-CALIBRATION",
   "E04 exclusively owns E04_PRE_FREEZE_NEAR_TERMINAL_WINDOW; B08 is ineligible there, and common-root capital/PnL is counted once.")
].

(** Direct external variables an experiment names. *)
Definition EXTERNAL_VARIABLES_BY_EXPERIMENT : list (string * list string) := [
  ("B10-INPLAY-PROXY-PRICE-EROSION",
   [
     "official game live/pre/post status";
     "period or set/inning/round";
     "score and authoritative game clock"
   ]);
  ("C05-SOCCER-POISSON",
   [
     "fixture identity and kickoff";
     "goals and match state";
     "team/lineup inputs if used by the frozen Poisson specification"
   ]);
  ("F09-TENNIS-BO3-BO5",
   [
     "authoritative best-of-three or best-of-five format";
     "set/game/point score and server if used"
   ]);
  ("F11-GOLF-THIN-LONG-LIFECYCLE",
   ["tournament round, cut status and field status"]);
  ("F12-EXTERNAL-ODDS-LEADLAG",
   [
     "bookmaker, market, selection and decimal price";
     "provider price-change event time and suspension state"
   ]);
  ("F13-EXTERNAL-SPORT-STATE",
   [
     "sport-specific score, period/set/inning/round and game clock";
     "serve, possession, outs/bases, lineup or injury only when named by the card"
   ]);
  ("F14-PROVIDER-PRICE-LATENCY-TIER",
   [
     "same odds update from each named provider";
     "provider event time, provider publication time and local receive time"
   ]);
  ("F15-BLINDNESS-EVPI",
   [
     "the exact external variables available to the informed policy";
     "provider event/publication time and local receive time"
   ]);
  ("F16-COURTSIDE-SPEED-OUT-OF-SCOPE",
   ["authoritative venue event time and courtside receive time"])
].
