(* ===== verification/ActionProfiles.v ===== *)
(** * Action profiles

    [_action_profile], [_venue_for], [_baseline_for], [_pnl_for] and
    [_costs_for] of [tools/experiment_registry.py]: what a card's action
    profile name stands for. *)

From stdpp Require Import base list strings numbers.
From Stdlib Require Import ZArith Lia Bool Ascii.
From S2P Require Import Prelude PyJson RegistryTables.

(** ** The profiles table of [_action_profile] *)

Definition action_NO_ACTION : json :=
  obj [
    "status" ~> JStr "NO_ACTION_DEFINED";
    "action_type" ~> JList [];
    "signal_to_action_mapping" ~> JNull;
    "instrument_side" ~> JNull;
    "order_style" ~> JNull;
    "price_rule" ~> JNull;
    "quantity_rule" ~> JNull;
    "timing_and_cancel" ~> JNull;
    "exit_or_settlement" ~> JNull;
    "kill_conditions" ~> JList []
  ].

Definition action_MAKER_SPREAD : json :=
  obj [
    "status" ~> JStr "DEFINED_FOR_BACKTEST_DESIGN";
    "action_type" ~> strs ["PLACE_PASSIVE_QUOTE"; "CANCEL"; "REPRICE"];
    "signal_to_action_mapping" ~> JStr "When the registered eligibility and net-edge trigger is true, place one post-only quote on each permitted side; cancel both when the trigger becomes false, the book gaps, or data is stale.";
    "instrument_side" ~> JStr "TWO_SIDED_YES_NORMALIZED";
    "order_style" ~> JStr "POST_ONLY_LIMIT";
    "price_rule" ~> JStr "registered tick-valid bid/ask offsets from executable book";
    "quantity_rule" ~> JStr "one contract per active side until capacity is proven";
    "timing_and_cancel" ~> JStr "decision clock plus measured placement/cancel latency";
    "exit_or_settlement" ~> JStr "cancel sibling, reconcile, then bounded reduce-only IOC";
    "kill_conditions" ~> strs ["gap"; "stale_book"; "unknown_fee"; "position_mismatch"]
  ].

Definition action_MAKER_FILTER : json :=
  obj [
    "status" ~> JStr "DEFINED_FOR_BACKTEST_DESIGN";
    "action_type" ~> strs ["CANCEL"; "REPRICE"; "RESIZE"; "CANCEL_AND_REPLACE"];
    "signal_to_action_mapping" ~> JStr "Apply the signal as a risk switch to the registered maker: cancel the vulnerable side, widen, or reduce size; restore only after the signal clears and state is reconciled.";
    "instrument_side" ~> JStr "DERIVED_BY_SIGNAL_WITH_BOTH_SIDES_ENUMERATED";
    "order_style" ~> JStr "POST_ONLY_LIMIT_AND_CANCEL";
    "price_rule" ~> JStr "registered maker price plus signal-conditioned safety buffer";
    "quantity_rule" ~> JStr "never exceed the unfiltered baseline inventory cap";
    "timing_and_cancel" ~> JStr "cancel-effective latency is part of treatment";
    "exit_or_settlement" ~> JStr "reconcile residual fills, then reduce-only exit";
    "kill_conditions" ~> strs ["direction_unknown"; "cancel_race"; "gap"; "stale_book"]
  ].

Definition action_MAKER_REFILL : json :=
  obj [
    "status" ~> JStr "DEFINED_FOR_BACKTEST_DESIGN";
    "action_type" ~> strs ["PLACE_PASSIVE_QUOTE"; "CANCEL_AND_REPLACE"];
    "signal_to_action_mapping" ~> JStr "After registered depletion, quote or requote only when refill state and price-band gates pass; cancel at the frozen refill deadline if recovery is absent.";
    "instrument_side" ~> JStr "DEPLETED_SIDE_ENUMERATED_IN_YES_NORMALIZED_BOOK";
    "order_style" ~> JStr "POST_ONLY_LIMIT";
    "price_rule" ~> JStr "same tick or registered adjacent tick after depletion";
    "quantity_rule" ~> JStr "one contract; no refill-size extrapolation";
    "timing_and_cancel" ~> JStr "frozen refill window plus measured cancel-effective latency";
    "exit_or_settlement" ~> JStr "cancel sibling and reduce-only unwind after any fill";
    "kill_conditions" ~> strs ["no_refill_by_deadline"; "gap"; "queue_unknown"; "stale_book"]
  ].

Definition action_T90_RANGE : json :=
  obj [
    "status" ~> JStr "DEFINED_BUT_SCOPE_AND_EXECUTION_BLOCKED";
    "action_type" ~> strs ["PLACE_PASSIVE_QUOTE"; "CANCEL"; "REDUCE_ONLY_EXIT"];
    "signal_to_action_mapping" ~> JStr "After the frozen Tennis 88-93 leader band, causal two-way tug, flat inventory and no-retreat gates pass, post one contract at each touch (or the one preregistered behind1 variant). On any fill cancel the sibling, reconcile, and reduce only.";
    "instrument_side" ~> JStr "FROZEN_LEADER_NORMALIZED_TWO_SIDED_PAIR";
    "order_style" ~> JStr "NON_ATOMIC_POST_ONLY_PAIR_WITH_WORST_SEQUENCE_RESERVE";
    "price_rule" ~> JStr "touch or one legal tick behind, frozen before YES/NO mapping";
    "quantity_rule" ~> JStr "one contract per side; absolute root inventory <= 1";
    "timing_and_cancel" ~> JStr "cancel-before-replace; 250ms normal reprice minimum";
    "exit_or_settlement" ~> JStr "band exit, leader change, hard flip, timeout or safety kill at effective executable depth";
    "kill_conditions" ~> strs ["retreat"; "gap"; "stale"; "pause"; "terminal"; "leader_change"]
  ].

Definition action_T90_REBUILD : json :=
  obj [
    "status" ~> JStr "DEFINED_BUT_SCOPE_AND_EXECUTION_BLOCKED";
    "action_type" ~> strs ["PLACE_PASSIVE_QUOTE"; "CANCEL"; "REDUCE_ONLY_EXIT"];
    "signal_to_action_mapping" ~> JStr "Only after the parent retreat kill is complete and zero-resting is proven: require a latched burst, 3s without retreat, top-3 depth recovery >=80% of pre-kill, spread >=1.25x baseline, <=1 tick movement and the 88-93 band; then quote touch one contract per side for at most one rebuild cycle.";
    "instrument_side" ~> JStr "FROZEN_T90_LEADER_NORMALIZED_TWO_SIDED_PAIR";
    "order_style" ~> JStr "ONE_CYCLE_NON_ATOMIC_POST_ONLY_PAIR";
    "price_rule" ~> JStr "touch only, bound to the frozen pre-kill baseline";
    "quantity_rule" ~> JStr "one contract per side; one rebuild cycle per root";
    "timing_and_cancel" ~> JStr "zero-resting precedes entry; maximum episode 30s";
    "exit_or_settlement" ~> JStr "exit at spread <=1.10x pre-kill baseline or immediately on a new burst, renewed retreat, gap, stale or root stop";
    "kill_conditions" ~> strs ["renewed_retreat"; "new_burst"; "gap"; "stale"; "root_stop"; "second_cycle"]
  ].

Definition action_PASSIVE_FADE : json :=
  obj [
    "status" ~> JStr "DEFINED_FOR_BACKTEST_DESIGN";
    "action_type" ~> strs ["PLACE_PASSIVE_QUOTE"; "CANCEL"];
    "signal_to_action_mapping" ~> JStr "Place a post-only quote on the registered missing/cheap side only inside the eligible state; cancel on timeout or continuation.";
    "instrument_side" ~> JStr "DERIVED_BY_SIGNAL_WITH_YES_NO_MAPPING";
    "order_style" ~> JStr "POST_ONLY_LIMIT";
    "price_rule" ~> JStr "registered tick at or behind the restored side";
    "quantity_rule" ~> JStr "one contract until real-fill calibration passes";
    "timing_and_cancel" ~> JStr "frozen fade horizon and measured cancel latency";
    "exit_or_settlement" ~> JStr "time exit or state-recovery exit at executable price";
    "kill_conditions" ~> strs ["continuation"; "timeout"; "gap"; "external_state_missing"]
  ].

Definition action_TAKER_DIRECTIONAL : json :=
  obj [
    "status" ~> JStr "DEFINED_FOR_BACKTEST_DESIGN";
    "action_type" ~> strs ["TAKE_LIQUIDITY"; "HEDGE"];
    "signal_to_action_mapping" ~> JStr "Map the registered signed signal to BUY_YES or BUY_NO, enter with a marketable limit after measured latency, and exit at the registered horizon or reversal using executable depth.";
    "instrument_side" ~> JStr "DERIVED_BY_SIGNAL_EXHAUSTIVE_YES_NO_MAP";
    "order_style" ~> JStr "MARKETABLE_LIMIT";
    "price_rule" ~> JStr "walk current exact L2 up to frozen slippage cap";
    "quantity_rule" ~> JStr "largest quantity whose pessimistic marginal edge remains positive";
    "timing_and_cancel" ~> JStr "entry and exit latency measured separately";
    "exit_or_settlement" ~> JStr "time/reversal exit; no silent upgrade to settlement hold";
    "kill_conditions" ~> strs ["unsigned_signal"; "edge_below_cost"; "depth_shortfall"; "gap"]
  ].

Definition action_RELATIVE_VALUE : json :=
  obj [
    "status" ~> JStr "DEFINED_BUT_ENGINE_BLOCKED";
    "action_type" ~> strs ["MULTI_LEG_ATOMIC"; "HEDGE"];
    "signal_to_action_mapping" ~> JStr "When a payout-exhaustive executable residual exceeds all-leg cost plus buffer, execute the full registered leg set or abstain.";
    "instrument_side" ~> JStr "EXACT_LEG_VECTOR_WITH_PAYOUT_STATES";
    "order_style" ~> JStr "BOUNDED_MARKETABLE_LIMIT_PER_LEG";
    "price_rule" ~> JStr "all-leg executable L2, never mids";
    "quantity_rule" ~> JStr "minimum fillable quantity across every required leg";
    "timing_and_cancel" ~> JStr "serial-leg risk and partial fills explicitly bounded";
    "exit_or_settlement" ~> JStr "complete hedge or joint worst-state terminal valuation";
    "kill_conditions" ~> strs ["payout_incomplete"; "partial_leg"; "mapping_drift"; "fee_unknown"]
  ].

Definition action_EXPIRY_ROLL : json :=
  obj [
    "status" ~> JStr "DEFINED_BUT_MAPPING_AND_ENGINE_BLOCKED";
    "action_type" ~> strs ["REDUCE_OLD_EXPOSURE"; "OPEN_EQUIVALENT_NEW_EXPOSURE"; "RECONCILE"];
    "signal_to_action_mapping" ~> JStr "For an authoritative existing position, close the old expiry and open only the audited exposure-equivalent new contract when the complete two-leg roll cost is below holding cost.";
    "instrument_side" ~> JStr "EXACT_EXISTING_EXPOSURE_TO_AUDITED_EQUIVALENT_VECTOR";
    "order_style" ~> JStr "BOUNDED_MARKETABLE_LIMIT_PER_ROLL_LEG";
    "price_rule" ~> JStr "synchronized executable depth including orphan unwind";
    "quantity_rule" ~> JStr "no more than the reconciled old exposure and new-leg depth";
    "timing_and_cancel" ~> JStr "serial-leg risk and partial roll are explicitly bounded";
    "exit_or_settlement" ~> JStr "complete, unwind, or retain the frozen original exposure baseline";
    "kill_conditions" ~> strs ["mapping_unknown"; "partial_leg"; "roll_cost_above_hold"; "position_mismatch"]
  ].

Definition action_CHILD_HEDGE : json :=
  obj [
    "status" ~> JStr "DEFINED_BUT_CHILD_MAPPING_AND_ENGINE_BLOCKED";
    "action_type" ~> strs ["OPEN_HEDGE_VECTOR"; "RECONCILE"; "UNWIND_HEDGE"];
    "signal_to_action_mapping" ~> JStr "Given an authoritative confirmed child exposure, execute the exact payout-verified hedge vector only when its reduction in tail/capital cost exceeds all-leg execution cost.";
    "instrument_side" ~> JStr "EXACT_CONFIRMED_CHILD_EXPOSURE_AND_HEDGE_VECTOR";
    "order_style" ~> JStr "BOUNDED_MARKETABLE_LIMIT_PER_HEDGE_LEG";
    "price_rule" ~> JStr "synchronized executable all-leg depth, never mids";
    "quantity_rule" ~> JStr "hedge no more than the reconciled child exposure";
    "timing_and_cancel" ~> JStr "partial hedge and child-exit races are explicitly bounded";
    "exit_or_settlement" ~> JStr "joint child-plus-hedge unwind or legal joint terminal value";
    "kill_conditions" ~> strs [
      "child_unconfirmed";
      "payout_incomplete";
      "partial_leg";
      "tail_benefit_below_cost"
    ]
  ].

Definition action_RFQ_GUARD : json :=
  obj [
    "status" ~> JStr "DEFINED_BUT_DATA_BLOCKED";
    "action_type" ~> strs ["CANCEL"; "REPRICE"; "RESIZE"];
    "signal_to_action_mapping" ~> JStr "Treat a public RFQ as unsigned toxicity/volatility information: cancel, widen, or shrink related CLOB quotes. Never infer a direction from public create/delete or combo composition.";
    "instrument_side" ~> JStr "BOTH_RELATED_CLOB_SIDES_PUBLIC_UNSIGNED";
    "order_style" ~> JStr "POST_ONLY_LIMIT_AND_CANCEL";
    "price_rule" ~> JStr "unfiltered maker price plus RFQ risk buffer";
    "quantity_rule" ~> JStr "at most baseline resting quantity";
    "timing_and_cancel" ~> JStr "RFQ receive clock to cancel-effective clock";
    "exit_or_settlement" ~> JStr "reconcile any cancel-race fill";
    "kill_conditions" ~> strs ["rfq_gap"; "mapping_ambiguous"; "direction_inferred_publicly"]
  ].

Definition action_RFQ_MAKER : json :=
  obj [
    "status" ~> JStr "DEFINED_BUT_PERMISSION_AND_DATA_BLOCKED";
    "action_type" ~> strs ["RFQ_SUBMIT_QUOTE"; "RFQ_CONFIRM"; "HEDGE"];
    "signal_to_action_mapping" ~> JStr "For a full-size hedgeable RFQ, submit bounded yes_bid/no_bid; after a private accepted_side event confirm, correlate executed orders to fills, hedge, and reconcile residual inventory.";
    "instrument_side" ~> JStr "TWO_SIDED_RFQ_BID_THEN_PRIVATE_ACCEPTED_SIDE";
    "order_style" ~> JStr "RFQ_QUOTE_PLUS_CLOB_MARKETABLE_LIMIT";
    "price_rule" ~> JStr "bid no higher than fair value minus all hedge and tail costs";
    "quantity_rule" ~> JStr "entire RFQ size only when full size is collateralized and hedgeable";
    "timing_and_cancel" ~> JStr "standard/HVM confirmation and execution clocks measured";
    "exit_or_settlement" ~> JStr "CLOB hedge, executable unwind, or bound settlement";
    "kill_conditions" ~> strs ["private_event_missing"; "hedge_depth_shortfall"; "permission_missing"]
  ].

Definition action_MVE_DIRECT : json :=
  obj [
    "status" ~> JStr "DEFINED_BUT_PRIVATE_MVE_AND_ENGINE_BLOCKED";
    "action_type" ~> strs ["MVE_SUBMIT_PACKAGE_ORDER"; "CANCEL"; "HEDGE_LEGS"; "RECONCILE"; "UNWIND"];
    "signal_to_action_mapping" ~> JStr "Only for an exact-version MVE package with an audited leg, orientation and payout-state map: submit one fully collateralized package order when package price plus synchronized executable hedge cost leaves positive worst-state PnL; otherwise abstain.";
    "instrument_side" ~> JStr "EXACT_MVE_PACKAGE_ORIENTATION_AND_AUDITED_HEDGE_VECTOR";
    "order_style" ~> JStr "PRIVATE_MVE_PACKAGE_ORDER_PLUS_BOUNDED_LEG_LIMITS";
    "price_rule" ~> JStr "exact executable package price plus synchronized all-leg L2, fees, orphan-unwind and tail buffer; never use mids";
    "quantity_rule" ~> JStr "one complete package at the minimum fully hedgeable size";
    "timing_and_cancel" ~> JStr "retain package submit/ack/cancel/fill clocks and bound serial-leg hedge latency and partial-package races";
    "exit_or_settlement" ~> JStr "complete the audited hedge, execute the frozen orphan unwind, or use the joint legal terminal payout matrix";
    "kill_conditions" ~> strs [
      "mve_catalog_or_orientation_unknown";
      "private_package_event_missing";
      "partial_package_or_leg";
      "hedge_depth_shortfall";
      "fee_or_terminal_state_unknown"
    ]
  ].

Definition action_TERMINAL_POLICY : json :=
  obj [
    "status" ~> JStr "DEFINED_BUT_SETTLEMENT_BLOCKED";
    "action_type" ~> strs ["HOLD"; "TAKE_LIQUIDITY"; "CANCEL"];
    "signal_to_action_mapping" ~> JStr "At the registered terminal-state signal, choose the frozen hold or executable exit branch; cancel all risk-adding orders first.";
    "instrument_side" ~> JStr "EXACT_EXISTING_POSITION";
    "order_style" ~> JStr "CANCEL_THEN_REDUCE_ONLY_MARKETABLE_LIMIT_OR_HOLD";
    "price_rule" ~> JStr "executable unwind depth or authoritative terminal value";
    "quantity_rule" ~> JStr "no more than reconciled absolute position";
    "timing_and_cancel" ~> JStr "freeze/settlement clock with separate exit latency";
    "exit_or_settlement" ~> JStr "frozen exit rule or actual 0/1/void settlement";
    "kill_conditions" ~> strs ["terminal_state_unknown"; "void_rule_unknown"; "position_mismatch"]
  ].

Definition action_TERMINAL_ENTRY : json :=
  obj [
    "status" ~> JStr "DEFINED_BUT_SETTLEMENT_BLOCKED";
    "action_type" ~> strs ["TAKE_LIQUIDITY"; "CANCEL"; "HOLD"];
    "signal_to_action_mapping" ~> JStr "From flat, buy exactly the registered underpriced YES or NO outcome with a marketable limit only when the terminal-value gap exceeds all fees, exit and legal-state buffers.";
    "instrument_side" ~> JStr "EXPLICIT_BUY_YES_OR_BUY_NO_FROM_FLAT";
    "order_style" ~> JStr "ONE_CONTRACT_MARKETABLE_LIMIT";
    "price_rule" ~> JStr "executable ask no higher than terminal value minus all costs";
    "quantity_rule" ~> JStr "one contract from flat; no pyramiding or naked short";
    "timing_and_cancel" ~> JStr "decision-effective depth plus measured entry/exit latency";
    "exit_or_settlement" ~> JStr "frozen executable exit or authoritative 0/1/void settlement";
    "kill_conditions" ~> strs [
      "terminal_state_unknown";
      "void_rule_unknown";
      "edge_below_cost";
      "depth_shortfall"
    ]
  ].

Definition action_CS_ASK : json :=
  obj [
    "status" ~> JStr "DEFINED_BUT_SCOPE_SETTLEMENT_AND_EXECUTION_BLOCKED";
    "action_type" ~> strs ["PLACE_PASSIVE_QUOTE"; "CANCEL"; "HOLD_TO_SETTLEMENT"];
    "signal_to_action_mapping" ~> JStr "Freeze the high outcome and q in {0.97,0.98}; after the exact book-regime and 30s persistence gate, economically sell high from flat by posting to buy the low outcome at 1-q. Allow one contract and one fill per root with no replenish.";
    "instrument_side" ~> JStr "FROM_FLAT_BUY_LOW_OUTCOME_AT_ONE_MINUS_Q";
    "order_style" ~> JStr "POST_ONLY_LIMIT_ONE_FILL_MAX";
    "price_rule" ~> JStr "q is the intended high-side ask; low-side buy price is exactly 1-q";
    "quantity_rule" ~> JStr "one contract, one fill maximum per root, no replenish";
    "timing_and_cancel" ~> JStr "intended quote state persists 30s; quote age 30s";
    "exit_or_settlement" ~> JStr "actual authoritative settlement only for binding PnL";
    "kill_conditions" ~> strs [
      "price_cell_exit";
      "high_side_bid_retreat_one_tick";
      "better_ask";
      "leader_flip";
      "stale";
      "gap";
      "pause";
      "terminal";
      "fee_or_tick_unknown"
    ]
  ].

Definition action_EARLY_EXIT : json :=
  obj [
    "status" ~> JStr "DEFINED_BUT_PRIVATE_AND_TERMINAL_DATA_BLOCKED";
    "action_type" ~> strs ["CANCEL"; "REDUCE_ONLY_EXIT"];
    "signal_to_action_mapping" ~> JStr "When the frozen pre-freeze deterioration signal fires, cancel risk-adding orders and unwind only the reconciled existing position at bounded executable depth.";
    "instrument_side" ~> JStr "EXACT_EXISTING_POSITION_REDUCE_ONLY";
    "order_style" ~> JStr "CANCEL_THEN_REDUCE_ONLY_MARKETABLE_LIMIT";
    "price_rule" ~> JStr "decision-effective executable depth with slippage cap";
    "quantity_rule" ~> JStr "no more than reconciled absolute position";
    "timing_and_cancel" ~> JStr "cancel-effective and exit latency are distinct";
    "exit_or_settlement" ~> JStr "early executable exit before freeze";
    "kill_conditions" ~> strs [
      "position_unknown";
      "precursor_stale";
      "depth_shortfall";
      "terminal_state_unknown"
    ]
  ].

Definition action_EXTERNAL_ACTION : json :=
  obj [
    "status" ~> JStr "DEFINED_BUT_EXTERNAL_DATA_BLOCKED";
    "action_type" ~> strs ["CANCEL"; "REPRICE"; "TAKE_LIQUIDITY"];
    "signal_to_action_mapping" ~> JStr "After a verified external event/odds update with trustworthy event time, cancel stale quotes or trade only the registered venue-price discrepancy; no proxy or imputation is allowed.";
    "instrument_side" ~> JStr "DERIVED_FROM_VERIFIED_EXTERNAL_TO_KALSHI_MAPPING";
    "order_style" ~> JStr "CANCEL_OR_MARKETABLE_LIMIT";
    "price_rule" ~> JStr "verified external fair value versus executable Kalshi L2";
    "quantity_rule" ~> JStr "depth- and latency-bounded one-contract pilot";
    "timing_and_cancel" ~> JStr "external event time, ingest time, and venue send time all retained";
    "exit_or_settlement" ~> JStr "time/reversal exit or explicitly bound settlement";
    "kill_conditions" ~> strs ["external_stale"; "mapping_unverified"; "license_unknown"; "clock_unknown"]
  ].

Definition action_ROUTER : json :=
  obj [
    "status" ~> JStr "DEFINED_BUT_CHILDREN_BLOCKED";
    "action_type" ~> strs ["RESIZE"; "CANCEL"; "REPRICE"];
    "signal_to_action_mapping" ~> JStr "Select, size, or abstain among already confirmed child policies using only past state; route no action to an unconfirmed child.";
    "instrument_side" ~> JStr "INHERITED_FROM_SELECTED_CONFIRMED_CHILD";
    "order_style" ~> JStr "INHERITED_FROM_SELECTED_CONFIRMED_CHILD";
    "price_rule" ~> JStr "unchanged child price rule";
    "quantity_rule" ~> JStr "shared root/event/capital cap across children";
    "timing_and_cancel" ~> JStr "router decision and switch latency included";
    "exit_or_settlement" ~> JStr "unchanged child exit plus portfolio reconciliation";
    "kill_conditions" ~> strs ["child_unconfirmed"; "overlap_unresolved"; "capital_breach"]
  ].

Definition action_COMMERCIAL_ROC : json :=
  obj [
    "status" ~> JStr "DEFINED_BUT_CHILDREN_AND_FULL_COST_LEDGER_BLOCKED";
    "action_type" ~> strs ["CONTINUE_CONFIRMED_CHILD"; "SCALE_DOWN"; "STOP_NEW_RISK"];
    "signal_to_action_mapping" ~> JStr "At the frozen UTC decision boundary, continue the immutable confirmed child only when fully allocated trailing commercial NetPnL and ROC clear their preregistered gates; scale down at the warning gate and stop new risk at the failure gate.";
    "instrument_side" ~> JStr "INHERITED_UNCHANGED_FROM_IMMUTABLE_CONFIRMED_CHILD";
    "order_style" ~> JStr "INHERITED_CHILD_OR_STOP_NEW_RISK";
    "price_rule" ~> JStr "unchanged immutable child price rule";
    "quantity_rule" ~> JStr "frozen full, reduced or zero-new-risk ladder only";
    "timing_and_cancel" ~> JStr "UTC boundary decision using past-only closed accounting periods";
    "exit_or_settlement" ~> JStr "stopped children add no new risk and retain their registered reduce-only exit and reconciliation path";
    "kill_conditions" ~> strs [
      "child_fingerprint_missing";
      "invoice_or_usage_unallocated";
      "capital_ledger_incomplete";
      "incident_cost_unknown"
    ]
  ].

Definition action_SIZE_RISK : json :=
  obj [
    "status" ~> JStr "DEFINED_BUT_PRIVATE_OR_CHILD_DATA_BLOCKED";
    "action_type" ~> strs ["RESIZE"; "CANCEL"; "HEDGE"];
    "signal_to_action_mapping" ~> JStr "Translate the registered capacity/risk signal into a bounded size or no-new-risk decision; reconcile before any size increase.";
    "instrument_side" ~> JStr "INHERITED_FROM_REGISTERED_CHILD_OR_POSITION";
    "order_style" ~> JStr "INHERITED_CHILD_WITH_REDUCE_ONLY_EMERGENCY_EXIT";
    "price_rule" ~> JStr "unchanged registered child price rule";
    "quantity_rule" ~> JStr "frozen size ladder bounded by depth, collateral and root cap";
    "timing_and_cancel" ~> JStr "size change only after prior orders reconcile";
    "exit_or_settlement" ~> JStr "reduce-only exit derived from authoritative position";
    "kill_conditions" ~> strs ["capacity_curve_negative"; "tail_breach"; "position_unknown"]
  ].

Definition action_MODEL_COMPONENT : json :=
  obj [
    "status" ~> JStr "NO_STANDALONE_ACTION_MODEL_COMPONENT";
    "action_type" ~> JList [];
    "signal_to_action_mapping" ~> JNull;
    "instrument_side" ~> JNull;
    "order_style" ~> JNull;
    "price_rule" ~> JNull;
    "quantity_rule" ~> JNull;
    "timing_and_cancel" ~> JNull;
    "exit_or_settlement" ~> JNull;
    "kill_conditions" ~> JList []
  ].

Definition action_CONTROL_ONLY : json :=
  obj [
    "status" ~> JStr "NO_ACTION_CONTROL_ONLY";
    "action_type" ~> JList [];
    "signal_to_action_mapping" ~> JNull;
    "instrument_side" ~> JNull;
    "order_style" ~> JNull;
    "price_rule" ~> JNull;
    "quantity_rule" ~> JNull;
    "timing_and_cancel" ~> JNull;
    "exit_or_settlement" ~> JNull;
    "kill_conditions" ~> JList []
  ].

Definition action_profiles : list (string * json) := [
  "NO_ACTION" ~> action_NO_ACTION;
  "MAKER_SPREAD" ~> action_MAKER_SPREAD;
  "MAKER_FILTER" ~> action_MAKER_FILTER;
  "MAKER_REFILL" ~> action_MAKER_REFILL;
  "T90_RANGE" ~> action_T90_RANGE;
  "T90_REBUILD" ~> action_T90_REBUILD;
  "PASSIVE_FADE" ~> action_PASSIVE_FADE;
  "TAKER_DIRECTIONAL" ~> action_TAKER_DIRECTIONAL;
  "RELATIVE_VALUE" ~> action_RELATIVE_VALUE;
  "EXPIRY_ROLL" ~> action_EXPIRY_ROLL;
  "CHILD_HEDGE" ~> action_CHILD_HEDGE;
  "RFQ_GUARD" ~> action_RFQ_GUARD;
  "RFQ_MAKER" ~> action_RFQ_MAKER;
  "MVE_DIRECT" ~> action_MVE_DIRECT;
  "TERMINAL_POLICY" ~> action_TERMINAL_POLICY;
  "TERMINAL_ENTRY" ~> action_TERMINAL_ENTRY;
  "CS_ASK" ~> action_CS_ASK;
  "EARLY_EXIT" ~> action_EARLY_EXIT;
  "EXTERNAL_ACTION" ~> action_EXTERNAL_ACTION;
  "ROUTER" ~> action_ROUTER;
  "COMMERCIAL_ROC" ~> action_COMMERCIAL_ROC;
  "SIZE_RISK" ~> action_SIZE_RISK;
  "MODEL_COMPONENT" ~> action_MODEL_COMPONENT;
  "CONTROL_ONLY" ~> action_CONTROL_ONLY
].

(** [copy.deepcopy(profiles[name])] *)
Definition _action_profile (name : string) : result json :=
  or_raise (KeyError name) (assoc name action_profiles).

(** ** Venue *)

Definition venue_by_profile : list (string * string) := [
  ("NO_ACTION", "NONE");
  ("MODEL_COMPONENT", "NONE");
  ("CONTROL_ONLY", "NONE");
  ("MAKER_SPREAD", "KALSHI_CLOB");
  ("MAKER_FILTER", "KALSHI_CLOB");
  ("MAKER_REFILL", "KALSHI_CLOB");
  ("T90_RANGE", "KALSHI_CLOB");
  ("T90_REBUILD", "KALSHI_CLOB");
  ("PASSIVE_FADE", "KALSHI_CLOB");
  ("TAKER_DIRECTIONAL", "KALSHI_CLOB");
  ("RELATIVE_VALUE", "KALSHI_MULTI_MARKET_CLOB");
  ("EXPIRY_ROLL", "KALSHI_MULTI_MARKET_CLOB");
  ("CHILD_HEDGE", "KALSHI_MULTI_MARKET_CLOB");
  ("RFQ_GUARD", "KALSHI_CLOB");
  ("RFQ_MAKER", "KALSHI_CLOB_AND_RFQ");
  ("MVE_DIRECT", "KALSHI_MVE_PRIVATE_EXECUTION");
  ("TERMINAL_POLICY", "KALSHI_CLOB");
  ("TERMINAL_ENTRY", "KALSHI_CLOB");
  ("CS_ASK", "KALSHI_CLOB");
  ("EARLY_EXIT", "KALSHI_CLOB");
  ("EXTERNAL_ACTION", "KALSHI_CLOB");
  ("ROUTER", "POLICY_ROUTER_OVER_KALSHI");
  ("COMMERCIAL_ROC", "POLICY_ROUTER_OVER_KALSHI");
  ("SIZE_RISK", "POLICY_ROUTER_OVER_KALSHI")
].

Definition _venue_for (action_profile : string) : result json :=
  venue ← or_raise (KeyError action_profile) (assoc action_profile venue_by_profile);
  Ok (obj [
    "execution_venue" ~> JStr venue;
    "required_permission" ~> JStr (
      if String.eqb venue "NONE" then "NONE"
      else "SEPARATE_SHADOW_OR_LIVE_AUTHORITY; registry grants none");
    "availability_receipt" ~> JNull
  ]).

(** ** Baseline *)

Definition _baseline_for (action_profile : string) : json :=
  if str_in action_profile ["NO_ACTION"; "MODEL_COMPONENT"; "CONTROL_ONLY"] then
    obj [
      "baseline_id" ~> JNull;
      "baseline_type" ~> JStr "NOT_APPLICABLE";
      "policy" ~> JNull;
      "comparability" ~> JNull;
      "secondary_baselines" ~> JList []
    ]
  else
  if str_in action_profile ["MAKER_FILTER"; "RFQ_GUARD"] then
    obj [
      "baseline_id" ~> JStr "UNFILTERED_SAME_MAKER";
      "baseline_type" ~> JStr "UNFILTERED_QUOTER";
      "policy" ~> JStr "identical maker without the tested signal gate";
      "comparability" ~> JStr "same roots, capital, latency, fill and fee assumptions";
      "secondary_baselines" ~> strs ["NO_TRADE_SAME_OPPORTUNITIES"]
    ]
  else
  if String.eqb action_profile "MAKER_REFILL" then
    obj [
      "baseline_id" ~> JStr "IMMEDIATE_SAME_PRICE_REENTRY";
      "baseline_type" ~> JStr "CUSTOM_EXECUTABLE";
      "policy" ~> JStr "replace immediately at the same tick after depletion without waiting for the tested refill/persistence gate";
      "comparability" ~> JStr "same roots, price, size, latency, fill and fee assumptions";
      "secondary_baselines" ~> strs ["NO_TRADE_SAME_OPPORTUNITIES"]
    ]
  else
  if String.eqb action_profile "T90_RANGE" then
    obj [
      "baseline_id" ~> JStr "NO_TRADE_SAME_OPPORTUNITIES";
      "baseline_type" ~> JStr "NO_TRADE";
      "policy" ~> JStr "remain flat for every eligible T90 episode";
      "comparability" ~> JStr "same roots, band, tug, clock, capital and data exclusions";
      "secondary_baselines" ~> strs ["SAME_T90_RANGE_WITHOUT_RETREAT_KILL"]
    ]
  else
  if String.eqb action_profile "T90_REBUILD" then
    obj [
      "baseline_id" ~> JStr "T90_PARENT_NEVER_REENTER";
      "baseline_type" ~> JStr "CUSTOM_EXECUTABLE";
      "policy" ~> JStr "same-root T90 parent transitions OFF_FOR_ROOT after the first valid retreat kill and never re-enters";
      "comparability" ~> JStr "same parent roots, fills, kill, fees, capital and terminal path";
      "secondary_baselines" ~> strs ["NO_TRADE_SAME_OPPORTUNITIES"]
    ]
  else
  if String.eqb action_profile "ROUTER" then
    obj [
      "baseline_id" ~> JStr "BEST_FIXED_CONFIRMED_CHILD_TRAIN_ONLY";
      "baseline_type" ~> JStr "CUSTOM_EXECUTABLE";
      "policy" ~> JStr "best fixed child chosen without holdout information";
      "comparability" ~> JStr "same roots, capital, risk caps and execution engine";
      "secondary_baselines" ~> strs ["NO_TRADE_SAME_OPPORTUNITIES"]
    ]
  else
  if String.eqb action_profile "SIZE_RISK" then
    obj [
      "baseline_id" ~> JStr "FIXED_ONE_CONTRACT_SAME_CHILD";
      "baseline_type" ~> JStr "CUSTOM_EXECUTABLE";
      "policy" ~> JStr "same child policy at one contract and unchanged risk caps";
      "comparability" ~> JStr "same roots, prices, timing, fill and fee assumptions";
      "secondary_baselines" ~> strs ["NO_TRADE_SAME_OPPORTUNITIES"]
    ]
  else
  if String.eqb action_profile "TERMINAL_POLICY" then
    obj [
      "baseline_id" ~> JStr "FIXED_IMMEDIATE_EXECUTABLE_EXIT";
      "baseline_type" ~> JStr "CUSTOM_EXECUTABLE";
      "policy" ~> JStr "cancel then unwind at the first eligible terminal decision";
      "comparability" ~> JStr "same inventory, roots, costs and terminal states";
      "secondary_baselines" ~> strs ["NO_TRADE_OR_HOLD_AS_CARD_SPECIFIES"]
    ]
  else
  if String.eqb action_profile "TERMINAL_ENTRY" then
    obj [
      "baseline_id" ~> JStr "NO_TRADE_SAME_OPPORTUNITIES";
      "baseline_type" ~> JStr "NO_TRADE";
      "policy" ~> JStr "remain flat and record zero cash flow for every eligible opportunity";
      "comparability" ~> JStr "same roots, clock, capital availability and data exclusions";
      "secondary_baselines" ~> strs ["SIMPLE_UNCALIBRATED_EXECUTABLE_PRICE_RULE"]
    ]
  else
  if String.eqb action_profile "CS_ASK" then
    obj [
      "baseline_id" ~> JStr "NO_TRADE_SAME_CS_OPPORTUNITIES";
      "baseline_type" ~> JStr "NO_TRADE";
      "policy" ~> JStr "remain flat for every eligible 97/98 price/regime/phase cell";
      "comparability" ~> JStr "same roots, q cells, persistence, fees and settlement coverage";
      "secondary_baselines" ~> strs ["CS_94_TO_96_PLACEBO"; "CS_BID_PAYOFF_CONTROL_ON_EXACT_ASK_FILL_IDS"]
    ]
  else
  if String.eqb action_profile "EARLY_EXIT" then
    obj [
      "baseline_id" ~> JStr "WAIT_UNTIL_FREEZE_OR_TERMINAL";
      "baseline_type" ~> JStr "CUSTOM_EXECUTABLE";
      "policy" ~> JStr "retain the same reconciled position through the precursor and follow the frozen later exit/terminal rule";
      "comparability" ~> JStr "same position, roots, clocks, fees and terminal paths";
      "secondary_baselines" ~> strs ["IMMEDIATE_EXIT_BEFORE_PRECURSOR"]
    ]
  else
  if String.eqb action_profile "EXPIRY_ROLL" then
    obj [
      "baseline_id" ~> JStr "HOLD_ORIGINAL_EXPOSURE";
      "baseline_type" ~> JStr "CUSTOM_EXECUTABLE";
      "policy" ~> JStr "do not roll; retain the exact original exposure under its frozen exit/terminal rule";
      "comparability" ~> JStr "same starting position, roots, capital clock and legal terminal states";
      "secondary_baselines" ~> strs ["IMMEDIATE_EXIT_ORIGINAL_EXPOSURE"]
    ]
  else
  if String.eqb action_profile "CHILD_HEDGE" then
    obj [
      "baseline_id" ~> JStr "UNHEDGED_CONFIRMED_CHILD";
      "baseline_type" ~> JStr "CUSTOM_EXECUTABLE";
      "policy" ~> JStr "run the identical confirmed child without the proposed hedge";
      "comparability" ~> JStr "same child fills, roots, capital clock, exits and terminal states";
      "secondary_baselines" ~> strs ["NO_TRADE_SAME_OPPORTUNITIES"]
    ]
  else
  if String.eqb action_profile "MVE_DIRECT" then
    obj [
      "baseline_id" ~> JStr "NO_MVE_PACKAGE_TRADE_SAME_OPPORTUNITIES";
      "baseline_type" ~> JStr "NO_TRADE";
      "policy" ~> JStr "submit no MVE package or hedge legs and record zero cash flow";
      "comparability" ~> JStr "same package catalog, clocks, collateral and mapping exclusions";
      "secondary_baselines" ~> strs ["LEG_REPLICATION_ONLY_IF_SEPARATELY_REGISTERED"]
    ]
  else
  if String.eqb action_profile "COMMERCIAL_ROC" then
    obj [
      "baseline_id" ~> JStr "UNCHANGED_CONFIRMED_CHILD_WITHOUT_COMMERCIAL_GATE";
      "baseline_type" ~> JStr "CUSTOM_EXECUTABLE";
      "policy" ~> JStr "run the same immutable confirmed child at its frozen size and risk limits without the tested commercial continue/scale/stop gate";
      "comparability" ~> JStr "same child fingerprint, roots, fills, capital clock, risk limits and fully allocated operating-cost ledger";
      "secondary_baselines" ~> strs ["NO_TRADE_SAME_ACCOUNTING_PERIODS"]
    ]
  else
    obj [
      "baseline_id" ~> JStr "NO_TRADE_SAME_OPPORTUNITIES";
      "baseline_type" ~> JStr "NO_TRADE";
      "policy" ~> JStr "record every eligible opportunity with zero cash flow";
      "comparability" ~> JStr "same roots, clock, capital availability and data exclusions";
      "secondary_baselines" ~> JList []
    ].

(** ** PnL contract

    The formula and its increment over the baseline, by profile. *)

Definition pnl_formulas (action_profile : string) : string * string :=
  if str_in action_profile ["MAKER_FILTER"; "RFQ_GUARD"] then
    ("NetPnL_policy = cash_in - cash_out - exact_fees - realized_variable_costs + terminal_value(residual_inventory)",
     "DeltaPnL = NetPnL_signal_gated_maker - NetPnL_unfiltered_same_maker")
  else
  if String.eqb action_profile "RFQ_MAKER" then
    ("NetPnL = RFQ_and_hedge_cash_in - RFQ_and_hedge_cash_out - exact_RFQ_and_CLOB_fees + terminal_value(residual_inventory)",
     "DeltaPnL = NetPnL_RFQ_quote_policy - 0_for_no_quote_baseline")
  else
  if String.eqb action_profile "MVE_DIRECT" then
    ("NetPnL = MVE_package_and_hedge_cash_in - MVE_package_and_hedge_cash_out - exact_package_and_leg_fees - partial_package_orphan_unwind_cost + joint_terminal_value",
     "DeltaPnL = NetPnL_MVE_direct_policy - 0_for_same_opportunity_no_MVE_trade_baseline")
  else
  if String.eqb action_profile "RELATIVE_VALUE" then
    ("NetPnL = sum(executed_leg_cashflows) - sum(exact_leg_fees) - hedge_and_partial_leg_cost + joint_terminal_value",
     "DeltaPnL = NetPnL_full_leg_policy - 0_for_no_trade_baseline")
  else
  if String.eqb action_profile "ROUTER" then
    ("NetPnL = sum(root_deduped_child_cashflows) - exact_fees - switch_cost + joint_terminal_value",
     "DeltaPnL = NetPnL_router - NetPnL_best_fixed_train_only_child")
  else
  if String.eqb action_profile "COMMERCIAL_ROC" then
    ("CommercialNetPnL = child_realized_and_terminal_NetPnL - exchange_fees - data_provider_license_API_cost - cloud_compute_storage_egress_cost - operations_labor_oncall_cost - incident_loss_and_remediation_cost - capital_and_collateral_cost",
     "DeltaCommercialPnL = CommercialNetPnL_ROC_gate - CommercialNetPnL_same_child_without_commercial_gate")
  else
  if String.eqb action_profile "SIZE_RISK" then
    ("NetPnL = child_executed_cashflows - exact_fees - impact - tail_and_unwind_cost + terminal_value",
     "DeltaPnL = NetPnL_sized_policy - NetPnL_same_child_at_one_contract")
  else
  if String.eqb action_profile "TERMINAL_ENTRY" then
    ("NetPnL = terminal_or_exit_cash_in - entry_cash_out - exact_entry_and_exit_fees - realized_variable_costs",
     "DeltaPnL = NetPnL_terminal_entry - 0_for_flat_no_trade_baseline")
  else
  if String.eqb action_profile "CS_ASK" then
    ("NetPnL_per_strict_fill = q - Y_high_outcome_terminal - exact_net_fee_for_low_side_buy",
     "DeltaPnL = sum(NetPnL_on_exact_CS_ASK_fills) - 0_for_same_opportunity_no_trade_baseline")
  else
  if String.eqb action_profile "T90_REBUILD" then
    ("NetPnL = parent_and_rebuild_executed_cash_in - executed_cash_out - exact_fees - forced_exit_cost + terminal_value(residual_inventory)",
     "DeltaPnL = NetPnL_T90_with_one_rebuild - NetPnL_same_root_T90_never_reenter")
  else
  if String.eqb action_profile "EARLY_EXIT" then
    ("NetPnL = executable_exit_cash - original_position_cost - exact_fees - realized_exit_cost",
     "DeltaPnL = NetPnL_early_reduce_only_exit - NetPnL_same_position_wait_until_freeze_or_terminal")
  else
  if String.eqb action_profile "EXPIRY_ROLL" then
    ("NetPnL = old_close_cashflow + new_exposure_cashflow - all_leg_fees - orphan_and_carry_cost + terminal_value(new_residual)",
     "DeltaPnL = NetPnL_roll_policy - NetPnL_hold_original_exposure")
  else
  if String.eqb action_profile "CHILD_HEDGE" then
    ("NetPnL = child_cashflows + hedge_cashflows - all_leg_fees - partial_hedge_cost + joint_terminal_value",
     "DeltaPnL = NetPnL_child_plus_hedge - NetPnL_unhedged_same_child")
  else
    ("NetPnL = executed_cash_in - executed_cash_out - exact_venue_fees - realized_variable_costs + terminal_value(residual_inventory)",
     "DeltaPnL = NetPnL_strategy - NetPnL_registered_baseline").

Definition _pnl_for (action_profile : string) : json :=
  if str_in action_profile ["NO_ACTION"; "MODEL_COMPONENT"; "CONTROL_ONLY"] then
    obj [
      "status" ~> JStr "NOT_DEFINED_NOT_A_STRATEGY";
      "basis" ~> JStr "NONE";
      "formula" ~> JNull;
      "incremental_formula" ~> JNull;
      "aggregation_unit" ~> JNull;
      "zero_fill_treatment" ~> JNull;
      "capacity_rule" ~> JNull
    ]
  else
  let (formula, incremental) := pnl_formulas action_profile in
  let result := [
    "status" ~> JStr "DEFINED_NOT_YET_ESTIMABLE";
    "basis" ~> JStr "PATHWISE_AFTER_COST";
    "formula" ~> JStr formula;
    "incremental_formula" ~> JStr incremental;
    "aggregation_unit" ~> JStr "ROOT_EVENT_AND_UTC_DAY";
    "denominators" ~> strs [
      "per_opportunity";
      "per_trigger";
      "per_fill";
      "per_contract";
      "per_day";
      "per_peak_capital"
    ];
    "zero_fill_treatment" ~> JStr "eligible no-trigger/no-fill/no-accept rows contribute zero";
    "capacity_rule" ~> JStr "no linear extrapolation beyond executable depth and tested size";
    "markout_rule" ~> JStr "mid/markout is diagnostic and never cash PnL"
  ] in
  if String.eqb action_profile "COMMERCIAL_ROC" then
    obj (assoc_set "cost_allocation_rule"
      (JStr "Fully allocated provider, cloud, labor/on-call and incident costs use each sealed UTC accounting period, then measured card/root usage; shared fixed costs use a frozen driver and never disappear from the denominator.")
      (assoc_set "roc_definition"
      (JStr "CommercialROC = CommercialNetPnL / max(peak_committed_capital, fully_allocated_cash_operating_cost); report both denominators separately")
      result))
  else obj result.

(** ** Costs *)

Definition _costs_for (action_profile external_dependency : string) : list json :=
  if str_in action_profile ["NO_ACTION"; "MODEL_COMPONENT"; "CONTROL_ONLY"] then []
  else
    COMMON_COST_COMPONENTS
    ++ (if String.eqb action_profile "RFQ_MAKER" then [
      cost_item "RFQ_SELECTION_AND_CONFIRMATION" "RISK_DIAGNOSTIC" "MISSING"
        "requester side selection, confirmation, execution and no-accept loss"] else [])
    ++ (if String.eqb external_dependency "REQUIRED" then [
      cost_item "DATA_API" "OPERATING_EXPENSE" "MISSING"
        "provider subscription, redistribution and historical backfill cost"] else [])
    ++ (if String.eqb action_profile "MVE_DIRECT" then [
      cost_item "MVE_PACKAGE_EXECUTION_AND_PARTIAL" "EXECUTION_MODEL_INPUT" "MISSING"
        "private package quote/order/fill fees plus worst-sequence partial-package and orphan-leg unwind cost"] else [])
    ++ (if String.eqb action_profile "ROUTER" then [
      cost_item "POLICY_SWITCH_AND_OVERLAP" "EXECUTION_MODEL_INPUT" "MISSING"
        "switch latency plus common-root capital and co-tail use"] else [])
    ++ (if String.eqb action_profile "COMMERCIAL_ROC" then [
      cost_item "DATA_PROVIDER_LICENSE_API" "OPERATING_EXPENSE" "MISSING"
        "invoice-backed provider, license, API and historical-data allocation";
      cost_item "CLOUD_COMPUTE_STORAGE_EGRESS" "OPERATING_EXPENSE" "MISSING"
        "metered compute, storage, request and egress allocation by UTC period and card";
      cost_item "OPS_LABOR_AND_INCIDENT" "OPERATING_EXPENSE" "MISSING"
        "labor, on-call, incident loss and remediation under a frozen allocation rule"] else []).
