(* ===== verification/DataProfiles.v ===== *)
(** * Data profiles

    [_data_profile] of [tools/experiment_registry.py]: the inputs a card reads,
    what can be computed from them now, and the blockers that follow. *)

From stdpp Require Import base list strings numbers.
From Stdlib Require Import ZArith Lia Bool Ascii.
From S2P Require Import Prelude PyJson.

Definition data_L1 : json :=
  obj [
    "inputs" ~> strs ["KALSHI_L1"; "PUBLIC_TRADES"; "CATALOG"];
    "can_compute_now" ~> obj [
      "signal_event" ~> JStr "YES";
      "conditional_markout" ~> JStr "YES";
      "strict_fill" ~> JStr "PARTIAL";
      "fee_after_shadow_pnl" ~> JStr "NO";
      "settlement_pnl" ~> JStr "NO";
      "realized_pnl" ~> JStr "NO"
    ];
    "currently_calculable" ~> JStr "8 exact V3 dates can describe L1/trade signal incidence and conditional markout; this is not executable PnL.";
    "missing" ~> strs [
      "strategy-specific stateful strict-fill replay";
      "versioned exact fee/rounding at each simulated fill";
      "measured placement/cancel/exit latency";
      "untouched quality dates for validation"
    ];
    "acquisition_paths" ~> strs [
      "existing sealed Kalshi L1/trade pipeline";
      "shadow engine actual decision and order-state ledgers";
      "Kalshi private fills for later micro-live reconciliation"
    ];
    "blockers" ~> strs [
      "FILL_MODEL_MISSING";
      "FEE_UNKNOWN";
      "LATENCY_UNMEASURED";
      "INSUFFICIENT_QUALITY_DATES"
    ]
  ].

Definition data_L2 : json :=
  obj [
    "inputs" ~> strs ["SEQUENCE_VALID_KALSHI_L2"; "KALSHI_L1"; "PUBLIC_TRADES"];
    "can_compute_now" ~> obj [
      "signal_event" ~> JStr "YES";
      "conditional_markout" ~> JStr "YES";
      "strict_fill" ~> JStr "PARTIAL";
      "fee_after_shadow_pnl" ~> JStr "NO";
      "settlement_pnl" ~> JStr "NO";
      "realized_pnl" ~> JStr "NO"
    ];
    "currently_calculable" ~> JStr "Depth/refill/retreat signals are descriptive on clean dates 2026-07-12, 2026-07-15 and 2026-07-17 only.";
    "missing" ~> strs [
      "own queue position and order acknowledgements";
      "strategy-specific strict-fill and cancel-race replay";
      "exact fees, latency and at least 20 independent clean days"
    ];
    "acquisition_paths" ~> strs [
      "continue sequence-valid L2 capture and daily quality receipts";
      "own-order shadow/micro-live calibration";
      "private order/fill/cancel acknowledgement ledger"
    ];
    "blockers" ~> strs [
      "OWN_ORDER_CALIBRATION_MISSING";
      "FILL_MODEL_MISSING";
      "FEE_UNKNOWN";
      "LATENCY_UNMEASURED";
      "INSUFFICIENT_QUALITY_DATES"
    ]
  ].

Definition data_L1_L2 : json :=
  obj [
    "inputs" ~> strs ["KALSHI_L1"; "PUBLIC_TRADES"; "SEQUENCE_VALID_KALSHI_L2"; "CATALOG"];
    "can_compute_now" ~> obj [
      "signal_event" ~> JStr "YES";
      "conditional_markout" ~> JStr "YES";
      "strict_fill" ~> JStr "PARTIAL";
      "fee_after_shadow_pnl" ~> JStr "NO";
      "settlement_pnl" ~> JStr "NO";
      "realized_pnl" ~> JStr "NO"
    ];
    "currently_calculable" ~> JStr "L1 signal and 3-clean-day L2 mechanism measurements; no own-order, fee-after or realized PnL.";
    "missing" ~> strs [
      "own fills/queue/cancel-effective state";
      "exact fee and latency path";
      "additional clean L2 dates"
    ];
    "acquisition_paths" ~> strs [
      "existing L1/L2 collectors";
      "stateful shadow order ledger";
      "private fills and acknowledgements after separate authority"
    ];
    "blockers" ~> strs [
      "OWN_ORDER_CALIBRATION_MISSING";
      "FILL_MODEL_MISSING";
      "FEE_UNKNOWN";
      "LATENCY_UNMEASURED";
      "INSUFFICIENT_QUALITY_DATES"
    ]
  ].

Definition data_L1_PRIVATE : json :=
  obj [
    "inputs" ~> strs [
      "KALSHI_L1";
      "PUBLIC_TRADES";
      "CATALOG";
      "FROZEN_PAST_ONLY_FAIR_AND_VOLATILITY";
      "PRIVATE_ACCOUNT_ORDERS_POSITIONS_FILLS"
    ];
    "can_compute_now" ~> obj [
      "signal_event" ~> JStr "NO";
      "conditional_markout" ~> JStr "PARTIAL";
      "strict_fill" ~> JStr "NO";
      "fee_after_shadow_pnl" ~> JStr "NO";
      "settlement_pnl" ~> JStr "NO";
      "realized_pnl" ~> JStr "NO"
    ];
    "currently_calculable" ~> JStr "Public L1/trades can produce candidate fair and volatility features, but the reservation-skew signal is not observable without authoritative point-in-time own inventory and orders.";
    "missing" ~> strs [
      "authoritative point-in-time position and resting-order exposure";
      "immutable child maker definition and fair/volatility specification";
      "own order acknowledgements, fills, fees and reconciliation"
    ];
    "acquisition_paths" ~> strs [
      "existing sealed Kalshi L1/trade/catalog pipeline";
      "read-only private positions/open-orders/fills snapshots";
      "system-owned shadow order ledger with frozen fair/volatility model"
    ];
    "blockers" ~> strs [
      "PRIVATE_ACCOUNT_STATE_MISSING";
      "OWN_ORDER_CALIBRATION_MISSING";
      "FILL_MODEL_MISSING";
      "FEE_UNKNOWN";
      "LATENCY_UNMEASURED";
      "INSUFFICIENT_QUALITY_DATES"
    ]
  ].

Definition data_FAMILY : json :=
  obj [
    "inputs" ~> strs ["CATALOG"; "FAMILY_MAP"; "KALSHI_L1"; "KALSHI_L2"];
    "can_compute_now" ~> obj [
      "signal_event" ~> JStr "PARTIAL";
      "conditional_markout" ~> JStr "PARTIAL";
      "strict_fill" ~> JStr "NO";
      "fee_after_shadow_pnl" ~> JStr "NO";
      "settlement_pnl" ~> JStr "NO";
      "realized_pnl" ~> JStr "NO"
    ];
    "currently_calculable" ~> JStr "Market-graph price residuals are monitors only; the prior B03 run found zero payout-exhaustive, fill-feasible candidates.";
    "missing" ~> strs [
      "authoritative exhaustive payout-state mapping";
      "all-leg exact fees and synchronized executable depth";
      "partial-leg/orphan unwind engine"
    ];
    "acquisition_paths" ~> strs [
      "Kalshi catalog/market rules and settlement metadata";
      "manual-plus-machine audited payout mapping";
      "stateful multi-leg shadow engine and private fills"
    ];
    "blockers" ~> strs ["PAYOUT_EXHAUSTIVENESS_MISSING"; "MULTI_LEG_ENGINE_MISSING"; "FEE_UNKNOWN"]
  ].

Definition data_TERMINAL : json :=
  obj [
    "inputs" ~> strs ["KALSHI_L1"; "CATALOG"; "SETTLEMENT_AND_LIFECYCLE"];
    "can_compute_now" ~> obj [
      "signal_event" ~> JStr "PARTIAL";
      "conditional_markout" ~> JStr "YES";
      "strict_fill" ~> JStr "PARTIAL";
      "fee_after_shadow_pnl" ~> JStr "NO";
      "settlement_pnl" ~> JStr "PARTIAL";
      "realized_pnl" ~> JStr "NO"
    ];
    "currently_calculable" ~> JStr "Price/lifecycle paths are observable; terminal coverage is not yet exact-release-bound and exhaustive for every legal state.";
    "missing" ~> strs [
      "100% resolved/void/retire/postpone terminal state coverage";
      "exact fill selection and fees";
      "capital-hours and residual inventory reconciliation"
    ];
    "acquisition_paths" ~> strs [
      "Kalshi settlements and lifecycle APIs captured append-only";
      "versioned market rules and settlement-source mapping";
      "private fills for realized reconciliation"
    ];
    "blockers" ~> strs ["SETTLEMENT_MISSING"; "FILL_MODEL_MISSING"; "FEE_UNKNOWN"]
  ].

Definition data_RFQ_PUBLIC : json :=
  obj [
    "inputs" ~> strs ["FRESH_RFQ_CREATED_DELETED"; "KALSHI_L1"; "KALSHI_L2"];
    "can_compute_now" ~> obj [
      "signal_event" ~> JStr "NO";
      "conditional_markout" ~> JStr "NO";
      "strict_fill" ~> JStr "NO";
      "fee_after_shadow_pnl" ~> JStr "NO";
      "settlement_pnl" ~> JStr "NO";
      "realized_pnl" ~> JStr "NO"
    ];
    "currently_calculable" ~> JStr "Code for D01-D07 exists, but the unified durable release chain has not produced a locally available eligible RFQ result.";
    "missing" ~> strs [
      "eligible fresh exact-version RFQ releases";
      "same-date exact CLOB joins";
      "own CLOB order counterfactual for risk-off PnL"
    ];
    "acquisition_paths" ~> strs [
      "finish RFQ unified seal/verify/release chain";
      "run D01-D07 against same-date L1/L2";
      "capture own shadow maker order state"
    ];
    "blockers" ~> strs ["RFQ_PUBLIC_DATA_UNRELEASED"; "FILL_MODEL_MISSING"; "LATENCY_UNMEASURED"]
  ].

Definition data_RFQ_PRIVATE : json :=
  obj [
    "inputs" ~> strs [
      "FRESH_RFQ_CREATED_DELETED";
      "PRIVATE_QUOTE_ACCEPT_CONFIRM_EXECUTE";
      "PRIVATE_FILLS_FEES";
      "KALSHI_L2"
    ];
    "can_compute_now" ~> obj [
      "signal_event" ~> JStr "NO";
      "conditional_markout" ~> JStr "NO";
      "strict_fill" ~> JStr "NO";
      "fee_after_shadow_pnl" ~> JStr "NO";
      "settlement_pnl" ~> JStr "NO";
      "realized_pnl" ~> JStr "NO"
    ];
    "currently_calculable" ~> JStr "Public RFQ create/delete cannot establish direction, acceptance, fill, fee, inventory, hedge or realized PnL.";
    "missing" ~> strs [
      "separate RFQ quote-write authority";
      "private accepted_side/confirm/executed lifecycle";
      "quote-to-fill correlation, exact fees and hedge depth"
    ];
    "acquisition_paths" ~> strs [
      "separately authorized RFQ shadow/micro-live participant";
      "communications private events";
      "Kalshi portfolio fills and position/settlement reconciliation"
    ];
    "blockers" ~> strs [
      "RFQ_PUBLIC_DATA_UNRELEASED";
      "RFQ_PRIVATE_EVENTS_MISSING";
      "VENUE_PERMISSION_MISSING";
      "FEE_UNKNOWN";
      "LATENCY_UNMEASURED"
    ]
  ].

Definition data_MVE_PRIVATE : json :=
  obj [
    "inputs" ~> strs [
      "EXACT_VERSION_MVE_CATALOG_AND_RULES";
      "AUDITED_MVE_LEG_ORIENTATION_AND_PAYOUT_MATRIX";
      "PRIVATE_MVE_PACKAGE_ORDER_ACK_FILL_FEE";
      "PRIVATE_LEG_FILLS_POSITIONS_AND_SETTLEMENT";
      "SEQUENCE_VALID_KALSHI_L2"
    ];
    "can_compute_now" ~> obj [
      "signal_event" ~> JStr "NO";
      "conditional_markout" ~> JStr "NO";
      "strict_fill" ~> JStr "NO";
      "fee_after_shadow_pnl" ~> JStr "NO";
      "settlement_pnl" ~> JStr "NO";
      "realized_pnl" ~> JStr "NO"
    ];
    "currently_calculable" ~> JStr "No admitted private MVE package lifecycle, exact leg/payout mapping, or package-to-position reconciliation is bound. RFQ public/private events are not an MVE substitute.";
    "missing" ~> strs [
      "exact-version MVE catalog, leg orientation and payout matrix";
      "private MVE package submit/ack/cancel/fill/fee lifecycle";
      "synchronized hedge-leg L2, fills, positions and settlement"
    ];
    "acquisition_paths" ~> strs [
      "capture the admitted MVE catalog and rules append-only";
      "separately authorized private MVE execution/shadow receipts";
      "join package and leg events to positions, fees and settlements"
    ];
    "blockers" ~> strs [
      "MVE_PRIVATE_EVENTS_MISSING";
      "INSTRUMENT_MAPPING_UNKNOWN";
      "PAYOUT_EXHAUSTIVENESS_MISSING";
      "MULTI_LEG_ENGINE_MISSING";
      "VENUE_PERMISSION_MISSING";
      "FEE_UNKNOWN";
      "LATENCY_UNMEASURED"
    ]
  ].

Definition data_EXTERNAL : json :=
  obj [
    "inputs" ~> strs ["EXTERNAL_SPORTS_ASOF"; "KALSHI_L1"; "KALSHI_L2"];
    "can_compute_now" ~> obj [
      "signal_event" ~> JStr "NO";
      "conditional_markout" ~> JStr "NO";
      "strict_fill" ~> JStr "NO";
      "fee_after_shadow_pnl" ~> JStr "NO";
      "settlement_pnl" ~> JStr "NO";
      "realized_pnl" ~> JStr "NO"
    ];
    "currently_calculable" ~> JStr "No score, serve, injury, lineup or external-odds feed is present in the exact DeepResearch data. Price proxies are forbidden.";
    "missing" ~> strs [
      "licensed direct sports/odds source";
      "source event timestamp and local receive clocks";
      "versioned event/market mapping and point-in-time snapshots"
    ];
    "acquisition_paths" ~> strs [
      "append-only Kalshi Milestones/Live Data capture for direct labels";
      "licensed provider historical backfill where point-in-time semantics exist";
      "forward commercial real-time feed with raw bytes and dual receive clocks"
    ];
    "blockers" ~> strs [
      "EXTERNAL_SPORTS_DATA_MISSING";
      "EXTERNAL_API_UNVERIFIED";
      "TIMESTAMP_SEMANTICS_UNKNOWN"
    ]
  ].

Definition data_CATALOG : json :=
  obj [
    "inputs" ~> strs ["KALSHI_CATALOG_AND_MARKET_RULES"];
    "can_compute_now" ~> obj [
      "signal_event" ~> JStr "PARTIAL";
      "conditional_markout" ~> JStr "NO";
      "strict_fill" ~> JStr "NO";
      "fee_after_shadow_pnl" ~> JStr "NO";
      "settlement_pnl" ~> JStr "NO";
      "realized_pnl" ~> JStr "NO"
    ];
    "currently_calculable" ~> JStr "Schema/coverage only; no action or cash PnL.";
    "missing" ~> strs ["versioned semantics for any unsupported instrument"];
    "acquisition_paths" ~> strs ["Kalshi public catalog/rules captured by exact version"];
    "blockers" ~> JList []
  ].

Definition data_MODEL : json :=
  obj [
    "inputs" ~> strs ["OWNER_EXPERIMENT_FEATURES_AND_LABEL"];
    "can_compute_now" ~> obj [
      "signal_event" ~> JStr "PARTIAL";
      "conditional_markout" ~> JStr "PARTIAL";
      "strict_fill" ~> JStr "NO";
      "fee_after_shadow_pnl" ~> JStr "NO";
      "settlement_pnl" ~> JStr "NO";
      "realized_pnl" ~> JStr "NO"
    ];
    "currently_calculable" ~> JStr "Chronological forecast comparisons are possible only after a specific owner, label and split are bound; a model is not a strategy.";
    "missing" ~> strs [
      "one owner experiment with frozen action and outcome label";
      "nested chronological split and simple-model baseline";
      "owner execution PnL"
    ];
    "acquisition_paths" ~> strs ["create a separate G-method x owner experiment revision"];
    "blockers" ~> strs ["ACTION_INCOMPLETE"]
  ].

Definition data_META : json :=
  obj [
    "inputs" ~> strs ["CONFIRMED_CHILD_STRATEGY_OUTPUTS"; "COMMON_ROOT_LEDGER"];
    "can_compute_now" ~> obj [
      "signal_event" ~> JStr "PARTIAL";
      "conditional_markout" ~> JStr "NO";
      "strict_fill" ~> JStr "NO";
      "fee_after_shadow_pnl" ~> JStr "NO";
      "settlement_pnl" ~> JStr "NO";
      "realized_pnl" ~> JStr "NO"
    ];
    "currently_calculable" ~> JStr "Overlap/covariance descriptions are possible; a router or portfolio PnL is not estimable without confirmed children.";
    "missing" ~> strs [
      "at least one or two confirmed child strategies as applicable";
      "joint root-deduped execution and capital ledger";
      "switch/overlap/correlation costs"
    ];
    "acquisition_paths" ~> strs [
      "complete child confirmation first";
      "joint shadow replay with shared order/risk ledger"
    ];
    "blockers" ~> strs ["CONFIRMED_CHILD_STRATEGIES_MISSING"]
  ].

Definition data_PRIVATE : json :=
  obj [
    "inputs" ~> strs ["PRIVATE_ACCOUNT_ORDERS_POSITIONS_FILLS"];
    "can_compute_now" ~> obj [
      "signal_event" ~> JStr "NO";
      "conditional_markout" ~> JStr "NO";
      "strict_fill" ~> JStr "NO";
      "fee_after_shadow_pnl" ~> JStr "NO";
      "settlement_pnl" ~> JStr "NO";
      "realized_pnl" ~> JStr "NO"
    ];
    "currently_calculable" ~> JStr "Public research data cannot establish account ownership conflicts.";
    "missing" ~> strs [
      "private open-order/position/fill ownership state";
      "manual/system precedence and STP receipts"
    ];
    "acquisition_paths" ~> strs [
      "read-only private account snapshots";
      "system-owned order registry and reconciliation ledger"
    ];
    "blockers" ~> strs ["PRIVATE_ACCOUNT_STATE_MISSING"]
  ].

Definition data_OUT_OF_SCOPE : json :=
  obj [
    "inputs" ~> JList [];
    "can_compute_now" ~> obj [
      "signal_event" ~> JStr "NO";
      "conditional_markout" ~> JStr "NO";
      "strict_fill" ~> JStr "NO";
      "fee_after_shadow_pnl" ~> JStr "NO";
      "settlement_pnl" ~> JStr "NO";
      "realized_pnl" ~> JStr "NO"
    ];
    "currently_calculable" ~> JStr "No computation in the current Sports program.";
    "missing" ~> strs ["separate program authority and registry lineage"];
    "acquisition_paths" ~> strs ["new operator-approved program, if ever desired"];
    "blockers" ~> strs ["OUT_OF_SCOPE_CURRENT_PROGRAM"]
  ].

Definition data_INTERNAL_CONTROL : json :=
  obj [
    "inputs" ~> strs ["INTERNAL_SEALED_RESEARCH_DATA"];
    "can_compute_now" ~> obj [
      "signal_event" ~> JStr "PARTIAL";
      "conditional_markout" ~> JStr "PARTIAL";
      "strict_fill" ~> JStr "NO";
      "fee_after_shadow_pnl" ~> JStr "NO";
      "settlement_pnl" ~> JStr "NO";
      "realized_pnl" ~> JStr "NO"
    ];
    "currently_calculable" ~> JStr "Diagnostic/control statistic only; no trading action.";
    "missing" ~> JList [];
    "acquisition_paths" ~> strs ["existing sealed research releases"];
    "blockers" ~> JList []
  ].

Definition data_OWNER_EVPI : json :=
  obj [
    "inputs" ~> strs [
      "IMMUTABLE_OWNER_CARD_ID_REVISION_DEFINITION_SHA";
      "OWNER_DECISION_AND_OPPORTUNITY_LEDGER";
      "FROZEN_OWNER_LOSS_FUNCTIONAL";
      "FROZEN_NON_CAUSAL_FUTURE_ORACLE_RULE";
      "KALSHI_L1";
      "PUBLIC_TRADES";
      "SEQUENCE_VALID_KALSHI_L2";
      "CATALOG"
    ];
    "can_compute_now" ~> obj [
      "signal_event" ~> JStr "NO";
      "conditional_markout" ~> JStr "NO";
      "strict_fill" ~> JStr "NO";
      "fee_after_shadow_pnl" ~> JStr "NO";
      "settlement_pnl" ~> JStr "NO";
      "realized_pnl" ~> JStr "NO"
    ];
    "currently_calculable" ~> JStr "The future L1/L2 path exists, but EVPI is undefined until an immutable eligible owner card, its actual decision/opportunity ledger, loss functional and oracle rule are frozen.";
    "missing" ~> strs [
      "confirmed immutable owner card ID, revision and definition SHA";
      "owner decision/opportunity ledger including abstentions and zeros";
      "frozen loss functional and non-causal future-oracle rule"
    ];
    "acquisition_paths" ~> strs [
      "confirm an eligible owner experiment first";
      "seal the owner's shadow decision/opportunity ledger by exact release";
      "preregister loss and oracle functions before future-path evaluation"
    ];
    "blockers" ~> strs ["CONFIRMED_CHILD_STRATEGIES_MISSING"]
  ].

Definition data_profiles : list (string * json) := [
  "L1" ~> data_L1;
  "L2" ~> data_L2;
  "L1_L2" ~> data_L1_L2;
  "L1_PRIVATE" ~> data_L1_PRIVATE;
  "FAMILY" ~> data_FAMILY;
  "TERMINAL" ~> data_TERMINAL;
  "RFQ_PUBLIC" ~> data_RFQ_PUBLIC;
  "RFQ_PRIVATE" ~> data_RFQ_PRIVATE;
  "MVE_PRIVATE" ~> data_MVE_PRIVATE;
  "EXTERNAL" ~> data_EXTERNAL;
  "CATALOG" ~> data_CATALOG;
  "MODEL" ~> data_MODEL;
  "META" ~> data_META;
  "PRIVATE" ~> data_PRIVATE;
  "OUT_OF_SCOPE" ~> data_OUT_OF_SCOPE;
  "INTERNAL_CONTROL" ~> data_INTERNAL_CONTROL;
  "OWNER_EVPI" ~> data_OWNER_EVPI
].

(** [copy.deepcopy(profiles[name])] *)
Definition _data_profile (name : string) : result json :=
  or_raise (KeyError name) (assoc name data_profiles).
