(* ===== verification/Seeds.v ===== *)
(** * Card seeds

    [tools/experiment_registry_seeds.py]: the 106 registrations in source
    order, [_register] with its rejection of a second registration of an ID,
    [_register_model] and [_validate_seeds], the check the module runs when it
    is imported.

    A seed is a dict with fixed keys: the records [seed] and [signal_spec], with
    [seed_dict] and [signal_dict] as the dicts the code sees.  The keyword
    arguments of [_register] are the record [register_args]. *)

From stdpp Require Import base list strings numbers.
From Stdlib Require Import ZArith Lia Bool Ascii.
From S2P Require Import Prelude PyJson.

Record signal_spec := SignalSpec {
  trigger : string;
  direction_semantics : string;
  decision_clock : string;
  forecast_horizon : string;
  falsifier : string
}.

Record seed := Seed {
  hypothesis : string;
  signal : signal_spec;
  action_profile : string;
  data_profile : string;
  external_dependency : string;
  target_class : string;
  result_status : string;
  claim_tier : string;
  extra_blockers : list string
}.

Definition signal_dict (s : signal_spec) : json := obj [
  "trigger" ~> JStr (trigger s);
  "direction_semantics" ~> JStr (direction_semantics s);
  "decision_clock" ~> JStr (decision_clock s);
  "forecast_horizon" ~> JStr (forecast_horizon s);
  "falsifier" ~> JStr (falsifier s)
].

Definition seed_dict (s : seed) : json := obj [
  "hypothesis" ~> JStr (hypothesis s);
  "signal" ~> signal_dict (signal s);
  "action_profile" ~> JStr (action_profile s);
  "data_profile" ~> JStr (data_profile s);
  "external_dependency" ~> JStr (external_dependency s);
  "target_class" ~> JStr (target_class s);
  "result_status" ~> JStr (result_status s);
  "claim_tier" ~> JStr (claim_tier s);
  "extra_blockers" ~> strs (extra_blockers s)
].

(** The arguments of one call of [_register]. *)
Record register_args := RegisterArgs {
  experiment_id : string;
  arg_hypothesis : string;
  arg_trigger : string;
  arg_direction_semantics : string;
  arg_decision_clock : string;
  arg_forecast_horizon : string;
  arg_falsifier : string;
  arg_action_profile : string;
  arg_data_profile : string;
  arg_external_dependency : string;
  arg_target_class : string;
  arg_result_status : string;
  arg_claim_tier : string;
  arg_extra_blockers : list string
}.

(** The dict entry [_register] stores. *)
Definition seed_of_args (a : register_args) : seed := {|
  hypothesis := arg_hypothesis a;
  signal := {|
    trigger := arg_trigger a;
    direction_semantics := arg_direction_semantics a;
    decision_clock := arg_decision_clock a;
    forecast_horizon := arg_forecast_horizon a;
    falsifier := arg_falsifier a
  |};
  action_profile := arg_action_profile a;
  data_profile := arg_data_profile a;
  external_dependency := arg_external_dependency a;
  target_class := arg_target_class a;
  result_status := arg_result_status a;
  claim_tier := arg_claim_tier a;
  extra_blockers := arg_extra_blockers a
|}.

(** [_register]: the store is the module-level dict [CARD_SEEDS]. *)
Definition _register (CARD_SEEDS : list (string * seed)) (a : register_args)
    : result (list (string * seed)) :=
  match assoc (experiment_id a) CARD_SEEDS with
  | Some _ => Raise (ValueError ("duplicate experiment seed: " +:+ experiment_id a))
  | None => Ok (assoc_set (experiment_id a) (seed_of_args a) CARD_SEEDS)
  end.

Definition _RECEIVE : string := "LOCAL_RECEIVE_CLOCK_PAST_ONLY".
Definition _RFQ_RECEIVE : string := "RFQ_LOCAL_RECEIVE_CLOCK_PAST_ONLY".
Definition _PRIVATE_RFQ : string := "PRIVATE_RFQ_EVENT_RECEIVE_CLOCK_PAST_ONLY".
Definition _EXTERNAL_CLOCK : string := "EXTERNAL_PUBLICATION_AND_LOCAL_RECEIVE_CLOCK_PAST_ONLY".
Definition _TERMINAL_CLOCK : string := "VENUE_LIFECYCLE_RECEIVE_CLOCK_PAST_ONLY".
Definition _DAY_CLOCK : string := "UTC_DAY_BOUNDARY_WITH_PAST_ONLY_FEATURES".

(** [_register_model]: a base model method is a signal component. *)
Definition _register_model (id hyp trig horizon fals : string) : register_args := {|
  experiment_id := id;
  arg_hypothesis := hyp;
  arg_trigger := trig;
  arg_direction_semantics := "inherits the exact owner label and orientation; the model method cannot invent a side, fill, action, or missing sports state";
  arg_decision_clock := _RECEIVE;
  arg_forecast_horizon := horizon;
  arg_falsifier := fals;
  arg_action_profile := "MODEL_COMPONENT";
  arg_data_profile := "MODEL";
  arg_external_dependency := "INHERIT_OWNER";
  arg_target_class := "SIGNAL";
  arg_result_status := "BLOCKED_OWNER";
  arg_claim_tier := "MODEL_COMPONENT_ONLY";
  arg_extra_blockers := ["ACTION_INCOMPLETE"; "INSUFFICIENT_QUALITY_DATES"]
|}.

(** ** A: microstructure, single-name book dynamics, and maker policies *)

Definition seed_A01 : register_args := {|
  experiment_id := "A01-SPREAD-CAPTURE";
  arg_hypothesis := "In eligible two-sided states, passive spread capture remains positive after strict fills, adverse selection, forced exit, and exact fees.";
  arg_trigger := "executable spread exceeds frozen fee, markout, exit, and safety buffers";
  arg_direction_semantics := "two-sided passive quote; no directional forecast";
  arg_decision_clock := _RECEIVE;
  arg_forecast_horizon := "fill path through 100ms, 1s, 5s, and frozen exit deadline";
  arg_falsifier := "pessimistic root-event fee-after PnL is non-positive on any required clean date";
  arg_action_profile := "MAKER_SPREAD";
  arg_data_profile := "L1";
  arg_external_dependency := "NOT_REQUIRED";
  arg_target_class := "EXECUTABLE_STRATEGY";
  arg_result_status := "PARTIAL_EVIDENCE";
  arg_claim_tier := "PNL_NOT_ESTIMATED";
  arg_extra_blockers := ["FEE_UNKNOWN"; "FILL_MODEL_MISSING"; "LATENCY_UNMEASURED"]
|}.

Definition seed_A02 : register_args := {|
  experiment_id := "A02-TOXICITY-MARKOUT";
  arg_hypothesis := "A past-only toxicity score identifies resting quotes whose cancellation avoids more adverse-selection loss than the spread opportunity forfeited.";
  arg_trigger := "signed flow and quote-state toxicity crosses the frozen vulnerable-side threshold";
  arg_direction_semantics := "cancel the quote exposed to the predicted adverse move; never open risk";
  arg_decision_clock := _RECEIVE;
  arg_forecast_horizon := "cancel-effective time, 100ms, 1s, and 5s";
  arg_falsifier := "signal-gated maker does not beat the identical unfiltered maker after costs";
  arg_action_profile := "MAKER_FILTER";
  arg_data_profile := "L1";
  arg_external_dependency := "NOT_REQUIRED";
  arg_target_class := "EXECUTABLE_STRATEGY";
  arg_result_status := "DESCRIPTIVE_ONLY";
  arg_claim_tier := "MECHANISM_ONLY";
  arg_extra_blockers := ["OWN_ORDER_CALIBRATION_MISSING"; "LATENCY_UNMEASURED"; "FEE_UNKNOWN"]
|}.

Definition seed_A03 : register_args := {|
  experiment_id := "A03-DEPLETION-REFILL";
  arg_hypothesis := "Persistent refill after a level depletion creates a safer passive re-entry window than immediate replacement or permanent abstention.";
  arg_trigger := "registered level depletes and refill hazard plus persistence gates both pass";
  arg_direction_semantics := "post only on the enumerated depleted side after refill confirmation";
  arg_decision_clock := _RECEIVE;
  arg_forecast_horizon := "10ms through 1s refill window plus frozen inventory exit";
  arg_falsifier := "refill-conditioned strict-fill PnL is non-positive or no better than immediate re-entry";
  arg_action_profile := "MAKER_REFILL";
  arg_data_profile := "L2";
  arg_external_dependency := "NOT_REQUIRED";
  arg_target_class := "EXECUTABLE_STRATEGY";
  arg_result_status := "PARTIAL_EVIDENCE";
  arg_claim_tier := "MECHANISM_ONLY";
  arg_extra_blockers := ["OWN_ORDER_CALIBRATION_MISSING"; "FEE_UNKNOWN"; "INSUFFICIENT_QUALITY_DATES"]
|}.

Definition seed_A04 : register_args := {|
  experiment_id := "A04-QUEUE-LAMBDA-DISTANCE";
  arg_hypothesis := "Quote distance and age provide an own-order-calibrated fill-intensity surface that improves the join, improve, or abstain decision.";
  arg_trigger := "calibrated benign-fill intensity at a registered distance exceeds its adverse-fill hazard";
  arg_direction_semantics := "place one passive quote on the side and distance explicitly enumerated by the owner card";
  arg_decision_clock := _RECEIVE;
  arg_forecast_horizon := "quote lifetime through fill, cancel acknowledgement, or timeout";
  arg_falsifier := "public queue proxy fails to predict private own-order fills or fee-after PnL";
  arg_action_profile := "PASSIVE_FADE";
  arg_data_profile := "L1";
  arg_external_dependency := "NOT_REQUIRED";
  arg_target_class := "EXECUTABLE_STRATEGY";
  arg_result_status := "BLOCKED_DATA";
  arg_claim_tier := "NO_CLAIM";
  arg_extra_blockers := ["OWN_ORDER_CALIBRATION_MISSING"; "FILL_MODEL_MISSING"; "FEE_UNKNOWN"]
|}.

Definition seed_A05 : register_args := {|
  experiment_id := "A05-SNBD-LIQUIDITY-REGIMES";
  arg_hypothesis := "Past-only single-name book states select maker regimes with higher fee-after PnL than quoting throughout every valid state.";
  arg_trigger := "registered SNBD state enters a state-action cell with positive frozen training edge";
  arg_direction_semantics := "two-sided or enumerated one-sided passive action owned by the selected state cell";
  arg_decision_clock := _RECEIVE;
  arg_forecast_horizon := "state dwell, transition, fill path, and frozen exit deadline";
  arg_falsifier := "state filtering has no incremental root-event PnL over the always-valid-state maker";
  arg_action_profile := "MAKER_FILTER";
  arg_data_profile := "L2";
  arg_external_dependency := "NOT_REQUIRED";
  arg_target_class := "EXECUTABLE_STRATEGY";
  arg_result_status := "DESCRIPTIVE_ONLY";
  arg_claim_tier := "MECHANISM_ONLY";
  arg_extra_blockers := ["OWN_ORDER_CALIBRATION_MISSING"; "FEE_UNKNOWN"; "INSUFFICIENT_QUALITY_DATES"]
|}.

Definition seed_A06 : register_args := {|
  experiment_id := "A06-QUOTE-LIFETIME-BURST";
  arg_hypothesis := "Very short quote lifetimes and update bursts lead toxic moves early enough for cancellation to improve a maker's PnL.";
  arg_trigger := "quote-lifetime lower-tail event coincides with a frozen update-rate burst";
  arg_direction_semantics := "cancel or widen the affected side; an unsigned burst cancels both sides";
  arg_decision_clock := _RECEIVE;
  arg_forecast_horizon := "cancel-effective latency, 100ms, 1s, and 5s";
  arg_falsifier := "the burst does not lead adverse executable movement or false pauses erase avoided loss";
  arg_action_profile := "MAKER_FILTER";
  arg_data_profile := "L1";
  arg_external_dependency := "NOT_REQUIRED";
  arg_target_class := "EXECUTABLE_STRATEGY";
  arg_result_status := "DESCRIPTIVE_ONLY";
  arg_claim_tier := "MECHANISM_ONLY";
  arg_extra_blockers := ["OWN_ORDER_CALIBRATION_MISSING"; "LATENCY_UNMEASURED"; "FEE_UNKNOWN"]
|}.

Definition seed_A07A : register_args := {|
  experiment_id := "A07A-OCCUPANCY-FINGERPRINT";
  arg_hypothesis := "An occupancy fingerprint adds fee-after market-selection value beyond volume, spread, and activity without asserting participant identity.";
  arg_trigger := "past-only occupancy score admits a market after simple-selector controls";
  arg_direction_semantics := "route only an already registered child action; occupancy supplies no side";
  arg_decision_clock := _RECEIVE;
  arg_forecast_horizon := "selected child root-event path and UTC-day portfolio result";
  arg_falsifier := "nested out-of-fold child PnL does not improve over the simple selector";
  arg_action_profile := "ROUTER";
  arg_data_profile := "L1_L2";
  arg_external_dependency := "NOT_REQUIRED";
  arg_target_class := "EXECUTABLE_STRATEGY";
  arg_result_status := "BLOCKED_CHILDREN";
  arg_claim_tier := "PNL_NOT_ESTIMATED";
  arg_extra_blockers := ["CONFIRMED_CHILD_STRATEGIES_MISSING"; "INSUFFICIENT_QUALITY_DATES"]
|}.

Definition seed_A07B : register_args := {|
  experiment_id := "A07B-COORDINATED-RETREAT";
  arg_hypothesis := "Coordinated multi-level retreat leads adverse movement by more than cancel-effective latency, so a retreat kill reduces losses.";
  arg_trigger := "frozen multi-level depth-retreat score crosses its kill threshold";
  arg_direction_semantics := "cancel the side losing depth; cancel both if retreat direction is ambiguous";
  arg_decision_clock := _RECEIVE;
  arg_forecast_horizon := "retreat onset to cancel-effective time, 100ms, 1s, and 5s";
  arg_falsifier := "retreat has no safety lead or avoided loss is smaller than false-kill opportunity cost";
  arg_action_profile := "MAKER_FILTER";
  arg_data_profile := "L2";
  arg_external_dependency := "NOT_REQUIRED";
  arg_target_class := "EXECUTABLE_STRATEGY";
  arg_result_status := "PARTIAL_EVIDENCE";
  arg_claim_tier := "MECHANISM_ONLY";
  arg_extra_blockers := ["LATENCY_UNMEASURED"; "OWN_ORDER_CALIBRATION_MISSING"; "INSUFFICIENT_QUALITY_DATES"]
|}.

Definition seed_A07C : register_args := {|
  experiment_id := "A07C-ADVERSE-SELECTION-TRANSFER";
  arg_hypothesis := "Toxic flow or retreat in one canonically linked market transfers adverse selection to a sibling book before that book reprices.";
  arg_trigger := "age-aligned source toxicity event occurs while the target quote remains unchanged";
  arg_direction_semantics := "cancel the target side exposed by the canonical outcome mapping; abstain if mapping is unknown";
  arg_decision_clock := _RECEIVE;
  arg_forecast_horizon := "source event through target cancel-effective time and 5s";
  arg_falsifier := "target adverse markout is absent after age, root, liquidity, and placebo controls";
  arg_action_profile := "MAKER_FILTER";
  arg_data_profile := "L1_L2";
  arg_external_dependency := "NOT_REQUIRED";
  arg_target_class := "EXECUTABLE_STRATEGY";
  arg_result_status := "BLOCKED_MAPPING";
  arg_claim_tier := "NO_CLAIM";
  arg_extra_blockers := ["INSTRUMENT_MAPPING_UNKNOWN"; "LATENCY_UNMEASURED"; "FEE_UNKNOWN"]
|}.

Definition seed_A07D : register_args := {|
  experiment_id := "A07D-ANCHOR-MANIPULABILITY";
  arg_hypothesis := "Rejecting a fair-value anchor when its visible cost-to-move is small prevents more downstream strategy loss than it sacrifices.";
  arg_trigger := "anchor depth and cost-to-move fall below frozen robustness thresholds";
  arg_direction_semantics := "cancel affected child quotes and forbid new risk; the anchor never creates a directional trade";
  arg_decision_clock := _RECEIVE;
  arg_forecast_horizon := "anchor fragility episode through child recovery and exit";
  arg_falsifier := "fragility gating does not improve the identical child policy or an independent anchor is unaffected";
  arg_action_profile := "MAKER_FILTER";
  arg_data_profile := "L1_L2";
  arg_external_dependency := "NOT_REQUIRED";
  arg_target_class := "EXECUTABLE_STRATEGY";
  arg_result_status := "BLOCKED_DATA";
  arg_claim_tier := "NO_CLAIM";
  arg_extra_blockers := ["MISSING_SIGNAL_INPUT"; "OWN_ORDER_CALIBRATION_MISSING"; "FEE_UNKNOWN"]
|}.

Definition seed_A08 : register_args := {|
  experiment_id := "A08-PRICE-GRID-ROUND-NUMBER";
  arg_hypothesis := "Round-number price levels have a reproducible fill-minus-markout difference large enough to justify a one-tick quote adjustment.";
  arg_trigger := "quote enters a frozen grid-distance cell with positive incremental training economics";
  arg_direction_semantics := "cancel and replace at the enumerated safer or higher-value tick; no side is inferred from roundness";
  arg_decision_clock := _RECEIVE;
  arg_forecast_horizon := "quote lifetime, fill path, 1s markout, and exit";
  arg_falsifier := "grid-conditioned fee-after PnL is no better than the same quote without grid adjustment";
  arg_action_profile := "MAKER_FILTER";
  arg_data_profile := "L1";
  arg_external_dependency := "NOT_REQUIRED";
  arg_target_class := "EXECUTABLE_STRATEGY";
  arg_result_status := "DESCRIPTIVE_ONLY";
  arg_claim_tier := "MECHANISM_ONLY";
  arg_extra_blockers := ["OWN_ORDER_CALIBRATION_MISSING"; "FEE_UNKNOWN"; "LATENCY_UNMEASURED"]
|}.

Definition seed_A09 : register_args := {|
  experiment_id := "A09-LIQUIDITY-SEASONALITY";
  arg_hypothesis := "A frozen time or phase schedule can abstain from loss-making maker windows while retaining positive windows.";
  arg_trigger := "past-only time-phase cell is on the frozen allowlist and data quality is valid";
  arg_direction_semantics := "time selects an authorized child but supplies no market side";
  arg_decision_clock := _RECEIVE;
  arg_forecast_horizon := "active window, child fill path, and UTC-day PnL";
  arg_falsifier := "scheduled routing fails to beat the same child active throughout all valid windows";
  arg_action_profile := "ROUTER";
  arg_data_profile := "L1";
  arg_external_dependency := "NOT_REQUIRED";
  arg_target_class := "EXECUTABLE_STRATEGY";
  arg_result_status := "DESCRIPTIVE_ONLY";
  arg_claim_tier := "PNL_NOT_ESTIMATED";
  arg_extra_blockers := ["FEE_UNKNOWN"; "FILL_MODEL_MISSING"; "INSUFFICIENT_QUALITY_DATES"]
|}.

Definition seed_A10 : register_args := {|
  experiment_id := "A10-CROSS-MARKET-QUOTE-SPILLOVER";
  arg_hypothesis := "A canonically linked leader quote change reaches a follower slowly enough for defensive cancellation or repricing to reduce loss.";
  arg_trigger := "age-aligned leader moves while follower executable quote is stale";
  arg_direction_semantics := "map leader outcome to follower side through audited identity; unknown mapping means abstain";
  arg_decision_clock := _RECEIVE;
  arg_forecast_horizon := "10ms through 5s plus follower cancel-effective time";
  arg_falsifier := "time reversal, unrelated-root, or stale-age controls match the observed follower response";
  arg_action_profile := "MAKER_FILTER";
  arg_data_profile := "FAMILY";
  arg_external_dependency := "NOT_REQUIRED";
  arg_target_class := "EXECUTABLE_STRATEGY";
  arg_result_status := "BLOCKED_MAPPING";
  arg_claim_tier := "NO_CLAIM";
  arg_extra_blockers := ["INSTRUMENT_MAPPING_UNKNOWN"; "LATENCY_UNMEASURED"; "FEE_UNKNOWN"]
|}.

Definition seed_A11 : register_args := {|
  experiment_id := "A11-ONE-SIDED-PROVISION";
  arg_hypothesis := "Supplying the missing side of a persistent one-sided book earns positive fee-after PnL after inventory exit risk.";
  arg_trigger := "valid bid-only or ask-only state persists past the frozen dwell gate";
  arg_direction_semantics := "post only the explicitly missing YES-normalized side";
  arg_decision_clock := _RECEIVE;
  arg_forecast_horizon := "one-sided dwell through fill, topology recovery, or forced exit";
  arg_falsifier := "missing-side strict fills are absent or their adverse/exit loss exceeds captured spread";
  arg_action_profile := "PASSIVE_FADE";
  arg_data_profile := "L1";
  arg_external_dependency := "NOT_REQUIRED";
  arg_target_class := "EXECUTABLE_STRATEGY";
  arg_result_status := "DESCRIPTIVE_ONLY";
  arg_claim_tier := "PNL_NOT_ESTIMATED";
  arg_extra_blockers := ["FILL_MODEL_MISSING"; "FEE_UNKNOWN"; "LATENCY_UNMEASURED"]
|}.

Definition seed_A12 : register_args := {|
  experiment_id := "A12-GENERIC-PASSIVE-SCALPING";
  arg_hypothesis := "A passive entry and passive exit inside a stable range survives strict two-leg fills, fees, and breakout loss.";
  arg_trigger := "frozen range, spread, volatility, and depth gates admit a round-trip opportunity";
  arg_direction_semantics := "enter on the enumerated cheap side and exit the same inventory; never count unmatched legs as profit";
  arg_decision_clock := _RECEIVE;
  arg_forecast_horizon := "entry timeout through second fill or forced-exit deadline";
  arg_falsifier := "strict round trips vanish or breakout and forced-exit losses make root-event PnL non-positive";
  arg_action_profile := "PASSIVE_FADE";
  arg_data_profile := "L1";
  arg_external_dependency := "NOT_REQUIRED";
  arg_target_class := "EXECUTABLE_STRATEGY";
  arg_result_status := "BLOCKED_ENGINE";
  arg_claim_tier := "PNL_NOT_ESTIMATED";
  arg_extra_blockers := ["FILL_MODEL_MISSING"; "FEE_UNKNOWN"; "LATENCY_UNMEASURED"]
|}.

Definition seed_A13 : register_args := {|
  experiment_id := "A13-T90-RANGE";
  arg_hypothesis := "Past-only Tennis leader episodes in the 88–93 cent range provide a repeatable passive range-making edge after retreat and terminal risks.";
  arg_trigger := "authoritative Tennis mapping, prior two-way tug, 88–93 leader state, and depth gates all pass";
  arg_direction_semantics := "quote the registered high/low outcome mapping; leader flips cancel the episode";
  arg_decision_clock := _RECEIVE;
  arg_forecast_horizon := "T90 episode through retreat, timeout, forced exit, or settlement";
  arg_falsifier := "eligible episodes are too rare or pessimistic fee-after PnL is non-positive";
  arg_action_profile := "T90_RANGE";
  arg_data_profile := "L1_L2";
  arg_external_dependency := "NOT_REQUIRED";
  arg_target_class := "EXECUTABLE_STRATEGY";
  arg_result_status := "BLOCKED_AUTHORITY";
  arg_claim_tier := "NO_CLAIM";
  arg_extra_blockers := ["VENUE_PERMISSION_MISSING"; "INSUFFICIENT_QUALITY_DATES"; "FEE_UNKNOWN"]
|}.

Definition seed_A14 : register_args := {|
  experiment_id := "A14-T90-REBUILD";
  arg_hypothesis := "After a completed T90 retreat kill and zero-resting reconciliation, one rebuild re-entry adds positive PnL over never re-entering.";
  arg_trigger := "parent retreat completed, zero resting confirmed, and frozen rebuilt-depth gate passes";
  arg_direction_semantics := "one passive re-entry in the parent orientation; no second cycle";
  arg_decision_clock := _RECEIVE;
  arg_forecast_horizon := "rebuild window through one fill cycle, renewed retreat, or exit";
  arg_falsifier := "rebuild window closes before fill or paired incremental PnL over the parent is non-positive";
  arg_action_profile := "T90_REBUILD";
  arg_data_profile := "L1_L2";
  arg_external_dependency := "NOT_REQUIRED";
  arg_target_class := "EXECUTABLE_STRATEGY";
  arg_result_status := "BLOCKED_AUTHORITY";
  arg_claim_tier := "NO_CLAIM";
  arg_extra_blockers := [
    "VENUE_PERMISSION_MISSING";
    "OWN_ORDER_CALIBRATION_MISSING";
    "INSUFFICIENT_QUALITY_DATES"
  ]
|}.

Definition seed_A15 : register_args := {|
  experiment_id := "A15-FAIR-MICROPRICE-PAST-FLOW";
  arg_hypothesis := "A past-flow microprice estimates near-term executable fair value better than midpoint and improves maker repricing PnL.";
  arg_trigger := "microprice displacement exceeds the frozen reprice threshold and costs";
  arg_direction_semantics := "cancel and replace quotes around the signed microprice; no aggressive opening";
  arg_decision_clock := _RECEIVE;
  arg_forecast_horizon := "10ms, 100ms, 1s, and maker exit";
  arg_falsifier := "microprice forecast or fee-after maker increment does not beat midpoint";
  arg_action_profile := "MAKER_FILTER";
  arg_data_profile := "L1";
  arg_external_dependency := "NOT_REQUIRED";
  arg_target_class := "EXECUTABLE_STRATEGY";
  arg_result_status := "DESCRIPTIVE_ONLY";
  arg_claim_tier := "MECHANISM_ONLY";
  arg_extra_blockers := ["FILL_MODEL_MISSING"; "FEE_UNKNOWN"; "LATENCY_UNMEASURED"]
|}.

Definition seed_A16 : register_args := {|
  experiment_id := "A16-INVENTORY-RESERVATION-SKEW";
  arg_hypothesis := "Position-aware reservation-price skew reduces inventory tail loss without erasing spread capture.";
  arg_trigger := "authoritative position and frozen fair/volatility inputs imply a non-zero reservation skew";
  arg_direction_semantics := "widen the inventory-increasing side and improve only the reducing side";
  arg_decision_clock := _RECEIVE;
  arg_forecast_horizon := "position path through flat, risk timeout, or terminal";
  arg_falsifier := "skewed policy does not beat the same symmetric maker on PnL and tail risk";
  arg_action_profile := "SIZE_RISK";
  arg_data_profile := "L1_PRIVATE";
  arg_external_dependency := "NOT_REQUIRED";
  arg_target_class := "EXECUTABLE_STRATEGY";
  arg_result_status := "BLOCKED_DATA";
  arg_claim_tier := "NO_CLAIM";
  arg_extra_blockers := ["PRIVATE_ACCOUNT_STATE_MISSING"; "FEE_UNKNOWN"; "RISK_GATES_MISSING"]
|}.

Definition seed_A17 : register_args := {|
  experiment_id := "A17-DYNAMIC-QUOTE-RADIUS";
  arg_hypothesis := "A radius driven by past-only volatility and toxicity outperforms one fixed quote radius after fill and fee costs.";
  arg_trigger := "frozen volatility-toxicity cell maps to a radius different from the fixed baseline";
  arg_direction_semantics := "symmetrically widen or narrow unless a separately registered side signal exists";
  arg_decision_clock := _RECEIVE;
  arg_forecast_horizon := "quote lifetime, 1s adverse markout, and forced exit";
  arg_falsifier := "dynamic radius has no paired fee-after PnL improvement over fixed radius";
  arg_action_profile := "MAKER_FILTER";
  arg_data_profile := "L1";
  arg_external_dependency := "NOT_REQUIRED";
  arg_target_class := "EXECUTABLE_STRATEGY";
  arg_result_status := "DESCRIPTIVE_ONLY";
  arg_claim_tier := "PNL_NOT_ESTIMATED";
  arg_extra_blockers := ["FILL_MODEL_MISSING"; "FEE_UNKNOWN"; "INSUFFICIENT_QUALITY_DATES"]
|}.

Definition seed_A18 : register_args := {|
  experiment_id := "A18-TIME-SHRINKING-CAP";
  arg_hypothesis := "Reducing inventory caps as scheduled start or terminal approaches improves tail-adjusted PnL and capital use versus a constant cap.";
  arg_trigger := "time-to-start or time-to-terminal crosses a frozen cap step";
  arg_direction_semantics := "reduce or forbid risk-increasing orders; exits remain allowed";
  arg_decision_clock := _TERMINAL_CLOCK;
  arg_forecast_horizon := "cap step through start, settlement, or complete unwind";
  arg_falsifier := "shrinking caps do not improve worst-tail loss or commercial return on capital";
  arg_action_profile := "SIZE_RISK";
  arg_data_profile := "TERMINAL";
  arg_external_dependency := "NOT_REQUIRED";
  arg_target_class := "EXECUTABLE_STRATEGY";
  arg_result_status := "BLOCKED_DATA";
  arg_claim_tier := "NO_CLAIM";
  arg_extra_blockers := ["SETTLEMENT_MISSING"; "PRIVATE_ACCOUNT_STATE_MISSING"; "RISK_GATES_MISSING"]
|}.

Definition seed_A19 : register_args := {|
  experiment_id := "A19-NO-TRADE-QUOTE-JUMP";
  arg_hypothesis := "A quote jump with no intervening public trade reveals information risk that a trade-only kill misses.";
  arg_trigger := "executable quote moves by the frozen threshold with zero intervening trades";
  arg_direction_semantics := "cancel the side made stale by the quote jump; ambiguous gaps cancel both";
  arg_decision_clock := _RECEIVE;
  arg_forecast_horizon := "jump through cancel-effective time, 100ms, 1s, and 5s";
  arg_falsifier := "no-trade jumps do not lead adverse fills or are explained by gaps and reconnects";
  arg_action_profile := "MAKER_FILTER";
  arg_data_profile := "L1";
  arg_external_dependency := "NOT_REQUIRED";
  arg_target_class := "EXECUTABLE_STRATEGY";
  arg_result_status := "DESCRIPTIVE_ONLY";
  arg_claim_tier := "MECHANISM_ONLY";
  arg_extra_blockers := ["LATENCY_UNMEASURED"; "OWN_ORDER_CALIBRATION_MISSING"; "FEE_UNKNOWN"]
|}.

Definition seed_A20 : register_args := {|
  experiment_id := "A20-SYSTEM-LOAD-QUEUE-GROWTH";
  arg_hypothesis := "Local decision and send-queue growth predicts cancel-safety failure, so a load kill prevents losses.";
  arg_trigger := "decision age, send queue, or acknowledgement latency exceeds a frozen load threshold";
  arg_direction_semantics := "cancel all resting risk and forbid new risk until telemetry recovers";
  arg_decision_clock := "LOCAL_MONOTONIC_SYSTEM_AND_VENUE_RECEIVE_CLOCKS";
  arg_forecast_horizon := "load breach through cancel acknowledgement and reconciliation";
  arg_falsifier := "load telemetry has no relation to cancel misses or the kill loses more than it avoids";
  arg_action_profile := "MAKER_FILTER";
  arg_data_profile := "L1";
  arg_external_dependency := "NOT_REQUIRED";
  arg_target_class := "EXECUTABLE_STRATEGY";
  arg_result_status := "BLOCKED_DATA";
  arg_claim_tier := "NO_CLAIM";
  arg_extra_blockers := ["MISSING_SIGNAL_INPUT"; "LATENCY_UNMEASURED"; "OWN_ORDER_CALIBRATION_MISSING"]
|}.

(** ** B: directional, reversion, volatility, and certainty-tail policies *)

Definition seed_B01 : register_args := {|
  experiment_id := "B01-MOMENTUM-CONTINUATION";
  arg_hypothesis := "Signed flow, quote velocity, and depletion identify continuation large enough to survive aggressive entry, exit, fees, and latency.";
  arg_trigger := "frozen signed-flow continuation score exceeds all-in executable cost plus safety buffer";
  arg_direction_semantics := "positive score buys YES and negative score buys NO through an exhaustive orientation map";
  arg_decision_clock := _RECEIVE;
  arg_forecast_horizon := "100ms, 1s, 5s, and frozen time or reversal exit";
  arg_falsifier := "executable continuation after latency is non-positive or fee-after root PnL is non-positive";
  arg_action_profile := "TAKER_DIRECTIONAL";
  arg_data_profile := "L1";
  arg_external_dependency := "NOT_REQUIRED";
  arg_target_class := "EXECUTABLE_STRATEGY";
  arg_result_status := "BLOCKED_AUTHORITY";
  arg_claim_tier := "DESCRIPTIVE_ONLY";
  arg_extra_blockers := ["VENUE_PERMISSION_MISSING"; "FEE_UNKNOWN"; "LATENCY_UNMEASURED"]
|}.

Definition seed_B02 : register_args := {|
  experiment_id := "B02-MEAN-REVERSION";
  arg_hypothesis := "A shock followed by deceleration and opposing refill creates a passive fade whose reversal gain exceeds continuation loss and costs.";
  arg_trigger := "shock, deceleration, opposing refill, and stable-anchor gates all pass";
  arg_direction_semantics := "post one passive contract opposite the enumerated shock direction";
  arg_decision_clock := _RECEIVE;
  arg_forecast_horizon := "100ms through 30s or frozen continuation stop";
  arg_falsifier := "continuation-adjusted fee-after fade PnL is non-positive";
  arg_action_profile := "PASSIVE_FADE";
  arg_data_profile := "L1_L2";
  arg_external_dependency := "NOT_REQUIRED";
  arg_target_class := "EXECUTABLE_STRATEGY";
  arg_result_status := "DESCRIPTIVE_ONLY";
  arg_claim_tier := "MECHANISM_ONLY";
  arg_extra_blockers := ["FILL_MODEL_MISSING"; "FEE_UNKNOWN"; "INSUFFICIENT_QUALITY_DATES"]
|}.

Definition seed_B03 : register_args := {|
  experiment_id := "B03-POST-JUMP-CONTINUATION-VS-REVERSAL";
  arg_hypothesis := "Past-only post-jump state distinguishes follow from fade well enough to outperform either unconditional action.";
  arg_trigger := "jump classifier assigns follow or reverse with confidence above the frozen abstention threshold";
  arg_direction_semantics := "follow maps to jump sign, reverse maps against it, and uncertain state takes no order";
  arg_decision_clock := _RECEIVE;
  arg_forecast_horizon := "100ms, 1s, 5s, and registered stop";
  arg_falsifier := "chronological paired PnL fails to beat both always-follow and always-fade baselines";
  arg_action_profile := "TAKER_DIRECTIONAL";
  arg_data_profile := "L1";
  arg_external_dependency := "NOT_REQUIRED";
  arg_target_class := "EXECUTABLE_STRATEGY";
  arg_result_status := "BLOCKED_AUTHORITY";
  arg_claim_tier := "DESCRIPTIVE_ONLY";
  arg_extra_blockers := ["VENUE_PERMISSION_MISSING"; "FEE_UNKNOWN"; "LATENCY_UNMEASURED"]
|}.

Definition seed_B04 : register_args := {|
  experiment_id := "B04-LARGE-FLOW-CONTINUATION-VS-REVERSAL";
  arg_hypothesis := "Large public trades have a conditional continuation or reversal response that remains tradable after impact and costs.";
  arg_trigger := "trade size percentile and frozen post-trade book response select follow or fade";
  arg_direction_semantics := "use audited aggressor orientation; unknown trade side means abstain";
  arg_decision_clock := _RECEIVE;
  arg_forecast_horizon := "10ms through 30s and frozen exit";
  arg_falsifier := "large-flow conditional executable return is non-positive after fees and impact";
  arg_action_profile := "TAKER_DIRECTIONAL";
  arg_data_profile := "L1";
  arg_external_dependency := "NOT_REQUIRED";
  arg_target_class := "EXECUTABLE_STRATEGY";
  arg_result_status := "BLOCKED_AUTHORITY";
  arg_claim_tier := "DESCRIPTIVE_ONLY";
  arg_extra_blockers := ["VENUE_PERMISSION_MISSING"; "FEE_UNKNOWN"; "LATENCY_UNMEASURED"]
|}.

Definition seed_B05 : register_args := {|
  experiment_id := "B05-OFI-PREDICTIVITY";
  arg_hypothesis := "Sequence-valid order-flow imbalance adds signed executable-return information beyond public trade flow.";
  arg_trigger := "past-only OFI crosses a frozen side-specific threshold after simple-flow controls";
  arg_direction_semantics := "positive normalized OFI buys YES and negative normalized OFI buys NO";
  arg_decision_clock := _RECEIVE;
  arg_forecast_horizon := "100ms, 1s, 5s, and 30s";
  arg_falsifier := "OFI has no chronological incremental return or fees consume the predicted move";
  arg_action_profile := "TAKER_DIRECTIONAL";
  arg_data_profile := "L1_L2";
  arg_external_dependency := "NOT_REQUIRED";
  arg_target_class := "EXECUTABLE_STRATEGY";
  arg_result_status := "DESCRIPTIVE_ONLY";
  arg_claim_tier := "MECHANISM_ONLY";
  arg_extra_blockers := ["INSUFFICIENT_QUALITY_DATES"; "FEE_UNKNOWN"; "VENUE_PERMISSION_MISSING"]
|}.

Definition seed_B06 : register_args := {|
  experiment_id := "B06-BOOK-IMBALANCE-PREDICTIVITY";
  arg_hypothesis := "Top-k depth imbalance predicts signed executable returns after spread, liquidity, and price controls.";
  arg_trigger := "sequence-valid top-k imbalance exceeds the frozen directional threshold";
  arg_direction_semantics := "buy the outcome whose normalized same-side pressure is positive; unknown depth abstains";
  arg_decision_clock := _RECEIVE;
  arg_forecast_horizon := "100ms, 1s, 5s, and 30s";
  arg_falsifier := "shuffle, matched-state, or chronological tests remove the directional increment";
  arg_action_profile := "TAKER_DIRECTIONAL";
  arg_data_profile := "L2";
  arg_external_dependency := "NOT_REQUIRED";
  arg_target_class := "EXECUTABLE_STRATEGY";
  arg_result_status := "DESCRIPTIVE_ONLY";
  arg_claim_tier := "MECHANISM_ONLY";
  arg_extra_blockers := ["INSUFFICIENT_QUALITY_DATES"; "FEE_UNKNOWN"; "VENUE_PERMISSION_MISSING"]
|}.

Definition seed_B07 : register_args := {|
  experiment_id := "B07-MICROPRICE-PREDICTIVITY";
  arg_hypothesis := "Microprice displacement predicts a large enough bid/ask move to cover crossing costs and latency.";
  arg_trigger := "microprice minus midpoint exceeds the frozen executable-cost threshold";
  arg_direction_semantics := "positive displacement buys YES and negative displacement buys NO";
  arg_decision_clock := _RECEIVE;
  arg_forecast_horizon := "10ms, 100ms, 1s, and 5s";
  arg_falsifier := "future executable return fails to exceed midpoint baseline and all-in cost";
  arg_action_profile := "TAKER_DIRECTIONAL";
  arg_data_profile := "L1_L2";
  arg_external_dependency := "NOT_REQUIRED";
  arg_target_class := "EXECUTABLE_STRATEGY";
  arg_result_status := "DESCRIPTIVE_ONLY";
  arg_claim_tier := "MECHANISM_ONLY";
  arg_extra_blockers := ["FEE_UNKNOWN"; "LATENCY_UNMEASURED"; "VENUE_PERMISSION_MISSING"]
|}.

Definition seed_B08 : register_args := {|
  experiment_id := "B08-CONTINUOUS-PRICE-CALIBRATION";
  arg_hypothesis := "Outside the registered E04 near-terminal window, a continuously point-in-time calibrated probability differs from executable price enough to support a bounded hold-to-terminal action.";
  arg_trigger := "outside E04_PRE_FREEZE_NEAR_TERMINAL_WINDOW, chronological calibrated probability minus executable price exceeds fee and tail buffers";
  arg_direction_semantics := "buy YES when calibrated probability is higher and buy NO when its complement is higher";
  arg_decision_clock := _TERMINAL_CLOCK;
  arg_forecast_horizon := "non-E04 lifecycle entry through frozen exit or actual terminal settlement";
  arg_falsifier := "calibration vanishes out of sample or settlement PnL is non-positive";
  arg_action_profile := "TERMINAL_ENTRY";
  arg_data_profile := "TERMINAL";
  arg_external_dependency := "NOT_REQUIRED";
  arg_target_class := "EXECUTABLE_STRATEGY";
  arg_result_status := "BLOCKED_TERMINAL";
  arg_claim_tier := "NO_CLAIM";
  arg_extra_blockers := ["SETTLEMENT_MISSING"; "FEE_UNKNOWN"; "VENUE_PERMISSION_MISSING"]
|}.

Definition seed_B09 : register_args := {|
  experiment_id := "B09-LISTING-TO-START-DRIFT";
  arg_hypothesis := "A frozen listing-to-scheduled-start phase has a repeatable signed drift that remains after executable costs.";
  arg_trigger := "time-since-listing and time-to-scheduled-start enter an admitted drift cell";
  arg_direction_semantics := "direction is the cell's training-frozen sign; no actual game state is inferred";
  arg_decision_clock := _RECEIVE;
  arg_forecast_horizon := "next phase boundary or frozen pre-start exit";
  arg_falsifier := "leave-day-out drift changes sign or executable fee-after PnL is non-positive";
  arg_action_profile := "TAKER_DIRECTIONAL";
  arg_data_profile := "L1";
  arg_external_dependency := "NOT_REQUIRED";
  arg_target_class := "EXECUTABLE_STRATEGY";
  arg_result_status := "DESCRIPTIVE_ONLY";
  arg_claim_tier := "PNL_NOT_ESTIMATED";
  arg_extra_blockers := ["FEE_UNKNOWN"; "LATENCY_UNMEASURED"; "INSUFFICIENT_QUALITY_DATES"]
|}.

Definition seed_B10 : register_args := {|
  experiment_id := "B10-INPLAY-PROXY-PRICE-EROSION";
  arg_hypothesis := "The explicitly labeled scheduled-start proxy has a repeatable signed price-erosion pattern that survives executable costs; it is not a claim about actual live-game state.";
  arg_trigger := "scheduled-start proxy boundary and a training-frozen signed erosion cell are both active";
  arg_direction_semantics := "trade only the cell's frozen observed price sign; never call it score, serve, period, inning, or true in-play state";
  arg_decision_clock := _RECEIVE;
  arg_forecast_horizon := "scheduled-start proxy through the frozen post-proxy exit";
  arg_falsifier := "signed post-proxy drift is unstable or non-positive after executable costs and start-time mismatch stress";
  arg_action_profile := "TAKER_DIRECTIONAL";
  arg_data_profile := "L1";
  arg_external_dependency := "OPTIONAL_REFINEMENT";
  arg_target_class := "EXECUTABLE_STRATEGY";
  arg_result_status := "DESCRIPTIVE_ONLY";
  arg_claim_tier := "NO_CLAIM";
  arg_extra_blockers := ["FEE_UNKNOWN"; "LATENCY_UNMEASURED"; "VENUE_PERMISSION_MISSING"]
|}.

Definition seed_B11 : register_args := {|
  experiment_id := "B11-REALIZED-VOL-BY-TIME";
  arg_hypothesis := "Past-only time and phase volatility forecasts improve maker quote radius relative to one fixed radius.";
  arg_trigger := "time-phase conditional volatility maps to a different frozen safety radius";
  arg_direction_semantics := "volatility is unsigned and changes width only";
  arg_decision_clock := _RECEIVE;
  arg_forecast_horizon := "next 1s, 30s, 5m, and child quote lifetime";
  arg_falsifier := "conditional volatility has no out-of-sample forecast or maker-PnL increment";
  arg_action_profile := "MAKER_FILTER";
  arg_data_profile := "L1";
  arg_external_dependency := "NOT_REQUIRED";
  arg_target_class := "EXECUTABLE_STRATEGY";
  arg_result_status := "DESCRIPTIVE_ONLY";
  arg_claim_tier := "MECHANISM_ONLY";
  arg_extra_blockers := ["FILL_MODEL_MISSING"; "FEE_UNKNOWN"; "INSUFFICIENT_QUALITY_DATES"]
|}.

Definition seed_B12 : register_args := {|
  experiment_id := "B12-JUMP-HAZARD";
  arg_hypothesis := "A past-only jump hazard rises early enough for cancellation to reduce a maker's adverse tail.";
  arg_trigger := "frozen jump-hazard estimate exceeds its cancel threshold";
  arg_direction_semantics := "unsigned hazard cancels both sides; a separately audited side signal may cancel one";
  arg_decision_clock := _RECEIVE;
  arg_forecast_horizon := "cancel-effective time, 100ms, 1s, and 5s";
  arg_falsifier := "hazard lacks cancel headroom or false-pause cost exceeds avoided jump loss";
  arg_action_profile := "MAKER_FILTER";
  arg_data_profile := "L1";
  arg_external_dependency := "NOT_REQUIRED";
  arg_target_class := "EXECUTABLE_STRATEGY";
  arg_result_status := "DESCRIPTIVE_ONLY";
  arg_claim_tier := "MECHANISM_ONLY";
  arg_extra_blockers := ["LATENCY_UNMEASURED"; "OWN_ORDER_CALIBRATION_MISSING"; "FEE_UNKNOWN"]
|}.

Definition seed_B13 : register_args := {|
  experiment_id := "B13-CALM-TO-BURST";
  arg_hypothesis := "Activity acceleration during a calm state predicts a burst early enough for a temporary risk-off action to add PnL.";
  arg_trigger := "calm dwell plus quote/trade acceleration crosses the frozen burst threshold";
  arg_direction_semantics := "burst probability is unsigned and cancels or widens both sides";
  arg_decision_clock := _RECEIVE;
  arg_forecast_horizon := "burst onset through frozen recovery dwell";
  arg_falsifier := "burst precision after latency is low or false pauses erase avoided loss";
  arg_action_profile := "MAKER_FILTER";
  arg_data_profile := "L1";
  arg_external_dependency := "NOT_REQUIRED";
  arg_target_class := "EXECUTABLE_STRATEGY";
  arg_result_status := "DESCRIPTIVE_ONLY";
  arg_claim_tier := "MECHANISM_ONLY";
  arg_extra_blockers := ["LATENCY_UNMEASURED"; "FILL_MODEL_MISSING"; "FEE_UNKNOWN"]
|}.

Definition seed_B14 : register_args := {|
  experiment_id := "B14-VOL-HARVEST";
  arg_hypothesis := "When executable spread is wide relative to past-only volatility and jump risk, selective passive quoting has positive fee-after PnL.";
  arg_trigger := "spread exceeds predicted adverse move, exact fees, exit cost, and tail buffer";
  arg_direction_semantics := "two-sided passive quote; no volatility-derived direction";
  arg_decision_clock := _RECEIVE;
  arg_forecast_horizon := "quote lifetime through jump kill, fill, and forced exit";
  arg_falsifier := "adverse-jump expected shortfall or strict-fill loss exceeds captured spread";
  arg_action_profile := "MAKER_SPREAD";
  arg_data_profile := "L1";
  arg_external_dependency := "NOT_REQUIRED";
  arg_target_class := "EXECUTABLE_STRATEGY";
  arg_result_status := "DESCRIPTIVE_ONLY";
  arg_claim_tier := "PNL_NOT_ESTIMATED";
  arg_extra_blockers := ["FILL_MODEL_MISSING"; "FEE_UNKNOWN"; "LATENCY_UNMEASURED"]
|}.

Definition seed_B15 : register_args := {|
  experiment_id := "B15-VOL-BREAKOUT";
  arg_hypothesis := "A calm-to-burst transition with independent directional confirmation continues far enough to support an aggressive breakout trade.";
  arg_trigger := "burst detector and signed flow or quote-velocity confirmation agree";
  arg_direction_semantics := "trade only the confirmed sign; unsigned bursts abstain";
  arg_decision_clock := _RECEIVE;
  arg_forecast_horizon := "100ms, 1s, 5s, or frozen reversal stop";
  arg_falsifier := "false breakouts or latency consume the continuation edge";
  arg_action_profile := "TAKER_DIRECTIONAL";
  arg_data_profile := "L1";
  arg_external_dependency := "NOT_REQUIRED";
  arg_target_class := "EXECUTABLE_STRATEGY";
  arg_result_status := "BLOCKED_AUTHORITY";
  arg_claim_tier := "DESCRIPTIVE_ONLY";
  arg_extra_blockers := ["VENUE_PERMISSION_MISSING"; "FEE_UNKNOWN"; "LATENCY_UNMEASURED"]
|}.

Definition seed_B16 : register_args := {|
  experiment_id := "B16-CS-ASK";
  arg_hypothesis := "At verified 97 or 98 cent high-side states, economically selling high by buying the low-side outcome earns positive exact settlement PnL.";
  arg_trigger := "registered high-side ask persists at 97c or 98c with complete terminal and fee facts";
  arg_direction_semantics := "from flat buy the low-side outcome at 1-q; never assume a naked high-side sale";
  arg_decision_clock := _TERMINAL_CLOCK;
  arg_forecast_horizon := "actual settlement including void, retirement, and postponement paths";
  arg_falsifier := "conditional upset rate plus exact fee exceeds break-even or settlement-PnL lower bound is non-positive";
  arg_action_profile := "CS_ASK";
  arg_data_profile := "TERMINAL";
  arg_external_dependency := "NOT_REQUIRED";
  arg_target_class := "EXECUTABLE_STRATEGY";
  arg_result_status := "BLOCKED_AUTHORITY";
  arg_claim_tier := "NO_CLAIM";
  arg_extra_blockers := ["SETTLEMENT_MISSING"; "VENUE_PERMISSION_MISSING"; "FEE_UNKNOWN"]
|}.

Definition seed_B17 : register_args := {|
  experiment_id := "B17-CS-BID-CONTROL";
  arg_hypothesis := "On exactly the B16 ASK fill IDs, the counterfactual BID payoff does not explain the proposed ASK edge.";
  arg_trigger := "a B16 strict ASK fill has exact q, terminal Y, and counterfactual fee facts";
  arg_direction_semantics := "payoff transform only; it submits no BID and has no fill or capacity claim";
  arg_decision_clock := _TERMINAL_CLOCK;
  arg_forecast_horizon := "same terminal outcome as the paired B16 fill";
  arg_falsifier := "paired ASK-minus-BID payoff contrast is absent or reverses";
  arg_action_profile := "CONTROL_ONLY";
  arg_data_profile := "TERMINAL";
  arg_external_dependency := "NOT_REQUIRED";
  arg_target_class := "RESEARCH_QUESTION";
  arg_result_status := "CONTROL_ONLY";
  arg_claim_tier := "CONTROL_ONLY";
  arg_extra_blockers := ["SETTLEMENT_MISSING"; "FILL_MODEL_MISSING"; "FEE_UNKNOWN"]
|}.

(** ** C: cross-market and payout-constrained relative value *)

Definition seed_C01 : register_args := {|
  experiment_id := "C01-THREEWAY-OVERROUND";
  arg_hypothesis := "An exhaustive three-way outcome family occasionally has an all-leg executable basket residual larger than fees and orphan risk.";
  arg_trigger := "sum of synchronized executable leg costs violates the exact exhaustive payout bound";
  arg_direction_semantics := "buy or hedge the complete payout vector specified by the audited residual; never trade one leg alone";
  arg_decision_clock := _RECEIVE;
  arg_forecast_horizon := "all-leg execution through hedge completion or joint terminal settlement";
  arg_falsifier := "no residual survives quote age, all-leg depth, exact fees, and worst-sequence execution";
  arg_action_profile := "RELATIVE_VALUE";
  arg_data_profile := "FAMILY";
  arg_external_dependency := "NOT_REQUIRED";
  arg_target_class := "EXECUTABLE_STRATEGY";
  arg_result_status := "BLOCKED_ENGINE";
  arg_claim_tier := "NO_CLAIM";
  arg_extra_blockers := ["PAYOUT_EXHAUSTIVENESS_MISSING"; "MULTI_LEG_ENGINE_MISSING"; "FEE_UNKNOWN"]
|}.

Definition seed_C02 : register_args := {|
  experiment_id := "C02-BRACKET-MONOTONICITY";
  arg_hypothesis := "Ordered bracket contracts contain a statewise monotonicity violation that can be hedged for positive all-leg PnL.";
  arg_trigger := "audited adjacent-bracket or cumulative probability constraint is violated after costs";
  arg_direction_semantics := "buy the underpriced payout vector and hedge the dominated vector using exact bracket states";
  arg_decision_clock := _RECEIVE;
  arg_forecast_horizon := "multi-leg completion, unwind, or joint terminal";
  arg_falsifier := "monotonicity residual disappears under payout mapping, executable depth, or orphan stress";
  arg_action_profile := "RELATIVE_VALUE";
  arg_data_profile := "FAMILY";
  arg_external_dependency := "NOT_REQUIRED";
  arg_target_class := "EXECUTABLE_STRATEGY";
  arg_result_status := "BLOCKED_ENGINE";
  arg_claim_tier := "NO_CLAIM";
  arg_extra_blockers := [
    "PAYOUT_EXHAUSTIVENESS_MISSING";
    "MULTI_LEG_ENGINE_MISSING";
    "INSTRUMENT_MAPPING_UNKNOWN"
  ]
|}.

Definition seed_C03 : register_args := {|
  experiment_id := "C03-THRESHOLD-MONOTONICITY";
  arg_hypothesis := "Nested threshold contracts sometimes violate statewise probability ordering by more than joint execution costs.";
  arg_trigger := "a higher threshold is priced above a lower threshold after synchronized executable-cost adjustment";
  arg_direction_semantics := "trade the exact lower/higher threshold hedge implied by the statewise dominance proof";
  arg_decision_clock := _RECEIVE;
  arg_forecast_horizon := "all-leg completion, forced unwind, or joint terminal";
  arg_falsifier := "no violation survives exact threshold semantics, fees, depth, and serial-leg risk";
  arg_action_profile := "RELATIVE_VALUE";
  arg_data_profile := "FAMILY";
  arg_external_dependency := "NOT_REQUIRED";
  arg_target_class := "EXECUTABLE_STRATEGY";
  arg_result_status := "BLOCKED_ENGINE";
  arg_claim_tier := "NO_CLAIM";
  arg_extra_blockers := [
    "PAYOUT_EXHAUSTIVENESS_MISSING";
    "MULTI_LEG_ENGINE_MISSING";
    "INSTRUMENT_MAPPING_UNKNOWN"
  ]
|}.

Definition seed_C04 : register_args := {|
  experiment_id := "C04-SAME-EVENT-FAMILY-COHERENCE";
  arg_hypothesis := "Canonically linked same-event contracts have a payout-constrained incoherence that remains after age, fees, and all-leg execution.";
  arg_trigger := "family residual exceeds its frozen cost and mapping-confidence threshold";
  arg_direction_semantics := "execute only the full statewise-verified family hedge; unknown orientation abstains";
  arg_decision_clock := _RECEIVE;
  arg_forecast_horizon := "joint execution through unwind or terminal";
  arg_falsifier := "residual is explained by quote age, incomplete payout states, or infeasible fills";
  arg_action_profile := "RELATIVE_VALUE";
  arg_data_profile := "FAMILY";
  arg_external_dependency := "NOT_REQUIRED";
  arg_target_class := "EXECUTABLE_STRATEGY";
  arg_result_status := "BLOCKED_ENGINE";
  arg_claim_tier := "NO_CLAIM";
  arg_extra_blockers := ["PAYOUT_EXHAUSTIVENESS_MISSING"; "MULTI_LEG_ENGINE_MISSING"; "FEE_UNKNOWN"]
|}.

Definition seed_C05 : register_args := {|
  experiment_id := "C05-SOCCER-POISSON";
  arg_hypothesis := "A real Soccer Poisson estimate built from authoritative point-in-time sport data can expose a payout-verified relative-value discrepancy; internal implied-rate consistency alone is not a trading strategy.";
  arg_trigger := "external-as-of fitted score-rate distribution and mapped contracts produce an all-leg residual above costs";
  arg_direction_semantics := "trade only the full payout-mapped vector; never infer score, lineup, or match state from prices";
  arg_decision_clock := _EXTERNAL_CLOCK;
  arg_forecast_horizon := "external observation through multi-leg completion, pre-start unwind, or terminal";
  arg_falsifier := "external model is uncalibrated, one common rate fits within uncertainty, or execution removes the residual";
  arg_action_profile := "RELATIVE_VALUE";
  arg_data_profile := "EXTERNAL";
  arg_external_dependency := "REQUIRED";
  arg_target_class := "EXECUTABLE_STRATEGY";
  arg_result_status := "BLOCKED_EXTERNAL";
  arg_claim_tier := "NO_CLAIM";
  arg_extra_blockers := [
    "EXTERNAL_SPORTS_DATA_MISSING";
    "EXTERNAL_API_UNVERIFIED";
    "PAYOUT_EXHAUSTIVENESS_MISSING";
    "MULTI_LEG_ENGINE_MISSING"
  ]
|}.

Definition seed_C06 : register_args := {|
  experiment_id := "C06-WITHIN-EVENT-LEADLAG";
  arg_hypothesis := "A frozen same-event leader reprices before a mapped follower often enough for a defensive follower cancel to improve PnL.";
  arg_trigger := "age-aligned leader move occurs while the canonical follower quote remains stale";
  arg_direction_semantics := "cancel the follower side exposed by audited payout orientation; this seed does not authorize a directional opener";
  arg_decision_clock := _RECEIVE;
  arg_forecast_horizon := "10ms through 5s and follower cancel-effective time";
  arg_falsifier := "time-reversal or unrelated-root placebo matches the lag, or cancel headroom is absent";
  arg_action_profile := "MAKER_FILTER";
  arg_data_profile := "FAMILY";
  arg_external_dependency := "NOT_REQUIRED";
  arg_target_class := "EXECUTABLE_STRATEGY";
  arg_result_status := "BLOCKED_MAPPING";
  arg_claim_tier := "NO_CLAIM";
  arg_extra_blockers := ["INSTRUMENT_MAPPING_UNKNOWN"; "LATENCY_UNMEASURED"; "FEE_UNKNOWN"]
|}.

Definition seed_C07 : register_args := {|
  experiment_id := "C07-STALE-LEG";
  arg_hypothesis := "After a mapped leader reprices, a stale sibling leg can be traded and hedged for positive joint PnL.";
  arg_trigger := "leader shock plus follower quote-age gap creates a payout-verified residual above all costs";
  arg_direction_semantics := "take the stale leg and execute the exact registered hedge vector";
  arg_decision_clock := _RECEIVE;
  arg_forecast_horizon := "stale-leg entry through hedge completion, unwind, or terminal";
  arg_falsifier := "joint fill, latency, fee, or orphan accounting makes residual non-positive";
  arg_action_profile := "RELATIVE_VALUE";
  arg_data_profile := "FAMILY";
  arg_external_dependency := "NOT_REQUIRED";
  arg_target_class := "EXECUTABLE_STRATEGY";
  arg_result_status := "BLOCKED_ENGINE";
  arg_claim_tier := "NO_CLAIM";
  arg_extra_blockers := ["MULTI_LEG_ENGINE_MISSING"; "PAYOUT_EXHAUSTIVENESS_MISSING"; "LATENCY_UNMEASURED"]
|}.

Definition seed_C08 : register_args := {|
  experiment_id := "C08-COMBO-VS-LEG-COST";
  arg_hypothesis := "A verified MVE or combo package and its complete leg replication differ by more than all execution, fee, and orphan costs.";
  arg_trigger := "package-versus-legs executable residual exceeds the registered joint safety buffer";
  arg_direction_semantics := "buy the cheaper complete payout and hedge with the more expensive complete replication";
  arg_decision_clock := _RECEIVE;
  arg_forecast_horizon := "package and leg completion through unwind or terminal";
  arg_falsifier := "no residual survives exact package semantics, synchronized depth, and partial-leg stress";
  arg_action_profile := "RELATIVE_VALUE";
  arg_data_profile := "FAMILY";
  arg_external_dependency := "NOT_REQUIRED";
  arg_target_class := "EXECUTABLE_STRATEGY";
  arg_result_status := "BLOCKED_AUTHORITY";
  arg_claim_tier := "NO_CLAIM";
  arg_extra_blockers := [
    "VENUE_PERMISSION_MISSING";
    "MULTI_LEG_ENGINE_MISSING";
    "PAYOUT_EXHAUSTIVENESS_MISSING"
  ]
|}.

Definition seed_C09 : register_args := {|
  experiment_id := "C09-PAYOUT-STATE-DOMINANCE";
  arg_hypothesis := "One verified contract portfolio statewise dominates another while costing less by more than joint execution costs.";
  arg_trigger := "machine-audited payout matrix proves dominance and executable price difference exceeds costs";
  arg_direction_semantics := "buy the dominating portfolio and hedge or sell only through a legally supported complete vector";
  arg_decision_clock := _RECEIVE;
  arg_forecast_horizon := "joint execution, residual unwind, or all legal terminal states";
  arg_falsifier := "any legal payout state breaks dominance or joint PnL is non-positive";
  arg_action_profile := "RELATIVE_VALUE";
  arg_data_profile := "FAMILY";
  arg_external_dependency := "NOT_REQUIRED";
  arg_target_class := "EXECUTABLE_STRATEGY";
  arg_result_status := "BLOCKED_ENGINE";
  arg_claim_tier := "NO_CLAIM";
  arg_extra_blockers := [
    "PAYOUT_EXHAUSTIVENESS_MISSING";
    "MULTI_LEG_ENGINE_MISSING";
    "INSTRUMENT_MAPPING_UNKNOWN"
  ]
|}.

Definition seed_C10 : register_args := {|
  experiment_id := "C10-MULTIDAY-SERIES";
  arg_hypothesis := "Matched contracts across dates have a term-structure residual that can be hedged without assuming unlike economic exposure is equivalent.";
  arg_trigger := "audited exposure-equivalent dates show an executable residual above fees and capital cost";
  arg_direction_semantics := "buy the cheap maturity and hedge the exact mapped exposure in the rich maturity";
  arg_decision_clock := _RECEIVE;
  arg_forecast_horizon := "two-leg completion through roll, unwind, or both terminals";
  arg_falsifier := "exposure mapping, carry, capital, or serial-leg risk removes the residual";
  arg_action_profile := "RELATIVE_VALUE";
  arg_data_profile := "FAMILY";
  arg_external_dependency := "NOT_REQUIRED";
  arg_target_class := "EXECUTABLE_STRATEGY";
  arg_result_status := "BLOCKED_ENGINE";
  arg_claim_tier := "NO_CLAIM";
  arg_extra_blockers := ["INSTRUMENT_MAPPING_UNKNOWN"; "MULTI_LEG_ENGINE_MISSING"; "FEE_UNKNOWN"]
|}.

(** ** D: RFQ and MVE *)

Definition seed_D01 : register_args := {|
  experiment_id := "D01-RFQ-FLOW-CENSUS";
  arg_hypothesis := "RFQ arrival intensity varies enough by market and time to define capacity and risk strata, but arrival alone supplies no trading side.";
  arg_trigger := "fresh exact-version rfq_created or rfq_deleted event enters a registered stratum";
  arg_direction_semantics := "unsigned census only; no order";
  arg_decision_clock := _RFQ_RECEIVE;
  arg_forecast_horizon := "same RFQ lifecycle and UTC-day count";
  arg_falsifier := "eligible fresh RFQ coverage is absent or intensity has no stable strata";
  arg_action_profile := "NO_ACTION";
  arg_data_profile := "RFQ_PUBLIC";
  arg_external_dependency := "NOT_REQUIRED";
  arg_target_class := "RESEARCH_QUESTION";
  arg_result_status := "BLOCKED_DATA";
  arg_claim_tier := "NO_CLAIM";
  arg_extra_blockers := ["RFQ_PUBLIC_DATA_UNRELEASED"]
|}.

Definition seed_D02 : register_args := {|
  experiment_id := "D02-RFQ-SIZE-INTENT";
  arg_hypothesis := "RFQ contracts or target-cost size predicts unsigned CLOB toxicity strongly enough for a size-conditioned quote guard.";
  arg_trigger := "public RFQ size bucket exceeds the frozen absolute-risk threshold";
  arg_direction_semantics := "size is not buy or sell intent; cancel or widen both related CLOB sides";
  arg_decision_clock := _RFQ_RECEIVE;
  arg_forecast_horizon := "RFQ creation through 100ms, 1s, 5s, and deletion";
  arg_falsifier := "size does not predict absolute move, spread, or depth loss, or guard PnL fails";
  arg_action_profile := "RFQ_GUARD";
  arg_data_profile := "RFQ_PUBLIC";
  arg_external_dependency := "NOT_REQUIRED";
  arg_target_class := "EXECUTABLE_STRATEGY";
  arg_result_status := "BLOCKED_DATA";
  arg_claim_tier := "NO_CLAIM";
  arg_extra_blockers := ["RFQ_PUBLIC_DATA_UNRELEASED"; "FILL_MODEL_MISSING"; "LATENCY_UNMEASURED"]
|}.

Definition seed_D03 : register_args := {|
  experiment_id := "D03-RFQ-LIFECYCLE-SURVIVAL";
  arg_hypothesis := "RFQ lifetime and deletion survival identify how long a CLOB maker should remain in an unsigned risk-off state.";
  arg_trigger := "RFQ survival state enters a frozen high-risk lifetime bucket";
  arg_direction_semantics := "lifecycle is unsigned; guard both related CLOB sides";
  arg_decision_clock := _RFQ_RECEIVE;
  arg_forecast_horizon := "creation through deletion plus frozen recovery dwell";
  arg_falsifier := "lifetime does not condition CLOB risk or a fixed guard window performs as well";
  arg_action_profile := "RFQ_GUARD";
  arg_data_profile := "RFQ_PUBLIC";
  arg_external_dependency := "NOT_REQUIRED";
  arg_target_class := "EXECUTABLE_STRATEGY";
  arg_result_status := "BLOCKED_DATA";
  arg_claim_tier := "NO_CLAIM";
  arg_extra_blockers := ["RFQ_PUBLIC_DATA_UNRELEASED"; "FILL_MODEL_MISSING"; "LATENCY_UNMEASURED"]
|}.

Definition seed_D04 : register_args := {|
  experiment_id := "D04-RFQ-COMBO-DEMAND-LEG-PRESSURE";
  arg_hypothesis := "A combo RFQ may predict absolute pressure in its listed legs, but its combo side never reveals the requester's transaction direction.";
  arg_trigger := "public combo RFQ with an auditable leg map is received";
  arg_direction_semantics := "UNSIGNED_ONLY; combo side describes contract composition, not RFQ buy or sell direction";
  arg_decision_clock := _RFQ_RECEIVE;
  arg_forecast_horizon := "RFQ creation through each leg's 100ms, 1s, and 5s absolute response";
  arg_falsifier := "listed legs show no absolute pressure beyond matched non-combo RFQs";
  arg_action_profile := "NO_ACTION";
  arg_data_profile := "RFQ_PUBLIC";
  arg_external_dependency := "NOT_REQUIRED";
  arg_target_class := "RESEARCH_QUESTION";
  arg_result_status := "BLOCKED_DATA";
  arg_claim_tier := "NO_CLAIM";
  arg_extra_blockers := ["RFQ_PUBLIC_DATA_UNRELEASED"; "INSTRUMENT_MAPPING_UNKNOWN"]
|}.

Definition seed_D05 : register_args := {|
  experiment_id := "D05-RFQ-REQUESTER-HASH";
  arg_hypothesis := "A stable non-identifying requester hash can segment subsequent unsigned toxicity enough to improve an RFQ CLOB guard.";
  arg_trigger := "requester hash has sufficient past support and exceeds its frozen absolute-impact risk score";
  arg_direction_semantics := "requester strata never infer identity or side; high risk guards both sides";
  arg_decision_clock := _RFQ_RECEIVE;
  arg_forecast_horizon := "creation through deletion and 5s post-RFQ response";
  arg_falsifier := "out-of-fold requester strata are unstable or add no guard PnL";
  arg_action_profile := "RFQ_GUARD";
  arg_data_profile := "RFQ_PUBLIC";
  arg_external_dependency := "NOT_REQUIRED";
  arg_target_class := "EXECUTABLE_STRATEGY";
  arg_result_status := "BLOCKED_DATA";
  arg_claim_tier := "NO_CLAIM";
  arg_extra_blockers := ["RFQ_PUBLIC_DATA_UNRELEASED"; "SAMPLE_TOO_SMALL"; "FILL_MODEL_MISSING"]
|}.

Definition seed_D06 : register_args := {|
  experiment_id := "D06-RFQ-DIRECTION-VOL-SIGNAL";
  arg_hypothesis := "Only a private accepted RFQ side can support a signed RFQ-to-CLOB return test; public create/delete and combo composition cannot.";
  arg_trigger := "private quote_accepted event with exact accepted_side and correlated RFQ is received";
  arg_direction_semantics := "PUBLIC_UNSIGNED; PRIVATE accepted_side is authoritative for signed analysis; combo side and public RFQ fields are forbidden substitutes";
  arg_decision_clock := _PRIVATE_RFQ;
  arg_forecast_horizon := "acceptance through confirmation, hedge, 100ms, 1s, and 5s";
  arg_falsifier := "accepted-side signed return is absent after latency or cannot cover hedge costs";
  arg_action_profile := "NO_ACTION";
  arg_data_profile := "RFQ_PRIVATE";
  arg_external_dependency := "NOT_REQUIRED";
  arg_target_class := "SIGNAL";
  arg_result_status := "BLOCKED_DATA_AND_AUTHORITY";
  arg_claim_tier := "NO_CLAIM";
  arg_extra_blockers := [
    "RFQ_PRIVATE_EVENTS_MISSING";
    "VENUE_PERMISSION_MISSING";
    "RFQ_PUBLIC_DATA_UNRELEASED"
  ]
|}.

Definition seed_D07 : register_args := {|
  experiment_id := "D07-RFQ-TO-CLOB-IMPACT";
  arg_hypothesis := "A public RFQ creation event predicts unsigned short-horizon CLOB toxicity early enough for cancellation or widening to reduce maker loss.";
  arg_trigger := "fresh mapped RFQ arrives while a related CLOB maker quote is resting";
  arg_direction_semantics := "guard both sides unless a separate private-direction card is authorized";
  arg_decision_clock := _RFQ_RECEIVE;
  arg_forecast_horizon := "RFQ receive through cancel-effective time, 100ms, 1s, and 5s";
  arg_falsifier := "RFQ impact lacks cancel headroom or the identical unguarded maker has equal or higher PnL";
  arg_action_profile := "RFQ_GUARD";
  arg_data_profile := "RFQ_PUBLIC";
  arg_external_dependency := "NOT_REQUIRED";
  arg_target_class := "EXECUTABLE_STRATEGY";
  arg_result_status := "BLOCKED_DATA";
  arg_claim_tier := "NO_CLAIM";
  arg_extra_blockers := ["RFQ_PUBLIC_DATA_UNRELEASED"; "FILL_MODEL_MISSING"; "LATENCY_UNMEASURED"]
|}.

Definition seed_D08 : register_args := {|
  experiment_id := "D08-RFQ-DIRECT-QUOTE-PNL";
  arg_hypothesis := "A fully collateralized two-sided RFQ quote can earn positive PnL after selection, confirmation, CLOB hedge, fees, and residual inventory.";
  arg_trigger := "full RFQ size is hedgeable and both bounded yes_bid and no_bid satisfy frozen net-edge limits";
  arg_direction_semantics := "quote both sides, then use only private accepted_side to confirm and hedge";
  arg_decision_clock := _PRIVATE_RFQ;
  arg_forecast_horizon := "quote submission through acceptance, confirmation, fills, hedge, and terminal residual";
  arg_falsifier := "acceptance-weighted RFQ plus hedge PnL is non-positive or tail inventory breaches limits";
  arg_action_profile := "RFQ_MAKER";
  arg_data_profile := "RFQ_PRIVATE";
  arg_external_dependency := "NOT_REQUIRED";
  arg_target_class := "EXECUTABLE_STRATEGY";
  arg_result_status := "BLOCKED_DATA_AND_AUTHORITY";
  arg_claim_tier := "NO_CLAIM";
  arg_extra_blockers := ["RFQ_PRIVATE_EVENTS_MISSING"; "VENUE_PERMISSION_MISSING"; "FEE_UNKNOWN"]
|}.

Definition seed_D09 : register_args := {|
  experiment_id := "D09-MVE-CATALOG-SCHEMA";
  arg_hypothesis := "MVE catalog records can reconstruct every leg, orientation, and payout state without heuristic inference.";
  arg_trigger := "an admitted MVE catalog object is available under exact version";
  arg_direction_semantics := "schema and coverage only; no order";
  arg_decision_clock := _RECEIVE;
  arg_forecast_horizon := "catalog-version validity interval";
  arg_falsifier := "any leg, orientation, version, or payout state remains ambiguous";
  arg_action_profile := "NO_ACTION";
  arg_data_profile := "CATALOG";
  arg_external_dependency := "NOT_REQUIRED";
  arg_target_class := "RESEARCH_QUESTION";
  arg_result_status := "BLOCKED_MAPPING";
  arg_claim_tier := "NO_CLAIM";
  arg_extra_blockers := ["INSTRUMENT_MAPPING_UNKNOWN"]
|}.

Definition seed_D10 : register_args := {|
  experiment_id := "D10-MVE-DIRECT-TRADING";
  arg_hypothesis := "An MVE package can be directly traded and hedged at positive joint PnL after private fills, fees, and partial-package risk.";
  arg_trigger := "payout-verified package residual exceeds all package, leg, hedge, and tail costs";
  arg_direction_semantics := "execute the exact package orientation and complete registered hedge vector";
  arg_decision_clock := "PRIVATE_MVE_EVENT_RECEIVE_CLOCK_PAST_ONLY";
  arg_forecast_horizon := "package entry through hedge completion, unwind, or joint terminal";
  arg_falsifier := "private execution, fees, or partial-package stress makes joint PnL non-positive";
  arg_action_profile := "MVE_DIRECT";
  arg_data_profile := "MVE_PRIVATE";
  arg_external_dependency := "NOT_REQUIRED";
  arg_target_class := "EXECUTABLE_STRATEGY";
  arg_result_status := "BLOCKED_DATA_AND_AUTHORITY";
  arg_claim_tier := "NO_CLAIM";
  arg_extra_blockers := [
    "MVE_PRIVATE_EVENTS_MISSING";
    "VENUE_PERMISSION_MISSING";
    "MULTI_LEG_ENGINE_MISSING";
    "PAYOUT_EXHAUSTIVENESS_MISSING";
    "INSTRUMENT_MAPPING_UNKNOWN"
  ]
|}.

(** ** E: terminal, settlement, and lifecycle behavior *)

Definition seed_E01 : register_args := {|
  experiment_id := "E01-SETTLEMENT-CONVERGENCE";
  arg_hypothesis := "Executable prices converge toward later actual settlement value as point-in-time venue lifecycle states approach terminal resolution.";
  arg_trigger := "point-in-time venue lifecycle snapshots can be joined to a later exact settlement label without exposing that label at the snapshot clock";
  arg_direction_semantics := "retrospective convergence control only; the later settlement label never triggers an order";
  arg_decision_clock := _TERMINAL_CLOCK;
  arg_forecast_horizon := "actual settlement, void, retirement, cancellation, or postponement resolution";
  arg_falsifier := "price error does not shrink with lifecycle proximity or legal-state mapping is incomplete";
  arg_action_profile := "CONTROL_ONLY";
  arg_data_profile := "TERMINAL";
  arg_external_dependency := "NOT_REQUIRED";
  arg_target_class := "SIGNAL";
  arg_result_status := "BLOCKED_TERMINAL";
  arg_claim_tier := "NO_CLAIM";
  arg_extra_blockers := ["SETTLEMENT_MISSING"]
|}.

Definition seed_E02 : register_args := {|
  experiment_id := "E02-EXPIRY-LIQUIDITY-MIGRATION";
  arg_hypothesis := "Rolling an exposure from a deteriorating expiry into an audited equivalent contract reduces execution and capital cost.";
  arg_trigger := "old-contract liquidity deteriorates while an exposure-equivalent mapped contract passes the roll-cost gate";
  arg_direction_semantics := "close the exact old exposure and open only the audited equivalent new exposure";
  arg_decision_clock := _TERMINAL_CLOCK;
  arg_forecast_horizon := "two-leg roll through reconciliation or both terminal states";
  arg_falsifier := "mapping, two-leg fees, orphan risk, or carry makes the roll worse than holding";
  arg_action_profile := "EXPIRY_ROLL";
  arg_data_profile := "TERMINAL";
  arg_external_dependency := "NOT_REQUIRED";
  arg_target_class := "EXECUTABLE_STRATEGY";
  arg_result_status := "BLOCKED_ENGINE";
  arg_claim_tier := "NO_CLAIM";
  arg_extra_blockers := ["INSTRUMENT_MAPPING_UNKNOWN"; "MULTI_LEG_ENGINE_MISSING"; "SETTLEMENT_MISSING"]
|}.

Definition seed_E03 : register_args := {|
  experiment_id := "E03-FREEZE-WINDOW";
  arg_hypothesis := "Observable pre-freeze liquidity deterioration permits an earlier reduce-only exit that avoids more loss than it costs.";
  arg_trigger := "time-to-freeze and update/depth precursor enter the frozen exit-risk cell";
  arg_direction_semantics := "cancel all risk-adding orders and reduce only the authoritative position";
  arg_decision_clock := _TERMINAL_CLOCK;
  arg_forecast_horizon := "precursor through freeze, executable exit, or terminal";
  arg_falsifier := "precursor does not lead freeze or early exit underperforms waiting under identical inventory";
  arg_action_profile := "EARLY_EXIT";
  arg_data_profile := "TERMINAL";
  arg_external_dependency := "NOT_REQUIRED";
  arg_target_class := "EXECUTABLE_STRATEGY";
  arg_result_status := "BLOCKED_TERMINAL";
  arg_claim_tier := "NO_CLAIM";
  arg_extra_blockers := ["SETTLEMENT_MISSING"; "PRIVATE_ACCOUNT_STATE_MISSING"; "LATENCY_UNMEASURED"]
|}.

Definition seed_E04 : register_args := {|
  experiment_id := "E04-SETTLEMENT-CALIBRATION";
  arg_hypothesis := "Inside a preregistered pre-freeze near-terminal lifecycle window, exception-aware settlement frequency has a stable executable calibration bias relative to market price.";
  arg_trigger := "inside E04_PRE_FREEZE_NEAR_TERMINAL_WINDOW, out-of-fold lifecycle- and exception-aware terminal probability differs from executable price by more than exact cost and uncertainty";
  arg_direction_semantics := "buy YES or NO according to the signed calibrated probability gap";
  arg_decision_clock := _TERMINAL_CLOCK;
  arg_forecast_horizon := "actual terminal settlement";
  arg_falsifier := "bias vanishes on untouched dates or fill-conditioned terminal PnL is non-positive";
  arg_action_profile := "TERMINAL_ENTRY";
  arg_data_profile := "TERMINAL";
  arg_external_dependency := "NOT_REQUIRED";
  arg_target_class := "EXECUTABLE_STRATEGY";
  arg_result_status := "BLOCKED_TERMINAL";
  arg_claim_tier := "NO_CLAIM";
  arg_extra_blockers := ["SETTLEMENT_MISSING"; "FILL_MODEL_MISSING"; "FEE_UNKNOWN"]
|}.

Definition seed_E05 : register_args := {|
  experiment_id := "E05-TERMINAL-EXCEPTION-STATES";
  arg_hypothesis := "Void, retirement, postponement, cancellation, and other exception states materially change candidate-strategy tail economics.";
  arg_trigger := "a versioned lifecycle path enters a non-standard legal terminal state";
  arg_direction_semantics := "diagnostic enumeration only; this base experiment submits no order";
  arg_decision_clock := _TERMINAL_CLOCK;
  arg_forecast_horizon := "exception declaration through final cash-flow reconciliation";
  arg_falsifier := "exception frequency and cash-flow effect are immaterial under every owner policy";
  arg_action_profile := "NO_ACTION";
  arg_data_profile := "TERMINAL";
  arg_external_dependency := "NOT_REQUIRED";
  arg_target_class := "RESEARCH_QUESTION";
  arg_result_status := "BLOCKED_TERMINAL";
  arg_claim_tier := "NO_CLAIM";
  arg_extra_blockers := ["SETTLEMENT_MISSING"]
|}.

Definition seed_E06 : register_args := {|
  experiment_id := "E06-HOLD-TO-TERMINAL-TAIL";
  arg_hypothesis := "For a specified strict fill, holding to terminal has better paired PnL than the frozen early exit without unacceptable tail loss.";
  arg_trigger := "existing reconciled position enters a terminal-authorized hold cell with complete lifecycle facts";
  arg_direction_semantics := "hold only the existing position; never convert this decision into a new opening trade";
  arg_decision_clock := _TERMINAL_CLOCK;
  arg_forecast_horizon := "actual terminal versus paired frozen executable exit";
  arg_falsifier := "paired hold increment is non-positive or terminal expected shortfall breaches the frozen limit";
  arg_action_profile := "TERMINAL_POLICY";
  arg_data_profile := "TERMINAL";
  arg_external_dependency := "NOT_REQUIRED";
  arg_target_class := "EXECUTABLE_STRATEGY";
  arg_result_status := "BLOCKED_TERMINAL";
  arg_claim_tier := "NO_CLAIM";
  arg_extra_blockers := ["SETTLEMENT_MISSING"; "PRIVATE_ACCOUNT_STATE_MISSING"; "FEE_UNKNOWN"]
|}.

(** ** F: ecology, selection, sport-specific data, and external sources *)

Definition seed_F01 : register_args := {|
  experiment_id := "F01-PARTICIPANT-MIX-PROXY";
  arg_hypothesis := "Non-identifying flow and occupancy proxies improve a maker risk filter without claiming to identify participant types.";
  arg_trigger := "past-only proxy score enters a frozen high-toxicity or benign-flow cell";
  arg_direction_semantics := "proxy can cancel or admit an owner quote but never infers trader identity or side by itself";
  arg_decision_clock := _RECEIVE;
  arg_forecast_horizon := "proxy event through child fill, cancel, and 5s markout";
  arg_falsifier := "proxy adds no out-of-fold child PnL beyond volume, spread, and activity";
  arg_action_profile := "MAKER_FILTER";
  arg_data_profile := "L1";
  arg_external_dependency := "NOT_REQUIRED";
  arg_target_class := "EXECUTABLE_STRATEGY";
  arg_result_status := "DESCRIPTIVE_ONLY";
  arg_claim_tier := "MECHANISM_ONLY";
  arg_extra_blockers := ["FILL_MODEL_MISSING"; "FEE_UNKNOWN"; "INSUFFICIENT_QUALITY_DATES"]
|}.

Definition seed_F02 : register_args := {|
  experiment_id := "F02-FEE-STRUCTURE-EFFECT";
  arg_hypothesis := "Exact series, date, role, and account fee facts change whether a child should make, take, or abstain.";
  arg_trigger := "versioned exact fee lookup changes the frozen child's marginal net edge sign";
  arg_direction_semantics := "fee chooses action eligibility and order role, not a market direction";
  arg_decision_clock := _RECEIVE;
  arg_forecast_horizon := "each intended fill through order-level fee accumulation and exit";
  arg_falsifier := "fee-aware routing has no incremental PnL or fee facts cannot reconcile to account charges";
  arg_action_profile := "ROUTER";
  arg_data_profile := "L1";
  arg_external_dependency := "NOT_REQUIRED";
  arg_target_class := "EXECUTABLE_STRATEGY";
  arg_result_status := "BLOCKED_DATA";
  arg_claim_tier := "NO_CLAIM";
  arg_extra_blockers := ["FEE_UNKNOWN"; "CONFIRMED_CHILD_STRATEGIES_MISSING"]
|}.

Definition seed_F03 : register_args := {|
  experiment_id := "F03-NEW-MARKET-COLD-START";
  arg_hypothesis := "Waiting for a new market to pass topology, depth, and activity readiness gates improves maker PnL over quoting immediately after listing.";
  arg_trigger := "market age plus two-sided uptime, depth, and activity pass the frozen readiness gate";
  arg_direction_semantics := "start the same two-sided maker only after readiness; listing age supplies no side";
  arg_decision_clock := _RECEIVE;
  arg_forecast_horizon := "listing through readiness, fills, and UTC-day close";
  arg_falsifier := "delayed start does not beat immediate quoting or eliminates nearly all capacity";
  arg_action_profile := "MAKER_SPREAD";
  arg_data_profile := "L1";
  arg_external_dependency := "NOT_REQUIRED";
  arg_target_class := "EXECUTABLE_STRATEGY";
  arg_result_status := "DESCRIPTIVE_ONLY";
  arg_claim_tier := "PNL_NOT_ESTIMATED";
  arg_extra_blockers := ["FILL_MODEL_MISSING"; "FEE_UNKNOWN"; "INSUFFICIENT_QUALITY_DATES"]
|}.

Definition seed_F04 : register_args := {|
  experiment_id := "F04-CROSS-SECTIONAL-RANK";
  arg_hypothesis := "Ranking comparable markets by past-only expected net edge allocates a fixed child action better than equal-weight or all-eligible routing.";
  arg_trigger := "market enters the frozen top rank after root, liquidity, and phase matching";
  arg_direction_semantics := "rank selects a confirmed child and inherits its side unchanged";
  arg_decision_clock := _RECEIVE;
  arg_forecast_horizon := "ranking rebalance through child root-event and UTC-day PnL";
  arg_falsifier := "ranked child PnL does not beat equal-weight and best simple selector out of sample";
  arg_action_profile := "ROUTER";
  arg_data_profile := "L1";
  arg_external_dependency := "NOT_REQUIRED";
  arg_target_class := "EXECUTABLE_STRATEGY";
  arg_result_status := "BLOCKED_CHILDREN";
  arg_claim_tier := "NO_CLAIM";
  arg_extra_blockers := ["CONFIRMED_CHILD_STRATEGIES_MISSING"; "INSUFFICIENT_QUALITY_DATES"]
|}.

Definition seed_F05 : register_args := {|
  experiment_id := "F05-SCANNER-SPREAD-FLOW-DEPTH";
  arg_hypothesis := "A spread, flow, and depth scanner selects child opportunities with higher fee-after PnL than any one scanner input alone.";
  arg_trigger := "frozen composite scanner score passes the opportunity and data-quality gates";
  arg_direction_semantics := "scanner selects only; the registered child supplies side and order semantics";
  arg_decision_clock := _RECEIVE;
  arg_forecast_horizon := "trigger through child fill, exit, and day result";
  arg_falsifier := "composite selector fails to beat spread-only, flow-only, and depth-only baselines";
  arg_action_profile := "ROUTER";
  arg_data_profile := "L1_L2";
  arg_external_dependency := "NOT_REQUIRED";
  arg_target_class := "EXECUTABLE_STRATEGY";
  arg_result_status := "BLOCKED_CHILDREN";
  arg_claim_tier := "NO_CLAIM";
  arg_extra_blockers := ["CONFIRMED_CHILD_STRATEGIES_MISSING"; "INSUFFICIENT_QUALITY_DATES"]
|}.

Definition seed_F06 : register_args := {|
  experiment_id := "F06-NICHE-COMPOSITE";
  arg_hypothesis := "A narrow sport, structure, phase, and liquidity niche retains incremental child PnL after matched controls and concentration tests.";
  arg_trigger := "all frozen niche dimensions match and the selected child is authorized";
  arg_direction_semantics := "niche selects the child but does not alter its side";
  arg_decision_clock := _RECEIVE;
  arg_forecast_horizon := "niche episode through child exit and day-level concentration";
  arg_falsifier := "delete-best event, league, or day removes the increment or support is insufficient";
  arg_action_profile := "ROUTER";
  arg_data_profile := "L1_L2";
  arg_external_dependency := "NOT_REQUIRED";
  arg_target_class := "EXECUTABLE_STRATEGY";
  arg_result_status := "BLOCKED_CHILDREN";
  arg_claim_tier := "NO_CLAIM";
  arg_extra_blockers := ["CONFIRMED_CHILD_STRATEGIES_MISSING"; "SAMPLE_TOO_SMALL"]
|}.

Definition seed_F07 : register_args := {|
  experiment_id := "F07-LOW-OCC-INDEPENDENT-FAIR";
  arg_hypothesis := "A low-occupancy market with a genuinely independent stable fair value supports a one-contract maker after adverse-selection costs.";
  arg_trigger := "occupancy is below threshold and an audited independent fair plus spread gate passes";
  arg_direction_semantics := "quote around the independent fair; missing or circular fair means no order";
  arg_decision_clock := _RECEIVE;
  arg_forecast_horizon := "quote lifetime through fill, cancel, and bounded exit";
  arg_falsifier := "empty books produce no fills, informed fills dominate, or the fair is not independent";
  arg_action_profile := "MAKER_SPREAD";
  arg_data_profile := "L1_L2";
  arg_external_dependency := "NOT_REQUIRED";
  arg_target_class := "EXECUTABLE_STRATEGY";
  arg_result_status := "BLOCKED_DATA";
  arg_claim_tier := "NO_CLAIM";
  arg_extra_blockers := ["MISSING_SIGNAL_INPUT"; "FILL_MODEL_MISSING"; "FEE_UNKNOWN"]
|}.

Definition seed_F08 : register_args := {|
  experiment_id := "F08-SPORT-FACTORY";
  arg_hypothesis := "Mechanism effects differ across captured sports, so each sport must retain its own support and falsifier instead of being pooled away.";
  arg_trigger := "a captured sport and atomic owner pair emits a support or zero-support row";
  arg_direction_semantics := "factory only; no order and no side";
  arg_decision_clock := _RECEIVE;
  arg_forecast_horizon := "owner-defined horizon with sport-stratified reporting";
  arg_falsifier := "sport interaction is unsupported and the pooled mechanism is stable under leave-one-sport tests";
  arg_action_profile := "NO_ACTION";
  arg_data_profile := "CATALOG";
  arg_external_dependency := "NOT_REQUIRED";
  arg_target_class := "RESEARCH_QUESTION";
  arg_result_status := "DESCRIPTIVE_ONLY";
  arg_claim_tier := "DESCRIPTIVE_ONLY";
  arg_extra_blockers := []
|}.

Definition seed_F09 : register_args := {|
  experiment_id := "F09-TENNIS-BO3-BO5";
  arg_hypothesis := "Authoritative best-of-three versus best-of-five format changes Tennis state transitions or a bound child policy's PnL.";
  arg_trigger := "point-in-time authoritative match-format label joins a Tennis market before decision";
  arg_direction_semantics := "format selects a child stratum only; it never supplies side";
  arg_decision_clock := _EXTERNAL_CLOCK;
  arg_forecast_horizon := "match-format stratum through owner-defined exit or terminal";
  arg_falsifier := "matched BO3 and BO5 effects are equal or format support is too small";
  arg_action_profile := "NO_ACTION";
  arg_data_profile := "EXTERNAL";
  arg_external_dependency := "REQUIRED";
  arg_target_class := "RESEARCH_QUESTION";
  arg_result_status := "BLOCKED_EXTERNAL";
  arg_claim_tier := "NO_CLAIM";
  arg_extra_blockers := ["EXTERNAL_SPORTS_DATA_MISSING"; "EXTERNAL_API_UNVERIFIED"]
|}.

Definition seed_F10 : register_args := {|
  experiment_id := "F10-BASEBALL-ONE-SIDE";
  arg_hypothesis := "Baseball one-sided-book episodes admit a missing-side passive quote with positive fee-after PnL without inferring inning or pitch state.";
  arg_trigger := "authoritative Baseball identity plus persistent bid-only or ask-only state passes gates";
  arg_direction_semantics := "post the explicitly missing book side; no inning, pitch, or score is inferred";
  arg_decision_clock := _RECEIVE;
  arg_forecast_horizon := "one-sided dwell through fill, recovery, or forced exit";
  arg_falsifier := "strict missing-side fills are absent or their adverse loss exceeds spread capture";
  arg_action_profile := "PASSIVE_FADE";
  arg_data_profile := "L1_L2";
  arg_external_dependency := "NOT_REQUIRED";
  arg_target_class := "EXECUTABLE_STRATEGY";
  arg_result_status := "DESCRIPTIVE_ONLY";
  arg_claim_tier := "PNL_NOT_ESTIMATED";
  arg_extra_blockers := ["FILL_MODEL_MISSING"; "FEE_UNKNOWN"; "INSUFFICIENT_QUALITY_DATES"]
|}.

Definition seed_F11 : register_args := {|
  experiment_id := "F11-GOLF-THIN-LONG-LIFECYCLE";
  arg_hypothesis := "Observable Golf market thinness and long lifecycle identify an internal one-contract passive window that survives fill, capital, and terminal risk.";
  arg_trigger := "authoritative Golf identity plus catalog age and a frozen thin-book spread/liquidity gate";
  arg_direction_semantics := "quote the registered two-sided book without inferring round, cut, score, or field state";
  arg_decision_clock := _RECEIVE;
  arg_forecast_horizon := "quote lifetime through executable exit or tournament terminal";
  arg_falsifier := "capital duration, no-fill rate, or terminal tail erases spread economics";
  arg_action_profile := "MAKER_SPREAD";
  arg_data_profile := "L1";
  arg_external_dependency := "OPTIONAL_REFINEMENT";
  arg_target_class := "EXECUTABLE_STRATEGY";
  arg_result_status := "DESCRIPTIVE_ONLY";
  arg_claim_tier := "NO_CLAIM";
  arg_extra_blockers := ["FILL_MODEL_MISSING"; "FEE_UNKNOWN"; "SETTLEMENT_MISSING"]
|}.

Definition seed_F12 : register_args := {|
  experiment_id := "F12-EXTERNAL-ODDS-LEADLAG";
  arg_hypothesis := "A licensed external-odds update leads the mapped Kalshi executable price by more than provider latency and total trading cost.";
  arg_trigger := "verified external fair-value update creates a mapped executable discrepancy above cost";
  arg_direction_semantics := "buy the Kalshi outcome underpriced relative to the audited external mapping";
  arg_decision_clock := _EXTERNAL_CLOCK;
  arg_forecast_horizon := "provider publication through Kalshi repricing or frozen exit";
  arg_falsifier := "lead disappears under publication/receive clocks or net PnL is non-positive";
  arg_action_profile := "EXTERNAL_ACTION";
  arg_data_profile := "EXTERNAL";
  arg_external_dependency := "REQUIRED";
  arg_target_class := "EXECUTABLE_STRATEGY";
  arg_result_status := "BLOCKED_EXTERNAL";
  arg_claim_tier := "NO_CLAIM";
  arg_extra_blockers := [
    "EXTERNAL_SPORTS_DATA_MISSING";
    "EXTERNAL_API_UNVERIFIED";
    "TIMESTAMP_SEMANTICS_UNKNOWN"
  ]
|}.

Definition seed_F13 : register_args := {|
  experiment_id := "F13-EXTERNAL-SPORT-STATE";
  arg_hypothesis := "A licensed score, serve, injury, lineup, or official state change leads a mapped Kalshi repricing enough for cancellation or trade.";
  arg_trigger := "verified point-in-time sport-state event changes the audited contract fair value above cost";
  arg_direction_semantics := "derive side from the explicit state-to-payout mapping; missing fields never impute direction";
  arg_decision_clock := _EXTERNAL_CLOCK;
  arg_forecast_horizon := "source publication through venue reaction, stop, or terminal";
  arg_falsifier := "state event has no latency-adjusted executable effect or data timing is unverifiable";
  arg_action_profile := "EXTERNAL_ACTION";
  arg_data_profile := "EXTERNAL";
  arg_external_dependency := "REQUIRED";
  arg_target_class := "EXECUTABLE_STRATEGY";
  arg_result_status := "BLOCKED_EXTERNAL";
  arg_claim_tier := "NO_CLAIM";
  arg_extra_blockers := [
    "EXTERNAL_SPORTS_DATA_MISSING";
    "EXTERNAL_API_UNVERIFIED";
    "TIMESTAMP_SEMANTICS_UNKNOWN"
  ]
|}.

Definition seed_F14 : register_args := {|
  experiment_id := "F14-PROVIDER-PRICE-LATENCY-TIER";
  arg_hypothesis := "Provider usefulness depends on effective point-in-time coverage, latency, reliability, license, and cost rather than nominal feed speed.";
  arg_trigger := "two or more verified provider streams expose comparable publication and receive timestamps";
  arg_direction_semantics := "provider-selection diagnostic only; it submits no order";
  arg_decision_clock := _EXTERNAL_CLOCK;
  arg_forecast_horizon := "publication-to-receive latency distribution and daily coverage";
  arg_falsifier := "no provider has positive value after latency, missingness, and commercial cost";
  arg_action_profile := "NO_ACTION";
  arg_data_profile := "EXTERNAL";
  arg_external_dependency := "REQUIRED";
  arg_target_class := "RESEARCH_QUESTION";
  arg_result_status := "BLOCKED_EXTERNAL";
  arg_claim_tier := "NO_CLAIM";
  arg_extra_blockers := ["EXTERNAL_API_UNVERIFIED"; "TIMESTAMP_SEMANTICS_UNKNOWN"]
|}.

Definition seed_F15 : register_args := {|
  experiment_id := "F15-BLINDNESS-EVPI";
  arg_hypothesis := "A non-causal future-information oracle on the same internal L1/L2 paths bounds how much loss an ideal external signal could avoid.";
  arg_trigger := "an internal blind owner decision and its later same-path L1/L2 outcome can be paired with the frozen oracle rule";
  arg_direction_semantics := "future-information upper-bound control only; the oracle is never a live signal or order action";
  arg_decision_clock := _RECEIVE;
  arg_forecast_horizon := "owner decision through its internal future-path outcome and avoided-loss ceiling";
  arg_falsifier := "oracle-minus-blind upper bound is below any plausible provider and implementation cost";
  arg_action_profile := "CONTROL_ONLY";
  arg_data_profile := "OWNER_EVPI";
  arg_external_dependency := "NOT_REQUIRED";
  arg_target_class := "RESEARCH_QUESTION";
  arg_result_status := "CONTROL_ONLY";
  arg_claim_tier := "CONTROL_ONLY";
  arg_extra_blockers := []
|}.

Definition seed_F16 : register_args := {|
  experiment_id := "F16-COURTSIDE-SPEED-OUT-OF-SCOPE";
  arg_hypothesis := "Courtside-speed information would require separate legal, licensing, network, and action authority and is excluded from this program.";
  arg_trigger := "none in the current program";
  arg_direction_semantics := "no order";
  arg_decision_clock := _EXTERNAL_CLOCK;
  arg_forecast_horizon := "not applicable";
  arg_falsifier := "not evaluated unless a new durable program explicitly admits the source and action";
  arg_action_profile := "NO_ACTION";
  arg_data_profile := "OUT_OF_SCOPE";
  arg_external_dependency := "REQUIRED";
  arg_target_class := "RESEARCH_QUESTION";
  arg_result_status := "OUT_OF_SCOPE";
  arg_claim_tier := "NO_CLAIM";
  arg_extra_blockers := ["OUT_OF_SCOPE_CURRENT_PROGRAM"; "EXTERNAL_SPORTS_DATA_MISSING"]
|}.

Definition seed_F17 : register_args := {|
  experiment_id := "F17-CRYPTO-SPOT-ANCHOR-OUT-OF-SCOPE";
  arg_hypothesis := "Crypto spot anchoring has no admitted mechanism inside the Sports program and belongs to a separate registry.";
  arg_trigger := "none in the Sports program";
  arg_direction_semantics := "no order";
  arg_decision_clock := _RECEIVE;
  arg_forecast_horizon := "not applicable";
  arg_falsifier := "a separately authorized non-Sports program establishes an explicit mapped instrument";
  arg_action_profile := "NO_ACTION";
  arg_data_profile := "OUT_OF_SCOPE";
  arg_external_dependency := "NOT_REQUIRED";
  arg_target_class := "RESEARCH_QUESTION";
  arg_result_status := "OUT_OF_SCOPE";
  arg_claim_tier := "NO_CLAIM";
  arg_extra_blockers := ["OUT_OF_SCOPE_CURRENT_PROGRAM"]
|}.

(** ** G: model methods *)

Definition seed_G01 : register_args := _register_model
  "G01-CHANGEPOINT-REGIME"
  "A past-only change-point detector improves an owner's regime forecast over a fixed rolling window."
  "online change probability crosses the owner-frozen regime boundary"
  "owner horizon from detected break through next stable segment"
  "chronological owner loss and eventual fee-after PnL do not beat the fixed-window baseline".

Definition seed_G02 : register_args := _register_model
  "G02-HMM-HSMM-STATE"
  "Filtered HMM or HSMM state and dwell improve an owner outcome over deterministic SNBD state."
  "filtered, never smoothed, state posterior crosses the owner-frozen threshold"
  "owner horizon plus latent-state dwell"
  "latent states are unstable or add no calibrated owner increment out of sample".

Definition seed_G03 : register_args := _register_model
  "G03-POINT-PROCESS-HAWKES"
  "History-only point-process intensity improves an owner's fill, jump, or flow hazard forecast."
  "causal self- or cross-excitation intensity exceeds the owner-frozen hazard threshold"
  "next event time and owner hazard horizon"
  "Poisson or empirical hazard matches the model chronologically or owner economics do not improve".

Definition seed_G04 : register_args := _register_model
  "G04-GARCH-STOCHASTIC-VOL"
  "Conditional GARCH or stochastic-volatility forecasts improve an owner's risk or radius decision."
  "one-step conditional volatility enters a different owner-frozen action cell"
  "next 1s, 30s, 5m, or owner-defined quote horizon"
  "rolling realized volatility forecasts as well or the owner action gains no PnL".

Definition seed_G05 : register_args := _register_model
  "G05-STATE-SPACE-KALMAN"
  "A filtered state-space fair value and uncertainty improve an owner action over midpoint or EWMA."
  "filtered fair displacement and posterior uncertainty pass the owner gate"
  "owner fair-value and exit horizon"
  "midpoint, microprice, or EWMA matches forecast and owner PnL".

Definition seed_G06 : register_args := _register_model
  "G06-PCA-FACTOR-CLUSTER"
  "Past-fit common factors expose owner residuals that survive matched cross-market controls."
  "factor-neutral residual exceeds the owner-frozen threshold in a mapped comparable panel"
  "owner convergence or risk horizon"
  "residual vanishes under rolling fit, leave-root-out tests, or joint execution costs".

Definition seed_G07 : register_args := _register_model
  "G07-COINTEGRATION-VECM"
  "A past-fit long-run relation produces a stable error-correction signal for an owner relative-value card."
  "causal error-correction residual exceeds the owner-frozen entry boundary"
  "owner convergence, stop, or joint terminal horizon"
  "relation breaks chronologically or executable joint PnL is non-positive".

Definition seed_G08 : register_args := _register_model
  "G08-REGULARIZED-GLM-SURVIVAL"
  "A regularized GLM or survival model adds calibrated owner prediction beyond a univariate hazard."
  "out-of-fold probability or hazard crosses the owner-frozen decision threshold"
  "owner binary, return, fill, or survival horizon"
  "simple empirical or univariate baseline matches calibration and owner economics".

Definition seed_G09 : register_args := _register_model
  "G09-TREE-BOOSTING"
  "Tree boosting captures stable nonlinear owner interactions beyond a regularized GLM."
  "chronological out-of-fold tree score crosses the owner-frozen threshold"
  "owner outcome horizon"
  "nested out-of-fold increment, calibration, or eventual owner PnL is absent".

Definition seed_G10 : register_args := _register_model
  "G10-NEURAL-SEQUENCE"
  "A causal neural sequence model adds owner value beyond tree and GLM baselines after latency and drift costs."
  "causal sequence score crosses the owner-frozen threshold within its latency budget"
  "owner sequence outcome horizon"
  "simpler models match performance or inference, drift, and execution costs erase the increment".

Definition seed_G11 : register_args := _register_model
  "G11-ENSEMBLE-STACKING"
  "An out-of-fold-only stack improves owner calibration and PnL over the best frozen single model."
  "meta-score built only from out-of-fold base predictions crosses the owner gate"
  "owner outcome and action horizon"
  "the best single model matches the stack or switching and compute costs erase the increment".

Definition seed_G12 : register_args := _register_model
  "G12-DRIFT-CALIBRATION-RETRAINING"
  "A frozen drift detector and retraining cadence improve live-like owner calibration and PnL."
  "calibration or feature drift crosses the frozen retrain or abstention boundary"
  "walk-forward owner horizon through the next retraining checkpoint"
  "never-retrain or fixed-cadence baseline matches performance after retraining costs".

(** ** P: portfolio, routing, risk, capacity, and commercial operation *)

Definition seed_P01 : register_args := {|
  experiment_id := "P01-STRATEGY-OVERLAP-PRECEDENCE";
  arg_hypothesis := "Frozen precedence among overlapping confirmed strategies prevents duplicate or contradictory root risk and improves joint PnL.";
  arg_trigger := "two confirmed child intents overlap on the same root, market, or outcome exposure";
  arg_direction_semantics := "select one precedence winner, cancel conflicts, reach zero resting, then route its unchanged side";
  arg_decision_clock := _RECEIVE;
  arg_forecast_horizon := "conflict through cancellation, reconciliation, child exit, and day PnL";
  arg_falsifier := "joint precedence PnL does not beat independently running children under shared risk";
  arg_action_profile := "ROUTER";
  arg_data_profile := "META";
  arg_external_dependency := "INHERIT_CHILDREN";
  arg_target_class := "EXECUTABLE_STRATEGY";
  arg_result_status := "BLOCKED_CHILDREN";
  arg_claim_tier := "NO_CLAIM";
  arg_extra_blockers := ["CONFIRMED_CHILD_STRATEGIES_MISSING"; "RISK_GATES_MISSING"]
|}.

Definition seed_P02 : register_args := {|
  experiment_id := "P02-ROUTER-ABSTENTION-SWITCH";
  arg_hypothesis := "A frozen router with abstention and hysteresis outperforms the best fixed confirmed child after switch costs.";
  arg_trigger := "past-only regime score selects a different child beyond the frozen hysteresis boundary";
  arg_direction_semantics := "no new risk, cancel, zero resting, reconcile, then inherit the selected child's side";
  arg_decision_clock := _RECEIVE;
  arg_forecast_horizon := "router state through switch completion and child root-event outcome";
  arg_falsifier := "router fails to beat the best fixed training-selected child on untouched evidence";
  arg_action_profile := "ROUTER";
  arg_data_profile := "META";
  arg_external_dependency := "INHERIT_CHILDREN";
  arg_target_class := "EXECUTABLE_STRATEGY";
  arg_result_status := "BLOCKED_CHILDREN";
  arg_claim_tier := "NO_CLAIM";
  arg_extra_blockers := ["CONFIRMED_CHILD_STRATEGIES_MISSING"; "RISK_GATES_MISSING"]
|}.

Definition seed_P03 : register_args := {|
  experiment_id := "P03-COMMON-ROOT-COVARIANCE-COTAIL";
  arg_hypothesis := "Aggregating exposure by canonical root and enforcing a co-tail cap reduces portfolio tail loss without destroying expected PnL.";
  arg_trigger := "root exposure, covariance, or co-tail stress exceeds a frozen joint risk limit";
  arg_direction_semantics := "deny new risk and preserve reduce-only actions across every affected child";
  arg_decision_clock := _RECEIVE;
  arg_forecast_horizon := "risk breach through joint unwind, terminal, and daily tail result";
  arg_falsifier := "joint cap does not reduce expected shortfall or sacrifices more PnL than the frozen tolerance";
  arg_action_profile := "SIZE_RISK";
  arg_data_profile := "META";
  arg_external_dependency := "INHERIT_CHILDREN";
  arg_target_class := "EXECUTABLE_STRATEGY";
  arg_result_status := "BLOCKED_CHILDREN";
  arg_claim_tier := "NO_CLAIM";
  arg_extra_blockers := ["CONFIRMED_CHILD_STRATEGIES_MISSING"; "RISK_GATES_MISSING"]
|}.

Definition seed_P04 : register_args := {|
  experiment_id := "P04-MULTIMARKET-ALLOCATION";
  arg_hypothesis := "Allocating fixed risk units by marginal net edge, covariance, capital, and token use beats equal allocation.";
  arg_trigger := "confirmed-child scores and joint risk ledger produce a frozen non-equal allocation";
  arg_direction_semantics := "allocation changes size only and inherits every child's side unchanged";
  arg_decision_clock := _DAY_CLOCK;
  arg_forecast_horizon := "allocation interval through root-deduped day PnL and capital peak";
  arg_falsifier := "allocation fails to beat equal weight and best single child after turnover and costs";
  arg_action_profile := "SIZE_RISK";
  arg_data_profile := "META";
  arg_external_dependency := "INHERIT_CHILDREN";
  arg_target_class := "EXECUTABLE_STRATEGY";
  arg_result_status := "BLOCKED_CHILDREN";
  arg_claim_tier := "NO_CLAIM";
  arg_extra_blockers := ["CONFIRMED_CHILD_STRATEGIES_MISSING"; "RISK_GATES_MISSING"]
|}.

Definition seed_P05 : register_args := {|
  experiment_id := "P05-BRACKET-HEDGE";
  arg_hypothesis := "A payout-verified bracket hedge reduces a confirmed child's tail or capital use by more than all-leg execution cost.";
  arg_trigger := "authoritative child position plus bracket hedge residual passes the frozen benefit threshold";
  arg_direction_semantics := "execute the exact statewise hedge vector; never use a name-only bracket match";
  arg_decision_clock := _RECEIVE;
  arg_forecast_horizon := "hedge entry through child exit, orphan unwind, or joint terminal";
  arg_falsifier := "joint fill costs or any legal payout state makes the hedge increment non-positive";
  arg_action_profile := "CHILD_HEDGE";
  arg_data_profile := "FAMILY";
  arg_external_dependency := "NOT_REQUIRED";
  arg_target_class := "EXECUTABLE_STRATEGY";
  arg_result_status := "BLOCKED_ENGINE";
  arg_claim_tier := "NO_CLAIM";
  arg_extra_blockers := [
    "PAYOUT_EXHAUSTIVENESS_MISSING";
    "MULTI_LEG_ENGINE_MISSING";
    "CONFIRMED_CHILD_STRATEGIES_MISSING"
  ]
|}.

Definition seed_P06 : register_args := {|
  experiment_id := "P06-DYNAMIC-DAILY-SELECTION";
  arg_hypothesis := "Selecting only past-predicted positive confirmed children each day outperforms static daily activation after turnover.";
  arg_trigger := "prior-day-only quality, capacity, and edge score places a child on the daily allowlist";
  arg_direction_semantics := "daily selector inherits child actions and sides; excluded children submit nothing";
  arg_decision_clock := _DAY_CLOCK;
  arg_forecast_horizon := "next UTC day with no intraday refit";
  arg_falsifier := "daily selector fails to beat always-on and best fixed child on untouched days";
  arg_action_profile := "ROUTER";
  arg_data_profile := "META";
  arg_external_dependency := "INHERIT_CHILDREN";
  arg_target_class := "EXECUTABLE_STRATEGY";
  arg_result_status := "BLOCKED_CHILDREN";
  arg_claim_tier := "NO_CLAIM";
  arg_extra_blockers := ["CONFIRMED_CHILD_STRATEGIES_MISSING"; "INSUFFICIENT_QUALITY_DATES"]
|}.

Definition seed_P07 : register_args := {|
  experiment_id := "P07-CAPACITY-FILL-DECAY-IMPACT";
  arg_hypothesis := "Fill probability decays and impact grows with size, producing a finite PnL-maximizing capacity rather than linear scale.";
  arg_trigger := "marginal tested size has positive pessimistic PnL after fill decay and impact";
  arg_direction_semantics := "change quantity only and inherit the child side";
  arg_decision_clock := _RECEIVE;
  arg_forecast_horizon := "order lifetime through fills, impact, unwind, and daily capacity";
  arg_falsifier := "no size above one has positive marginal PnL or capacity estimates fail micro-live calibration";
  arg_action_profile := "SIZE_RISK";
  arg_data_profile := "META";
  arg_external_dependency := "INHERIT_CHILDREN";
  arg_target_class := "EXECUTABLE_STRATEGY";
  arg_result_status := "BLOCKED_CHILDREN";
  arg_claim_tier := "NO_CLAIM";
  arg_extra_blockers := [
    "CONFIRMED_CHILD_STRATEGIES_MISSING";
    "OWN_ORDER_CALIBRATION_MISSING";
    "RISK_GATES_MISSING"
  ]
|}.

Definition seed_P08 : register_args := {|
  experiment_id := "P08-PROGRESSIVE-SCALING";
  arg_hypothesis := "A maximum two-times size ladder increases dollar PnL only while every tier retains positive marginal economics and tail safety.";
  arg_trigger := "previous tier passes frozen PnL, drawdown, impact, and reconciliation gates";
  arg_direction_semantics := "raise or lower size only; inherit child side and immediately allow reduce-only exit";
  arg_decision_clock := _DAY_CLOCK;
  arg_forecast_horizon := "one complete tier evaluation window before any next step";
  arg_falsifier := "a tier has non-positive marginal PnL, excess tail, or unmodeled impact";
  arg_action_profile := "SIZE_RISK";
  arg_data_profile := "META";
  arg_external_dependency := "INHERIT_CHILDREN";
  arg_target_class := "EXECUTABLE_STRATEGY";
  arg_result_status := "BLOCKED_CHILDREN";
  arg_claim_tier := "NO_CLAIM";
  arg_extra_blockers := [
    "CONFIRMED_CHILD_STRATEGIES_MISSING";
    "RISK_GATES_MISSING";
    "OWN_ORDER_CALIBRATION_MISSING"
  ]
|}.

Definition seed_P09 : register_args := {|
  experiment_id := "P09-MANUAL-SYSTEM-COEXISTENCE";
  arg_hypothesis := "Authoritative ownership, self-trade prevention, and precedence allow manual and system orders to coexist without conflict loss.";
  arg_trigger := "private account state reports overlapping manual and system exposure or orders";
  arg_direction_semantics := "forbid system new risk, cancel only system-owned conflicts, and reconcile before resuming";
  arg_decision_clock := "PRIVATE_ACCOUNT_EVENT_RECEIVE_CLOCK_PAST_ONLY";
  arg_forecast_horizon := "conflict detection through cancel, reconciliation, and position normalization";
  arg_falsifier := "ownership cannot be proven or coexistence produces duplicate fills, self-trades, or unexplained exposure";
  arg_action_profile := "SIZE_RISK";
  arg_data_profile := "PRIVATE";
  arg_external_dependency := "NOT_REQUIRED";
  arg_target_class := "EXECUTABLE_STRATEGY";
  arg_result_status := "BLOCKED_DATA";
  arg_claim_tier := "NO_CLAIM";
  arg_extra_blockers := ["PRIVATE_ACCOUNT_STATE_MISSING"; "RISK_GATES_MISSING"]
|}.

Definition seed_P10 : register_args := {|
  experiment_id := "P10-COMMERCIAL-ROC-COST";
  arg_hypothesis := "A confirmed strategy remains commercially worthwhile after exchange, data, cloud, capital, labor, and incident costs.";
  arg_trigger := "rolling commercial net PnL and return on committed capital pass frozen continue or stop gates";
  arg_direction_semantics := "deploy, continue, scale down, or stop a confirmed child; no independent market side";
  arg_decision_clock := _DAY_CLOCK;
  arg_forecast_horizon := "daily, monthly, and capital-payback windows";
  arg_falsifier := "commercial net PnL or risk-adjusted return on cost is non-positive";
  arg_action_profile := "COMMERCIAL_ROC";
  arg_data_profile := "META";
  arg_external_dependency := "INHERIT_CHILDREN";
  arg_target_class := "EXECUTABLE_STRATEGY";
  arg_result_status := "BLOCKED_CHILDREN";
  arg_claim_tier := "NO_CLAIM";
  arg_extra_blockers := ["CONFIRMED_CHILD_STRATEGIES_MISSING"]
|}.

Definition seed_P11 : register_args := {|
  experiment_id := "P11-UNCLASSIFIED-BACKLOG";
  arg_hypothesis := "Valid observations with no falsifiable action and PnL contract should remain unclassified rather than be promoted by narrative.";
  arg_trigger := "valid evidence matches no atomic experiment with a complete target and action";
  arg_direction_semantics := "no order";
  arg_decision_clock := _RECEIVE;
  arg_forecast_horizon := "not applicable until a new audited lineage exists";
  arg_falsifier := "an independently audited taxonomy proposal supplies a unique action, baseline, and PnL contract";
  arg_action_profile := "NO_ACTION";
  arg_data_profile := "INTERNAL_CONTROL";
  arg_external_dependency := "INHERIT_CHILDREN";
  arg_target_class := "RESEARCH_QUESTION";
  arg_result_status := "UNCLASSIFIED_BACKLOG";
  arg_claim_tier := "NO_CLAIM";
  arg_extra_blockers := ["ACTION_INCOMPLETE"; "BASELINE_INCOMPLETE"]
|}.

(** ** The module body *)

Definition registrations : list register_args := [
  seed_A01; seed_A02; seed_A03; seed_A04; seed_A05; seed_A06; seed_A07A; seed_A07B;
  seed_A07C; seed_A07D; seed_A08; seed_A09; seed_A10; seed_A11; seed_A12; seed_A13;
  seed_A14; seed_A15; seed_A16; seed_A17; seed_A18; seed_A19; seed_A20; seed_B01;
  seed_B02; seed_B03; seed_B04; seed_B05; seed_B06; seed_B07; seed_B08; seed_B09;
  seed_B10; seed_B11; seed_B12; seed_B13; seed_B14; seed_B15; seed_B16; seed_B17;
  seed_C01; seed_C02; seed_C03; seed_C04; seed_C05; seed_C06; seed_C07; seed_C08;
  seed_C09; seed_C10; seed_D01; seed_D02; seed_D03; seed_D04; seed_D05; seed_D06;
  seed_D07; seed_D08; seed_D09; seed_D10; seed_E01; seed_E02; seed_E03; seed_E04;
  seed_E05; seed_E06; seed_F01; seed_F02; seed_F03; seed_F04; seed_F05; seed_F06;
  seed_F07; seed_F08; seed_F09; seed_F10; seed_F11; seed_F12; seed_F13; seed_F14;
  seed_F15; seed_F16; seed_F17; seed_G01; seed_G02; seed_G03; seed_G04; seed_G05;
  seed_G06; seed_G07; seed_G08; seed_G09; seed_G10; seed_G11; seed_G12; seed_P01;
  seed_P02; seed_P03; seed_P04; seed_P05; seed_P06; seed_P07; seed_P08; seed_P09;
  seed_P10; seed_P11
].

(** The registrations in order; the first duplicate raises. *)
Fixpoint register_all (CARD_SEEDS : list (string * seed)) (l : list register_args)
    : result (list (string * seed)) :=
  match l with
  | [] => Ok CARD_SEEDS
  | a :: l' => CARD_SEEDS' ← _register CARD_SEEDS a; register_all CARD_SEEDS' l'
  end.

Definition _EXPECTED_FAMILY_COUNTS : list (string * Z) := [("A", 23%Z); ("B", 17%Z); ("C", 10%Z); ("D", 10%Z); ("E", 6%Z); ("F", 17%Z); ("G", 12%Z); ("P", 11%Z)].

Definition _CARD_KEYS : list string :=
  [
    "hypothesis";
    "signal";
    "action_profile";
    "data_profile";
    "external_dependency";
    "target_class";
    "result_status";
    "claim_tier";
    "extra_blockers"
  ].

Definition _SIGNAL_KEYS : list string :=
  ["trigger"; "direction_semantics"; "decision_clock"; "forecast_horizon"; "falsifier"].

Definition _ACTION_PROFILES : list string :=
  [
    "NO_ACTION";
    "MAKER_SPREAD";
    "MAKER_FILTER";
    "MAKER_REFILL";
    "T90_RANGE";
    "T90_REBUILD";
    "PASSIVE_FADE";
    "TAKER_DIRECTIONAL";
    "RELATIVE_VALUE";
    "EXPIRY_ROLL";
    "CHILD_HEDGE";
    "RFQ_GUARD";
    "RFQ_MAKER";
    "MVE_DIRECT";
    "TERMINAL_POLICY";
    "TERMINAL_ENTRY";
    "CS_ASK";
    "EARLY_EXIT";
    "EXTERNAL_ACTION";
    "ROUTER";
    "COMMERCIAL_ROC";
    "SIZE_RISK";
    "MODEL_COMPONENT";
    "CONTROL_ONLY"
  ].

Definition _DATA_PROFILES : list string :=
  [
    "L1";
    "L2";
    "L1_L2";
    "L1_PRIVATE";
    "FAMILY";
    "TERMINAL";
    "RFQ_PUBLIC";
    "RFQ_PRIVATE";
    "MVE_PRIVATE";
    "EXTERNAL";
    "CATALOG";
    "MODEL";
    "META";
    "PRIVATE";
    "OUT_OF_SCOPE";
    "INTERNAL_CONTROL";
    "OWNER_EVPI"
  ].

Definition _EXTERNAL_DEPENDENCIES : list string :=
  [
    "NOT_REQUIRED";
    "REQUIRED";
    "OPTIONAL_REFINEMENT";
    "INHERIT_OWNER";
    "INHERIT_CHILDREN"
  ].

Definition _TARGET_CLASSES : list string :=
  ["RESEARCH_QUESTION"; "SIGNAL"; "EXECUTABLE_STRATEGY"].

Definition _KNOWN_BLOCKERS : list string :=
  [
    "MISSING_SIGNAL_INPUT";
    "TIMESTAMP_SEMANTICS_UNKNOWN";
    "EXTERNAL_SPORTS_DATA_MISSING";
    "EXTERNAL_API_UNVERIFIED";
    "VENUE_PERMISSION_MISSING";
    "INSTRUMENT_MAPPING_UNKNOWN";
    "ACTION_INCOMPLETE";
    "BASELINE_INCOMPLETE";
    "FEE_UNKNOWN";
    "FILL_MODEL_MISSING";
    "OWN_ORDER_CALIBRATION_MISSING";
    "LATENCY_UNMEASURED";
    "SETTLEMENT_MISSING";
    "PAYOUT_EXHAUSTIVENESS_MISSING";
    "RFQ_PRIVATE_EVENTS_MISSING";
    "RFQ_PUBLIC_DATA_UNRELEASED";
    "MVE_PRIVATE_EVENTS_MISSING";
    "MULTI_LEG_ENGINE_MISSING";
    "CONFIRMED_CHILD_STRATEGIES_MISSING";
    "PRIVATE_ACCOUNT_STATE_MISSING";
    "INSUFFICIENT_QUALITY_DATES";
    "SAMPLE_TOO_SMALL";
    "DATA_INTEGRITY_BLOCKED";
    "RISK_GATES_MISSING";
    "OPERATING_COST_UNKNOWN";
    "OUT_OF_SCOPE_CURRENT_PROGRAM"
  ].

(** [s[0]]; the empty string raises. *)
Definition first_char (s : string) : result string :=
  match s with
  | EmptyString => Raise IndexError
  | String c _ => Ok (str1 c)
  end.

(** [set(a) == set(b)] on strings. *)
Definition same_set (a b : list string) : bool :=
  forallb (fun x => str_in x b) a && forallb (fun x => str_in x a) b.

(** [set(a) - set(b)] *)
Definition set_minus (a b : list string) : list string :=
  List.filter (fun x => negb (str_in x b)) a.

(** The text of a set of strings; Python leaves its order open. *)
Definition show_set (l : list string) : string :=
  match l with
  | [] => "set()"
  | _ => "{" +:+ String.concat ", " (map repr_str l) +:+ "}"
  end.

(** [d[k] += 1] on a dict of counters that has the key. *)
Definition bump (k : string) (counts : list (string * Z)) : list (string * Z) :=
  match assoc k counts with
  | Some n => assoc_set k (n + 1)%Z counts
  | None => counts
  end.

(** [==] on dicts of counters. *)
Definition counts_eqb (a b : list (string * Z)) : bool :=
  (length a =? length b)%nat &&
  forallb (fun kv => match assoc (fst kv) b with
                     | Some n => (snd kv =? n)%Z
                     | None => false
                     end) a.

Definition show_counts (d : list (string * Z)) : string :=
  "{" +:+ String.concat ", " (map (fun kv => repr_str (fst kv) +:+ ": " +:+ show_Z (snd kv)) d)
  +:+ "}".

(** What the loop of [_validate_seeds] carries. *)
Record vstate := VState {
  family_counts : list (string * Z);
  hypotheses : list string;
  triggers : list string
}.

Definition guard (ok : bool) (msg : string) : result unit :=
  if ok then Ok tt else Raise (ValueError msg).

(** One iteration of the loop, for one seed. *)
Definition validate_one (st : vstate) (entry : string * seed) : result vstate :=
  let '(id, card) := entry in
  let keys_of v := match v with JObj d => keys d | _ => [] end in
  family ← first_char id;
  _ ← guard (match assoc family (family_counts st) with Some _ => true | None => false end)
        ("unknown family for " +:+ id);
  let counts := bump family (family_counts st) in
  let card_keys := keys_of (seed_dict card) in
  _ ← guard (same_set card_keys _CARD_KEYS)
        (id +:+ ": wrong card keys " +:+
         show_set (set_minus card_keys _CARD_KEYS ++ set_minus _CARD_KEYS card_keys));
  let signal_keys := keys_of (signal_dict (signal card)) in
  _ ← guard (same_set signal_keys _SIGNAL_KEYS)
        (id +:+ ": wrong signal keys " +:+
         show_set (set_minus signal_keys _SIGNAL_KEYS ++ set_minus _SIGNAL_KEYS signal_keys));
  _ ← guard (str_in (action_profile card) _ACTION_PROFILES) (id +:+ ": unknown action profile");
  _ ← guard (str_in (data_profile card) _DATA_PROFILES) (id +:+ ": unknown data profile");
  _ ← guard (str_in (external_dependency card) _EXTERNAL_DEPENDENCIES)
        (id +:+ ": unknown external dependency");
  _ ← guard (str_in (target_class card) _TARGET_CLASSES) (id +:+ ": unknown target class");
  let unknown_blockers := set_minus (extra_blockers card) _KNOWN_BLOCKERS in
  _ ← guard (match unknown_blockers with [] => true | _ => false end)
        (id +:+ ": unknown blockers " +:+ show_set unknown_blockers);
  let hyp := hypothesis card in
  let trig := trigger (signal card) in
  _ ← guard (negb (str_in hyp (hypotheses st))) (id +:+ ": duplicate hypothesis");
  _ ← guard (negb (str_in trig (triggers st))) (id +:+ ": duplicate signal trigger");
  _ ← guard (negb (str_in (action_profile card) ["NO_ACTION"; "MODEL_COMPONENT"; "CONTROL_ONLY"]
                   && String.eqb (target_class card) "EXECUTABLE_STRATEGY"))
        (id +:+ ": non-action cannot be a strategy");
  _ ← guard (negb (String.eqb (external_dependency card) "REQUIRED"
                   && negb (str_in (data_profile card) ["EXTERNAL"; "OUT_OF_SCOPE"])))
        (id +:+ ": required external data not explicit");
  Ok (VState counts (hyp :: hypotheses st) (trig :: triggers st)).

Fixpoint validate_loop (st : vstate) (l : list (string * seed)) : result vstate :=
  match l with
  | [] => Ok st
  | e :: l' => st' ← validate_one st e; validate_loop st' l'
  end.

(** [_validate_seeds] *)
Definition _validate_seeds (CARD_SEEDS : list (string * seed)) : result unit :=
  let n := Z.of_nat (length CARD_SEEDS) in
  _ ← guard (n =? 106)%Z ("expected exactly 106 card seeds, got " +:+ show_Z n);
  let st0 := VState (map (fun kv => (fst kv, 0%Z)) _EXPECTED_FAMILY_COUNTS) [] [] in
  st ← validate_loop st0 CARD_SEEDS;
  _ ← guard (counts_eqb (family_counts st) _EXPECTED_FAMILY_COUNTS)
        ("family counts differ: expected " +:+ show_counts _EXPECTED_FAMILY_COUNTS +:+
         ", got " +:+ show_counts (family_counts st));
  let direction id :=
    s ← or_raise (KeyError id) (assoc id CARD_SEEDS); Ok (direction_semantics (signal s)) in
  d04 ← direction "D04-RFQ-COMBO-DEMAND-LEG-PRESSURE";
  d06 ← direction "D06-RFQ-DIRECTION-VOL-SIGNAL";
  _ ← guard (substr "combo side" d04 && substr "not RFQ buy or sell" d04)
        "D04 must state that combo side is not RFQ direction";
  guard (substr "PUBLIC_UNSIGNED" d06 && substr "PRIVATE accepted_side" d06
         && substr "forbidden substitutes" d06)
        "D06 must fail closed on public RFQ direction".

(** Importing the module: the registrations, then the check. *)
Definition import_seeds : result (list (string * seed)) :=
  CARD_SEEDS ← register_all [] registrations;
  _ ← _validate_seeds CARD_SEEDS;
  Ok CARD_SEEDS.

(** The table the module body leaves in [CARD_SEEDS]. *)
Definition seed_table : list (string * seed) :=
  map (fun a => (experiment_id a, seed_of_args a)) registrations.

(** * Lemmas *)

Lemma register_all_spec CARD_SEEDS l :
  List.NoDup (keys CARD_SEEDS ++ map experiment_id l) ->
  register_all CARD_SEEDS l = Ok (CARD_SEEDS ++ map (fun a => (experiment_id a, seed_of_args a)) l).
Proof.
  revert CARD_SEEDS. induction l as [|a l IH]; intros t Hnd; simpl.
  - by rewrite app_nil_r.
  - assert (~ In (experiment_id a) (keys t)) as Hni.
    { intros Hin. apply NoDup_remove_2 in Hnd. apply Hnd, in_app_iff. auto. }
    unfold _register. rewrite (proj2 (assoc_none _ _) Hni). simpl.
    rewrite assoc_set_fresh by done. rewrite IH.
    + by rewrite <- app_assoc.
    + unfold keys in *. by rewrite map_app, <- app_assoc.
Qed.

(** A second registration of an ID is refused, and changes nothing. *)
Lemma register_duplicate CARD_SEEDS a s :
  assoc (experiment_id a) CARD_SEEDS = Some s ->
  _register CARD_SEEDS a =
  Raise (ValueError ("duplicate experiment seed: " +:+ experiment_id a)).
Proof. intros H. unfold _register. by rewrite H. Qed.

Lemma registrations_nodup : nodupb (map experiment_id registrations) = true.
Proof. vm_compute. reflexivity. Qed.

Lemma validate_seed_table : _validate_seeds seed_table = Ok tt.
Proof. vm_compute. reflexivity. Qed.
