(* ===== verification/Builder.v ===== *)
(** * Building the experiment registry

    The derivation functions of [tools/experiment_registry.py]: from a seed and
    the profile tables to a card ([_build_card]), and from the 106 seeds to the
    registry ([build_registry]).  Each function is the Python one; a step that
    can raise is in the [result] monad. *)

From stdpp Require Import base list strings numbers.
From Stdlib Require Import ZArith Lia Bool Ascii.
From S2P Require Import Prelude PyJson Sha256 JsonText RegistryTables ActionProfiles.
From S2P Require Import DataProfiles Seeds.

(** A list of strings, as [sorted(set(...))] and [list(...)] need it. *)
Definition as_str (v : json) : result string :=
  match v with JStr s => Ok s | _ => Raise (TypeError "not a string") end.

Definition as_strs (v : json) : result (list string) :=
  l ← as_list v; mapR as_str l.

(** [_load_card_seeds]: the import runs the seeds module; the copy is a value. *)
Definition _load_card_seeds : result (list (string * seed)) := import_seeds.

(** ** External data contract *)

Definition mapping_variable : string :=
  "versioned provider-event-to-Kalshi root/market/outcome mapping".

(** Append what the list does not have yet, in order. *)
Definition append_missing (l extra : list string) : list string :=
  fold_left (fun acc r => if str_in r acc then acc else acc ++ [r]) extra l.

Definition _external_contract (dependency atomic_id : string) : result json :=
  if String.eqb dependency "NOT_REQUIRED" then
    Ok (obj [
      "dependency" ~> JStr dependency;
      "availability" ~> JStr "NOT_APPLICABLE";
      "required_variables" ~> JList [];
      "approved_source" ~> JNull;
      "provider_candidates" ~> JList [];
      "asof_clock_status" ~> JStr "NOT_APPLICABLE";
      "license_status" ~> JStr "NOT_APPLICABLE";
      "historical_backfill_status" ~> JStr "NOT_APPLICABLE";
      "missing_policy" ~> JStr "NOT_APPLICABLE";
      "proxy_policy" ~> JStr "PRICE_IS_NOT_SPORT_STATE";
      "blockers" ~> JList []
    ])
  else if String.eqb dependency "OPTIONAL_REFINEMENT" then
    let required_variables :=
      default ["the explicitly named direct sports-state refinement"]
        (assoc atomic_id EXTERNAL_VARIABLES_BY_EXPERIMENT) in
    Ok (obj [
      "dependency" ~> JStr dependency;
      "availability" ~> JStr "MISSING_OPTIONAL_REFINEMENT";
      "required_variables" ~> strs required_variables;
      "approved_source" ~> JNull;
      "provider_candidates" ~> strs ["KALSHI_MILESTONES_LIVE_DATA"; "OPTICODDS"; "SPORTRADAR"];
      "asof_clock_status" ~> JStr "UNVERIFIED";
      "license_status" ~> JStr "UNVERIFIED";
      "historical_backfill_status" ~> JStr "UNVERIFIED_POINT_IN_TIME";
      "missing_policy" ~> JStr "DO_NOT_IMPUTE_CORE_MAY_RUN_WITHOUT_FIELD";
      "proxy_policy" ~> JStr "The core experiment keeps its internal proxy label and never renames it as actual sports state.";
      "blockers" ~> JList []
    ])
  else if String.eqb dependency "REQUIRED" then
    let required_variables :=
      append_missing
        (default ["direct event or game state named by the experiment"]
          (assoc atomic_id EXTERNAL_VARIABLES_BY_EXPERIMENT))
        ["provider event/publication timestamp";
         "local receive wall clock and monotonic clock";
         mapping_variable] in
    Ok (obj [
      "dependency" ~> JStr dependency;
      "availability" ~> JStr "MISSING";
      "required_variables" ~> strs required_variables;
      "approved_source" ~> JNull;
      "provider_candidates" ~> strs
        ["KALSHI_MILESTONES_LIVE_DATA"; "THE_ODDS_API"; "OPTICODDS"; "SPORTRADAR"];
      "asof_clock_status" ~> JStr "UNVERIFIED";
      "license_status" ~> JStr "UNVERIFIED";
      "historical_backfill_status" ~> JStr "UNVERIFIED_POINT_IN_TIME";
      "missing_policy" ~> JStr "BLOCK_NO_IMPUTE";
      "proxy_policy" ~> JStr "Do not infer score, serve, inning, pitch, injury, lineup, round, cut, or external odds from Kalshi price/order flow.";
      "blockers" ~> strs
        ["EXTERNAL_SPORTS_DATA_MISSING"; "EXTERNAL_API_UNVERIFIED"; "TIMESTAMP_SEMANTICS_UNKNOWN"]
    ])
  else if str_in dependency ["INHERIT_OWNER"; "INHERIT_CHILDREN"] then
    Ok (obj [
      "dependency" ~> JStr dependency;
      "availability" ~> JStr "UNRESOLVED_UNTIL_BINDING";
      "required_variables" ~> strs
        ["the exact external-data contract of the bound owner or child card"];
      "approved_source" ~> JNull;
      "provider_candidates" ~> JList [];
      "asof_clock_status" ~> JStr "INHERITED";
      "license_status" ~> JStr "INHERITED";
      "historical_backfill_status" ~> JStr "INHERITED";
      "missing_policy" ~> JStr "BLOCK_IF_BOUND_CARD_REQUIRES_IT";
      "proxy_policy" ~> JStr "PRICE_IS_NOT_SPORT_STATE";
      "blockers" ~> JList []
    ])
  else Raise (ValueError ("unknown external dependency: " +:+ dependency)).

(** ** Study dates *)

Definition _study_dates (data_profile : string) (signal_event_status : json) : json :=
  let l2_dependent :=
    str_in data_profile ["L2"; "L1_L2"; "FAMILY"; "MVE_PRIVATE"; "OWNER_EVPI"] in
  let potential_dates :=
    strs (if l2_dependent then L2_ESTIMATOR_CLEAN_DATES else AVAILABLE_RELEASE_DATES) in
  obj [
    "available_exact_release_dates" ~> strs AVAILABLE_RELEASE_DATES;
    "eligible_for_current_signal_description" ~>
      (if eq_str signal_event_status "YES" then potential_dates else JList []);
    "potential_dates_after_remaining_signal_gates_close" ~>
      (if eq_str signal_event_status "PARTIAL" then potential_dates else JList []);
    "signal_event_status" ~> signal_event_status;
    "l2_estimator_clean_dates" ~> strs L2_ESTIMATOR_CLEAN_DATES;
    "quality_rule" ~> JStr "L2 estimands use only 2026-07-12/15/17. Damaged L2 dates 2026-07-13/14/16 stay in the coverage ledger only; 2026-07-10/11 are L2-missing. Every experiment re-runs its own input gate.";
    "confirmation_status" ~> JStr "NO_UNTOUCHED_CONFIRMATION_COHORT_ALLOCATED"
  ].

(** ** Blockers *)

Definition blocker_by_cost_type : list (string * string) := [
  ("EXCHANGE_MAKER_FEE", "FEE_UNKNOWN");
  ("EXCHANGE_TAKER_FEE", "FEE_UNKNOWN");
  ("SLIPPAGE_MARKET_IMPACT", "FILL_MODEL_MISSING");
  ("PLACE_CANCEL_EXIT_LATENCY", "LATENCY_UNMEASURED");
  ("INVENTORY_TERMINAL_VOID", "SETTLEMENT_MISSING");
  ("COLLATERAL_AND_CAPITAL", "RISK_GATES_MISSING");
  ("RFQ_SELECTION_AND_CONFIRMATION", "RFQ_PRIVATE_EVENTS_MISSING");
  ("MVE_PACKAGE_EXECUTION_AND_PARTIAL", "MVE_PRIVATE_EVENTS_MISSING");
  ("DATA_API", "EXTERNAL_API_UNVERIFIED");
  ("POLICY_SWITCH_AND_OVERLAP", "RISK_GATES_MISSING");
  ("DATA_PROVIDER_LICENSE_API", "OPERATING_COST_UNKNOWN");
  ("CLOUD_COMPUTE_STORAGE_EGRESS", "OPERATING_COST_UNKNOWN");
  ("OPS_LABOR_AND_INCIDENT", "OPERATING_COST_UNKNOWN")
].

(** [d.get(key)] on a table with string keys, for a key of any value. *)
Definition table_get {A} (d : list (string * A)) (key : json) : result (option A) :=
  _ ← need_hashable key;
  Ok (match key with JStr s => assoc s d | _ => None end).

Fixpoint _cost_blockers (costs : list json) : result (list string) :=
  match costs with
  | [] => Ok []
  | cost :: costs' =>
      status ← getitem cost "status";
      if negb (eq_str status "MISSING") then _cost_blockers costs'
      else
        type ← getitem cost "type";
        blocker ← table_get blocker_by_cost_type type;
        match blocker with
        | None =>
            Raise (ValueError ("missing cost " +:+ py_str type +:+
                               " has no fail-closed blocker mapping"))
        | Some b => rest ← _cost_blockers costs'; Ok (b :: rest)
        end
  end.

Definition _signal_level_blockers (data_profile : string) : list string :=
  default [] (assoc data_profile [
    ("RFQ_PUBLIC", ["RFQ_PUBLIC_DATA_UNRELEASED"]);
    ("RFQ_PRIVATE", ["RFQ_PUBLIC_DATA_UNRELEASED"; "RFQ_PRIVATE_EVENTS_MISSING"]);
    ("MVE_PRIVATE", ["MVE_PRIVATE_EVENTS_MISSING"; "INSTRUMENT_MAPPING_UNKNOWN";
                     "PAYOUT_EXHAUSTIVENESS_MISSING"]);
    ("EXTERNAL", ["EXTERNAL_SPORTS_DATA_MISSING"; "EXTERNAL_API_UNVERIFIED";
                  "TIMESTAMP_SEMANTICS_UNKNOWN"]);
    ("MODEL", ["ACTION_INCOMPLETE"]);
    ("META", ["CONFIRMED_CHILD_STRATEGIES_MISSING"]);
    ("PRIVATE", ["PRIVATE_ACCOUNT_STATE_MISSING"]);
    ("L1_PRIVATE", ["PRIVATE_ACCOUNT_STATE_MISSING"]);
    ("OUT_OF_SCOPE", ["OUT_OF_SCOPE_CURRENT_PROGRAM"]);
    ("OWNER_EVPI", ["CONFIRMED_CHILD_STRATEGIES_MISSING"])
  ]).

Definition _expected_blockers (s : seed) (data external : json) (costs : list json)
    (has_action : bool) : result (list string) :=
  base ← (if has_action
          then (b ← getitem data "blockers"; as_strs b)
          else Ok (_signal_level_blockers (data_profile s)));
  cost_part ← (if has_action then _cost_blockers costs else Ok []);
  let child_part :=
    if str_in (action_profile s) CHILD_DEPENDENT_ACTION_PROFILES
    then ["CONFIRMED_CHILD_STRATEGIES_MISSING"] else [] in
  let mapping_part :=
    if has_action && String.eqb (external_dependency s) "REQUIRED"
    then ["INSTRUMENT_MAPPING_UNKNOWN"] else [] in
  eb ← getitem external "blockers";
  external_part ← as_strs eb;
  Ok (sorted_set (base ++ cost_part ++ child_part ++ mapping_part
                  ++ external_part ++ extra_blockers s)).

(** [CARD_SPECIFIC_GAP_OVERRIDES.get((atomic_id, blocker))] *)
Definition gap_override (atomic_id blocker : string) : option (string * string) :=
  match List.find (fun e => String.eqb (fst (fst e)) atomic_id && String.eqb (snd (fst e)) blocker)
          CARD_SPECIFIC_GAP_OVERRIDES with
  | Some e => Some (snd e)
  | None => None
  end.

Definition _gap_contract (atomic_id blocker : string) : result json :=
  entry ← or_raise (KeyError blocker) (assoc blocker BLOCKER_REMEDIATION_CATALOG);
  let '(missing0, acquisition0, blocking_stage) := entry in
  let '(missing, acquisition) :=
    default (missing0, acquisition0) (gap_override atomic_id blocker) in
  Ok (obj [
    "blocker" ~> JStr blocker;
    "blocking_stage" ~> JStr blocking_stage;
    "missing_evidence" ~> JStr missing;
    "acquisition_or_build_path" ~> JStr acquisition;
    "external_api_candidate_ids" ~> strs (
      if str_in blocker ["EXTERNAL_SPORTS_DATA_MISSING"; "EXTERNAL_API_UNVERIFIED"]
      then ["KALSHI_MILESTONES_LIVE_DATA"; "THE_ODDS_API"; "OPTICODDS"; "SPORTRADAR"]
      else []);
    "unknown_value_policy" ~> JStr "BLOCK_NOT_ZERO"
  ]).

(** ** Classification *)

Definition _base_class (target_class : string) (action venue baseline pnl : json)
    : result string :=
  action_type ← getitem action "action_type";
  let has_action := truthy action_type in
  if String.eqb target_class "RESEARCH_QUESTION" then Ok "RESEARCH_QUESTION"
  else if negb has_action then Ok "SIGNAL"
  else
    complete ← andR (andR (andR
      (v ← getitem venue "execution_venue"; Ok (negb (eq_str v "NONE")))
      (b ← getitem baseline "baseline_id"; Ok (negb (is_none b))))
      (p ← getitem pnl "basis"; Ok (eq_str p "PATHWISE_AFTER_COST")))
      (i ← getitem pnl "incremental_formula"; Ok (truthy i));
    Ok (if complete : bool then "EXECUTABLE_STRATEGY" else "SIGNAL").

Definition promotion_rule : string :=
  "Only a new immutable revision with all critical blockers closed, an untouched confirmation cohort, and a fee-after pathwise PnL receipt may become a deployment candidate.".

Definition _classification (target_class base_class : string) (blockers : list string) : json :=
  let '(computed, blocked_from, lifecycle) :=
    match blockers with
    | _ :: _ => ("BLOCKED", JStr base_class, "REGISTERED_BLOCKED")
    | [] =>
        (base_class, JNull,
         if String.eqb base_class "EXECUTABLE_STRATEGY"
         then "REGISTERED_ACTION_SPEC_COMPLETE" else "REGISTERED_RESEARCH_ONLY")
    end in
  obj [
    "target_class" ~> JStr target_class;
    "computed_class" ~> JStr computed;
    "blocked_from" ~> blocked_from;
    "strategy_eligible" ~> JBool (String.eqb computed "EXECUTABLE_STRATEGY");
    "lifecycle" ~> JStr lifecycle;
    "promotion_rule" ~> JStr promotion_rule
  ].

Definition _claim_tier_for_observation (observation_status : string) : string :=
  if startswith "DESCRIPTIVE" observation_status then "DESCRIPTIVE_ONLY_NO_PNL"
  else if substr "NOT_ESTIMABLE" observation_status then "NOT_ESTIMABLE"
  else "NONE".

(** ** One card *)

Definition family_of (atomic_id : string) : result (string * string) :=
  code ← first_char atomic_id;
  name ← or_raise (KeyError code) (assoc code FAMILY_NAMES);
  Ok (code, name).

(** The action section: the profile plus its three card-level fields. *)
Definition build_action (s : seed) : result json :=
  action0 ← _action_profile (action_profile s);
  action1 ← setitem action0 "profile_id" (JStr (action_profile s));
  action2 ← setitem action1 "current_execution_authority" (JStr "NONE");
  action_type ← getitem action2 "action_type";
  setitem action2 "registered_signal_to_action"
    (if truthy action_type then
       JStr ("IF [" +:+ trigger (signal s) +:+ "] THEN apply [" +:+ action_profile s +:+
             "] exactly as specified below; ELSE preserve the registered baseline/no-trade branch.")
     else JNull).

(** A missing signal input makes the signal not calculable, whatever the feed. *)
Definition close_missing_signal (blockers : list string) (data : json) : result json :=
  if str_in "MISSING_SIGNAL_INPUT" blockers then
    can0 ← getitem data "can_compute_now";
    can ← setitem can0 "signal_event" (JStr "NO");
    data1 ← setitem data "can_compute_now" can;
    setitem data1 "currently_calculable"
      (JStr "The base feed may exist, but this experiment's named signal input is absent; current signal incidence and effect are not calculable.")
  else Ok data.

Definition identity_section (atomic_id code name : string) : json := obj [
  "experiment_id" ~> JStr atomic_id;
  "registry_id" ~> JStr REGISTRY_ID;
  "version" ~> JInt 1;
  "family_code" ~> JStr code;
  "family_name" ~> JStr name;
  "lineage_status" ~> JStr "BREADTH_ATOMIC_DIRECTION";
  "source_atomic_id" ~> JStr atomic_id
].

Definition hypothesis_section (s : seed) (has_action : bool) : json :=
  let trigger := trigger (signal s) in
  obj [
    "mechanism" ~> JStr (hypothesis s);
    "falsifiable_statement" ~> JStr (
      if has_action then
        "Under preregistered eligibility, if [" +:+ trigger +:+ "], the registered " +:+
        action_profile s +:+ " policy must improve its primary estimand against the registered baseline; otherwise the hypothesis fails or remains non-strategic."
      else
        "Under preregistered eligibility, test whether [" +:+ trigger +:+ "] changes the registered signal/outcome contrast versus its stated control. Failure of that contrast rejects the signal; no action or PnL claim follows from this card.");
    "primary_estimand" ~> JStr (
      if has_action then "fee-after pathwise incremental NetPnL versus registered baseline"
      else "registered signal/outcome contrast; no PnL claim");
    "failure_conditions" ~> obj [
      "signal" ~> JStr (falsifier (signal s));
      "execution" ~> JStr (
        if has_action then "No pessimistically valid fills/acceptances after latency, queue, depth and reconciliation rules."
        else "No action is defined, so execution and PnL are not testable.");
      "economics" ~> JStr (
        if has_action then "Out-of-sample incremental NetPnL after every registered cost is <= 0 or its lower confidence bound misses the frozen commercial threshold."
        else "NOT_APPLICABLE_UNTIL_ACTION_AND_PNL_EXIST");
      "capacity" ~> JStr (
        if has_action then "Positive one-contract economics disappear at the first tested size step or peak-capital return is below threshold."
        else "NOT_APPLICABLE_UNTIL_ACTION_AND_PNL_EXIST")
    ]
  ].

Definition design_section (atomic_id code : string) (s : seed) (policy : json) : json := obj [
  "unit" ~> JStr "ROOT_EVENT_X_MARKET_X_DECISION_OPPORTUNITY";
  "eligibility" ~> JStr "past-only, gap-free, exact-release-bound card-specific gate";
  "clock_rule" ~> JStr (decision_clock (signal s));
  "forecast_horizon" ~> JStr (forecast_horizon (signal s));
  "comparison" ~> (if is_none policy
                   then JStr "signal/control contrast only; no executable comparison"
                   else policy);
  "overlap_and_precedence" ~> JStr (
    default "No card-specific overlap exception registered; shared roots, orders, capital and PnL must be deduplicated at portfolio evaluation."
      (assoc atomic_id OVERLAP_PRECEDENCE_BY_EXPERIMENT));
  "split_status" ~> JStr "NOT_FROZEN_FOR_THIS_CARD";
  "minimum_evidence" ~> JStr "independent days and roots, zeros retained, root/day clustered uncertainty, untouched validation and confirmation";
  "multiple_testing_family" ~> JStr ("DEEP03-" +:+ code +:+ "-BREADTH");
  "stop_rule" ~> JStr "Fail or remain blocked; never extend data because the observed result is unprofitable or insignificant."
].

(** [OBSERVED_SIGNAL_EVIDENCE.get(atomic_id, {...})] *)
Definition observed_signal_of (atomic_id : string) : json :=
  default (obj [
    "status" ~> JStr "NOT_MEASURED_IN_CURRENT_RELEASE";
    "values" ~> JNull;
    "source" ~> JNull
  ]) (assoc atomic_id OBSERVED_SIGNAL_EVIDENCE).

Definition result_section (s : seed) (observed_signal : json) : result json :=
  status ← getitem observed_signal "status";
  status_text ← as_str status;
  Ok (obj [
    "status" ~> status;
    "claim_tier" ~> JStr (_claim_tier_for_observation status_text);
    "registry_design_status" ~> JStr (result_status s);
    "registered_claim_ceiling" ~> JStr (claim_tier s);
    "observed_signal" ~> observed_signal;
    "strategy_pnl_claim" ~> JStr "NONE";
    "live_pnl_claim" ~> JStr "NONE";
    "note" ~> JStr "A descriptive signal result does not establish fillability, fee-after PnL, capacity, or live profitability."
  ]).

Definition next_section (data external : json) (has_action : bool) : result json :=
  paths ← getitem data "acquisition_paths";
  providers ← getitem external "provider_candidates";
  Ok (obj [
    "to_measure_signal" ~> paths;
    "to_measure_pnl" ~> strs (
      if has_action then [
        "freeze this exact card and baseline before outcome reads";
        "stateful pessimistic shadow replay with exact fees and clocks";
        "own-order shadow then separately authorized one-contract micro-live";
        "untouched chronological confirmation with root/day accounting"]
      else ["define a deterministic action, executable baseline and PnL first"]);
    "external_source_ids" ~> providers
  ]).

(** [{"profile_id": ..., **data, "critical_gaps": ..., "study_dates": ...}] *)
Definition data_section (data_profile : string) (data : json) (critical_gaps : list json)
    : result json :=
  items ← as_items data;
  can ← getitem data "can_compute_now";
  status ← getitem can "signal_event";
  Ok (JObj (merge (merge ["profile_id" ~> JStr data_profile] items) [
    "critical_gaps" ~> JList critical_gaps;
    "study_dates" ~> _study_dates data_profile status
  ])).

Definition _build_card (atomic_id : string) (s : seed) : result json :=
  action ← build_action s;
  venue ← _venue_for (action_profile s);
  let baseline := _baseline_for (action_profile s) in
  let pnl := _pnl_for (action_profile s) in
  let costs := _costs_for (action_profile s) (external_dependency s) in
  data0 ← _data_profile (data_profile s);
  external ← _external_contract (external_dependency s) atomic_id;
  action_type ← getitem action "action_type";
  let has_action := truthy action_type in
  blockers ← _expected_blockers s data0 external costs has_action;
  data ← close_missing_signal blockers data0;
  critical_gaps ← mapR (_gap_contract atomic_id) blockers;
  base_class ← _base_class (target_class s) action venue baseline pnl;
  let classification := _classification (target_class s) base_class blockers in
  fam ← family_of atomic_id;
  let '(code, name) := fam in
  data_sec ← data_section (data_profile s) data critical_gaps;
  policy ← getitem baseline "policy";
  current_result ← result_section s (observed_signal_of atomic_id);
  next_evidence ← next_section data external has_action;
  let card := [
    "identity" ~> identity_section atomic_id code name;
    "classification" ~> classification;
    "hypothesis" ~> hypothesis_section s has_action;
    "signal" ~> signal_dict (signal s);
    "action" ~> action;
    "venue" ~> venue;
    "baseline" ~> baseline;
    "pnl" ~> pnl;
    "costs" ~> JList costs;
    "data" ~> data_sec;
    "external_sports_data" ~> external;
    "experiment_design" ~> design_section atomic_id code s policy;
    "current_result" ~> current_result;
    "blockers" ~> strs blockers;
    "next_evidence" ~> next_evidence
  ] in
  Ok (JObj (assoc_set "definition_sha256" (JStr (_sha256 (JObj card))) card)).

(** ** Summary *)

(** A dict of counters whose keys are arbitrary hashable values. *)
Fixpoint count_key (k : json) (counts : list (json * Z)) : list (json * Z) :=
  match counts with
  | [] => [(k, 1%Z)]
  | (k', n) :: counts' =>
      if py_eq k k' then (k', (n + 1)%Z) :: counts' else (k', n) :: count_key k counts'
  end.

Definition count (k : json) (counts : list (json * Z)) : result (list (json * Z)) :=
  _ ← need_hashable k; Ok (count_key k counts).

(** Such a dict is a JSON object when all its keys are strings. *)
Fixpoint counts_json (counts : list (json * Z)) : option (list (string * json)) :=
  match counts with
  | [] => Some []
  | (JStr s, n) :: counts' => (fun d => (s ~> JInt n) :: d) <$> counts_json counts'
  | _ => None
  end.

Record summary := Summary {
  sum_total : Z;
  sum_family : list (json * Z);
  sum_class : list (json * Z);
  sum_target : list (json * Z);
  sum_eligible : Z
}.

(** One addition of [sum(...)]. *)
Definition add_value (acc : Z) (v : json) : result Z :=
  match v with
  | JBool b => Ok (acc + (if b then 1 else 0))%Z
  | JInt z => Ok (acc + z)%Z
  | JDec _ _ => Raise (Unmodelled "sum of floats")
  | _ => Raise (TypeError "unsupported operand type(s) for +")
  end.

Fixpoint count_cards (cards : list json) (f c t : list (json * Z))
    : result (list (json * Z) * list (json * Z) * list (json * Z)) :=
  match cards with
  | [] => Ok (f, c, t)
  | card :: cards' =>
      identity ← getitem card "identity";
      family ← getitem identity "family_code";
      classification ← getitem card "classification";
      computed ← getitem classification "computed_class";
      target ← getitem classification "target_class";
      f' ← count family f;
      c' ← count computed c;
      t' ← count target t;
      count_cards cards' f' c' t'
  end.

Fixpoint sum_eligible_of (cards : list json) (acc : Z) : result Z :=
  match cards with
  | [] => Ok acc
  | card :: cards' =>
      classification ← getitem card "classification";
      e ← getitem classification "strategy_eligible";
      acc' ← add_value acc e;
      sum_eligible_of cards' acc'
  end.

Definition _summary_for_cards (cards : list json) : result summary :=
  counts ← count_cards cards [] [] [];
  let '(f, c, t) := counts in
  e ← sum_eligible_of cards 0;
  Ok (Summary (Z.of_nat (length cards)) f c t e).

Definition summary_warning : string :=
  "A registered action-shaped experiment is not evidence of profit and carries no permission to shadow, quote, trade or spend.".

(** The summary as a JSON object; [None] when a counter has a key that is not a
    string, which no JSON object equals. *)
Definition summary_json (s : summary) : option json :=
  f ← counts_json (sum_family s);
  c ← counts_json (sum_class s);
  t ← counts_json (sum_target s);
  Some (obj [
    "total_cards" ~> JInt (sum_total s);
    "family_counts" ~> JObj f;
    "computed_class_counts" ~> JObj c;
    "target_class_counts" ~> JObj t;
    "strategy_eligible_now" ~> JInt (sum_eligible s);
    "warning" ~> JStr summary_warning
  ]).

(** ** The registry *)

Definition scope_section : json := obj [
  "objective" ~> JStr "Convert the full Deep03 idea surface into falsifiable, action-linked, cost-complete PnL experiments.";
  "breadth_policy" ~> JStr "REGISTER_ALL_106_BEFORE_DEPTH_RANKING";
  "strategy_definition" ~> JStr "No concrete action, venue, executable baseline and after-cost PnL definition means it is not a strategy.";
  "deployment_authority" ~> JStr "NONE";
  "order_authority" ~> JStr "NONE";
  "action_authority" ~> JStr "NONE";
  "external_data_policy" ~> JStr "MISSING_EXTERNAL_DATA_BLOCK_NO_IMPUTE"
].

Definition classification_contract : json := obj [
  "classes" ~> strs ["RESEARCH_QUESTION"; "SIGNAL"; "EXECUTABLE_STRATEGY"; "BLOCKED"];
  "rule" ~> JStr "Target class records intent; computed class records present readiness. A critical missing input yields BLOCKED and preserves blocked_from. Unknown PnL is never zero."
].

Definition pnl_contract : json := obj [
  "primary" ~> JStr "incremental pathwise NetPnL after all costs";
  "cash_authority" ~> JStr "executable fills or separately authorized actual fills only";
  "diagnostic_only" ~> strs ["mid return"; "markout"; "microprice"; "spread opportunity"];
  "denominator_policy" ~> JStr "retain eligible no-trigger, no-fill and no-accept opportunities; report per opportunity, trigger, fill, contract, day and peak capital";
  "capacity_policy" ~> JStr "no linear extrapolation beyond tested executable depth"
].

(** Equal pairs among the (hypothesis, trigger) pairs. *)
Fixpoint nodup_pairs (l : list (string * string)) : bool :=
  match l with
  | [] => true
  | p :: l' =>
      negb (existsb (fun p' => String.eqb (fst p) (fst p') && String.eqb (snd p) (snd p')) l')
      && nodup_pairs l'
  end.

Definition seed_at (seeds : list (string * seed)) (atomic_id : string) : result seed :=
  or_raise (KeyError atomic_id) (assoc atomic_id seeds).

Definition build_registry : result json :=
  seeds ← _load_card_seeds;
  _ ← guard (same_set (keys seeds) ATOMIC_IDS)
        ("seed ID mismatch: missing=" +:+
         py_repr (strs (sorted_set (set_minus ATOMIC_IDS (keys seeds)))) +:+ ", extra=" +:+
         py_repr (strs (sorted_set (set_minus (keys seeds) ATOMIC_IDS))));
  pairs ← mapR (fun id => s ← seed_at seeds id; Ok (hypothesis s, trigger (signal s))) ATOMIC_IDS;
  _ ← guard (nodup_pairs pairs) "duplicate hypothesis/signal seed pair";
  cards ← mapR (fun id => s ← seed_at seeds id; _build_card id s) ATOMIC_IDS;
  sm ← _summary_for_cards cards;
  summary ← or_raise (Unmodelled "summary key") (summary_json sm);
  let registry := [
    "schema_version" ~> JStr SCHEMA_VERSION;
    "registry_id" ~> JStr REGISTRY_ID;
    "generated_by" ~> JStr "tools/experiment_registry.py";
    "scope" ~> scope_section;
    "source_bindings" ~> JList SOURCE_BINDINGS;
    "classification_contract" ~> classification_contract;
    "pnl_contract" ~> pnl_contract;
    "external_source_catalog" ~> EXTERNAL_SOURCE_CATALOG;
    "summary" ~> summary;
    "experiments" ~> JList cards
  ] in
  Ok (JObj (assoc_set "registry_sha256" (JStr (_sha256 (JObj registry))) registry)).
