(* ===== verification/Validator.v ===== *)
(** * Validating a registry

    [validate_registry] of [tools/experiment_registry.py].  It collects error
    messages and may also raise, so its steps live in [vres]: [VOk errs a] is a
    step that appended [errs] to the error list, [VRaise e] an exception that
    leaves the function.

    The file system is a parameter: [file_at] gives what is stored at a
    normalised path (no symbolic links), [ROOT] is the repository root and
    [exc_text] the interpreter's text of a caught exception. *)

From stdpp Require Import base list strings numbers.
From Stdlib Require Import ZArith Lia Bool Ascii.
From S2P Require Import Prelude PyJson Sha256 JsonText RegistryTables ActionProfiles.
From S2P Require Import DataProfiles Seeds Builder.

Inductive vres (A : Type) :=
| VOk (errs : list string) (a : A)
| VRaise (e : exn).
Arguments VOk {A} errs a.
Arguments VRaise {A} e.

#[export] Instance vres_ret : MRet vres := fun A a => VOk [] a.
#[export] Instance vres_bind : MBind vres := fun A B f m =>
  match m with
  | VOk errs a =>
      match f a with
      | VOk errs' b => VOk (errs ++ errs') b
      | VRaise e => VRaise e
      end
  | VRaise e => VRaise e
  end.

#[export] Instance vres_fmap : FMap vres := fun A B f m =>
  match m with VOk errs a => VOk errs (f a) | VRaise e => VRaise e end.

Definition lift {A} (r : result A) : vres A :=
  match r with Ok a => VOk [] a | Raise e => VRaise e end.

Definition append_error (message : string) : vres unit := VOk [message] tt.

(** [_expect(errors, condition, message)] *)
Definition _expect (condition : bool) (message : string) : vres unit :=
  if condition then VOk [] tt else append_error message.

(** [_expect] of a condition whose evaluation may raise. *)
Definition expectR (condition : result bool) (message : string) : vres unit :=
  c ← lift condition; _expect c message.

(** A [for] loop over a list. *)
Fixpoint for_each {A} (f : A -> vres unit) (l : list A) : vres unit :=
  match l with
  | [] => VOk [] tt
  | a :: l' => _ ← f a; for_each f l'
  end.

(** A [for] loop that threads a local variable. *)
Fixpoint for_fold {A S} (f : S -> A -> vres S) (l : list A) (s : S) : vres S :=
  match l with
  | [] => VOk [] s
  | a :: l' => s' ← f s a; for_fold f l' s'
  end.

(** ** Membership and dicts with arbitrary keys *)

(** [needle in v] for a string [needle]. *)
Definition contains (needle : string) (v : json) : result bool :=
  match v with
  | JStr s => Ok (substr needle s)
  | JList l => Ok (in_list (JStr needle) l)
  | JObj d => Ok (str_in needle (keys d))
  | _ => Raise (TypeError "argument is not iterable")
  end.

(** [bool(v.get(k))] *)
Definition get_truthy (v : json) (k : string) : result bool := truthy <$> get v k.

(** [v.get(k) == s] and [v[k] == s] for a string [s]. *)
Definition get_is (v : json) (k s : string) : result bool := (fun x => eq_str x s) <$> get v k.
Definition item_is (v : json) (k s : string) : result bool :=
  (fun x => eq_str x s) <$> getitem v k.

Fixpoint dict_put (k v : json) (d : list (json * json)) : list (json * json) :=
  match d with
  | [] => [(k, v)]
  | (k', v') :: d' => if py_eq k k' then (k', v) :: d' else (k', v') :: dict_put k v d'
  end.

Fixpoint dict_get (k : json) (d : list (json * json)) : option json :=
  match d with
  | [] => None
  | (k', v) :: d' => if py_eq k k' then Some v else dict_get k d'
  end.

(** [==] of a dict of counters with arbitrary keys and one with string keys. *)
Definition jcounts_eqb (a : list (json * Z)) (b : list (string * Z)) : bool :=
  (length a =? length b)%nat &&
  forallb (fun kv => match fst kv with
                     | JStr s => match assoc s b with Some n => (snd kv =? n)%Z | None => false end
                     | _ => false
                     end) a.

Definition show_jcounts (d : list (json * Z)) : string :=
  "{" +:+ String.concat ", " (map (fun kv => py_repr (fst kv) +:+ ": " +:+ show_Z (snd kv)) d)
  +:+ "}".

(** ** The file system *)

Inductive file :=
| Bytes (content : string)
| Denied (msg : string).

Fixpoint split_slash (s : string) (cur : string) : list string :=
  match s with
  | EmptyString => [cur]
  | String c s' =>
      if nat_of_ascii c =? 47 then cur :: split_slash s' EmptyString
      else split_slash s' (cur +:+ str1 c)
  end.

(** Components applied to a directory, [".."] going to the parent. *)
Definition step_path (dir : list string) (comp : string) : list string :=
  if String.eqb comp EmptyString || String.eqb comp "." then dir
  else if String.eqb comp ".." then removelast dir
  else dir ++ [comp].

(** [(root / rel).resolve()] *)
Definition resolve (root : list string) (rel : string) : list string :=
  let start := match rel with
               | String c _ => if nat_of_ascii c =? 47 then [] else root
               | EmptyString => root
               end in
  fold_left step_path (split_slash rel EmptyString) start.

Fixpoint is_under (root path : list string) : bool :=
  match root, path with
  | [], _ => true
  | a :: root', b :: path' => String.eqb a b && is_under root' path'
  | _, [] => false
  end.

(** [handle.read(n)]: at most [n] bytes, and what is left. *)
Fixpoint read (n : N) (handle : string) : string * string :=
  match handle with
  | EmptyString => (EmptyString, EmptyString)
  | String c handle' =>
      if (n =? 0)%N then (EmptyString, handle)
      else let (chunk, rest) := read (N.pred n) handle' in (String c chunk, rest)
  end.

(** A digest object of [hashlib]: the bytes it was fed. *)
Definition sha256_new : string := EmptyString.
Definition update (digest chunk : string) : string := digest +:+ chunk.
Definition hexdigest (digest : string) : string := sha256_hex digest.

(** The loop over [iter(lambda: handle.read(1024 * 1024), b"")].  A read that is
    not empty consumes a byte, so the length of the file is enough fuel. *)
Fixpoint update_all (fuel : nat) (handle digest : string) : string :=
  match fuel with
  | O => digest
  | S fuel =>
      match read (1024 * 1024) handle with
      | (EmptyString, _) => digest
      | (chunk, rest) => update_all fuel rest (update digest chunk)
      end
  end.

Section Validate.
Context (ROOT : list string) (file_at : list string -> option file).
Context (exc_text : exn -> string).

Definition is_file (path : list string) : bool :=
  match file_at path with Some _ => true | None => false end.

Definition read_bytes (path : list string) : result string :=
  match file_at path with
  | Some (Bytes b) => Ok b
  | Some (Denied m) => Raise (OSError m)
  | None => Raise (OSError "No such file or directory")
  end.

(** [_file_sha256]: the file is read in chunks of a mebibyte until a read is
    empty, and each chunk fed to the digest. *)
Definition _file_sha256 (path : list string) : result string :=
  content ← read_bytes path;
  Ok (hexdigest (update_all (S (String.length content)) content sha256_new)).

(** [json.loads(path.read_text(encoding=...))] *)
Definition load_json (path : list string) : result json :=
  b ← read_bytes path;
  if utf8_valid b then json_loads b else Raise UnicodeDecodeError.

(** ** Scope *)

Definition check_scope (scope : json) : vres unit :=
  _ ← _expect (is_dict scope) "scope must be an object";
  if negb (is_dict scope) then VOk [] tt
  else
    _ ← for_each (fun authority_field =>
          expectR (get_is scope authority_field "NONE")
            ("scope." +:+ authority_field +:+ " must remain NONE"))
          ["deployment_authority"; "order_authority"; "action_authority"];
    _ ← expectR (get_is scope "breadth_policy" "REGISTER_ALL_106_BEFORE_DEPTH_RANKING")
          "scope breadth policy drift";
    expectR (get_is scope "external_data_policy" "MISSING_EXTERNAL_DATA_BLOCK_NO_IMPUTE")
      "scope external-data fail-closed policy drift".

(** ** Source bindings *)

Definition check_binding (binding : json) : vres unit :=
  if negb (is_dict binding) then append_error "source binding must be an object"
  else
    role ← lift (get_default binding "role" (JStr "<missing>"));
    relative_path ← lift (get binding "path");
    match relative_path with
    | JStr rel =>
        let resolved := resolve ROOT rel in
        if negb (is_under ROOT resolved) then
          append_error (py_str role +:+ ": source path escapes repository root")
        else
          required ← lift (get_truthy binding "local_required");
          if required && negb (is_file resolved) then
            append_error (py_str role +:+ ": required source file missing")
          else if is_file resolved then
            sha ← lift (_file_sha256 resolved);
            stored ← lift (get binding "sha256");
            _expect (eq_str stored sha) (py_str role +:+ ": source file SHA mismatch")
          else VOk [] tt
    | _ => append_error (py_str role +:+ ": source path missing")
    end.

Definition AUTHORITY_DOCUMENT_SHA : string :=
  "ded84065dec179ce713377b53607b04adad342ae77e5c3c2b894247bc07b5d36".

(** The list comprehension over the bindings. *)
Fixpoint authority_of (bindings : list json) : result (list json) :=
  match bindings with
  | [] => Ok []
  | b :: bs =>
      here ← get_is b "role" "ATOMIC_DIRECTION_AUTHORITY";
      rest ← authority_of bs;
      Ok (if here : bool then b :: rest else rest)
  end.

Definition check_authority_file (path : list string) : vres unit :=
  match load_json path with
  | Raise (OSError m) =>
      append_error ("atomic direction authority unreadable: " +:+ exc_text (OSError m))
  | Raise JSONDecodeError =>
      append_error ("atomic direction authority unreadable: " +:+ exc_text JSONDecodeError)
  | Raise e => VRaise e
  | Ok authority =>
      ids ← lift (get_default authority "atomic_ids" (JList []));
      id_tuple ← lift (as_list ids);
      _ ← _expect (py_eq (JList id_tuple) (strs ATOMIC_IDS))
            "atomic direction authority IDs differ from generator";
      expectR (get_is authority "source_document_sha256" AUTHORITY_DOCUMENT_SHA)
        "atomic authority origin document SHA mismatch"
  end.

Definition check_authority (source_bindings : list json) : vres unit :=
  authority_bindings ← lift (authority_of source_bindings);
  _ ← _expect (length authority_bindings =? 1)%nat
        "exactly one atomic direction authority binding is required";
  match authority_bindings with
  | [b] =>
      path ← lift (getitem b "path");
      match path with
      | JStr rel =>
          let authority_path := resolve ROOT rel in
          if is_file authority_path then check_authority_file authority_path else VOk [] tt
      | _ => VRaise (TypeError "unsupported operand type(s) for /")
      end
  | _ => VOk [] tt
  end.

Definition check_source_bindings (source_bindings : json) : vres unit :=
  _ ← _expect (is_list source_bindings) "source_bindings must be a list";
  match source_bindings with
  | JList bindings =>
      _ ← _expect (py_eq source_bindings (JList SOURCE_BINDINGS))
            "source bindings differ from the five canonical evidence roles";
      _ ← for_each check_binding bindings;
      check_authority bindings
  | _ => VOk [] tt
  end.

(** ** One card *)

Definition required_sections : list string :=
  ["classification"; "hypothesis"; "signal"; "action"; "venue"; "baseline"; "pnl"; "costs";
   "data"; "external_sports_data"; "experiment_design"; "current_result"; "blockers";
   "next_evidence"].

(** The sections the checks read, bound once as the code binds them. *)
Record sections := Sections {
  sec_card : json;
  sec_action : json;
  sec_venue : json;
  sec_baseline : json;
  sec_pnl : json;
  sec_classification : json;
  sec_costs : json;
  sec_data : json;
  sec_ext : json;
  sec_blockers : json
}.

Definition get_sections (card : json) : result sections :=
  action ← getitem card "action";
  venue ← getitem card "venue";
  baseline ← getitem card "baseline";
  pnl ← getitem card "pnl";
  classification ← getitem card "classification";
  costs ← getitem card "costs";
  data ← getitem card "data";
  ext ← getitem card "external_sports_data";
  blockers ← getitem card "blockers";
  Ok (Sections card action venue baseline pnl classification costs data ext blockers).

Definition sections_typed (c : sections) : bool :=
  is_dict (sec_action c) && is_dict (sec_venue c) && is_dict (sec_baseline c) &&
  is_dict (sec_pnl c) && is_list (sec_costs c) && is_dict (sec_data c) &&
  is_dict (sec_ext c) && is_list (sec_blockers c).

Definition check_types (id : string) (c : sections) : vres unit :=
  _ ← _expect (is_dict (sec_action c)) (id +:+ ": action must be an object");
  _ ← _expect (is_dict (sec_venue c)) (id +:+ ": venue must be an object");
  _ ← _expect (is_dict (sec_baseline c)) (id +:+ ": baseline must be an object");
  _ ← _expect (is_dict (sec_pnl c)) (id +:+ ": pnl must be an object");
  _ ← _expect (is_list (sec_costs c)) (id +:+ ": costs must be a list");
  _ ← _expect (is_dict (sec_data c)) (id +:+ ": data must be an object");
  _ ← _expect (is_dict (sec_ext c)) (id +:+ ": external contract must be an object");
  _expect (is_list (sec_blockers c)) (id +:+ ": blockers must be a list").

(** Identity, hypothesis, signal and the action against the seed. *)
Definition check_identity (id : string) (s : seed) (identity : json) (c : sections) : vres unit :=
  fam ← lift (family_of id);
  _ ← _expect (py_eq identity (identity_section id (fst fam) (snd fam)))
        (id +:+ ": identity contract drift");
  _ ← expectR (h ← getitem (sec_card c) "hypothesis"; get_is h "mechanism" (hypothesis s))
        (id +:+ ": hypothesis differs from canonical seed");
  expectR (sg ← getitem (sec_card c) "signal"; Ok (py_eq sg (signal_dict (signal s))))
    (id +:+ ": signal differs from canonical seed").

Definition check_action (id : string) (s : seed) (c : sections) : vres unit :=
  _ ← expectR (get_is (sec_action c) "profile_id" (action_profile s))
        (id +:+ ": action profile differs from canonical seed");
  expected_action ← lift (build_action s);
  _expect (py_eq (sec_action c) expected_action) (id +:+ ": action contract drift").

Definition check_signal_fields (id : string) (c : sections) : vres unit :=
  _ ← expectR (h ← getitem (sec_card c) "hypothesis";
               andR (truthy <$> getitem h "mechanism")
                    (truthy <$> getitem h "falsifiable_statement"))
        (id +:+ ": empty hypothesis");
  for_each (fun key =>
    expectR (sg ← getitem (sec_card c) "signal"; get_truthy sg key)
      (id +:+ ": missing signal." +:+ key))
    ["trigger"; "direction_semantics"; "decision_clock"; "forecast_horizon"; "falsifier"].

(** Venue, baseline, PnL, costs and external contract against the tables. *)
Definition check_contracts (id : string) (s : seed) (c : sections) : vres unit :=
  _ ← expectR (v ← get (sec_venue c) "execution_venue"; in_strset v EXECUTION_VENUES)
        (id +:+ ": unknown venue");
  _ ← expectR (get_is (sec_action c) "current_execution_authority" "NONE")
        (id +:+ ": execution authority must remain NONE");
  expected_venue ← lift (_venue_for (action_profile s));
  _ ← _expect (py_eq (sec_venue c) expected_venue) (id +:+ ": venue contract drift");
  _ ← _expect (py_eq (sec_baseline c) (_baseline_for (action_profile s)))
        (id +:+ ": baseline contract drift");
  _ ← _expect (py_eq (sec_pnl c) (_pnl_for (action_profile s))) (id +:+ ": PnL contract drift");
  _ ← _expect (py_eq (sec_costs c)
                 (JList (_costs_for (action_profile s) (external_dependency s))))
        (id +:+ ": cost contract drift");
  expected_external ← lift (_external_contract (external_dependency s) id);
  _ ← _expect (py_eq (sec_ext c) expected_external) (id +:+ ": external-data contract drift");
  expectR (d ← get (sec_ext c) "dependency"; in_strset d EXTERNAL_DEPENDENCIES)
    (id +:+ ": unknown external dependency").

(** A card without an action carries no venue, PnL, eligibility or cost. *)
Definition check_no_action (id : string) (c : sections) : vres unit :=
  _ ← expectR (item_is (sec_venue c) "execution_venue" "NONE")
        (id +:+ ": no-action card has venue");
  _ ← expectR (item_is (sec_pnl c) "status" "NOT_DEFINED_NOT_A_STRATEGY")
        (id +:+ ": no-action card has PnL");
  _ ← expectR (e ← getitem (sec_classification c) "strategy_eligible"; Ok (negb (truthy e)))
        (id +:+ ": no-action card marked strategy");
  _expect (negb (truthy (sec_costs c))) (id +:+ ": no-action card has execution costs").

Definition cost_is_valid (cost : json) : result bool :=
  if negb (is_dict cost) then Ok false
  else
    andR (andR (andR
      (t ← get cost "type"; in_strset t COST_TYPES)
      (r ← get cost "role"; in_strset r COST_ROLES))
      (st ← get cost "status"; in_strset st COST_STATUSES))
      (get_truthy cost "rule").

(** The loop over the costs: the index and whether all were valid so far. *)
Definition check_cost (id : string) (st : nat * bool) (cost : json) : vres (nat * bool) :=
  let '(index, valid_cost_contracts) := st in
  ok ← lift (cost_is_valid cost);
  _ ← _expect ok (id +:+ ": invalid cost contract at index " +:+ show_nat index);
  VOk [] (S index, valid_cost_contracts && ok).

Definition check_has_action (id : string) (c : sections) : vres unit :=
  _ ← for_each (fun action_field =>
        expectR (get_truthy (sec_action c) action_field)
          (id +:+ ": action." +:+ action_field +:+ " is empty"))
        ["signal_to_action_mapping"; "instrument_side"; "order_style"; "price_rule";
         "quantity_rule"; "timing_and_cancel"; "exit_or_settlement"; "kill_conditions";
         "registered_signal_to_action"];
  _ ← expectR (negb <$> item_is (sec_venue c) "execution_venue" "NONE")
        (id +:+ ": action lacks venue");
  _ ← expectR (b ← getitem (sec_baseline c) "baseline_id"; Ok (negb (is_none b)))
        (id +:+ ": action lacks baseline");
  _ ← expectR (andR (andR
        (t ← get (sec_baseline c) "baseline_type"; in_strset t BASELINE_TYPES)
        (get_truthy (sec_baseline c) "policy"))
        (get_truthy (sec_baseline c) "comparability"))
        (id +:+ ": action baseline policy/comparability is incomplete");
  _ ← expectR (andR (item_is (sec_pnl c) "basis" "PATHWISE_AFTER_COST")
        (allR (get_truthy (sec_pnl c))
          ["formula"; "incremental_formula"; "markout_rule"; "denominators";
           "zero_fill_treatment"; "capacity_rule"]))
        (id +:+ ": action lacks after-cost incremental PnL");
  _ ← _expect (truthy (sec_costs c)) (id +:+ ": action lacks costs");
  costs ← lift (as_list (sec_costs c));
  valid_cost_contracts ← snd <$> for_fold (check_cost id) costs (0, true);
  if valid_cost_contracts : bool then
    missing_cost_blockers ← lift (_cost_blockers costs);
    blockers ← lift (as_list (sec_blockers c));
    _ ← lift (py_set blockers);
    _expect (forallb (fun b => in_list (JStr b) blockers) missing_cost_blockers)
      (id +:+ ": missing cost is not represented by a critical blocker")
  else VOk [] tt.

(** Blockers, data section, gap contracts and the computed classification. *)
Definition check_derived (id : string) (s : seed) (c : sections) : vres unit :=
  blockers ← lift (as_list (sec_blockers c));
  _ ← expectR (allR (fun b => in_strset b CRITICAL_BLOCKERS) blockers) (id +:+ ": unknown blocker");
  base_data0 ← lift (_data_profile (data_profile s));
  expected_external ← lift (_external_contract (external_dependency s) id);
  expected_action ← lift (build_action s);
  action_type ← lift (getitem expected_action "action_type");
  let expected_costs := _costs_for (action_profile s) (external_dependency s) in
  expected_blockers ← lift (_expected_blockers s base_data0 expected_external expected_costs
                              (truthy action_type));
  _ ← _expect (py_eq (sec_blockers c) (strs expected_blockers))
        (id +:+ ": blocker set differs from fail-closed contract");
  base_data ← lift (close_missing_signal expected_blockers base_data0);
  expected_gaps ← lift (mapR (_gap_contract id) expected_blockers);
  expected_data ← lift (data_section (data_profile s) base_data expected_gaps);
  _ ← _expect (py_eq (sec_data c) expected_data) (id +:+ ": data and study-date contract drift");
  gaps ← lift (get_default (sec_data c) "critical_gaps" (JList []));
  gap_contracts ← lift (as_list gaps);
  _ ← expectR (bs ← mapR (fun gap => get gap "blocker") gap_contracts;
               Ok (py_eq (JList bs) (sec_blockers c)))
        (id +:+ ": critical gap contracts do not match blockers");
  _ ← expectR (allR (fun gap =>
                 andR (andR (get_truthy gap "missing_evidence")
                            (get_truthy gap "acquisition_or_build_path"))
                      (get_is gap "unknown_value_policy" "BLOCK_NOT_ZERO")) gap_contracts)
        (id +:+ ": incomplete blocker remediation contract");
  expected_venue ← lift (_venue_for (action_profile s));
  base_class ← lift (_base_class (target_class s) expected_action expected_venue
                       (_baseline_for (action_profile s)) (_pnl_for (action_profile s)));
  _expect (py_eq (sec_classification c) (_classification (target_class s) base_class expected_blockers))
    (id +:+ ": computed classification drift").

Definition check_external (id : string) (has_action : bool) (c : sections) : vres unit :=
  dependency ← lift (get (sec_ext c) "dependency");
  _ ← (if eq_str dependency "REQUIRED" then
         _ ← expectR (andR (item_is (sec_ext c) "availability" "MISSING")
                           (item_is (sec_ext c) "missing_policy" "BLOCK_NO_IMPUTE"))
               (id +:+ ": required external data not fail-closed");
         _ ← expectR (contains "EXTERNAL_SPORTS_DATA_MISSING" (sec_blockers c))
               (id +:+ ": external blocker absent");
         _ ← expectR (e ← getitem (sec_classification c) "strategy_eligible"; Ok (negb (truthy e)))
               (id +:+ ": missing external data promoted");
         _ ← expectR (rv ← get_default (sec_ext c) "required_variables" (JList []);
                      contains mapping_variable rv)
               (id +:+ ": external mapping variable absent");
         if has_action then
           _ ← expectR (contains "INSTRUMENT_MAPPING_UNKNOWN" (sec_blockers c))
                 (id +:+ ": external action mapping blocker absent");
           costs ← lift (as_list (sec_costs c));
           expectR (anyR (fun cost => get_is cost "type" "DATA_API") costs)
             (id +:+ ": external action omits data/API cost")
         else VOk [] tt
       else VOk [] tt);
  if eq_str dependency "OPTIONAL_REFINEMENT" then
    expectR (andR (andR
        (item_is (sec_ext c) "availability" "MISSING_OPTIONAL_REFINEMENT")
        (item_is (sec_ext c) "missing_policy" "DO_NOT_IMPUTE_CORE_MAY_RUN_WITHOUT_FIELD"))
        (b ← getitem (sec_ext c) "blockers"; Ok (negb (truthy b))))
      (id +:+ ": optional external refinement contract is invalid")
  else VOk [] tt.

Definition check_dates (id : string) (s : seed) (c : sections) : vres unit :=
  can ← lift (getitem (sec_data c) "can_compute_now");
  signal_event_status ← lift (getitem can "signal_event");
  _ ← expectR (sd ← get (sec_data c) "study_dates";
               Ok (py_eq sd (_study_dates (data_profile s) signal_event_status)))
        (id +:+ ": fixed study dates drift");
  _ ← (if negb (eq_str signal_event_status "YES") then
         expectR (sd ← getitem (sec_data c) "study_dates";
                  e ← getitem sd "eligible_for_current_signal_description";
                  Ok (negb (truthy e)))
           (id +:+ ": dates marked eligible although signal_event is " +:+
            py_str signal_event_status)
       else VOk [] tt);
  missing ← lift (contains "MISSING_SIGNAL_INPUT" (sec_blockers c));
  if missing : bool then
    _expect (eq_str signal_event_status "NO")
      (id +:+ ": missing signal input still marked calculable")
  else VOk [] tt.

Definition check_result (id : string) (s : seed) (c : sections) : vres unit :=
  _ ← expectR (r ← getitem (sec_card c) "current_result";
               o ← get r "observed_signal";
               Ok (py_eq o (observed_signal_of id)))
        (id +:+ ": current evidence binding drift");
  _ ← expectR (r ← getitem (sec_card c) "current_result";
               andR (get_is r "registry_design_status" (result_status s))
                    (get_is r "registered_claim_ceiling" (claim_tier s)))
        (id +:+ ": design status differs from canonical seed");
  _ ← expectR (r ← getitem (sec_card c) "current_result";
               andR (item_is r "strategy_pnl_claim" "NONE") (item_is r "live_pnl_claim" "NONE"))
        (id +:+ ": unsupported PnL claim");
  expected ← lift (_build_card id s);
  _expect (py_eq (sec_card c) expected) (id +:+ ": card differs from canonical materialization").

(** The checks of a card whose sections are present and whose seed is known. *)
Definition check_seeded (id : string) (s : seed) (identity : json) (c : sections) : vres unit :=
  _ ← check_types id c;
  if negb (sections_typed c) then VOk [] tt
  else
    _ ← check_identity id s identity c;
    _ ← check_action id s c;
    has_action ← lift (get_truthy (sec_action c) "action_type");
    _ ← check_signal_fields id c;
    _ ← check_contracts id s c;
    _ ← (if negb (has_action : bool) then check_no_action id c else check_has_action id c);
    _ ← check_derived id s c;
    _ ← check_external id has_action c;
    _ ← check_dates id s c;
    check_result id s c.

Definition check_card (seeds : list (string * seed)) (card_id identity card : json) : vres unit :=
  stored_card_sha ← lift (get card "definition_sha256");
  without_card_sha ← lift (popitem card "definition_sha256");
  _ ← _expect (eq_str stored_card_sha (_sha256 without_card_sha))
        (py_str card_id +:+ ": definition SHA mismatch");
  items ← lift (as_items card);
  let complete := forallb (fun k => str_in k (keys items)) required_sections in
  _ ← _expect complete (py_str card_id +:+ ": missing required sections");
  if negb complete then VOk [] tt
  else
    seed ← lift (table_get seeds card_id);
    match seed, card_id with
    | Some s, JStr id => c ← lift (get_sections card); check_seeded id s identity c
    | _, _ => append_error (py_str card_id +:+ ": no canonical seed")
    end.

(** One iteration of the loop over the experiments: it counts the family. *)
Definition card_step (seeds : list (string * seed)) (counts : list (json * Z)) (card : json)
    : vres (list (json * Z)) :=
  if negb (is_dict card) then
    _ ← append_error "experiment card must be an object"; VOk [] counts
  else
    identity ← lift (get_default card "identity" (JObj []));
    card_id ← lift (get_default identity "experiment_id" (JStr "<missing>"));
    family ← lift (get identity "family_code");
    counts' ← lift (count family counts);
    _ ← check_card seeds card_id identity card;
    VOk [] counts'.

(** ** Cross-card rules *)

(** [by_id]: the cards by experiment ID, the last one winning. *)
Fixpoint index_cards (experiments : list json) (d : list (json * json))
    : result (list (json * json)) :=
  match experiments with
  | [] => Ok d
  | card :: rest =>
      identity ← getitem card "identity";
      id ← getitem identity "experiment_id";
      _ ← need_hashable id;
      index_cards rest (dict_put id card d)
  end.

(** Run a check on a card when the registry has it. *)
Definition when_card (by_id : list (json * json)) (card_id : string) (k : json -> vres unit)
    : vres unit :=
  match dict_get (JStr card_id) by_id with
  | Some card => k card
  | None => VOk [] tt
  end.

Definition upper_of (v : json) : result string :=
  match v with JStr s => Ok (upper s) | _ => Raise (AttributeError "upper") end.

(** Public RFQ signals stay unsigned. *)
Definition check_unsigned (by_id : list (json * json)) (card_id : string) : vres unit :=
  when_card by_id card_id (fun card =>
    direction ← lift (sg ← getitem card "signal"; d ← getitem sg "direction_semantics"; upper_of d);
    _expect (substr "UNSIGNED" direction || substr "NO_DIRECTION" direction)
      (card_id +:+ ": public RFQ direction must remain unsigned")).

Definition directional_tokens : list string :=
  ["BUY_YES"; "BUY_NO"; "SELL_YES"; "SELL_NO"; "ACCEPTED_SIDE"].

Definition check_rfq_guard (by_id : list (json * json)) (card_id : string) : vres unit :=
  when_card by_id card_id (fun card =>
    action ← lift (getitem card "action");
    _ ← expectR (andR (andR
          (item_is action "profile_id" "RFQ_GUARD")
          (item_is action "instrument_side" "BOTH_RELATED_CLOB_SIDES_PUBLIC_UNSIGNED"))
          (t ← getitem action "action_type";
           Ok (py_eq t (strs ["CANCEL"; "REPRICE"; "RESIZE"]))))
          (card_id +:+ ": public RFQ guard action drift");
    let action_text := upper (_canonical_json action) in
    _expect (forallb (fun token => negb (substr token action_text)) directional_tokens)
      (card_id +:+ ": public RFQ guard contains directional action")).

Definition check_d06 (by_id : list (json * json)) : vres unit :=
  when_card by_id "D06-RFQ-DIRECTION-VOL-SIGNAL" (fun d06 =>
    expectR (andR
      (d ← getitem d06 "data"; item_is d "profile_id" "RFQ_PRIVATE")
      (a ← getitem d06 "action"; t ← getitem a "action_type"; Ok (negb (truthy t))))
      "D06: signed accepted-side analysis must remain private and no-action").

(** A child-dependent profile carries the child blocker. *)
Definition check_child (card : json) : vres unit :=
  if negb (is_dict card) then VOk [] tt
  else
    action ← lift (get_default card "action" (JObj []));
    profile ← lift (get action "profile_id");
    child ← lift (in_strset profile CHILD_DEPENDENT_ACTION_PROFILES);
    if child : bool then
      blockers ← lift (get_default card "blockers" (JList []));
      present ← lift (contains "CONFIRMED_CHILD_STRATEGIES_MISSING" blockers);
      identity ← lift (get_default card "identity" (JObj []));
      id ← lift (get identity "experiment_id");
      _expect present
        (py_str id +:+ ": child-dependent profile lacks immutable child binding blocker")
    else VOk [] tt.

Definition check_e01 (by_id : list (json * json)) : vres unit :=
  when_card by_id "E01-SETTLEMENT-CONVERGENCE" (fun e01 =>
    expectR (andR (andR
      (a ← getitem e01 "action"; item_is a "profile_id" "CONTROL_ONLY")
      (a ← getitem e01 "action"; t ← getitem a "action_type"; Ok (negb (truthy t))))
      (sg ← getitem e01 "signal"; d ← getitem sg "direction_semantics";
       contains "never triggers an order" d))
      "E01: final settlement label must remain a no-action retrospective control").

Definition check_d09 (by_id : list (json * json)) : vres unit :=
  when_card by_id "D09-MVE-CATALOG-SCHEMA" (fun d09 =>
    expectR (andR
      (v ← getitem d09 "venue"; item_is v "execution_venue" "NONE")
      (b ← getitem d09 "blockers"; negb <$> contains "VENUE_PERMISSION_MISSING" b))
      "D09: read-only catalog card must not request venue permission").

Definition check_d10 (by_id : list (json * json)) : vres unit :=
  when_card by_id "D10-MVE-DIRECT-TRADING" (fun d10 =>
    expectR (andR (andR (andR
      (a ← getitem d10 "action"; item_is a "profile_id" "MVE_DIRECT")
      (d ← getitem d10 "data"; item_is d "profile_id" "MVE_PRIVATE"))
      (v ← getitem d10 "venue"; item_is v "execution_venue" "KALSHI_MVE_PRIVATE_EXECUTION"))
      (b ← getitem d10 "blockers"; negb <$> contains "RFQ_PUBLIC_DATA_UNRELEASED" b))
      "D10: MVE execution must not reuse RFQ contracts").

Definition check_cross (experiments : list json) : vres unit :=
  by_id ← lift (index_cards experiments []);
  _ ← for_each (check_unsigned by_id)
        ["D01-RFQ-FLOW-CENSUS"; "D04-RFQ-COMBO-DEMAND-LEG-PRESSURE"; "D06-RFQ-DIRECTION-VOL-SIGNAL"];
  _ ← for_each (check_rfq_guard by_id)
        ["D02-RFQ-SIZE-INTENT"; "D03-RFQ-LIFECYCLE-SURVIVAL"; "D05-RFQ-REQUESTER-HASH";
         "D07-RFQ-TO-CLOB-IMPACT"];
  _ ← check_d06 by_id;
  _ ← for_each check_child experiments;
  _ ← check_e01 by_id;
  _ ← check_d09 by_id;
  check_d10 by_id.

(** ** The whole registry *)

Definition expected_family_counts : list (string * Z) :=
  [("A", 23%Z); ("B", 17%Z); ("C", 10%Z); ("D", 10%Z); ("E", 6%Z); ("F", 17%Z); ("G", 12%Z);
   ("P", 11%Z)].

(** The comprehension that lists the IDs of the cards that are objects. *)
Fixpoint card_ids (experiments : list json) : result (list json) :=
  match experiments with
  | [] => Ok []
  | card :: rest =>
      if is_dict card then
        identity ← get_default card "identity" (JObj []);
        id ← get identity "experiment_id";
        ids ← card_ids rest;
        Ok (id :: ids)
      else card_ids rest
  end.

Definition check_ids (experiments : list json) : vres unit :=
  ids ← lift (card_ids experiments);
  _ ← _expect (length experiments =? 106)%nat
        ("expected 106 cards, got " +:+ show_nat (length experiments));
  _ ← _expect (py_eq (JList ids) (strs ATOMIC_IDS)) "card IDs/order differ from atomic authority";
  distinct_ids ← lift (py_set ids);
  _expect (length distinct_ids =? length ids)%nat "duplicate experiment IDs".

Definition check_experiments (experiments : list json) : vres unit :=
  _ ← check_ids experiments;
  seeds ← lift _load_card_seeds;
  actual_family_counts ← for_fold (card_step seeds) experiments [];
  _ ← _expect (jcounts_eqb actual_family_counts expected_family_counts)
        ("family counts mismatch: " +:+ show_jcounts actual_family_counts);
  check_cross experiments.

(** [registry.get(k) == v] for a computed summary. *)
Definition summary_is (stored : json) (s : summary) : bool :=
  match summary_json s with Some j => py_eq stored j | None => false end.

Definition check_tail (registry : json) (experiments : list json) : vres unit :=
  stored ← lift (get registry "summary");
  sm ← lift (_summary_for_cards experiments);
  _ ← _expect (summary_is stored sm) "registry summary does not recompute from cards";
  stored_registry_sha ← lift (get registry "registry_sha256");
  without_registry_sha ← lift (popitem registry "registry_sha256");
  _expect (eq_str stored_registry_sha (_sha256 without_registry_sha)) "registry SHA mismatch".

Definition validate (registry : json) : vres unit :=
  _ ← expectR (get_is registry "schema_version" SCHEMA_VERSION) "bad schema_version";
  _ ← expectR (get_is registry "registry_id" REGISTRY_ID) "bad registry_id";
  scope ← lift (get_default registry "scope" (JObj []));
  _ ← check_scope scope;
  source_bindings ← lift (get registry "source_bindings");
  _ ← check_source_bindings source_bindings;
  _ ← expectR (c ← get registry "external_source_catalog"; Ok (py_eq c EXTERNAL_SOURCE_CATALOG))
        "external source catalog drift";
  experiments ← lift (get registry "experiments");
  _ ← _expect (is_list experiments) "experiments must be a list";
  match experiments with
  | JList cards => _ ← check_experiments cards; check_tail registry cards
  | _ => VOk [] tt
  end.

(** [validate_registry]: the list of errors, or the exception that escaped. *)
Definition validate_registry (registry : json) : result (list string) :=
  match validate registry with
  | VOk errs _ => Ok errs
  | VRaise e => Raise e
  end.

End Validate.
