(* ===== verification/RunTests.v ===== *)
(** * The tool runner

    tools/run_tests.py: the safety policy [may_run], the output parser, the mock
    lifecycle, [run_tool], [record], the "run all" set and the command line.

    What the code does to the outside is a trace of [event]s.  The operating
    system is a parameter: its answer to each event, the free ports, the outcome
    of a command, the clocks, each a function of what happened before.  A step
    that raises keeps the trace. *)

From stdpp Require Import base list strings numbers.
From Stdlib Require Import ZArith Lia Bool Ascii.
From S2P Require Import Prelude PyJson Sha256 JsonText JsonRoundtrip PyText Validator.

(** ** Effects *)

Inductive event :=
| EMakedirs (path : list string)
| ESpawn (script : string) (args : list string)
| EStop (script : string)
| EGenKey (path : list string)
| ERun (argv : list string)
| EWriteLog (path : list string) (text : string)
| EAppendResult (line : string)
| ETruncateLatest
| EWriteLatest (text : string)
| EPrint (line : string)
| EPrintErr (line : string)
| EHelp.

(** What a command did: its output, as bytes, and its return code. *)
Inductive outcome :=
| Finished (out : string) (rc : Z)
| TimedOut
| Failed (e : exn).

(** The state of a run: what happened, the ports taken, the running mocks, and
    the text of the "latest results" file if it exists. *)
Record world := World {
  trace : list event;
  ports : nat;
  procs : list string;
  latest : option string
}.

Definition io (A : Type) : Type := world -> result A * world.

#[export] Instance io_ret : MRet io := fun A a w => (Ok a, w).
#[export] Instance io_bind : MBind io := fun A B f m w =>
  match m w with
  | (Ok a, w') => f a w'
  | (Raise e, w') => (Raise e, w')
  end.

Definition liftR {A} (r : result A) : io A := fun w => (r, w).

(** [try: m  finally: f] *)
Definition finally {A} (m : io A) (f : io unit) : io A := fun w =>
  let '(r, w') := m w in
  match f w' with
  | (Ok _, w'') => (r, w'')
  | (Raise e, w'') => (Raise e, w'')
  end.

(** ** The safety policy *)

Definition may_run (tool : json) (allow_network : bool) : result (bool * string) :=
  safety ← get tool "safety";
  Ok (if eq_str safety "pure" || eq_str safety "offline" then (true, "ok")
      else if eq_str safety "network_read" then
        if allow_network then (true, "ok")
        else (false, "network_read requires the server's --allow-network flag")
      else if eq_str safety "live_order" then
        (false, "live_order tools transmit/mutate real state and are never runnable from the console")
      else (false, "unknown safety class '" +:+ py_str safety +:+ "'")).

(** ** Output parsing *)

Definition count_lines (prefix text : string) : Z :=
  Z.of_nat (length (List.filter (startswith prefix) (splitlines text EmptyString))).

Definition parse_output (text : string) (pass_token : json) : result (Z * Z * bool) :=
  token_ok ← (if truthy pass_token then
                match pass_token with
                | JStr t => Ok (substr t text)
                | _ => Raise (TypeError "'in <string>' requires string as left operand")
                end
              else Ok true);
  Ok (count_lines "PASS:" text, count_lines "FAIL:" text,
      if substr "FAILURES" text then false else token_ok).

(** ** Paths *)

Fixpoint drop_common (a b : list string) : list string * list string :=
  match a, b with
  | x :: a', y :: b' => if String.eqb x y then drop_common a' b' else (a, b)
  | _, _ => (a, b)
  end.

(** [os.path.relpath(path, start)] *)
Definition relpath (path start : list string) : string :=
  let '(p, s) := drop_common path start in
  match app (map (fun _ => "..") s) p with
  | [] => "."
  | comps => join "/" comps
  end.

(** An absolute path as text. *)
Definition path_text (path : list string) : string := "/" +:+ join "/" path.

Section Runner.
Context (ROOT : list string) (os : list event -> event -> result unit) (free_port_of : nat -> Z).
Context (key_exists : list event -> bool) (command : list event -> list string -> outcome).
Context (dur_ms ts_ms : list event -> Z).
Context (tools_json : result string).

Definition WORK : list string := ROOT ++ ["work"].
Definition LOGDIR : list string := WORK ++ ["logs"].

(** Look at the outside. *)
Definition observe {A} (f : list event -> A) : io A := fun w => (Ok (f (trace w)), w).

(** Do something to the outside. *)
Definition perform (e : event) : io unit := fun w =>
  (os (trace w) e, World (trace w ++ [e]) (ports w) (procs w) (latest w)).

Definition free_port : io Z := fun w =>
  (Ok (free_port_of (ports w)), World (trace w) (S (ports w)) (procs w) (latest w)).

(** [Mocks._spawn]: the process is kept only once it was started. *)
Definition spawn (script : string) (args : list string) : io unit := fun w =>
  match perform (ESpawn script args) w with
  | (Ok _, w') => (Ok tt, World (trace w') (ports w') (procs w' ++ [script]) (latest w'))
  | (Raise e, w') => (Raise e, w')
  end.

(** [Mocks.stop]: every process that was started, in order. *)
Definition stop_mocks : io unit := fun w =>
  (Ok tt, World (trace w ++ map EStop (procs w)) (ports w) [] (latest w)).

(** One need of [Mocks.build_cmd]: the arguments it appends. *)
Definition satisfy (need : json) : io (list string) :=
  if eq_str need "mini_redis" then
    port ← free_port; _ ← spawn "mini_redis.py" [show_Z port]; mret [show_Z port]
  else if eq_str need "mock_rest" then
    port ← free_port; _ ← spawn "mock_rest.py" [show_Z port];
    mret ["http://127.0.0.1:" +:+ show_Z port]
  else if eq_str need "mock_server" then
    port ← free_port;
    _ ← spawn "mock_server.py" [show_Z port; path_text (WORK ++ ["mock_capture.jsonl"])];
    let key := ROOT ++ ["build"; "scratch"; "console_key.pem"] in
    exists_ ← observe key_exists;
    _ ← (if exists_ : bool then mret tt
         else _ ← perform (EMakedirs (removelast key)); perform (EGenKey key));
    mret ["http://127.0.0.1:" +:+ show_Z port; path_text key; "3"; "50"]
  else if eq_str need "mock_ws" then
    port ← free_port; _ ← spawn "mock_ws_exchange.py" [show_Z port];
    mret ["ws://127.0.0.1:" +:+ show_Z port +:+ "/trade-api/ws/v2"]
  else mret [].

Fixpoint satisfy_all (needs : list json) (cmd : list string) : io (list string) :=
  match needs with
  | [] => mret cmd
  | need :: needs' => args ← satisfy need; satisfy_all needs' (cmd ++ args)
  end.

(** [Mocks.build_cmd] *)
Definition build_cmd (tool : json) : io (list string) :=
  cmd ← liftR (getitem tool "cmd");
  cmd ← liftR (match cmd with JStr s => Ok s | _ => Raise (AttributeError "split") end);
  needs ← liftR (get_default tool "needs" (JList []));
  needs ← liftR (as_list needs);
  satisfy_all needs (split_ws 0 cmd EmptyString).

(** [subprocess.run], with the timeout caught. *)
Definition run_command (argv : list string) : io (string * Z) := fun w =>
  match perform (ERun argv) w with
  | (Raise e, w') => (Raise e, w')
  | (Ok _, w') =>
      match command (trace w) argv with
      | Finished out rc => (Ok (decode_replace out, rc), w')
      | TimedOut => (Ok ("TIMEOUT" +:+ str1 newline, 124%Z), w')
      | Failed e => (Raise e, w')
      end
  end.

Definition refused_record (name : json) (reason : string) : json := obj [
  "suite" ~> name; "status" ~> JStr "refused"; "passed" ~> JInt 0; "failed" ~> JInt 0;
  "duration_ms" ~> JInt 0; "reason" ~> JStr reason; "log" ~> JStr EmptyString].

Definition run_tool (tool : json) (allow_network : bool) : io json :=
  _ ← perform (EMakedirs LOGDIR);
  policy ← liftR (may_run tool allow_network);
  name ← liftR (getitem tool "name");
  let '(ok, reason) := policy in
  if negb (ok : bool) then mret (refused_record name reason)
  else
    let logpath := resolve LOGDIR (py_str name +:+ ".txt") in
    result ← finally (cmd ← build_cmd tool; run_command cmd) stop_mocks;
    let '(out, rc) := result in
    dur ← observe dur_ms;
    _ ← perform (EWriteLog logpath out);
    token ← liftR (get tool "pass_token");
    parsed ← liftR (parse_output out token);
    let '(passed, failed, token_ok) := parsed in
    mret (obj [
      "suite" ~> name;
      "status" ~> JStr (if (rc =? 0)%Z && token_ok then "pass" else "fail");
      "passed" ~> JInt passed; "failed" ~> JInt failed; "duration_ms" ~> JInt dur;
      "log" ~> JStr (relpath logpath ROOT)]).

(** ** Recording *)

(** The results file of the last run of each suite, an empty dict when it is
    missing or unreadable. *)
Definition load_latest (text : option string) : json :=
  match text with
  | None => JObj []
  | Some t => match json_loads t with Ok v => v | Raise _ => JObj [] end
  end.

(** An event that leaves the results file with this text when it succeeds. *)
Definition leaving (e : event) (text : string) : io unit := fun w =>
  match perform e w with
  | (Ok _, w') => (Ok tt, World (trace w') (ports w') (procs w') (Some text))
  | (Raise e, w') => (Raise e, w')
  end.

(** Opening the file for writing truncates it. *)
Definition write_latest (text : string) : io unit :=
  _ ← leaving ETruncateLatest EmptyString; leaving (EWriteLatest text) text.

Definition stamped (rec : json) (now : Z) : result json :=
  rec1 ← setitem rec "type" (JStr "test_suite"); setitem rec1 "ts_ms" (JInt now).

Definition record (rec : json) : io unit :=
  refused ← liftR (get_is rec "status" "refused");
  if refused : bool then mret tt
  else
    _ ← perform (EMakedirs WORK);
    now ← observe ts_ms;
    rec ← liftR (stamped rec now);
    _ ← perform (EAppendResult (dumps ", " ": " rec));
    old ← (fun w => (Ok (load_latest (latest w)), w));
    suite ← liftR (getitem rec "suite");
    suite ← liftR (match suite with JStr s => Ok s | _ => Raise (Unmodelled "suite name") end);
    new ← liftR (setitem old suite rec);
    write_latest (dumps_indent 0 new).

(** ** The run-all set *)

Definition in_run_all (t : json) : result bool :=
  andR (andR
    (k ← get t "kind"; Ok (eq_str k "test" || eq_str k "check"))
    (s ← get t "safety"; Ok (eq_str s "pure" || eq_str s "offline")))
    (n ← get t "name"; Ok (negb (eq_str n "run_pipeline" || eq_str n "run_tests"))).

Fixpoint runnable_test_set (tools : list json) : result (list json) :=
  match tools with
  | [] => Ok []
  | t :: tools' =>
      here ← in_run_all t;
      rest ← runnable_test_set tools';
      Ok (if here : bool then t :: rest else rest)
  end.

(** ** The command line *)

Definition load_registry : result json :=
  text ← tools_json; data ← json_loads text; getitem data "tools".

(** [{t["name"]: t for t in tools}] *)
Fixpoint tools_by_name (tools : list json) (d : list (json * json))
    : result (list (json * json)) :=
  match tools with
  | [] => Ok d
  | t :: tools' =>
      name ← getitem t "name";
      _ ← need_hashable name;
      tools_by_name tools' (dict_put name t d)
  end.

Record arguments := Arguments_ {
  arg_list : bool;
  arg_tool : option string;
  arg_all : bool;
  arg_allow_network : bool;
  arg_json : bool
}.

Definition list_line (t : json) : result string :=
  name ← getitem t "name";
  kind ← getitem t "kind";
  safety ← getitem t "safety";
  description ← get_default t "description" (JStr EmptyString);
  Ok (pad_right 22 (py_str name) +:+ " " +:+ pad_right 8 (py_str kind) +:+ " " +:+
      pad_right 13 (py_str safety) +:+ " " +:+ py_str description).

Fixpoint print_tools (tools : list json) : io unit :=
  match tools with
  | [] => mret tt
  | t :: tools' => line ← liftR (list_line t); _ ← perform (EPrint line); print_tools tools'
  end.

Definition result_line (rec : json) : result string :=
  suite ← getitem rec "suite";
  status ← getitem rec "status";
  ms ← getitem rec "duration_ms";
  passed ← getitem rec "passed";
  failed ← getitem rec "failed";
  reason ← get_default rec "reason" (JStr EmptyString);
  Ok (py_str suite +:+ ": " +:+ py_str status +:+ " (" +:+ py_str ms +:+ "ms, +" +:+
      py_str passed +:+ "/-" +:+ py_str failed +:+ ") " +:+ py_str reason).

Definition all_line (rec : json) : result string :=
  suite ← getitem rec "suite";
  status ← getitem rec "status";
  passed ← getitem rec "passed";
  failed ← getitem rec "failed";
  Ok (pad_right 22 (py_str suite) +:+ " " +:+ py_str status +:+ " (+" +:+ py_str passed +:+ "/-" +:+
      py_str failed +:+ ")").

(** [--all]: every tool of the set, in order; 1 if any did not pass. *)
Fixpoint run_all (tools : list json) (allow_network : bool) (overall : Z) : io Z :=
  match tools with
  | [] => mret overall
  | t :: tools' =>
      rec ← run_tool t allow_network;
      _ ← record rec;
      line ← liftR (all_line rec);
      _ ← perform (EPrint line);
      passed ← liftR (item_is rec "status" "pass");
      run_all tools' allow_network (if passed : bool then overall else 1%Z)
  end.

Definition run_one (by_name : list (json * json)) (name : string) (args : arguments) : io Z :=
  match dict_get (JStr name) by_name with
  | None => _ ← perform (EPrintErr ("unknown tool: " +:+ name)); mret 2%Z
  | Some tool =>
      rec ← run_tool tool (arg_allow_network args);
      _ ← record rec;
      line ← liftR (if arg_json args then Ok (dumps ", " ": " rec) else result_line rec);
      _ ← perform (EPrint line);
      passed ← liftR (item_is rec "status" "pass");
      mret (if passed : bool then 0%Z else 1%Z)
  end.

(** [--all], or else the help. *)
Definition run_set (tools : list json) (args : arguments) : io Z :=
  if arg_all args then
    set ← liftR (runnable_test_set tools); run_all set (arg_allow_network args) 0
  else _ ← perform EHelp; mret 0%Z.

(** What [main] does once the registry is loaded. *)
Definition dispatch (registry : json) (tools : list json) (by_name : list (json * json))
    (args : arguments) : io Z :=
  if arg_list args then
    _ ← (if arg_json args then perform (EPrint (dumps_indent 0 registry))
         else print_tools tools);
    mret 0%Z
  else
    match arg_tool args with
    | Some (String c s) => run_one by_name (String c s) args
    | _ => run_set tools args
    end.

Definition main (args : arguments) : io Z :=
  registry ← liftR load_registry;
  tools ← liftR (as_list registry);
  by_name ← liftR (tools_by_name tools []);
  dispatch registry tools by_name args.
End Runner.
