(* ===== verification/Dashboard.v ===== *)
(** * The console server

    The request handler of dashboard_server.py: the JSON endpoints, the POST
    that runs a tool and the event stream.  An exception that leaves a handler
    is a [Raise]: the client gets no response.  [INDEX_HTML] and the watchtower
    package behind three of the endpoints are parameters. *)

From stdpp Require Import base list strings numbers.
From Stdlib Require Import ZArith Lia Bool Ascii.
From S2P Require Import Prelude PyJson Sha256 JsonText JsonRoundtrip PyText Validator.
From S2P Require Import Tail RunTests.

(** ** Responses *)

Record response := Response {
  r_code : Z;
  r_headers : list (string * string);
  r_body : string
}.

(** [_send] *)
Definition _send (code : Z) (body ctype : string) (extra : list (string * string)) : response :=
  Response code
    ([("Content-Type", ctype); ("Content-Length", show_nat (String.length body));
      ("Cache-Control", "no-store")] ++ extra) body.

Definition text_plain : string := "text/plain; charset=utf-8".

(** [_json] *)
Definition _json (code : Z) (v : json) : response :=
  _send code (dumps ", " ": " v) "application/json" [].

(** [self.path.split("?", 1)[0]] *)
Definition path_of (target : string) : string := fst (split_once "?" target).

(** ** The watchtower endpoints *)

(** The watchtower package: what importing it, starting its refresher thread and
    building each view give, whether the refresher was started, and the text of
    an exception. *)
Record watchtower := Watchtower {
  w_exn_str : exn -> string;
  w_import : result unit;
  w_thread : result unit;
  w_data : result json;
  w_ops : result json;
  w_follow : result json;
  w_refresher_started : bool
}.

(** The shape of the three functions: the view, or the error as data. *)
Definition fail_soft (wt : watchtower) (view : result json) : json :=
  match view with
  | Ok v => v
  | Raise e => obj ["error" ~> JStr (w_exn_str wt e)]
  end.

Definition follow_data (wt : watchtower) : json :=
  fail_soft wt (_ ← w_import wt; w_follow wt).

Definition ops_data (wt : watchtower) : json :=
  fail_soft wt (_ ← w_import wt; w_ops wt).

(** [shadow_data], and whether the refresher runs afterwards: it is started once,
    and only when the network is allowed. *)
Definition shadow_data (wt : watchtower) (allow_network : bool) : json * bool :=
  let build := (d ← w_data wt; setitem d "marks_live" (JBool allow_network)) in
  match w_import wt with
  | Raise e => (fail_soft wt (Raise e), w_refresher_started wt)
  | Ok _ =>
      if allow_network && negb (w_refresher_started wt) then
        match w_thread wt with
        | Raise e => (fail_soft wt (Raise e), w_refresher_started wt)
        | Ok _ => (fail_soft wt build, true)
        end
      else (fail_soft wt build, w_refresher_started wt)
  end.

(** ** GET *)

(** One entry of /api/tools. *)
Definition annotate (allow_network : bool) (run_all : list json) (t : json) : result json :=
  '(ok, reason) ← may_run t allow_network;
  e ← setitem t "runnable" (JBool ok);
  e ← setitem e "run_reason" (JStr reason);
  name ← getitem t "name";
  _ ← need_hashable name;
  setitem e "in_run_all" (JBool (in_list name run_all)).

(** The body of /api/tools. *)
Definition api_tools (tools_json : result string) (allow_network : bool) : result json :=
  reg ← load_registry tools_json;
  reg ← as_list reg;
  set ← runnable_test_set reg;
  names ← mapR (fun t => getitem t "name") set;
  run_all ← py_set names;
  out ← mapR (annotate allow_network run_all) reg;
  Ok (obj ["allow_network" ~> JBool allow_network; "tools" ~> JList out]).

(** What a GET answers: a response, or the event stream. *)
Inductive answer :=
| Respond (r : response)
| Stream (head : response).

(** The head of the event stream, which has no length. *)
Definition stream_head : response :=
  Response 200
    [("Content-Type", "text/event-stream; charset=utf-8"); ("Cache-Control", "no-store");
     ("Connection", "keep-alive"); ("X-Accel-Buffering", "no")] EmptyString.

(** [do_GET]; [results] is the text of the results file, [None] when it is
    missing or cannot be read.  The second component is whether the price
    refresher runs afterwards. *)
Definition do_GET (tools_json : result string) (results : option string) (INDEX_HTML : string)
    (wt : watchtower) (allow_network : bool) (target : string) : result (answer * bool) :=
  let path := path_of target in
  let serve r := Ok (Respond r, w_refresher_started wt) in
  if String.eqb path "/" then serve (_send 200 INDEX_HTML "text/html; charset=utf-8" [])
  else if String.eqb path "/healthz" then
    serve (_send 200 (dumps ", " ": " (obj ["ok" ~> JBool true])) "application/json" [])
  else if String.eqb path "/stream" then Ok (Stream stream_head, w_refresher_started wt)
  else if String.eqb path "/api/tools" then
    body ← api_tools tools_json allow_network; serve (_json 200 body)
  else if String.eqb path "/api/results" then serve (_json 200 (load_latest results))
  else if String.eqb path "/api/shadow" then
    let '(view, refresher) := shadow_data wt allow_network in
    Ok (Respond (_json 200 view), refresher)
  else if String.eqb path "/api/ops" then serve (_json 200 (ops_data wt))
  else if String.eqb path "/api/follow" then serve (_json 200 (follow_data wt))
  else serve (_send 404 "not found" text_plain []).

(** ** POST *)

(** The request: its target, its Content-Length header and what reading [n]
    bytes of its body gives. *)
Record request := Request {
  q_target : string;
  q_length : option string;
  q_read : Z -> result string
}.

(** The guarded part of [do_POST]. *)
Definition read_body (q : request) : result json :=
  n ← match q_length q with
      | None => Ok 0%Z
      | Some s => or_raise (ValueError "invalid literal for int()") (py_int s)
      end;
  if (n =? 0)%Z then Ok (JObj [])
  else
    raw ← q_read q n;
    if utf8_valid raw then json_loads raw else Raise UnicodeDecodeError.

Section Post.
Context (ROOT : list string) (os : list event -> event -> result unit) (free_port_of : nat -> Z).
Context (key_exists : list event -> bool) (command : list event -> list string -> outcome).
Context (dur_ms ts_ms : list event -> Z).
Context (tools_json : result string) (allow_network : bool).

(** The tool is looked up and the policy consulted before anything runs. *)
Definition run_named (body : json) : io response :=
  name ← liftR (get_default body "name" (JStr EmptyString));
  reg ← liftR (load_registry tools_json);
  reg ← liftR (as_list reg);
  by_name ← liftR (tools_by_name reg []);
  _ ← liftR (need_hashable name);
  match dict_get name by_name with
  | None => mret (_json 404 (obj ["error" ~> JStr ("unknown tool '" +:+ py_str name +:+ "'")]))
  | Some tool =>
      if negb (truthy tool) then
        mret (_json 404 (obj ["error" ~> JStr ("unknown tool '" +:+ py_str name +:+ "'")]))
      else
        policy ← liftR (may_run tool allow_network);
        let '(ok, reason) := policy in
        if negb (ok : bool) then
          mret (_json 403 (obj ["error" ~> JStr "refused"; "name" ~> name; "reason" ~> JStr reason]))
        else
          rec ← run_tool ROOT os free_port_of key_exists command dur_ms tool allow_network;
          _ ← record ROOT os ts_ms rec;
          mret (_json 200 rec)
  end.

(** [do_POST] *)
Definition do_POST (q : request) : io response :=
  if negb (String.eqb (path_of (q_target q)) "/api/run") then
    mret (_send 404 "not found" text_plain [])
  else
    match read_body q with
    | Raise _ => mret (_json 400 (obj ["error" ~> JStr "bad JSON body"]))
    | Ok body => run_named body
    end.
End Post.

(** ** The event stream *)

(** The query string: the last value of each key. *)
Definition parse_qs (target : string) : list (string * string) :=
  match snd (split_once "?" target) with
  | None => []
  | Some query =>
      fold_left (fun qs kv =>
        match split_once "=" kv with
        | (k, Some v) => assoc_set k v qs
        | (_, None) => qs
        end) (split_on "&" query) []
  end.

(** The number of history lines a client asked for. *)
Definition backfill_of (target : string) (backfill_default : Z) : Z :=
  match assoc "backfill" (parse_qs target) with
  | None => Z.max 0 (Z.min 20000 backfill_default)
  | Some v =>
      match py_int v with
      | Some n => Z.max 0 (Z.min 20000 n)
      | None => backfill_default
      end
  end.

Definition nl2 : string := String newline (str1 newline).
Definition carriage : ascii := ascii_of_nat 13.

(** What is written before the live lines. *)
Definition sse_opening (lines : list string) : list string :=
  [ "retry: 3000" +:+ nl2;
    match lines with
    | [] => ": no-data-yet" +:+ nl2
    | _ => "event: backfill" +:+ str1 newline +:+ "data: " +:+ dumps "," ":" (strs lines) +:+ nl2
    end ].

(** The writes of one pass over the generator; the clock, in milliseconds, is
    read after each item. *)
Fixpoint sse_live (last_ping : Z) (items : list (option string)) (clock : nat -> Z) : list string :=
  match items with
  | [] => []
  | item :: items' =>
      let sent :=
        match item with
        | Some line => ["data: " +:+ remove_char carriage line +:+ nl2]
        | None => []
        end in
      let now := clock 0 in
      let later k := clock (S k) in
      if (15000 <=? now - last_ping)%Z then
        sent ++ (": ping" +:+ nl2) :: sse_live now items' later
      else sent ++ sse_live last_ping items' later
  end.

(** [handle_stream]: what is written, after the head, to a client that stays connected, for the
    observation of the backfill and those of the live tail.  To a client that
    goes away a prefix of it is written: the write that fails ends the handler. *)
Definition handle_stream (target : string) (backfill_default : Z) (o : observation)
    (os : list observation) (start : Z) (clock : nat -> Z) : list string :=
  let '(lines, start_pos) := tail_lines o (backfill_of target backfill_default) in
  sse_opening lines ++ sse_live start (stream_new_lines start_pos os) clock.
