(* ===== verification/BuilderFacts.v ===== *)
(** * What the builder guarantees

    Shapes of the profile tables, totality of [_build_card] on seeds that use
    the registered vocabularies, and the fail-closed properties of every card
    it can build. *)

From stdpp Require Import base list strings numbers.
From Stdlib Require Import ZArith Lia Bool Ascii.
From S2P Require Import Prelude PyJson Sha256 JsonText RegistryTables ActionProfiles.
From S2P Require Import DataProfiles Seeds Builder.

(** The profiles that stand for no action. *)
Definition NON_ACTION : list string := ["NO_ACTION"; "MODEL_COMPONENT"; "CONTROL_ONLY"].
Definition non_action (a : string) : bool := str_in a NON_ACTION.

(** A seed that names only registered profiles, dependencies and blockers, as
    [_validate_seeds] checks. *)
Definition known_seed (s : seed) : bool :=
  str_in (action_profile s) (keys action_profiles) &&
  str_in (data_profile s) (keys data_profiles) &&
  str_in (external_dependency s) EXTERNAL_DEPENDENCIES &&
  forallb (fun b => str_in b CRITICAL_BLOCKERS) (extra_blockers s).

Definition critical (l : list string) : bool := forallb (fun b => str_in b CRITICAL_BLOCKERS) l.

(** * Lemmas *)

(** ** Lookup in a table by enumeration *)

Lemma table_forall {A} (P : string -> A -> Prop) (t : list (string * A)) k v :
  assoc k t = Some v -> Forall (fun kv => P (fst kv) (snd kv)) t -> P k v.
Proof.
  intros H%assoc_in HF. rewrite List.Forall_forall in HF. apply (HF _ H).
Qed.

(** Replace a lookup in the table [t] by one goal per entry. *)
Ltac enumerate_table H P t := refine (table_forall P t _ _ H _); clear H; unfold t.

Lemma assoc_of_key {A} (t : list (string * A)) k :
  str_in k (keys t) = true -> exists v, assoc k t = Some v.
Proof.
  intros H. destruct (assoc k t) eqn:E; [eauto|].
  apply assoc_none in E. by apply str_in_spec in H.
Qed.

Lemma str_in_incl l l' k :
  forallb (fun x => str_in x l') l = true -> str_in k l = true -> str_in k l' = true.
Proof. rewrite forallb_forall. intros H Hk%str_in_spec. auto. Qed.

(** ** Shapes of the profile tables *)

(** What an action profile is, with the fields the checks read. *)
Definition action_shape (name : string) (v : json) : Prop :=
  exists status at_ mapping side style price qty timing exit kill,
    v = obj [
      "status" ~> status; "action_type" ~> strs at_; "signal_to_action_mapping" ~> mapping;
      "instrument_side" ~> side; "order_style" ~> style; "price_rule" ~> price;
      "quantity_rule" ~> qty; "timing_and_cancel" ~> timing; "exit_or_settlement" ~> exit;
      "kill_conditions" ~> kill] /\
    forallb wf_json [status; mapping; side; style; price; qty; timing; exit; kill] = true /\
    non_action name = match at_ with [] => true | _ => false end /\
    (non_action name = false ->
     forallb truthy [mapping; side; style; price; qty; timing; exit; kill] = true).

Lemma action_profile_shape name v : _action_profile name = Ok v -> action_shape name v.
Proof.
  intros H%or_raise_ok. enumerate_table H action_shape action_profiles.
  repeat (apply List.Forall_cons;
    [eexists; first [exists []; do 8 eexists; split; [reflexivity|]
                    |do 9 eexists; split; [reflexivity|]];
     repeat split; first [reflexivity|discriminate]|]).
  apply List.Forall_nil.
Qed.

Definition can_compute (ev cm sf fa se re : json) : json := obj [
  "signal_event" ~> ev; "conditional_markout" ~> cm; "strict_fill" ~> sf;
  "fee_after_shadow_pnl" ~> fa; "settlement_pnl" ~> se; "realized_pnl" ~> re].

Definition data_dict (inputs can calc missing paths blockers : json) : json := obj [
  "inputs" ~> inputs; "can_compute_now" ~> can; "currently_calculable" ~> calc;
  "missing" ~> missing; "acquisition_paths" ~> paths; "blockers" ~> blockers].

(** What a data profile is. *)
Definition data_shape (v : json) : Prop :=
  exists inputs ev cm sf fa se re calc missing paths bl,
    v = data_dict inputs (can_compute (JStr ev) cm sf fa se re) calc missing paths (strs bl) /\
    forallb wf_json [inputs; cm; sf; fa; se; re; calc; missing; paths] = true /\
    critical bl = true.

Lemma data_profile_shape name v : _data_profile name = Ok v -> data_shape v.
Proof.
  intros H%or_raise_ok. enumerate_table H (fun _ : string => data_shape) data_profiles.
  repeat (apply List.Forall_cons;
    [do 10 eexists; first [exists []; split; [reflexivity|] | eexists; split; [reflexivity|]];
     split; reflexivity|]).
  apply List.Forall_nil.
Qed.

Definition venue_dict (v : string) : json := obj [
  "execution_venue" ~> JStr v;
  "required_permission" ~> JStr (
    if String.eqb v "NONE" then "NONE"
    else "SEPARATE_SHADOW_OR_LIVE_AUTHORITY; registry grants none");
  "availability_receipt" ~> JNull].

(** The venue is [NONE] exactly for the non-actions. *)
Lemma venue_for_shape name v :
  _venue_for name = Ok v ->
  exists venue, v = venue_dict venue /\ str_in venue EXECUTION_VENUES = true /\
    String.eqb venue "NONE" = non_action name.
Proof.
  unfold _venue_for. intros H. inv_ok. exists x. split; [done|].
  enumerate_table E (fun n x => str_in x EXECUTION_VENUES = true /\
    String.eqb x "NONE" = non_action n) venue_by_profile.
  repeat (apply List.Forall_cons; [split; reflexivity|]).
  apply List.Forall_nil.
Qed.

(** Every action profile has a venue. *)
Lemma venue_for_total name :
  str_in name (keys action_profiles) = true -> exists v, _venue_for name = Ok v.
Proof.
  intros H. unfold _venue_for.
  assert (str_in name (keys venue_by_profile) = true) as Hk.
  { apply (str_in_incl (keys action_profiles)); [reflexivity|done]. }
  apply assoc_of_key in Hk as [v ->]. simpl. eauto.
Qed.

(** Case analysis on the tests of a profile dispatch, in source order. *)
Ltac split_ifs :=
  repeat match goal with
  | |- context [if ?b then _ else _] => lazymatch b with
      | String.eqb _ _ => destruct b eqn:?
      | str_in _ _ => destruct b eqn:?
      end
  end.

(** What a baseline is: absent exactly for the non-actions. *)
Lemma baseline_shape name :
  exists bid ty pol cmp sec,
    _baseline_for name = obj ["baseline_id" ~> bid; "baseline_type" ~> JStr ty; "policy" ~> pol;
                              "comparability" ~> cmp; "secondary_baselines" ~> sec] /\
    forallb wf_json [bid; pol; cmp; sec] = true /\
    is_none bid = non_action name /\ is_none pol = non_action name /\
    str_in ty BASELINE_TYPES = true /\
    truthy pol = negb (non_action name) /\ truthy cmp = negb (non_action name).
Proof.
  unfold _baseline_for, non_action. change NON_ACTION with ["NO_ACTION"; "MODEL_COMPONENT"; "CONTROL_ONLY"].
  split_ifs; do 5 eexists; (split; [reflexivity|repeat split; reflexivity]).
Qed.

Lemma pnl_formulas_nonempty name :
  String.eqb (fst (pnl_formulas name)) EmptyString = false /\
  String.eqb (snd (pnl_formulas name)) EmptyString = false.
Proof. unfold pnl_formulas. split_ifs; split; reflexivity. Qed.

(** What a PnL contract is: defined exactly for the actions. *)
Lemma pnl_shape_action name :
  non_action name = false ->
  wf_json (_pnl_for name) = true /\
  exists d, _pnl_for name = JObj d /\
    assoc "status" d = Some (JStr "DEFINED_NOT_YET_ESTIMABLE") /\
    assoc "basis" d = Some (JStr "PATHWISE_AFTER_COST") /\
    forallb (fun k => match assoc k d with Some v => truthy v | None => false end)
      ["formula"; "incremental_formula"; "markout_rule"; "denominators"; "zero_fill_treatment";
       "capacity_rule"] = true.
Proof.
  intros Hn. unfold _pnl_for. unfold non_action, NON_ACTION in Hn. rewrite Hn.
  destruct (pnl_formulas name) as [f i] eqn:E.
  destruct (pnl_formulas_nonempty name) as [Hf Hi]. rewrite E in Hf, Hi. cbn in Hf, Hi.
  destruct (String.eqb name "COMMERCIAL_ROC"); (split; [reflexivity|]);
    eexists; (split; [reflexivity|]); (split; [reflexivity|]); (split; [reflexivity|]);
    cbn; by rewrite Hf, Hi.
Qed.

Lemma pnl_shape_none name :
  non_action name = true ->
  _pnl_for name = obj [
    "status" ~> JStr "NOT_DEFINED_NOT_A_STRATEGY"; "basis" ~> JStr "NONE";
    "formula" ~> JNull; "incremental_formula" ~> JNull; "aggregation_unit" ~> JNull;
    "zero_fill_treatment" ~> JNull; "capacity_rule" ~> JNull].
Proof. unfold non_action, NON_ACTION. intros H. unfold _pnl_for. by rewrite H. Qed.

Lemma pnl_wf name : wf_json (_pnl_for name) = true.
Proof.
  destruct (non_action name) eqn:E; [by rewrite pnl_shape_none|by apply pnl_shape_action].
Qed.

(** ** Costs *)

Lemma costs_none name e : non_action name = true -> _costs_for name e = [].
Proof. unfold non_action, NON_ACTION, _costs_for. by intros ->. Qed.

(** Everything the checks ask of a cost component. *)
Definition good_cost (c : json) : Prop :=
  exists t r st ru, c = cost_item t r st ru /\
    (str_in t COST_TYPES && str_in r COST_ROLES && str_in st COST_STATUSES &&
     negb (String.eqb ru EmptyString))%bool = true.

Lemma costs_good name e : Forall good_cost (_costs_for name e).
Proof.
  unfold _costs_for, COMMON_COST_COMPONENTS.
  split_ifs; cbn [app]; repeat (apply List.Forall_cons; [do 4 eexists; split; reflexivity|]);
    apply List.Forall_nil.
Qed.

Lemma costs_wf name e : wf_json (JList (_costs_for name e)) = true.
Proof. unfold _costs_for. split_ifs; reflexivity. Qed.

(** The blockers of an action's costs always contain these five. *)
Definition COMMON_COST_BLOCKERS : list string :=
  ["FEE_UNKNOWN"; "FILL_MODEL_MISSING"; "LATENCY_UNMEASURED"; "SETTLEMENT_MISSING";
   "RISK_GATES_MISSING"].

(** No missing cost of a card is without its blocker: [_cost_blockers] never
    raises on the costs [_costs_for] makes. *)
Lemma cost_blockers_total name e :
  exists bs, _cost_blockers (_costs_for name e) = Ok bs /\ critical bs = true /\
    (non_action name = false -> forallb (fun b => str_in b bs) COMMON_COST_BLOCKERS = true) /\
    (non_action name = true -> bs = []).
Proof.
  unfold _costs_for, non_action.
  change NON_ACTION with ["NO_ACTION"; "MODEL_COMPONENT"; "CONTROL_ONLY"].
  split_ifs; eexists; (split; [reflexivity|]); repeat split;
    first [reflexivity|discriminate].
Qed.

(** ** External contract *)

Lemma append_missing_keeps l extra x : In x l -> In x (append_missing l extra).
Proof.
  unfold append_missing. revert l. induction extra as [|e extra IH]; simpl; [done|].
  intros l Hin. apply IH. destruct (str_in e l); [done|]. apply in_app_iff. auto.
Qed.

Lemma append_missing_adds l extra x : In x extra -> In x (append_missing l extra).
Proof.
  unfold append_missing. revert l. induction extra as [|e extra IH]; simpl; [done|].
  intros l [->|Hin]; [|auto].
  apply (append_missing_keeps _ extra). destruct (str_in x l) eqn:E.
  - by apply str_in_spec.
  - apply in_app_iff. right. by left.
Qed.

Definition ext_dict (dep av rv prov clock lic hist mp pp bl : json) : json := obj [
  "dependency" ~> dep; "availability" ~> av; "required_variables" ~> rv;
  "approved_source" ~> JNull; "provider_candidates" ~> prov; "asof_clock_status" ~> clock;
  "license_status" ~> lic; "historical_backfill_status" ~> hist; "missing_policy" ~> mp;
  "proxy_policy" ~> pp; "blockers" ~> bl].

(** What an external contract is, by dependency. *)
Lemma external_shape dep id ext :
  _external_contract dep id = Ok ext ->
  exists av rv prov clock lic hist mp pp bl,
    ext = ext_dict (JStr dep) (JStr av) (strs rv) (strs prov) clock lic hist (JStr mp) pp (strs bl)
    /\ forallb wf_json [clock; lic; hist; pp] = true
    /\ critical bl = true
    /\ str_in dep EXTERNAL_DEPENDENCIES = true
    /\ (dep = "REQUIRED" ->
        av = "MISSING" /\ mp = "BLOCK_NO_IMPUTE" /\ In mapping_variable rv /\
        In "EXTERNAL_SPORTS_DATA_MISSING" bl)
    /\ (dep = "OPTIONAL_REFINEMENT" ->
        av = "MISSING_OPTIONAL_REFINEMENT" /\
        mp = "DO_NOT_IMPUTE_CORE_MAY_RUN_WITHOUT_FIELD" /\ bl = []).
Proof.
  unfold _external_contract. intros H. revert H.
  destruct (String.eqb_spec dep "NOT_REQUIRED") as [->|_].
  { intros <-%Ok_inj. exists "NOT_APPLICABLE", [], []. do 4 eexists. eexists. exists [].
    repeat split; first [reflexivity|discriminate]. }
  destruct (String.eqb_spec dep "OPTIONAL_REFINEMENT") as [->|_].
  { intros <-%Ok_inj. do 8 eexists. exists [].
    repeat split; first [reflexivity|discriminate]. }
  destruct (String.eqb_spec dep "REQUIRED") as [->|Hr].
  { intros <-%Ok_inj. do 9 eexists. repeat split; try first [reflexivity|discriminate].
    - apply append_missing_adds. simpl. auto.
    - simpl. auto. }
  destruct (str_in dep ["INHERIT_OWNER"; "INHERIT_CHILDREN"]) eqn:E; [|discriminate].
  intros <-%Ok_inj. exists "UNRESOLVED_UNTIL_BINDING". eexists. exists []. do 5 eexists. exists [].
  split; [reflexivity|]. split; [reflexivity|]. split; [reflexivity|].
  split; [|split; [done|intros ->; discriminate E]].
  revert E. apply str_in_incl. reflexivity.
Qed.

Lemma external_total dep id :
  str_in dep EXTERNAL_DEPENDENCIES = true -> exists ext, _external_contract dep id = Ok ext.
Proof.
  intros H. unfold _external_contract.
  destruct (String.eqb_spec dep "NOT_REQUIRED") as [->|]; [eauto|].
  destruct (String.eqb_spec dep "OPTIONAL_REFINEMENT") as [->|]; [eauto|].
  destruct (String.eqb_spec dep "REQUIRED") as [->|]; [eauto|].
  destruct (str_in dep ["INHERIT_OWNER"; "INHERIT_CHILDREN"]) eqn:E; [eauto|].
  exfalso. apply str_in_spec in H. apply str_in_false in E. simpl in H, E. intuition congruence.
Qed.

(** ** Gap contracts *)

(** Every critical blocker has a remediation entry with non-empty texts. *)
Lemma gap_contract_shape id b :
  str_in b CRITICAL_BLOCKERS = true ->
  exists stage missing acq apis,
    _gap_contract id b = Ok (obj [
      "blocker" ~> JStr b; "blocking_stage" ~> JStr stage; "missing_evidence" ~> JStr missing;
      "acquisition_or_build_path" ~> JStr acq; "external_api_candidate_ids" ~> strs apis;
      "unknown_value_policy" ~> JStr "BLOCK_NOT_ZERO"]) /\
    String.eqb missing EmptyString = false /\ String.eqb acq EmptyString = false.
Proof.
  intros Hb. unfold _gap_contract.
  assert (exists e, assoc b BLOCKER_REMEDIATION_CATALOG = Some e) as [[[m0 a0] st] E].
  { apply assoc_of_key. revert Hb. apply str_in_incl. reflexivity. }
  rewrite E. cbn [or_raise mbind result_bind].
  assert (String.eqb m0 EmptyString = false /\ String.eqb a0 EmptyString = false) as [Hm Ha].
  { enumerate_table E (fun (_ : string) (e : string * string * string) =>
      String.eqb (fst (fst e)) EmptyString = false /\ String.eqb (snd (fst e)) EmptyString = false)
      BLOCKER_REMEDIATION_CATALOG.
    repeat (apply List.Forall_cons; [split; reflexivity|]). apply List.Forall_nil. }
  destruct (gap_override id b) as [[m a]|] eqn:Ho.
  - cbn [default from_option]. do 4 eexists. split; [reflexivity|].
    unfold gap_override in Ho. destruct (List.find _ _) as [e|] eqn:F; [|done].
    apply find_some in F as [Hin _].
    assert (forallb (fun e => negb (String.eqb (fst (snd e)) EmptyString) && negb (String.eqb (snd (snd e)) EmptyString))
      CARD_SPECIFIC_GAP_OVERRIDES = true) as Hall by reflexivity.
    rewrite forallb_forall in Hall. specialize (Hall _ Hin).
    injection Ho as Ho. rewrite Ho in Hall. cbn in Hall.
    apply andb_true_iff in Hall as [H1 H2]. by rewrite negb_true_iff in H1, H2.
  - cbn [default from_option]. do 4 eexists. split; [reflexivity|]. done.
Qed.

(** ** Blockers *)

Lemma mapR_as_str l : mapR as_str (map JStr l) = Ok l.
Proof. induction l as [|s l IH]; simpl; [done|]. by rewrite IH. Qed.

Lemma as_strs_strs l : as_strs (strs l) = Ok l.
Proof. unfold as_strs, strs. simpl. apply mapR_as_str. Qed.

Lemma critical_app l l' : critical (l ++ l') = critical l && critical l'.
Proof. apply forallb_app. Qed.

Lemma critical_sorted_set l : critical l = true -> critical (sorted_set l) = true.
Proof.
  unfold critical. rewrite !forallb_forall. intros H x Hx. apply H. by apply sorted_set_in.
Qed.

Lemma signal_level_critical d : critical (_signal_level_blockers d) = true.
Proof.
  unfold _signal_level_blockers. destruct (assoc d _) eqn:E; [|done].
  apply assoc_in in E. cbn in E.
  repeat (destruct E as [E|E]; [injection E as <- <-; reflexivity|]). destruct E.
Qed.

(** The list [_expected_blockers] sorts, once its parts are known. *)
Definition blocker_parts (s : seed) (data_blockers cost_part ext_part : list string)
    (has_action : bool) : list string :=
  (if has_action then data_blockers else _signal_level_blockers (data_profile s))
  ++ (if has_action then cost_part else [])
  ++ (if str_in (action_profile s) CHILD_DEPENDENT_ACTION_PROFILES
      then ["CONFIRMED_CHILD_STRATEGIES_MISSING"] else [])
  ++ (if has_action && String.eqb (external_dependency s) "REQUIRED"
      then ["INSTRUMENT_MAPPING_UNKNOWN"] else [])
  ++ ext_part ++ extra_blockers s.

Lemma expected_blockers_eq s inputs can calc missing paths bl dep av rv prov clock lic hist mp pp
    ebl costs cb has_action :
  _cost_blockers costs = Ok cb ->
  _expected_blockers s (data_dict inputs can calc missing paths (strs bl))
    (ext_dict dep av rv prov clock lic hist mp pp (strs ebl)) costs has_action
  = Ok (sorted_set (blocker_parts s bl cb ebl has_action)).
Proof.
  intros Hc. unfold _expected_blockers, blocker_parts.
  destruct has_action; cbn [getitem data_dict ext_dict obj assoc String.eqb Ascii.eqb Bool.eqb
    or_raise mbind result_bind andb]; rewrite ?as_strs_strs, ?Hc;
    cbn [mbind result_bind]; rewrite ?as_strs_strs; done.
Qed.

Lemma blocker_parts_critical s bl cb ebl has_action :
  critical bl = true -> critical cb = true -> critical ebl = true ->
  critical (extra_blockers s) = true -> critical (blocker_parts s bl cb ebl has_action) = true.
Proof.
  intros H1 H2 H3 H4. unfold blocker_parts. rewrite !critical_app, H3, H4.
  pose proof (signal_level_critical (data_profile s)).
  destruct has_action, (str_in (action_profile s) _), (String.eqb (external_dependency s) _);
    cbn [andb]; by rewrite ?H1, ?H2, ?H.
Qed.

(** ** The parts of a card *)

Record card_parts := CardParts {
  p_action : json;
  p_action_type : list string;
  p_venue : json;
  p_data0 : json;
  p_ext : json;
  p_blockers : list string;
  p_data : json;
  p_gaps : list json;
  p_base : string;
  p_code : string;
  p_name : string;
  p_dsec : json;
  p_policy : json;
  p_result : json;
  p_next : json
}.

Definition p_has_action (p : card_parts) : bool :=
  match p_action_type p with [] => false | _ => true end.

Definition seed_costs (s : seed) : list json :=
  _costs_for (action_profile s) (external_dependency s).

(** The steps of [_build_card], with their results. *)
Record parts_ok (id : string) (s : seed) (p : card_parts) : Prop := PartsOk {
  ok_action : build_action s = Ok (p_action p);
  ok_action_type : getitem (p_action p) "action_type" = Ok (strs (p_action_type p));
  ok_venue : _venue_for (action_profile s) = Ok (p_venue p);
  ok_data0 : _data_profile (data_profile s) = Ok (p_data0 p);
  ok_ext : _external_contract (external_dependency s) id = Ok (p_ext p);
  ok_blockers : _expected_blockers s (p_data0 p) (p_ext p) (seed_costs s) (p_has_action p)
                = Ok (p_blockers p);
  ok_data : close_missing_signal (p_blockers p) (p_data0 p) = Ok (p_data p);
  ok_gaps : mapR (_gap_contract id) (p_blockers p) = Ok (p_gaps p);
  ok_base : _base_class (target_class s) (p_action p) (p_venue p)
              (_baseline_for (action_profile s)) (_pnl_for (action_profile s)) = Ok (p_base p);
  ok_family : family_of id = Ok (p_code p, p_name p);
  ok_dsec : data_section (data_profile s) (p_data p) (p_gaps p) = Ok (p_dsec p);
  ok_policy : getitem (_baseline_for (action_profile s)) "policy" = Ok (p_policy p);
  ok_result : result_section s (observed_signal_of id) = Ok (p_result p);
  ok_next : next_section (p_data p) (p_ext p) (p_has_action p) = Ok (p_next p)
}.

Definition p_classification (s : seed) (p : card_parts) : json :=
  _classification (target_class s) (p_base p) (p_blockers p).

(** The card without its hash. *)
Definition card_body (id : string) (s : seed) (p : card_parts) : list (string * json) := [
  "identity" ~> identity_section id (p_code p) (p_name p);
  "classification" ~> p_classification s p;
  "hypothesis" ~> hypothesis_section s (p_has_action p);
  "signal" ~> signal_dict (signal s);
  "action" ~> p_action p;
  "venue" ~> p_venue p;
  "baseline" ~> _baseline_for (action_profile s);
  "pnl" ~> _pnl_for (action_profile s);
  "costs" ~> JList (seed_costs s);
  "data" ~> p_dsec p;
  "external_sports_data" ~> p_ext p;
  "experiment_design" ~> design_section id (p_code p) s (p_policy p);
  "current_result" ~> p_result p;
  "blockers" ~> strs (p_blockers p);
  "next_evidence" ~> p_next p
].

Definition card_of (id : string) (s : seed) (p : card_parts) : json :=
  JObj (card_body id s p ++
        ["definition_sha256" ~> JStr (_sha256 (JObj (card_body id s p)))]).

(** The action section: the table entry, then three card-level fields. *)
Lemma build_action_shape s action :
  build_action s = Ok action ->
  exists status at_ mapping side style price qty timing exit kill,
    action = obj [
      "status" ~> status; "action_type" ~> strs at_; "signal_to_action_mapping" ~> mapping;
      "instrument_side" ~> side; "order_style" ~> style; "price_rule" ~> price;
      "quantity_rule" ~> qty; "timing_and_cancel" ~> timing; "exit_or_settlement" ~> exit;
      "kill_conditions" ~> kill;
      "profile_id" ~> JStr (action_profile s);
      "current_execution_authority" ~> JStr "NONE";
      "registered_signal_to_action" ~> (if truthy (strs at_) then
         JStr ("IF [" +:+ trigger (signal s) +:+ "] THEN apply [" +:+ action_profile s +:+
           "] exactly as specified below; ELSE preserve the registered baseline/no-trade branch.")
         else JNull)] /\
    forallb wf_json [status; mapping; side; style; price; qty; timing; exit; kill] = true /\
    non_action (action_profile s) = match at_ with [] => true | _ => false end /\
    (non_action (action_profile s) = false ->
     forallb truthy [mapping; side; style; price; qty; timing; exit; kill] = true).
Proof.
  unfold build_action. intros H. apply bind_ok in H as (a0 & Ha & H).
  apply action_profile_shape in Ha as
    (st & at_ & m & sd & sy & pr & q & ti & ex & k & -> & Hwf & Hn & Ht).
  exists st, at_, m, sd, sy, pr, q, ti, ex, k. split; [|done].
  apply Ok_inj in H. by subst action.
Qed.

Lemma build_action_total s :
  str_in (action_profile s) (keys action_profiles) = true -> exists a, build_action s = Ok a.
Proof.
  intros [a Ha]%assoc_of_key. unfold build_action.
  assert (_action_profile (action_profile s) = Ok a) as Hp by by apply or_raise_ok.
  rewrite Hp. apply action_profile_shape in Hp as
    (st & at_ & m & sd & sy & pr & q & ti & ex & k & -> & _).
  eexists. reflexivity.
Qed.

(** [_build_card] succeeds exactly with its parts, and gives their card. *)
Lemma build_card_inv id s card :
  _build_card id s = Ok card -> exists p, parts_ok id s p /\ card = card_of id s p.
Proof.
  unfold _build_card. intros H.
  apply bind_ok in H as (action & Ea & H). apply bind_ok in H as (venue & Ev & H).
  apply bind_ok in H as (data0 & Ed & H). apply bind_ok in H as (ext & Ee & H).
  apply bind_ok in H as (at_ & Eat & H). apply bind_ok in H as (bs & Eb & H).
  apply bind_ok in H as (data & Edt & H). apply bind_ok in H as (gaps & Eg & H).
  apply bind_ok in H as (base & Ebc & H). apply bind_ok in H as ([code name] & Ef & H).
  apply bind_ok in H as (dsec & Eds & H). apply bind_ok in H as (pol & Ep & H).
  apply bind_ok in H as (cr & Ecr & H). apply bind_ok in H as (nx & Enx & H).
  assert (exists al, at_ = strs al) as [al ->].
  { apply build_action_shape in Ea as (st & al & m & sd & sy & pr & q & ti & ex & k & -> & _).
    exists al. by apply Ok_inj in Eat. }
  assert (truthy (strs al) = match al with [] => false | _ => true end) as Hal by by destruct al.
  rewrite Hal in *. apply Ok_inj in H. subst card.
  exists (CardParts action al venue data0 ext bs data gaps base code name dsec pol cr nx).
  split; [by constructor|done].
Qed.

Lemma build_card_intro id s p : parts_ok id s p -> _build_card id s = Ok (card_of id s p).
Proof.
  intros [Ea Eat Ev Ed Ee Eb Edt Eg Ebc Ef Eds Ep Ecr Enx]. unfold _build_card.
  assert (truthy (strs (p_action_type p)) = p_has_action p) as Ht
    by (unfold p_has_action; by destruct (p_action_type p)).
  fold (seed_costs s).
  rewrite Ea; cbn [mbind result_bind]. rewrite Ev; cbn [mbind result_bind].
  rewrite Ed; cbn [mbind result_bind]. rewrite Ee; cbn [mbind result_bind].
  rewrite Eat; cbn [mbind result_bind]. rewrite Ht, Eb; cbn [mbind result_bind].
  rewrite Edt; cbn [mbind result_bind]. rewrite Eg; cbn [mbind result_bind].
  rewrite Ebc; cbn [mbind result_bind]. rewrite Ef; cbn [mbind result_bind].
  rewrite Eds; cbn [mbind result_bind]. rewrite Ep; cbn [mbind result_bind].
  rewrite Ecr; cbn [mbind result_bind]. rewrite Enx; cbn [mbind result_bind].
  reflexivity.
Qed.

(** ** Consequences of the parts *)

(** The base class, in closed form: an action is complete by construction. *)
Definition base_class_of (tc : string) (a : string) : string :=
  if String.eqb tc "RESEARCH_QUESTION" then "RESEARCH_QUESTION"
  else if non_action a then "SIGNAL" else "EXECUTABLE_STRATEGY".

Lemma base_class_eq tc s action venue :
  build_action s = Ok action -> _venue_for (action_profile s) = Ok venue ->
  _base_class tc action venue (_baseline_for (action_profile s)) (_pnl_for (action_profile s))
  = Ok (base_class_of tc (action_profile s)).
Proof.
  intros Ha Hv.
  apply build_action_shape in Ha as (st & al & m & sd & sy & pr & q & ti & ex & k & -> & _ & Hn & _).
  apply venue_for_shape in Hv as (ve & -> & _ & Hve).
  destruct (baseline_shape (action_profile s)) as (bid & ty & pol & cmp & sec & Hb & _ & Hbid & _).
  rewrite Hb. unfold _base_class, base_class_of.
  cbn [getitem obj assoc String.eqb Ascii.eqb Bool.eqb or_raise mbind result_bind].
  destruct (String.eqb tc "RESEARCH_QUESTION"); [done|].
  destruct al as [|x al]; cbn [truthy strs map negb]; [by rewrite Hn|].
  rewrite Hn. destruct (pnl_shape_action (action_profile s) Hn) as (_ & d & -> & _ & Hbasis & Hall).
  cbn [forallb] in Hall. apply andb_true_iff in Hall as [_ Hall].
  apply andb_true_iff in Hall as [Hinc _].
  destruct (assoc "incremental_formula" d) as [inc|] eqn:Einc; [|done].
  unfold venue_dict. rewrite Hn in Hve, Hbid.
  assert (eq_str (JStr ve) "NONE" = false) as Hve' by exact Hve.
  unfold getitem, obj. cbn [assoc String.eqb Ascii.eqb Bool.eqb or_raise mbind result_bind].
  rewrite Hve', Hbid, Hbasis, Einc. cbn. by rewrite Hinc.
Qed.

Section Parts.
Context (id : string) (s : seed) (p : card_parts) (OK : parts_ok id s p).

Lemma parts_has_action : p_has_action p = negb (non_action (action_profile s)).
Proof.
  destruct (build_action_shape _ _ (ok_action _ _ _ OK)) as
    (st & al & m & sd & sy & pr & q & ti & ex & k & Ha & _ & Hn & _).
  pose proof (ok_action_type _ _ _ OK) as Hat. rewrite Ha in Hat.
  apply Ok_inj in Hat. assert (al = p_action_type p) as Hal by by apply strs_inj.
  unfold p_has_action. rewrite Hn, Hal. by destruct (p_action_type p).
Qed.

Lemma parts_base : p_base p = base_class_of (target_class s) (action_profile s).
Proof.
  pose proof (ok_base _ _ _ OK) as Hb.
  erewrite base_class_eq in Hb; [|apply OK|apply OK]. by apply Ok_inj in Hb.
Qed.

(** The blockers are the sorted union of the parts. *)
Lemma parts_blockers :
  exists dbl cb ebl,
    p_blockers p = sorted_set (blocker_parts s dbl cb ebl (p_has_action p)) /\
    _cost_blockers (seed_costs s) = Ok cb /\
    critical dbl = true /\ critical cb = true /\ critical ebl = true /\
    (external_dependency s = "REQUIRED" -> In "EXTERNAL_SPORTS_DATA_MISSING" ebl).
Proof.
  destruct (data_profile_shape _ _ (ok_data0 _ _ _ OK)) as
    (i & ev & cm & sf & fa & se & re & ca & mi & pa & bl & Hd & _ & Hbl).
  destruct (external_shape _ _ _ (ok_ext _ _ _ OK)) as
    (av & rv & prov & cl & li & hi & mp & pp & ebl & He & _ & Hebl & _ & Hreq & _).
  destruct (cost_blockers_total (action_profile s) (external_dependency s)) as (cb & Hc & Hcb & _).
  pose proof (ok_blockers _ _ _ OK) as Hb. rewrite Hd, He in Hb.
  rewrite (expected_blockers_eq _ _ _ _ _ _ _ _ _ _ _ _ _ _ _ _ _ _ _ _ Hc) in Hb.
  apply Ok_inj in Hb. exists bl, cb, ebl. repeat split; try done. intros Hr. by apply Hreq.
Qed.

Lemma parts_blockers_increasing : increasing (p_blockers p).
Proof. destruct parts_blockers as (? & ? & ? & -> & _). auto with pydb. Qed.

Lemma parts_blockers_critical :
  critical (extra_blockers s) = true -> critical (p_blockers p) = true.
Proof.
  intros H. destruct parts_blockers as (? & ? & ? & -> & _ & ? & ? & ? & _).
  apply critical_sorted_set, blocker_parts_critical; done.
Qed.

(** An action is blocked by its unknown costs, whatever its seed says. *)
Lemma parts_cost_blockers cb b :
  non_action (action_profile s) = false ->
  _cost_blockers (seed_costs s) = Ok cb -> In b cb -> In b (p_blockers p).
Proof.
  intros Hn Hc Hb. destruct parts_blockers as (dbl & cb' & ebl & -> & Hc' & _).
  rewrite Hc in Hc'. apply Ok_inj in Hc'. subst cb'.
  apply sorted_set_in. unfold blocker_parts. rewrite parts_has_action, Hn. simpl.
  apply in_app_iff. right. apply in_app_iff. by left.
Qed.

Lemma parts_common_blockers b :
  non_action (action_profile s) = false -> In b COMMON_COST_BLOCKERS -> In b (p_blockers p).
Proof.
  intros Hn Hb.
  destruct (cost_blockers_total (action_profile s) (external_dependency s)) as (cb & Hc & _ & Ht & _).
  specialize (Ht Hn). rewrite forallb_forall in Ht. apply Ht, str_in_spec in Hb.
  by apply (parts_cost_blockers cb).
Qed.

(** Required external data blocks the card, and an action also for the mapping. *)
Lemma parts_required_blocked :
  external_dependency s = "REQUIRED" -> In "EXTERNAL_SPORTS_DATA_MISSING" (p_blockers p).
Proof.
  intros Hr. destruct parts_blockers as (dbl & cb & ebl & -> & _ & _ & _ & _ & He).
  apply sorted_set_in. unfold blocker_parts. rewrite !in_app_iff. auto 10.
Qed.

Lemma parts_required_mapping :
  external_dependency s = "REQUIRED" -> non_action (action_profile s) = false ->
  In "INSTRUMENT_MAPPING_UNKNOWN" (p_blockers p).
Proof.
  intros Hr Hn. destruct parts_blockers as (dbl & cb & ebl & -> & _).
  apply sorted_set_in. unfold blocker_parts. rewrite parts_has_action, Hn, Hr, !in_app_iff.
  simpl. auto 10.
Qed.

Lemma parts_child_blocked :
  str_in (action_profile s) CHILD_DEPENDENT_ACTION_PROFILES = true ->
  In "CONFIRMED_CHILD_STRATEGIES_MISSING" (p_blockers p).
Proof.
  intros Hc. destruct parts_blockers as (dbl & cb & ebl & -> & _).
  apply sorted_set_in. unfold blocker_parts. rewrite Hc, !in_app_iff. simpl. auto 10.
Qed.

(** No card is eligible as a strategy. *)
Lemma parts_never_eligible :
  getitem (p_classification s p) "strategy_eligible" = Ok (JBool false).
Proof.
  unfold p_classification, _classification.
  destruct (p_blockers p) as [|b bs] eqn:E; [|done].
  rewrite parts_base. unfold base_class_of.
  destruct (String.eqb (target_class s) "RESEARCH_QUESTION"); [done|].
  destruct (non_action (action_profile s)) eqn:Hn; [done|].
  assert (In "FEE_UNKNOWN" (p_blockers p)) as Hin by (apply parts_common_blockers; simpl; auto).
  by rewrite E in Hin.
Qed.
End Parts.

(** ** Totality *)

Lemma gaps_total id bs : critical bs = true -> exists gaps, mapR (_gap_contract id) bs = Ok gaps.
Proof.
  induction bs as [|b bs IH]; simpl; [eauto|]. intros [Hb Hbs]%andb_true_iff.
  destruct (gap_contract_shape id b Hb) as (st & m & a & ap & -> & _).
  destruct (IH Hbs) as [gaps ->]. simpl. eauto.
Qed.

(** The data section after the missing-signal rule, in closed form. *)
Definition closed_event (bs : list string) (ev : string) : string :=
  if str_in "MISSING_SIGNAL_INPUT" bs then "NO" else ev.

Definition closed_calc (bs : list string) (calc : json) : json :=
  if str_in "MISSING_SIGNAL_INPUT" bs
  then JStr "The base feed may exist, but this experiment's named signal input is absent; current signal incidence and effect are not calculable."
  else calc.

Lemma close_missing_eq bs i ev cm sf fa se re calc mi pa bl :
  close_missing_signal bs (data_dict i (can_compute (JStr ev) cm sf fa se re) calc mi pa bl)
  = Ok (data_dict i (can_compute (JStr (closed_event bs ev)) cm sf fa se re)
          (closed_calc bs calc) mi pa bl).
Proof.
  unfold close_missing_signal, closed_event, closed_calc.
  by destruct (str_in "MISSING_SIGNAL_INPUT" bs).
Qed.

Definition data_sec_dict (dp i ev cm sf fa se re calc mi pa bl gaps : json) (dpn : string) : json :=
  obj ["profile_id" ~> dp; "inputs" ~> i; "can_compute_now" ~> can_compute ev cm sf fa se re;
       "currently_calculable" ~> calc; "missing" ~> mi; "acquisition_paths" ~> pa;
       "blockers" ~> bl; "critical_gaps" ~> gaps; "study_dates" ~> _study_dates dpn ev].

Lemma data_section_eq dpn i ev cm sf fa se re calc mi pa bl gaps :
  data_section dpn (data_dict i (can_compute ev cm sf fa se re) calc mi pa bl) gaps
  = Ok (data_sec_dict (JStr dpn) i ev cm sf fa se re calc mi pa bl (JList gaps) dpn).
Proof. reflexivity. Qed.

(** Every evidence record has a textual status. *)
Lemma observed_shape id :
  exists st v src, observed_signal_of id = obj ["status" ~> JStr st; "values" ~> v; "source" ~> src]
    /\ wf_json v = true /\ wf_json src = true.
Proof.
  unfold observed_signal_of. destruct (assoc id OBSERVED_SIGNAL_EVIDENCE) as [o|] eqn:E.
  - enumerate_table E (fun (_ : string) (o : json) => exists st v src,
      default (obj []) (Some o) = obj ["status" ~> JStr st; "values" ~> v; "source" ~> src]
      /\ wf_json v = true /\ wf_json src = true) OBSERVED_SIGNAL_EVIDENCE.
    repeat (apply List.Forall_cons; [do 3 eexists; repeat split; reflexivity|]).
    apply List.Forall_nil.
  - do 3 eexists. repeat split; reflexivity.
Qed.

Lemma parts_exist id s :
  known_seed s = true -> is_ok (family_of id) = true -> exists p, parts_ok id s p.
Proof.
  unfold known_seed. intros Hk Hf.
  apply andb_true_iff in Hk as [Hk Hx]. apply andb_true_iff in Hk as [Hk He].
  apply andb_true_iff in Hk as [Ha Hd].
  destruct (build_action_total s Ha) as [action Ea].
  destruct (venue_for_total _ Ha) as [venue Ev].
  destruct (assoc_of_key _ _ Hd) as [data0 Ed]. apply (or_raise_ok (KeyError (data_profile s))) in Ed.
  destruct (external_total _ id He) as [ext Ee].
  pose proof (build_action_shape _ _ Ea) as
    (st & al & m & sd & sy & pr & q & ti & ex & k & Hact & _).
  destruct (data_profile_shape _ _ Ed) as
    (i & ev & cm & sf & fa & se & re & ca & mi & pa & bl & Hdata & _ & Hbl).
  destruct (external_shape _ _ _ Ee) as
    (av & rv & prov & cl & li & hi & mp & pp & ebl & Hext & _ & Hebl & _).
  destruct (cost_blockers_total (action_profile s) (external_dependency s)) as (cb & Hc & Hcb & _).
  set (ha := match al with [] => false | _ => true end).
  set (bs := sorted_set (blocker_parts s bl cb ebl ha)).
  assert (critical bs = true) as Hbs.
  { by apply critical_sorted_set, blocker_parts_critical. }
  destruct (gaps_total id bs Hbs) as [gaps Eg].
  destruct (family_of id) as [[code name]|] eqn:Ef; [|done].
  destruct (observed_shape id) as (ost & ov & osrc & Ho & _).
  destruct (baseline_shape (action_profile s)) as (bid & ty & pol & cmp & sec & Hb & _).
  set (data := data_dict i (can_compute (JStr (closed_event bs ev)) cm sf fa se re)
                 (closed_calc bs ca) mi pa (strs bl)).
  assert (exists nx, next_section data ext ha = Ok nx) as [nx Enx]
    by (rewrite Hext; eexists; reflexivity).
  eexists (CardParts action al venue data0 ext bs data gaps _ code name _ pol _ nx).
  constructor; cbn [p_action p_action_type p_venue p_data0 p_ext p_blockers p_data p_gaps p_base
    p_code p_name p_dsec p_policy p_result p_next]; try eassumption.
  - by rewrite Hact.
  - rewrite Hdata, Hext. by apply expected_blockers_eq.
  - rewrite Hdata. apply close_missing_eq.
  - by apply base_class_eq.
  - apply data_section_eq.
  - by rewrite Hb.
  - by rewrite Ho.
Qed.

(** ** Well-formedness *)

Lemma wf_obj_intro d :
  nodupb (map fst d) = true -> forallb wf_json (map snd d) = true -> wf_json (JObj d) = true.
Proof.
  intros Hk Hv. cbn [wf_json]. rewrite Hk. simpl. rewrite forallb_forall in *.
  intros [k v] Hin. apply Hv. apply (in_map snd) in Hin. done.
Qed.

(** Closes [forallb wf_json [...]] from hypotheses on its members. *)
Ltac wf_members :=
  cbn [forallb map snd];
  repeat match goal with
  | H : forallb wf_json (_ :: _) = true |- _ => cbn [forallb] in H
  | H : (wf_json _ && _)%bool = true |- _ =>
      let H1 := fresh "W" in apply andb_true_iff in H as [H1 H]
  | H : wf_json ?x = true |- context [wf_json ?x] => rewrite H
  end; rewrite ?wf_strs; try reflexivity.

Ltac wf_obj := apply wf_obj_intro; [reflexivity|wf_members].

Lemma wf_gaps id bs gaps :
  critical bs = true -> mapR (_gap_contract id) bs = Ok gaps -> wf_json (JList gaps) = true.
Proof.
  revert gaps. induction bs as [|b bs IH]; intros gaps Hc H; simpl in H.
  - by apply Ok_inj in H as <-.
  - apply andb_true_iff in Hc as [Hb Hbs].
    destruct (gap_contract_shape id b Hb) as (st & m & a & ap & Hg & _).
    rewrite Hg in H. simpl in H. inv_ok. specialize (IH _ Hbs E).
    cbn [wf_json forallb]. cbn [wf_json] in IH. rewrite IH, andb_true_r. wf_obj.
Qed.

Lemma wf_study_dates dp ev : wf_json ev = true -> wf_json (_study_dates dp ev) = true.
Proof.
  intros H. unfold _study_dates. apply wf_obj_intro; [reflexivity|].
  destruct (eq_str ev "YES"), (eq_str ev "PARTIAL"); wf_members.
Qed.

Section PartsWf.
Context (id : string) (s : seed) (p : card_parts) (OK : parts_ok id s p).
Context (Hx : critical (extra_blockers s) = true).

Lemma wf_action : wf_json (p_action p) = true.
Proof.
  destruct (build_action_shape _ _ (ok_action _ _ _ OK)) as
    (st & al & m & sd & sy & pr & q & ti & ex & k & -> & Hwf & _).
  apply wf_obj_intro; [reflexivity|]. destruct al; wf_members.
Qed.

Lemma wf_venue : wf_json (p_venue p) = true.
Proof. destruct (venue_for_shape _ _ (ok_venue _ _ _ OK)) as (v & -> & _). reflexivity. Qed.

Lemma wf_baseline a : wf_json (_baseline_for a) = true.
Proof.
  destruct (baseline_shape a) as (bid & ty & pol & cmp & sec & -> & Hwf & _). wf_obj.
Qed.

Lemma wf_ext : wf_json (p_ext p) = true.
Proof.
  destruct (external_shape _ _ _ (ok_ext _ _ _ OK)) as
    (av & rv & prov & cl & li & hi & mp & pp & ebl & -> & Hwf & _). wf_obj.
Qed.

Lemma wf_classification tc b bs : wf_json (_classification tc b bs) = true.
Proof. by destruct bs. Qed.

(** The data section in closed form. *)
Lemma parts_dsec :
  exists i ev cm sf fa se re calc mi pa bl,
    p_dsec p = data_sec_dict (JStr (data_profile s)) i (JStr (closed_event (p_blockers p) ev))
                 cm sf fa se re calc mi pa bl (JList (p_gaps p)) (data_profile s) /\
    getitem (p_data p) "acquisition_paths" = Ok pa /\
    forallb wf_json [i; cm; sf; fa; se; re; calc; mi; pa; bl] = true.
Proof.
  destruct (data_profile_shape _ _ (ok_data0 _ _ _ OK)) as
    (i & ev & cm & sf & fa & se & re & ca & mi & pa & bl & Hd & Hwf & Hbl).
  pose proof (ok_data _ _ _ OK) as Hdt. rewrite Hd, close_missing_eq in Hdt.
  apply Ok_inj in Hdt. pose proof (ok_dsec _ _ _ OK) as Hs.
  rewrite <- Hdt, data_section_eq in Hs. apply Ok_inj in Hs.
  exists i, ev, cm, sf, fa, se, re, (closed_calc (p_blockers p) ca), mi, pa, (strs bl).
  split; [done|]. split; [by rewrite <- Hdt|].
  unfold closed_calc. destruct (str_in "MISSING_SIGNAL_INPUT" (p_blockers p)); wf_members.
Qed.

Lemma wf_dsec : wf_json (p_dsec p) = true.
Proof.
  destruct parts_dsec as (i & ev & cm & sf & fa & se & re & ca & mi & pa & bl & -> & _ & Hwf).
  assert (wf_json (JList (p_gaps p)) = true) as Hg.
  { eapply wf_gaps; [|apply OK]. exact (parts_blockers_critical id s p OK Hx). }
  assert (wf_json (_study_dates (data_profile s) (JStr (closed_event (p_blockers p) ev))) = true)
    as Hs by by apply wf_study_dates.
  assert (wf_json (can_compute (JStr (closed_event (p_blockers p) ev)) cm sf fa se re) = true) as Hc.
  { unfold can_compute. wf_obj. }
  unfold data_sec_dict. wf_obj.
Qed.

Lemma wf_observed : wf_json (observed_signal_of id) = true.
Proof. destruct (observed_shape id) as (st & v & src & -> & ? & ?). wf_obj. Qed.

Lemma wf_result : wf_json (p_result p) = true.
Proof.
  pose proof (ok_result _ _ _ OK) as H. pose proof wf_observed as Ho.
  destruct (observed_shape id) as (st & v & src & Heq & Hv & Hs).
  rewrite Heq in H, Ho. apply Ok_inj in H as <-. wf_obj.
Qed.

Lemma wf_design code pol : wf_json pol = true -> wf_json (design_section id code s pol) = true.
Proof. intros H. unfold design_section. destruct (is_none pol); wf_obj. Qed.

Lemma wf_policy : wf_json (p_policy p) = true.
Proof.
  pose proof (ok_policy _ _ _ OK) as H.
  destruct (baseline_shape (action_profile s)) as (bid & ty & pol & cmp & sec & Hb & Hwf & _).
  rewrite Hb in H. apply Ok_inj in H as <-. cbn [forallb] in Hwf.
  by do 2 apply andb_true_iff in Hwf as [? Hwf].
Qed.

Lemma wf_next : wf_json (p_next p) = true.
Proof.
  pose proof (ok_next _ _ _ OK) as H.
  destruct parts_dsec as (i & ev & cm & sf & fa & se & re & ca & mi & pa & bl & _ & Hpa & Hwf).
  destruct (external_shape _ _ _ (ok_ext _ _ _ OK)) as
    (av & rv & prov & cl & li & hi & mp & pp & ebl & Hext & _).
  unfold next_section in H. rewrite Hpa, Hext in H. apply Ok_inj in H as <-. wf_obj.
Qed.

Lemma wf_card : wf_json (card_of id s p) = true.
Proof.
  pose proof wf_action. pose proof wf_venue. pose proof (wf_baseline (action_profile s)).
  pose proof wf_ext. pose proof wf_dsec. pose proof wf_result.
  pose proof (wf_design (p_code p) _ wf_policy). pose proof wf_next.
  pose proof (costs_wf (action_profile s) (external_dependency s)) as Hc. fold (seed_costs s) in Hc.
  pose proof (pnl_wf (action_profile s)).
  pose proof (wf_classification (target_class s) (p_base p) (p_blockers p)) as Hcl.
  fold (p_classification s p) in Hcl.
  apply wf_obj_intro; [reflexivity|]. unfold card_body. cbn [app]. wf_members.
Qed.
End PartsWf.
