(* ===== verification/ValidatorFacts.v ===== *)
(** * What validation guarantees

    The checks accept every card the builder makes from a filled seed, and an
    accepted registry carries, card by card, what the builder would write. *)

From stdpp Require Import base list strings numbers.
From Stdlib Require Import ZArith Lia Bool Ascii.
From S2P Require Import Prelude PyJson Sha256 JsonText RegistryTables ActionProfiles.
From S2P Require Import DataProfiles Seeds Builder Validator BuilderFacts.

(** A seed whose texts are not empty. *)
Definition filled_seed (s : seed) : bool :=
  forallb (fun t => negb (String.eqb t EmptyString))
    [hypothesis s; trigger (signal s); direction_semantics (signal s); decision_clock (signal s);
     forecast_horizon (signal s); falsifier (signal s)].

(** A step that reports nothing. *)
Definition clean (m : vres unit) : Prop := m = VOk [] tt.

(** * Lemmas *)

(** ** Steps that report nothing *)

Lemma vbind_ok {A B} (m : vres A) (f : A -> vres B) b :
  (m ≫= f) = VOk [] b <-> exists a, m = VOk [] a /\ f a = VOk [] b.
Proof.
  destruct m as [errs a|e]; simpl; split.
  - destruct (f a) as [errs' b'|] eqn:E; [|done]. intros [= H ->].
    apply app_eq_nil in H as [-> ->]. eauto.
  - intros (a' & [= -> ->] & ->). done.
  - done.
  - by intros (a & ? & _).
Qed.

Lemma clean_seq (m k : vres unit) : clean m -> clean k -> clean (_ ← m; k).
Proof. unfold clean. intros Hm Hk. apply vbind_ok. eauto. Qed.

Lemma clean_lift {A} (r : result A) a (f : A -> vres unit) :
  r = Ok a -> clean (f a) -> clean (lift r ≫= f).
Proof. intros -> H. apply vbind_ok. exists a. done. Qed.

Lemma clean_step {A} (m : vres A) a (f : A -> vres unit) :
  m = VOk [] a -> clean (f a) -> clean (m ≫= f).
Proof. intros -> H. apply vbind_ok. exists a. done. Qed.

Lemma clean_expect c msg : clean (_expect c msg) <-> c = true.
Proof. unfold clean, _expect. destruct c; split; done. Qed.

Lemma clean_expectR c msg : clean (expectR c msg) <-> c = Ok true.
Proof.
  unfold expectR. split.
  - intros (a & Ha & Hc)%vbind_ok. apply clean_expect in Hc as ->.
    destruct c; by simplify_eq/=.
  - intros ->. done.
Qed.

Lemma clean_seq_iff (m : vres unit) (k : unit -> vres unit) :
  clean (m ≫= k) <-> clean m /\ clean (k tt).
Proof.
  unfold clean. rewrite vbind_ok. split; [by intros ([] & ? & ?)|intros []; by exists tt].
Qed.

Lemma clean_lift_iff {A} (r : result A) (f : A -> vres unit) :
  clean (lift r ≫= f) <-> exists a, r = Ok a /\ clean (f a).
Proof.
  unfold clean. rewrite vbind_ok. destruct r as [a|e]; simpl; split.
  - intros (a' & [= <-] & ?). eauto.
  - intros (a' & <-%Ok_inj & ?). eauto.
  - by intros (? & ? & _).
  - by intros (? & ? & _).
Qed.

Lemma clean_ok : clean (VOk [] tt).
Proof. done. Qed.

Lemma clean_for_each {A} (f : A -> vres unit) l :
  clean (for_each f l) <-> forall a, In a l -> clean (f a).
Proof.
  induction l as [|a l IH]; simpl; [done|]. split.
  - intros ([] & Ha & Hl)%vbind_ok x [->|Hx]; [done|]. by apply IH.
  - intros H. apply clean_seq; [auto|]. apply IH. auto.
Qed.

(** One goal per statement of a sequence. *)
Ltac clean_seqs :=
  repeat match goal with
  | |- clean (mbind (fun _ => _) ?m) =>
      lazymatch m with lift _ => fail | _ => refine (clean_seq _ _ _ _) end
  end.

(** [allR] over keys, one goal per key. *)
Lemma get_truthy_assoc d k v : assoc k d = Some v -> truthy v = true -> get_truthy (JObj d) k = Ok true.
Proof.
  intros H Ht. unfold get_truthy, get, get_default. rewrite H. simpl. by rewrite Ht.
Qed.

Lemma in_list_blockers b bs : In b bs -> in_list (JStr b) (map JStr bs) = true.
Proof. intros H. rewrite in_list_strs. by apply str_in_spec. Qed.

Lemma contains_strs b bs : contains b (strs bs) = Ok (str_in b bs).
Proof. unfold contains, strs. by rewrite in_list_strs. Qed.

Lemma truthy_str s : truthy (JStr s) = negb (String.eqb s EmptyString).
Proof. done. Qed.

(** ** Hashing a file in chunks *)

Lemma read_append n s chunk rest : read n s = (chunk, rest) -> s = chunk +:+ rest.
Proof.
  revert n chunk rest. induction s as [|c s IH]; intros n chunk rest H; cbn [read] in H.
  - by injection H as <- <-.
  - destruct (n =? 0)%N; [by injection H as <- <-|].
    destruct (read (N.pred n) s) as [a b] eqn:E. injection H as <- <-.
    by rewrite append_cons, <- (IH _ _ _ E).
Qed.

Lemma update_all_eq fuel s digest :
  (String.length s < fuel)%nat -> update_all fuel s digest = digest +:+ s.
Proof.
  revert s digest. induction fuel as [|fuel IH]; intros s digest Hf; [lia|].
  cbn [update_all]. destruct (read (1024 * 1024) s) as [[|c chunk] rest] eqn:E.
  - destruct s as [|c s]; [by rewrite append_nil_r|]. cbn [read] in E.
    change (1024 * 1024 =? 0)%N with false in E. destruct (read _ s). discriminate E.
  - apply read_append in E. subst s. rewrite append_cons in Hf |- *. cbn [String.length] in Hf.
    rewrite string_length_app in Hf. rewrite IH by lia. unfold update.
    by rewrite append_assoc, append_cons.
Qed.

(** Hashing in chunks is hashing the whole content. *)
Lemma file_sha256_eq file_at path content :
  file_at path = Some (Bytes content) -> _file_sha256 file_at path = Ok (sha256_hex content).
Proof.
  intros H. unfold _file_sha256, read_bytes. rewrite H. cbn [mbind result_bind].
  by rewrite update_all_eq by lia.
Qed.

(** ** Costs *)

Lemma cost_valid c : good_cost c -> cost_is_valid c = Ok true.
Proof.
  intros (t & r & st & ru & -> & H).
  apply andb_true_iff in H as [H Hr]. apply andb_true_iff in H as [H Hs].
  apply andb_true_iff in H as [Ht Hro].
  unfold cost_is_valid, cost_item, get_truthy, get, get_default.
  cbn [is_dict obj negb assoc String.eqb Ascii.eqb Bool.eqb mbind result_bind].
  rewrite !in_strset_str, Ht, Hro, Hs. cbn. by rewrite Hr.
Qed.

Lemma check_costs_clean id costs n :
  Forall good_cost costs ->
  for_fold (check_cost id) costs (n, true) = VOk [] (n + length costs, true).
Proof.
  intros H. revert n. induction H as [|c l Hc _ IH]; intros n; simpl.
  - by rewrite Nat.add_0_r.
  - unfold check_cost at 1. rewrite (cost_valid _ Hc). simpl. rewrite IH.
    by rewrite Nat.add_succ_r.
Qed.

Lemma costs_data_api a :
  non_action a = false ->
  anyR (fun cost => get_is cost "type" "DATA_API") (_costs_for a "REQUIRED") = Ok true.
Proof.
  intros Hn. unfold _costs_for. unfold non_action, NON_ACTION in Hn. rewrite Hn.
  destruct (String.eqb a "RFQ_MAKER"); reflexivity.
Qed.

(** ** The built card passes each check *)

Section Accepts.
Context (id : string) (s : seed) (p : card_parts) (OK : parts_ok id s p).
Context (Hx : critical (extra_blockers s) = true) (Hfill : filled_seed s = true).

Definition built_sections : sections :=
  Sections (card_of id s p) (p_action p) (p_venue p) (_baseline_for (action_profile s))
    (_pnl_for (action_profile s)) (p_classification s p) (JList (seed_costs s)) (p_dsec p)
    (p_ext p) (strs (p_blockers p)).

Lemma get_sections_built : get_sections (card_of id s p) = Ok built_sections.
Proof. reflexivity. Qed.

Lemma dict_action : is_dict (p_action p) = true.
Proof.
  destruct (build_action_shape _ _ (ok_action _ _ _ OK)) as
    (? & ? & ? & ? & ? & ? & ? & ? & ? & ? & -> & _). done.
Qed.

Lemma dict_venue : is_dict (p_venue p) = true.
Proof. destruct (venue_for_shape _ _ (ok_venue _ _ _ OK)) as (? & -> & _). done. Qed.

Lemma dict_baseline a : is_dict (_baseline_for a) = true.
Proof. destruct (baseline_shape a) as (? & ? & ? & ? & ? & -> & _). done. Qed.

Lemma dict_pnl a : is_dict (_pnl_for a) = true.
Proof.
  destruct (non_action a) eqn:E; [by rewrite pnl_shape_none|].
  by destruct (pnl_shape_action a E) as (_ & d & -> & _).
Qed.

Lemma dict_ext : is_dict (p_ext p) = true.
Proof.
  destruct (external_shape _ _ _ (ok_ext _ _ _ OK)) as
    (? & ? & ? & ? & ? & ? & ? & ? & ? & -> & _). done.
Qed.

Lemma dict_dsec : is_dict (p_dsec p) = true.
Proof.
  destruct (parts_dsec id s p OK) as (? & ? & ? & ? & ? & ? & ? & ? & ? & ? & ? & -> & _). done.
Qed.

Lemma sections_typed_built : sections_typed built_sections = true.
Proof.
  unfold sections_typed. cbn -[_baseline_for _pnl_for is_dict].
  by rewrite dict_action, dict_venue, dict_baseline, dict_pnl, dict_ext, dict_dsec.
Qed.

Lemma check_types_clean : clean (check_types id built_sections).
Proof.
  unfold check_types. cbn -[_baseline_for _pnl_for is_dict _expect mbind].
  clean_seqs; apply clean_expect;
    first [apply dict_action|apply dict_venue|apply dict_baseline|apply dict_pnl
          |apply dict_ext|apply dict_dsec|done].
Qed.

Lemma check_identity_clean :
  clean (check_identity id s (identity_section id (p_code p) (p_name p)) built_sections).
Proof.
  unfold check_identity. eapply clean_lift; [apply OK|].
  apply clean_seq; [by apply clean_expect, py_eq_refl|].
  apply clean_seq; apply clean_expectR.
  - unfold get_is, get, get_default. cbn -[eq_str]. by rewrite eq_str_refl.
  - cbn -[py_eq]. f_equal. by apply py_eq_refl.
Qed.

Lemma check_action_clean : clean (check_action id s built_sections).
Proof.
  unfold check_action. apply clean_seq.
  - apply clean_expectR. cbn [sec_action built_sections].
    destruct (build_action_shape _ _ (ok_action _ _ _ OK)) as
      (? & ? & ? & ? & ? & ? & ? & ? & ? & ? & -> & _).
    cbn -[eq_str]. by rewrite eq_str_refl.
  - eapply clean_lift; [apply OK|]. apply clean_expect, py_eq_refl.
    exact (wf_action id s p OK).
Qed.

Lemma filled_all t :
  In t [hypothesis s; trigger (signal s); direction_semantics (signal s);
        decision_clock (signal s); forecast_horizon (signal s); falsifier (signal s)] ->
  String.eqb t EmptyString = false.
Proof.
  intros Ht. unfold filled_seed in Hfill. rewrite forallb_forall in Hfill.
  by apply negb_true_iff, Hfill.
Qed.

Lemma filled_truthy t :
  In t [hypothesis s; trigger (signal s); direction_semantics (signal s);
        decision_clock (signal s); forecast_horizon (signal s); falsifier (signal s)] ->
  truthy (JStr t) = true.
Proof. intros H. rewrite truthy_str. by rewrite filled_all. Qed.

Lemma check_signal_fields_clean : clean (check_signal_fields id built_sections).
Proof.
  unfold check_signal_fields. apply clean_seq.
  - apply clean_expectR.
    change (andR (Ok (truthy (JStr (hypothesis s))))
              (truthy <$> getitem (hypothesis_section s (p_has_action p)) "falsifiable_statement")
            = Ok true).
    rewrite filled_truthy by (simpl; auto). by destruct (p_has_action p).
  - apply clean_for_each. intros k Hk. apply clean_expectR.
    change (truthy <$> get (signal_dict (signal s)) k = Ok true).
    simpl in Hk. repeat destruct Hk as [<-|Hk]; try done;
      refine (f_equal Ok (filled_truthy _ _)); simpl; auto 10.
Qed.

Lemma check_contracts_clean : clean (check_contracts id s built_sections).
Proof.
  unfold check_contracts. cbn [sec_venue sec_action sec_baseline sec_pnl sec_costs sec_ext
    built_sections]. clean_seqs.
  - apply clean_expectR.
    destruct (venue_for_shape _ _ (ok_venue _ _ _ OK)) as (v & -> & Hv & _).
    cbn -[str_in]. by rewrite Hv.
  - apply clean_expectR.
    destruct (build_action_shape _ _ (ok_action _ _ _ OK)) as
      (? & ? & ? & ? & ? & ? & ? & ? & ? & ? & -> & _). done.
  - eapply clean_lift; [apply OK|]. clean_seqs;
      try (apply clean_expect, py_eq_refl).
    + exact (wf_venue id s p OK).
    + apply wf_baseline.
    + apply pnl_wf.
    + apply costs_wf.
    + eapply clean_lift; [apply OK|]. apply clean_seq.
      * apply clean_expect, py_eq_refl. exact (wf_ext id s p OK).
      * apply clean_expectR. destruct (external_shape _ _ _ (ok_ext _ _ _ OK)) as
          (? & ? & ? & ? & ? & ? & ? & ? & ? & -> & _ & _ & Hd & _).
        cbn -[str_in]. by rewrite Hd.
Qed.

Lemma no_action_ineligible :
  (e ← getitem (p_classification s p) "strategy_eligible"; Ok (negb (truthy e))) = Ok true.
Proof. by rewrite (parts_never_eligible id s p OK). Qed.

Lemma check_no_action_clean :
  non_action (action_profile s) = true -> clean (check_no_action id built_sections).
Proof.
  intros Hn. unfold check_no_action. cbn [sec_venue sec_pnl sec_classification sec_costs built_sections].
  clean_seqs.
  - apply clean_expectR. destruct (venue_for_shape _ _ (ok_venue _ _ _ OK)) as (v & -> & _ & Hv).
    cbn -[String.eqb]. cbn. by rewrite Hv, Hn.
  - apply clean_expectR. by rewrite pnl_shape_none.
  - apply clean_expectR, no_action_ineligible.
  - apply clean_expect. unfold seed_costs. by rewrite costs_none.
Qed.

Lemma check_action_fields_clean k :
  non_action (action_profile s) = false ->
  In k ["signal_to_action_mapping"; "instrument_side"; "order_style"; "price_rule";
        "quantity_rule"; "timing_and_cancel"; "exit_or_settlement"; "kill_conditions";
        "registered_signal_to_action"] ->
  get_truthy (p_action p) k = Ok true.
Proof.
  intros Hn Hk. destruct (build_action_shape _ _ (ok_action _ _ _ OK)) as
    (st & al & m & sd & sy & pr & q & ti & ex & kl & -> & _ & Hal & Ht).
  specialize (Ht Hn). rewrite Hn in Hal. destruct al as [|a al]; [done|].
  cbn [forallb] in Ht. repeat rewrite andb_true_iff in Ht. destruct_and?.
  simpl in Hk. repeat destruct Hk as [<-|Hk]; try done; refine (f_equal Ok _); done.
Qed.

Lemma check_baseline_clean :
  non_action (action_profile s) = false ->
  (b ← getitem (_baseline_for (action_profile s)) "baseline_id"; Ok (negb (is_none b))) = Ok true /\
  andR (andR
    (t ← get (_baseline_for (action_profile s)) "baseline_type"; in_strset t BASELINE_TYPES)
    (get_truthy (_baseline_for (action_profile s)) "policy"))
    (get_truthy (_baseline_for (action_profile s)) "comparability") = Ok true.
Proof.
  intros Hn. destruct (baseline_shape (action_profile s)) as
    (bid & ty & pol & cmp & sec & -> & _ & Hb & _ & Hty & Hp & Hc).
  rewrite Hn in Hb, Hp, Hc. split.
  - refine (f_equal (fun b => Ok (negb b)) Hb).
  - change (andR (andR (in_strset (JStr ty) BASELINE_TYPES) (Ok (truthy pol))) (Ok (truthy cmp)) = Ok true).
    by rewrite in_strset_str, Hty, Hp, Hc.
Qed.

Lemma check_pnl_clean :
  non_action (action_profile s) = false ->
  andR (item_is (_pnl_for (action_profile s)) "basis" "PATHWISE_AFTER_COST")
    (allR (get_truthy (_pnl_for (action_profile s)))
      ["formula"; "incremental_formula"; "markout_rule"; "denominators";
       "zero_fill_treatment"; "capacity_rule"]) = Ok true.
Proof.
  intros Hn. destruct (pnl_shape_action _ Hn) as (_ & d & -> & _ & Hb & Hall).
  apply andR_true. split.
  - unfold item_is, getitem. by rewrite Hb.
  - apply allR_true. intros k Hk.
    rewrite forallb_forall in Hall. specialize (Hall k Hk).
    destruct (assoc k d) as [v|] eqn:E; [|done]. by apply (get_truthy_assoc d k v).
Qed.

Lemma costs_nonempty : non_action (action_profile s) = false -> truthy (JList (seed_costs s)) = true.
Proof.
  intros Hn. unfold seed_costs, _costs_for. unfold non_action, NON_ACTION in Hn. rewrite Hn.
  split_ifs; reflexivity.
Qed.

Lemma py_set_strs l : py_set (map JStr l) = Ok (distinct (map JStr l)).
Proof.
  unfold py_set. assert (forallb hashable (map JStr l) = true) as ->; [|done].
  by induction l.
Qed.

Lemma check_has_action_clean :
  non_action (action_profile s) = false -> clean (check_has_action id built_sections).
Proof.
  intros Hn. unfold check_has_action.
  cbn [sec_venue sec_pnl sec_action sec_baseline sec_blockers sec_costs built_sections].
  destruct (check_baseline_clean Hn) as [Hb1 Hb2].
  clean_seqs.
  - apply clean_for_each. intros k Hk. by apply clean_expectR, check_action_fields_clean.
  - apply clean_expectR. destruct (venue_for_shape _ _ (ok_venue _ _ _ OK)) as (v & -> & _ & Hv).
    cbn. by rewrite Hv, Hn.
  - by apply clean_expectR.
  - by apply clean_expectR.
  - by apply clean_expectR, check_pnl_clean.
  - by apply clean_expect, costs_nonempty.
  - eapply clean_lift; [reflexivity|].
    rewrite check_costs_clean by apply costs_good. cbn [fmap vres_fmap snd].
    eapply clean_step; [reflexivity|]. cbn beta iota.
    destruct (cost_blockers_total (action_profile s) (external_dependency s)) as (cb & Hc & _).
    eapply clean_lift; [apply Hc|]. eapply clean_lift; [reflexivity|].
    eapply clean_lift; [apply py_set_strs|]. apply clean_expect, forallb_forall.
    intros b Hb. apply in_list_blockers. by apply (parts_cost_blockers id s p OK cb).
Qed.

(** The gap contracts name their blockers and leave nothing empty. *)
Definition gap_is_complete (gap : json) : result bool :=
  andR (andR (get_truthy gap "missing_evidence") (get_truthy gap "acquisition_or_build_path"))
       (get_is gap "unknown_value_policy" "BLOCK_NOT_ZERO").

Lemma gaps_name_blockers bs gaps :
  critical bs = true -> mapR (_gap_contract id) bs = Ok gaps ->
  mapR (fun gap => get gap "blocker") gaps = Ok (map JStr bs) /\
  forall gap, In gap gaps -> gap_is_complete gap = Ok true.
Proof.
  revert gaps. induction bs as [|b bs IH]; intros gaps Hc H; simpl in H.
  - apply Ok_inj in H as <-. done.
  - apply andb_true_iff in Hc as [Hb Hbs].
    destruct (gap_contract_shape id b Hb) as (st & m & a & ap & Hg & Hm & Ha).
    rewrite Hg in H. simpl in H. inv_ok. destruct (IH _ Hbs E) as [H1 H2]. split.
    + cbn [mapR map]. rewrite H1. done.
    + intros gap [<-|Hin]; [|auto].
      change (andR (andR (Ok (truthy (JStr m))) (Ok (truthy (JStr a)))) (Ok true) = Ok true).
      by rewrite !truthy_str, Hm, Ha.
Qed.

Lemma blockers_known :
  allR (fun b => in_strset b CRITICAL_BLOCKERS) (map JStr (p_blockers p)) = Ok true.
Proof.
  apply allR_true. intros b (x & <- & Hin)%in_map_iff. rewrite in_strset_str. f_equal.
  pose proof (parts_blockers_critical id s p OK Hx) as Hc. unfold critical in Hc.
  rewrite forallb_forall in Hc. auto.
Qed.

Lemma action_type_truthy :
  get_truthy (p_action p) "action_type" = Ok (p_has_action p) /\
  truthy (strs (p_action_type p)) = p_has_action p.
Proof.
  split; [|unfold p_has_action; by destruct (p_action_type p)].
  destruct (build_action_shape _ _ (ok_action _ _ _ OK)) as
    (st & al & m & sd & sy & pr & q & ti & ex & k & Ha & _).
  pose proof (ok_action_type _ _ _ OK) as Hat. rewrite Ha in *.
  unfold p_has_action. apply Ok_inj in Hat.
  refine (f_equal Ok _). transitivity (truthy (strs (p_action_type p))); [by rewrite <- Hat|].
  by destruct (p_action_type p).
Qed.

Lemma check_derived_clean : clean (check_derived id s built_sections).
Proof.
  unfold check_derived.
  cbn [sec_blockers sec_data sec_classification built_sections].
  eapply clean_lift; [reflexivity|].
  apply clean_seq; [apply clean_expectR, blockers_known|].
  eapply clean_lift; [apply OK|]. eapply clean_lift; [apply OK|].
  eapply clean_lift; [apply OK|]. eapply clean_lift; [apply OK|].
  rewrite (proj2 action_type_truthy).
  eapply clean_lift; [apply (ok_blockers _ _ _ OK)|].
  apply clean_seq; [apply clean_expect, py_eq_refl, wf_strs|].
  eapply clean_lift; [apply OK|]. eapply clean_lift; [apply OK|]. eapply clean_lift; [apply OK|].
  apply clean_seq; [apply clean_expect, py_eq_refl; exact (wf_dsec id s p OK Hx)|].
  destruct (gaps_name_blockers _ _ (parts_blockers_critical id s p OK Hx) (ok_gaps _ _ _ OK))
    as [Hg1 Hg2].
  destruct (parts_dsec id s p OK) as
    (i & ev & cm & sf & fa & se & re & ca & mi & pa & bl & -> & _).
  eapply clean_lift; [reflexivity|]. eapply clean_lift; [reflexivity|].
  apply clean_seq; [apply clean_expectR; rewrite Hg1; exact (f_equal Ok (py_eq_refl _ (wf_strs _)))|].
  apply clean_seq; [by apply clean_expectR, allR_true|].
  eapply clean_lift; [apply OK|]. eapply clean_lift; [apply OK|].
  apply clean_expect, py_eq_refl, wf_classification.
Qed.

Lemma check_external_clean : clean (check_external id (p_has_action p) built_sections).
Proof.
  unfold check_external.
  cbn [sec_ext sec_blockers sec_classification sec_costs built_sections].
  pose proof (parts_required_blocked id s p OK) as Hreq.
  pose proof (parts_required_mapping id s p OK) as Hmap.
  pose proof (parts_has_action id s p OK) as Hha.
  destruct (external_shape _ _ _ (ok_ext _ _ _ OK)) as
    (av & rv & prov & cl & li & hi & mp & pp & bl & -> & _ & _ & _ & Hr & Ho).
  apply (clean_lift _ (JStr (external_dependency s))); [reflexivity|]. apply clean_seq.
  - destruct (eq_str (JStr (external_dependency s)) "REQUIRED") eqn:E; [|done].
    apply String.eqb_eq in E. destruct (Hr E) as (-> & -> & Hv & _).
    clean_seqs.
    + by apply clean_expectR.
    + apply clean_expectR. rewrite contains_strs. f_equal. by apply str_in_spec, Hreq.
    + apply clean_expectR, no_action_ineligible.
    + apply clean_expectR.
      change (contains mapping_variable (strs rv) = Ok true).
      rewrite contains_strs. f_equal. by apply str_in_spec.
    + rewrite Hha. destruct (non_action (action_profile s)) eqn:Hn; cbn [negb]; [done|].
      apply clean_seq.
      * apply clean_expectR. rewrite contains_strs. f_equal. by apply str_in_spec, Hmap.
      * eapply clean_lift; [reflexivity|]. apply clean_expectR. unfold seed_costs.
        rewrite E. by apply costs_data_api.
  - destruct (eq_str (JStr (external_dependency s)) "OPTIONAL_REFINEMENT") eqn:E; [|done].
    apply String.eqb_eq in E. destruct (Ho E) as (-> & -> & ->). by apply clean_expectR.
Qed.

Lemma check_dates_clean : clean (check_dates id s built_sections).
Proof.
  unfold check_dates. cbn [sec_data sec_blockers built_sections].
  destruct (parts_dsec id s p OK) as
    (i & ev & cm & sf & fa & se & re & ca & mi & pa & bl & -> & _).
  eapply clean_lift; [reflexivity|]. eapply clean_lift; [reflexivity|].
  apply clean_seq.
  { apply clean_expectR. refine (f_equal Ok (py_eq_refl _ _)). by apply wf_study_dates. }
  apply clean_seq.
  { destruct (eq_str (JStr (closed_event (p_blockers p) ev)) "YES") eqn:E; [done|].
    apply clean_expectR. unfold data_sec_dict.
    change (Ok (negb (truthy (if eq_str (JStr (closed_event (p_blockers p) ev)) "YES"
       then strs (if str_in (data_profile s) ["L2"; "L1_L2"; "FAMILY"; "MVE_PRIVATE"; "OWNER_EVPI"]
                  then L2_ESTIMATOR_CLEAN_DATES else AVAILABLE_RELEASE_DATES)
       else JList []))) = Ok true). by rewrite E. }
  eapply clean_lift; [apply contains_strs|].
  unfold closed_event. destruct (str_in "MISSING_SIGNAL_INPUT" (p_blockers p)); done.
Qed.

Lemma check_result_clean : clean (check_result id s built_sections).
Proof.
  unfold check_result. cbn [sec_card built_sections].
  pose proof (ok_result _ _ _ OK) as Hres. pose proof (wf_observed id) as Hwo.
  assert (getitem (card_of id s p) "current_result" = Ok (p_result p)) as -> by reflexivity.
  destruct (observed_shape id) as (st & v & src & Ho & _).
  rewrite Ho in Hres. apply Ok_inj in Hres. rewrite <- Hres.
  clean_seqs.
  - apply clean_expectR. rewrite Ho in *. exact (f_equal Ok (py_eq_refl _ Hwo)).
  - apply clean_expectR.
    change (andR (Ok (eq_str (JStr (result_status s)) (result_status s)))
                 (Ok (eq_str (JStr (claim_tier s)) (claim_tier s))) = Ok true).
    by rewrite !eq_str_refl.
  - by apply clean_expectR.
  - eapply clean_lift; [by apply build_card_intro|].
    apply clean_expect, py_eq_refl. exact (wf_card id s p OK Hx).
Qed.

Lemma check_seeded_clean :
  clean (check_seeded id s (identity_section id (p_code p) (p_name p)) built_sections).
Proof.
  unfold check_seeded. apply clean_seq; [apply check_types_clean|].
  rewrite sections_typed_built. cbn [negb].
  apply clean_seq; [apply check_identity_clean|].
  apply clean_seq; [apply check_action_clean|].
  eapply clean_lift; [apply (proj1 action_type_truthy)|].
  apply clean_seq; [apply check_signal_fields_clean|].
  apply clean_seq; [apply check_contracts_clean|].
  apply clean_seq.
  { rewrite (parts_has_action id s p OK). destruct (non_action (action_profile s)) eqn:Hn.
    - by apply check_no_action_clean.
    - by apply check_has_action_clean. }
  apply clean_seq; [apply check_derived_clean|].
  apply clean_seq; [apply check_external_clean|].
  apply clean_seq; [apply check_dates_clean|apply check_result_clean].
Qed.

Lemma check_card_clean seeds :
  assoc id seeds = Some s ->
  clean (check_card seeds (JStr id) (identity_section id (p_code p) (p_name p)) (card_of id s p)).
Proof.
  intros Hs. unfold check_card.
  apply (clean_lift _ (JStr (_sha256 (JObj (card_body id s p))))); [reflexivity|].
  apply (clean_lift _ (JObj (card_body id s p))); [reflexivity|].
  apply clean_seq; [apply clean_expect, eq_str_refl|].
  eapply clean_lift; [reflexivity|]. cbn beta zeta.
  match goal with |- clean (_ ← _expect ?b _; _) => assert (b = true) as -> by reflexivity end.
  cbn [negb]. apply clean_seq; [done|].
  apply (clean_lift _ (Some s)); [unfold table_get; simpl; by rewrite Hs|].
  cbn beta iota. eapply clean_lift; [apply get_sections_built|]. apply check_seeded_clean.
Qed.
End Accepts.
