(* ===== verification/RegistryFacts.v ===== *)
(** * The registry as a whole

    [build_registry] always succeeds on the registered seeds, with 106 cards in
    authority order, and [validate_registry] finds on it exactly what the files
    of the repository get wrong. *)

From stdpp Require Import base list strings numbers.
From Stdlib Require Import ZArith Lia Bool Ascii.
From S2P Require Import Prelude PyJson Sha256 JsonText RegistryTables ActionProfiles.
From S2P Require Import DataProfiles Seeds Builder Validator BuilderFacts ValidatorFacts.

(** The card the registry has for a seed, with the parts it is made of. *)
Definition built_from (id : string) (card : json) : Prop :=
  exists s p, assoc id seed_table = Some s /\ known_seed s = true /\ filled_seed s = true /\
    parts_ok id s p /\ card = card_of id s p.

(** What the summary counts of a card: family, computed class, target class. *)
Definition card_row (id : string) : result (string * string * string) :=
  s ← seed_at seed_table id;
  data0 ← _data_profile (data_profile s);
  ext ← _external_contract (external_dependency s) id;
  bs ← _expected_blockers s data0 ext (seed_costs s) (negb (non_action (action_profile s)));
  fam ← family_of id;
  Ok (fst fam,
      match bs with
      | [] => base_class_of (target_class s) (action_profile s)
      | _ => "BLOCKED"
      end,
      target_class s).

Definition count_row (acc : list (json * Z) * list (json * Z) * list (json * Z))
    (row : string * string * string) : list (json * Z) * list (json * Z) * list (json * Z) :=
  let '(f, c, t) := acc in
  let '(family, computed, target) := row in
  (count_key (JStr family) f, count_key (JStr computed) c, count_key (JStr target) t).

(** The summary of the registry of the 106 seeds. *)
Definition registry_summary : summary :=
  Summary 106
    (map (fun kv => (JStr (fst kv), snd kv)) expected_family_counts)
    [(JStr "BLOCKED", 105%Z); (JStr "RESEARCH_QUESTION", 1%Z)]
    [(JStr "EXECUTABLE_STRATEGY", 80%Z); (JStr "RESEARCH_QUESTION", 12%Z); (JStr "SIGNAL", 14%Z)]
    0.

(** * Lemmas *)

(** ** The seeds *)

Lemma load_card_seeds : _load_card_seeds = Ok seed_table.
Proof.
  unfold _load_card_seeds, import_seeds.
  rewrite register_all_spec; [|apply nodupb_spec, registrations_nodup].
  cbn [mbind result_bind app]. fold seed_table. by rewrite validate_seed_table.
Qed.

Lemma atomic_seeds_ok :
  forallb (fun id => match assoc id seed_table with
                     | Some s => known_seed s && filled_seed s && is_ok (family_of id)
                     | None => false
                     end) ATOMIC_IDS = true.
Proof. vm_compute. reflexivity. Qed.

Lemma atomic_seed id :
  In id ATOMIC_IDS ->
  exists s, assoc id seed_table = Some s /\ known_seed s = true /\ filled_seed s = true /\
    is_ok (family_of id) = true.
Proof.
  intros Hin. pose proof atomic_seeds_ok as H. rewrite forallb_forall in H. specialize (H _ Hin).
  destruct (assoc id seed_table) as [s|]; [|done]. exists s.
  apply andb_true_iff in H as [H ?]. apply andb_true_iff in H as [? ?]. done.
Qed.

Lemma known_critical s : known_seed s = true -> critical (extra_blockers s) = true.
Proof. unfold known_seed. by intros [_ H]%andb_true_iff. Qed.

Lemma atomic_nodup : List.NoDup ATOMIC_IDS.
Proof. apply nodupb_spec. vm_compute. reflexivity. Qed.

(** ** The cards *)

Definition build_at (id : string) : result json := s ← seed_at seed_table id; _build_card id s.

Lemma build_at_ok id : In id ATOMIC_IDS -> exists card, build_at id = Ok card /\ built_from id card.
Proof.
  intros (s & Hs & Hk & Hf & Hfam)%atomic_seed. destruct (parts_exist id s Hk Hfam) as [p OK].
  exists (card_of id s p). split.
  - unfold build_at, seed_at. rewrite Hs. by apply build_card_intro.
  - by exists s, p.
Qed.

Lemma cards_of ids :
  (forall id, In id ids -> In id ATOMIC_IDS) ->
  exists cards, mapR build_at ids = Ok cards /\ Forall2 built_from ids cards.
Proof.
  induction ids as [|id ids IH]; intros Hin; simpl; [by exists []|].
  destruct (build_at_ok id) as (card & -> & Hc); [apply Hin; by left|].
  destruct IH as (cards & -> & Hcs); [intros; apply Hin; by right|].
  exists (card :: cards). by split; [|constructor].
Qed.

Lemma built_cards : exists cards, mapR build_at ATOMIC_IDS = Ok cards /\ Forall2 built_from ATOMIC_IDS cards.
Proof. by apply cards_of. Qed.

(** ** The summary *)

Lemma card_row_built id card :
  built_from id card ->
  exists f c t, card_row id = Ok (f, c, t) /\
    (identity ← getitem card "identity"; getitem identity "family_code") = Ok (JStr f) /\
    (cl ← getitem card "classification"; getitem cl "computed_class") = Ok (JStr c) /\
    (cl ← getitem card "classification"; getitem cl "target_class") = Ok (JStr t) /\
    (cl ← getitem card "classification"; getitem cl "strategy_eligible") = Ok (JBool false).
Proof.
  intros (s & p & Hs & Hk & Hf & OK & ->). unfold card_row, seed_at. rewrite Hs.
  cbn [or_raise mbind result_bind].
  rewrite (ok_data0 _ _ _ OK); cbn [mbind result_bind].
  rewrite (ok_ext _ _ _ OK); cbn [mbind result_bind].
  rewrite <- (parts_has_action id s p OK), (ok_blockers _ _ _ OK); cbn [mbind result_bind].
  rewrite (ok_family _ _ _ OK); cbn [mbind result_bind fst].
  do 3 eexists. split; [reflexivity|]. split; [reflexivity|].
  rewrite <- (parts_base id s p OK).
  change (getitem (card_of id s p) "classification") with (Ok (p_classification s p)).
  cbn [mbind result_bind]. rewrite (parts_never_eligible id s p OK).
  unfold p_classification, _classification. by destruct (p_blockers p).
Qed.

Lemma count_cards_built ids cards f c t :
  Forall2 built_from ids cards ->
  exists rows, mapR card_row ids = Ok rows /\
    count_cards cards f c t = Ok (fold_left count_row rows (f, c, t)).
Proof.
  intros H. revert f c t.
  induction H as [|id card ids cards Hb _ IH]; intros f c t; [by exists []|].
  destruct (card_row_built id card Hb) as (fa & co & ta & Hrow & Hfa & Hco & Hta & _).
  cbn [mapR count_cards]. rewrite Hrow. cbn [mbind result_bind].
  destruct (IH (count_key (JStr fa) f) (count_key (JStr co) c) (count_key (JStr ta) t))
    as (rows & -> & Hrows).
  exists ((fa, co, ta) :: rows). split; [done|].
  apply bind_ok in Hfa as (i & Hi & Hfa). apply bind_ok in Hco as (cl & Hcl & Hco).
  rewrite Hcl in Hta. cbn [mbind result_bind] in Hta.
  rewrite Hi, Hcl. cbn [mbind result_bind]. rewrite Hfa, Hco, Hta. done.
Qed.

Lemma sum_eligible_built ids cards acc :
  Forall2 built_from ids cards -> sum_eligible_of cards acc = Ok acc.
Proof.
  intros H. revert acc. induction H as [|id card ids cards Hb _ IH]; intros acc; [done|].
  destruct (card_row_built id card Hb) as (fa & co & ta & _ & _ & _ & _ & He).
  apply bind_ok in He as (cl & Hcl & He). cbn [sum_eligible_of]. rewrite Hcl.
  cbn [mbind result_bind]. rewrite He. cbn. rewrite Z.add_0_r. apply IH.
Qed.

Lemma rows_counted :
  (rows ← mapR card_row ATOMIC_IDS; Ok (fold_left count_row rows ([], [], [])))
  = Ok (sum_family registry_summary, sum_class registry_summary, sum_target registry_summary).
Proof. vm_compute. reflexivity. Qed.

Lemma summary_built cards :
  Forall2 built_from ATOMIC_IDS cards -> _summary_for_cards cards = Ok registry_summary.
Proof.
  intros H. unfold _summary_for_cards.
  destruct (count_cards_built ATOMIC_IDS cards [] [] [] H) as (rows & Hrows & ->).
  pose proof rows_counted as Hc. rewrite Hrows in Hc. cbn [mbind result_bind] in Hc |- *.
  apply Ok_inj in Hc. rewrite Hc. rewrite (sum_eligible_built _ _ _ H).
  cbn [mbind result_bind]. rewrite <- (Forall2_length H). reflexivity.
Qed.

(** ** The registry *)

Definition registry_body (cards : list json) : list (string * json) := [
  "schema_version" ~> JStr SCHEMA_VERSION;
  "registry_id" ~> JStr REGISTRY_ID;
  "generated_by" ~> JStr "tools/experiment_registry.py";
  "scope" ~> scope_section;
  "source_bindings" ~> JList SOURCE_BINDINGS;
  "classification_contract" ~> classification_contract;
  "pnl_contract" ~> pnl_contract;
  "external_source_catalog" ~> EXTERNAL_SOURCE_CATALOG;
  "summary" ~> default JNull (summary_json registry_summary);
  "experiments" ~> JList cards
].

Definition registry_of (cards : list json) : json :=
  JObj (registry_body cards ++
        ["registry_sha256" ~> JStr (_sha256 (JObj (registry_body cards)))]).

Lemma seed_ids_match : same_set (keys seed_table) ATOMIC_IDS = true.
Proof. vm_compute. reflexivity. Qed.

Lemma seed_pairs_distinct :
  (pairs ← mapR (fun id => s ← seed_at seed_table id; Ok (hypothesis s, trigger (signal s)))
             ATOMIC_IDS;
   guard (nodup_pairs pairs) "duplicate hypothesis/signal seed pair") = Ok tt.
Proof. vm_compute. reflexivity. Qed.

(** [build_registry] succeeds, with one card per authority ID in its order. *)
Lemma build_registry_ok :
  exists cards, build_registry = Ok (registry_of cards) /\ Forall2 built_from ATOMIC_IDS cards.
Proof.
  destruct built_cards as (cards & Hc & Hb). exists cards. split; [|done].
  unfold build_registry. rewrite load_card_seeds. cbn [mbind result_bind].
  rewrite seed_ids_match. cbn [guard].
  pose proof seed_pairs_distinct as Hp. apply bind_ok in Hp as (pairs & Hp & Hg).
  cbn [mbind result_bind]. rewrite Hp. cbn [mbind result_bind]. rewrite Hg.
  cbn [mbind result_bind]. fold build_at. rewrite Hc. cbn [mbind result_bind].
  rewrite (summary_built _ Hb). cbn [mbind result_bind]. reflexivity.
Qed.

(** ** The registry passes every check that does not read files *)

Lemma card_ids_built ids cards :
  Forall2 built_from ids cards -> card_ids cards = Ok (map JStr ids).
Proof.
  intros H. induction H as [|id card ids cards Hb _ IH]; [done|].
  destruct Hb as (s & p & _ & _ & _ & _ & ->). cbn [card_ids]. rewrite IH. reflexivity.
Qed.

Lemma distinct_nodup l : List.NoDup l -> distinct (map JStr l) = map JStr l.
Proof.
  induction 1 as [|x l Hni _ IH]; [done|]. cbn [map distinct].
  rewrite in_list_strs. destruct (str_in x l) eqn:E; [by apply str_in_spec in E|]. by rewrite IH.
Qed.

Lemma check_ids_built cards : Forall2 built_from ATOMIC_IDS cards -> clean (check_ids cards).
Proof.
  intros H. unfold check_ids. eapply clean_lift; [by apply card_ids_built|].
  rewrite <- (Forall2_length H).
  apply clean_seq; [done|]. apply clean_seq; [apply clean_expect, py_eq_refl, wf_strs|].
  eapply clean_lift; [apply py_set_strs|]. rewrite distinct_nodup by apply atomic_nodup.
  apply clean_expect, Nat.eqb_refl.
Qed.

Definition count_family (f : list (json * Z)) (row : string * string * string) : list (json * Z) :=
  count_key (JStr (fst (fst row))) f.

Lemma count_row_family rows f c t :
  fst (fst (fold_left count_row rows (f, c, t))) = fold_left count_family rows f.
Proof.
  revert f c t. induction rows as [|[[fa co] ta] rows IH]; intros f c t; [done|]. apply IH.
Qed.

Lemma card_step_built id card f :
  built_from id card ->
  exists row, card_row id = Ok row /\ card_step seed_table f card = VOk [] (count_family f row).
Proof.
  intros Hb. destruct (card_row_built id card Hb) as (fa & co & ta & Hrow & Hfa & _).
  exists (fa, co, ta). split; [done|]. destruct Hb as (s & p & Hs & Hk & Hf & OK & ->).
  assert (p_code p = fa) as Hcode by by apply Ok_inj in Hfa; injection Hfa.
  unfold card_step. change (is_dict (card_of id s p)) with true. cbn [negb].
  apply vbind_ok. exists (identity_section id (p_code p) (p_name p)). split; [reflexivity|].
  apply vbind_ok. exists (JStr id). split; [reflexivity|].
  apply vbind_ok. exists (JStr (p_code p)). split; [reflexivity|].
  apply vbind_ok. exists (count_key (JStr (p_code p)) f). split; [reflexivity|].
  apply vbind_ok. exists tt. subst fa. split; [|done].
  exact (check_card_clean id s p OK (known_critical s Hk) Hf seed_table Hs).
Qed.

Lemma card_steps_built ids cards f :
  Forall2 built_from ids cards ->
  exists rows, mapR card_row ids = Ok rows /\
    for_fold (card_step seed_table) cards f = VOk [] (fold_left count_family rows f).
Proof.
  intros H. revert f. induction H as [|id card ids cards Hb _ IH]; intros f; [by exists []|].
  destruct (card_step_built id card f Hb) as (row & Hrow & Hstep).
  destruct (IH (count_family f row)) as (rows & Hrows & Hfold).
  exists (row :: rows). cbn [mapR for_fold]. rewrite Hrow, Hrows, Hstep. split; [done|].
  cbn [mbind vres_bind]. by rewrite Hfold.
Qed.

Lemma families_counted cards :
  Forall2 built_from ATOMIC_IDS cards ->
  for_fold (card_step seed_table) cards [] = VOk [] (sum_family registry_summary).
Proof.
  intros H. destruct (card_steps_built ATOMIC_IDS cards [] H) as (rows & Hrows & ->).
  pose proof rows_counted as Hc. rewrite Hrows in Hc. apply Ok_inj in Hc.
  by rewrite <- (count_row_family rows [] [] []), Hc.
Qed.

(** *** Cross-card rules *)

Definition indexed (by_id : list (json * json)) : Prop :=
  forall id card, dict_get (JStr id) by_id = Some card -> built_from id card.

Lemma dict_get_put k v k' d :
  (forall x, In x (map fst d) -> exists s, x = JStr s) ->
  dict_get (JStr k') (dict_put (JStr k) v d) =
  if String.eqb k' k then Some v else dict_get (JStr k') d.
Proof.
  induction d as [|[x w] d IH]; intros Hs; [done|].
  destruct (Hs x) as [y ->]; [by left|]. cbn [dict_put]. simpl (py_eq (JStr k) (JStr y)).
  destruct (String.eqb_spec k y) as [->|Hne]; cbn [dict_get].
  - simpl. by destruct (String.eqb k' y).
  - simpl. destruct (String.eqb_spec k' y) as [->|_].
    + destruct (String.eqb_spec y k); [congruence|done].
    + apply IH. intros z Hz. apply Hs. by right.
Qed.

Lemma dict_put_keys k v d :
  (forall x, In x (map fst d) -> exists s, x = JStr s) ->
  forall x, In x (map fst (dict_put (JStr k) v d)) -> exists s, x = JStr s.
Proof.
  induction d as [|[x w] d IH]; intros Hs y; cbn [dict_put].
  - intros [<-|[]]. eauto.
  - destruct (py_eq (JStr k) x); intros [<-|Hy]; try (apply Hs; by left).
    + apply Hs. by right.
    + apply IH; [|done]. intros z Hz. apply Hs. by right.
Qed.

Lemma index_cards_built ids cards d :
  Forall2 built_from ids cards -> indexed d ->
  (forall x, In x (map fst d) -> exists s, x = JStr s) ->
  exists by_id, index_cards cards d = Ok by_id /\ indexed by_id.
Proof.
  intros H. revert d. induction H as [|id card ids cards Hb _ IH]; intros d Hd Hs; [by exists d|].
  assert (index_cards (card :: cards) d = index_cards cards (dict_put (JStr id) card d)) as ->.
  { destruct Hb as (s & p & _ & _ & _ & _ & ->). reflexivity. }
  apply IH; [|by apply dict_put_keys].
  intros id' card'. rewrite dict_get_put by done.
  destruct (String.eqb_spec id' id) as [->|_]; [by intros [= <-]|apply Hd].
Qed.

(** A rule about one card follows from a fact about its seed. *)
Lemma when_card_built by_id id (k : json -> vres unit) (P : seed -> bool) :
  indexed by_id ->
  match assoc id seed_table with Some s => P s | None => true end = true ->
  (forall s p, P s = true -> parts_ok id s p -> clean (k (card_of id s p))) ->
  clean (when_card by_id id k).
Proof.
  intros Hi HP Hk. unfold when_card. destruct (dict_get (JStr id) by_id) as [card|] eqn:E; [|done].
  destruct (Hi _ _ E) as (s & p & Hs & _ & _ & OK & ->). rewrite Hs in HP. auto.
Qed.

Definition unsigned_seed (s : seed) : bool :=
  let d := upper (direction_semantics (signal s)) in substr "UNSIGNED" d || substr "NO_DIRECTION" d.

Lemma check_unsigned_built by_id :
  indexed by_id ->
  clean (for_each (check_unsigned by_id)
    ["D01-RFQ-FLOW-CENSUS"; "D04-RFQ-COMBO-DEMAND-LEG-PRESSURE"; "D06-RFQ-DIRECTION-VOL-SIGNAL"]).
Proof.
  intros Hi. apply clean_for_each. intros id Hid. apply (when_card_built _ _ _ unsigned_seed Hi).
  - repeat destruct Hid as [<-|Hid]; [vm_compute; reflexivity..|done].
  - intros s p HP OK. eapply clean_lift; [reflexivity|]. by apply clean_expect.
Qed.

Definition is_true (r : result bool) : bool := match r with Ok b => b | Raise _ => false end.

Lemma is_true_ok r : is_true r = true -> r = Ok true.
Proof. by destruct r as [[]|]. Qed.

Definition guard_seed (s : seed) : bool :=
  match build_action s with
  | Ok action =>
      is_true (andR (andR
        (item_is action "profile_id" "RFQ_GUARD")
        (item_is action "instrument_side" "BOTH_RELATED_CLOB_SIDES_PUBLIC_UNSIGNED"))
        (t ← getitem action "action_type"; Ok (py_eq t (strs ["CANCEL"; "REPRICE"; "RESIZE"])))) &&
      forallb (fun token => negb (substr token (upper (_canonical_json action)))) directional_tokens
  | Raise _ => false
  end.

Lemma check_rfq_guard_built by_id :
  indexed by_id ->
  clean (for_each (check_rfq_guard by_id)
    ["D02-RFQ-SIZE-INTENT"; "D03-RFQ-LIFECYCLE-SURVIVAL"; "D05-RFQ-REQUESTER-HASH";
     "D07-RFQ-TO-CLOB-IMPACT"]).
Proof.
  intros Hi. apply clean_for_each. intros id Hid. apply (when_card_built _ _ _ guard_seed Hi).
  - repeat destruct Hid as [<-|Hid]; [vm_compute; reflexivity..|done].
  - intros s p HP OK. unfold guard_seed in HP. rewrite (ok_action _ _ _ OK) in HP.
    apply andb_true_iff in HP as [H1 H2].
    apply (clean_lift _ (p_action p)); [reflexivity|]. apply clean_seq.
    + by apply clean_expectR, is_true_ok.
    + by apply clean_expect.
Qed.

(** What the remaining rules read of a card. *)
Lemma action_reads id s p :
  parts_ok id s p ->
  item_is (p_action p) "profile_id" (action_profile s) = Ok true /\
  (t ← getitem (p_action p) "action_type"; Ok (negb (truthy t)))
    = Ok (non_action (action_profile s)).
Proof.
  intros OK. pose proof (parts_has_action id s p OK) as Hh.
  rewrite (ok_action_type _ _ _ OK). destruct (build_action_shape _ _ (ok_action _ _ _ OK)) as
    (st & al & m & sd & sy & pr & q & ti & ex & k & -> & _). split.
  - refine (f_equal Ok (eq_str_refl _)).
  - cbn [mbind result_bind]. rewrite (proj2 (action_type_truthy id s p OK)), Hh.
    by rewrite negb_involutive.
Qed.

Lemma data_reads id s p :
  parts_ok id s p -> item_is (p_dsec p) "profile_id" (data_profile s) = Ok true.
Proof.
  intros OK. destruct (parts_dsec id s p OK) as (? & ? & ? & ? & ? & ? & ? & ? & ? & ? & ? & -> & _).
  refine (f_equal Ok (eq_str_refl _)).
Qed.

(** The blockers of a seed, computed from the tables alone. *)
Definition blockers_of (id : string) (s : seed) : list string :=
  match (data0 ← _data_profile (data_profile s);
         ext ← _external_contract (external_dependency s) id;
         _expected_blockers s data0 ext (seed_costs s) (negb (non_action (action_profile s)))) with
  | Ok bs => bs
  | Raise _ => []
  end.

Lemma blockers_of_ok id s p : parts_ok id s p -> blockers_of id s = p_blockers p.
Proof.
  intros OK. unfold blockers_of. rewrite (ok_data0 _ _ _ OK); cbn [mbind result_bind].
  rewrite (ok_ext _ _ _ OK); cbn [mbind result_bind].
  by rewrite <- (parts_has_action id s p OK), (ok_blockers _ _ _ OK).
Qed.

Definition d06_seed (s : seed) : bool :=
  String.eqb (data_profile s) "RFQ_PRIVATE" && non_action (action_profile s).

Lemma check_d06_built by_id : indexed by_id -> clean (check_d06 by_id).
Proof.
  intros Hi. apply (when_card_built _ _ _ d06_seed Hi); [vm_compute; reflexivity|].
  intros s p [Hd%String.eqb_eq Hn]%andb_true_iff OK. apply clean_expectR, andR_true. split.
  - pose proof (data_reads _ s p OK) as Hr. rewrite Hd in Hr. exact Hr.
  - pose proof (proj2 (action_reads _ s p OK)) as Hr. rewrite Hn in Hr. exact Hr.
Qed.

Lemma check_child_built id card : built_from id card -> clean (check_child card).
Proof.
  intros (s & p & _ & _ & _ & OK & ->). unfold check_child.
  change (is_dict (card_of id s p)) with true. cbn [negb].
  apply (clean_lift _ (p_action p)); [reflexivity|].
  apply (clean_lift _ (JStr (action_profile s))).
  { destruct (build_action_shape _ _ (ok_action _ _ _ OK)) as
      (st & al & m & sd & sy & pr & q & ti & ex & k & -> & _). reflexivity. }
  eapply clean_lift; [apply in_strset_str|].
  destruct (str_in (action_profile s) CHILD_DEPENDENT_ACTION_PROFILES) eqn:E; [|done].
  apply (clean_lift _ (strs (p_blockers p))); [reflexivity|].
  eapply clean_lift; [apply contains_strs|].
  eapply clean_lift; [reflexivity|]. eapply clean_lift; [reflexivity|].
  apply clean_expect, str_in_spec, (parts_child_blocked id s p OK E).
Qed.

Definition e01_seed (s : seed) : bool :=
  String.eqb (action_profile s) "CONTROL_ONLY" && non_action (action_profile s) &&
  substr "never triggers an order" (direction_semantics (signal s)).

Lemma check_e01_built by_id : indexed by_id -> clean (check_e01 by_id).
Proof.
  intros Hi. apply (when_card_built _ _ _ e01_seed Hi); [vm_compute; reflexivity|].
  intros s p [[Hd%String.eqb_eq Hn]%andb_true_iff Hs]%andb_true_iff OK.
  apply clean_expectR, andR_true. split; [apply andR_true; split|].
  - pose proof (proj1 (action_reads _ s p OK)) as Hr. rewrite Hd in Hr. exact Hr.
  - pose proof (proj2 (action_reads _ s p OK)) as Hr. rewrite Hn in Hr. exact Hr.
  - refine (f_equal Ok Hs).
Qed.

Definition d09_seed (s : seed) : bool :=
  is_true (v ← _venue_for (action_profile s); item_is v "execution_venue" "NONE") &&
  negb (str_in "VENUE_PERMISSION_MISSING" (blockers_of "D09-MVE-CATALOG-SCHEMA" s)).

Lemma check_d09_built by_id : indexed by_id -> clean (check_d09 by_id).
Proof.
  intros Hi. apply (when_card_built _ _ _ d09_seed Hi); [vm_compute; reflexivity|].
  intros s p [Hv%is_true_ok Hb]%andb_true_iff OK. rewrite (ok_venue _ _ _ OK) in Hv.
  rewrite (blockers_of_ok _ _ _ OK) in Hb.
  apply clean_expectR, andR_true. split; [exact Hv|].
  change (negb <$> contains "VENUE_PERMISSION_MISSING" (strs (p_blockers p)) = Ok true).
  rewrite contains_strs. exact (f_equal Ok Hb).
Qed.

Definition d10_seed (s : seed) : bool :=
  String.eqb (action_profile s) "MVE_DIRECT" && String.eqb (data_profile s) "MVE_PRIVATE" &&
  is_true (v ← _venue_for (action_profile s);
           item_is v "execution_venue" "KALSHI_MVE_PRIVATE_EXECUTION") &&
  negb (str_in "RFQ_PUBLIC_DATA_UNRELEASED" (blockers_of "D10-MVE-DIRECT-TRADING" s)).

Lemma check_d10_built by_id : indexed by_id -> clean (check_d10 by_id).
Proof.
  intros Hi. apply (when_card_built _ _ _ d10_seed Hi); [vm_compute; reflexivity|].
  intros s p H OK. unfold d10_seed in H. rewrite !andb_true_iff in H.
  destruct H as [[[Ha%String.eqb_eq Hd%String.eqb_eq] Hv%is_true_ok] Hb].
  rewrite (ok_venue _ _ _ OK) in Hv. rewrite (blockers_of_ok _ _ _ OK) in Hb.
  apply clean_expectR, andR_true. split; [apply andR_true; split; [apply andR_true; split|]|].
  - pose proof (proj1 (action_reads _ s p OK)) as Hr. rewrite Ha in Hr. exact Hr.
  - pose proof (data_reads _ s p OK) as Hr. rewrite Hd in Hr. exact Hr.
  - exact Hv.
  - change (negb <$> contains "RFQ_PUBLIC_DATA_UNRELEASED" (strs (p_blockers p)) = Ok true).
    rewrite contains_strs. exact (f_equal Ok Hb).
Qed.

Lemma check_cross_built ids cards : Forall2 built_from ids cards -> clean (check_cross cards).
Proof.
  intros H. unfold check_cross.
  destruct (index_cards_built ids cards [] H) as (by_id & Hi & Hix); [done..|].
  eapply clean_lift; [exact Hi|].
  apply clean_seq; [by apply check_unsigned_built|].
  apply clean_seq; [by apply check_rfq_guard_built|].
  apply clean_seq; [by apply check_d06_built|].
  apply clean_seq.
  { apply clean_for_each. intros card Hin. clear -H Hin.
    induction H as [|id c ids cards Hb _ IH]; [done|].
    destruct Hin as [<-|Hin]; [by eapply check_child_built|auto]. }
  apply clean_seq; [by apply check_e01_built|].
  apply clean_seq; [by apply check_d09_built|by apply check_d10_built].
Qed.

Lemma check_experiments_built cards :
  Forall2 built_from ATOMIC_IDS cards -> clean (check_experiments cards).
Proof.
  intros H. unfold check_experiments. apply clean_seq; [by apply check_ids_built|].
  eapply clean_lift; [apply load_card_seeds|].
  eapply clean_step; [by apply families_counted|].
  apply clean_seq; [done|]. by eapply check_cross_built.
Qed.

Lemma check_tail_built cards :
  Forall2 built_from ATOMIC_IDS cards -> clean (check_tail (registry_of cards) cards).
Proof.
  intros H. unfold check_tail. eapply clean_lift; [reflexivity|].
  eapply clean_lift; [by apply summary_built|]. apply clean_seq; [done|].
  apply (clean_lift _ (JStr (_sha256 (JObj (registry_body cards))))); [reflexivity|].
  apply (clean_lift _ (JObj (registry_body cards))); [reflexivity|].
  apply clean_expect, eq_str_refl.
Qed.

(** ** The whole validation *)

Section Files.
Context (ROOT : list string) (file_at : list string -> option file) (exc_text : exn -> string).

Lemma bind_clean {B} (m : vres unit) (k : unit -> vres B) : clean m -> (m ≫= k) = k tt.
Proof. intros ->. simpl. by destruct (k tt). Qed.

Lemma bind_then_clean (m k : vres unit) : clean k -> (_ ← m; k) = m.
Proof. intros ->. destruct m as [errs []|e]; simpl; [|done]. by rewrite app_nil_r. Qed.

Lemma bind_lift_ok {A B} (r : result A) a (k : A -> vres B) : r = Ok a -> (lift r ≫= k) = k a.
Proof. intros ->. simpl. by destruct (k a). Qed.

(** On a built registry, only the files can be wrong. *)
Lemma validate_built cards :
  Forall2 built_from ATOMIC_IDS cards ->
  validate ROOT file_at exc_text (registry_of cards)
  = check_source_bindings ROOT file_at exc_text (JList SOURCE_BINDINGS).
Proof.
  intros H. unfold validate.
  rewrite bind_clean by (by apply clean_expectR).
  rewrite bind_clean by (by apply clean_expectR).
  rewrite (bind_lift_ok _ scope_section) by reflexivity.
  rewrite bind_clean by reflexivity.
  rewrite (bind_lift_ok _ (JList SOURCE_BINDINGS)) by reflexivity.
  apply bind_then_clean.
  apply clean_seq; [by apply clean_expectR|].
  apply (clean_lift _ (JList cards)); [reflexivity|]. apply clean_seq; [done|].
  apply clean_seq; [by apply check_experiments_built|by apply check_tail_built].
Qed.

(** What the two file checks ask of the repository. *)
Definition source_binding (role path sha note : string) : json := obj [
  "role" ~> JStr role; "path" ~> JStr path; "sha256" ~> JStr sha;
  "local_required" ~> JBool true; "note" ~> JStr note].

Definition has_sha (path : list string) (sha : string) : Prop :=
  exists content, file_at path = Some (Bytes content) /\ sha256_hex content = sha.

Definition authority_lists_ids (path : list string) : Prop :=
  exists authority ids l, load_json file_at path = Ok authority /\
    get_default authority "atomic_ids" (JList []) = Ok ids /\ as_list ids = Ok l /\
    py_eq (JList l) (strs ATOMIC_IDS) = true /\
    get_is authority "source_document_sha256" AUTHORITY_DOCUMENT_SHA = Ok true.

Lemma is_under_app root path : is_under root (root ++ path) = true.
Proof. induction root as [|a root IH]; [done|]. simpl. by rewrite String.eqb_refl. Qed.

Lemma check_binding_iff role path sha note :
  clean (check_binding ROOT file_at (source_binding role path sha note)) <->
  is_under ROOT (resolve ROOT path) = true /\ has_sha (resolve ROOT path) sha.
Proof.
  unfold check_binding. change (is_dict (source_binding role path sha note)) with true. cbn [negb].
  rewrite (bind_lift_ok _ (JStr role)) by reflexivity.
  rewrite (bind_lift_ok _ (JStr path)) by reflexivity. cbn beta iota zeta.
  destruct (is_under ROOT (resolve ROOT path)); cbn [negb]; [|split; [done|by intros []]].
  rewrite (bind_lift_ok _ true) by reflexivity. unfold is_file, has_sha.
  destruct (file_at (resolve ROOT path)) as [[c|m]|] eqn:Ef; cbn [negb andb].
  - rewrite (bind_lift_ok _ (sha256_hex c)) by (by apply file_sha256_eq).
    rewrite (bind_lift_ok _ (JStr sha)) by reflexivity. rewrite clean_expect, eq_str_true.
    split.
    + intros [= ->]. split; [done|]. by exists c.
    + intros (_ & c' & [= <-] & ->). done.
  - unfold _file_sha256, read_bytes. rewrite Ef. split; [done|]. by intros (_ & c & ? & _).
  - split; [done|]. by intros (_ & c & ? & _).
Qed.

Lemma check_authority_file_iff path :
  clean (check_authority_file file_at exc_text path) <-> authority_lists_ids path.
Proof.
  unfold check_authority_file, authority_lists_ids.
  destruct (load_json file_at path) as [a|[]]; try (split; [done|by intros (? & ? & ? & ? & _)]).
  rewrite clean_lift_iff. split.
  - intros (ids & Hids & (l & Hl & [He Hs]%clean_seq_iff)%clean_lift_iff).
    apply clean_expect in He. apply clean_expectR in Hs. by exists a, ids, l.
  - intros (a' & ids & l & <-%Ok_inj & Hids & Hl & He & Hs). exists ids. split; [done|].
    apply clean_lift_iff. exists l. split; [done|]. apply clean_seq_iff.
    by rewrite clean_expect, clean_expectR.
Qed.

(** The evidence files the registry binds, below the root. *)
Definition authority_path : list string :=
  ["Deepresearch V3"; "registry"; "sources"; "DEEP03_ATOMIC_DIRECTION_AUTHORITY_V1.json"].

Definition source_files : list (list string * string) := [
  (authority_path, "85db70587525ab34af7b5e1cba8bb70929581ea2ff64eb075eabaf5f98ea337e");
  (["Deepresearch V3"; "run_2026-07-22_D3-W2A"; "RESULTS.json"],
   "e2265284704a828ec9dd0c700c66f16bdf11c9729530b583e9578561e27782f6");
  (["Deepresearch V3"; "run_2026-07-22_D3-W2A"; "ESTIMABILITY_PREFLIGHT.json"],
   "50a63f633db2edccfc315d482684d5d6ea488fdbd5526106e9a2c60b5831c7de");
  (["Deepresearch V3"; "run_2026-07-22_D3-W2A"; "FULLSCOPE_L2_REPORT_TABLES.json"],
   "e97fe0376cf4700829ed5afccc6eeaa10f4c368b417d335b0e1af7df490d0f52");
  (["Deepresearch V3"; "run_2026-07-22_D3-W2A"; "EXCLUSION_WATERFALL.json"],
   "3e8136820158d320bbc1df52edb7239af9d29c281308c7c97dad3297d0deef4a")
].

Definition sources_match : Prop :=
  Forall (fun f => has_sha (ROOT ++ fst f) (snd f)) source_files /\
  authority_lists_ids (ROOT ++ authority_path).

(** A source binding and the file it names. *)
Definition binds (b : json) (f : list string * string) : Prop :=
  exists role path note, b = source_binding role path (snd f) note /\
    resolve ROOT path = ROOT ++ fst f.

(** A relative path of plain components stays below the root. *)
Definition plain_component (c : string) : bool :=
  negb (String.eqb c EmptyString || String.eqb c "." || String.eqb c "..").

Lemma step_plain dir comps :
  forallb plain_component comps = true -> fold_left step_path comps dir = dir ++ comps.
Proof.
  revert dir. induction comps as [|c comps IH]; intros dir; simpl; [by rewrite app_nil_r|].
  intros [Hc Hcs]%andb_true_iff. unfold plain_component in Hc. apply negb_true_iff in Hc.
  apply orb_false_iff in Hc as [Hc1 Hc2]. unfold step_path at 2. rewrite Hc1, Hc2.
  rewrite IH by done. by rewrite <- app_assoc.
Qed.

Definition relative (rel : string) : bool :=
  match rel with String c _ => negb (nat_of_ascii c =? 47) | EmptyString => true end.

Lemma resolve_plain rel comps :
  relative rel = true -> split_slash rel EmptyString = comps ->
  forallb plain_component comps = true -> resolve ROOT rel = ROOT ++ comps.
Proof.
  intros Hr <- Hp. unfold resolve. rewrite step_plain by done.
  destruct rel as [|c rel]; [done|]. cbn [relative] in Hr. by destruct (nat_of_ascii c =? 47).
Qed.

Ltac plain_path := apply resolve_plain; vm_compute; reflexivity.

Lemma bindings_name_files : Forall2 binds SOURCE_BINDINGS source_files.
Proof.
  repeat (apply Forall2_cons; [do 3 eexists; split; [reflexivity|]; plain_path|]).
  apply Forall2_nil.
Qed.

Lemma check_bindings_iff :
  clean (for_each (check_binding ROOT file_at) SOURCE_BINDINGS) <->
  Forall (fun f => has_sha (ROOT ++ fst f) (snd f)) source_files.
Proof.
  induction bindings_name_files as [|b f bs fs (role & path & note & -> & Hp) _ IH].
  - split; [constructor|done].
  - cbn [for_each]. rewrite clean_seq_iff, IH, check_binding_iff, Hp, is_under_app.
    rewrite List.Forall_cons_iff. cbn [fst snd]. tauto.
Qed.

Lemma check_authority_iff :
  has_sha (ROOT ++ authority_path)
    "85db70587525ab34af7b5e1cba8bb70929581ea2ff64eb075eabaf5f98ea337e" ->
  clean (check_authority ROOT file_at exc_text SOURCE_BINDINGS) <->
  authority_lists_ids (ROOT ++ authority_path).
Proof.
  intros (c & Hc & _). unfold check_authority.
  assert (authority_of SOURCE_BINDINGS = Ok (firstn 1 SOURCE_BINDINGS)) as Ha by reflexivity.
  rewrite (bind_lift_ok _ _ _ Ha).
  rewrite bind_clean by reflexivity. cbn [firstn SOURCE_BINDINGS].
  rewrite (bind_lift_ok _ (JStr "Deepresearch V3/registry/sources/DEEP03_ATOMIC_DIRECTION_AUTHORITY_V1.json")) by reflexivity.
  cbn beta iota zeta.
  assert (resolve ROOT "Deepresearch V3/registry/sources/DEEP03_ATOMIC_DIRECTION_AUTHORITY_V1.json"
          = ROOT ++ authority_path) as -> by plain_path.
  unfold is_file. rewrite Hc. apply check_authority_file_iff.
Qed.

Lemma check_sources_iff :
  clean (check_source_bindings ROOT file_at exc_text (JList SOURCE_BINDINGS)) <-> sources_match.
Proof.
  unfold check_source_bindings, sources_match.
  rewrite bind_clean by done.
  rewrite bind_clean by (apply clean_expect; vm_compute; reflexivity).
  rewrite clean_seq_iff, check_bindings_iff. split.
  - intros [Hf Ha]. split; [done|]. apply check_authority_iff; [|done]. by inversion Hf.
  - intros [Hf Ha]. split; [done|]. apply check_authority_iff; [|done]. by inversion Hf.
Qed.

Lemma validate_registry_clean r :
  validate_registry ROOT file_at exc_text r = Ok [] <-> clean (validate ROOT file_at exc_text r).
Proof.
  unfold validate_registry, clean. destruct (validate ROOT file_at exc_text r) as [errs []|e];
    [|done]. split; [by intros ->%Ok_inj|by intros [= ->]].
Qed.
End Files.
