(* ===== verification/Soundness.v ===== *)
(** * What an accepted registry is

    The converse of [RegistryFacts]: when the checks report nothing, every card
    is the one the builder makes, in authority order, and so carries all that
    the builder guarantees. *)

From stdpp Require Import base list strings numbers.
From Stdlib Require Import ZArith Lia Bool Ascii.
From S2P Require Import Prelude PyJson Sha256 JsonText RegistryTables ActionProfiles.
From S2P Require Import DataProfiles Seeds Builder Validator BuilderFacts ValidatorFacts RegistryFacts.
From S2P Require Import JsonRoundtrip.

(** A card the checks accept under an ID: Python-equal to the built card, with
    a hash that recomputes. *)
Definition accepted_as (id : string) (card : json) : Prop :=
  exists expected rest,
    build_at id = Ok expected /\ py_eq card expected = true /\
    popitem card "definition_sha256" = Ok rest /\
    get card "definition_sha256" = Ok (JStr (_sha256 rest)).

(** * Lemmas *)

Lemma check_types_sound id c : clean (check_types id c) -> sections_typed c = true.
Proof.
  unfold check_types, sections_typed. rewrite !clean_seq_iff, !clean_expect.
  intros (-> & -> & -> & -> & -> & -> & -> & ->). done.
Qed.

Lemma check_result_sound id s c :
  clean (check_result id s c) ->
  exists expected, _build_card id s = Ok expected /\ py_eq (sec_card c) expected = true.
Proof.
  unfold check_result. intros (_ & (_ & (_ & (e & He & Hc)%clean_lift_iff)%clean_seq_iff)%clean_seq_iff)%clean_seq_iff.
  apply clean_expect in Hc. eauto.
Qed.

Lemma check_seeded_sound id s identity c :
  clean (check_seeded id s identity c) ->
  exists expected, _build_card id s = Ok expected /\ py_eq (sec_card c) expected = true.
Proof.
  unfold check_seeded. intros [Ht H]%clean_seq_iff. apply check_types_sound in Ht.
  rewrite Ht in H. cbn [negb] in H.
  apply clean_seq_iff in H as [_ H]. apply clean_seq_iff in H as [_ H].
  apply clean_lift_iff in H as (ha & _ & H).
  do 6 apply clean_seq_iff in H as [_ H]. by apply check_result_sound in H.
Qed.

Lemma get_sections_card card c : get_sections card = Ok c -> sec_card c = card.
Proof. unfold get_sections. intros H. inv_ok. done. Qed.

Lemma table_get_str {A} (d : list (string * A)) key v :
  table_get d key = Ok (Some v) -> exists id, key = JStr id /\ assoc id d = Some v.
Proof. unfold table_get. destruct key; try done. simpl. intros [= ?]. eauto. Qed.

Lemma check_card_sound card_id identity card :
  clean (check_card seed_table card_id identity card) ->
  exists id, card_id = JStr id /\ accepted_as id card.
Proof.
  unfold check_card. intros (stored & Hst & H)%clean_lift_iff.
  apply clean_lift_iff in H as (rest & Hrest & H).
  apply clean_seq_iff in H as [Hsha H]. apply clean_expect, eq_str_true in Hsha as ->.
  apply clean_lift_iff in H as (items & Hit & H). cbn zeta in H.
  apply clean_seq_iff in H as [Hcomp H]. apply clean_expect in Hcomp. rewrite Hcomp in H.
  cbn [negb] in H. apply clean_lift_iff in H as (os & Hs & H).
  destruct os as [s|]; [|done]. apply table_get_str in Hs as (id & -> & Hs).
  apply clean_lift_iff in H as (c & Hc & H). apply check_seeded_sound in H as (e & He & Heq).
  rewrite (get_sections_card _ _ Hc) in Heq.
  exists id. split; [done|]. exists e, rest. split; [|done].
  unfold build_at, seed_at. by rewrite Hs.
Qed.

(** The ID a card is listed under. *)
Definition card_id_of (card : json) : result json :=
  identity ← get_default card "identity" (JObj []); get identity "experiment_id".

Lemma card_step_sound f card f' :
  card_step seed_table f card = VOk [] f' ->
  exists id, is_dict card = true /\ card_id_of card = Ok (JStr id) /\ accepted_as id card.
Proof.
  unfold card_step. destruct (is_dict card) eqn:Hd; cbn [negb].
  2:{ intros (? & [=] & _)%vbind_ok. }
  intros (identity & Hi & H)%vbind_ok. apply vbind_ok in H as (card_id & Hid & H).
  apply vbind_ok in H as (fam & _ & H). apply vbind_ok in H as (cs & _ & H).
  apply vbind_ok in H as ([] & Hc & _). apply check_card_sound in Hc as (id & -> & Ha).
  exists id. split; [done|]. split; [|done]. unfold card_id_of.
  destruct (get_default card "identity" (JObj [])) as [i|]; [|done].
  injection Hi as ->. cbn [mbind result_bind].
  destruct identity as [| | | | | |d]; try done. unfold get. cbn [get_default] in Hid |- *.
  destruct (assoc "experiment_id" d); [by injection Hid as ->|].
  injection Hid as <-. destruct Ha as (e & r & Hb & _). discriminate Hb.
Qed.

Lemma card_steps_sound cards f f' :
  for_fold (card_step seed_table) cards f = VOk [] f' ->
  exists ids, card_ids cards = Ok (map JStr ids) /\ Forall2 accepted_as ids cards.
Proof.
  revert f. induction cards as [|card cards IH]; intros f H; [by exists []|].
  cbn [for_fold] in H. apply vbind_ok in H as (f1 & Hstep & H).
  apply card_step_sound in Hstep as (id & Hd & Hid & Ha).
  destruct (IH _ H) as (ids & Hids & HF). exists (id :: ids). split; [|by constructor].
  cbn [card_ids map]. rewrite Hd. apply bind_ok in Hid as (i & -> & Hi). cbn [mbind result_bind].
  by rewrite Hi, Hids.
Qed.

Lemma check_experiments_sound cards :
  clean (check_experiments cards) -> Forall2 accepted_as ATOMIC_IDS cards.
Proof.
  unfold check_experiments. intros [Hids H]%clean_seq_iff.
  rewrite load_card_seeds in H. apply clean_lift_iff in H as (? & <-%Ok_inj & H).
  apply vbind_ok in H as (f & Hf & _). apply card_steps_sound in Hf as (ids & Hc & HF).
  unfold check_ids in Hids. rewrite Hc in Hids.
  apply clean_lift_iff in Hids as (? & <-%Ok_inj & Hids).
  apply clean_seq_iff in Hids as [_ Hids]. apply clean_seq_iff in Hids as [Heq _].
  apply clean_expect in Heq. change (JList (map JStr ids)) with (strs ids) in Heq.
  by apply py_eq_strs, strs_inj in Heq as <-.
Qed.

Section Sound.
Context (ROOT : list string) (file_at : list string -> option file) (exc_text : exn -> string).

Lemma check_scope_sound scope :
  clean (check_scope scope) ->
  is_dict scope = true /\
  forall f, In f ["deployment_authority"; "order_authority"; "action_authority"] ->
    get_is scope f "NONE" = Ok true.
Proof.
  unfold check_scope. intros [Hd H]%clean_seq_iff. apply clean_expect in Hd. rewrite Hd in H.
  cbn [negb] in H. apply clean_seq_iff in H as [H _]. split; [done|]. intros f Hf.
  rewrite clean_for_each in H. by apply (clean_expectR _ ("scope." +:+ f +:+ " must remain NONE")), H.
Qed.

Lemma check_tail_sound r cards :
  clean (check_tail r cards) ->
  exists rest, popitem r "registry_sha256" = Ok rest /\
    get r "registry_sha256" = Ok (JStr (_sha256 rest)).
Proof.
  unfold check_tail. intros (st & _ & H)%clean_lift_iff. apply clean_lift_iff in H as (sm & _ & H).
  apply clean_seq_iff in H as [_ H]. apply clean_lift_iff in H as (sha & Hsha & H).
  apply clean_lift_iff in H as (rest & Hr & H). apply clean_expect, eq_str_true in H as ->. eauto.
Qed.

(** What a registry without errors satisfies. *)
Definition accepted_registry (r : json) : Prop :=
  exists scope cards rest,
    get r "scope" = Ok scope /\
    (forall f, In f ["deployment_authority"; "order_authority"; "action_authority"] ->
       get_is scope f "NONE" = Ok true) /\
    get r "experiments" = Ok (JList cards) /\ Forall2 accepted_as ATOMIC_IDS cards /\
    popitem r "registry_sha256" = Ok rest /\ get r "registry_sha256" = Ok (JStr (_sha256 rest)).

Lemma validate_sound r : clean (validate ROOT file_at exc_text r) -> accepted_registry r.
Proof.
  unfold validate. intros [_ H]%clean_seq_iff. apply clean_seq_iff in H as [_ H].
  apply clean_lift_iff in H as (scope & Hsc & H). apply clean_seq_iff in H as [Hscope H].
  apply clean_lift_iff in H as (sb & Hsb & H). apply clean_seq_iff in H as [_ H].
  apply clean_seq_iff in H as [_ H]. apply clean_lift_iff in H as (ex & Hex & H).
  apply clean_seq_iff in H as [Hl H]. apply clean_expect in Hl.
  destruct ex as [| | | | |cards|]; try done. apply clean_seq_iff in H as [He Ht].
  apply check_scope_sound in Hscope as [Hd Hscope]. apply check_experiments_sound in He.
  apply check_tail_sound in Ht as (rest & Hr & Hsha). exists scope, cards, rest.
  repeat split; try done. unfold get. destruct r as [| | | | | |d]; try done. cbn [get_default] in *.
  destruct (assoc "scope" d); [done|]. injection Hsc as <-.
  discriminate (Hscope "order_authority"). simpl. auto.
Qed.
End Sound.

(** ** What acceptance pins down *)

(** Two different texts with the same SHA-256. *)
Definition sha_collision (x y : string) : Prop := x <> y /\ sha256_hex x = sha256_hex y.

Lemma build_at_inv id expected :
  build_at id = Ok expected ->
  exists s p, assoc id seed_table = Some s /\ parts_ok id s p /\ expected = card_of id s p.
Proof.
  unfold build_at, seed_at. intros (s & Hs & H)%bind_ok. apply or_raise_ok in Hs.
  apply build_card_inv in H as (p & OK & ->). eauto.
Qed.

Lemma seed_table_critical id s : assoc id seed_table = Some s -> critical (extra_blockers s) = true.
Proof.
  intros H%assoc_in. assert (forallb (fun e => critical (extra_blockers (snd e))) seed_table = true)
    as Hall by (vm_compute; reflexivity).
  rewrite forallb_forall in Hall. exact (Hall _ H).
Qed.

Lemma Ok_JStr_inj a b : Ok (JStr a) = Ok (JStr b) -> a = b.
Proof. by intros [= ->]. Qed.

(** An accepted card has exactly the content of the built card, or it exhibits
    a collision of the hash. *)
Lemma accepted_content id card :
  accepted_as id card -> wf_json card = true ->
  exists expected, build_at id = Ok expected /\
    (card ≡ expected \/ exists rest rest',
       popitem card "definition_sha256" = Ok rest /\
       popitem expected "definition_sha256" = Ok rest' /\
       sha_collision (_canonical_json rest) (_canonical_json rest')).
Proof.
  intros (expected & rest & Hb & Heq & Hpop & Hsha) Hwf. exists expected. split; [done|].
  destruct (build_at_inv _ _ Hb) as (s & p & Hs & OK & ->).
  set (body := card_body id s p). set (sha := _sha256 (JObj body)).
  destruct (py_eq_getitem _ _ "definition_sha256" (JStr sha) Hwf Heq) as (y & Hy & Hye & _);
    [reflexivity|]. apply py_eq_str in Hye as ->.
  destruct card as [| | | | | |d]; try done. cbn [popitem] in Hpop. injection Hpop as <-.
  cbn [getitem] in Hy. apply or_raise_ok in Hy. unfold get in Hsha. cbn [get_default] in Hsha.
  rewrite Hy in Hsha. apply Ok_JStr_inj in Hsha.
  destruct (String.eqb_spec (_canonical_json (JObj (assoc_del "definition_sha256" d)))
              (_canonical_json (JObj body))) as [Ht|Hne].
  - left. apply canonical_json_inj in Ht;
      [|by eapply wf_assoc_del|].
    + apply (equiv_with_key "definition_sha256" (JStr sha)); try done.
      exact (wf_card id s p OK (seed_table_critical _ _ Hs)).
    + apply (wf_assoc_del "definition_sha256" (JStr sha)
        (body ++ ["definition_sha256" ~> JStr sha])); [reflexivity|].
      exact (wf_card id s p OK (seed_table_critical _ _ Hs)).
  - right. exists (JObj (assoc_del "definition_sha256" d)), (JObj body).
    split; [done|]. split; [reflexivity|]. split; [done|]. symmetry. exact Hsha.
Qed.
