(* ===== verification/RegistryCli.v ===== *)
(** * The command line of the registry

    [_write_registry], [_read_registry], [_print_summary] and [main] of
    tools/experiment_registry.py.  The state is the artifact file and what was
    printed; the other files are those of the validator.  A failing write is a
    parameter: the exception and what it leaves of the artifact. *)

From stdpp Require Import base list strings numbers.
From Stdlib Require Import ZArith Lia Bool Ascii.
From S2P Require Import Prelude PyJson Sha256 JsonText JsonRoundtrip RegistryTables.
From S2P Require Import Builder Validator BuilderFacts ValidatorFacts RegistryFacts.

Record cli_state := CliState {
  artifact : option string;
  printed : list (bool * string)
}.

Definition cli (A : Type) : Type := cli_state -> result A * cli_state.

#[export] Instance cli_ret : MRet cli := fun A a st => (Ok a, st).
#[export] Instance cli_bind : MBind cli := fun A B f m st =>
  match m st with
  | (Ok a, st') => f a st'
  | (Raise e, st') => (Raise e, st')
  end.

Definition cli_lift {A} (r : result A) : cli A := fun st => (r, st).

(** [print]; the flag is whether the line goes to the error stream. *)
Definition say (to_stderr : bool) (line : string) : cli unit := fun st =>
  (Ok tt, CliState (artifact st) (printed st ++ [(to_stderr, line)])).

Record cli_args := CliArgs { a_write : bool; a_check : bool; a_summary : bool }.

Section Cli.
Context (ROOT : list string) (file_at : list string -> option file) (exc_text : exn -> string).
Context (REGISTRY_PATH : string) (failing_write : option (exn * option string)).

(** [_write_registry] *)
Definition _write_registry (registry : json) : cli unit := fun st =>
  match failing_write with
  | None => (Ok tt, CliState (Some (registry_payload registry)) (printed st))
  | Some (e, left_) => (Raise e, CliState left_ (printed st))
  end.

(** [_read_registry] *)
Definition read_text (file : option string) : result json :=
  match file with
  | None => Raise (OSError "No such file or directory")
  | Some text => if utf8_valid text then json_loads text else Raise UnicodeDecodeError
  end.

Definition _read_registry : cli json := fun st => (read_text (artifact st), st).

Definition summary_line (registry : json) : result string :=
  summary ← getitem registry "summary";
  total ← getitem summary "total_cards";
  families ← getitem summary "family_counts";
  computed ← getitem summary "computed_class_counts";
  eligible ← getitem summary "strategy_eligible_now";
  sha ← getitem registry "registry_sha256";
  Ok ("experiment registry ok: " +:+ py_str total +:+ " cards; families=" +:+ py_str families +:+
      "; computed=" +:+ py_str computed +:+ "; strategy_eligible_now=" +:+ py_str eligible +:+
      "; sha256=" +:+ py_str sha).

(** [_print_summary] *)
Definition _print_summary (registry : json) : cli unit :=
  line ← cli_lift (summary_line registry); say false line.

Fixpoint report (errors : list string) : cli unit :=
  match errors with
  | [] => mret tt
  | e :: errors' => _ ← say true ("FAIL: " +:+ e); report errors'
  end.

Definition differs : string :=
  "checked-in registry differs from generator output; run python3 tools/experiment_registry.py --write".

(** The last part of [main]: both branches print the summary. *)
Definition conclude (expected actual : json) : cli Z :=
  errors ← cli_lift (validate_registry ROOT file_at exc_text actual);
  let errors := errors ++ (if negb (py_eq actual expected) then [differs] else []) in
  match errors with
  | [] => _ ← _print_summary actual; mret 0%Z
  | _ => _ ← report errors; mret 1%Z
  end.

Definition main_write (expected : json) : cli Z :=
  errors ← cli_lift (validate_registry ROOT file_at exc_text expected);
  match errors with
  | [] => _ ← _write_registry expected; actual ← _read_registry; conclude expected actual
  | _ => _ ← report errors; mret 1%Z
  end.

Definition main_check (expected : json) : cli Z := fun st =>
  match artifact st with
  | None => (_ ← say true ("FAIL: missing registry artifact: " +:+ REGISTRY_PATH); mret 1%Z) st
  | Some _ => (actual ← _read_registry; conclude expected actual) st
  end.

(** [main]; [--check] and [--summary] select nothing that the default does not
    do, and argparse refuses [--write] with [--check]. *)
Definition main (args : cli_args) : cli Z :=
  expected ← cli_lift build_registry;
  if a_write args then main_write expected else main_check expected.

(** * Lemmas *)

Lemma cli_bind_ok {A B} (m : cli A) (f : A -> cli B) st b st' :
  (m ≫= f) st = (Ok b, st') -> exists a st1, m st = (Ok a, st1) /\ f a st1 = (Ok b, st').
Proof.
  unfold mbind, cli_bind. destruct (m st) as [[a|e] st1]; [|done]. intros H. by exists a, st1.
Qed.

(** A step that leaves the artifact alone. *)
Definition keeps {A} (m : cli A) : Prop := forall st, artifact (snd (m st)) = artifact st.

Lemma keeps_bind {A B} (m : cli A) (f : A -> cli B) :
  keeps m -> (forall a, keeps (f a)) -> keeps (m ≫= f).
Proof.
  intros Hm Hf st. specialize (Hm st). unfold mbind, cli_bind.
  destruct (m st) as [[a|e] st1]; cbn [snd] in *; [by rewrite Hf|done].
Qed.

Lemma keeps_lift {A} (r : result A) : keeps (cli_lift r).
Proof. done. Qed.

Lemma keeps_report errors : keeps (report errors).
Proof. induction errors as [|e errors IH]; [done|]. by apply keeps_bind. Qed.

Lemma keeps_conclude expected actual : keeps (conclude expected actual).
Proof.
  apply keeps_bind; [apply keeps_lift|]. intros errors. cbv zeta.
  destruct (errors ++ _) as [|e l].
  - apply keeps_bind; [|done]. apply keeps_bind; [apply keeps_lift|done].
  - by apply keeps_bind; [apply keeps_report|].
Qed.

Lemma report_ok errors st : exists st', report errors st = (Ok tt, st').
Proof.
  revert st. induction errors as [|e errors IH]; intros st; [by eexists|]. cbn [report].
  unfold mbind, cli_bind. cbn. apply IH.
Qed.

(** Success means a valid registry that is the generated one. *)
Lemma conclude_zero expected actual st st' :
  conclude expected actual st = (Ok 0%Z, st') ->
  validate_registry ROOT file_at exc_text actual = Ok [] /\ py_eq actual expected = true.
Proof.
  intros H. apply cli_bind_ok in H as (errors & st1 & He & H). injection He as He <-. cbv zeta in H.
  destruct errors as [|e errors].
  - split; [done|]. destruct (py_eq actual expected); [done|]. cbn in H. discriminate H.
  - cbn [app] in H. apply cli_bind_ok in H as (u & st2 & _ & H). discriminate H.
Qed.

Lemma build_registry_valid registry :
  build_registry = Ok registry ->
  validate_registry ROOT file_at exc_text registry = Ok [] <-> sources_match ROOT file_at.
Proof.
  intros Hb. destruct build_registry_ok as (cards & Hb' & Hc). rewrite Hb in Hb'.
  apply Ok_inj in Hb' as ->. rewrite validate_registry_clean, validate_built by done.
  apply check_sources_iff.
Qed.

(** Writing needs matching sources; it may fail after that. *)
Lemma main_write_artifact expected st :
  build_registry = Ok expected ->
  let st' := snd (main_write expected st) in
  artifact st' = artifact st \/
  (sources_match ROOT file_at /\
   artifact st' = match failing_write with
                  | None => Some (registry_payload expected)
                  | Some (_, left_) => left_
                  end).
Proof.
  intros Hb. unfold main_write, mbind, cli_bind, cli_lift.
  destruct (validate_registry ROOT file_at exc_text expected) as [errors|e] eqn:Hv; [|by left].
  destruct errors as [|e errors].
  2:{ left. destruct (report_ok (e :: errors) st) as (st1 & Hr). rewrite Hr. cbn [snd mret cli_ret].
      by rewrite <- (keeps_report (e :: errors) st), Hr. }
  right. split; [by apply build_registry_valid in Hb as [Hb _]; apply Hb|].
  unfold _write_registry. destruct failing_write as [[e left_]|]; [done|].
  unfold _read_registry. cbn [artifact]. destruct (read_text _) as [actual|e]; [|done].
  by rewrite keeps_conclude.
Qed.

Lemma main_write_zero expected st st' :
  main_write expected st = (Ok 0%Z, st') ->
  exists actual, read_text (artifact st') = Ok actual /\
    validate_registry ROOT file_at exc_text actual = Ok [] /\ py_eq actual expected = true /\
    artifact st' = Some (registry_payload expected).
Proof.
  intros H. apply cli_bind_ok in H as (errors & st1 & He & H). injection He as _ <-.
  destruct errors as [|e errors].
  2:{ apply cli_bind_ok in H as (u & st2 & _ & H). discriminate H. }
  apply cli_bind_ok in H as ([] & st1 & Hw & H). apply cli_bind_ok in H as (actual & st2 & Hr & H).
  injection Hr as Hr <-. exists actual.
  pose proof (keeps_conclude expected actual st1) as Hk. rewrite H in Hk. cbn [snd] in Hk.
  apply conclude_zero in H as [Hv He]. rewrite Hk. do 3 (split; [done|]).
  unfold _write_registry in Hw. destruct failing_write as [[e l]|]; [done|]. by injection Hw as <-.
Qed.

Lemma main_check_artifact expected st : artifact (snd (main_check expected st)) = artifact st.
Proof.
  unfold main_check. destruct (artifact st) eqn:E; [|done].
  rewrite <- E. apply keeps_bind; [done|]. intros. apply keeps_conclude.
Qed.

Lemma main_check_zero expected st st' :
  main_check expected st = (Ok 0%Z, st') ->
  exists actual, read_text (artifact st') = Ok actual /\
    validate_registry ROOT file_at exc_text actual = Ok [] /\ py_eq actual expected = true.
Proof.
  intros H. pose proof (main_check_artifact expected st) as Hk. rewrite H in Hk. cbn [snd] in Hk.
  unfold main_check in H. destruct (artifact st) as [t|] eqn:E; [|discriminate H].
  apply cli_bind_ok in H as (actual & st1 & Hr & H). injection Hr as Hr <-.
  apply conclude_zero in H. exists actual. rewrite Hk, <- E. done.
Qed.
End Cli.

(** C17: the gate of the artifact.  When [main] returns 0, the artifact on disk
    reads as a registry that validates and equals the generated one; with
    [--write] it is the text of the generated one.  The artifact only changes
    with [--write], when the generated registry validates, which is when the
    evidence files match; a check never changes it. *)
Theorem artifact_gate ROOT file_at exc_text REGISTRY_PATH failing_write args st :
  let '(r, st') := main ROOT file_at exc_text REGISTRY_PATH failing_write args st in
  (r = Ok 0%Z -> exists expected actual, build_registry = Ok expected /\
     read_text (artifact st') = Ok actual /\
     validate_registry ROOT file_at exc_text actual = Ok [] /\ py_eq actual expected = true /\
     (a_write args = true -> artifact st' = Some (registry_payload expected))) /\
  (artifact st' = artifact st \/ (a_write args = true /\ sources_match ROOT file_at)).
Proof.
  destruct build_registry_ok as (cards & Hb & _). unfold main. rewrite Hb.
  unfold mbind at 1, cli_bind at 1, cli_lift at 1. destruct (a_write args).
  - pose proof (main_write_artifact ROOT file_at exc_text failing_write _ st Hb) as Ha.
    destruct (main_write _ _ _ _ _ st) as [r st'] eqn:E. cbn [snd] in Ha. split; [|tauto].
    intros ->. exists (registry_of cards).
    destruct (main_write_zero _ _ _ _ _ _ _ E) as (actual & H1 & H2 & H3 & H4). exists actual.
    exact (conj eq_refl (conj H1 (conj H2 (conj H3 (fun _ => H4))))).
  - pose proof (main_check_artifact ROOT file_at exc_text REGISTRY_PATH (registry_of cards) st) as Ha.
    destruct (main_check _ _ _ _ _ st) as [r st'] eqn:E. cbn [snd] in Ha. split; [|left; exact Ha].
    intros ->. exists (registry_of cards).
    destruct (main_check_zero _ _ _ _ _ _ _ E) as (actual & H1 & H2 & H3). exists actual.
    refine (conj eq_refl (conj H1 (conj H2 (conj H3 _)))). intros Hf. discriminate Hf.
Qed.
