(* ===== verification/KeyOrder.v ===== *)
(** * Validation and the order of keys

    A registry that is written with sorted keys and read back is another value
    than the one that was generated: its dicts have another insertion order.  Here
    the verdict of [validate_registry] is shown not to depend on that order: two
    well-formed values that differ in it alone are related by [same], the
    operations of Python respect [same], and so does every check, as a simulation
    of runs without errors. *)

From stdpp Require Import base list strings numbers.
From Stdlib Require Import ZArith Lia Bool Ascii.
From S2P Require Import Prelude PyJson Sha256 JsonText JsonRoundtrip RegistryTables ActionProfiles.
From S2P Require Import DataProfiles Seeds Builder Validator BuilderFacts ValidatorFacts.

(** ** Values that differ in the order of keys *)

Definition same (v w : json) : Prop := wf_json v = true /\ wf_json w = true /\ v ≡ w.

Lemma same_sym v w : same v w -> same w v.
Proof. intros (Hv & Hw & E). by repeat split. Qed.

Lemma same_refl v : wf_json v = true -> same v v.
Proof. intros Hv. by repeat split. Qed.

(** Sorting sorted keys changes nothing. *)
Lemma canon_idem v : wf_json v = true -> canon (canon v) = canon v.
Proof.
  induction v as [| | | | |l IH|d IH] using json_ind; intros Hwf; try done.
  - cbn [canon]. f_equal. rewrite map_map. apply map_ext_in. intros x Hin.
    rewrite List.Forall_forall in IH. apply IH; [done|]. by apply (proj1 (wf_list_iff l) Hwf).
  - apply wf_obj_iff in Hwf as [Hnd Hwf]. cbn [canon]. f_equal.
    set (g := fun kv : string * json => match kv with (k, w) => (k, canon w) end).
    assert (map g (map g d) = map g d) as Hg.
    { rewrite map_map. apply map_ext_in. intros [k w] Hin. cbn [g]. f_equal.
      rewrite List.Forall_forall in IH. by apply (IH _ Hin), (Hwf k). }
    rewrite <- Hg at 2. apply sort_items_unique; [|by rewrite sort_items_perm].
    unfold g at 1. rewrite keys_canon_items.
    eapply Permutation_NoDup; [symmetry; apply keys_perm, sort_items_perm|].
    unfold g. by rewrite keys_canon_items.
Qed.

Lemma same_canon v : wf_json v = true -> same v (canon v).
Proof.
  intros Hv. split; [done|]. split; [by apply wf_canon|]. unfold equiv, json_equiv. by rewrite canon_idem.
Qed.

(** A value that is no container is the same as itself only. *)
Lemma same_scalar v w : same v w -> hashable v = true -> w = v.
Proof.
  intros (_ & _ & E) Hh. unfold equiv, json_equiv in E.
  destruct v; try discriminate Hh; destruct w; cbn [canon] in E; congruence.
Qed.

Lemma same_list l w : same (JList l) w -> exists l', w = JList l' /\ Forall2 same l l'.
Proof.
  intros (Hv & Hw & E). unfold equiv, json_equiv in E.
  destruct w as [| | | | |l'|]; cbn [canon] in E; try discriminate E. exists l'. split; [done|].
  injection E as E. pose proof (proj1 (wf_list_iff _) Hv) as Hv'. pose proof (proj1 (wf_list_iff _) Hw) as Hw'.
  clear Hv Hw. revert l' E Hw'. induction l as [|x l IH]; intros [|y l'] E Hw'; try discriminate E; constructor.
  - injection E as E _. split; [apply Hv'; by left|]. split; [apply Hw'; by left|done].
  - injection E as _ E. apply IH; [intros; apply Hv'; by right|done|intros; apply Hw'; by right].
Qed.

(** The items of a dict, by key. *)
Lemma assoc_canon k d :
  List.NoDup (keys d) ->
  assoc k (sort_items (map (fun kv : string * json => match kv with (k, w) => (k, canon w) end) d))
  = canon <$> assoc k d.
Proof.
  intros Hnd. rewrite (assoc_perm k _ (map (fun kv : string * json => match kv with (k, w) => (k, canon w) end) d)).
  - clear. induction d as [|[k' w] d IH]; [done|]. cbn [map assoc]. by destruct (String.eqb k k').
  - eapply Permutation_NoDup; [symmetry; apply keys_perm, sort_items_perm|]. by rewrite keys_canon_items.
  - apply sort_items_perm.
Qed.

Lemma same_obj d w : same (JObj d) w ->
  exists d', w = JObj d' /\ keys d ≡ₚ keys d' /\
    forall k, option_Forall2 same (assoc k d) (assoc k d').
Proof.
  intros (Hv & Hw & E). unfold equiv, json_equiv in E.
  destruct w as [| | | | | |d']; cbn [canon] in E; try discriminate E. exists d'. split; [done|].
  injection E as E. apply wf_obj_iff in Hv as [Hnd Hv]. apply wf_obj_iff in Hw as [Hnd' Hw]. split.
  - rewrite <- (keys_canon_items d), <- (keys_canon_items d').
    rewrite <- (keys_perm _ _ (sort_items_perm (map _ d))), E. apply keys_perm, sort_items_perm.
  - intros k. pose proof (assoc_canon k d Hnd) as H1. pose proof (assoc_canon k d' Hnd') as H2.
    rewrite E, H2 in H1. destruct (assoc k d) as [v|] eqn:Ev, (assoc k d') as [w|] eqn:Ew;
      cbn in H1; try discriminate H1; constructor.
    injection H1 as H1. split; [by apply (Hv k), assoc_in|]. split; [by apply (Hw k), assoc_in|done].
Qed.

(** ** Runs that succeed alike *)

Definition simR {A B} (R : A -> B -> Prop) (m : result A) (m' : result B) : Prop :=
  forall a, m = Ok a -> exists b, m' = Ok b /\ R a b.

Definition simV {A B} (R : A -> B -> Prop) (m : vres A) (m' : vres B) : Prop :=
  forall a, m = VOk [] a -> exists b, m' = VOk [] b /\ R a b.

Create HintDb keyorder discriminated.

Section Sim.
Context {A B C D : Type} (R : A -> B -> Prop) (S : C -> D -> Prop).

Lemma simR_ok a b : R a b -> simR R (Ok a) (Ok b).
Proof. intros H x [= <-]. eauto. Qed.

Lemma simR_raise e m : simR R (Raise e) m.
Proof. intros x Hx. discriminate Hx. Qed.

Lemma simR_bind m m' (f : A -> result C) (f' : B -> result D) :
  simR R m m' -> (forall a b, R a b -> simR S (f a) (f' b)) -> simR S (mbind f m) (mbind f' m').
Proof.
  intros Hm Hf c Hc. apply bind_ok in Hc as (a & Ea & Hc). destruct (Hm a Ea) as (b & -> & Hab).
  exact (Hf a b Hab c Hc).
Qed.

Lemma simR_fmap m m' (f : A -> C) (f' : B -> D) :
  simR R m m' -> (forall a b, R a b -> S (f a) (f' b)) -> simR S (f <$> m) (f' <$> m').
Proof.
  intros Hm Hf c Hc. destruct m as [a|]; [|discriminate Hc]. destruct (Hm a eq_refl) as (b & -> & Hab).
  injection Hc as <-. cbn. eauto.
Qed.

Lemma simV_ok a b : R a b -> simV R (VOk [] a) (VOk [] b).
Proof. intros H x [= <-]. eauto. Qed.

Lemma simV_raise e m : simV R (VRaise e) m.
Proof. intros x Hx. discriminate Hx. Qed.

Lemma simV_bind m m' (f : A -> vres C) (f' : B -> vres D) :
  simV R m m' -> (forall a b, R a b -> simV S (f a) (f' b)) -> simV S (mbind f m) (mbind f' m').
Proof.
  intros Hm Hf c Hc. apply vbind_ok in Hc as (a & Ea & Hc). destruct (Hm a Ea) as (b & Eb & Hab).
  destruct (Hf a b Hab c Hc) as (d & Ed & Hcd). exists d. split; [|done]. apply vbind_ok. eauto.
Qed.

Lemma simV_lift m m' : simR R m m' -> simV R (lift m) (lift m').
Proof.
  intros Hm a Ha. destruct m as [x|]; [|discriminate Ha]. destruct (Hm x eq_refl) as (b & -> & Hxb).
  injection Ha as <-. cbn. eauto.
Qed.
End Sim.

Lemma simV_error {A B} (R : A -> B -> Prop) (m : vres B) msg (k : vres A) :
  simV R (_ ← append_error msg; k) m.
Proof. intros a Ha. unfold mbind, vres_bind, append_error in Ha. destruct k; discriminate Ha. Qed.

Lemma simV_append {B} (R : unit -> B -> Prop) (m : vres B) msg : simV R (append_error msg) m.
Proof. intros a Ha. discriminate Ha. Qed.

Lemma simV_expect b b' msg msg' :
  (b = true -> b' = true) -> simV (fun _ _ => b = true) (_expect b msg) (_expect b' msg').
Proof.
  intros H x Hx. destruct b; [|discriminate Hx]. rewrite H by done. by exists tt.
Qed.

Lemma simV_expectR r r' msg msg' :
  simR (fun b b' : bool => b = true -> b' = true) r r' ->
  simV (fun _ _ => True) (expectR r msg) (expectR r' msg').
Proof.
  intros Hr. apply (simV_bind _ _ _ _ _ _ (simV_lift _ _ _ Hr)). intros b b' Hb x Hx.
  destruct (simV_expect b b' msg msg' Hb x Hx) as (y & E & _). eauto.
Qed.

Lemma simV_for_each {A B} (R : A -> B -> Prop) (f : A -> vres unit) (f' : B -> vres unit) l l' :
  Forall2 R l l' -> (forall a b, R a b -> simV (fun _ _ => True) (f a) (f' b)) ->
  simV (fun _ _ => True) (for_each f l) (for_each f' l').
Proof.
  intros Hl Hf. induction Hl as [|a b l l' Hab _ IH]; cbn [for_each]; [by apply simV_ok|].
  eapply simV_bind; [by apply Hf|]. auto.
Qed.

Lemma simV_for_fold {A B S T} (R : A -> B -> Prop) (Q : S -> T -> Prop) f f' l l' :
  Forall2 R l l' -> (forall s t a b, Q s t -> R a b -> simV Q (f s a) (f' t b)) ->
  forall s t, Q s t -> simV Q (for_fold f l s) (for_fold f' l' t).
Proof.
  intros Hl Hf. induction Hl as [|a b l l' Hab _ IH]; intros s t Hst; cbn [for_fold]; [by apply simV_ok|].
  eapply simV_bind; [by apply Hf|]. auto.
Qed.

Lemma simR_mapR {A B C D} (R : A -> B -> Prop) (S : C -> D -> Prop) f f' l l' :
  Forall2 R l l' -> (forall a b, R a b -> simR S (f a) (f' b)) -> simR (Forall2 S) (mapR f l) (mapR f' l').
Proof.
  intros Hl Hf. induction Hl as [|a b l l' Hab _ IH]; cbn [mapR]; [by apply simR_ok|].
  eapply simR_bind; [by apply Hf|]. intros c d Hcd. eapply simR_bind; [exact IH|].
  intros cs ds Hcs. apply simR_ok. by constructor.
Qed.

Lemma simR_weaken {A B} (R S : A -> B -> Prop) m m' :
  simR R m m' -> (forall a b, R a b -> S a b) -> simR S m m'.
Proof. intros Hm HS a Ha. destruct (Hm a Ha) as (b & E & Hab). eauto. Qed.

(** ** The operations *)

Section Same.
Context (v w : json) (vw : same v w).

Lemma same_getitem k : simR same (getitem v k) (getitem w k).
Proof.
  intros x Hx. destruct v as [| | | | | |d]; try discriminate Hx.
  destruct (same_obj _ _ vw) as (d' & -> & _ & Ha). cbn [getitem] in *. specialize (Ha k).
  destruct Ha as [a b Hab|]; [|discriminate Hx]. apply Ok_inj in Hx as <-. cbn. eauto.
Qed.

Lemma same_get_default k x x' :
  same x x' -> simR same (get_default v k x) (get_default w k x').
Proof.
  intros Hxx y Hy. destruct v as [| | | | | |d]; try discriminate Hy.
  destruct (same_obj _ _ vw) as (d' & -> & _ & Ha). cbn [get_default] in *. specialize (Ha k).
  destruct Ha as [a b Hab|]; apply Ok_inj in Hy as <-; eauto.
Qed.

Lemma same_get k : simR same (get v k) (get w k).
Proof. apply same_get_default. by apply same_refl. Qed.

(** The shape of a value does not change. *)
Lemma same_shape : is_dict w = is_dict v /\ is_list w = is_list v /\ is_none w = is_none v /\
  hashable w = hashable v /\ truthy w = truthy v.
Proof.
  destruct (hashable v) eqn:Hh; [by rewrite (same_scalar _ _ vw Hh)|].
  destruct v as [| | | | |l|d]; try discriminate Hh.
  - destruct (same_list _ _ vw) as (l' & -> & Hl). by destruct Hl.
  - destruct (same_obj _ _ vw) as (d' & -> & Hp & _). repeat split. apply Permutation_length in Hp.
    unfold keys in Hp. rewrite !length_map in Hp. by destruct d, d'.
Qed.

Lemma same_is_dict : is_dict w = is_dict v. Proof. apply same_shape. Qed.
Lemma same_is_list : is_list w = is_list v. Proof. apply same_shape. Qed.
Lemma same_is_none : is_none w = is_none v. Proof. apply same_shape. Qed.
Lemma same_hashable : hashable w = hashable v. Proof. apply same_shape. Qed.
Lemma same_truthy : truthy w = truthy v. Proof. apply same_shape. Qed.
End Same.

Lemma py_eq_canon_inv v x : wf_json v = true -> py_eq (canon v) x = true -> py_eq v x = true.
Proof.
  revert x. induction v as [| | | | |l IH|d IH] using json_ind; intros w Hwf Heq; try done.
  - destruct w as [| | | | |l'|]; try done. cbn [canon py_eq] in *.
    cbn [wf_json] in Hwf. revert l' Heq.
    induction IH as [|x l Hx _ IHl]; intros [|y l'] Heq; simpl in *; try done.
    apply andb_true_iff in Heq as [H1 H2]. apply andb_true_iff in Hwf as [W1 W2].
    by rewrite Hx, IHl.
  - destruct w as [| | | | | |d']; try done.
    apply wf_obj_iff in Hwf as [_ Hwf]. cbn [canon py_eq] in *.
    apply andb_true_iff in Heq as [Hlen Heq]. apply andb_true_iff. split.
    { erewrite Permutation_length in Hlen by apply sort_items_perm. by rewrite length_map in Hlen. }
    rewrite forallb_forall in *. intros [k v] Hin.
    assert (In (k, canon v) (sort_items (map (fun kv : string * json => match kv with (k, w) => (k, canon w) end) d)))
      as Hin'.
    { eapply Permutation_in; [symmetry; apply sort_items_perm|]. apply in_map_iff. by exists (k, v). }
    specialize (Heq _ Hin'). simpl in Heq. destruct (assoc k d'); [|done].
    rewrite List.Forall_forall in IH. apply (IH _ Hin); [|done]. by apply (Hwf k).
Qed.

Lemma same_py_eq v w x : same v w -> py_eq w x = py_eq v x.
Proof.
  assert (forall v w, same v w -> py_eq v x = true -> py_eq w x = true) as Hi.
  { intros v' w' (Hv & Hw & E) Hx. apply (py_eq_canon_inv _ _ Hw). unfold equiv, json_equiv in E.
    rewrite <- E. by apply py_eq_canon_l. }
  intros Hs. destruct (py_eq v x) eqn:E; [by apply (Hi v)|].
  destruct (py_eq w x) eqn:E'; [|done]. apply (Hi w v) in E'; [congruence|by apply same_sym].
Qed.

Lemma same_eq_str v w s : same v w -> eq_str w s = eq_str v s.
Proof. apply same_py_eq. Qed.

Lemma same_JList l l' : Forall2 same l l' -> same (JList l) (JList l').
Proof.
  induction 1 as [|x y l l' (Hx & Hy & E) _ (Hl & Hl' & IH)]; [done|].
  split; [by apply andb_true_iff|]. split; [by apply andb_true_iff|].
  unfold equiv, json_equiv in *. cbn [canon map] in *. injection IH as IH. by rewrite E, IH.
Qed.

(** Dicts with the same keys in the same order. *)
Lemma same_JObj d d' :
  List.NoDup (keys d) -> Forall2 (fun kv kv' => fst kv = fst kv' /\ same (snd kv) (snd kv')) d d' ->
  same (JObj d) (JObj d').
Proof.
  intros Hnd Hd.
  assert (keys d = keys d' /\ map (fun kv : string * json => match kv with (k, w) => (k, canon w) end) d
    = map (fun kv : string * json => match kv with (k, w) => (k, canon w) end) d' /\
    (forall k v, In (k, v) d -> wf_json v = true) /\ (forall k v, In (k, v) d' -> wf_json v = true))
    as (Hk & Hm & Hw & Hw').
  { clear Hnd. induction Hd as [|[k v] [k' v'] d d' [Ek (Hv & Hv' & E)] _ (Hk & Hm & Hw & Hw')]; [done|].
    cbn [fst snd keys map] in *. subst k'. unfold keys in *. rewrite Hk, Hm. unfold equiv, json_equiv in E.
    rewrite E. split; [done|]. split; [done|]. split; intros k' w [[= <- <-]|Hin]; eauto. }
  split; [by apply wf_obj_iff|]. split; [apply wf_obj_iff; by rewrite <- Hk|].
  unfold equiv, json_equiv. cbn [canon]. by rewrite Hm.
Qed.

Lemma same_py_eq_r x : forall v w, same v w -> py_eq x w = py_eq x v.
Proof.
  induction x as [|b|z|m e|s|l IH|d IH] using json_ind; intros v w Hs;
    try (destruct (hashable v) eqn:Hh; [by rewrite (same_scalar _ _ Hs Hh)|];
         pose proof (same_hashable _ _ Hs) as Hh'; rewrite Hh in Hh'; by destruct v, w).
  - destruct (is_list v) eqn:El.
    2:{ pose proof (same_is_list _ _ Hs) as El'. rewrite El in El'. by destruct v, w. }
    destruct v as [| | | | |l1|]; try discriminate El. destruct (same_list _ _ Hs) as (l2 & -> & Hl).
    clear Hs El. revert l1 l2 Hl. cbn [py_eq].
    induction IH as [|x l Hx _ IHl]; intros l1 l2 Hl; destruct Hl as [|a b l1 l2 Hab Hl]; try done.
    by rewrite (Hx _ _ Hab), (IHl _ _ Hl).
  - destruct (is_dict v) eqn:Ed.
    2:{ pose proof (same_is_dict _ _ Hs) as Ed'. rewrite Ed in Ed'. by destruct v, w. }
    destruct v as [| | | | | |d1]; try discriminate Ed.
    destruct (same_obj _ _ Hs) as (d2 & -> & Hp & Ha). cbn [py_eq]. apply Permutation_length in Hp.
    unfold keys in Hp. rewrite !length_map in Hp. rewrite Hp. f_equal.
    clear Ed Hs Hp. induction IH as [|[k x] d Hx _ IHd]; [done|]. cbn [forallb]. rewrite IHd. f_equal.
    specialize (Ha k). by destruct Ha as [a b Hab|]; [apply (Hx _ _ Hab)|].
Qed.

Lemma assoc_del_none {A} k (d : list (string * A)) : assoc k d = None -> assoc_del k d = d.
Proof.
  induction d as [|[k' v] d IH]; [done|]. cbn [assoc assoc_del]. destruct (String.eqb k k'); [done|].
  intros H. by rewrite IH.
Qed.

Lemma same_popitem v w k : same v w -> simR same (popitem v k) (popitem w k).
Proof.
  intros Hs x Hx. destruct v as [| | | | | |d]; try discriminate Hx.
  destruct (same_obj _ _ Hs) as (d' & -> & _ & Ha). cbn [popitem] in *. apply Ok_inj in Hx as <-.
  eexists. split; [reflexivity|]. specialize (Ha k).
  destruct (assoc k d) as [v|] eqn:Ev, (assoc k d') as [w|] eqn:Ew; inversion Ha as [? ? Hvw|]; subst.
  2: by rewrite !assoc_del_none.
  destruct Hs as (Hwd & Hwd' & E). destruct Hvw as (_ & _ & Evw).
  pose proof (wf_assoc_del k v d Ev Hwd) as W. pose proof (wf_assoc_del k w d' Ew Hwd') as W'.
  split; [done|]. split; [done|]. unfold equiv, json_equiv in *. cbn [canon] in *. f_equal.
  injection E as E. apply sort_items_unique.
  { rewrite keys_canon_items. by apply wf_obj_iff in W as [? _]. }
  apply (Permutation_cons_inv (a := (k, canon v))). rewrite Evw at 2.
  pose proof (Permutation_map (fun kv : string * json => match kv with (k, w) => (k, canon w) end)
    (assoc_del_perm k v d Ev)) as P. cbn [map] in P. rewrite <- P.
  pose proof (Permutation_map (fun kv : string * json => match kv with (k, w) => (k, canon w) end)
    (assoc_del_perm k w d' Ew)) as P'. cbn [map] in P'. rewrite <- P'.
  rewrite <- (sort_items_perm (map _ d)), E. apply sort_items_perm.
Qed.

Lemma same_in_strset v w S : same v w -> simR eq (in_strset v S) (in_strset w S).
Proof.
  intros Hs b Hb. unfold in_strset, need_hashable in *. destruct (hashable v) eqn:Hh; [|discriminate Hb].
  rewrite (same_scalar _ _ Hs Hh), Hh. eauto.
Qed.

Lemma same_in_list s l l' : Forall2 same l l' -> in_list (JStr s) l' = in_list (JStr s) l.
Proof.
  unfold in_list. induction 1 as [|x y l l' Hxy _ IH]; [done|]. cbn [existsb]. rewrite IH. f_equal.
  destruct (hashable x) eqn:Hh; [by rewrite (same_scalar _ _ Hxy Hh)|].
  pose proof (same_hashable _ _ Hxy) as Hh'. rewrite Hh in Hh'. by destruct x, y.
Qed.

Lemma same_contains s v w : same v w -> simR eq (contains s v) (contains s w).
Proof.
  intros Hs b Hb. destruct (hashable v) eqn:Hh; [rewrite (same_scalar _ _ Hs Hh); eauto|].
  destruct v as [| | | | |l|d]; try discriminate Hh; cbn [contains] in *; apply Ok_inj in Hb as <-.
  - destruct (same_list _ _ Hs) as (l' & -> & Hl). cbn [contains]. rewrite (same_in_list s l l' Hl). eauto.
  - destruct (same_obj _ _ Hs) as (d' & -> & Hp & _). cbn [contains]. eexists. split; [reflexivity|].
    apply eq_true_iff_eq. rewrite !str_in_spec. split; apply Permutation_in; [|symmetry]; done.
Qed.

Lemma simR_and a a' b b' : simR eq a a' -> simR eq b b' -> simR eq (andR a b) (andR a' b').
Proof.
  intros Ha Hb. eapply simR_bind; [exact Ha|]. intros x ? <-. destruct x; [done|by apply simR_ok].
Qed.

Lemma simR_all {A B} (R : A -> B -> Prop) f f' l l' :
  Forall2 R l l' -> (forall a b, R a b -> simR eq (f a) (f' b)) -> simR eq (allR f l) (allR f' l').
Proof.
  intros Hl Hf. induction Hl as [|a b l l' Hab _ IH]; cbn [allR]; [by apply simR_ok|].
  eapply simR_bind; [by apply Hf|]. intros x ? <-. destruct x; [done|by apply simR_ok].
Qed.

Lemma simR_any {A B} (R : A -> B -> Prop) f f' l l' :
  Forall2 R l l' -> (forall a b, R a b -> simR eq (f a) (f' b)) -> simR eq (anyR f l) (anyR f' l').
Proof.
  intros Hl Hf. induction Hl as [|a b l l' Hab _ IH]; cbn [anyR]; [by apply simR_ok|].
  eapply simR_bind; [by apply Hf|]. intros x ? <-. destruct x; [by apply simR_ok|done].
Qed.

Lemma Forall2_eq_refl {A} (l : list A) : Forall2 eq l l.
Proof. by induction l; constructor. Qed.

Lemma same_get_truthy v w k : same v w -> simR eq (get_truthy v k) (get_truthy w k).
Proof. intros Hs. eapply simR_fmap; [by apply same_get|]. intros a b Hab. symmetry. by apply same_truthy. Qed.

Lemma same_get_is v w k s : same v w -> simR eq (get_is v k s) (get_is w k s).
Proof. intros Hs. eapply simR_fmap; [by apply same_get|]. intros a b Hab. symmetry. by apply same_eq_str. Qed.

Lemma same_item_is v w k s : same v w -> simR eq (item_is v k s) (item_is w k s).
Proof. intros Hs. eapply simR_fmap; [by apply same_getitem|]. intros a b Hab. symmetry. by apply same_eq_str. Qed.

Lemma same_count v w counts : same v w -> simR eq (count v counts) (count w counts).
Proof.
  intros Hs c Hc. unfold count, need_hashable in *. destruct (hashable v) eqn:Hh; [|discriminate Hc].
  rewrite (same_scalar _ _ Hs Hh), Hh. eauto.
Qed.

Lemma same_upper v w : same v w -> simR eq (upper_of v) (upper_of w).
Proof. intros Hs s Hx. destruct v; try discriminate Hx. rewrite (same_scalar _ _ Hs eq_refl). eauto. Qed.

Lemma same_set l l' : Forall2 same l l' -> simR eq (py_set l) (py_set l').
Proof.
  intros Hl s Hx. unfold py_set in *. destruct (forallb hashable l) eqn:Hh; [|discriminate Hx].
  assert (l' = l) as ->; [|rewrite Hh; eauto].
  clear Hx. induction Hl as [|x y l l' Hxy _ IH]; [done|]. cbn [forallb] in Hh.
  apply andb_true_iff in Hh as [Hx Hh]. by rewrite (same_scalar _ _ Hxy Hx), IH.
Qed.

Lemma same_sha v w : same v w -> _sha256 w = _sha256 v.
Proof. intros (_ & _ & E). by rewrite E. Qed.

Lemma same_text v w : same v w -> _canonical_json w = _canonical_json v.
Proof. intros (_ & _ & E). unfold _canonical_json. by rewrite E. Qed.

(** ** Walking through two runs *)

Lemma simR_refl {A} (m : result A) : simR eq m m.
Proof. intros a Ha. eauto. Qed.

Lemma simV_refl {A} (m : vres A) : simV eq m m.
Proof. intros a Ha. eauto. Qed.

Lemma simV_true {A B} (R : A -> B -> Prop) m m' : simV R m m' -> simV (fun _ _ => True) m m'.
Proof. intros H a Ha. destruct (H a Ha) as (b & E & _). eauto. Qed.

#[export] Hint Resolve same_getitem same_get same_popitem same_in_strset same_contains same_get_truthy
  same_get_is same_item_is same_count same_upper same_set simR_refl same_refl : keyorder.

(** Replace what is read of the second value by what is read of the first. *)
Ltac same_reads :=
  repeat match goal with
         | Hs : same ?v ?w |- context [py_eq ?w ?x] => rewrite (same_py_eq v w x Hs)
         | Hs : same ?v ?w |- context [py_eq ?x ?w] => rewrite (same_py_eq_r x v w Hs)
         | Hs : same ?v ?w |- context [eq_str ?w ?x] => rewrite (same_eq_str v w x Hs)
         | Hs : same ?v ?w |- context [is_dict ?w] => rewrite (same_is_dict v w Hs)
         | Hs : same ?v ?w |- context [is_list ?w] => rewrite (same_is_list v w Hs)
         | Hs : same ?v ?w |- context [is_none ?w] => rewrite (same_is_none v w Hs)
         | Hs : same ?v ?w |- context [truthy ?w] => rewrite (same_truthy v w Hs)
         | Hs : same ?v ?w |- context [_sha256 ?w] => rewrite (same_sha v w Hs)
         | Hs : same ?v ?w |- context [_canonical_json ?w] => rewrite (same_text v w Hs)
         end.

(** Two related results; equal ones are made one. *)
Ltac intro_rel :=
  let a := fresh "a" in let b := fresh "b" in let H := fresh "Hab" in
  intros a b H; cbv beta in H;
  try lazymatch type of H with _ = ?y => is_var y; subst y end.

Ltac simr :=
  lazymatch goal with
  | |- simR _ (andR _ _) _ => apply simR_and; simr
  | |- simR _ (mbind _ _) _ => eapply simR_bind; [simr|intro_rel; simr]
  | |- simR _ (fmap _ _) _ => eapply simR_fmap; [simr|intro_rel; same_reads; done]
  | |- simR _ (Ok _) (Ok _) => apply simR_ok; same_reads; done
  | |- simR _ (get_default _ _ _) _ => apply same_get_default; [eassumption|by apply same_refl]
  | |- simR _ (allR _ _) _ => eapply simR_all; [first [eassumption|apply Forall2_eq_refl]|intro_rel; simr]
  | |- simR _ (anyR _ _) _ => eapply simR_any; [first [eassumption|apply Forall2_eq_refl]|intro_rel; simr]
  | |- simR _ (mapR _ _) _ => eapply simR_mapR; [eassumption|intro_rel; simr]
  | |- _ => eauto with keyorder
  end.

Ltac simv :=
  lazymatch goal with
  | |- simV _ (let _ := _ in _) _ => cbv zeta; simv
  | |- simV _ (append_error _) _ => apply simV_append
  | |- simV _ (mbind _ (append_error _)) _ => apply simV_error
  | |- simV _ (mbind _ (lift _)) _ => eapply simV_bind; [apply simV_lift; solve [simr]|intro_rel; simv]
  | |- simV _ (mbind _ (_expect _ _)) _ =>
      eapply simV_bind; [apply simV_expect; same_reads; done|intro_rel; simv]
  | |- simV _ (mbind _ _) _ => eapply simV_bind; [solve [simv]|intro_rel; simv]
  | |- simV _ (_expect _ _) _ => eapply simV_true, simV_expect; same_reads; done
  | |- simV _ (expectR _ _) _ => eapply simV_expectR, (simR_weaken eq); [solve [simr]|by intros ? ? <-]
  | |- simV _ (for_each _ _) _ =>
      eapply simV_for_each; [first [eassumption|apply Forall2_eq_refl]|intro_rel; solve [simv]]
  | |- simV _ (if ?b then _ else _) _ =>
      same_reads; let E := fresh "Eb" in destruct b eqn:E; simv
  | |- simV _ (VOk [] _) (VOk [] _) => apply simV_ok; done
  | |- simV _ ?m ?m => apply (simV_true eq), simV_refl
  | |- _ => eauto with keyorder
  end.

Lemma same_as_list v w :
  same v w -> is_list v = true -> simR (Forall2 same) (as_list v) (as_list w).
Proof.
  intros Hs Hl. destruct v; try discriminate Hl. destruct (same_list _ _ Hs) as (l' & -> & Hl').
  by apply simR_ok.
Qed.

(** Iteration over something that may be a dict, when the loop fails on a key. *)
Lemma simV_as_list {A} v w (f f' : list json -> vres A) :
  same v w -> (forall l l', Forall2 same l l' -> simV (fun _ _ => True) (f l) (f' l')) ->
  (forall s l a, f (JStr s :: l) <> VOk [] a) ->
  simV (fun _ _ => True) (mbind f (lift (as_list v))) (mbind f' (lift (as_list w))).
Proof.
  intros Hs Hf Hk. destruct (is_list v) eqn:El.
  { eapply simV_bind; [by apply simV_lift, same_as_list|]. exact Hf. }
  intros x Hx. apply vbind_ok in Hx as (l & El' & Hx).
  destruct v as [| | | |s| |d]; try discriminate El'; try discriminate El.
  - injection El' as <-. rewrite (same_scalar _ _ Hs eq_refl). destruct s as [|ch s]; [|by apply Hk in Hx].
    destruct (Hf [] [] ltac:(constructor) x Hx) as (y & E & _). exists y. split; [|done]. apply vbind_ok.
    by exists [].
  - injection El' as <-. destruct d as [|[k v] d]; [|by apply Hk in Hx].
    destruct (same_obj _ _ Hs) as (d' & -> & Hp & _). destruct d'; [|by apply Permutation_nil_cons in Hp].
    destruct (Hf [] [] ltac:(constructor) x Hx) as (y & E & _). exists y. split; [|done]. apply vbind_ok.
    by exists [].
Qed.

Lemma same_table_get {A} (t : list (string * A)) v w :
  same v w -> simR (fun a b => a = b /\ w = v) (table_get t v) (table_get t w).
Proof.
  intros Hs b Hb. unfold table_get, need_hashable in *. destruct (hashable v) eqn:Hh; [|discriminate Hb].
  rewrite (same_scalar _ _ Hs Hh), Hh. eauto.
Qed.

Lemma same_cost_blockers l l' : Forall2 same l l' -> simR eq (_cost_blockers l) (_cost_blockers l').
Proof.
  induction 1 as [|x y l l' Hxy _ IH]; cbn [_cost_blockers]; [by apply simR_ok|].
  eapply simR_bind; [simr|]. intros st st' Hst. rewrite (same_eq_str _ _ _ Hst).
  destruct (negb _); [exact IH|]. eapply simR_bind; [simr|]. intros ty ty' Hty.
  eapply simR_bind; [by apply same_table_get|]. intros o ? [<- _]. destruct o; [|apply simR_raise].
  eapply simR_bind; [exact IH|]. intros r ? <-. by apply simR_ok.
Qed.

Lemma simV_fmap {A B} (f : A -> B) m m' : simV eq m m' -> simV eq (f <$> m) (f <$> m').
Proof.
  intros Hm b Hb. destruct m as [errs a|]; [|discriminate Hb]. injection Hb as -> <-.
  destruct (Hm a eq_refl) as (? & -> & <-). eauto.
Qed.

Lemma same_cost_valid v w : same v w -> simR eq (cost_is_valid v) (cost_is_valid w).
Proof.
  intros Hs. unfold cost_is_valid. rewrite (same_is_dict _ _ Hs). destruct (negb _); [by apply simR_ok|].
  simr.
Qed.

(** ** The checks *)

Section Files.
Context (ROOT : list string) (file_at : list string -> option file) (exc_text : exn -> string).

Abbreviation agree := (simV (fun _ _ : unit => True)).

Lemma scope_agree v w : same v w -> agree (check_scope v) (check_scope w).
Proof. intros Hs. unfold check_scope. simv. Qed.

Lemma binding_agree v w :
  same v w -> agree (check_binding ROOT file_at v) (check_binding ROOT file_at w).
Proof.
  intros Hs. unfold check_binding. rewrite (same_is_dict v w Hs).
  destruct (negb (is_dict v)); [apply simV_append|].
  eapply simV_bind; [apply simV_lift; simr|]. intros role role' _.
  eapply simV_bind; [apply simV_lift; simr|]. intros path path' Hp.
  destruct path; try apply simV_append. rewrite (same_scalar _ _ Hp eq_refl). cbv zeta.
  destruct (negb (is_under ROOT _)); [apply simV_append|].
  eapply simV_bind; [apply simV_lift; simr|]. intros required ? <-.
  destruct (required && _); [apply simV_append|]. destruct (is_file file_at _); [|by apply simV_ok].
  simv.
Qed.

Lemma authority_of_agree l l' : Forall2 same l l' -> simR (Forall2 same) (authority_of l) (authority_of l').
Proof.
  induction 1 as [|x y l l' Hxy _ IH]; cbn [authority_of]; [by apply simR_ok|].
  eapply simR_bind; [simr|]. intros here ? <-. eapply simR_bind; [exact IH|]. intros r r' Hr.
  apply simR_ok. destruct here; [by constructor|done].
Qed.

Lemma authority_agree l l' : Forall2 same l l' ->
  agree (check_authority ROOT file_at exc_text l) (check_authority ROOT file_at exc_text l').
Proof.
  intros Hl. unfold check_authority. eapply simV_bind; [apply simV_lift, authority_of_agree, Hl|].
  intros bs bs' Hb. eapply simV_bind; [apply simV_expect|].
  { by rewrite (Forall2_length Hb). }
  intros _ _ _. destruct Hb as [|b b' bs bs' Hbb Hb]; [by apply simV_ok|].
  destruct Hb; [|by apply simV_ok]. eapply simV_bind; [apply simV_lift; simr|]. intros path path' Hp.
  destruct path; try apply simV_raise. rewrite (same_scalar _ _ Hp eq_refl). cbv zeta.
  apply (simV_true eq), simV_refl.
Qed.

Lemma sources_agree v w : same v w ->
  agree (check_source_bindings ROOT file_at exc_text v) (check_source_bindings ROOT file_at exc_text w).
Proof.
  intros Hs. unfold check_source_bindings. eapply simV_bind; [apply simV_expect; by same_reads|].
  intros ? ? Hl. cbv beta in Hl. destruct v; try discriminate Hl. destruct (same_list _ _ Hs) as (l' & -> & Hl').
  eapply simV_bind; [apply simV_expect; by rewrite (same_py_eq _ _ _ Hs)|]. intros _ _ _.
  eapply simV_bind; [eapply simV_for_each; [exact Hl'|apply binding_agree]|]. intros _ _ _.
  by apply authority_agree.
Qed.

(** The sections of two cards. *)
Record same_sections (c c' : sections) : Prop := SameSections {
  ss_card : same (sec_card c) (sec_card c');
  ss_action : same (sec_action c) (sec_action c');
  ss_venue : same (sec_venue c) (sec_venue c');
  ss_baseline : same (sec_baseline c) (sec_baseline c');
  ss_pnl : same (sec_pnl c) (sec_pnl c');
  ss_classification : same (sec_classification c) (sec_classification c');
  ss_costs : same (sec_costs c) (sec_costs c');
  ss_data : same (sec_data c) (sec_data c');
  ss_ext : same (sec_ext c) (sec_ext c');
  ss_blockers : same (sec_blockers c) (sec_blockers c')
}.

Lemma sections_agree v w : same v w -> simR same_sections (get_sections v) (get_sections w).
Proof.
  intros Hs. unfold get_sections. repeat (eapply simR_bind; [by apply same_getitem|]; intros ? ? ?).
  by apply simR_ok, SameSections.
Qed.

Section Card.
Context (id : string) (s : seed) (c c' : sections) (cc : same_sections c c').

Lemma typed_agree : sections_typed c' = sections_typed c.
Proof. destruct cc. unfold sections_typed. by same_reads. Qed.

Lemma types_agree : agree (check_types id c) (check_types id c').
Proof. destruct cc. unfold check_types. simv. Qed.

Lemma identity_agree i i' : same i i' -> agree (check_identity id s i c) (check_identity id s i' c').
Proof. intros Hi. destruct cc. unfold check_identity. simv. Qed.

Lemma action_agree : agree (check_action id s c) (check_action id s c').
Proof. destruct cc. unfold check_action. simv. Qed.

Lemma signal_fields_agree : agree (check_signal_fields id c) (check_signal_fields id c').
Proof. destruct cc. unfold check_signal_fields. simv. Qed.

Lemma contracts_agree : agree (check_contracts id s c) (check_contracts id s c').
Proof. destruct cc. unfold check_contracts. simv. Qed.

Lemma no_action_agree : agree (check_no_action id c) (check_no_action id c').
Proof. destruct cc. unfold check_no_action. simv. Qed.

Lemma result_agree : agree (check_result id s c) (check_result id s c').
Proof. destruct cc. unfold check_result. simv. Qed.

Lemma typed_lists : sections_typed c = true ->
  is_list (sec_costs c) = true /\ is_list (sec_blockers c) = true.
Proof. unfold sections_typed. rewrite !andb_true_iff. tauto. Qed.

Lemma external_agree has_action : sections_typed c = true ->
  agree (check_external id has_action c) (check_external id has_action c').
Proof.
  intros [Hlc _]%typed_lists. destruct cc. unfold check_external.
  eapply simV_bind; [apply simV_lift; simr|]. intros d d' Hd.
  eapply (simV_bind (fun _ _ => True)); [|intros _ _ _; simv]. rewrite (same_eq_str _ _ _ Hd).
  destruct (eq_str d "REQUIRED"); [|by apply simV_ok].
  do 4 (eapply (simV_bind (fun _ _ => True)); [simv|intros _ _ _]). destruct has_action; [|by apply simV_ok].
  eapply (simV_bind (fun _ _ => True)); [simv|intros _ _ _].
  eapply simV_bind; [by apply simV_lift, same_as_list|]. intros costs costs' Hc. simv.
Qed.

Lemma study_dates_same p st st' : same st st' -> same (_study_dates p st) (_study_dates p st').
Proof.
  intros Hs. unfold _study_dates. rewrite !(same_eq_str _ _ _ Hs).
  apply same_JObj; [apply nodupb_spec; reflexivity|].
  repeat (constructor; [split; [reflexivity|]; cbn [snd]|]); try done; apply same_refl;
    repeat case_match; first [apply wf_strs|done].
Qed.

Lemma dates_agree : agree (check_dates id s c) (check_dates id s c').
Proof.
  destruct cc. unfold check_dates. eapply simV_bind; [apply simV_lift; simr|]. intros can can' Hcan.
  eapply simV_bind; [apply simV_lift; simr|]. intros st st' Hst.
  pose proof (study_dates_same (data_profile s) _ _ Hst) as Hd.
  eapply (simV_bind (fun _ _ => True)); [simv|intros _ _ _]. eapply (simV_bind (fun _ _ => True)); [simv|intros _ _ _]. simv.
Qed.

Lemma has_action_agree : sections_typed c = true ->
  agree (check_has_action id c) (check_has_action id c').
Proof.
  intros [Hlc Hlb]%typed_lists. destruct cc. unfold check_has_action.
  do 5 (eapply (simV_bind (fun _ _ => True)); [simv|intros _ _ _]). eapply (simV_bind (fun _ _ => True)); [simv|intros _ _ _].
  eapply simV_bind; [by apply simV_lift, same_as_list|]. intros costs costs' Hcosts.
  eapply simV_bind.
  { apply simV_fmap. eapply (simV_for_fold same eq); [exact Hcosts| |done].
    intros [i b] ? x y <- Hxy. unfold check_cost. eapply simV_bind; [by apply simV_lift, same_cost_valid|].
    intros ok ? <-. eapply simV_bind; [apply (simV_true eq), simV_refl|]. intros _ _ _. by apply simV_ok. }
  intros valid ? <-. destruct valid; [|by apply simV_ok].
  eapply simV_bind; [by apply simV_lift, same_cost_blockers|]. intros mb ? <-.
  eapply simV_bind; [by apply simV_lift, same_as_list|]. intros bl bl' Hbl.
  eapply simV_bind; [by apply simV_lift, same_set|]. intros ? ? <-.
  eapply simV_true, simV_expect. intros Hf. rewrite forallb_forall in *. intros b Hin.
  rewrite (same_in_list _ _ _ Hbl). by apply Hf.
Qed.

Lemma derived_agree : sections_typed c = true -> agree (check_derived id s c) (check_derived id s c').
Proof.
  intros [_ Hlb]%typed_lists. destruct cc. unfold check_derived.
  eapply simV_bind; [by apply simV_lift, same_as_list|]. intros bl bl' Hbl.
  eapply (simV_bind (fun _ _ => True)); [simv|intros _ _ _].
  do 4 (eapply simV_bind; [apply simV_lift, simR_refl|intros ? ? <-]). cbv zeta.
  eapply simV_bind; [apply simV_lift, simR_refl|intros ? ? <-].
  eapply simV_bind; [apply simV_expect; by same_reads|intros _ _ _].
  do 3 (eapply simV_bind; [apply simV_lift, simR_refl|intros ? ? <-]).
  eapply simV_bind; [apply simV_expect; by same_reads|intros _ _ _].
  eapply simV_bind; [apply simV_lift; simr|]. intros gaps gaps' Hgaps.
  apply simV_as_list; [done| |].
  - intros l l' Hl. eapply (simV_bind (fun _ _ => True)); [|intros _ _ _; simv].
    eapply simV_expectR, (simR_weaken eq); [|by intros ? ? <-].
    eapply simR_bind; [simr|]. intros bs bs' Hbs%same_JList. simr.
  - intros k l x Hx. apply vbind_ok in Hx as ([] & Hx & _). apply clean_expectR in Hx. discriminate Hx.
Qed.

Lemma seeded_agree i i' : same i i' -> agree (check_seeded id s i c) (check_seeded id s i' c').
Proof.
  intros Hi. unfold check_seeded. eapply simV_bind; [apply types_agree|intros _ _ _].
  rewrite typed_agree. destruct (sections_typed c) eqn:Ht; cbn [negb]; [|by apply simV_ok].
  eapply simV_bind; [by apply identity_agree|intros _ _ _].
  eapply simV_bind; [apply action_agree|intros _ _ _].
  eapply simV_bind; [apply simV_lift, same_get_truthy, cc|]. intros has_action ? <-.
  eapply simV_bind; [apply signal_fields_agree|intros _ _ _].
  eapply simV_bind; [apply contracts_agree|intros _ _ _].
  eapply simV_bind; [|intros _ _ _].
  { destruct has_action; cbn [negb]; [by apply has_action_agree|apply no_action_agree]. }
  eapply simV_bind; [by apply derived_agree|intros _ _ _].
  eapply simV_bind; [by apply external_agree|intros _ _ _].
  eapply simV_bind; [apply dates_agree|intros _ _ _]. apply result_agree.
Qed.
End Card.

Lemma card_agree seeds id id' i i' v w :
  same id id' -> same i i' -> same v w -> agree (check_card seeds id i v) (check_card seeds id' i' w).
Proof.
  intros Hid Hi Hs. unfold check_card. eapply simV_bind; [apply simV_lift; simr|]. intros sha sha' Hsha.
  eapply simV_bind; [apply simV_lift; simr|]. intros rest rest' Hrest.
  eapply simV_bind; [apply simV_expect; by same_reads|intros _ _ _].
  eapply (simV_bind (fun d d' => keys d ≡ₚ keys d')).
  { apply simV_lift. intros d Hd. destruct v; try discriminate Hd. apply Ok_inj in Hd as <-.
    destruct (same_obj _ _ Hs) as (d' & -> & Hp & _). by exists d'. }
  intros d d' Hd. cbv zeta.
  assert (forallb (fun k => str_in k (keys d')) required_sections
          = forallb (fun k => str_in k (keys d)) required_sections) as ->.
  { apply eq_true_iff_eq. rewrite !forallb_forall. split; intros H k Hk; apply str_in_spec;
      (eapply Permutation_in; [|apply str_in_spec, (H k Hk)]); done. }
  eapply simV_bind; [by apply simV_expect|intros _ _ _].
  destruct (negb _); [by apply simV_ok|].
  eapply simV_bind; [by apply simV_lift, same_table_get|]. intros o ? [<- ->].
  destruct o as [s|]; [|apply simV_append]. destruct id; try apply simV_append.
  eapply simV_bind; [by apply simV_lift, sections_agree|]. intros c c' Hc. by apply seeded_agree.
Qed.

Lemma step_agree seeds counts v w : same v w -> simV eq (card_step seeds counts v) (card_step seeds counts w).
Proof.
  intros Hs. unfold card_step. rewrite (same_is_dict _ _ Hs). destruct (negb _); [apply simV_error|].
  eapply simV_bind; [apply simV_lift; simr|]. intros i i' Hi.
  eapply simV_bind; [apply simV_lift; simr|]. intros id id' Hid.
  eapply simV_bind; [apply simV_lift; simr|]. intros f f' Hf.
  eapply simV_bind; [apply simV_lift; simr|]. intros counts' ? <-.
  eapply simV_bind; [by apply card_agree|]. intros _ _ _. by apply simV_ok.
Qed.

(** The cards by ID. *)
Definition same_index (d d' : list (json * json)) : Prop :=
  Forall2 (fun kv kv' => fst kv = fst kv' /\ same (snd kv) (snd kv')) d d'.

Lemma index_put k v w d d' : same v w -> same_index d d' -> same_index (dict_put k v d) (dict_put k w d').
Proof.
  intros Hs. unfold same_index. induction 1 as [|[k1 v1] [k2 v2] d d' [Hk Hv] Hd IH]; cbn [dict_put fst snd] in *.
  - constructor; [done|apply Forall2_nil_2].
  - subst k2. destruct (py_eq k k1); apply Forall2_cons_2; done.
Qed.

Lemma index_agree l l' : Forall2 same l l' -> forall d d', same_index d d' ->
  simR same_index (index_cards l d) (index_cards l' d').
Proof.
  induction 1 as [|v w l l' Hs _ IH]; intros d d' Hd; cbn [index_cards]; [by apply simR_ok|].
  eapply simR_bind; [simr|]. intros i i' Hi. eapply simR_bind; [simr|]. intros id id' Hid.
  unfold need_hashable. rewrite (same_hashable _ _ Hid). destruct (hashable id) eqn:Hh; [|apply simR_raise].
  cbn [mbind result_bind]. rewrite (same_scalar _ _ Hid Hh). apply IH. by apply index_put.
Qed.

Lemma when_agree d d' id k : same_index d d' ->
  (forall v w, same v w -> agree (k v) (k w)) -> agree (when_card d id k) (when_card d' id k).
Proof.
  intros Hd Hk. unfold when_card.
  induction Hd as [|[k1 v1] [k2 v2] d d' [Hk1 Hv] Hd IH]; cbn [dict_get fst snd] in *; [by apply simV_ok|].
  subst k2. destruct (py_eq _ k1); [by apply Hk|exact IH].
Qed.

Lemma child_agree v w : same v w -> agree (check_child v) (check_child w).
Proof. intros Hs. unfold check_child. simv. Qed.

Lemma cross_agree l l' : Forall2 same l l' -> agree (check_cross l) (check_cross l').
Proof.
  intros Hl. unfold check_cross. eapply simV_bind; [apply simV_lift, index_agree; [done|constructor]|].
  intros d d' Hd.
  eapply simV_bind; [eapply (simV_for_each eq); [apply Forall2_eq_refl|]|intros _ _ _].
  { intros id ? <-. apply when_agree; [done|]. intros v w Hs. simv. }
  eapply simV_bind; [eapply (simV_for_each eq); [apply Forall2_eq_refl|]|intros _ _ _].
  { intros id ? <-. apply when_agree; [done|]. intros v w Hs. simv. }
  eapply simV_bind; [apply when_agree; [done|]; intros v w Hs; simv|intros _ _ _].
  eapply simV_bind; [eapply simV_for_each; [exact Hl|apply child_agree]|intros _ _ _].
  eapply simV_bind; [apply when_agree; [done|]; intros v w Hs; simv|intros _ _ _].
  eapply simV_bind; [apply when_agree; [done|]; intros v w Hs; simv|intros _ _ _].
  apply when_agree; [done|]. intros v w Hs. simv.
Qed.

Lemma card_ids_agree l l' : Forall2 same l l' -> simR (Forall2 same) (card_ids l) (card_ids l').
Proof.
  induction 1 as [|v w l l' Hs _ IH]; cbn [card_ids]; [by apply simR_ok|].
  rewrite (same_is_dict _ _ Hs). destruct (is_dict v); [|exact IH].
  eapply simR_bind; [simr|]. intros i i' Hi. eapply simR_bind; [simr|]. intros id id' Hid.
  eapply simR_bind; [exact IH|]. intros ids ids' Hids. apply simR_ok. by constructor.
Qed.

Lemma ids_agree l l' : Forall2 same l l' -> agree (check_ids l) (check_ids l').
Proof.
  intros Hl. unfold check_ids. rewrite <- (Forall2_length Hl).
  eapply simV_bind; [by apply simV_lift, card_ids_agree|]. intros ids ids' Hids.
  pose proof (same_JList _ _ Hids) as Hj. pose proof (Forall2_length Hids) as Hn.
  eapply simV_bind; [by apply simV_expect|intros _ _ _].
  eapply simV_bind; [apply simV_expect; by same_reads|intros _ _ _].
  eapply simV_bind; [by apply simV_lift, same_set|]. intros d ? <-. rewrite <- Hn. simv.
Qed.

Lemma experiments_agree l l' : Forall2 same l l' -> agree (check_experiments l) (check_experiments l').
Proof.
  intros Hl. unfold check_experiments. eapply simV_bind; [by apply ids_agree|intros _ _ _].
  eapply simV_bind; [apply simV_lift, simR_refl|]. intros seeds ? <-.
  eapply (simV_bind eq).
  { eapply (simV_for_fold same eq); [exact Hl| |done]. intros counts ? v w <- Hs. by apply step_agree. }
  intros counts ? <-. eapply simV_bind; [by apply simV_expect|intros _ _ _]. by apply cross_agree.
Qed.

Lemma count_cards_agree l l' : Forall2 same l l' ->
  forall f c t, simR eq (count_cards l f c t) (count_cards l' f c t).
Proof.
  induction 1 as [|v w l l' Hs _ IH]; intros f c t; cbn [count_cards]; [apply simR_refl|].
  do 5 (eapply simR_bind; [simr|intros ? ? ?]). do 3 (eapply simR_bind; [simr|intros ? ? <-]). apply IH.
Qed.

Lemma eligible_agree l l' : Forall2 same l l' ->
  forall acc, simR eq (sum_eligible_of l acc) (sum_eligible_of l' acc).
Proof.
  induction 1 as [|v w l l' Hs _ IH]; intros acc; cbn [sum_eligible_of]; [apply simR_refl|].
  eapply simR_bind; [simr|]. intros cl cl' Hcl. eapply simR_bind; [simr|]. intros e e' He.
  eapply (simR_bind eq); [|intros acc' ? <-; apply IH].
  intros z Hz. unfold add_value in *. destruct e; try discriminate Hz;
    rewrite (same_scalar _ _ He eq_refl); eauto.
Qed.

Lemma summary_agree l l' : Forall2 same l l' -> simR eq (_summary_for_cards l) (_summary_for_cards l').
Proof.
  intros Hl. unfold _summary_for_cards. rewrite <- (Forall2_length Hl).
  eapply simR_bind; [by apply count_cards_agree|]. intros [[f c] t] ? <-.
  eapply simR_bind; [by apply eligible_agree|]. intros e ? <-. apply simR_refl.
Qed.

Lemma tail_agree v w l l' : same v w -> Forall2 same l l' -> agree (check_tail v l) (check_tail w l').
Proof.
  intros Hs Hl. unfold check_tail. eapply simV_bind; [apply simV_lift; simr|]. intros st st' Hst.
  eapply simV_bind; [by apply simV_lift, summary_agree|]. intros sm ? <-.
  eapply simV_bind; [apply simV_expect|intros _ _ _].
  { unfold summary_is. destruct (summary_json sm); [by same_reads|done]. }
  simv.
Qed.

Lemma validate_agree v w : same v w ->
  agree (validate ROOT file_at exc_text v) (validate ROOT file_at exc_text w).
Proof.
  intros Hs. unfold validate. do 2 (eapply (simV_bind (fun _ _ => True)); [simv|intros _ _ _]).
  eapply simV_bind; [apply simV_lift; simr|]. intros scope scope' Hscope.
  eapply simV_bind; [by apply scope_agree|intros _ _ _].
  eapply simV_bind; [apply simV_lift; simr|]. intros sb sb' Hsb.
  eapply simV_bind; [by apply sources_agree|intros _ _ _].
  eapply (simV_bind (fun _ _ => True)); [simv|intros _ _ _].
  eapply simV_bind; [apply simV_lift; simr|]. intros ex ex' Hex.
  eapply simV_bind; [apply simV_expect; by same_reads|]. intros ? ? Hl. cbv beta in Hl.
  destruct ex; try discriminate Hl. destruct (same_list _ _ Hex) as (l' & -> & Hl').
  eapply simV_bind; [by apply experiments_agree|intros _ _ _]. by apply tail_agree.
Qed.

(** The verdict does not depend on the order of keys. *)
Lemma verdict_same v w : same v w ->
  validate_registry ROOT file_at exc_text v = Ok [] <-> validate_registry ROOT file_at exc_text w = Ok [].
Proof.
  assert (forall v w, same v w -> validate_registry ROOT file_at exc_text v = Ok [] ->
            validate_registry ROOT file_at exc_text w = Ok []) as Hi.
  { intros v' w' Hs Hv. unfold validate_registry in *.
    destruct (validate ROOT file_at exc_text v') as [errs u|] eqn:E; [|discriminate Hv].
    apply Ok_inj in Hv as ->. by destruct (validate_agree v' w' Hs u E) as (? & -> & _). }
  intros Hs. split; [by apply Hi|]. apply Hi. by apply same_sym.
Qed.
End Files.
