(* ===== verification/RegistryProperties.v ===== *)
(** * Properties of the experiment registry

    The claims about the builder, the seeds and the validator, each with a
    witness at a concrete seed, card or registry where it has hypotheses. *)

From stdpp Require Import base list strings numbers.
From Stdlib Require Import ZArith Lia Bool Ascii.
From S2P Require Import Prelude PyJson Sha256 JsonText JsonRoundtrip RegistryTables ActionProfiles.
From S2P Require Import DataProfiles Seeds Builder Validator BuilderFacts ValidatorFacts.
From S2P Require Import RegistryFacts Soundness.

(** * Helper lemmas *)

(** ** Seeds that pass the import-time check *)

Lemma guard_ok b msg u : guard b msg = Ok u -> b = true.
Proof. by destruct b. Qed.

Lemma set_minus_nil a b : set_minus a b = [] -> forallb (fun x => str_in x b) a = true.
Proof.
  unfold set_minus. induction a as [|x a IH]; cbn; [done|].
  destruct (str_in x b); cbn; [auto|done].
Qed.

(** The families the loop counts. *)
Lemma bump_keys k counts : keys (bump k counts) = keys counts.
Proof.
  unfold bump. destruct (assoc k counts) as [n|] eqn:E; [|done]. clear -E. generalize (n + 1)%Z as m.
  induction counts as [|[k' v] c IH]; [done|]. cbn in *.
  destruct (String.eqb_spec k k') as [->|Hne]; intros m; cbn; [done|]. f_equal. by apply IH.
Qed.

Lemma family_known k :
  str_in k (keys _EXPECTED_FAMILY_COUNTS) = true -> exists name, assoc k FAMILY_NAMES = Some name.
Proof. intros H. apply assoc_of_key. revert H. apply str_in_incl. reflexivity. Qed.

Lemma validate_one_known st id s st' :
  keys (family_counts st) = keys _EXPECTED_FAMILY_COUNTS ->
  validate_one st (id, s) = Ok st' ->
  known_seed s = true /\ is_ok (family_of id) = true /\
  keys (family_counts st') = keys _EXPECTED_FAMILY_COUNTS.
Proof.
  intros Hk H. unfold validate_one in H. cbn zeta in H.
  apply bind_ok in H as (fam & Hf & H). apply bind_ok in H as (? & Hfam%guard_ok & H).
  apply bind_ok in H as (? & _ & H). apply bind_ok in H as (? & _ & H).
  apply bind_ok in H as (? & Ha%guard_ok & H). apply bind_ok in H as (? & Hd%guard_ok & H).
  apply bind_ok in H as (? & He%guard_ok & H). apply bind_ok in H as (? & _ & H).
  apply bind_ok in H as (? & Hb%guard_ok & H). do 4 apply bind_ok in H as (? & _ & H).
  apply Ok_inj in H as <-. cbn [family_counts]. split; [|split].
  - unfold known_seed. rewrite !andb_true_iff. repeat split.
    + revert Ha. apply str_in_incl. reflexivity.
    + revert Hd. apply str_in_incl. reflexivity.
    + revert He. apply str_in_incl. reflexivity.
    + destruct (set_minus (extra_blockers s) _KNOWN_BLOCKERS) eqn:E; [|done].
      apply set_minus_nil in E. rewrite forallb_forall in *. intros b Hin.
      specialize (E b Hin). revert E. apply str_in_incl. reflexivity.
  - unfold family_of. rewrite Hf. cbn [mbind result_bind].
    destruct (assoc fam (family_counts st)) eqn:E; [|done].
    destruct (family_known fam) as [name ->]; [|done].
    apply str_in_spec. rewrite <- Hk. apply assoc_in in E. by apply (in_map fst) in E.
  - by rewrite bump_keys.
Qed.

Lemma validate_loop_known l st st' :
  keys (family_counts st) = keys _EXPECTED_FAMILY_COUNTS ->
  validate_loop st l = Ok st' ->
  forall id s, In (id, s) l -> known_seed s = true /\ is_ok (family_of id) = true.
Proof.
  revert st. induction l as [|[id s] l IH]; intros st Hk H id' s' Hin; [done|].
  cbn [validate_loop] in H. apply bind_ok in H as (st1 & H1 & H).
  destruct (validate_one_known _ _ _ _ Hk H1) as (Hs & Hf & Hk1).
  destruct Hin as [[= <- <-]|Hin]; [done|]. by apply (IH st1).
Qed.

Lemma validated_known seeds :
  _validate_seeds seeds = Ok tt ->
  forall id s, In (id, s) seeds -> known_seed s = true /\ is_ok (family_of id) = true.
Proof.
  unfold _validate_seeds. intros (? & _ & H)%bind_ok. apply bind_ok in H as (st & Hl & _).
  eapply validate_loop_known; [|exact Hl]. reflexivity.
Qed.

(** ** Registration *)

Lemma register_all_dup t l :
  nodupb (keys t) = true -> nodupb (keys t ++ map experiment_id l) = false ->
  exists id, In id (map experiment_id l) /\
    register_all t l = Raise (ValueError ("duplicate experiment seed: " +:+ id)).
Proof.
  revert t. induction l as [|a l IH]; intros t Ht Hd; cbn [map] in *.
  { rewrite app_nil_r in Hd. congruence. }
  cbn [register_all]. destruct (assoc (experiment_id a) t) as [s|] eqn:E.
  - exists (experiment_id a). split; [by left|]. by rewrite (register_duplicate _ _ _ E).
  - pose proof E as Hni. apply assoc_none in Hni. unfold _register. rewrite E.
    cbn [mbind result_bind]. rewrite assoc_set_fresh by done.
    destruct (IH (t ++ [(experiment_id a, seed_of_args a)])) as (id & Hin & Hr).
    + apply nodupb_spec. apply nodupb_spec in Ht. unfold keys in *. rewrite map_app.
      cbn [map fst]. eapply Permutation_NoDup; [apply Permutation_cons_append|]. by constructor.
    + unfold keys in *. rewrite map_app, <- app_assoc. exact Hd.
    + exists id. split; [by right|exact Hr].
Qed.

(** ** Steps that return *)

(** A step that does not raise. *)
Definition returns {A} (m : vres A) : Prop := exists errs a, m = VOk errs a.

Lemma returns_bind {A B} (m : vres A) (f : A -> vres B) :
  returns (m ≫= f) -> exists errs a, m = VOk errs a /\ returns (f a).
Proof.
  intros (errs & b & H). destruct m as [e1 a|e]; [|done]. exists e1, a. split; [done|].
  cbn in H. destruct (f a) as [e2 b2|] eqn:E; [|done]. by exists e2, b2.
Qed.

Lemma returns_lift {A B} (r : result A) (f : A -> vres B) :
  returns (lift r ≫= f) -> exists a, r = Ok a /\ returns (f a).
Proof.
  intros (errs & a & H & Hf)%returns_bind. destruct r as [a'|]; [|done].
  injection H as <- <-. eauto.
Qed.

Lemma index_cards_dicts cards d by_id :
  index_cards cards d = Ok by_id -> forall card, In card cards -> is_dict card = true.
Proof.
  revert d. induction cards as [|c cards IH]; intros d H card Hin; [done|].
  cbn [index_cards] in H. apply bind_ok in H as (i & Hi & H). apply bind_ok in H as (x & _ & H).
  apply bind_ok in H as (? & _ & H). destruct Hin as [<-|Hin]; [by destruct c|by eapply IH].
Qed.

Lemma count_cards_classified cards f c t r :
  count_cards cards f c t = Ok r ->
  forall card, In card cards -> exists cl, getitem card "classification" = Ok cl.
Proof.
  revert f c t. induction cards as [|x cards IH]; intros f c t H card Hin; [done|].
  cbn [count_cards] in H. apply bind_ok in H as (? & _ & H). apply bind_ok in H as (? & _ & H).
  apply bind_ok in H as (cl & Hcl & H). do 5 apply bind_ok in H as (? & _ & H).
  destruct Hin as [<-|Hin]; [eauto|by eapply IH].
Qed.

(** Validation that returns has seen only dicts with a classification. *)
Lemma validate_returns ROOT file_at exc_text r cards :
  get r "experiments" = Ok (JList cards) -> returns (validate ROOT file_at exc_text r) ->
  forall card, In card cards ->
    is_dict card = true /\ exists cl, getitem card "classification" = Ok cl.
Proof.
  intros Hex H card Hin. unfold validate in H. do 2 apply returns_bind in H as (? & ? & _ & H).
  apply returns_lift in H as (sc & _ & H). apply returns_bind in H as (? & ? & _ & H).
  apply returns_lift in H as (sb & _ & H). do 2 apply returns_bind in H as (? & ? & _ & H).
  apply returns_lift in H as (ex & Hex' & H). rewrite Hex in Hex'. apply Ok_inj in Hex' as <-.
  apply returns_bind in H as (? & ? & _ & H).
  apply returns_bind in H as (e1 & [] & He & Ht). split.
  - assert (returns (check_experiments cards)) as H' by by exists e1, tt.
    unfold check_experiments in H'. apply returns_bind in H' as (? & ? & _ & H').
    apply returns_lift in H' as (? & _ & H'). do 2 apply returns_bind in H' as (? & ? & _ & H').
    unfold check_cross in H'. apply returns_lift in H' as (by_id & Hi & _).
    by eapply index_cards_dicts.
  - unfold check_tail in Ht. apply returns_lift in Ht as (? & _ & Ht).
    apply returns_lift in Ht as (sm & Hsm & _). unfold _summary_for_cards in Hsm.
    apply bind_ok in Hsm as ([[f c] t] & Hc & _). by eapply count_cards_classified.
Qed.

Lemma authority_of_dicts bindings l :
  authority_of bindings = Ok l -> forall b, In b bindings -> is_dict b = true.
Proof.
  revert l. induction bindings as [|x bindings IH]; intros l H b Hin; [done|].
  cbn [authority_of] in H. apply bind_ok in H as (h & Hh & H). apply bind_ok in H as (r & Hr & _).
  destruct Hin as [<-|Hin]; [by destruct x|by eapply IH].
Qed.

(** ** Costs of arbitrary cards *)

Lemma valid_cost_reads c :
  cost_is_valid c = Ok true ->
  exists t st, getitem c "type" = Ok (JStr t) /\ getitem c "status" = Ok (JStr st) /\
    str_in t COST_TYPES = true.
Proof.
  unfold cost_is_valid. destruct c as [| | | | | |d]; try done. cbn [is_dict negb].
  intros [[[Ht _]%andR_true Hs]%andR_true _]%andR_true.
  unfold get in Ht, Hs. cbn [get_default mbind result_bind] in Ht, Hs. cbn [getitem].
  destruct (assoc "type" d) as [[| | | |t| |]|]; try done.
  destruct (assoc "status" d) as [[| | | |st| |]|]; try done.
  exists t, st. repeat split. by apply Ok_inj in Ht.
Qed.

Lemma mapped_cost t :
  str_in t COST_TYPES = true ->
  (exists b, assoc t blocker_by_cost_type = Some b /\ str_in b CRITICAL_BLOCKERS = true) \/
  (t = "SPREAD_CROSSING" /\ assoc t blocker_by_cost_type = None).
Proof.
  intros H%str_in_spec. cbn in H.
  repeat (destruct H as [<-|H];
    [first [left; eexists; split; reflexivity|right; split; reflexivity]|]). destruct H.
Qed.

(** ** What the parts carry *)

Lemma action_no_authority id s p :
  parts_ok id s p -> getitem (p_action p) "current_execution_authority" = Ok (JStr "NONE").
Proof.
  intros OK. destruct (build_action_shape _ _ (ok_action _ _ _ OK)) as
    (st & al & m & sd & sy & pr & q & ti & ex & k & -> & _). reflexivity.
Qed.

Lemma result_no_claims id s p :
  parts_ok id s p ->
  getitem (p_result p) "strategy_pnl_claim" = Ok (JStr "NONE") /\
  getitem (p_result p) "live_pnl_claim" = Ok (JStr "NONE").
Proof.
  intros OK. pose proof (ok_result _ _ _ OK) as H.
  destruct (observed_shape id) as (st & v & src & Ho & _). rewrite Ho in H.
  apply Ok_inj in H as <-. done.
Qed.

(** ** Concrete seeds *)

Lemma card_exists id s :
  known_seed s = true -> is_ok (family_of id) = true -> exists card, _build_card id s = Ok card.
Proof.
  intros Hk Hf. destruct (parts_exist id s Hk Hf) as [p OK]. exists (card_of id s p).
  by apply build_card_intro.
Qed.

Definition A01 : seed := seed_of_args seed_A01.
Definition A07D : seed := seed_of_args seed_A07D.
Definition F12 : seed := seed_of_args seed_F12.

Lemma card_A01 : exists card, _build_card "A01-SPREAD-CAPTURE" A01 = Ok card.
Proof. apply card_exists; vm_compute; reflexivity. Qed.

Lemma card_A07D : exists card, _build_card "A07D-ANCHOR-MANIPULABILITY" A07D = Ok card.
Proof. apply card_exists; vm_compute; reflexivity. Qed.

Lemma card_F12 : exists card, _build_card "F12-EXTERNAL-ODDS-LEADLAG" F12 = Ok card.
Proof. apply card_exists; vm_compute; reflexivity. Qed.

(** The registry the builder makes, for witnesses. *)
Lemma accepted_built id card : built_from id card -> accepted_as id card.
Proof.
  intros (s & p & Hs & Hk & Hf & OK & ->).
  exists (card_of id s p), (JObj (card_body id s p)). split.
  - unfold build_at, seed_at. rewrite Hs. by apply build_card_intro.
  - split; [|split; [reflexivity|reflexivity]].
    apply py_eq_refl, (wf_card id s p OK), known_critical, Hk.
Qed.

(** * The claims *)

(** C1: [build_registry] succeeds, its experiments are the cards of the 106
    atomic IDs in authority order, and on any file system [validate_registry]
    accepts the built registry exactly when the five evidence files are there
    with the registered hashes and the authority file lists the same IDs and
    names the registered origin document. *)
Theorem built_registry_validates :
  exists cards, build_registry = Ok (registry_of cards) /\
    Forall2 built_from ATOMIC_IDS cards /\
    forall ROOT file_at exc_text,
      validate_registry ROOT file_at exc_text (registry_of cards) = Ok [] <->
      sources_match ROOT file_at.
Proof.
  destruct build_registry_ok as (cards & Hb & Hc). exists cards. split; [done|]. split; [done|].
  intros ROOT file_at exc_text. rewrite validate_registry_clean, validate_built by done.
  apply check_sources_iff.
Qed.

(** C2: whatever the files, a registry is accepted only when its scope grants no
    deployment, order or action authority, its experiments are, ID by ID in
    authority order, Python-equal to what the builder makes with hashes that
    recompute, and its own hash recomputes: anything else is reported or
    raises. *)
Theorem unbuilt_registry_rejected ROOT file_at exc_text r :
  ~ accepted_registry r -> validate_registry ROOT file_at exc_text r <> Ok [].
Proof. intros H Hv%validate_registry_clean%validate_sound. contradiction. Qed.

Lemma unbuilt_registry_rejected_witness :
  validate_registry [] (fun _ => None) (fun _ => EmptyString)
    (obj ["experiments" ~> JList []; "scope" ~> scope_section]) <> Ok [].
Proof.
  apply (unbuilt_registry_rejected [] (fun _ => None) (fun _ => EmptyString)).
  intros (scope & cards & rest & _ & _ & Hex & HF & _). cbv in Hex. injection Hex as <-.
  inversion HF.
Defined.

(** C3: when the per-card and cross-card checks report nothing, the cards are
    those of the 106 atomic IDs, in order, each Python-equal to the built card
    and carrying a hash that recomputes. *)
Theorem clean_cards_are_built cards :
  check_experiments cards = VOk [] tt -> Forall2 accepted_as ATOMIC_IDS cards.
Proof. apply check_experiments_sound. Qed.

Lemma clean_cards_are_built_witness :
  exists cards, check_experiments cards = VOk [] tt /\ Forall2 accepted_as ATOMIC_IDS cards.
Proof.
  destruct built_cards as (cards & _ & Hb). exists cards.
  assert (check_experiments cards = VOk [] tt) as H by exact (check_experiments_built cards Hb).
  split; [exact H|]. exact (clean_cards_are_built cards H).
Defined.

(** C4: an accepted card has the content of the built card, up to the order of
    keys, unless the two hashed texts are a collision of SHA-256. *)
Theorem accepted_card_content id card :
  accepted_as id card -> wf_json card = true ->
  exists expected, build_at id = Ok expected /\
    (card ≡ expected \/ exists rest rest',
       popitem card "definition_sha256" = Ok rest /\
       popitem expected "definition_sha256" = Ok rest' /\
       sha_collision (_canonical_json rest) (_canonical_json rest')).
Proof. apply accepted_content. Qed.

Lemma accepted_card_content_witness :
  exists card expected, build_at "A01-SPREAD-CAPTURE" = Ok expected /\
    (card ≡ expected \/ exists rest rest',
       popitem card "definition_sha256" = Ok rest /\
       popitem expected "definition_sha256" = Ok rest' /\
       sha_collision (_canonical_json rest) (_canonical_json rest')).
Proof.
  destruct (build_at_ok "A01-SPREAD-CAPTURE") as (card & _ & Hb); [by left|].
  exists card. apply (accepted_card_content "A01-SPREAD-CAPTURE").
  - by apply accepted_built.
  - destruct Hb as (s & p & _ & Hk & _ & OK & ->). apply (wf_card _ s p OK), known_critical, Hk.
Defined.

(** C5: an accepted card grants nothing: its blockers are a sorted list of
    registered critical blockers, it is not eligible as a strategy, its action
    has no execution authority, and it claims no strategy or live PnL. *)
Theorem accepted_card_grants_nothing id card :
  accepted_as id card -> wf_json card = true ->
  exists bs cl e action result,
    getitem card "blockers" = Ok (strs bs) /\ increasing bs /\ critical bs = true /\
    getitem card "classification" = Ok cl /\ getitem cl "strategy_eligible" = Ok e /\
    truthy e = false /\
    getitem card "action" = Ok action /\
    getitem action "current_execution_authority" = Ok (JStr "NONE") /\
    getitem card "current_result" = Ok result /\
    getitem result "strategy_pnl_claim" = Ok (JStr "NONE") /\
    getitem result "live_pnl_claim" = Ok (JStr "NONE").
Proof.
  intros (expected & rest & Hb & Heq & _ & _) Hwf.
  destruct (build_at_inv _ _ Hb) as (s & p & Hs & OK & ->).
  pose proof (seed_table_critical _ _ Hs) as Hx.
  assert (forall k x, getitem (card_of id s p) k = Ok x ->
    exists y, getitem card k = Ok y /\ py_eq y x = true /\ wf_json y = true) as Hget
    by (intros; by eapply py_eq_getitem).
  destruct (Hget "blockers" (strs (p_blockers p)) eq_refl) as (b & Hbl & ->%py_eq_strs & _).
  destruct (Hget "classification" (p_classification s p) eq_refl) as (cl & Hcl & Hcle & Hclw).
  destruct (py_eq_getitem _ _ _ _ Hclw Hcle (parts_never_eligible id s p OK))
    as (e & He & Hee%py_eq_false & _).
  destruct (Hget "action" (p_action p) eq_refl) as (a & Ha & Hae & Haw).
  destruct (Hget "current_result" (p_result p) eq_refl) as (r & Hr & Hre & Hrw).
  pose proof (action_no_authority id s p OK) as Hna. destruct (result_no_claims id s p OK) as [Hs1 Hl1].
  destruct (py_eq_getitem _ _ _ _ Haw Hae Hna) as (y1 & Hy1 & ->%py_eq_str & _).
  destruct (py_eq_getitem _ _ _ _ Hrw Hre Hs1) as (y2 & Hy2 & ->%py_eq_str & _).
  destruct (py_eq_getitem _ _ _ _ Hrw Hre Hl1) as (y3 & Hy3 & ->%py_eq_str & _).
  exists (p_blockers p), cl, e, a, r.
  pose proof (parts_blockers_increasing id s p OK). pose proof (parts_blockers_critical id s p OK Hx).
  repeat split; done.
Qed.

Lemma accepted_card_grants_nothing_witness :
  exists card bs cl e action result,
    getitem card "blockers" = Ok (strs bs) /\ increasing bs /\ critical bs = true /\
    getitem card "classification" = Ok cl /\ getitem cl "strategy_eligible" = Ok e /\
    truthy e = false /\
    getitem card "action" = Ok action /\
    getitem action "current_execution_authority" = Ok (JStr "NONE") /\
    getitem card "current_result" = Ok result /\
    getitem result "strategy_pnl_claim" = Ok (JStr "NONE") /\
    getitem result "live_pnl_claim" = Ok (JStr "NONE").
Proof.
  destruct (build_at_ok "A01-SPREAD-CAPTURE") as (card & _ & Hb); [by left|].
  exists card. apply (accepted_card_grants_nothing "A01-SPREAD-CAPTURE").
  - by apply accepted_built.
  - destruct Hb as (s & p & _ & Hk & _ & OK & ->). apply (wf_card _ s p OK), known_critical, Hk.
Defined.

(** C6: every seed of a table that passes the import-time check [_validate_seeds]
    has a card: [_build_card] raises on none of them. *)
Theorem validated_seed_builds seeds id s :
  _validate_seeds seeds = Ok tt -> In (id, s) seeds -> exists card, _build_card id s = Ok card.
Proof. intros Hv Hin. destruct (validated_known seeds Hv id s Hin). by apply card_exists. Qed.

Lemma validated_seed_builds_witness :
  _validate_seeds seed_table = Ok tt /\ exists card, _build_card "A01-SPREAD-CAPTURE" A01 = Ok card.
Proof.
  split; [exact validate_seed_table|].
  apply (validated_seed_builds seed_table _ _ validate_seed_table). by left.
Defined.

(** C7: no card that [_build_card] returns, for any seed, is eligible as a
    strategy: an action is blocked by the costs nobody has measured. *)
Theorem built_card_never_eligible id s card :
  _build_card id s = Ok card ->
  exists cl, getitem card "classification" = Ok cl /\
    getitem cl "strategy_eligible" = Ok (JBool false) /\
    (non_action (action_profile s) = false ->
     getitem cl "computed_class" = Ok (JStr "BLOCKED") /\
     getitem cl "blocked_from" = Ok (JStr (base_class_of (target_class s) (action_profile s)))).
Proof.
  intros (p & OK & ->)%build_card_inv. exists (p_classification s p). split; [reflexivity|].
  split; [exact (parts_never_eligible id s p OK)|]. intros Hn.
  assert (In "FEE_UNKNOWN" (p_blockers p)) as Hin
    by (apply (parts_common_blockers id s p OK); simpl; auto).
  unfold p_classification, _classification. rewrite (parts_base id s p OK).
  by destruct (p_blockers p).
Qed.

Lemma built_card_never_eligible_witness :
  exists card cl, _build_card "A01-SPREAD-CAPTURE" A01 = Ok card /\
    getitem card "classification" = Ok cl /\ getitem cl "strategy_eligible" = Ok (JBool false).
Proof.
  destruct card_A01 as [card Hc]. exists card.
  destruct (built_card_never_eligible _ _ _ Hc) as (cl & H1 & H2 & _). eauto.
Defined.

(** C8: the blockers of a card are a strictly increasing list of registered
    critical blockers; for an action they contain the blocker of every cost
    whose status is MISSING, and [_cost_blockers] finds one for each. *)
Theorem built_card_blockers id s card :
  _build_card id s = Ok card -> critical (extra_blockers s) = true ->
  exists bs cb, getitem card "blockers" = Ok (strs bs) /\ increasing bs /\ critical bs = true /\
    _cost_blockers (_costs_for (action_profile s) (external_dependency s)) = Ok cb /\
    (forall b, In b (extra_blockers s) -> In b bs) /\
    (non_action (action_profile s) = false ->
     (forall b, In b cb -> In b bs) /\ (forall b, In b COMMON_COST_BLOCKERS -> In b bs)).
Proof.
  intros (p & OK & ->)%build_card_inv Hx.
  destruct (cost_blockers_total (action_profile s) (external_dependency s)) as (cb & Hc & _).
  exists (p_blockers p), cb. split; [reflexivity|].
  split; [exact (parts_blockers_increasing id s p OK)|].
  split; [exact (parts_blockers_critical id s p OK Hx)|]. split; [done|]. split.
  - intros b Hb. destruct (parts_blockers id s p OK) as (dbl & cb' & ebl & -> & _).
    apply sorted_set_in. unfold blocker_parts. rewrite !in_app_iff. auto 10.
  - intros Hn. split; intros b Hb.
    + by apply (parts_cost_blockers id s p OK cb).
    + by apply (parts_common_blockers id s p OK).
Qed.

Lemma built_card_blockers_witness :
  exists card bs, _build_card "A01-SPREAD-CAPTURE" A01 = Ok card /\
    getitem card "blockers" = Ok (strs bs) /\ In "FEE_UNKNOWN" bs /\ In "LATENCY_UNMEASURED" bs.
Proof.
  destruct card_A01 as [card Hc]. exists card.
  destruct (built_card_blockers _ _ _ Hc eq_refl) as (bs & cb & H1 & _ & _ & _ & _ & H2).
  exists bs. destruct (H2 eq_refl) as [_ H3]. repeat split; [done|done|apply H3; simpl; auto..].
Defined.

(** C9: a card has one gap contract per blocker, in the order of the blockers,
    each naming missing evidence and a way to get it, with the policy that an
    unknown value blocks and is never zero. *)
Theorem built_card_gaps id s card :
  _build_card id s = Ok card -> critical (extra_blockers s) = true ->
  exists bs data gaps, getitem card "blockers" = Ok (strs bs) /\
    getitem card "data" = Ok data /\ getitem data "critical_gaps" = Ok (JList gaps) /\
    mapR (fun gap => get gap "blocker") gaps = Ok (map JStr bs) /\
    forall gap, In gap gaps ->
      andR (andR (get_truthy gap "missing_evidence") (get_truthy gap "acquisition_or_build_path"))
        (get_is gap "unknown_value_policy" "BLOCK_NOT_ZERO") = Ok true.
Proof.
  intros (p & OK & ->)%build_card_inv Hx.
  exists (p_blockers p), (p_dsec p), (p_gaps p). split; [reflexivity|]. split; [reflexivity|].
  split.
  - destruct (parts_dsec id s p OK) as (? & ? & ? & ? & ? & ? & ? & ? & ? & ? & ? & -> & _). done.
  - apply (gaps_name_blockers id); [exact (parts_blockers_critical id s p OK Hx)|apply OK].
Qed.

Lemma built_card_gaps_witness :
  exists card data gaps, _build_card "A01-SPREAD-CAPTURE" A01 = Ok card /\
    getitem card "data" = Ok data /\ getitem data "critical_gaps" = Ok (JList gaps).
Proof.
  destruct card_A01 as [card Hc]. exists card.
  destruct (built_card_gaps _ _ _ Hc eq_refl) as (bs & data & gaps & _ & H1 & H2 & _). eauto 10.
Defined.

(** C10: a card offers study dates for its current signal only when its signal
    can be computed now, and then the clean L2 dates exactly for the profiles
    that need L2; a missing signal input always means it cannot. *)
Theorem built_card_dates id s card :
  _build_card id s = Ok card ->
  exists bs data can status dates eligible,
    getitem card "blockers" = Ok (strs bs) /\ getitem card "data" = Ok data /\
    getitem data "can_compute_now" = Ok can /\ getitem can "signal_event" = Ok (JStr status) /\
    getitem data "study_dates" = Ok dates /\
    getitem dates "eligible_for_current_signal_description" = Ok (strs eligible) /\
    eligible = (if String.eqb status "YES" then
                  if str_in (data_profile s) ["L2"; "L1_L2"; "FAMILY"; "MVE_PRIVATE"; "OWNER_EVPI"]
                  then L2_ESTIMATOR_CLEAN_DATES else AVAILABLE_RELEASE_DATES
                else []) /\
    (In "MISSING_SIGNAL_INPUT" bs -> status = "NO" /\ eligible = []).
Proof.
  intros (p & OK & ->)%build_card_inv.
  destruct (parts_dsec id s p OK) as
    (i & ev & cm & sf & fa & se & re & ca & mi & pa & bl & Hd & _).
  set (status := closed_event (p_blockers p) ev) in *.
  eexists (p_blockers p), (p_dsec p), _, status, _, _. split; [reflexivity|]. split; [reflexivity|].
  rewrite Hd. split; [reflexivity|]. split; [reflexivity|]. split; [reflexivity|].
  split; [|split; [reflexivity|]].
  - unfold _study_dates. cbn [eq_str py_eq getitem obj assoc]. cbn -[String.eqb str_in strs].
    change (py_eq (JStr status) (JStr "YES")) with (String.eqb status "YES").
    by destruct (String.eqb status "YES").
  - intros Hin%str_in_spec. subst status. unfold closed_event. by rewrite Hin.
Qed.

Lemma built_card_dates_witness :
  exists card data can, _build_card "A07D-ANCHOR-MANIPULABILITY" A07D = Ok card /\
    getitem card "data" = Ok data /\ getitem data "can_compute_now" = Ok can /\
    getitem can "signal_event" = Ok (JStr "NO").
Proof.
  destruct card_A07D as [card Hc]. exists card.
  destruct (built_card_dates _ _ _ Hc) as
    (bs & data & can & st & dates & el & Hb & Hd & Hcan & Hst & _ & _ & _ & Hm).
  exists data, can. repeat split; try done. rewrite Hst.
  destruct Hm as [-> _]; [|done].
  destruct (build_card_inv _ _ _ Hc) as (p & OK & ->).
  assert (strs (p_blockers p) = strs bs) as <-%strs_inj by exact (Ok_inj _ _ Hb).
  rewrite <- (blockers_of_ok _ _ _ OK). apply str_in_spec. vm_compute. reflexivity.
Defined.

(** C11: a card whose external data is required is closed on it: the data is
    MISSING, never imputed, the mapping variable is required, and the card is
    blocked by the missing data; an action also by the unknown mapping, and it
    bears a data cost. *)
Theorem required_external_blocks id s card :
  _build_card id s = Ok card -> external_dependency s = "REQUIRED" ->
  exists bs ext rv, getitem card "blockers" = Ok (strs bs) /\
    getitem card "external_sports_data" = Ok ext /\
    getitem ext "availability" = Ok (JStr "MISSING") /\
    getitem ext "missing_policy" = Ok (JStr "BLOCK_NO_IMPUTE") /\
    getitem ext "required_variables" = Ok (strs rv) /\ In mapping_variable rv /\
    In "EXTERNAL_SPORTS_DATA_MISSING" bs /\
    (non_action (action_profile s) = false ->
     In "INSTRUMENT_MAPPING_UNKNOWN" bs /\
     exists costs, getitem card "costs" = Ok (JList costs) /\
       anyR (fun cost => get_is cost "type" "DATA_API") costs = Ok true).
Proof.
  intros (p & OK & ->)%build_card_inv Hr.
  destruct (external_shape _ _ _ (ok_ext _ _ _ OK)) as
    (av & rv & prov & cl & li & hi & mp & pp & bl & He & _ & _ & _ & Hreq & _).
  destruct (Hreq Hr) as (-> & -> & Hm & _).
  exists (p_blockers p), (p_ext p), rv. split; [reflexivity|]. split; [reflexivity|].
  rewrite He. repeat (split; [reflexivity|]). split; [done|].
  split; [exact (parts_required_blocked id s p OK Hr)|]. intros Hn.
  split; [exact (parts_required_mapping id s p OK Hr Hn)|].
  exists (seed_costs s). split; [reflexivity|]. unfold seed_costs. rewrite Hr.
  by apply costs_data_api.
Qed.

Lemma required_external_blocks_witness :
  exists card bs, _build_card "F12-EXTERNAL-ODDS-LEADLAG" F12 = Ok card /\
    getitem card "blockers" = Ok (strs bs) /\ In "EXTERNAL_SPORTS_DATA_MISSING" bs /\
    In "INSTRUMENT_MAPPING_UNKNOWN" bs.
Proof.
  destruct card_F12 as [card Hc]. exists card.
  destruct (required_external_blocks _ _ _ Hc eq_refl) as
    (bs & ext & rv & Hb & _ & _ & _ & _ & _ & H1 & H2).
  exists bs. destruct (H2 eq_refl) as [H3 _]. done.
Defined.

(** An action profile that only makes sense on top of confirmed child
    strategies is blocked until they exist. *)
Theorem child_profile_blocked id s card :
  _build_card id s = Ok card -> str_in (action_profile s) CHILD_DEPENDENT_ACTION_PROFILES = true ->
  exists bs, getitem card "blockers" = Ok (strs bs) /\
    In "CONFIRMED_CHILD_STRATEGIES_MISSING" bs.
Proof.
  intros (p & OK & ->)%build_card_inv Hc. exists (p_blockers p). split; [reflexivity|].
  exact (parts_child_blocked id s p OK Hc).
Qed.

Lemma child_profile_blocked_witness :
  exists card bs, _build_card "A07D-ANCHOR-MANIPULABILITY" A07D = Ok card /\
    getitem card "blockers" = Ok (strs bs) /\ In "CONFIRMED_CHILD_STRATEGIES_MISSING" bs.
Proof.
  destruct card_A07D as [card Hc]. exists card.
  destruct (child_profile_blocked _ _ _ Hc eq_refl) as (bs & H1 & H2). eauto.
Defined.

(** C12: the card that [_build_card] makes of a seed with registered
    vocabularies and no empty text passes every check the validator makes of a
    single card, whatever the other seeds. *)
Theorem built_card_accepted seeds id s card identity :
  _build_card id s = Ok card -> assoc id seeds = Some s -> known_seed s = true ->
  filled_seed s = true -> getitem card "identity" = Ok identity ->
  check_card seeds (JStr id) identity card = VOk [] tt.
Proof.
  intros (p & OK & ->)%build_card_inv Hs Hk Hf Hi. apply Ok_inj in Hi as <-.
  exact (check_card_clean id s p OK (known_critical s Hk) Hf seeds Hs).
Qed.

Lemma built_card_accepted_witness :
  exists card identity, _build_card "A01-SPREAD-CAPTURE" A01 = Ok card /\
    check_card [("A01-SPREAD-CAPTURE", A01)] (JStr "A01-SPREAD-CAPTURE") identity card = VOk [] tt.
Proof.
  destruct card_A01 as [card Hc]. exists card.
  destruct (build_card_inv _ _ _ Hc) as (p & OK & ->).
  exists (identity_section "A01-SPREAD-CAPTURE" (p_code p) (p_name p)). split; [exact Hc|].
  apply (built_card_accepted _ _ _ _ _ Hc); try reflexivity; vm_compute; reflexivity.
Defined.

(** Importing the seeds succeeds: the registrations leave one seed per
    atomic ID, 106 in all, and the import-time check accepts them. *)
Theorem seeds_import :
  import_seeds = Ok seed_table /\ List.NoDup (keys seed_table) /\
  length seed_table = 106%nat /\ same_set (keys seed_table) ATOMIC_IDS = true /\
  _validate_seeds seed_table = Ok tt.
Proof.
  split; [exact load_card_seeds|]. split.
  - unfold seed_table, keys. rewrite map_map. apply nodupb_spec, registrations_nodup.
  - split; [reflexivity|]. split; [exact seed_ids_match|exact validate_seed_table].
Qed.

(** Registering seeds either gives the table of all of them in order, when
    their IDs are distinct, or raises [ValueError] for an ID that was registered
    before; a second seed never replaces the first. *)
Theorem registration_rejects_duplicates l :
  if nodupb (map experiment_id l)
  then register_all [] l = Ok (map (fun a => (experiment_id a, seed_of_args a)) l)
  else exists id, In id (map experiment_id l) /\
    register_all [] l = Raise (ValueError ("duplicate experiment seed: " +:+ id)).
Proof.
  destruct (nodupb (map experiment_id l)) eqn:E.
  - rewrite register_all_spec; [done|]. by apply nodupb_spec.
  - by apply register_all_dup.
Qed.

(** C13: reading the artifact text that [_write_registry] prints gives the
    registry back, with its keys sorted. *)
Theorem artifact_roundtrip registry :
  wf_json registry = true -> json_loads (registry_payload registry) = Ok (canon registry).
Proof. apply loads_payload. Qed.

Lemma artifact_roundtrip_witness :
  json_loads (registry_payload scope_section) = Ok (canon scope_section).
Proof. apply (artifact_roundtrip scope_section). reflexivity. Defined.

(** The decoder reads back every layout of a value, whatever the blanks
    between its tokens and after it. *)
Theorem layout_roundtrip v text blanks :
  renders v text -> wf_json v = true -> all_ws blanks = true ->
  json_loads (text +:+ blanks) = Ok v.
Proof. apply loads_text. Qed.

Lemma layout_roundtrip_witness :
  json_loads (print_indent 0 scope_section +:+ "  ") = Ok scope_section.
Proof.
  apply (layout_roundtrip scope_section); [apply print_indent_renders|reflexivity|reflexivity].
Defined.

(** The canonical text that is hashed identifies a value exactly up to the
    order of dict keys. *)
Theorem canonical_text_identifies v w :
  wf_json v = true -> wf_json w = true -> _canonical_json v = _canonical_json w <-> v ≡ w.
Proof.
  intros Hv Hw. split; [by apply canonical_json_inj|]. intros H. by rewrite H.
Qed.

Lemma canonical_text_identifies_witness :
  _canonical_json (obj ["b" ~> JInt 1; "a" ~> JNull])
  = _canonical_json (obj ["a" ~> JNull; "b" ~> JInt 1]).
Proof. apply canonical_text_identifies; reflexivity. Defined.

(** Decoding terminates on every text: the fuel the reader starts with is
    never what stops it. *)
Theorem decoder_total text : json_loads text <> Raise (Unmodelled "nesting").
Proof. apply loads_has_fuel. Qed.

(** The summary of the built registry: 106 cards in the registered family
    counts, 105 of them blocked and one a research question, none eligible. *)
Theorem built_registry_summary cards :
  mapR build_at ATOMIC_IDS = Ok cards ->
  exists sm, _summary_for_cards cards = Ok sm /\ sum_total sm = 106%Z /\ sum_eligible sm = 0%Z /\
    jcounts_eqb (sum_family sm) expected_family_counts = true /\
    sum_class sm = [(JStr "BLOCKED", 105%Z); (JStr "RESEARCH_QUESTION", 1%Z)] /\
    sum_target sm = [(JStr "EXECUTABLE_STRATEGY", 80%Z); (JStr "RESEARCH_QUESTION", 12%Z);
                     (JStr "SIGNAL", 14%Z)].
Proof.
  intros H. destruct built_cards as (cards' & H' & Hb). rewrite H in H'. apply Ok_inj in H' as <-.
  exists registry_summary. split; [by apply summary_built|]. repeat split.
Qed.

Lemma built_registry_summary_witness :
  exists cards sm, mapR build_at ATOMIC_IDS = Ok cards /\ _summary_for_cards cards = Ok sm /\
    sum_eligible sm = 0%Z.
Proof.
  destruct built_cards as (cards & H & _). exists cards.
  destruct (built_registry_summary cards H) as (sm & H1 & _ & H2 & _). eauto.
Defined.

(** Hashing a file in chunks gives the hash of its whole content, for every
    content and chunking loop, and the loop reaches the end of the file. *)
Theorem file_hash_is_content_hash file_at path content :
  file_at path = Some (Bytes content) -> _file_sha256 file_at path = Ok (sha256_hex content).
Proof. apply file_sha256_eq. Qed.

Lemma file_hash_is_content_hash_witness :
  _file_sha256 (fun _ => Some (Bytes "abc")) ["f"]
  = Ok "ba7816bf8f01cfea414140de5dae2223b00361a396177a9cb410ff61f20015ad".
Proof.
  assert (sha256_hex "abc" = "ba7816bf8f01cfea414140de5dae2223b00361a396177a9cb410ff61f20015ad")
    as <- by (vm_compute; reflexivity).
  apply (file_hash_is_content_hash (fun _ => Some (Bytes "abc")) ["f"] "abc"). reflexivity.
Defined.

(** A source binding whose path leaves the repository root is reported and
    the file it names is never read: the outcome is the same on every file
    system. *)
Theorem escaping_binding_rejected ROOT file_at role path binding :
  is_dict binding = true -> get_default binding "role" (JStr "<missing>") = Ok role ->
  get binding "path" = Ok (JStr path) -> is_under ROOT (resolve ROOT path) = false ->
  check_binding ROOT file_at binding =
  VOk [py_str role +:+ ": source path escapes repository root"] tt.
Proof.
  intros Hd Hr Hp Hu. unfold check_binding. rewrite Hd, Hr, Hp. cbn [negb lift mbind vres_bind].
  by rewrite Hu.
Qed.

Lemma escaping_binding_rejected_witness :
  check_binding ["repo"] (fun _ => Some (Denied "secret"))
    (obj ["role" ~> JStr "X"; "path" ~> JStr "a/../../etc/passwd"]) =
  VOk ["X: source path escapes repository root"] tt.
Proof.
  apply (escaping_binding_rejected ["repo"] _ (JStr "X") "a/../../etc/passwd"); reflexivity.
Defined.

(** C15: a malformed experiment escapes the error list: on a registry with an
    experiment that is no object, or an object without a classification,
    [validate_registry] raises, on every file system, although it records an
    error message for that very case. *)
Theorem malformed_card_raises ROOT file_at exc_text r cards card :
  get r "experiments" = Ok (JList cards) -> In card cards ->
  is_dict card = false \/ getitem card "classification" = Raise (KeyError "classification") ->
  exists e, validate_registry ROOT file_at exc_text r = Raise e.
Proof.
  intros Hex Hin Hbad. unfold validate_registry.
  destruct (validate ROOT file_at exc_text r) as [errs []|e] eqn:E; [|eauto]. exfalso.
  assert (returns (validate ROOT file_at exc_text r)) as Hret by (rewrite E; by exists errs, tt).
  destruct (validate_returns ROOT file_at exc_text r cards Hex Hret card Hin) as [Hd [cl Hcl]].
  destruct Hbad; congruence.
Qed.

Lemma malformed_card_raises_witness :
  exists e, validate_registry [] (fun _ => None) (fun _ => EmptyString)
    (obj ["experiments" ~> JList [JStr "not a card"]]) = Raise e.
Proof.
  apply (malformed_card_raises [] _ _ _ [JStr "not a card"] (JStr "not a card"));
    [reflexivity|by left|by left].
Defined.

(** A source binding that is no object escapes the error list as well: the
    message for it is recorded, then collecting the authority bindings raises. *)
Theorem malformed_binding_raises ROOT file_at exc_text bindings binding :
  In binding bindings -> is_dict binding = false ->
  exists e, check_source_bindings ROOT file_at exc_text (JList bindings) = VRaise e.
Proof.
  intros Hin Hd.
  destruct (check_source_bindings ROOT file_at exc_text (JList bindings)) as [errs []|e] eqn:E;
    [|eauto]. exfalso.
  assert (returns (check_source_bindings ROOT file_at exc_text (JList bindings))) as H
    by (rewrite E; by exists errs, tt).
  unfold check_source_bindings in H. do 3 apply returns_bind in H as (? & ? & _ & H).
  unfold check_authority in H. apply returns_lift in H as (l & Hl & _).
  rewrite (authority_of_dicts _ _ Hl _ Hin) in Hd. discriminate.
Qed.

Lemma malformed_binding_raises_witness :
  exists e, check_source_bindings [] (fun _ => None) (fun _ => EmptyString) (JList [JNull]) = VRaise e.
Proof.
  apply (malformed_binding_raises [] _ _ [JNull] JNull); [by left|reflexivity].
Defined.

(** The types of the costs whose status is MISSING, in order. *)
Definition missing_types (costs : list json) : list string :=
  omap (fun c => match getitem c "status", getitem c "type" with
                 | Ok status, Ok (JStr t) => if eq_str status "MISSING" then Some t else None
                 | _, _ => None
                 end) costs.

(** C16: for a cost list whose items all pass the validator's cost check,
    [_cost_blockers] returns exactly one registered blocker per MISSING cost, in
    order, that of its type, and nothing for the other costs; unless a MISSING
    cost is of the one registered type without a fail-closed mapping,
    SPREAD_CROSSING: then, and only then, it raises [ValueError]. *)
Theorem cost_blockers_of_valid costs :
  (forall c, In c costs -> cost_is_valid c = Ok true) ->
  if str_in "SPREAD_CROSSING" (missing_types costs)
  then _cost_blockers costs = Raise (ValueError
         "missing cost SPREAD_CROSSING has no fail-closed blocker mapping")
  else exists bs, _cost_blockers costs = Ok bs /\
         Forall2 (fun t b => assoc t blocker_by_cost_type = Some b /\ In b CRITICAL_BLOCKERS)
           (missing_types costs) bs.
Proof.
  induction costs as [|c costs IH]; intros Hv; [exists []; by split|].
  destruct (valid_cost_reads c (Hv c (or_introl eq_refl))) as (t & st & Ht & Hst & Hin).
  specialize (IH ltac:(by intros; apply Hv; right)).
  cbn [_cost_blockers missing_types omap list_omap]. rewrite Hst, Ht. cbn [mbind result_bind].
  destruct (eq_str (JStr st) "MISSING") eqn:Em; cbn [negb].
  2: exact IH.
  unfold table_get. cbn [need_hashable hashable mbind result_bind].
  fold (missing_types costs). cbn [str_in existsb].
  destruct (mapped_cost t Hin) as [(b & Hb & Hcb)|[-> Hb]]; rewrite Hb; [|done].
  destruct (String.eqb_spec "SPREAD_CROSSING" t) as [<-|_]; [discriminate Hb|]. cbn [orb].
  fold (str_in "SPREAD_CROSSING" (missing_types costs)).
  destruct (str_in _ (missing_types costs)); [by rewrite IH|].
  destruct IH as (bs & -> & Hbs). exists (b :: bs). split; [done|]. constructor; [|done].
  split; [done|]. by apply str_in_spec.
Qed.

Lemma cost_blockers_of_valid_witness :
  _cost_blockers [cost_item "SPREAD_CROSSING" "CASH_DEDUCTION" "MISSING" "r"] = Raise (ValueError
    "missing cost SPREAD_CROSSING has no fail-closed blocker mapping") /\
  exists bs, _cost_blockers
      [cost_item "SPREAD_CROSSING" "CASH_DEDUCTION" "CONSERVATIVE_MODELED" "r";
       cost_item "DATA_API" "CASH_DEDUCTION" "MISSING" "r"] = Ok bs /\
    Forall2 (fun t b => assoc t blocker_by_cost_type = Some b /\ In b CRITICAL_BLOCKERS) ["DATA_API"] bs.
Proof.
  split.
  - apply (cost_blockers_of_valid [cost_item "SPREAD_CROSSING" "CASH_DEDUCTION" "MISSING" "r"]).
    intros c [<-|[]]. reflexivity.
  - apply (cost_blockers_of_valid [cost_item "SPREAD_CROSSING" "CASH_DEDUCTION" "CONSERVATIVE_MODELED" "r";
      cost_item "DATA_API" "CASH_DEDUCTION" "MISSING" "r"]).
    intros c [<-|[<-|[]]]; reflexivity.
Defined.
