(* ===== verification/RunTestsFacts.v ===== *)
(** * What the tool runner guarantees

    Every effect of a run is accounted for: what it starts it stops, what it
    runs the policy allowed, and what it records is what a later load reads. *)

From stdpp Require Import base list strings numbers.
From Stdlib Require Import ZArith Lia Bool Ascii.
From S2P Require Import Prelude PyJson Sha256 JsonText JsonRoundtrip PyText Validator.
From S2P Require Import BuilderFacts RunTests.

(** The commands of a trace. *)
Definition runs (tr : list event) : list (list string) :=
  flat_map (fun e => match e with ERun argv => [argv] | _ => [] end) tr.

(** The mocks a trace stops. *)
Definition stopped (tr : list event) : list string :=
  flat_map (fun e => match e with EStop s => [s] | _ => [] end) tr.

(** The safety classes a server may run. *)
Definition allowed_class (allow_network : bool) : list string :=
  ["pure"; "offline"] ++ (if allow_network then ["network_read"] else []).

(** * Lemmas *)

Lemma allowed_class_iff allow c :
  In c (allowed_class allow) <->
  c = "pure" \/ c = "offline" \/ (c = "network_read" /\ allow = true).
Proof.
  unfold allowed_class. destruct allow; simpl; intuition congruence.
Qed.

Lemma may_run_ok tool allow reason :
  may_run tool allow = Ok (true, reason) <->
  reason = "ok" /\ exists c, get tool "safety" = Ok (JStr c) /\ In c (allowed_class allow).
Proof.
  unfold may_run, allowed_class. destruct (get tool "safety") as [v|e] eqn:E.
  2:{ split; [done|]. by intros (_ & c & ? & _). }
  cbn [mbind result_bind]. split.
  - destruct (eq_str v "pure" || eq_str v "offline") eqn:E1.
    { intros [= <-]. split; [done|]. apply orb_true_iff in E1 as [->%eq_str_true| ->%eq_str_true];
        eexists; (split; [done|]); simpl; auto. }
    destruct (eq_str v "network_read") eqn:E2.
    { apply eq_str_true in E2 as ->. destruct allow; intros [=]. subst. split; [done|].
      eexists. split; [done|]. simpl. auto. }
    destruct (eq_str v "live_order"); discriminate.
  - intros (-> & c & [= ->] & Hc). destruct allow; simpl in Hc; decompose [or] Hc; subst; done.
Qed.

Section Facts.
Context (ROOT : list string) (os : list event -> event -> result unit) (free_port_of : nat -> Z).
Context (key_exists : list event -> bool) (command : list event -> list string -> outcome).
Context (dur_ms ts_ms : list event -> Z).

(** The mocks the events [tr] start after the events [h]: those whose start
    the system accepted. *)
Fixpoint started (h tr : list event) : list string :=
  match tr with
  | [] => []
  | e :: tr' =>
      app (match e with
           | ESpawn s _ => match os h e with Ok _ => [s] | Raise _ => [] end
           | _ => []
           end) (started (h ++ [e]) tr')
  end.

Lemma started_app h a b : started h (a ++ b) = started h a ++ started (h ++ a) b.
Proof.
  revert h. induction a as [|e a IH]; intros h; cbn [app started]; [by rewrite app_nil_r|].
  by rewrite IH, <- !app_assoc.
Qed.

(** A step that starts mocks and keeps them, runs nothing and stops nothing. *)
Definition prepares (w w' : world) : Prop :=
  exists new, trace w' = trace w ++ new /\ procs w' = procs w ++ started (trace w) new /\
    stopped new = [] /\ runs new = [] /\ latest w' = latest w.

Lemma prepares_refl w : prepares w w.
Proof. exists []. by rewrite !app_nil_r. Qed.

Lemma prepares_trans w1 w2 w3 : prepares w1 w2 -> prepares w2 w3 -> prepares w1 w3.
Proof.
  intros (n1 & T1 & P1 & S1 & R1 & L1) (n2 & T2 & P2 & S2 & R2 & L2). exists (n1 ++ n2).
  unfold stopped, runs in *.
  rewrite T2, P2, P1, L2, L1, started_app, !flat_map_app, S1, S2, R1, R2, T1, <- !app_assoc. done.
Qed.

Definition preparing {A} (m : io A) : Prop := forall w, prepares w (snd (m w)).

Lemma preparing_ret {A} (a : A) : preparing (mret a).
Proof. intros w. apply prepares_refl. Qed.

Lemma preparing_lift {A} (r : result A) : preparing (liftR r).
Proof. intros w. apply prepares_refl. Qed.

Lemma preparing_bind {A B} (m : io A) (f : A -> io B) :
  preparing m -> (forall a, preparing (f a)) -> preparing (m ≫= f).
Proof.
  intros Hm Hf w. specialize (Hm w). unfold mbind, io_bind.
  destruct (m w) as [[a|e] w'] eqn:E; cbn [snd] in *; [|done].
  eapply prepares_trans; [exact Hm|apply Hf].
Qed.

Lemma preparing_observe {A} (f : list event -> A) : preparing (observe f).
Proof. intros w. apply prepares_refl. Qed.

Lemma preparing_port : preparing (free_port free_port_of).
Proof. intros w. exists []. cbn. by rewrite !app_nil_r. Qed.

Lemma preparing_spawn s a : preparing (spawn os s a).
Proof.
  intros w. unfold spawn, perform. destruct (os (trace w) (ESpawn s a)) as [u|e] eqn:E; cbn [snd];
    exists [ESpawn s a]; cbn; rewrite E; cbn; by rewrite ?app_nil_r.
Qed.

Lemma preparing_perform e :
  match e with EMakedirs _ | EGenKey _ => True | _ => False end -> preparing (perform os e).
Proof.
  intros He w. destruct e; try done; eexists; (split; [reflexivity|]); cbn; by rewrite app_nil_r.
Qed.

Ltac prepare :=
  repeat first
    [ apply preparing_ret | apply preparing_lift | apply preparing_observe | apply preparing_port | apply preparing_spawn
    | apply preparing_perform; exact I | apply preparing_bind; [|intros]
    | match goal with |- preparing (if ?b then _ else _) => destruct b end ].

Lemma preparing_satisfy need : preparing (satisfy ROOT os free_port_of key_exists need).
Proof. unfold satisfy. cbv zeta. prepare. Qed.

Lemma preparing_needs needs cmd :
  preparing (satisfy_all ROOT os free_port_of key_exists needs cmd).
Proof.
  revert cmd. induction needs as [|need needs IH]; intros cmd; cbn [satisfy_all]; prepare.
  - apply preparing_satisfy.
  - apply IH.
Qed.

Lemma preparing_build tool : preparing (build_cmd ROOT os free_port_of key_exists tool).
Proof. unfold build_cmd. prepare. apply preparing_needs. Qed.

(** ** A whole run *)

(** What a run leaves: it stopped what it started, ran at most one command, and
    that only when the policy allowed the tool. *)
Lemma runs_app a b : runs (a ++ b) = runs a ++ runs b.
Proof. apply flat_map_app. Qed.

Lemma stopped_app a b : stopped (a ++ b) = stopped a ++ stopped b.
Proof. apply flat_map_app. Qed.

Lemma stopped_stops l : stopped (map EStop l) = l.
Proof. induction l as [|s l IH]; [done|]. cbn. by f_equal. Qed.

Lemma started_stops h l : started h (map EStop l) = [].
Proof. revert h. induction l as [|s l IH]; intros h; [done|]. cbn. apply IH. Qed.

Lemma runs_stops l : runs (map EStop l) = [].
Proof. by induction l. Qed.

(** What happened between two states, for a run with its mocks stopped. *)
Definition balanced (w w' : world) (commands : list (list string)) : Prop :=
  exists new, trace w' = trace w ++ new /\ procs w' = procs w /\ started (trace w) new = stopped new /\
    runs new = commands.

Lemma balanced_trans w1 w2 w3 c1 c2 :
  balanced w1 w2 c1 -> balanced w2 w3 c2 -> balanced w1 w3 (c1 ++ c2).
Proof.
  intros (n1 & T1 & P1 & S1 & R1) (n2 & T2 & P2 & S2 & R2). exists (n1 ++ n2).
  rewrite started_app, <- T1, S1, S2, T2, T1, P2, P1, stopped_app, runs_app, R1, R2, app_assoc.
  done.
Qed.

Lemma balanced_refl w : balanced w w [].
Proof. exists []. by rewrite app_nil_r. Qed.

Lemma balanced_perform e w :
  match e with
  | ESpawn _ _ | EStop _ | ERun _ => False
  | _ => True
  end -> balanced w (snd (perform os e w)) [].
Proof. intros He. destruct e; try done; eexists; (split; [reflexivity|]); done. Qed.

(** A command of the tool: the words of its [cmd], then what its needs add. *)
Definition of_tool (tool : json) (argv : list string) : Prop :=
  exists cmd extra, getitem tool "cmd" = Ok (JStr cmd) /\ argv = split_ws 0 cmd EmptyString ++ extra.

Lemma io_bind_ok {A B} (m : io A) (f : A -> io B) w b w' :
  (m ≫= f) w = (Ok b, w') -> exists a w1, m w = (Ok a, w1) /\ f a w1 = (Ok b, w').
Proof.
  unfold mbind, io_bind. destruct (m w) as [[a|e] w1]; [|done]. intros H. by exists a, w1.
Qed.

Lemma satisfy_all_extends needs cmd w argv w' :
  satisfy_all ROOT os free_port_of key_exists needs cmd w = (Ok argv, w') ->
  exists extra, argv = cmd ++ extra.
Proof.
  revert cmd w. induction needs as [|need needs IH]; intros cmd w H; cbn [satisfy_all] in H.
  - injection H as <- _. exists []. by rewrite app_nil_r.
  - apply io_bind_ok in H as (args & w1 & _ & H). apply IH in H as (extra & ->).
    exists (args ++ extra). by rewrite app_assoc.
Qed.

Lemma build_cmd_of_tool tool w argv w' :
  build_cmd ROOT os free_port_of key_exists tool w = (Ok argv, w') -> of_tool tool argv.
Proof.
  intros H. unfold build_cmd in H. apply io_bind_ok in H as (cmd & w1 & Hc & H).
  apply io_bind_ok in H as (text & w2 & Ht & H). apply io_bind_ok in H as (n & w3 & _ & H).
  apply io_bind_ok in H as (needs & w4 & _ & H). apply satisfy_all_extends in H as (extra & ->).
  unfold liftR in Hc, Ht. destruct cmd; try discriminate Ht. injection Ht as <- _.
  injection Hc as Hc _. by exists s, extra.
Qed.

(** Starting the mocks, running the command, stopping the mocks. *)
Lemma guarded_run_balanced tool w :
  procs w = [] ->
  exists commands, (length commands <= 1)%nat /\ Forall (of_tool tool) commands /\
    balanced w (snd (finally (cmd ← build_cmd ROOT os free_port_of key_exists tool;
                              run_command os command cmd) stop_mocks w)) commands.
Proof.
  intros Hp. unfold finally, mbind, io_bind.
  destruct (preparing_build tool w) as (new & T & P & S & R & L). rewrite Hp in P. cbn [app] in P.
  destruct (build_cmd ROOT os free_port_of key_exists tool w) as [[cmd|e] w1] eqn:Eb; cbn [snd] in *.
  - unfold run_command, perform.
    assert (balanced w (World ((trace w1 ++ [ERun cmd]) ++ map EStop (procs w1)) (ports w1) []
      (latest w1)) [cmd]) as Hb.
    { exists (new ++ [ERun cmd] ++ map EStop (started (trace w) new)). cbn [trace procs].
      rewrite T, P, !started_app, !stopped_app, !runs_app, S, R. cbn.
      rewrite started_stops, stopped_stops, runs_stops, app_nil_r, <- !app_assoc.
      repeat split; congruence. }
    exists [cmd]. split; [done|]. split; [constructor; [by eapply build_cmd_of_tool|constructor]|].
    destruct (os (trace w1) (ERun cmd)) as [u|e]; [|exact Hb].
    destruct (command (trace w1) cmd) as [out rc| |e]; exact Hb.
  - exists []. split; [cbn; lia|]. split; [constructor|].
    exists (new ++ map EStop (started (trace w) new)). unfold stop_mocks. cbn [snd trace procs].
    rewrite T, P, started_app, stopped_app, runs_app, S, R.
    rewrite started_stops, stopped_stops, runs_stops, app_nil_r, <- app_assoc.
    repeat split; congruence.
Qed.

Lemma run_tool_balanced tool allow w :
  procs w = [] ->
  exists commands, (length commands <= 1)%nat /\
    balanced w (snd (run_tool ROOT os free_port_of key_exists command dur_ms tool allow w)) commands /\
    Forall (of_tool tool) commands /\ (commands <> [] -> may_run tool allow = Ok (true, "ok")).
Proof.
  intros Hp. unfold run_tool. unfold mbind at 1, io_bind at 1.
  pose proof (balanced_perform (EMakedirs (LOGDIR ROOT)) w I) as Hm.
  destruct (perform os (EMakedirs (LOGDIR ROOT)) w) as [[u|e] w1] eqn:Em; cbn [snd] in *.
  2:{ exists []. split; [cbn; lia|]. split; [done|]. split; [constructor|done]. }
  assert (procs w1 = []) as Hp1 by (destruct Hm as (? & _ & ? & _); congruence).
  unfold mbind at 1, io_bind at 1, liftR at 1.
  destruct (may_run tool allow) as [[ok reason]|e] eqn:Hmay; cbn [snd].
  2:{ exists []. split; [cbn; lia|]. split; [done|]. split; [constructor|done]. }
  unfold mbind at 1, io_bind at 1, liftR at 1.
  destruct (getitem tool "name") as [name|e]; cbn [snd].
  2:{ exists []. split; [cbn; lia|]. split; [done|]. split; [constructor|done]. }
  destruct ok; cbn [negb].
  2:{ exists []. split; [cbn; lia|]. split; [done|]. split; [constructor|done]. }
  assert (reason = "ok") as -> by by apply may_run_ok in Hmay as [-> _].
  cbv zeta. unfold mbind at 1, io_bind at 1.
  destruct (guarded_run_balanced tool w1 Hp1) as (cmds & Hl & Ht & Hb).
  exists cmds. split; [done|]. split; [|done].
  destruct (finally _ _ w1) as [[[out rc]|e] w2]; cbn [snd] in *.
  2:{ exact (balanced_trans _ _ _ _ _ Hm Hb). }
  assert (forall w3, balanced w2 w3 [] -> balanced w w3 cmds) as Hend.
  { intros w3 H3. pose proof (balanced_trans _ _ _ _ _ (balanced_trans _ _ _ _ _ Hm Hb) H3) as H.
    by rewrite app_nil_r in H. }
  apply Hend. unfold mbind at 1, io_bind at 1, observe at 1. unfold mbind at 1, io_bind at 1.
  pose proof (balanced_perform (EWriteLog (resolve (LOGDIR ROOT) (py_str name +:+ ".txt")) out) w2 I) as Hw.
  destruct (perform os _ w2) as [[u'|e] w3]; cbn [snd] in *; [|done].
  unfold mbind, io_bind, liftR. destruct (get tool "pass_token") as [tok|e]; [|done].
  destruct (parse_output out tok) as [[[pa fa] to]|e]; done.
Qed.
(** ** The command line *)

(** A stretch of a run: it stops what it starts, and each of its commands
    satisfies [Q]. *)
Definition accounted (Q : list string -> Prop) (w w' : world) : Prop :=
  exists commands, balanced w w' commands /\ Forall Q commands.

Lemma accounted_refl Q w : accounted Q w w.
Proof. exists []. split; [apply balanced_refl|constructor]. Qed.

Lemma accounted_trans Q w1 w2 w3 : accounted Q w1 w2 -> accounted Q w2 w3 -> accounted Q w1 w3.
Proof.
  intros (c1 & B1 & F1) (c2 & B2 & F2). exists (c1 ++ c2).
  split; [by eapply balanced_trans|by apply List.Forall_app].
Qed.

(** A step that accounts for itself from a state without mocks. *)
Definition accounts {A} (Q : list string -> Prop) (m : io A) : Prop :=
  forall w, procs w = [] -> accounted Q w (snd (m w)).

Lemma accounted_procs Q w w' : accounted Q w w' -> procs w' = procs w.
Proof. by intros (c & (new & _ & ? & _) & _). Qed.

Lemma accounts_bind {A B} Q (m : io A) (f : A -> io B) :
  accounts Q m -> (forall a, accounts Q (f a)) -> accounts Q (m ≫= f).
Proof.
  intros Hm Hf w Hp. specialize (Hm w Hp). unfold mbind, io_bind.
  destruct (m w) as [[a|e] w'] eqn:E; cbn [snd] in *; [|done].
  eapply accounted_trans; [exact Hm|]. apply Hf. by rewrite (accounted_procs _ _ _ Hm).
Qed.

Lemma accounts_ret {A} Q (a : A) : accounts Q (mret a).
Proof. intros w _. apply accounted_refl. Qed.

Lemma accounts_lift {A} Q (r : result A) : accounts Q (liftR r).
Proof. intros w _. apply accounted_refl. Qed.

Lemma accounts_perform Q e :
  match e with ESpawn _ _ | EStop _ | ERun _ => False | _ => True end -> accounts Q (perform os e).
Proof. intros He w _. exists []. split; [by apply balanced_perform|constructor]. Qed.

Lemma accounts_run_tool (Q : list string -> Prop) tool allow :
  (may_run tool allow = Ok (true, "ok") -> forall argv, of_tool tool argv -> Q argv) ->
  accounts Q (run_tool ROOT os free_port_of key_exists command dur_ms tool allow).
Proof.
  intros HQ w Hp. destruct (run_tool_balanced tool allow w Hp) as (cs & _ & Hb & Ht & Hmay).
  exists cs. split; [done|]. apply List.Forall_forall. intros argv Hin. apply HQ.
  - apply Hmay. by intros ->.
  - by eapply List.Forall_forall in Ht.
Qed.

Lemma accounts_observe {A} Q (f : list event -> A) : accounts Q (observe f).
Proof. intros w _. apply accounted_refl. Qed.

Lemma accounts_leaving Q e text :
  match e with ESpawn _ _ | EStop _ | ERun _ => False | _ => True end ->
  accounts Q (leaving os e text).
Proof.
  intros He w _. exists []. split; [|constructor].
  pose proof (balanced_perform e w He) as (new & T & P & S & R). exists new.
  unfold leaving. by destruct (perform os e w) as [[u|e'] w'].
Qed.

Ltac account :=
  repeat first
    [ apply accounts_ret | apply accounts_observe | apply accounts_leaving; exact I | apply accounts_lift | apply accounts_perform; exact I
    | match goal with |- accounts _ (_ ≫= _) => apply accounts_bind; [|intros] end
    | match goal with |- accounts _ (if ?b then _ else _) => destruct b end ].

Lemma accounts_record Q rec : accounts Q (record ROOT os ts_ms rec).
Proof. unfold record, write_latest. account. intros w _. apply accounted_refl. Qed.

Lemma accounts_run_all (Q : list string -> Prop) tools allow overall :
  (forall t, In t tools -> may_run t allow = Ok (true, "ok") ->
    forall argv, of_tool t argv -> Q argv) ->
  accounts Q (run_all ROOT os free_port_of key_exists command dur_ms ts_ms tools allow overall).
Proof.
  revert overall. induction tools as [|t tools IH]; intros overall HQ; cbn [run_all]; account.
  - apply accounts_run_tool. intros Hm argv Ha. apply (HQ t); [by left|done|done].
  - apply accounts_record.
  - apply IH. intros t' Hin. apply HQ. by right.
Qed.

Lemma accounts_print_tools Q tools : accounts Q (print_tools os tools).
Proof. induction tools as [|t tools IH]; cbn [print_tools]; account. exact IH. Qed.

Lemma runnable_incl tools set :
  runnable_test_set tools = Ok set -> forall t, In t set -> In t tools /\ in_run_all t = Ok true.
Proof.
  revert set. induction tools as [|x tools IH]; intros set H t Hin; cbn in H.
  - apply Ok_inj in H as <-. done.
  - apply bind_ok in H as (here & Hh & H). apply bind_ok in H as (rest & Hr & H).
    apply Ok_inj in H as <-. destruct here.
    + destruct Hin as [<-|Hin]; [split; [by left|done]|].
      destruct (IH _ Hr t Hin). split; [by right|done].
    + destruct (IH _ Hr t Hin). split; [by right|done].
Qed.

Lemma dict_put_in k v k' v' d :
  dict_get k' (dict_put k v d) = Some v' -> v' = v \/ dict_get k' d = Some v'.
Proof.
  induction d as [|[x w] d IH]; cbn.
  - destruct (py_eq k' k); [by intros [= ->]; left|by right].
  - destruct (py_eq k x) eqn:E; cbn; destruct (py_eq k' x); auto. intros [= ->]. by left.
Qed.

Lemma by_name_in tools d by_name k tool :
  tools_by_name tools d = Ok by_name -> dict_get k by_name = Some tool ->
  In tool tools \/ dict_get k d = Some tool.
Proof.
  revert d. induction tools as [|t tools IH]; intros d H Hg; cbn in H.
  - apply Ok_inj in H as <-. by right.
  - apply bind_ok in H as (n & _ & H). apply bind_ok in H as (? & _ & H).
    destruct (IH _ H Hg) as [Hin|Hd]; [left; by right|].
    apply dict_put_in in Hd as [->|Hd]; [left; by left|by right].
Qed.

(** ** What a record says *)

Lemma finally_ok {A} (m : io A) f w a w' :
  finally m f w = (Ok a, w') -> exists w1, m w = (Ok a, w1).
Proof.
  unfold finally. destruct (m w) as [r w1]. destruct (f w1) as [[u|e] w2]; [|done].
  intros [= -> _]. by exists w1.
Qed.

(** What the command printed and returned, the timeout included. *)
Definition observed (o : outcome) (out : string) (rc : Z) : Prop :=
  match o with
  | Finished raw code => out = decode_replace raw /\ rc = code
  | TimedOut => out = "TIMEOUT" +:+ str1 newline /\ rc = 124%Z
  | Failed _ => False
  end.

Lemma run_command_ok argv w out rc w' :
  run_command os command argv w = (Ok (out, rc), w') ->
  observed (command (trace w) argv) out rc /\ trace w' = trace w ++ [ERun argv].
Proof.
  unfold run_command, perform. destruct (os (trace w) (ERun argv)); [|done].
  by destruct (command (trace w) argv); intros [= <- <- <-].
Qed.

(** The record of a tool that ran. *)
Definition ran_record (name : json) (out : string) (rc : Z) (parsed : Z * Z * bool) (dur : Z)
    (log : string) : json :=
  let '(passed, failed, token_ok) := parsed in
  obj ["suite" ~> name;
       "status" ~> JStr (if (rc =? 0)%Z && token_ok then "pass" else "fail");
       "passed" ~> JInt passed; "failed" ~> JInt failed; "duration_ms" ~> JInt dur;
       "log" ~> JStr log].

Lemma run_tool_ok tool allow w rec w' :
  run_tool ROOT os free_port_of key_exists command dur_ms tool allow w = (Ok rec, w') ->
  exists name, getitem tool "name" = Ok name /\
  ((exists reason, may_run tool allow = Ok (false, reason) /\ rec = refused_record name reason) \/
   (may_run tool allow = Ok (true, "ok") /\
    exists argv h out rc token parsed dur,
      of_tool tool argv /\ observed (command h argv) out rc /\
      get tool "pass_token" = Ok token /\ parse_output out token = Ok parsed /\
      rec = ran_record name out rc parsed dur
              (relpath (resolve (LOGDIR ROOT) (py_str name +:+ ".txt")) ROOT))).
Proof.
  intros H. unfold run_tool in H. apply io_bind_ok in H as (u & w1 & _ & H).
  apply io_bind_ok in H as ([ok reason] & w2 & Hm & H). unfold liftR in Hm. injection Hm as Hm <-.
  apply io_bind_ok in H as (name & w3 & Hn & H). unfold liftR in Hn. injection Hn as Hn <-.
  exists name. split; [done|]. destruct ok; cbn [negb] in H.
  2:{ left. exists reason. split; [done|]. by injection H as <- _. }
  right. assert (reason = "ok") as -> by by apply may_run_ok in Hm as [-> _].
  split; [done|]. cbv zeta in H. apply io_bind_ok in H as ([out rc] & w4 & Hf & H).
  apply finally_ok in Hf as (w5 & Hf). apply io_bind_ok in Hf as (argv & w6 & Hb & Hr).
  apply build_cmd_of_tool in Hb. apply run_command_ok in Hr as [Ho _].
  apply io_bind_ok in H as (dur & w7 & _ & H). apply io_bind_ok in H as (u' & w8 & _ & H).
  apply io_bind_ok in H as (token & w9 & Ht & H). unfold liftR in Ht. injection Ht as Ht _.
  apply io_bind_ok in H as ([[p f] t] & w10 & Hp & H). unfold liftR in Hp. injection Hp as Hp _.
  injection H as <- _. exists argv, (trace w6), out, rc, token, (p, f, t), dur. done.
Qed.

(** ** The whole command line *)

(** A command of some tool of the list that the policy allows. *)
Definition sanctioned (tools : list json) (allow : bool) (argv : list string) : Prop :=
  exists tool c, In tool tools /\ get tool "safety" = Ok (JStr c) /\
    In c (allowed_class allow) /\ of_tool tool argv.

Lemma sanctioned_by tools tool allow argv :
  In tool tools -> may_run tool allow = Ok (true, "ok") -> of_tool tool argv ->
  sanctioned tools allow argv.
Proof. intros Hin (_ & c & Hs & Hc)%may_run_ok Ha. by exists tool, c. Qed.

Lemma accounts_run_one tools by_name name args :
  tools_by_name tools [] = Ok by_name ->
  accounts (sanctioned tools (arg_allow_network args))
    (run_one ROOT os free_port_of key_exists command dur_ms ts_ms by_name name args).
Proof.
  intros Hn. unfold run_one. destruct (dict_get (JStr name) by_name) as [tool|] eqn:E; account.
  - apply accounts_run_tool. intros. eapply sanctioned_by; [|done|done].
    by destruct (by_name_in _ _ _ _ _ Hn E) as [|].
  - apply accounts_record.
Qed.

Lemma accounts_run_in_order tools set allow :
  runnable_test_set tools = Ok set ->
  accounts (sanctioned tools allow)
    (run_all ROOT os free_port_of key_exists command dur_ms ts_ms set allow 0).
Proof.
  intros Hs. apply accounts_run_all. intros t Hin Hm argv Ha.
  eapply sanctioned_by; [|done|done]. by eapply runnable_incl.
Qed.

Lemma accounts_run_set tools args :
  accounts (sanctioned tools (arg_allow_network args))
    (run_set ROOT os free_port_of key_exists command dur_ms ts_ms tools args).
Proof.
  unfold run_set. destruct (arg_all args); [|account].
  intros w Hp. unfold mbind, io_bind, liftR. destruct (runnable_test_set tools) as [set|e] eqn:Hs.
  - by apply accounts_run_in_order.
  - apply accounted_refl.
Qed.

Lemma main_accounted tools_json args registry tools w :
  load_registry tools_json = Ok registry -> as_list registry = Ok tools -> procs w = [] ->
  accounted (sanctioned tools (arg_allow_network args)) w
    (snd (main ROOT os free_port_of key_exists command dur_ms ts_ms tools_json args w)).
Proof.
  intros Hl Ht Hp. unfold main. rewrite Hl. unfold mbind, io_bind, liftR. rewrite Ht.
  destruct (tools_by_name tools []) as [by_name|e] eqn:Hn; [|apply accounted_refl].
  revert w Hp. enough (accounts (sanctioned tools (arg_allow_network args))
    (dispatch ROOT os free_port_of key_exists command dur_ms ts_ms registry tools by_name args)) by done.
  unfold dispatch. destruct (arg_list args); [account; apply accounts_print_tools|].
  destruct (arg_tool args) as [[|c s]|];
    [apply accounts_run_set|by apply accounts_run_one|apply accounts_run_set].
Qed.
End Facts.
