(* ===== verification/Sse.v ===== *)
(** * The event stream a browser reads

    A reference decoder of server-sent events, and the proof that what
    [handle_stream] writes decodes to the backfill and the live lines: no line
    is split over two events or merged with another. *)

From stdpp Require Import base list strings numbers.
From Stdlib Require Import ZArith Lia Bool Ascii.
From S2P Require Import Prelude PyJson Sha256 JsonText JsonRoundtrip PyText Validator.
From S2P Require Import Tail RunTests Dashboard.

(** ** The decoder *)

(** The complete lines of a stream: CR, LF or CRLF ends a line. *)
Fixpoint sse_lines (s cur : string) : list string :=
  match s with
  | EmptyString => []
  | String c s' =>
      if Ascii.eqb c newline then cur :: sse_lines s' EmptyString
      else if Ascii.eqb c carriage then
        match s' with
        | String d s'' => if Ascii.eqb d newline then cur :: sse_lines s'' EmptyString
                          else cur :: sse_lines s' EmptyString
        | EmptyString => [cur]
        end
      else sse_lines s' (cur +:+ str1 c)
  end.

(** A field line: the name, and the value without one leading blank. *)
Definition sse_field (line : string) : string * string :=
  match split_once ":" line with
  | (k, Some (String c v)) => (k, if Ascii.eqb c " " then v else String c v)
  | (k, Some EmptyString) => (k, EmptyString)
  | (k, None) => (k, EmptyString)
  end.

(** The buffers: the event type and the data lines so far. *)
Definition sse_buffers : Type := string * list string.

Definition sse_line (buf : sse_buffers) (line : string) : sse_buffers * list (string * string) :=
  let '(ty, data) := buf in
  if String.eqb line EmptyString then
    ((EmptyString, []),
     if String.eqb (join (str1 newline) data) EmptyString then []
     else [(if String.eqb ty EmptyString then "message" else ty, join (str1 newline) data)])
  else
    match sse_field line with
    | (k, v) =>
        (if String.eqb k "event" then (v, data)
         else if String.eqb k "data" then (ty, data ++ [v])
         else (ty, data), [])
    end.

Fixpoint sse_feed (buf : sse_buffers) (lines : list string) : list (string * string) :=
  match lines with
  | [] => []
  | l :: lines' => let '(buf', out) := sse_line buf l in out ++ sse_feed buf' lines'
  end.

(** The events of a stream: type and data. *)
Definition sse_events (text : string) : list (string * string) :=
  sse_feed (EmptyString, []) (sse_lines text EmptyString).

Definition flatten (writes : list string) : string := foldr String.append EmptyString writes.

(** The text holds neither CR nor LF. *)
Fixpoint one_line (s : string) : bool :=
  match s with
  | EmptyString => true
  | String c s' => negb (Ascii.eqb c newline || Ascii.eqb c carriage) && one_line s'
  end.

(** * Lemmas *)

Lemma one_line_app a b : one_line (a +:+ b) = one_line a && one_line b.
Proof. induction a as [|c a IH]; [done|]. rewrite append_cons. cbn. by rewrite IH, andb_assoc. Qed.

Lemma sse_lines_cut l rest cur : one_line l = true ->
  sse_lines (l +:+ String newline rest) cur = (cur +:+ l) :: sse_lines rest EmptyString.
Proof.
  revert cur. induction l as [|c l IH]; intros cur H.
  - change (EmptyString +:+ String newline rest) with (String newline rest).
    rewrite append_nil_r. reflexivity.
  - rewrite append_cons. cbn [one_line] in H. apply andb_true_iff in H as [Hc H].
    apply negb_true_iff, orb_false_iff in Hc as [H1 H2]. cbn [sse_lines]. rewrite H1, H2, IH by done.
    by rewrite append_assoc.
Qed.

(** ** One write *)

(** The lines of a write that ends a block. *)
Lemma sse_block l rest : one_line l = true ->
  sse_lines ((l +:+ nl2) +:+ rest) EmptyString = l :: EmptyString :: sse_lines rest EmptyString.
Proof.
  intros H. unfold nl2, str1. rewrite append_assoc, !append_cons.
  change (EmptyString +:+ rest) with rest. by rewrite sse_lines_cut.
Qed.

Lemma sse_line_data ty d l : sse_line (ty, d) ("data: " +:+ l) = ((ty, d ++ [l]), []).
Proof. reflexivity. Qed.

(** The blank line dispatches one line of data. *)
Lemma sse_dispatch ty l lines : l <> EmptyString ->
  sse_feed (ty, [l]) (EmptyString :: lines)
  = (if String.eqb ty EmptyString then "message" else ty, l) :: sse_feed (EmptyString, []) lines.
Proof. intros H. cbn. by destruct (String.eqb_spec l EmptyString). Qed.

Lemma sse_data l rest : one_line l = true -> l <> EmptyString ->
  sse_events (("data: " +:+ l +:+ nl2) +:+ rest) = ("message", l) :: sse_events rest.
Proof.
  intros H Hne. unfold sse_events. rewrite <- (append_assoc "data: " l nl2), sse_block.
  2:{ by rewrite one_line_app, H. }
  cbn [sse_feed]. rewrite sse_line_data. cbn [app]. by apply sse_dispatch.
Qed.

Lemma sse_ping rest : sse_events ((": ping" +:+ nl2) +:+ rest) = sse_events rest.
Proof. unfold sse_events. by rewrite sse_block. Qed.

Lemma sse_retry rest : sse_events (("retry: 3000" +:+ nl2) +:+ rest) = sse_events rest.
Proof. unfold sse_events. by rewrite sse_block. Qed.

Lemma sse_no_data rest : sse_events ((": no-data-yet" +:+ nl2) +:+ rest) = sse_events rest.
Proof. unfold sse_events. by rewrite sse_block. Qed.

Lemma sse_backfill l rest : one_line l = true -> l <> EmptyString ->
  sse_events (("event: backfill" +:+ str1 newline +:+ "data: " +:+ l +:+ nl2) +:+ rest)
  = ("backfill", l) :: sse_events rest.
Proof.
  intros H Hne. unfold sse_events.
  change ((?a +:+ str1 newline +:+ ?b) +:+ rest) with (a +:+ String newline (b +:+ rest)).
  rewrite sse_lines_cut by done. change (EmptyString +:+ ?x) with x.
  rewrite <- (append_assoc "data: " l nl2), sse_block.
  2:{ by rewrite one_line_app, H. }
  cbn [sse_feed].
  change (sse_line (EmptyString, []) "event: backfill")
    with (("backfill", @nil string), @nil (string * string)).
  cbn beta iota. rewrite sse_line_data. cbn [app]. by apply (sse_dispatch "backfill").
Qed.

(** ** What is written *)

(** A line as the generator yields it: no newline, and not blank. *)
Definition good_line (l : string) : Prop :=
  exists raw, l = decode_replace raw /\ count_nl raw = 0 /\ nonblank raw = true.

Lemma split_nl_pieces s : Forall (fun p => count_nl p = 0) (split_nl s).
Proof.
  induction s as [|c s IH]; [by repeat constructor|]. cbn.
  destruct (Ascii.eqb c newline) eqn:E; [by constructor|].
  destruct (split_nl s) as [|p ps]; inversion_clear IH; constructor; cbn; by rewrite ?E.
Qed.

Lemma good_lines s : Forall good_line (map decode_replace (List.filter nonblank (split_nl s))).
Proof.
  apply List.Forall_forall. intros l (raw & <- & [Hin Hb]%filter_In)%in_map_iff.
  exists raw. split; [done|]. split; [|done]. pose proof (split_nl_pieces s) as H.
  by eapply List.Forall_forall in H.
Qed.

Lemma lines_of_yielded s :
  lines_of (yielded s) = map decode_replace (List.filter nonblank (split_nl s)).
Proof. unfold yielded. induction (List.filter _ _) as [|x l IH]; [done|]. cbn. by f_equal. Qed.

Lemma stream_step_good st o : Forall good_line (lines_of (snd (stream_step st o))).
Proof.
  unfold stream_step. destruct (_ <? _)%Z; [constructor|].
  destruct (if (_ <? _)%Z then _ else _) as [pos pending]. destruct (_ <? _)%Z; [|constructor].
  destruct (o_data o); [|constructor]. cbv zeta. destruct (cut_last_nl _) as [[a b]|]; [|constructor].
  cbn [snd]. rewrite lines_of_yielded. apply good_lines.
Qed.

Lemma stream_run_good os st : Forall good_line (lines_of (snd (stream_run st os))).
Proof.
  revert st. induction os as [|o os IH]; intros st; [constructor|]. cbn [stream_run].
  pose proof (stream_step_good st o) as H. destruct (stream_step st o) as [st' out].
  pose proof (IH st') as H'. destruct (stream_run st' os) as [st'' out']. cbn [snd] in *.
  rewrite lines_of_app. by apply List.Forall_app.
Qed.

(** ** Decoding keeps lines whole *)

(** What decoding does to a text: an induction over its sequences. *)
Lemma decode_ind (P : string -> string -> Prop) :
  P EmptyString EmptyString ->
  (forall c s t, P s t -> (nat_of_ascii c < 128)%nat -> P (String c s) (String c t)) ->
  (forall c s t, P s t -> (128 <= nat_of_ascii c)%nat -> P (String c s) (replacement +:+ t)) ->
  (forall c s t, P s t -> (128 <= nat_of_ascii c)%nat -> P (String c s) (String c t)) ->
  (forall c s t, P s (replacement +:+ t) -> (128 <= nat_of_ascii c)%nat ->
     P (String c s) (replacement +:+ t)) ->
  forall s, P s (decode_replace s).
Proof.
  intros H0 H1 H2 H3 H4 s. remember (String.length s) as n eqn:Hn. revert s Hn.
  induction n as [n IH] using lt_wf_ind. intros s ->. destruct s as [|c s1]; [done|].
  assert (forall t, (String.length t < String.length (String c s1))%nat -> P t (decode_replace t))
    as Hrec by (intros; by eapply IH). clear IH.
  cbn [decode_replace]. cbv zeta. destruct (nat_of_ascii c <? 128) eqn:E1.
  { apply Nat.ltb_lt in E1. apply H1; [apply Hrec; cbn; lia|done]. }
  apply Nat.ltb_ge in E1. destruct (_ && _); cbn [negb]; [|apply H2; [apply Hrec; cbn; lia|done]].
  destruct s1 as [|c1 s2]; [by apply (H2 c EmptyString EmptyString)|].
  destruct (byte_in _ _ c1) eqn:B1; cbn [negb]; [|apply H2; [apply Hrec; cbn; lia|done]].
  assert (128 <= nat_of_ascii c1)%nat as B1'.
  { unfold byte_in in B1. apply andb_true_iff in B1 as [B1%Nat.leb_le _]. repeat case_match; lia. }
  destruct (_ <=? 223); [by apply H3; [apply H3; [apply Hrec; cbn; lia|]|]|].
  destruct s2 as [|c2 s3]; [by apply (H4 c _ EmptyString), E1; apply (H2 c1 EmptyString EmptyString)|].
  destruct (byte_in 128 191 c2) eqn:B2; cbn [negb].
  2:{ apply H4; [|done]. apply H2; [apply Hrec; cbn; lia|done]. }
  assert (128 <= nat_of_ascii c2)%nat as B2'.
  { unfold byte_in in B2. apply andb_true_iff in B2 as [B2%Nat.leb_le _]. done. }
  destruct (_ <=? 239).
  { by apply H3; [apply H3; [apply H3; [apply Hrec; cbn; lia|]|]|]. }
  destruct s3 as [|c3 s4].
  { apply (H4 c _ EmptyString); [|done]. apply (H4 c1 _ EmptyString); [|done].
    by apply (H2 c2 EmptyString EmptyString). }
  destruct (byte_in 128 191 c3) eqn:B3; cbn [negb].
  2:{ apply H4; [|done]. apply H4; [|done]. apply H2; [apply Hrec; cbn; lia|done]. }
  assert (128 <= nat_of_ascii c3)%nat as B3'.
  { unfold byte_in in B3. apply andb_true_iff in B3 as [B3%Nat.leb_le _]. done. }
  by apply H3; [apply H3; [apply H3; [apply H3; [apply Hrec; cbn; lia|]|]|]|].
Qed.

Lemma high_not_newline c : (128 <= nat_of_ascii c)%nat -> Ascii.eqb c newline = false.
Proof. intros H. destruct (Ascii.eqb_spec c newline) as [->|]; [cbv in H; lia|done]. Qed.

Lemma high_not_space c : (128 <= nat_of_ascii c)%nat -> is_space c = false.
Proof.
  intros H. unfold is_space. apply orb_false_iff. split; [apply Nat.eqb_neq; lia|].
  apply andb_false_iff. right. apply Nat.leb_gt. lia.
Qed.

Lemma decode_count_nl s : count_nl (decode_replace s) = count_nl s.
Proof.
  apply (decode_ind (fun s t => count_nl t = count_nl s)); cbn; intros;
    rewrite ?high_not_newline by done; cbn; by rewrite ?H.
Qed.

Lemma decode_blank s : blank (decode_replace s) = true -> blank s = true.
Proof.
  apply (decode_ind (fun s t => blank t = true -> blank s = true)); cbn; try done; intros c s' t.
  - intros IH _ [-> H]%andb_true_iff. by rewrite IH.
  - intros _ Hc. by rewrite high_not_space.
Qed.

Lemma remove_char_one_line s : count_nl s = 0 -> one_line (remove_char carriage s) = true.
Proof.
  induction s as [|c s IH]; [done|]. cbn. destruct (Ascii.eqb c newline) eqn:E1; [done|].
  intros H. destruct (Ascii.eqb c carriage) eqn:E2; [by apply IH|]. cbn. rewrite E1, E2. by apply IH.
Qed.

Lemma remove_char_empty s : remove_char carriage s = EmptyString -> blank s = true.
Proof.
  induction s as [|c s IH]; [done|]. cbn. destruct (Ascii.eqb_spec c carriage) as [->|]; [|done].
  intros H. by rewrite IH.
Qed.

(** A line the generator yields is sent as one event. *)
Lemma good_line_sent l : good_line l ->
  one_line (remove_char carriage l) = true /\ remove_char carriage l <> EmptyString.
Proof.
  intros (raw & -> & Hn & Hb). split; [apply remove_char_one_line; by rewrite decode_count_nl|].
  intros H%remove_char_empty%decode_blank. unfold nonblank in Hb. by rewrite H in Hb.
Qed.

(** ** The live part *)

Lemma flatten_app a b : flatten (a ++ b) = flatten a +:+ flatten b.
Proof.
  induction a as [|x a IH]; [done|].
  change (x +:+ flatten (a ++ b) = (x +:+ flatten a) +:+ flatten b). by rewrite IH, append_assoc.
Qed.

Lemma flatten_cons x a : flatten (x :: a) = x +:+ flatten a.
Proof. reflexivity. Qed.

Lemma sse_live_events items last clock rest :
  Forall good_line (lines_of items) ->
  sse_events (flatten (sse_live last items clock) +:+ rest)
  = map (fun l => ("message", remove_char carriage l)) (lines_of items) ++ sse_events rest.
Proof.
  revert last clock. induction items as [|item items IH]; intros last clock H; [done|].
  assert (forall last', sse_events (flatten (sse_live last' items (fun k => clock (S k))) +:+ rest)
    = map (fun l => ("message", remove_char carriage l)) (lines_of items) ++ sse_events rest) as Hrec.
  { intros. apply IH. destruct item; [by inversion H|done]. }
  assert (sse_events (flatten (if (15000 <=? clock 0%nat - last)%Z
        then (": ping" +:+ nl2) :: sse_live (clock 0%nat) items (fun k => clock (S k))
        else sse_live last items (fun k => clock (S k))) +:+ rest)
    = map (fun l => ("message", remove_char carriage l)) (lines_of items) ++ sse_events rest) as Hping.
  { destruct (15000 <=? _)%Z; [|apply Hrec].
    rewrite flatten_cons, append_assoc, sse_ping. apply Hrec. }
  replace (sse_live last (item :: items) clock) with
    (match item with Some l => ["data: " +:+ remove_char carriage l +:+ nl2] | None => [] end ++
     (if (15000 <=? clock 0%nat - last)%Z
      then (": ping" +:+ nl2) :: sse_live (clock 0%nat) items (fun k => clock (S k))
      else sse_live last items (fun k => clock (S k)))) by (cbn; by destruct (15000 <=? _)%Z).
  rewrite flatten_app, append_assoc. destruct item as [l|]; [|exact Hping].
  inversion_clear H as [|? ? Hl _]. destruct (good_line_sent l Hl) as [Ho Hne].
  rewrite flatten_cons. change (flatten []) with EmptyString.
  rewrite append_nil_r, sse_data by done. by rewrite Hping.
Qed.

(** ** The backfill payload *)

Lemma hex_digit_one_line m : (m < 16)%N ->
  Ascii.eqb (hex_digit (N.to_nat m)) newline || Ascii.eqb (hex_digit (N.to_nat m)) carriage = false.
Proof.
  intros H. assert (m ∈ (N.of_nat <$> seq 0 16)) as Hin.
  { apply list_elem_of_fmap. exists (N.to_nat m). split; [lia|]. apply elem_of_seq. lia. }
  cbn in Hin. repeat (apply elem_of_cons in Hin as [->|Hin]; [reflexivity|]).
  by apply elem_of_nil in Hin.
Qed.

Lemma u_escape_one_line n : one_line (u_escape n) = true.
Proof.
  unfold u_escape, hex4, str1. cbn [one_line].
  rewrite !hex_digit_one_line by (apply N.mod_lt; lia). reflexivity.
Qed.

Lemma esc_code_one_line n : one_line (esc_code n) = true.
Proof.
  unfold esc_code. destruct (_ <? _)%N; [apply u_escape_one_line|].
  cbv zeta. by rewrite one_line_app, !u_escape_one_line.
Qed.

Lemma esc_char_one_line c : one_line (esc_char c) = true.
Proof. destruct c as [[] [] [] [] [] [] [] []]; reflexivity. Qed.

Lemma esc_ascii_one_line s : utf8_valid s = true -> one_line (esc_ascii s) = true.
Proof.
  remember (String.length s) as n eqn:Hn. revert s Hn.
  induction n as [n IH] using lt_wf_ind. intros s ->. destruct s as [|c s1]; [done|].
  assert (forall t, (String.length t < String.length (String c s1))%nat -> utf8_valid t = true ->
    one_line (esc_ascii t) = true) as Hrec by (intros; by eapply IH). clear IH.
  cbn [utf8_valid esc_ascii]. cbv zeta.
  assert ((nat_of_ascii c <? 128) = (N_of_ascii c <? 127)%N || (N_of_ascii c =? 127)%N) as ->.
  { unfold nat_of_ascii. destruct (N.ltb_spec (N_of_ascii c) 127), (N.eqb_spec (N_of_ascii c) 127);
      cbn [orb]; [apply Nat.ltb_lt|apply Nat.ltb_lt|apply Nat.ltb_lt|apply Nat.ltb_ge]; lia. }
  destruct (_ <? 127)%N; cbn [orb].
  { intros H. rewrite one_line_app, esc_char_one_line. apply Hrec; [cbn; lia|done]. }
  destruct (_ =? 127)%N.
  { intros H. rewrite one_line_app, esc_code_one_line. apply Hrec; [cbn; lia|done]. }
  destruct s1 as [|c1 s2]; [done|].
  assert ((194 <=? nat_of_ascii c) && (nat_of_ascii c <=? 223) = true ->
    (N_of_ascii c <? 224)%N = true) as H2.
  { intros H%cont_byte. apply N.ltb_lt. lia. }
  assert ((224 <=? nat_of_ascii c) && (nat_of_ascii c <=? 239) = true ->
    (N_of_ascii c <? 224)%N = false /\ (N_of_ascii c <? 240)%N = true) as H3.
  { intros H%cont_byte. split; [apply N.ltb_ge|apply N.ltb_lt]; lia. }
  destruct (_ && _) in H2 |- *.
  { rewrite H2 by done. intros [_ H]%andb_true_iff. rewrite one_line_app, esc_code_one_line.
    apply Hrec; [cbn; lia|done]. }
  destruct s2 as [|c2 s3]; [done|]. destruct (_ && _) in H3 |- *.
  { destruct H3 as [-> ->]; [done|]. intros [_ H]%andb_true_iff.
    rewrite one_line_app, esc_code_one_line. apply Hrec; [cbn; lia|done]. }
  destruct s3 as [|c3 s4]; [done|]. intros [[[[Hc%cont_byte _]%andb_true_iff _]%andb_true_iff
    _]%andb_true_iff H]%andb_true_iff.
  rewrite (proj2 (N.ltb_ge (N_of_ascii c) 224)), (proj2 (N.ltb_ge (N_of_ascii c) 240)) by lia.
  rewrite one_line_app, esc_code_one_line. apply Hrec; [cbn; lia|done].
Qed.

Lemma join_one_line sep l :
  one_line sep = true -> Forall (fun s => one_line s = true) l -> one_line (join sep l) = true.
Proof.
  intros Hs. induction 1 as [|x l Hx Hl IH]; [done|]. destruct l as [|y l]; [done|].
  rewrite join_cons, !one_line_app, Hx, Hs. done.
Qed.

Lemma payload_one_line lines :
  Forall (fun l => utf8_valid l = true) lines -> one_line (dumps "," ":" (strs lines)) = true.
Proof.
  intros H. unfold strs. cbn [dumps]. rewrite !one_line_app, map_map.
  rewrite join_one_line; [done|done|]. apply List.Forall_forall. intros s (l & <- & Hin)%in_map_iff.
  cbn [dumps]. unfold quote_ascii, str1. cbn [one_line]. rewrite one_line_app, esc_ascii_one_line; [done|].
  by eapply List.Forall_forall in H.
Qed.

(** ** The whole stream *)

(** The events of a stream: the backfill if there is one, then the live lines. *)
Lemma handle_stream_events target dflt o os start clock lines pos :
  tail_lines o (backfill_of target dflt) = (lines, pos) ->
  Forall (fun l => utf8_valid l = true) lines ->
  sse_events (flatten (handle_stream target dflt o os start clock))
  = match lines with [] => [] | _ => [("backfill", dumps "," ":" (strs lines))] end
    ++ map (fun l => ("message", remove_char carriage l)) (lines_of (stream_new_lines pos os)).
Proof.
  intros Ht Hu. unfold handle_stream. rewrite Ht.
  unfold sse_opening. cbn [app]. rewrite !flatten_cons, sse_retry.
  pose proof (sse_live_events (stream_new_lines pos os) start clock EmptyString
    (stream_run_good os (pos, EmptyString))) as Hl.
  rewrite !append_nil_r in Hl. change (sse_events EmptyString) with (@nil (string * string)) in Hl.
  rewrite List.app_nil_r in Hl.
  destruct lines as [|l lines]; [by rewrite sse_no_data|].
  rewrite sse_backfill; [by rewrite Hl|by apply payload_one_line|done].
Qed.

Lemma tail_lines_valid o n : Forall (fun l => utf8_valid l = true) (fst (tail_lines o n)).
Proof.
  unfold tail_lines. destruct (_ || _); [constructor|]. destruct (o_data o); [|constructor].
  apply List.Forall_forall. intros l (raw & <- & _)%in_map_iff. apply decode_replace_valid.
Qed.
