(* ===== verification/ConsoleFacts.v ===== *)
(** * What the console's handlers guarantee

    The handlers are clients of the runner: what they run, they run through
    [run_tool] after [may_run]; what they show is what the runner would do. *)

From stdpp Require Import base list strings numbers.
From Stdlib Require Import ZArith Lia Bool Ascii.
From S2P Require Import Prelude PyJson Sha256 JsonText JsonRoundtrip PyText Validator.
From S2P Require Import BuilderFacts RunTests Dashboard RunTestsFacts.

(** ** Recording *)

Section Recording.
Context (ROOT : list string) (os : list event -> event -> result unit) (ts_ms : list event -> Z).

Lemma leaving_ok e text w w' :
  leaving os e text w = (Ok tt, w') -> latest w' = Some text.
Proof. unfold leaving, perform. destruct (os (trace w) e); [|done]. by intros [= <-]. Qed.

Lemma perform_ok e w u w' : perform os e w = (Ok u, w') -> latest w' = latest w.
Proof. unfold perform. by intros [= _ <-]. Qed.

(** A record that is not a refusal is filed under its suite. *)
Lemma record_ok rec w w' :
  record ROOT os ts_ms rec w = (Ok tt, w') ->
  (get rec "status" = Ok (JStr "refused") /\ w' = w) \/
  (exists now filed suite new,
     stamped rec now = Ok filed /\ getitem filed "suite" = Ok (JStr suite) /\
     setitem (load_latest (latest w)) suite filed = Ok new /\
     latest w' = Some (dumps_indent 0 new)).
Proof.
  intros H. unfold record in H. apply io_bind_ok in H as (refused & w1 & Hr & H).
  unfold liftR in Hr. injection Hr as Hr <-. destruct refused.
  { left. injection H as <-. split; [|done]. unfold get_is in Hr.
    destruct (get rec "status") as [v|]; [|done]. cbn in Hr. apply Ok_inj, eq_str_true in Hr. by subst. }
  right. apply io_bind_ok in H as (u & w2 & H2%perform_ok & H).
  apply io_bind_ok in H as (now & w3 & H3 & H). unfold observe in H3. injection H3 as _ <-.
  apply io_bind_ok in H as (filed & w4 & H4 & H). unfold liftR in H4. injection H4 as H4 <-.
  apply io_bind_ok in H as (u5 & w5 & H5%perform_ok & H).
  apply io_bind_ok in H as (old & w6 & H6 & H). injection H6 as <- <-.
  apply io_bind_ok in H as (suite & w7 & H7 & H). unfold liftR in H7. injection H7 as H7 <-.
  apply io_bind_ok in H as (name & w8 & H8 & H). unfold liftR in H8. injection H8 as H8 <-.
  apply io_bind_ok in H as (new & w9 & H9 & H). unfold liftR in H9. injection H9 as H9 <-.
  unfold write_latest in H. apply io_bind_ok in H as (u10 & w10 & _ & H). apply leaving_ok in H.
  destruct suite; try discriminate H8. injection H8 as <-. rewrite H5, H2 in H9.
  by exists now, filed, s, new.
Qed.
End Recording.

(** A value that [json.dumps] writes and [json.loads] reads back. *)
Definition storable (v : json) : bool := utf8_json v && wf_json v.

Lemma storable_set d k v :
  storable (JObj d) = true -> utf8_valid k = true -> storable v = true ->
  storable (JObj (assoc_set k v d)) = true.
Proof.
  unfold storable. rewrite !andb_true_iff. intros [Hu Hw] Hk [Hvu Hvw]. split.
  - cbn [utf8_json] in *. clear Hw. induction d as [|[x y] d IH]; cbn in *; [by rewrite Hk, Hvu|].
    apply andb_true_iff in Hu as [Hxy Hu]. destruct (String.eqb_spec k x) as [->|]; cbn.
    + by rewrite Hk, Hvu.
    + rewrite Hxy. by apply IH.
  - apply wf_obj_iff in Hw as [Hnd Hw]. apply wf_obj_iff. split; [by apply assoc_set_nodup|].
    clear Hnd Hu. revert Hw. induction d as [|[x y] d IH]; cbn; intros Hw k' w'.
    + intros [[= <- <-]|[]]. done.
    + destruct (String.eqb_spec k x) as [->|]; cbn.
      * intros [[= <- <-]|Hin]; [done|]. apply (Hw k' w'). by right.
      * intros [[= <- <-]|Hin]; [apply (Hw x y); by left|].
        eapply IH; [|exact Hin]. intros k2 w2 H2. apply (Hw k2 w2). by right.
Qed.

Lemma stamped_ok rec now filed :
  stamped rec now = Ok filed ->
  exists d, rec = JObj d /\
    filed = JObj (assoc_set "ts_ms" (JInt now) (assoc_set "type" (JStr "test_suite") d)).
Proof. destruct rec; try discriminate. intros [= <-]. by eexists. Qed.

Lemma stamped_storable rec now filed :
  stamped rec now = Ok filed -> storable rec = true -> storable filed = true.
Proof. intros (d & -> & ->)%stamped_ok H. by do 2 (apply storable_set; try done). Qed.

Lemma stamped_get rec now filed k :
  stamped rec now = Ok filed -> k <> "ts_ms" -> k <> "type" -> getitem filed k = getitem rec k.
Proof.
  intros (d & -> & ->)%stamped_ok H1 H2. cbn [getitem].
  by rewrite !assoc_set_other by congruence.
Qed.

Lemma storable_str rec k s : storable rec = true -> getitem rec k = Ok (JStr s) -> utf8_valid s = true.
Proof.
  unfold storable. intros [Hu _]%andb_true_iff H. destruct rec as [| | | | | |d]; try discriminate.
  apply or_raise_ok, assoc_in in H. cbn [utf8_json] in Hu. rewrite forallb_forall in Hu.
  specialize (Hu _ H). cbn in Hu. by apply andb_true_iff in Hu as [_ Hu].
Qed.

Lemma load_latest_written v : storable v = true -> load_latest (Some (dumps_indent 0 v)) = v.
Proof.
  unfold storable. intros [Hu Hw]%andb_true_iff. unfold load_latest. by rewrite loads_dumps_indent.
Qed.

(** ** The policy, seen by the handlers *)

(** A tool of the "run all" set runs on every server. *)
Lemma in_run_all_may_run t allow : in_run_all t = Ok true -> may_run t allow = Ok (true, "ok").
Proof.
  unfold in_run_all. intros [[_ H]%andR_true _]%andR_true. apply may_run_ok. split; [done|].
  destruct (get t "safety") as [v|]; [|done]. cbn in H. apply Ok_inj, orb_true_iff in H.
  destruct H as [->%eq_str_true| ->%eq_str_true]; eexists; (split; [done|]); simpl; auto.
Qed.

Lemma setitem_get v k x w : setitem v k x = Ok w -> getitem w k = Ok x.
Proof. destruct v; try discriminate. intros [= <-]. cbn. by rewrite assoc_set_same. Qed.

Lemma setitem_get_other v k x w k' : setitem v k x = Ok w -> k' <> k -> getitem w k' = getitem v k'.
Proof. destruct v; try discriminate. intros [= <-] H. cbn. by rewrite assoc_set_other. Qed.

(** An entry of /api/tools shows the tool and what the policy says of it. *)
Lemma annotate_ok allow run_all t e :
  annotate allow run_all t = Ok e ->
  exists ok reason name, may_run t allow = Ok (ok, reason) /\ getitem t "name" = Ok name /\
    getitem e "runnable" = Ok (JBool ok) /\ getitem e "run_reason" = Ok (JStr reason) /\
    getitem e "in_run_all" = Ok (JBool (in_list name run_all)) /\ getitem e "name" = Ok name /\
    getitem e "safety" = getitem t "safety".
Proof.
  intros H. unfold annotate in H. apply bind_ok in H as ([ok reason] & Hm & H).
  apply bind_ok in H as (e1 & H1 & H). apply bind_ok in H as (e2 & H2 & H).
  apply bind_ok in H as (name & Hn & H). apply bind_ok in H as (u & _ & H).
  exists ok, reason, name. do 2 (split; [done|]).
  rewrite (setitem_get_other _ _ _ _ "runnable" H), (setitem_get_other _ _ _ _ "runnable" H2),
    (setitem_get _ _ _ _ H1) by done.
  rewrite (setitem_get_other _ _ _ _ "run_reason" H), (setitem_get _ _ _ _ H2) by done.
  rewrite (setitem_get _ _ _ _ H). split; [done|]. split; [done|]. split; [done|].
  split; rewrite (setitem_get_other _ _ _ _ _ H), (setitem_get_other _ _ _ _ _ H2),
    (setitem_get_other _ _ _ _ _ H1) by done; done.
Qed.

(** The refresher starts only when the network is allowed. *)
Lemma shadow_refresher wt allow :
  snd (shadow_data wt allow) = true -> w_refresher_started wt = true \/ allow = true.
Proof.
  unfold shadow_data. cbv zeta. destruct (w_import wt); [|by left].
  destruct allow; [by right|]. by left.
Qed.

(** Every registered tool has its entry. *)
Lemma api_tools_entry tools_json allow registry tools shown tool :
  load_registry tools_json = Ok registry -> as_list registry = Ok tools ->
  api_tools tools_json allow = Ok shown -> In tool tools ->
  exists entries entry ok reason,
    getitem shown "tools" = Ok (JList entries) /\ In entry entries /\
    may_run tool allow = Ok (ok, reason) /\ getitem entry "name" = getitem tool "name" /\
    getitem entry "runnable" = Ok (JBool ok) /\ getitem entry "run_reason" = Ok (JStr reason).
Proof.
  intros Hl Ht Hs Hin. unfold api_tools in Hs. rewrite Hl in Hs. cbn [mbind result_bind] in Hs.
  rewrite Ht in Hs. cbn [mbind result_bind] in Hs. apply bind_ok in Hs as (set & _ & Hs).
  apply bind_ok in Hs as (names & _ & Hs). apply bind_ok in Hs as (run_all & _ & Hs).
  apply bind_ok in Hs as (out & Ho & Hs). apply Ok_inj in Hs as <-.
  apply mapR_ok_Forall2 in Ho.
  assert (exists entry, In entry out /\ annotate allow run_all tool = Ok entry) as (entry & Hie & He).
  { clear -Ho Hin. induction Ho as [|t e ts es H1 H2 IH]; [done|]. destruct Hin as [->|Hin].
    - exists e. split; [by left|done].
    - destruct (IH Hin) as (e' & ? & ?). exists e'. split; [by right|done]. }
  apply annotate_ok in He as (ok & reason & name & Hm & Hn & Hr & Hrr & _ & Hen & _).
  exists out, entry, ok, reason. rewrite Hn. done.
Qed.

(** ** POST *)

Lemma by_name_truthy tools d by_name k tool :
  tools_by_name tools d = Ok by_name -> dict_get k by_name = Some tool ->
  (forall v, dict_get k d = Some v -> truthy v = true) -> truthy tool = true.
Proof.
  revert d. induction tools as [|t tools IH]; intros d H Hg Hd; cbn in H.
  - apply Ok_inj in H as <-. by apply Hd.
  - apply bind_ok in H as (n & Hn & H). apply bind_ok in H as (? & _ & H).
    apply (IH _ H Hg). intros v Hv. apply dict_put_in in Hv as [->|Hv]; [|by apply Hd].
    by destruct t as [| | | | | |[|]].
Qed.

Section Post.
Context (ROOT : list string) (os : list event -> event -> result unit) (free_port_of : nat -> Z).
Context (key_exists : list event -> bool) (command : list event -> list string -> outcome).
Context (dur_ms ts_ms : list event -> Z) (tools_json : result string) (allow : bool).

#[local] Abbreviation run_tool_ := (run_tool ROOT os free_port_of key_exists command dur_ms).
#[local] Abbreviation post := (do_POST ROOT os free_port_of key_exists command dur_ms ts_ms tools_json allow).

Lemma post_accounted q registry tools w :
  load_registry tools_json = Ok registry -> as_list registry = Ok tools -> procs w = [] ->
  accounted os (sanctioned tools allow) w (snd (post q w)).
Proof.
  intros Hl Ht Hp. revert w Hp.
  enough (accounts os (sanctioned tools allow) (post q)) by done.
  unfold do_POST. destruct (negb _); [apply accounts_ret|].
  destruct (read_body q) as [body|e]; [|apply accounts_ret]. unfold run_named.
  apply accounts_bind; [apply accounts_lift|]. intros name.
  rewrite Hl. intros w Hp. unfold mbind, io_bind, liftR. rewrite Ht.
  destruct (tools_by_name tools []) as [by_name|e] eqn:Hn; [|apply accounted_refl].
  destruct (need_hashable name) as [u|e]; [|apply accounted_refl].
  destruct (dict_get name by_name) as [tool|] eqn:Hg; [|apply accounted_refl].
  destruct (negb (truthy tool)); [apply accounted_refl|].
  destruct (may_run tool allow) as [[ok reason]|e]; [|apply accounted_refl].
  destruct (negb ok); [apply accounted_refl|]. revert w Hp.
  enough (accounts os (sanctioned tools allow) (rec ← run_tool_ tool allow; _ ← record ROOT os ts_ms rec;
    mret (_json 200 rec))) by done.
  apply accounts_bind; [apply accounts_run_tool|].
  - intros Hm argv Ha. eapply sanctioned_by; [|done|done].
    by destruct (by_name_in _ _ _ _ _ Hn Hg).
  - intros rec. apply accounts_bind; [apply accounts_record|]. intros. apply accounts_ret.
Qed.

(** A named tool is answered as the policy says. *)
Lemma post_named q body name registry tools by_name tool w :
  path_of (q_target q) = "/api/run" -> read_body q = Ok body ->
  get_default body "name" (JStr EmptyString) = Ok name -> hashable name = true ->
  load_registry tools_json = Ok registry -> as_list registry = Ok tools ->
  tools_by_name tools [] = Ok by_name -> dict_get name by_name = Some tool ->
  post q w =
  match may_run tool allow with
  | Raise e => (Raise e, w)
  | Ok (false, reason) =>
      (Ok (_json 403 (obj ["error" ~> JStr "refused"; "name" ~> name; "reason" ~> JStr reason])), w)
  | Ok (true, _) =>
      (rec ← run_tool_ tool allow; _ ← record ROOT os ts_ms rec; mret (_json 200 rec)) w
  end.
Proof.
  intros Hp Hb Hn Hh Hl Ht Hbn Hg. unfold do_POST. rewrite Hp, Hb. cbn [String.eqb negb].
  change (String.eqb "/api/run" "/api/run") with true. cbn [negb]. unfold run_named.
  rewrite Hn, Hl. unfold mbind at 1 2 3 4 5, io_bind at 1 2 3 4 5. unfold liftR at 1 2 3 4 5.
  rewrite Ht, Hbn. unfold need_hashable. rewrite Hh, Hg.
  rewrite (by_name_truthy _ _ _ _ _ Hbn Hg) by done. cbn [negb].
  unfold mbind at 1, io_bind at 1, liftR at 1. by destruct (may_run tool allow) as [[[] reason]|e].
Qed.

(** What reaches the handler but names no tool, or is no request to run one,
    changes nothing. *)
Lemma post_quiet q w r w' :
  post q w = (Ok r, w') -> r_code r <> 200%Z -> w' = w.
Proof.
  unfold do_POST. destruct (negb _); [by intros [= <- <-]|].
  destruct (read_body q) as [body|e]; [|by intros [= <- <-]]. intros H Hc. unfold run_named in H.
  apply io_bind_ok in H as (name & w1 & H1 & H). unfold liftR in H1. injection H1 as _ <-.
  apply io_bind_ok in H as (reg & w2 & H2 & H). unfold liftR in H2. injection H2 as _ <-.
  apply io_bind_ok in H as (tools & w3 & H3 & H). unfold liftR in H3. injection H3 as _ <-.
  apply io_bind_ok in H as (d & w4 & H4 & H). unfold liftR in H4. injection H4 as _ <-.
  apply io_bind_ok in H as (u & w5 & H5 & H). unfold liftR in H5. injection H5 as _ <-.
  destruct (dict_get name d) as [tool|]; [|by injection H as <- <-].
  destruct (negb (truthy tool)); [by injection H as <- <-|].
  apply io_bind_ok in H as ([ok reason] & w6 & H6 & H). unfold liftR in H6. injection H6 as _ <-.
  destruct (negb ok); [by injection H as <- <-|].
  apply io_bind_ok in H as (rec & w7 & _ & H). apply io_bind_ok in H as (u' & w8 & _ & H).
  by injection H as <- <-.
Qed.
End Post.
