(* ===== verification/ConsoleProperties.v ===== *)
(** * Properties of the console and the tool runner

    The log tail and the event stream; the safety policy, the mock lifecycle and
    the records of the runner; the HTTP handlers that drive it. *)

From stdpp Require Import base list strings numbers.
From Stdlib Require Import ZArith Lia Bool Ascii.
From S2P Require Import Prelude PyJson Sha256 JsonText JsonRoundtrip PyText Validator.
From S2P Require Import BuilderFacts Tail RunTests Dashboard RunTestsFacts Sse ConsoleFacts.

(** ** Inputs of the witnesses *)

Definition line (s : string) : string := s +:+ str1 newline.

Definition demo_tool (name safety : string) : json := obj [
  "name" ~> JStr name; "kind" ~> JStr "test"; "safety" ~> JStr safety; "cmd" ~> JStr "./build/unit -q";
  "needs" ~> strs ["mini_redis"]; "pass_token" ~> JStr "ALL OK"].

Definition demo_tools : list json :=
  [demo_tool "unit" "pure"; demo_tool "probe" "network_read"; demo_tool "trade" "live_order"].

Definition demo_registry : result string :=
  Ok (dumps "," ":" (obj ["tools" ~> JList demo_tools])).

Definition quiet_os (h : list event) (e : event) : result unit := Ok tt.
Definition demo_command (h : list event) (argv : list string) : outcome :=
  Finished (line "PASS: a" +:+ line "ALL OK") 0.
Definition empty_world : world := World [] 0 [] None.

Definition demo_run (tool : json) (allow : bool) : result json * world :=
  run_tool ["srv"] quiet_os (fun k => 4000 + Z.of_nat k)%Z (fun _ => true) demo_command
    (fun _ => 12%Z) tool allow empty_world.

Definition demo_post (allow : bool) (name : string) : result response * world :=
  let body := dumps "," ":" (obj ["name" ~> JStr name]) in
  do_POST ["srv"] quiet_os (fun k => 4000 + Z.of_nat k)%Z (fun _ => true) demo_command
    (fun _ => 12%Z) (fun _ => 1%Z) demo_registry allow
    (Request "/api/run" (Some (show_nat (String.length body))) (fun _ => Ok body)) empty_world.

(** ** The log tail *)

(** C18: for a file that ends in a newline and has no blank lines, [tail_lines]
    gives exactly its last [n] complete lines, whatever the number of 64 KiB blocks
    it has to read and none when [n] is not positive, and the size to resume from;
    a file that is missing or cannot be opened gives no lines and does not raise. *)
Theorem tail_gives_last_lines content n :
  dense content = true -> last_piece content = EmptyString ->
  tail_lines (stable content) n =
  (map decode_replace (lastn (Z.to_nat n) (complete_lines content)),
   Z.of_nat (String.length content)) /\
  forall size, tail_lines (Observation size None) n = ([], Z.max (default (-1)%Z size) 0).
Proof.
  intros Hd He. split.
  - rewrite (ends_nl_lines content He). destruct (Z.ltb_spec 0 n) as [Hn|Hn]; [by apply tail_lines_eq|].
    unfold tail_lines, file_size, stable. cbn [o_size o_data].
    rewrite (proj2 (Z.leb_le n 0)) by lia. rewrite orb_true_r. replace (Z.to_nat n) with 0 by lia.
    unfold lastn. rewrite Nat.sub_0_r, skipn_all. cbn [map]. f_equal. lia.
  - intros [size|]; unfold tail_lines, file_size; cbn [o_size o_data]; by destruct (_ || _).
Qed.

Lemma tail_gives_last_lines_witness :
  tail_lines (stable (line "a" +:+ line "b" +:+ line "c")) 2 = (["b"; "c"], 6%Z).
Proof.
  destruct (tail_gives_last_lines (line "a" +:+ line "b" +:+ line "c") 2) as [-> _]; reflexivity.
Defined.

(** C19: while a file grows from [base], possibly disappearing or unreadable at
    times, [stream_new_lines] sends exactly the complete non-blank lines of what
    was appended, each once and in order, however the writes are cut. *)
Theorem stream_sends_complete_lines content base os pos' :
  (exists later, content = base +:+ later) ->
  grows content (Z.of_nat (String.length base)) os pos' ->
  exists x later, content = base +:+ x +:+ later /\ pos' = Z.of_nat (String.length (base +:+ x)) /\
    lines_of (stream_new_lines (Z.of_nat (String.length base)) os)
    = map decode_replace (complete_lines x).
Proof. apply stream_new_lines_eq. Qed.

Definition demo_growth : list observation :=
  [stable (line "a" +:+ "b"); Observation None None; stable (line "a" +:+ line "bc")].

Lemma demo_grows : grows (line "a" +:+ line "bc") 2 demo_growth 5.
Proof.
  apply (grows_more _ 2 3 (line "a" +:+ "b") EmptyString); [lia|reflexivity|by exists (line "c")|].
  apply grows_gone.
  apply (grows_more _ 3 5 (line "a" +:+ line "bc") EmptyString); [lia|reflexivity|by exists EmptyString|].
  apply grows_nil.
Qed.

Lemma stream_sends_complete_lines_witness :
  exists x later, line "a" +:+ line "bc" = line "a" +:+ x +:+ later /\
    5%Z = Z.of_nat (String.length (line "a" +:+ x)) /\
    lines_of (stream_new_lines 2 demo_growth) = map decode_replace (complete_lines x).
Proof.
  apply (stream_sends_complete_lines (line "a" +:+ line "bc") (line "a") demo_growth 5).
  - exists (line "bc"). reflexivity.
  - exact demo_grows.
Defined.



(** When the file was truncated or rotated, whatever was pending, the next
    pass starts over: it sends the complete lines of the new file and keeps its
    unfinished last line. *)
Theorem rotation_restarts pos pending content :
  content <> EmptyString -> (Z.of_nat (String.length content) < pos)%Z ->
  fst (stream_step (pos, pending) (stable content))
    = (Z.of_nat (String.length content), last_piece content) /\
  lines_of (snd (stream_step (pos, pending) (stable content)))
    = map decode_replace (complete_lines content).
Proof.
  intros Hne Hlt.
  assert (stream_step (pos, pending) (stable content)
          = stream_step (0%Z, last_piece EmptyString) (stable content)) as ->.
  { unfold stream_step, stable, file_size. cbn [o_size o_data fst].
    rewrite (proj2 (Z.ltb_lt _ pos)) by lia.
    destruct (Z.ltb_spec (Z.of_nat (String.length content)) 0); [lia|done]. }
  destruct (stream_step_more EmptyString EmptyString content EmptyString
    (Z.of_nat (String.length content)) eq_refl) as (out & Hst & _ & Hout).
  change (EmptyString +:+ content) with content in *. rewrite append_nil_r in Hst.
  unfold stable. change (Z.of_nat (String.length EmptyString)) with 0%Z in Hst. rewrite Hst.
  split; [done|]. cbn [snd]. by rewrite Hout.
Qed.

Lemma rotation_restarts_witness :
  lines_of (snd (stream_step (100%Z, "stale") (stable (line "new" +:+ "par")))) = ["new"].
Proof.
  destruct (rotation_restarts 100 "stale" (line "new" +:+ "par")) as [_ ->];
    [discriminate|reflexivity|reflexivity].
Defined.

(** A client that connects in the middle of a line gets it in two pieces, none of
    which is a line of the file. *)
Lemma torn_at_connect :
  let '(lines, pos) := tail_lines (stable "ab") 10 in
  lines ++ lines_of (stream_new_lines pos [stable (line "abcd")]) = ["ab"; "cd"] /\
  complete_lines (line "abcd") = ["abcd"].
Proof. vm_compute. done. Qed.

(** Blank lines count as lines when [tail_lines] decides how far to read: a block
    that ends in enough of them is not extended, and the piece [s] of the long line
    [p +:+ s] it starts in is given as a line. *)
Lemma torn_by_blank_lines p s :
  let rest := line EmptyString +:+ line EmptyString +:+ line EmptyString +:+ line "b" in
  p <> EmptyString -> split_nl s = [s] -> nonblank s = true ->
  (Z.of_nat (String.length s) + 5 = block)%Z ->
  fst (tail_lines (stable (p +:+ s +:+ rest)) 2) = [decode_replace s; "b"].
Proof.
  intros rest Hp Hs Hb Hlen.
  assert (split_nl (s +:+ rest) = [s; EmptyString; EmptyString; "b"; EmptyString]) as Hsplit.
  { rewrite (split_nl_app s rest [] s EmptyString [EmptyString; EmptyString; "b"; EmptyString]) by done.
    by rewrite append_nil_r. }
  assert (Z.of_nat (String.length (s +:+ rest)) = block) as Hl by
    (rewrite string_length_app; change (String.length rest) with 5; lia).
  assert (0 < String.length p) as Hlp by (destruct p; [done|cbn; lia]).
  unfold tail_lines, file_size, stable. cbn [o_size o_data]. rewrite !string_length_app in *.
  set (size := Z.of_nat _). assert (size = Z.of_nat (String.length p) + block)%Z as Hsize by lia.
  assert (0 < block)%Z by done. rewrite (proj2 (Z.leb_gt size 0)) by lia. cbn [orb Z.leb Z.compare fst].
  generalize (Z.to_nat (size / block + 1)). intros fuel. cbn [tail_loop count_nl].
  rewrite (proj2 (Z.ltb_lt 0 size)) by lia. change (Z.of_nat 0 <=? 2)%Z with true. cbn [andb].
  rewrite (Z.min_l block size) by lia. replace (size - block)%Z with (Z.of_nat (String.length p)) by lia.
  unfold slice. rewrite Nat2Z.id, substring_skip, <- Hl, Nat2Z.id, <- string_length_app, substring_all.
  rewrite append_nil_r. destruct fuel as [|fuel]; cbn [tail_loop].
  - rewrite Hsplit. cbn [List.filter]. by rewrite Hb.
  - pose proof (split_nl_length (s +:+ rest)) as Hc. rewrite Hsplit in Hc. injection Hc as <-.
    rewrite andb_false_r, Hsplit. cbn [List.filter]. by rewrite Hb.
Qed.

(** C21: what [handle_stream] writes decodes, by the event-stream rules, to one
    backfill event, whose JSON is the list of history lines, if there are any,
    and then to one message per live line, carriage returns dropped; the
    keep-alives are no events. *)
Theorem stream_decodes target dflt o os start clock :
  let '(lines, pos) := tail_lines o (backfill_of target dflt) in
  let payload := dumps "," ":" (strs lines) in
  sse_events (flatten (handle_stream target dflt o os start clock))
  = match lines with [] => [] | _ => [("backfill", payload)] end
    ++ map (fun l => ("message", remove_char carriage l)) (lines_of (stream_new_lines pos os)) /\
  json_loads payload = Ok (strs lines).
Proof.
  pose proof (tail_lines_valid o (backfill_of target dflt)) as Hu.
  destruct (tail_lines o (backfill_of target dflt)) as [lines pos] eqn:Ht. cbn [fst] in Hu.
  split; [by apply handle_stream_events|].
  apply (loads_dumps EmptyString EmptyString); [done|done| |apply wf_strs].
  unfold strs. cbn [utf8_json]. apply forallb_forall. intros v (l & <- & Hin)%in_map_iff.
  by eapply List.Forall_forall in Hu.
Qed.

(** ** The runner *)

(** A tool may run exactly when its safety class is pure or offline, or is
    network_read on a server that allows the network: never a live_order tool,
    never one of an unknown class or none. *)
Theorem policy_is_allow_list tool allow reason :
  may_run tool allow = Ok (true, reason) <->
  reason = "ok" /\ exists c, get tool "safety" = Ok (JStr c) /\
    In c (["pure"; "offline"] ++ (if allow : bool then ["network_read"] else [])).
Proof. apply may_run_ok. Qed.

(** C22: however a run of a tool ends, with a record, an exception or a timeout,
    it has stopped exactly the mocks it started and no other; it ran at most one
    command, the tool's own, and none unless the policy allows the tool. *)
Theorem run_tool_lifecycle ROOT os free_port_of key_exists command dur_ms tool allow w :
  procs w = [] ->
  let w' := snd (run_tool ROOT os free_port_of key_exists command dur_ms tool allow w) in
  exists new, trace w' = trace w ++ new /\ procs w' = [] /\
    started os (trace w) new = stopped new /\ (length (runs new) <= 1)%nat /\
    Forall (of_tool tool) (runs new) /\
    (runs new <> [] -> may_run tool allow = Ok (true, "ok")).
Proof.
  intros Hp.
  destruct (run_tool_balanced ROOT os free_port_of key_exists command dur_ms tool allow w Hp)
    as (cs & Hl & (new & T & P & S & R) & Ht & Hm).
  exists new. rewrite P, R. done.
Qed.

Lemma run_tool_lifecycle_witness :
  exists new, trace (snd (demo_run (demo_tool "unit" "pure") false)) = [] ++ new /\
    procs (snd (demo_run (demo_tool "unit" "pure") false)) = [] /\
    started quiet_os [] new = stopped new /\ (length (runs new) <= 1)%nat /\
    Forall (of_tool (demo_tool "unit" "pure")) (runs new) /\
    (runs new <> [] -> may_run (demo_tool "unit" "pure") false = Ok (true, "ok")).
Proof.
  apply (run_tool_lifecycle ["srv"] quiet_os (fun k => 4000 + Z.of_nat k)%Z (fun _ => true)
    demo_command (fun _ => 12%Z) (demo_tool "unit" "pure") false empty_world).
  reflexivity.
Defined.

(** C23: the command line, for every combination of its arguments and however it
    ends, runs only commands of registered tools whose class it may run, and
    leaves no mock running. *)
Theorem command_line_sanctioned ROOT os free_port_of key_exists command dur_ms ts_ms tools_json
    args registry tools w :
  load_registry tools_json = Ok registry -> as_list registry = Ok tools -> procs w = [] ->
  let w' := snd (main ROOT os free_port_of key_exists command dur_ms ts_ms tools_json args w) in
  exists new, trace w' = trace w ++ new /\ procs w' = [] /\
    started os (trace w) new = stopped new /\
    forall argv, In argv (runs new) ->
      exists tool c, In tool tools /\ get tool "safety" = Ok (JStr c) /\ of_tool tool argv /\
        (c = "pure" \/ c = "offline" \/ (c = "network_read" /\ arg_allow_network args = true)).
Proof.
  intros Hl Ht Hp.
  destruct (main_accounted ROOT os free_port_of key_exists command dur_ms ts_ms tools_json args
    registry tools w Hl Ht Hp) as (cs & (new & T & P & S & R) & HQ).
  exists new. rewrite P. split; [done|]. split; [done|]. split; [done|]. rewrite R. intros argv Hin.
  eapply List.Forall_forall in HQ as (tool & c & ? & ? & Hc & ?); [|exact Hin].
  exists tool, c. do 3 (split; [done|]). by apply allowed_class_iff.
Qed.

Definition demo_main (args : arguments) : result Z * world :=
  main ["srv"] quiet_os (fun k => 4000 + Z.of_nat k)%Z (fun _ => true) demo_command
    (fun _ => 12%Z) (fun _ => 1%Z) demo_registry args empty_world.

Lemma command_line_sanctioned_witness :
  runs (trace (snd (demo_main (Arguments_ false None true false false)))) =
    [["./build/unit"; "-q"; "4000"]] /\
  exists new, trace (snd (demo_main (Arguments_ false None true false false))) = [] ++ new /\
    procs (snd (demo_main (Arguments_ false None true false false))) = [] /\
    started quiet_os [] new = stopped new /\
    forall argv, In argv (runs new) ->
      exists tool c, In tool demo_tools /\ get tool "safety" = Ok (JStr c) /\ of_tool tool argv /\
        (c = "pure" \/ c = "offline" \/ (c = "network_read" /\ false = true)).
Proof.
  split; [vm_compute; reflexivity|].
  apply (command_line_sanctioned ["srv"] quiet_os (fun k => 4000 + Z.of_nat k)%Z (fun _ => true)
    demo_command (fun _ => 12%Z) (fun _ => 1%Z) demo_registry (Arguments_ false None true false false)
    (JList demo_tools) demo_tools empty_world); [vm_compute; reflexivity|reflexivity|reflexivity].
Defined.

(** C24: fail-closed: a record says "pass" only if the tool's own command
    finished with return code 0, its output does not hold "FAILURES", and it
    holds the pass token when the tool declares one. *)
Theorem pass_is_earned ROOT os free_port_of key_exists command dur_ms tool allow w rec w' :
  run_tool ROOT os free_port_of key_exists command dur_ms tool allow w = (Ok rec, w') ->
  getitem rec "status" = Ok (JStr "pass") ->
  may_run tool allow = Ok (true, "ok") /\
  exists argv h raw token, of_tool tool argv /\ command h argv = Finished raw 0 /\
    substr "FAILURES" (decode_replace raw) = false /\ get tool "pass_token" = Ok token /\
    (truthy token = true -> exists t, token = JStr t /\ substr t (decode_replace raw) = true).
Proof.
  intros (name & _ & H)%run_tool_ok Hs. destruct H as [(reason & _ & ->)|(Hm & H)]; [discriminate Hs|].
  destruct H as (argv & h & out & rc & token & [[p f] ok] & dur & Ha & Ho & Ht & Hp & ->).
  split; [done|]. cbn in Hs.
  destruct (Z.eqb_spec rc 0) as [->|]; [|discriminate Hs]. destruct ok; [|discriminate Hs].
  destruct (command h argv) as [raw code| |e] eqn:Ec; [|by destruct Ho|done].
  destruct Ho as [-> <-]. exists argv, h, raw, token. unfold parse_output in Hp.
  apply bind_ok in Hp as (b & Hb & Hp). injection Hp as _ _ Hb'.
  destruct (substr "FAILURES" (decode_replace raw)); [discriminate Hb'|]. subst b.
  do 4 (split; [done|]). intros Htt. rewrite Htt in Hb. destruct token; try discriminate Hb.
  exists s. split; [done|]. by apply Ok_inj in Hb.
Qed.

Lemma pass_is_earned_witness :
  exists argv h raw token, of_tool (demo_tool "unit" "pure") argv /\
    demo_command h argv = Finished raw 0 /\
    substr "FAILURES" (decode_replace raw) = false /\
    get (demo_tool "unit" "pure") "pass_token" = Ok token /\
    (truthy token = true -> exists t, token = JStr t /\ substr t (decode_replace raw) = true).
Proof.
  refine (proj2 (pass_is_earned ["srv"] quiet_os (fun k => 4000 + Z.of_nat k)%Z (fun _ => true)
    demo_command (fun _ => 12%Z) (demo_tool "unit" "pure") false empty_world
    (match fst (demo_run (demo_tool "unit" "pure") false) with Ok r => r | Raise _ => JNull end)
    (snd (demo_run (demo_tool "unit" "pure") false)) _ _)); vm_compute; reflexivity.
Defined.

(** C25: recording a result that is no refusal files it, stamped, under its suite
    in the results file: reading the file back, as the next run and the console
    do, gives the record for that suite and every other suite unchanged. *)
Theorem record_is_filed ROOT os ts_ms rec old w w' :
  record ROOT os ts_ms rec w = (Ok tt, w') ->
  get rec "status" <> Ok (JStr "refused") -> storable rec = true ->
  load_latest (latest w) = JObj old -> storable (JObj old) = true ->
  exists suite filed new, getitem rec "suite" = Ok (JStr suite) /\
    load_latest (latest w') = JObj new /\ storable (JObj new) = true /\
    assoc suite new = Some filed /\
    (forall k, k <> "ts_ms" -> k <> "type" -> getitem filed k = getitem rec k) /\
    (forall other, other <> suite -> assoc other new = assoc other old).
Proof.
  intros H Hs Hr Hold Hso. apply record_ok in H as [[H _]|(now & filed & suite & new & Hst & Hsu & Hn & ->)];
    [done|]. rewrite Hold in Hn. apply Ok_inj in Hn as <-.
  assert (storable (JObj (assoc_set suite filed old)) = true) as Hsn.
  { apply storable_set; [done| |by eapply stamped_storable].
    eapply storable_str; [by eapply stamped_storable|done]. }
  exists suite, filed, (assoc_set suite filed old). rewrite load_latest_written by done.
  rewrite (stamped_get _ _ _ "suite" Hst) in Hsu by done. rewrite assoc_set_same.
  do 4 (split; [done|]). split; [intros; by eapply stamped_get|].
  intros other Ho. by rewrite assoc_set_other.
Qed.

Lemma record_is_filed_witness :
  exists suite filed new, getitem (ran_record (JStr "unit") EmptyString 0 (1, 0, true)%Z 5 "l") "suite"
      = Ok (JStr suite) /\
    load_latest (latest (snd (record ["srv"] quiet_os (fun _ => 7%Z)
      (ran_record (JStr "unit") EmptyString 0 (1, 0, true)%Z 5 "l") empty_world))) = JObj new /\
    storable (JObj new) = true /\ assoc suite new = Some filed /\
    (forall k, k <> "ts_ms" -> k <> "type" -> getitem filed k
       = getitem (ran_record (JStr "unit") EmptyString 0 (1, 0, true)%Z 5 "l") k) /\
    (forall other, other <> suite -> assoc other new = assoc other []).
Proof.
  apply (record_is_filed ["srv"] quiet_os (fun _ => 7%Z)
    (ran_record (JStr "unit") EmptyString 0 (1, 0, true)%Z 5 "l") [] empty_world);
    [vm_compute; reflexivity|discriminate|vm_compute; reflexivity..].
Defined.

(** The "run all" set holds only registered test and check tools, none of
    them the pipeline or this runner, and no server refuses any of them. *)
Theorem run_all_never_refused tools set t allow :
  runnable_test_set tools = Ok set -> In t set ->
  In t tools /\ may_run t allow = Ok (true, "ok") /\
  (get t "kind" = Ok (JStr "test") \/ get t "kind" = Ok (JStr "check")) /\
  get t "name" <> Ok (JStr "run_pipeline") /\ get t "name" <> Ok (JStr "run_tests").
Proof.
  intros Hs Hin. destruct (runnable_incl _ _ Hs t Hin) as [Hi Hr].
  split; [done|]. split; [by apply in_run_all_may_run|].
  unfold in_run_all in Hr. apply andR_true in Hr as [[Hk _]%andR_true Hn]. split.
  { destruct (get t "kind") as [k|]; [|done]. cbn in Hk. apply Ok_inj, orb_true_iff in Hk.
    destruct Hk as [->%eq_str_true| ->%eq_str_true]; auto. }
  destruct (get t "name") as [n|]; [|done]. cbn in Hn. apply Ok_inj, negb_true_iff in Hn.
  split; intros [= ->]; discriminate Hn.
Qed.

Lemma run_all_never_refused_witness :
  In (demo_tool "unit" "pure") demo_tools /\
  may_run (demo_tool "unit" "pure") false = Ok (true, "ok") /\
  (get (demo_tool "unit" "pure") "kind" = Ok (JStr "test") \/
   get (demo_tool "unit" "pure") "kind" = Ok (JStr "check")) /\
  get (demo_tool "unit" "pure") "name" <> Ok (JStr "run_pipeline") /\
  get (demo_tool "unit" "pure") "name" <> Ok (JStr "run_tests").
Proof.
  apply (run_all_never_refused demo_tools [demo_tool "unit" "pure"] (demo_tool "unit" "pure") false);
    [reflexivity|by left].
Defined.

(** ** The handlers *)

(** C26: a POST, whatever the request and however its handling ends, runs only
    commands of registered tools of a class this server may run, so never a
    live_order tool's, and leaves no mock running; and it runs nothing at all
    and records nothing when it answers other than 200. *)
Theorem post_runs_only_sanctioned ROOT os free_port_of key_exists command dur_ms ts_ms tools_json
    allow q registry tools w :
  load_registry tools_json = Ok registry -> as_list registry = Ok tools -> procs w = [] ->
  let '(r, w') := do_POST ROOT os free_port_of key_exists command dur_ms ts_ms tools_json allow q w in
  (exists new, trace w' = trace w ++ new /\ procs w' = [] /\
     started os (trace w) new = stopped new /\
     forall argv, In argv (runs new) ->
       exists tool c, In tool tools /\ get tool "safety" = Ok (JStr c) /\ of_tool tool argv /\
         (c = "pure" \/ c = "offline" \/ (c = "network_read" /\ allow = true))) /\
  (forall resp, r = Ok resp -> r_code resp <> 200%Z -> w' = w).
Proof.
  intros Hl Ht Hp.
  pose proof (post_accounted ROOT os free_port_of key_exists command dur_ms ts_ms tools_json allow q
    registry tools w Hl Ht Hp) as (cs & (new & T & P & S & R) & HQ).
  destruct (do_POST _ _ _ _ _ _ _ _ _ _ _) as [r w'] eqn:E. cbn [snd] in *. split.
  - exists new. rewrite P. split; [done|]. split; [done|]. split; [done|]. rewrite R. intros argv Hin.
    eapply List.Forall_forall in HQ as (tool & c & ? & ? & Hc & ?); [|exact Hin].
    exists tool, c. do 3 (split; [done|]). by apply allowed_class_iff.
  - intros resp -> Hc. by eapply post_quiet.
Qed.

Lemma post_runs_only_sanctioned_witness :
  let '(r, w') := demo_post true "trade" in
  runs (trace w') = [] /\ exists resp, r = Ok resp /\ r_code resp = 403%Z /\ w' = empty_world.
Proof.
  pose proof (post_runs_only_sanctioned ["srv"] quiet_os (fun k => 4000 + Z.of_nat k)%Z (fun _ => true)
    demo_command (fun _ => 12%Z) (fun _ => 1%Z) demo_registry true
    (let body := dumps "," ":" (obj ["name" ~> JStr "trade"]) in
     Request "/api/run" (Some (show_nat (String.length body))) (fun _ => Ok body))
    (JList demo_tools) demo_tools empty_world ltac:(vm_compute; reflexivity) eq_refl eq_refl) as H.
  change (do_POST _ _ _ _ _ _ _ _ _ _ _) with (demo_post true "trade") in H.
  destruct (demo_post true "trade") as [r w'] eqn:E. destruct H as [_ H].
  assert (exists resp, r = Ok resp /\ r_code resp = 403%Z) as (resp & -> & Hc).
  { vm_compute in E. injection E as <- _. eexists. split; reflexivity. }
  assert (w' = empty_world) as -> by (apply (H resp eq_refl); rewrite Hc; discriminate).
  split; [reflexivity|]. exists resp. auto.
Defined.

(** C27: the console never shows a run button the server does not honour, nor
    hides one it does: the entry /api/tools gives for the tool that a name stands
    for is marked runnable exactly when a POST of that name is handed to the
    runner, and otherwise the POST answers 403 with the reason shown. *)
Theorem shown_as_served ROOT os free_port_of key_exists command dur_ms ts_ms tools_json allow
    q body name registry tools by_name tool shown w :
  path_of (q_target q) = "/api/run" -> read_body q = Ok body ->
  get_default body "name" (JStr EmptyString) = Ok name -> hashable name = true ->
  load_registry tools_json = Ok registry -> as_list registry = Ok tools ->
  tools_by_name tools [] = Ok by_name -> dict_get name by_name = Some tool ->
  api_tools tools_json allow = Ok shown ->
  exists entries entry runnable reason,
    getitem shown "tools" = Ok (JList entries) /\ In entry entries /\
    getitem entry "name" = getitem tool "name" /\
    getitem entry "runnable" = Ok (JBool runnable) /\
    getitem entry "run_reason" = Ok (JStr reason) /\
    do_POST ROOT os free_port_of key_exists command dur_ms ts_ms tools_json allow q w =
    if runnable then
      (rec ← run_tool ROOT os free_port_of key_exists command dur_ms tool allow;
       _ ← record ROOT os ts_ms rec; mret (_json 200 rec)) w
    else (Ok (_json 403 (obj ["error" ~> JStr "refused"; "name" ~> name;
                              "reason" ~> JStr reason])), w).
Proof.
  intros Hp Hb Hn Hh Hl Ht Hbn Hg Hs.
  rewrite (post_named ROOT os free_port_of key_exists command dur_ms ts_ms tools_json allow q body
    name registry tools by_name tool w) by done.
  destruct (by_name_in _ _ _ _ _ Hbn Hg) as [Hin|]; [|done].
  destruct (api_tools_entry tools_json allow registry tools shown tool Hl Ht Hs Hin)
    as (entries & entry & ok & reason & He & Hine & Hm & Hnm & Hr & Hrr).
  exists entries, entry, ok, reason. do 5 (split; [done|]). rewrite Hm. by destruct ok.
Qed.

Lemma shown_as_served_witness :
  exists entries entry runnable reason,
    getitem (match api_tools demo_registry true with Ok v => v | Raise _ => JNull end) "tools"
      = Ok (JList entries) /\ In entry entries /\
    getitem entry "name" = getitem (demo_tool "trade" "live_order") "name" /\
    getitem entry "runnable" = Ok (JBool runnable) /\
    getitem entry "run_reason" = Ok (JStr reason) /\
    demo_post true "trade" =
    if runnable then
      (rec ← run_tool ["srv"] quiet_os (fun k => 4000 + Z.of_nat k)%Z (fun _ => true) demo_command
               (fun _ => 12%Z) (demo_tool "trade" "live_order") true;
       _ ← record ["srv"] quiet_os (fun _ => 1%Z) rec; mret (_json 200 rec)) empty_world
    else (Ok (_json 403 (obj ["error" ~> JStr "refused"; "name" ~> JStr "trade";
                              "reason" ~> JStr reason])), empty_world).
Proof.
  unfold demo_post. cbv zeta.
  apply (shown_as_served ["srv"] quiet_os (fun k => 4000 + Z.of_nat k)%Z (fun _ => true)
    demo_command (fun _ => 12%Z) (fun _ => 1%Z) demo_registry true _
    (obj ["name" ~> JStr "trade"]) (JStr "trade") (JList demo_tools) demo_tools
    [(JStr "unit", demo_tool "unit" "pure"); (JStr "probe", demo_tool "probe" "network_read");
     (JStr "trade", demo_tool "trade" "live_order")]); vm_compute; reflexivity.
Defined.

(** No GET makes the server start the price refresher, its one way to reach
    the network, unless the network is allowed; and every endpoint but
    /api/tools answers whatever the state of the files and of the watchtower. *)
Theorem get_is_fail_soft tools_json results INDEX_HTML wt allow target :
  match do_GET tools_json results INDEX_HTML wt allow target with
  | Ok (_, refresher) => refresher = true -> w_refresher_started wt = true \/ allow = true
  | Raise _ => path_of target = "/api/tools"
  end.
Proof.
  unfold do_GET. cbv zeta. set (path := path_of target).
  repeat match goal with |- context [String.eqb path ?b] => destruct (String.eqb_spec path b) end;
    auto.
  - by destruct (api_tools tools_json allow); cbn; auto.
  - pose proof (shadow_refresher wt allow) as H. destruct (shadow_data wt allow) as [v r]. exact H.
Qed.

(** A JSON body that is no object passes the guarded part and raises after it:
    the client gets no response at all, not a 400. *)
Lemma non_object_body_escapes :
  do_POST ["srv"] quiet_os (fun k => 4000 + Z.of_nat k)%Z (fun _ => true) demo_command
    (fun _ => 12%Z) (fun _ => 1%Z) demo_registry true
    (Request "/api/run" (Some "2") (fun _ => Ok "[]")) empty_world
  = (Raise (AttributeError "get"), empty_world).
Proof. vm_compute. reflexivity. Qed.
