(* ===== verification/PdfCanvas.v ===== *)
(** * Drawing the registry: canvas, text and shapes

    tools/render_experiment_registry_pdf.py, its constants and its drawing
    helpers.  The canvas of the reportlab package is the trace of the calls made
    on it; the page sizes and the width of a text in a font, which that package
    computes, are the class [Reportlab].  Coordinates are exact rationals: see
    [PdfLayout] for why rounding cannot change the layout. *)

From stdpp Require Import base list strings numbers.
From Stdlib Require Import ZArith Lia Bool Ascii QArith Qround Qminmax.
From S2P Require Import Prelude PyJson Sha256 JsonText PyText Builder Validator.

#[local] Open Scope Q_scope.

(** What the code uses of reportlab: the width of a text in a font of a size,
    and the two page sizes (A4 and A3, landscape). *)
Class Reportlab := {
  stringWidth : string -> string -> Q -> Q;
  PAGE_W : Q;
  PAGE_H : Q;
  DETAIL_PAGE_W : Q;
  DETAIL_PAGE_H : Q
}.

(** ** Colours and calls *)

(** A colour as it is written: by its hexadecimal code, by components, or as
    another colour with an alpha. *)
Inductive color :=
| HexColor (code : string)
| Color (red green blue alpha : Q)
| Fade (c : color) (alpha : Q)
| white.

(** The calls on the canvas, with their arguments ([fill] and [stroke] are
    flags), and the two that come before it: the directory of the output is
    made, and the canvas is opened on it. *)
Inductive call :=
| setFillColor (c : color)
| setStrokeColor (c : color)
| setLineWidth (w : Q)
| setFont (font : string) (size : Q)
| rect (x y w h : Q) (fill stroke : bool)
| roundRect (x y w h radius : Q) (fill stroke : bool)
| circle (x y r : Q) (fill stroke : bool)
| line_to (x1 y1 x2 y2 : Q)
| wedge (x1 y1 x2 y2 start extent : Q) (fill stroke : bool)
| drawString (x y : Q) (text : string)
| drawRightString (x y : Q) (text : string)
| drawCentredString (x y : Q) (text : string)
| bookmarkPage (key : string)
| addOutlineEntry (title key : string) (level : Z) (closed : bool)
| setPageSize (w h : Q)
| mkdir (path : string)
| newCanvas (path : string) (w h : Q)
| showPage
| setTitle (s : string)
| setSubject (s : string)
| setAuthor (s : string)
| setCreator (s : string)
| save.

(** A drawing step: the calls it makes and its value, or the exception that
    leaves it. *)
Definition draw (A : Type) : Type := result (A * list call).

#[export] Instance draw_ret : MRet draw := fun A a => Ok (a, []).
#[export] Instance draw_bind : MBind draw := fun A B f m =>
  match m with
  | Raise e => Raise e
  | Ok (a, ops) =>
      match f a with
      | Raise e => Raise e
      | Ok (b, ops') => Ok (b, ops ++ ops')
      end
  end.

Definition emit (op : call) : draw unit := Ok (tt, [op]).

Definition liftD {A} (r : result A) : draw A :=
  match r with Ok a => Ok (a, []) | Raise e => Raise e end.

(** [for x in l: ...] with the local variables the body updates. *)
Fixpoint fold_draw {A S} (f : S -> A -> draw S) (l : list A) (s : S) : draw S :=
  match l with
  | [] => mret s
  | a :: l' => s' ← f s a; fold_draw f l' s'
  end.

Definition for_each {A} (l : list A) (f : A -> draw unit) : draw unit :=
  fold_draw (fun _ a => f a) l tt.

Definition when (b : bool) (m : draw unit) : draw unit := if b then m else mret tt.

(** [enumerate(l, start)] *)
Fixpoint enumerate {A} (start : Z) (l : list A) : list (Z * A) :=
  match l with
  | [] => []
  | a :: l' => (start, a) :: enumerate (start + 1)%Z l'
  end.

(** [l[i]] *)
Definition list_at {A} (l : list A) (i : Z) : draw A :=
  liftD (or_raise IndexError (if (i <? 0)%Z then None else nth_error l (Z.to_nat i))).

(** A JSON number in arithmetic. *)
Definition as_num (v : json) : result Q :=
  match v with
  | JInt z => Ok (inject_Z z)
  | JBool b => Ok (if b then 1 else 0)
  | JDec m e => Ok (inject_Z m / inject_Z (10 ^ Z.of_nat e))
  | _ => Raise (TypeError "unsupported operand type(s)")
  end.

Definition Qlt_b (a b : Q) : bool := negb (Qle_bool b a).

(** ** Constants *)

Definition MARGIN : Q := 34.
Definition SUMMARY_PAGES : Z := 15.

(** ** Fonts, colours and labels *)

Definition FONT_BODY : string := "ArialUnicode".
Definition FONT_HEAD : string := "STHeiti".
Definition FONT_MONO : string := "Courier".
Definition FONT_MONO_BOLD : string := "Courier-Bold".

Definition NAVY : color := HexColor "#0B132B".
Definition INK : color := HexColor "#17213A".
Definition SLATE : color := HexColor "#42526E".
Definition MUTED : color := HexColor "#718096".
Definition LIGHT : color := HexColor "#F4F7FB".
Definition PAPER : color := HexColor "#FBFCFE".
Definition BORDER : color := HexColor "#DCE4EF".
Definition BLUE : color := HexColor "#3478F6".
Definition TEAL : color := HexColor "#16A394".
Definition CORAL : color := HexColor "#F36B5D".
Definition AMBER : color := HexColor "#ECA83E".
Definition RED : color := HexColor "#D84B4B".
Definition PURPLE : color := HexColor "#7657D5".
Definition GREEN : color := HexColor "#2F9E74".
Definition SKY : color := HexColor "#DCEBFF".
Definition TEAL_LIGHT : color := HexColor "#DDF5F1".
Definition AMBER_LIGHT : color := HexColor "#FFF0D2".
Definition RED_LIGHT : color := HexColor "#FCE5E5".
Definition PURPLE_LIGHT : color := HexColor "#ECE8FB".

Definition FAMILY_LABELS : list (string * string) := [
  ("A", "微观结构与做市");
  ("B", "方向与波动");
  ("C", "相对价值");
  ("D", "RFQ 与 MVE");
  ("E", "结算与生命周期");
  ("F", "体育生态与外部数据");
  ("G", "模型方法");
  ("P", "组合与运营")
].

Definition FAMILY_COLORS : list (string * color) := [
  ("A", BLUE);
  ("B", TEAL);
  ("C", PURPLE);
  ("D", AMBER);
  ("E", CORAL);
  ("F", RED);
  ("G", HexColor "#5375A6");
  ("P", HexColor "#5C6475")
].

Definition TARGET_LABELS : list (string * string) := [
  ("EXECUTABLE_STRATEGY", "动作型实验");
  ("SIGNAL", "信号实验");
  ("RESEARCH_QUESTION", "研究问题")
].

Definition ACTION_LABELS : list (string * string) := [
  ("NO_ACTION", "无动作");
  ("MODEL_COMPONENT", "模型组件");
  ("CONTROL_ONLY", "控制实验");
  ("MAKER_SPREAD", "双边做市");
  ("MAKER_FILTER", "做市风控过滤");
  ("MAKER_REFILL", "补单/回补");
  ("T90_RANGE", "T90 区间做市");
  ("T90_REBUILD", "T90 重建");
  ("PASSIVE_FADE", "被动反转");
  ("TAKER_DIRECTIONAL", "主动方向单");
  ("RELATIVE_VALUE", "多腿相对价值");
  ("EXPIRY_ROLL", "到期迁移");
  ("CHILD_HEDGE", "子策略对冲");
  ("RFQ_GUARD", "RFQ CLOB 风控");
  ("RFQ_MAKER", "RFQ 直接报价");
  ("MVE_DIRECT", "MVE 直接执行");
  ("TERMINAL_POLICY", "持仓终局策略");
  ("TERMINAL_ENTRY", "终局开仓");
  ("CS_ASK", "CS-ASK");
  ("EARLY_EXIT", "提前退出");
  ("EXTERNAL_ACTION", "外部数据动作");
  ("ROUTER", "策略路由");
  ("SIZE_RISK", "仓位与风险");
  ("COMMERCIAL_ROC", "商业 ROC")
].

Definition DATA_LABELS : list (string * string) := [
  ("L1", "L1/成交");
  ("L2", "L2");
  ("L1_L2", "L1+L2");
  ("L1_PRIVATE", "L1+私有仓位");
  ("FAMILY", "市场图谱");
  ("TERMINAL", "结算/生命周期");
  ("RFQ_PUBLIC", "公开 RFQ");
  ("RFQ_PRIVATE", "私有 RFQ");
  ("MVE_PRIVATE", "私有 MVE");
  ("EXTERNAL", "外部体育");
  ("CATALOG", "目录/规则");
  ("MODEL", "模型 owner");
  ("META", "组合/路由");
  ("OWNER_EVPI", "Owner EVPI");
  ("PRIVATE", "私有账户");
  ("OUT_OF_SCOPE", "范围外");
  ("INTERNAL_CONTROL", "内部控制")
].

Definition BLOCKER_LABELS : list (string * string) := [
  ("SETTLEMENT_MISSING", "结算与异常状态");
  ("FEE_UNKNOWN", "精确费用");
  ("FILL_MODEL_MISSING", "严格成交模型");
  ("LATENCY_UNMEASURED", "实测延迟");
  ("RISK_GATES_MISSING", "风险门");
  ("INSUFFICIENT_QUALITY_DATES", "独立干净日期");
  ("CONFIRMED_CHILD_STRATEGIES_MISSING", "已确认 child");
  ("OWN_ORDER_CALIBRATION_MISSING", "自有订单校准");
  ("VENUE_PERMISSION_MISSING", "执行权限");
  ("INSTRUMENT_MAPPING_UNKNOWN", "合约映射");
  ("MULTI_LEG_ENGINE_MISSING", "多腿引擎");
  ("PAYOUT_EXHAUSTIVENESS_MISSING", "支付状态穷尽");
  ("ACTION_INCOMPLETE", "动作未闭合");
  ("RFQ_PUBLIC_DATA_UNRELEASED", "RFQ 新鲜发布");
  ("EXTERNAL_API_UNVERIFIED", "外部 API 未验证");
  ("EXTERNAL_SPORTS_DATA_MISSING", "外部体育数据");
  ("TIMESTAMP_SEMANTICS_UNKNOWN", "外部时钟语义");
  ("PRIVATE_ACCOUNT_STATE_MISSING", "私有账户状态");
  ("MISSING_SIGNAL_INPUT", "信号输入");
  ("SAMPLE_TOO_SMALL", "样本不足");
  ("RFQ_PRIVATE_EVENTS_MISSING", "RFQ 私有事件");
  ("OUT_OF_SCOPE_CURRENT_PROGRAM", "当前范围外");
  ("MVE_PRIVATE_EVENTS_MISSING", "MVE 私有事件");
  ("OPERATING_COST_UNKNOWN", "运营成本");
  ("BASELINE_INCOMPLETE", "基准未闭合")
].

(** ** Text *)

(** The characters of a text, each as its UTF-8 bytes. *)
Fixpoint chars (s : string) : list string :=
  match s with
  | EmptyString => []
  | String c s1 =>
      let n := nat_of_ascii c in
      match s1 with
      | String c1 s2 =>
          if (n <? 192)%nat then str1 c :: chars s1
          else if (n <? 224)%nat then String c (str1 c1) :: chars s2
          else match s2 with
          | String c2 s3 =>
              if (n <? 240)%nat then String c (String c1 (str1 c2)) :: chars s3
              else match s3 with
              | String c3 s4 => String c (String c1 (String c2 (str1 c3))) :: chars s4
              | EmptyString => [s]
              end
          | EmptyString => [s]
          end
      | EmptyString => [s]
      end
  end.

Definition text_of (l : list string) : string := foldr String.append EmptyString l.

Definition is_blank (ch : string) : bool := negb (space_bytes ch =? 0)%nat.

Fixpoint drop_blank (l : list string) : list string :=
  match l with
  | [] => []
  | ch :: l' => if is_blank ch then drop_blank l' else l
  end.

(** [s.rstrip()] on characters. *)
Definition rstrip (l : list string) : list string := rev (drop_blank (rev l)).

(** [char.lstrip()] of one character. *)
Definition lstrip1 (ch : string) : list string := if is_blank ch then [] else [ch].

Section Text.
Context `{Reportlab}.

(** One paragraph of [_split_lines]; [current] is the line so far. *)
Fixpoint wrap (max_width : Q) (font : string) (size : Q) (current rest : list string)
    : list string :=
  match rest with
  | [] => [text_of (rstrip current)]
  | ch :: rest' =>
      let candidate := current ++ [ch] in
      if negb (match current with [] => true | _ => false end) &&
         Qlt_b max_width (stringWidth (text_of candidate) font size)
      then text_of (rstrip current) :: wrap max_width font size (lstrip1 ch) rest'
      else wrap max_width font size candidate rest'
  end.

(** [str(text).splitlines() or [""]] *)
Definition paragraphs (text : json) : list string :=
  match splitlines (py_str text) EmptyString with
  | [] => [EmptyString]
  | ps => ps
  end.

(** [_split_lines] *)
Definition _split_lines (text : json) (max_width : Q) (font : string) (size : Q) : list string :=
  if is_none text then []
  else flat_map (fun p => wrap max_width font size [] (chars p)) (paragraphs text).

(** Shortening a last line until it fits with its dots; [tail] is reversed. *)
Fixpoint shorten (max_width : Q) (font : string) (size : Q) (tail : list string) : list string :=
  match tail with
  | [] => []
  | _ :: tail' =>
      if Qlt_b max_width (stringWidth (text_of (rev tail) +:+ "...") font size)
      then shorten max_width font size tail'
      else tail
  end.

(** The lines that are drawn when at most [max_lines] are. *)
Definition limit_lines (lines : list string) (max_width : Q) (font : string) (size : Q)
    (max_lines : option nat) : result (list string) :=
  match max_lines with
  | None => Ok lines
  | Some n =>
      if (n <? length lines)%nat then
        match rev (firstn n lines) with
        | [] => Raise IndexError
        | last :: before =>
            Ok (rev before ++
                [text_of (rev (shorten max_width font size (rev (chars last)))) +:+ "..."])
        end
      else Ok lines
  end.

(** [_draw_text]: the position below the last line. *)
Definition _draw_text (text : json) (x y max_width : Q) (font : string) (size : Q) (col : color)
    (leading : option Q) (max_lines : option nat) : draw Q :=
  let leading := match leading with
                 | Some l => if Qeq_bool l 0 then size * 1.35 else l
                 | None => size * 1.35
                 end in
  lines ← liftD (limit_lines (_split_lines text max_width font size) max_width font size max_lines);
  _ ← emit (setFont font size);
  _ ← emit (setFillColor col);
  fold_draw (fun y line => _ ← emit (drawString x y line); mret (y - leading)) lines y.

(** [_draw_centered] *)
Definition _draw_centered (text : string) (x y : Q) (font : string) (size : Q) (col : color)
    : draw unit :=
  _ ← emit (setFont font size);
  _ ← emit (setFillColor col);
  emit (drawCentredString x y text).
End Text.

(** [d.get(k, k)] on a table of labels. *)
Definition label_or_key (labels : list (string * string)) (k : json) : result json :=
  _ ← need_hashable k;
  Ok (match k with
      | JStr s => JStr (match assoc s labels with Some l => l | None => s end)
      | _ => k
      end).

(** An item of [sep.join(...)]. *)
Definition join_item (v : json) : result string :=
  match v with
  | JStr s => Ok s
  | _ => Raise (TypeError "sequence item: expected str instance")
  end.

(** [d[k]] on a table with text keys. *)
Definition table_at {A} (d : list (string * A)) (k : json) : result A :=
  _ ← need_hashable k;
  match k with
  | JStr s => or_raise (KeyError s) (assoc s d)
  | _ => Raise (KeyError (py_str k))
  end.

(** Zero-padded decimals: [f"{n:02d}"]. *)
Definition pad_zeros (width : nat) (n : Z) : string :=
  let s := show_Z n in zeros (width - String.length s) +:+ s.

(** ** Shapes *)

Section Shapes.
Context `{Reportlab}.

Definition _round_rect (x y w h : Q) (fill stroke : color) (radius line_width : Q) : draw unit :=
  _ ← emit (setFillColor fill);
  _ ← emit (setStrokeColor stroke);
  _ ← emit (setLineWidth line_width);
  emit (roundRect x y w h radius true true).

(** [_badge]; a width of zero counts as none. *)
Definition _badge (text : string) (x y : Q) (fill col : color) (width : option Q) : draw Q :=
  let auto := Qmax 52 (stringWidth text FONT_HEAD 8 + 18) in
  let width := match width with
               | Some w => if Qeq_bool w 0 then auto else w
               | None => auto
               end in
  _ ← emit (setFillColor fill);
  _ ← emit (roundRect x y width 20 9 true false);
  _ ← _draw_centered text (x + width / 2) (y + 6.2) FONT_HEAD 8 col;
  mret width.

Definition _metric_card (x y w h : Q) (value label note : string) (accent : color) : draw unit :=
  _ ← _round_rect x y w h white BORDER 12 0.7;
  _ ← emit (setFillColor accent);
  _ ← emit (roundRect x y 6 h 3 true false);
  _ ← emit (setFillColor accent);
  _ ← emit (setFont FONT_HEAD 28);
  _ ← emit (drawString (x + 20) (y + h - 40) value);
  _ ← emit (setFillColor INK);
  _ ← emit (setFont FONT_HEAD 11);
  _ ← emit (drawString (x + 20) (y + h - 62) label);
  _ ← _draw_text (JStr note) (x + 20) (y + h - 82) (w - 34) FONT_BODY 7.8 MUTED (Some 10) (Some 2%nat);
  mret tt.

Definition page_key (page_no : Z) : string := "page-" +:+ show_Z page_no.

Definition _page_header (page_no : Z) (title subtitle section : string) (accent : color) : draw Q :=
  _ ← emit (setFillColor PAPER);
  _ ← emit (rect 0 0 PAGE_W PAGE_H true false);
  _ ← emit (setFillColor accent);
  _ ← emit (roundRect MARGIN (PAGE_H - 38) 92 18 8 true false);
  _ ← _draw_centered section (MARGIN + 46) (PAGE_H - 32.5) FONT_HEAD 7.5 white;
  _ ← emit (setFillColor INK);
  _ ← emit (setFont FONT_HEAD 23);
  _ ← emit (drawString MARGIN (PAGE_H - 76) title);
  _ ← _draw_text (JStr subtitle) MARGIN (PAGE_H - 98) (PAGE_W - 2 * MARGIN) FONT_BODY 10 SLATE
        (Some 13) (Some 2%nat);
  _ ← emit (setStrokeColor BORDER);
  _ ← emit (setLineWidth 0.8);
  _ ← emit (line_to MARGIN (PAGE_H - 112) (PAGE_W - MARGIN) (PAGE_H - 112));
  _ ← emit (bookmarkPage (page_key page_no));
  _ ← emit (addOutlineEntry title (page_key page_no) 0 false);
  mret (PAGE_H - 132).

(** [f"{page_no} / {TOTAL_PAGES}"] *)
Definition page_of (page_no TOTAL_PAGES : Z) : string :=
  show_Z page_no +:+ " / " +:+ show_Z TOTAL_PAGES.

Definition _footer (TOTAL_PAGES page_no : Z) : draw unit :=
  _ ← emit (setStrokeColor BORDER);
  _ ← emit (setLineWidth 0.5);
  _ ← emit (line_to MARGIN 27 (PAGE_W - MARGIN) 27);
  _ ← emit (setFont FONT_BODY 6.8);
  _ ← emit (setFillColor MUTED);
  _ ← emit (drawString MARGIN 14
        "Deep03 Registry V1 | Snapshot 2026-07-23 | Research directory only - no trading authority");
  emit (drawRightString (PAGE_W - MARGIN) 14 (page_of page_no TOTAL_PAGES)).

Definition _finish_page (TOTAL_PAGES page_no : Z) : draw unit :=
  _ ← _footer TOTAL_PAGES page_no; emit showPage.

(** [max(v for _, v in items)] *)
Fixpoint max_of (items : list (string * Z)) : result Z :=
  match items with
  | [] => Raise (ValueError "max() iterable argument is empty")
  | [(_, v)] => Ok v
  | (_, v) :: items' => m ← max_of items'; Ok (Z.max v m)
  end.

(** [_hbar_chart]; a maximum of zero counts as none. *)
Definition _hbar_chart (items : list (string * Z)) (x y w row_h : Q) (col : color) (label_w : Q)
    (max_value : option Z) (value_suffix : string) : draw unit :=
  max_value ← liftD (match max_value with
                     | Some m => if (m =? 0)%Z then max_of items else Ok m
                     | None => max_of items
                     end);
  let bar_w := w - label_w - 38 in
  for_each (enumerate 0 items) (fun '(index, (label, value)) =>
    let yy := y - inject_Z index * row_h in
    _ ← emit (setFont FONT_BODY 8);
    _ ← emit (setFillColor SLATE);
    _ ← emit (drawRightString (x + label_w - 8) (yy + 4) label);
    _ ← emit (setFillColor BORDER);
    _ ← emit (roundRect (x + label_w) yy bar_w 11 5 true false);
    _ ← emit (setFillColor col);
    _ ← liftD (if (max_value =? 0)%Z then Raise ZeroDivisionError else Ok tt);
    _ ← emit (roundRect (x + label_w) yy (Qmax 2 (bar_w * inject_Z value / inject_Z max_value))
                11 5 true false);
    _ ← emit (setFillColor INK);
    _ ← emit (setFont FONT_MONO_BOLD 8);
    emit (drawRightString (x + w) (yy + 2.5) (show_Z value +:+ value_suffix))).

(** [_donut]: the wedges go round clockwise from the top. *)
Definition _donut (cx cy radius : Q) (values : list Z) (colors : list color)
    (center_top center_bottom : string) : draw unit :=
  let total := fold_left Z.add values 0%Z in
  _ ← fold_draw (fun start '(value, col) =>
        _ ← liftD (if (total =? 0)%Z then Raise ZeroDivisionError else Ok tt);
        let extent := - (360) * inject_Z value / inject_Z total in
        _ ← emit (setFillColor col);
        _ ← emit (wedge (cx - radius) (cy - radius) (cx + radius) (cy + radius) start extent true false);
        mret (start + extent)) (combine values colors) 90;
  _ ← emit (setFillColor white);
  _ ← emit (circle cx cy (radius * 0.58) true false);
  _ ← _draw_centered center_top cx (cy + 2) FONT_HEAD 19 INK;
  _draw_centered center_bottom cx (cy - 17) FONT_BODY 7.5 MUTED.

Definition _arrow (x1 y1 x2 y2 : Q) (col : color) (width : Q) : draw unit :=
  _ ← emit (setStrokeColor col);
  _ ← emit (setFillColor col);
  _ ← emit (setLineWidth width);
  _ ← emit (line_to x1 y1 x2 y2);
  let angle := 5 in
  _ ← emit (line_to x2 y2 (x2 - angle) (y2 + angle / 2));
  emit (line_to x2 y2 (x2 - angle) (y2 - angle / 2)).
End Shapes.

(** ** Reading the registry *)

(** [_short_blockers] *)
Definition _short_blockers (card : json) (n : nat) : result string :=
  blockers ← getitem card "blockers";
  blockers ← as_list blockers;
  labels ← mapR (label_or_key BLOCKER_LABELS) (firstn n blockers);
  labels ← mapR join_item labels;
  let remaining := (length blockers - length (firstn n blockers))%nat in
  Ok (join " / " labels +:+
      (if (0 <? remaining)%nat then " +" +:+ show_nat remaining else EmptyString)).

(** [_card_by_id] *)
Definition _card_by_id (registry : json) : result (list (json * json)) :=
  experiments ← getitem registry "experiments";
  cards ← as_list experiments;
  foldr (fun card k by_id =>
    identity ← getitem card "identity";
    id ← getitem identity "experiment_id";
    _ ← need_hashable id;
    k (dict_put id card by_id)) (fun by_id => Ok by_id) cards [].

(** [by_id[k]] *)
Definition dict_at (d : list (json * json)) (k : string) : result json :=
  or_raise (KeyError k) (dict_get (JStr k) d).
