(* ===== verification/PdfPages.v ===== *)
(** * The summary pages

    The fifteen summary pages of tools/render_experiment_registry_pdf.py, call by
    call: each definition is the function of the same name. *)

From stdpp Require Import base list strings numbers.
From Stdlib Require Import ZArith Lia Bool Ascii QArith Qround Qminmax.
From S2P Require Import Prelude PyJson Sha256 JsonText PyText Builder PdfCanvas.

#[local] Open Scope Q_scope.

(** ** Counters *)

(** [Counter(x for card in cards for x in f(card))] *)
Fixpoint count_from (f : json -> result (list json)) (cards : list json) (acc : list (json * Z))
    : result (list (json * Z)) :=
  match cards with
  | [] => Ok acc
  | card :: cards' =>
      vs ← f card;
      acc' ← foldr (fun v k acc => acc' ← count v acc; k acc') (fun acc => Ok acc) vs acc;
      count_from f cards' acc'
  end.

(** [counts[k]], 0 when it was never counted. *)
Definition counter_at (counts : list (json * Z)) (k : string) : Z :=
  match List.find (fun kn => py_eq (JStr k) (fst kn)) counts with
  | Some (_, n) => n
  | None => 0%Z
  end.

(** Insertion into a list sorted by decreasing count, after equal counts. *)
Fixpoint insert_count (kn : json * Z) (l : list (json * Z)) : list (json * Z) :=
  match l with
  | [] => [kn]
  | kn' :: l' => if (snd kn' <? snd kn)%Z then kn :: l else kn' :: insert_count kn l'
  end.

(** [counts.most_common(n)] *)
Definition most_common (n : nat) (counts : list (json * Z)) : list (json * Z) :=
  firstn n (fold_left (fun l kn => insert_count kn l) counts []).

Definition family_code (card : json) : result (list json) :=
  identity ← getitem card "identity"; code ← getitem identity "family_code"; Ok [code].

Definition action_family_code (card : json) : result (list json) :=
  classification ← getitem card "classification";
  target ← getitem classification "target_class";
  if eq_str target "EXECUTABLE_STRATEGY" then family_code card else Ok [].

Definition signal_status (card : json) : result (list json) :=
  data ← getitem card "data";
  can ← getitem data "can_compute_now";
  status ← getitem can "signal_event"; Ok [status].

Definition card_blockers (card : json) : result (list json) :=
  blockers ← getitem card "blockers"; as_list blockers.

(** A number of thousandths. *)
Definition show_fixed3 (m : Z) : string :=
  (if (m <? 0)%Z then "-" else EmptyString) +:+ show_Z (Z.abs m / 1000) +:+ "." +:+
  pad_zeros 3 (Z.abs m mod 1000).

(** [f"{value:.3f}"] of a decimal with at most three digits. *)
Definition fixed3 (v : json) : result string :=
  match v with
  | JInt z => Ok (show_Z z +:+ ".000")
  | JDec m e => if (e <=? 3)%nat then Ok (show_fixed3 (m * 10 ^ Z.of_nat (3 - e)))
                else Raise (Unmodelled "rounding")
  | JBool b => Ok (if b then "1.000" else "0.000")
  | _ => Raise (ValueError "Unknown format code")
  end.


Section Pages.
Context `{Reportlab} (TOTAL_PAGES : Z) (registry_file_sha : result string).

Definition _page_cover (registry : json) (page_no : Z) : draw unit :=
  _ ← emit (setFillColor NAVY);
  _ ← emit (rect 0 0 PAGE_W PAGE_H true false);
  _ ← emit (setFillColor BLUE);
  _ ← emit (circle (PAGE_W - 65) (PAGE_H - 30) 150 true false);
  _ ← emit (setFillColor TEAL);
  _ ← emit (circle (PAGE_W - 10) 70 115 true false);
  _ ← emit (setFillColor NAVY);
  _ ← emit (circle (PAGE_W - 35) 84 73 true false);
  _ ← _badge "REGISTRY V1" MARGIN (PAGE_H - 68) (Color 1 1 1 0.16) white (Some 92);
  _ ← emit (setFillColor white);
  _ ← emit (setFont FONT_HEAD 36);
  _ ← emit (drawString MARGIN (PAGE_H - 135) "从“一团浆糊”到实验工厂");
  _ ← emit (setFont FONT_HEAD 22);
  _ ← emit (setFillColor (HexColor "#CFE1FF"));
  _ ← emit (drawString MARGIN (PAGE_H - 172) "DeepResearch V3 统一实验变现 Registry");
  _ ← _draw_text (JStr "把 106 个研究方向统一成“假设 - 信号 - 动作 - 场所 - 基准 - 成本 - PnL - 数据缺口”的可审计操作系统。") MARGIN
      (PAGE_H - 210) 555 FONT_BODY 12 white (Some 18) (Some 2%nat);
  let labels := [
    ("假设", BLUE);
    ("信号", TEAL);
    ("动作", AMBER);
    ("成交", PURPLE);
    ("成本", CORAL);
    ("PnL", RED)
  ] in
  let x := MARGIN in
  let y := 230 in
  let box_w := 88 in
  x ← fold_draw (fun x '(index, (label, col)) =>
    _ ← emit (setFillColor (Fade col 0.2));
    _ ← emit (setStrokeColor col);
    _ ← emit (roundRect x y box_w 54 10 true true);
    _ ← _draw_centered label (x + box_w / 2) (y + 20) FONT_HEAD 12 white;
    _ ← when ((index <? ((Z.of_nat (length labels)) - 1%Z)%Z)%Z) (_arrow (x + box_w + 4) (y + 27) (x +
        box_w + 22) (y + 27) white 1.2);
    mret (x + 108)) (enumerate 0 labels) x;
  let metrics := [("106", "全部实验"); ("80", "动作型目标"); ("0", "当前实盘合格")] in
  let x := MARGIN in
  x ← fold_draw (fun x '(value, label) =>
    _ ← emit (setFillColor (Color 1 1 1 0.08));
    _ ← emit (roundRect x 82 150 90 13 true false);
    _ ← emit (setFillColor white);
    _ ← emit (setFont FONT_HEAD 27);
    _ ← emit (drawString (x + 18) 126 value);
    _ ← emit (setFont FONT_BODY 9);
    _ ← emit (setFillColor (HexColor "#C9D7EE"));
    _ ← emit (drawString (x + 18) 104 label);
    mret (x + 166)) metrics x;
  _ ← emit (setFillColor white);
  _ ← emit (setFont FONT_HEAD 9);
  _ ← emit (drawRightString (PAGE_W - MARGIN) 43 "独立审计 PASS | P0=0 | P1=0");
  _ ← emit (setFont FONT_MONO 6.5);
  _ ← emit (setFillColor (HexColor "#C9D7EE"));
  j1 ← liftD (getitem registry "registry_sha256");
  _ ← emit (drawRightString (PAGE_W - MARGIN) 28 ("registry_sha256 " +:+ py_str j1));
  _ ← emit (setFont FONT_BODY 6.8);
  _ ← emit (setFillColor (HexColor "#C9D7EE"));
  _ ← emit (drawRightString (PAGE_W - MARGIN) 14 (show_Z page_no +:+ " / " +:+ show_Z TOTAL_PAGES));
  emit showPage.

Definition _page_dashboard (registry : json) (page_no : Z) : draw unit :=
  y ← _page_header page_no "答案先说：目录完成，策略尚未完成" "80 张卡已经写出动作与费用后 PnL 合约，但没有一张通过当前全部证据门。" "管理摘要" BLUE;
  let metrics := [
    ("106", "全部实验", "8 个家族完整覆盖", BLUE);
    ("80", "动作型目标", "目标类别，不等于已验证策略", TEAL);
    ("0", "当前合格策略", "未知 PnL 绝不当成 0", RED);
    ("105 + 1", "当前分类", "105 BLOCKED / 1 研究问题", AMBER)
  ] in
  let gap := 12 in
  let card_w := (PAGE_W - 2 * MARGIN - gap * 3) / 4 in
  _ ← for_each (enumerate 0 metrics) (fun '(index, (value, label, note, accent)) =>
    _metric_card (MARGIN + inject_Z index * (card_w + gap)) (y - 104) card_w 92 value label note
        accent);
  let left_x := MARGIN in
  let left_y := 70 in
  let left_w := 470 in
  let left_h := 260 in
  _ ← _round_rect left_x left_y left_w left_h white BORDER 10 0.7;
  _ ← emit (setFont FONT_HEAD 12);
  _ ← emit (setFillColor INK);
  _ ← emit (drawString (left_x + 18) (left_y + left_h - 28) "目标类别 vs 当前事实");
  j1 ← liftD (getitem registry "summary");
  target ← liftD (getitem j1 "target_class_counts");
  j3 ← liftD (getitem target "EXECUTABLE_STRATEGY");
  j4 ← liftD (getitem target "SIGNAL");
  j5 ← liftD (getitem target "RESEARCH_QUESTION");
  let rows := [("动作型目标", j3, TEAL); ("信号目标", j4, BLUE); ("研究问题", j5, PURPLE)] in
  let bar_x := left_x + 28 in
  let bar_y := left_y + left_h - 75 in
  let max_w := 205 in
  _ ← for_each (enumerate 0 rows) (fun '(idx, (label, value, col)) =>
    let yy := bar_y - inject_Z idx * 43 in
    _ ← emit (setFillColor col);
    n6 ← liftD (as_num value);
    _ ← emit (roundRect bar_x yy (max_w * n6 / 80) 17 7 true false);
    _ ← emit (setFont FONT_BODY 8.5);
    _ ← emit (setFillColor SLATE);
    _ ← emit (drawString bar_x (yy - 14) label);
    _ ← emit (setFont FONT_MONO_BOLD 9);
    _ ← emit (setFillColor INK);
    emit (drawRightString (bar_x + max_w + 28) (yy + 4) (py_str value)));
  _ ← emit (setStrokeColor BORDER);
  _ ← emit (line_to (left_x + 280) (left_y + 30) (left_x + 280) (left_y + left_h - 45));
  _ ← _donut (left_x + 370) (left_y + 145) 68 [105%Z; 1%Z] [RED; PURPLE] "0" "当前可实盘";
  _ ← _badge "BLOCKED 105" (left_x + 310) (left_y + 42) RED_LIGHT RED (Some 92);
  _ ← _badge "研究问题 1" (left_x + 310) (left_y + 16) PURPLE_LIGHT PURPLE (Some 92);
  let right_x := left_x + left_w + 14 in
  let right_w := PAGE_W - MARGIN - right_x in
  _ ← _round_rect right_x left_y right_w left_h NAVY NAVY 10 0.7;
  _ ← emit (setFont FONT_HEAD 12);
  _ ← emit (setFillColor white);
  _ ← emit (drawString (right_x + 18) (left_y + left_h - 28) "管理者必须记住的三句话");
  let guardrails := [
    ("01", "106 项实验 ≠ 106 个策略。");
    ("02", "BLOCKED ≠ 假设失败，也 ≠ PnL 为 0。");
    ("03", "没有动作、场所、基准和费用后 PnL，就不算策略。")
  ] in
  let yy := left_y + left_h - 70 in
  yy ← fold_draw (fun yy '(number, text) =>
    _ ← emit (setFillColor BLUE);
    _ ← emit (circle (right_x + 34) (yy + 4) 14 true false);
    _ ← _draw_centered number (right_x + 34) yy FONT_MONO_BOLD 7 white;
    _ ← _draw_text (JStr text) (right_x + 58) (yy + 9) (right_w - 78) FONT_BODY 10 white (Some 14) (Some
        2%nat);
    mret (yy - 55)) guardrails yy;
  _ ← _draw_text (JStr "下一步不是继续堆想法，而是先关闭共享执行门，再让少数卡进入 Shadow。") (right_x + 20) (left_y + 42) (right_w -
      40) FONT_HEAD 10 (HexColor "#CFE1FF") (Some 14) (Some 2%nat);
  _finish_page TOTAL_PAGES page_no.

Definition _page_operating_change (registry : json) (page_no : Z) : draw unit :=
  y ← _page_header page_no "运营方式发生了什么改变" "从“解释市场”改成“用现金闭环证伪动作”；任一硬门失败都回退或关闭。" "操作系统" TEAL;
  let box_y := 250 in
  let box_h := 220 in
  let col_w := (PAGE_W - 2 * MARGIN - 22) / 2 in
  _ ← _round_rect MARGIN box_y col_w box_h RED_LIGHT (HexColor "#F5CACA") 10 0.7;
  _ ← _badge "以前" (MARGIN + 18) (box_y + box_h - 37) RED white (Some 58);
  let old := [
    "看到盘口形态，讲一个可能的故事";
    "用 markout、mid return 或毛利代替现金收益";
    "模型、RFQ、体育状态与执行权限混在一起";
    "缺数据时用价格或时间代理补全";
    "失败标准、基准和成本经常后补"
  ] in
  let yy := box_y + box_h - 75 in
  yy ← fold_draw (fun yy item =>
    _ ← emit (setFillColor RED);
    _ ← emit (circle (MARGIN + 28) (yy + 2) 3.2 true false);
    below ← _draw_text (JStr item) (MARGIN + 42) (yy + 7) (col_w - 62) FONT_BODY 9.2 INK (Some 13) (Some
        2%nat);
    mret (below - 12)) old yy;
  let right_x := MARGIN + col_w + 22 in
  _ ← _round_rect right_x box_y col_w box_h TEAL_LIGHT (HexColor "#B7E6DE") 10 0.7;
  _ ← _badge "现在" (right_x + 18) (box_y + box_h - 37) TEAL white (Some 58);
  let new := [
    "先写可证伪假设和点时可得信号";
    "明确看到信号后在哪、以什么价格和数量行动";
    "冻结可执行基准与逐路径费用后增量 PnL";
    "每个未知数据和成本直接变成 BLOCKER";
    "Registry 不授予 AWS、下单或资金权限"
  ] in
  let yy := box_y + box_h - 75 in
  yy ← fold_draw (fun yy item =>
    _ ← emit (setFillColor TEAL);
    _ ← emit (circle (right_x + 28) (yy + 2) 3.2 true false);
    below ← _draw_text (JStr item) (right_x + 42) (yy + 7) (col_w - 62) FONT_BODY 9.2 INK (Some 13)
        (Some 2%nat);
    mret (below - 12)) new yy;
  let stages := [
    ("假设", "经济机制");
    ("信号", "过去时钟");
    ("动作", "边/价/量/退出");
    ("场所", "真实接口");
    ("基准", "同机会集");
    ("成本", "不准填 0");
    ("PnL", "现金路径");
    ("证伪", "失败即停")
  ] in
  let start_x := MARGIN in
  let stage_y := 112 in
  let stage_w := (PAGE_W - 2 * MARGIN - 7 * 8) / 8 in
  start_x ← fold_draw (fun start_x '(index, (title, sub)) =>
    col ← list_at [BLUE; TEAL; AMBER; PURPLE; BLUE; CORAL; RED; INK] index;
    _ ← _round_rect start_x stage_y stage_w 76 white col 9 1.2;
    _ ← _draw_centered title (start_x + stage_w / 2) (stage_y + 44) FONT_HEAD 10 col;
    _ ← _draw_centered sub (start_x + stage_w / 2) (stage_y + 22) FONT_BODY 6.8 MUTED;
    _ ← when ((index <? 7%Z)%Z) (_arrow (start_x + stage_w + 1) (stage_y + 38) (start_x + stage_w + 7)
        (stage_y + 38) MUTED 1.2);
    mret (start_x + (stage_w + 8))) (enumerate 0 stages) start_x;
  _ ← _draw_text (JStr "STOP 规则：缺任何一格，computed_class 只能是 BLOCKED、SIGNAL 或 RESEARCH_QUESTION。") MARGIN 75
      (PAGE_W - 2 * MARGIN) FONT_HEAD 9.5 RED None (Some 1%nat);
  _finish_page TOTAL_PAGES page_no.

Definition _page_card_anatomy (registry : json) (page_no : Z) : draw unit :=
  by_id ← liftD (_card_by_id registry);
  card ← liftD (dict_at by_id "A01-SPREAD-CAPTURE");
  y ← _page_header page_no "一张合格实验卡长什么样" "A01 已经有清楚动作与 PnL 定义，但描述性 markout 仍不能证明盈利。" "卡片解剖" AMBER;
  let card_x := MARGIN in
  let card_y := 62 in
  let card_w := 520 in
  let card_h := y - card_y in
  _ ← _round_rect card_x card_y card_w card_h white BORDER 14 0.7;
  _ ← _badge "A01" (card_x + 18) (card_y + card_h - 42) BLUE white (Some 48);
  _ ← _badge "BLOCKED" (card_x + 76) (card_y + card_h - 42) RED_LIGHT RED (Some 72);
  _ ← _badge "NO PNL CLAIM" (card_x + 158) (card_y + card_h - 42) AMBER_LIGHT (HexColor "#9C6507") (Some
      100);
  _ ← _badge "NO TRADING AUTHORITY" (card_x + 268) (card_y + card_h - 42) PURPLE_LIGHT PURPLE (Some
      140);
  let fields := [
    ("假设", "在合格双边盘口中，被动赚取点差在严格成交、逆向选择、强制退出和精确费用后仍为正。");
    ("信号", "可执行点差超过预先冻结的费用、markout、退出和安全缓冲。");
    ("动作", "在允许的两边各挂 1 张 post-only；信号消失、盘口断档或数据过期时立即撤单并对账。");
    ("场所", "Kalshi CLOB。Registry 本身不授予下单权限。");
    ("基准", "相同机会集保持空仓，现金流记 0；所有零触发和零成交机会保留。");
    ("PnL", "策略逐路径现金 PnL - 相同机会不交易基准；扣除费用、滑点、延迟、库存和资本成本。");
    ("失败", "untouched 样本的费用后增量 NetPnL <= 0，或容量/尾部风险未通过冻结门。")
  ] in
  let yy := card_y + card_h - 72 in
  let label_w := 56 in
  yy ← fold_draw (fun yy '(label, value) =>
    _ ← emit (setFillColor LIGHT);
    _ ← emit (roundRect (card_x + 18) (yy - 17) label_w 22 7 true false);
    _ ← _draw_centered label (card_x + 18 + label_w / 2) (yy - 10) FONT_HEAD 8 SLATE;
    new_y ← _draw_text (JStr value) (card_x + 88) yy (card_w - 108) FONT_BODY 7.6 INK (Some 10) (Some
        2%nat);
    mret (Qmin (yy - 34) (new_y - 9))) fields yy;
  let side_x := card_x + card_w + 16 in
  let side_w := PAGE_W - MARGIN - side_x in
  _ ← _round_rect side_x 305 side_w 165 NAVY NAVY 12 0.7;
  _ ← emit (setFillColor white);
  _ ← emit (setFont FONT_HEAD 11);
  _ ← emit (drawString (side_x + 18) 442 "当前真实观测");
  j1 ← liftD (getitem card "current_result");
  j2 ← liftD (getitem j1 "observed_signal");
  obs ← liftD (getitem j2 "values");
  markout ← liftD (getitem obs "pooled_signed_markout_logodds");
  let yy := 407 in
  yy ← fold_draw (fun yy horizon =>
    value ← liftD (getitem markout horizon);
    _ ← emit (setFont FONT_MONO_BOLD 11);
    _ ← emit (setFillColor (HexColor "#CFE1FF"));
    _ ← emit (drawString (side_x + 18) yy horizon);
    _ ← emit (setFillColor white);
    t6 ← liftD (fixed3 value);
    _ ← emit (drawRightString (side_x + side_w - 20) yy (t6));
    mret (yy - 28)) ["1s"; "5s"; "30s"] yy;
  _ ← _draw_text (JStr "仅表示 pooled half-spread 与 signed markout 的描述关系；尚未扣费用、模拟成交、延迟和退出。") (side_x + 18)
      326 (side_w - 36) FONT_BODY 7.6 (HexColor "#C9D7EE") (Some 10) (Some 3%nat);
  _ ← _round_rect side_x 62 side_w 226 RED_LIGHT (HexColor "#F2C5C5") 12 0.7;
  _ ← emit (setFillColor RED);
  _ ← emit (setFont FONT_HEAD 11);
  _ ← emit (drawString (side_x + 18) 260 "为什么还不能下单");
  let yy := 230 in
  j7 ← liftD (getitem card "blockers");
  l8 ← liftD (as_list j7);
  yy ← fold_draw (fun yy blocker =>
    _ ← emit (setFillColor RED);
    _ ← emit (circle (side_x + 24) (yy + 2) 2.8 true false);
    j9 ← liftD (label_or_key BLOCKER_LABELS blocker);
    below ← _draw_text j9 (side_x + 36) (yy + 6) (side_w - 55) FONT_BODY 7.8 INK (Some 10) (Some 1%nat);
    mret (below - 8)) l8 yy;
  _finish_page TOTAL_PAGES page_no.

Definition _page_families (registry : json) (page_no : Z) : draw unit :=
  y ← _page_header page_no "广度已经铺开：8 个实验家族" "覆盖面是研究目录的广度，不是价值排名，也不是 106 次独立下注。" "实验版图" PURPLE;
  cards ← liftD (getitem registry "experiments");
  cards ← liftD (as_list cards);
  family_counts ← liftD (count_from family_code cards []);
  action_counts ← liftD (count_from action_family_code cards []);
  let items := map (fun family => (family, counter_at family_counts family))
    ["A"; "B"; "C"; "F"; "G"; "P"; "D"; "E"] in
  let left_x := MARGIN in
  _ ← _round_rect left_x 70 390 (y - 75) white BORDER 10 0.7;
  _ ← emit (setFont FONT_HEAD 11);
  _ ← emit (setFillColor INK);
  _ ← emit (drawString (left_x + 18) (y - 28) "家族规模");
  bars ← liftD (mapR (fun '(f, value) =>
    label ← table_at FAMILY_LABELS (JStr f); Ok (f +:+ "  " +:+ label, value)) items);
  _ ← _hbar_chart bars (left_x + 15) (y - 63) 360 37 PURPLE 145 (Some 23%Z) EmptyString;
  let right_x := left_x + 404 in
  let right_w := PAGE_W - MARGIN - right_x in
  _ ← _round_rect right_x 70 right_w (y - 75) white BORDER 10 0.7;
  _ ← emit (setFont FONT_HEAD 11);
  _ ← emit (setFillColor INK);
  _ ← emit (drawString (right_x + 18) (y - 28) "动作型目标 / 非策略条目");
  let bar_x := right_x + 120 in
  let bar_w := right_w - 170 in
  let yy := y - 64 in
  yy ← fold_draw (fun yy family =>
    let total := counter_at family_counts family in
    let action := counter_at action_counts family in
    let non := (total - action)%Z in
    _ ← emit (setFillColor SLATE);
    _ ← emit (setFont FONT_BODY 8);
    t1 ← liftD (table_at FAMILY_LABELS (JStr family));
    _ ← emit (drawRightString (bar_x - 12) (yy + 2) (family +:+ " " +:+ t1));
    _ ← emit (setFillColor TEAL);
    _ ← emit (rect bar_x yy (bar_w * inject_Z action / 23) 12 true false);
    _ ← emit (setFillColor PURPLE_LIGHT);
    _ ← emit (rect (bar_x + bar_w * inject_Z action / 23) yy (bar_w * inject_Z non / 23) 12 true false);
    _ ← emit (setFont FONT_MONO_BOLD 7.5);
    _ ← emit (setFillColor INK);
    _ ← emit (drawString (bar_x + bar_w + 8) (yy + 1.5) (show_Z action +:+ "/" +:+ show_Z non));
    mret (yy - 37)) ["A"; "B"; "C"; "D"; "E"; "F"; "G"; "P"] yy;
  _ ← _badge "动作型目标 80" (right_x + 18) 90 TEAL_LIGHT TEAL (Some 102);
  _ ← _badge "信号/研究 26" (right_x + 130) 90 PURPLE_LIGHT PURPLE (Some 102);
  _finish_page TOTAL_PAGES page_no.

Definition _page_target_vs_current (registry : json) (page_no : Z) : draw unit :=
  y ← _page_header page_no "“想做什么”与“现在能做什么”必须分开" "target_class 记录目标；computed_class 只认当前已闭合证据。" "成熟度"
      BLUE;
  let left_x := MARGIN in
  let mid_x := PAGE_W / 2 in
  _ ← _round_rect left_x 205 300 260 white BORDER 10 0.7;
  _ ← _round_rect (PAGE_W - MARGIN - 300) 205 300 260 white BORDER 10 0.7;
  _ ← emit (setFont FONT_HEAD 13);
  _ ← emit (setFillColor INK);
  _ ← emit (drawString (left_x + 20) 435 "目标类别");
  _ ← emit (drawString (PAGE_W - MARGIN - 280) 435 "当前类别");
  j1 ← liftD (getitem registry "summary");
  target ← liftD (getitem j1 "target_class_counts");
  j3 ← liftD (getitem target "EXECUTABLE_STRATEGY");
  j4 ← liftD (getitem target "SIGNAL");
  j5 ← liftD (getitem target "RESEARCH_QUESTION");
  let left_rows := [("动作型实验", j3, TEAL); ("信号实验", j4, BLUE); ("研究问题", j5, PURPLE)] in
  let yy := 380 in
  yy ← fold_draw (fun yy '(label, value, col) =>
    _ ← emit (setFillColor col);
    _ ← emit (circle (left_x + 35) (yy + 4) 8 true false);
    _ ← emit (setFillColor INK);
    _ ← emit (setFont FONT_HEAD 10);
    _ ← emit (drawString (left_x + 55) yy label);
    _ ← emit (setFont FONT_MONO_BOLD 18);
    _ ← emit (setFillColor col);
    _ ← emit (drawRightString (left_x + 275) (yy - 3) (py_str value));
    mret (yy - 62)) left_rows yy;
  let right_x := PAGE_W - MARGIN - 300 in
  _ ← _donut (right_x + 150) 337 91 [105%Z; 1%Z] [RED; PURPLE] "0" "EXECUTABLE";
  _ ← _badge "BLOCKED 105" (right_x + 68) 225 RED_LIGHT RED (Some 100);
  _ ← _badge "研究问题 1" (right_x + 172) 225 PURPLE_LIGHT PURPLE (Some 92);
  _ ← _arrow (left_x + 315) 337 (right_x - 15) 337 AMBER 2;
  _ ← emit (setFillColor AMBER);
  _ ← emit (setFont FONT_HEAD 9);
  _ ← emit (drawCentredString mid_x 355 "证据门重新计算");
  experiments ← liftD (getitem registry "experiments");
  experiments ← liftD (as_list experiments);
  signal_counts ← liftD (count_from signal_status experiments []);
  _ ← _round_rect MARGIN 65 (PAGE_W - 2 * MARGIN) 115 NAVY NAVY 10 0.7;
  _ ← emit (setFillColor white);
  _ ← emit (setFont FONT_HEAD 11);
  _ ← emit (drawString (MARGIN + 20) 151 "当前信号可计算性");
  let statuses := [
    ("YES", counter_at signal_counts "YES", TEAL, "信号可描述");
    ("PARTIAL", counter_at signal_counts "PARTIAL", AMBER, "仅部分输入/机制");
    ("NO", counter_at signal_counts "NO", RED, "当前不可计算")
  ] in
  let start_x := MARGIN + 190 in
  start_x ← fold_draw (fun start_x '(status, value, col, note) =>
    _ ← emit (setFillColor col);
    _ ← emit (roundRect start_x 98 122 44 10 true false);
    _ ← _draw_centered (show_Z value) (start_x + 25) 114 FONT_HEAD 17 white;
    _ ← _draw_text (JStr note) (start_x + 51) 123 64 FONT_BODY 7 white (Some 9) (Some 2%nat);
    mret (start_x + 150)) statuses start_x;
  _ ← _draw_text (JStr "即使 signal_event=YES，也不代表严格成交、费用后 shadow PnL 或 realized PnL 可算。") (MARGIN + 20)
      82 (PAGE_W - 2 * MARGIN - 40) FONT_BODY 8.2 (HexColor "#C9D7EE") None (Some 1%nat);
  _finish_page TOTAL_PAGES page_no.

Definition _page_data_truth (registry : json) (page_no : Z) : draw unit :=
  y ← _page_header page_no "当前数据到底能支持什么" "L1/成交有 8 个 exact release；L2 估计只能用 7/12、7/15、7/17。" "数据事实"
      TEAL;
  _ ← _round_rect MARGIN 315 (PAGE_W - 2 * MARGIN) 145 white BORDER 10 0.7;
  _ ← emit (setFillColor INK);
  _ ← emit (setFont FONT_HEAD 11);
  _ ← emit (drawString (MARGIN + 18) 433 "2026-07-10 至 2026-07-17 数据带");
  let dates := map (fun day => "7/" +:+ show_nat day) (seq 10 8) in
  let start_x := MARGIN + 25 in
  let cell_w := (PAGE_W - 2 * MARGIN - 50) / 8 in
  let l2_clean := ["7/12"; "7/15"; "7/17"] in
  let l2_excluded := ["7/13"; "7/14"] in
  let l2_conditional := ["7/16"] in
  let l2_missing := ["7/10"; "7/11"] in
  start_x ← fold_draw (fun start_x date =>
    let x := start_x in
    _ ← emit (setFillColor SKY);
    _ ← emit (roundRect x 370 (cell_w - 8) 44 8 true false);
    _ ← _draw_centered date (x + (cell_w - 8) / 2) 395 FONT_HEAD 9 BLUE;
    _ ← _draw_centered "L1 / trades" (x + (cell_w - 8) / 2) 378 FONT_BODY 6.7 SLATE;
    let '(fill_c, col, label) := if str_in date l2_clean then (TEAL_LIGHT, TEAL, "L2 CLEAN") else (if
        str_in date l2_excluded then (RED_LIGHT, RED, "L2 排除") else (if str_in date l2_conditional then
        (AMBER_LIGHT, AMBER, "V1 排除*") else (LIGHT, MUTED, "L2 缺失"))) in
    _ ← emit (setFillColor fill_c);
    _ ← emit (roundRect x 332 (cell_w - 8) 29 7 true false);
    _ ← _draw_centered label (x + (cell_w - 8) / 2) 342 FONT_HEAD 6.8 col;
    mret (start_x + cell_w)) dates start_x;
  _ ← _draw_text (JStr "* 7/16 后续根因审计判定为“维护窗条件可救”；待逐日质量门、窗口剔除、新收据与 Registry 新 revision 后才能纳入。") (MARGIN
      + 18) 321 (PAGE_W - 2 * MARGIN - 36) FONT_BODY 6.4 AMBER None (Some 1%nat);
  let left_w := 370 in
  _ ← _round_rect MARGIN 70 left_w 225 NAVY NAVY 10 0.7;
  _ ← emit (setFillColor white);
  _ ← emit (setFont FONT_HEAD 11);
  _ ← emit (drawString (MARGIN + 18) 268 "现有数据可以做");
  let allowed := [
    "L1/成交信号发生率与条件 markout";
    "3 个干净 L2 日的深度、回补、撤退机制";
    "目录、市场图谱与生命周期覆盖检查";
    "保留全部零触发、零成交机会"
  ] in
  let yy := 235 in
  yy ← fold_draw (fun yy item =>
    _ ← emit (setFillColor TEAL);
    _ ← emit (circle (MARGIN + 25) (yy + 3) 3 true false);
    below ← _draw_text (JStr item) (MARGIN + 38) (yy + 8) (left_w - 56) FONT_BODY 8.4 white (Some 11)
        (Some 2%nat);
    mret (below - 11)) allowed yy;
  let right_x := MARGIN + left_w + 15 in
  let right_w := PAGE_W - MARGIN - right_x in
  _ ← _round_rect right_x 70 right_w 225 RED_LIGHT (HexColor "#F3C8C8") 10 0.7;
  _ ← emit (setFillColor RED);
  _ ← emit (setFont FONT_HEAD 11);
  _ ← emit (drawString (right_x + 18) 268 "现有数据不能证明");
  let forbidden := [
    "自己的队列位置、真实成交与撤单竞态";
    "精确手续费、实测延迟与费用后现金 PnL";
    "完整结算、作废、延期和残余库存现金流";
    "外部比分、局/盘、阵容、伤病或真实 in-play";
    "untouched confirmation cohort 上的可复制收益"
  ] in
  let yy := 235 in
  yy ← fold_draw (fun yy item =>
    _ ← emit (setFillColor RED);
    _ ← emit (circle (right_x + 25) (yy + 3) 3 true false);
    below ← _draw_text (JStr item) (right_x + 38) (yy + 8) (right_w - 56) FONT_BODY 8.2 INK (Some 11)
        (Some 2%nat);
    mret (below - 9)) forbidden yy;
  _finish_page TOTAL_PAGES page_no.

Definition _page_blockers (registry : json) (page_no : Z) : draw unit :=
  y ← _page_header page_no "最大问题不是 80 个策略各自坏了" "前五个共享执行门同时阻断约 80 张卡；先修公共能力，复用价值最高。" "阻断 Pareto" RED;
  experiments ← liftD (getitem registry "experiments");
  experiments ← liftD (as_list experiments);
  counts ← liftD (count_from card_blockers experiments []);
  let top_ := most_common 10 counts in
  let left_w := 520 in
  _ ← _round_rect MARGIN 70 left_w (y - 75) white BORDER 10 0.7;
  _ ← emit (setFont FONT_HEAD 11);
  _ ← emit (setFillColor INK);
  _ ← emit (drawString (MARGIN + 18) (y - 28) "卡片-阻断关系次数");
  bars ← liftD (mapR (fun '(k, v) =>
    label ← label_or_key BLOCKER_LABELS k; label ← as_str label; Ok (label, v)) top_);
  _ ← _hbar_chart bars (MARGIN + 18) (y - 62) (left_w - 36) 33 RED 155 (Some 83%Z) EmptyString;
  let right_x := MARGIN + left_w + 15 in
  let right_w := PAGE_W - MARGIN - right_x in
  _ ← _round_rect right_x 280 right_w 182 NAVY NAVY 10 0.7;
  _ ← emit (setFillColor white);
  _ ← emit (setFont FONT_HEAD 11);
  _ ← emit (drawString (right_x + 18) 434 "Wave 0：共享执行核心");
  let core := [
    ("费用", "exact fee / rounding / rebate");
    ("成交", "strict fill / queue / cancel race");
    ("延迟", "place / cancel-effective / exit");
    ("结算", "0/1/void/retire/postpone");
    ("风险", "capital / inventory / tail / stop")
  ] in
  let yy := 404 in
  yy ← fold_draw (fun yy '(label, note) =>
    _ ← _badge label (right_x + 18) (yy - 9) (Color 1 1 1 0.12) white (Some 46);
    _ ← _draw_text (JStr note) (right_x + 74) (yy + 3) (right_w - 92) FONT_MONO 6.7 (HexColor "#C9D7EE")
        None (Some 1%nat);
    mret (yy - 27)) core yy;
  _ ← _round_rect right_x 70 right_w 195 AMBER_LIGHT (HexColor "#F0D49D") 10 0.7;
  _ ← emit (setFillColor (HexColor "#8A5A06"));
  _ ← emit (setFont FONT_HEAD 11);
  _ ← emit (drawString (right_x + 18) 236 "怎么读这张图");
  let notes := [
    "次数不是独立故障数，不能相加。";
    "关闭公共门只让 PnL 可测，不保证为正。";
    "每张卡仍需自己的信号、动作与基准验证。";
    "先修共同门，比逐卡写新代码更快接近现金验证。"
  ] in
  let yy := 204 in
  yy ← fold_draw (fun yy note =>
    _ ← emit (setFillColor AMBER);
    _ ← emit (circle (right_x + 24) (yy + 3) 3 true false);
    below ← _draw_text (JStr note) (right_x + 37) (yy + 8) (right_w - 55) FONT_BODY 7.8 INK (Some 10)
        (Some 2%nat);
    mret (below - 8)) notes yy;
  _finish_page TOTAL_PAGES page_no.

Definition _page_pnl (registry : json) (page_no : Z) : draw unit :=
  y ← _page_header page_no "真正的 PnL 是现金瀑布，不是漂亮的 markout" "唯一主指标：相对可执行基准的逐路径费用后增量现金 PnL。" "PNL 合约" CORAL;
  let formula_y := 430 in
  _ ← emit (setFont FONT_HEAD 14);
  _ ← emit (setFillColor INK);
  _ ← emit (drawString MARGIN formula_y "DeltaPnL = NetPnL(strategy) - NetPnL(executable baseline)");
  _ ← _draw_text (JStr "所有 eligible no-trigger、no-fill、no-accept 机会都保留为 0；容量不得超过测试过的可执行深度。") MARGIN
      (formula_y - 25) (PAGE_W - 2 * MARGIN) FONT_BODY 8.5 SLATE None (Some 1%nat);
  let waterfall := [
    ("成交现金流", BLUE, "+");
    ("交易所费用", RED, "-");
    ("点差/滑点/冲击", CORAL, "-");
    ("下单/撤单/退出延迟", AMBER, "-");
    ("库存/作废/结算", PURPLE, "-");
    ("抵押与资本", SLATE, "-");
    ("费用后 NetPnL", TEAL, "=")
  ] in
  let start_x := MARGIN in
  let box_w := (PAGE_W - 2 * MARGIN - 6 * 9) / 7 in
  let yy := 282 in
  let heights := [105; 88; 76; 67; 58; 48; 40] in
  _ ← for_each (enumerate 0 (combine waterfall heights)) (fun '(index, ((label, col, sign), height)) =>
    let x := start_x + inject_Z index * (box_w + 9) in
    _ ← emit (setFillColor col);
    _ ← emit (roundRect x yy box_w height 8 true false);
    let '(sign_y, label_y, label_size, label_lines) := if Qlt_b height 60 then (yy + height - 16, yy +
        13, 6.5, 1%Z) else (yy + height - 25, yy + height - 43, 7.3, 3%Z) in
    _ ← _draw_centered sign (x + 15) sign_y FONT_HEAD 15 white;
    _ ← _draw_text (JStr label) (x + 13) label_y (box_w - 24) FONT_BODY label_size white (Some 9) (Some
        (Z.to_nat label_lines));
    mret tt);
  _ ← _round_rect MARGIN 72 480 178 NAVY NAVY 10 0.7;
  _ ← emit (setFillColor white);
  _ ← emit (setFont FONT_HEAD 11);
  _ ← emit (drawString (MARGIN + 18) 222 "P10 商业 ROC 额外扣除");
  let extras := [
    "数据源 / 许可 / API / 历史回填";
    "云计算 / 存储 / 请求 / 出网";
    "运营人工 / 值班 / 事故损失与修复";
    "完整资本与抵押时间成本"
  ] in
  let yy := 191 in
  yy ← fold_draw (fun yy item =>
    _ ← emit (setFillColor CORAL);
    _ ← emit (circle (MARGIN + 25) (yy + 3) 3 true false);
    below ← _draw_text (JStr item) (MARGIN + 38) (yy + 8) 430 FONT_BODY 8.4 white (Some 11) (Some
        1%nat);
    mret (below - 10)) extras yy;
  let right_x := MARGIN + 495 in
  let right_w := PAGE_W - MARGIN - right_x in
  _ ← _round_rect right_x 72 right_w 178 RED_LIGHT (HexColor "#F3C8C8") 10 0.7;
  _ ← emit (setFillColor RED);
  _ ← emit (setFont FONT_HEAD 11);
  _ ← emit (drawString (right_x + 18) 222 "只允许做诊断，不是现金 PnL");
  let diagnostics := ["mid return"; "markout"; "microprice"; "spread opportunity"] in
  let yy := 188 in
  yy ← fold_draw (fun yy item =>
    _ ← _badge item (right_x + 18) (yy - 8) white RED (Some 120);
    mret (yy - 28)) diagnostics yy;
  _ ← _draw_text (JStr "成本未知时必须 BLOCK，不得填 0。") (right_x + 150) 191 (right_w - 168) FONT_HEAD 9 RED (Some
      13) (Some 3%nat);
  _finish_page TOTAL_PAGES page_no.

Definition _page_rfq (registry : json) (page_no : Z) : draw unit :=
  y ← _page_header page_no "RFQ：公开信息能做风险控制，不能猜方向"
      "公开 create/delete 是 unsigned；方向与直接报价 PnL 只能来自私有 accepted_side 和真实成交链。" "RFQ 边界" PURPLE;
  let lane_y := 238 in
  let lane_h := 225 in
  let lane_w := (PAGE_W - 2 * MARGIN - 18) / 2 in
  _ ← _round_rect MARGIN lane_y lane_w lane_h SKY (HexColor "#BFD6F7") 10 0.7;
  _ ← _badge "PUBLIC - UNSIGNED" (MARGIN + 18) (lane_y + lane_h - 40) BLUE white (Some 132);
  let public_steps := [
    "create / delete / size / lifetime / requester hash";
    "只测到达率、规模、寿命、绝对波动/毒性";
    "允许动作：撤单、放宽、缩量，同时保护两边";
    "D02 / D03 / D05 / D07 -> RFQ_GUARD"
  ] in
  let yy := lane_y + lane_h - 78 in
  yy ← fold_draw (fun yy step =>
    _ ← emit (setFillColor BLUE);
    _ ← emit (circle (MARGIN + 27) (yy + 3) 3 true false);
    below ← _draw_text (JStr step) (MARGIN + 40) (yy + 8) (lane_w - 60) FONT_BODY 8.2 INK (Some 11)
        (Some 2%nat);
    mret (below - 12)) public_steps yy;
  let right_x := MARGIN + lane_w + 18 in
  _ ← _round_rect right_x lane_y lane_w lane_h PURPLE_LIGHT (HexColor "#CDC3F0") 10 0.7;
  _ ← _badge "PRIVATE - SIGNED" (right_x + 18) (lane_y + lane_h - 40) PURPLE white (Some 132);
  let private_steps := [
    "accepted_side / quote / confirmation / executed";
    "fills / fees / hedge / inventory / settlement";
    "D06 仅做私有方向信号分析，无动作";
    "D08 才能定义 RFQ quote + hedge 的现金 PnL"
  ] in
  let yy := lane_y + lane_h - 78 in
  yy ← fold_draw (fun yy step =>
    _ ← emit (setFillColor PURPLE);
    _ ← emit (circle (right_x + 27) (yy + 3) 3 true false);
    below ← _draw_text (JStr step) (right_x + 40) (yy + 8) (lane_w - 60) FONT_BODY 8.2 INK (Some 11)
        (Some 2%nat);
    mret (below - 12)) private_steps yy;
  _ ← _round_rect MARGIN 72 (PAGE_W - 2 * MARGIN) 142 NAVY NAVY 10 0.7;
  _ ← emit (setFillColor RED);
  _ ← emit (roundRect (MARGIN + 22) 105 245 70 11 true false);
  _ ← _draw_centered "combo leg side" (MARGIN + 144) 151 FONT_HEAD 11 white;
  _ ← _draw_centered "≠ requester 买卖方向" (MARGIN + 144) 126 FONT_HEAD 10 white;
  _ ← _arrow (MARGIN + 288) 140 (MARGIN + 365) 140 white 1.8;
  _ ← _draw_text (JStr "当前 RFQ_PUBLIC_DATA_UNRELEASED 和 RFQ_PRIVATE_EVENTS_MISSING 仍在阻断；D08 不能宣称可交易。")
      (MARGIN + 390) 154 (PAGE_W - MARGIN - (MARGIN + 410)) FONT_HEAD 9.2 white (Some 14) (Some 3%nat);
  _finish_page TOTAL_PAGES page_no.

Definition _page_mve (registry : json) (page_no : Z) : draw unit :=
  y ← _page_header page_no "MVE：独立执行产品，不是 RFQ 的别名" "D10 使用专用 MVE 私有数据契约；RFQ 事件不能跨线替代 package 执行。"
      "MVE 边界" AMBER;
  let steps := [
    ("01", "Exact MVE catalog", "产品版本与规则");
    ("02", "Leg / orientation", "支付矩阵穷尽");
    ("03", "同步 leg L2", "真实可执行深度");
    ("04", "Private package", "order / ack / fill / fee");
    ("05", "Hedge + settlement", "孤腿与部分包风险");
    ("06", "Joint NetPnL", "全腿费用后现金")
  ] in
  let x := MARGIN in
  let box_y := 320 in
  let box_w := (PAGE_W - 2 * MARGIN - 5 * 10) / 6 in
  x ← fold_draw (fun x '(index, (num, title, note)) =>
    col ← list_at [BLUE; PURPLE; TEAL; AMBER; CORAL; RED] index;
    _ ← _round_rect x box_y box_w 125 white col 10 1.2;
    _ ← emit (setFillColor col);
    _ ← emit (circle (x + 22) (box_y + 100) 13 true false);
    _ ← _draw_centered num (x + 22) (box_y + 96) FONT_MONO_BOLD 7 white;
    _ ← _draw_text (JStr title) (x + 16) (box_y + 70) (box_w - 30) FONT_HEAD 8.5 INK (Some 11) (Some
        2%nat);
    _ ← _draw_text (JStr note) (x + 16) (box_y + 36) (box_w - 30) FONT_BODY 7 MUTED (Some 9) (Some
        2%nat);
    _ ← when ((index <? 5%Z)%Z) (_arrow (x + box_w + 1) (box_y + 62) (x + box_w + 8) (box_y + 62) MUTED
        1.2);
    mret (x + (box_w + 10))) (enumerate 0 steps) x;
  _ ← _round_rect MARGIN 72 465 215 AMBER_LIGHT (HexColor "#F0D49D") 10 0.7;
  _ ← emit (setFillColor (HexColor "#8A5A06"));
  _ ← emit (setFont FONT_HEAD 11);
  _ ← emit (drawString (MARGIN + 18) 258 "D10 已经定义的动作");
  by_id ← liftD (_card_by_id registry);
  d10 ← liftD (dict_at by_id "D10-MVE-DIRECT-TRADING");
  j2 ← liftD (getitem d10 "action");
  j3 ← liftD (getitem j2 "profile_id");
  t1 ← liftD (table_at ACTION_LABELS j3);
  let details := [
    ("动作", t1);
    ("场所", "Kalshi MVE private execution");
    ("基准", "相同机会不做 MVE package");
    ("PnL", "package + hedge 现金 - 全腿费用 - 孤腿成本 + joint terminal");
    ("状态", "BLOCKED / NO AUTHORITY")
  ] in
  let yy := 224 in
  yy ← fold_draw (fun yy '(label, value) =>
    _ ← emit (setFillColor AMBER);
    _ ← emit (setFont FONT_HEAD 8);
    _ ← emit (drawString (MARGIN + 20) yy label);
    below ← _draw_text (JStr value) (MARGIN + 70) (yy + 2) 370 FONT_BODY 7.4 INK (Some 10) (Some 2%nat);
    mret (below - 10)) details yy;
  let right_x := MARGIN + 480 in
  let right_w := PAGE_W - MARGIN - right_x in
  _ ← _round_rect right_x 72 right_w 215 RED_LIGHT (HexColor "#F3C8C8") 10 0.7;
  _ ← emit (setFillColor RED);
  _ ← emit (setFont FONT_HEAD 11);
  _ ← emit (drawString (right_x + 18) 258 "仍然缺失");
  let missing := [
    "MVE private package lifecycle";
    "exact leg/orientation/payout mapping";
    "multi-leg atomic/orphan-safe engine";
    "fees, latency, risk and settlement"
  ] in
  let yy := 224 in
  yy ← fold_draw (fun yy item =>
    _ ← emit (setFillColor RED);
    _ ← emit (circle (right_x + 25) (yy + 2) 3 true false);
    below ← _draw_text (JStr item) (right_x + 38) (yy + 7) (right_w - 56) FONT_BODY 7.8 INK (Some 10)
        (Some 2%nat);
    mret (below - 12)) missing yy;
  _finish_page TOTAL_PAGES page_no.

Definition _page_external (registry : json) (page_no : Z) : draw unit :=
  y ← _page_header page_no "外部体育数据：没有就明确写没有" "当前没有直接体育数据 adapter；缺失必须 BLOCK_NO_IMPUTE，候选 API 不等于已接入。"
      "外部数据" RED;
  let missing := ["比分"; "局/盘/节"; "阵容"; "伤病"; "真实开赛状态"; "外部赔率"] in
  let x := MARGIN in
  x ← fold_draw (fun x item =>
    _ ← _badge (item +:+ "  MISSING") x 426 RED_LIGHT RED (Some 112);
    mret (x + 122)) missing x;
  _ ← _round_rect MARGIN 250 (PAGE_W - 2 * MARGIN) 150 white BORDER 10 0.7;
  _ ← emit (setFont FONT_HEAD 11);
  _ ← emit (setFillColor INK);
  _ ← emit (drawString (MARGIN + 18) 372 "候选来源 - 全部待验证");
  let sources := [
    ("Kalshi Live Data", "direct labels / live state");
    ("The Odds API", "external odds");
    ("OpticOdds", "odds / results / lineup");
    ("Sportradar", "play-by-play / roster");
    ("NOAA / NCEI", "weather control")
  ] in
  let col_w := (PAGE_W - 2 * MARGIN - 36) / 5 in
  let x := MARGIN + 10 in
  x ← fold_draw (fun x '(name, kind) =>
    _ ← _round_rect x 277 col_w 72 AMBER_LIGHT (HexColor "#F0D49D") 8 0.7;
    _ ← _draw_text (JStr name) (x + 10) 329 (col_w - 20) FONT_HEAD 7.5 (HexColor "#8A5A06") (Some 9)
        (Some 2%nat);
    _ ← _draw_text (JStr kind) (x + 10) 298 (col_w - 20) FONT_MONO 5.8 SLATE (Some 8) (Some 2%nat);
    mret (x + (col_w + 9))) sources x;
  let stages := [
    "授权/许可";
    "字段语义";
    "source + receive clocks";
    "append-only capture";
    "event/market mapping";
    "point-in-time 验证"
  ] in
  let x := MARGIN in
  x ← fold_draw (fun x '(index, stage) =>
    let box_w := (PAGE_W - 2 * MARGIN - 5 * 9) / 6 in
    _ ← _round_rect x 145 box_w 72 NAVY NAVY 8 0.7;
    _ ← _draw_centered (show_Z (index + 1%Z)%Z) (x + 18) 190 FONT_MONO_BOLD 8 TEAL;
    _ ← _draw_text (JStr stage) (x + 12) 175 (box_w - 24) FONT_BODY 6.8 white (Some 9) (Some 3%nat);
    _ ← when ((index <? 5%Z)%Z) (_arrow (x + box_w + 1) 181 (x + box_w + 7) 181 MUTED 1.2);
    mret (x + (box_w + 9))) (enumerate 0 stages) x;
  _ ← _round_rect MARGIN 72 (PAGE_W - 2 * MARGIN) 50 RED_LIGHT (HexColor "#F3C8C8") 10 0.7;
  _ ← _draw_text (JStr
      "禁止：从盘口价格推断比分/伤病；把当前 snapshot 伪装成历史 point-in-time；把 scheduled-start proxy 改名为真实 in-play。") (MARGIN
      + 18) 100 (PAGE_W - 2 * MARGIN - 36) FONT_HEAD 8.5 RED (Some 11) (Some 2%nat);
  _finish_page TOTAL_PAGES page_no.

Definition _page_priority (registry : json) (page_no : Z) : draw unit :=
  y ← _page_header page_no "优先队列：先解公共门，再测最接近现金的卡" "这是“离可审计 PnL 有多远”的运营排序，不是预期收益排名或交易推荐。" "验证队列" AMBER;
  _ ← liftD (_card_by_id registry);
  let priority := [
    ("A01-SPREAD-CAPTURE", "已有 gross 描述", "strict fill + fee");
    ("A11-ONE-SIDED-PROVISION", "已有窄 pre-start 描述", "fail-fast 严格成交");
    ("A12-GENERIC-PASSIVE-SCALPING", "L1 信号可构造", "被动成交与退出");
    ("B09-LISTING-TO-START-DRIFT", "只需内部时钟", "方向成交与权限");
    ("B14-VOL-HARVEST", "past-only vol", "maker 费用后 replay");
    ("F03-NEW-MARKET-COLD-START", "内部 age/uptime", "何时报价的 shadow");
    ("F11-GOLF-THIN-LONG-LIFECYCLE", "外部数据仅 optional", "资本与终局尾部");
    ("A03-DEPLETION-REFILL", "3 个 clean L2 日", "own-order 校准");
    ("A04-QUEUE-LAMBDA-DISTANCE", "L1 信号可构造", "queue/fill 校准");
    ("B01-MOMENTUM-CONTINUATION", "L1 方向信号", "venue authority")
  ] in
  let table_x := MARGIN in
  let table_y := 100 in
  let table_w := 535 in
  let table_h := y - 110 in
  _ ← _round_rect table_x table_y table_w table_h white BORDER 10 0.7;
  let headers := [("#", 28); ("实验", 205); ("现有接近度", 145); ("第一新增门", 135)] in
  let x := table_x + 10 in
  x ← fold_draw (fun x '(title, width) =>
    _ ← emit (setFillColor LIGHT);
    _ ← emit (rect x (table_y + table_h - 34) width 24 true false);
    _ ← _draw_text (JStr title) (x + 5) (table_y + table_h - 20) (width - 10) FONT_HEAD 7 SLATE None
        (Some 1%nat);
    mret (x + width)) headers x;
  let row_h := 29 in
  let yy := table_y + table_h - 58 in
  yy ← fold_draw (fun yy '(index, (card_id, reason, first_gate)) =>
    _ ← when (((index mod 2%Z)%Z =? 0%Z)%Z) (
      _ ← emit (setFillColor LIGHT);
      emit (rect (table_x + 10) (yy - 9) (table_w - 20) row_h true false));
    _ ← emit (setFont FONT_MONO_BOLD 7);
    _ ← emit (setFillColor AMBER);
    _ ← emit (drawString (table_x + 18) (yy + 7) (pad_zeros 2 index));
    _ ← _draw_text (JStr card_id) (table_x + 48) (yy + 8) 195 FONT_MONO_BOLD 6.3 INK None (Some 1%nat);
    _ ← _draw_text (JStr reason) (table_x + 253) (yy + 8) 135 FONT_BODY 6.8 SLATE None (Some 2%nat);
    _ ← _draw_text (JStr first_gate) (table_x + 398) (yy + 8) 125 FONT_BODY 6.8 RED None (Some 2%nat);
    mret (yy - row_h)) (enumerate 1 priority) yy;
  let right_x := table_x + table_w + 15 in
  let right_w := PAGE_W - MARGIN - right_x in
  _ ← _round_rect right_x 300 right_w (y - 310) NAVY NAVY 10 0.7;
  _ ← emit (setFillColor white);
  _ ← emit (setFont FONT_HEAD 11);
  _ ← emit (drawString (right_x + 18) (y - 28) "Wave 0 先做");
  let wave0 := [
    "exact fee facts";
    "shadow order ledger";
    "strict fill + latency";
    "settlement + risk gates"
  ] in
  let yy := y - 61 in
  yy ← fold_draw (fun yy '(index, item) =>
    _ ← emit (setFillColor TEAL);
    _ ← emit (circle (right_x + 26) (yy + 3) 10 true false);
    _ ← _draw_centered (show_Z index) (right_x + 26) yy FONT_MONO_BOLD 6.8 white;
    _ ← _draw_text (JStr item) (right_x + 45) (yy + 6) (right_w - 63) FONT_MONO 6.6 white None (Some
        1%nat);
    mret (yy - 31)) (enumerate 1 wave0) yy;
  _ ← _round_rect right_x 100 right_w 185 RED_LIGHT (HexColor "#F3C8C8") 10 0.7;
  _ ← emit (setFillColor RED);
  _ ← emit (setFont FONT_HEAD 10);
  _ ← emit (drawString (right_x + 18) 257 "继续保持红色阻断");
  let blocked := [
    "D08 RFQ direct quote";
    "D10 MVE direct trading";
    "C05 / F12 / F13 external";
    "G/P 依赖已确认 child"
  ] in
  let yy := 226 in
  yy ← fold_draw (fun yy item =>
    _ ← emit (setFillColor RED);
    _ ← emit (circle (right_x + 25) (yy + 2) 3 true false);
    below ← _draw_text (JStr item) (right_x + 38) (yy + 7) (right_w - 56) FONT_BODY 6.7 INK (Some 9)
        (Some 2%nat);
    mret (below - 12)) blocked yy;
  _ ← _draw_text (JStr "A11 当前广义 one-sided fade 被反驳；进入队列是为了低成本证伪窄 cell，不是看多。") (right_x + 18) 130
      (right_w - 36) FONT_BODY 7.2 RED (Some 10) (Some 3%nat);
  _finish_page TOTAL_PAGES page_no.

Definition _page_roadmap (registry : json) (page_no : Z) : draw unit :=
  y ← _page_header page_no "下一轮如何真正走到实盘"
      "每张卡按收据逐级升级：Registry -> Signal -> Shadow -> Micro-live -> Live；任何一级不得自动越级。" "落地路线" TEAL;
  let stages := [
    ("1", "Registry", ("卡片冻结" +:+ str1 newline +:+ "无权限"));
    ("2", "Signal", ("样本外信号" +:+ str1 newline +:+ "保留零机会"));
    ("3", "Shadow", ("无下单" +:+ str1 newline +:+ "路径级 PnL"));
    ("4", "Micro-live", ("一次性授权" +:+ str1 newline +:+ "1 contract"));
    ("5", "Live", ("真实对账" +:+ str1 newline +:+ "另行扩容"))
  ] in
  let x := MARGIN in
  let box_y := 305 in
  let box_w := (PAGE_W - 2 * MARGIN - 4 * 15) / 5 in
  x ← fold_draw (fun x '(index, (num, title, note)) =>
    col ← list_at [BLUE; TEAL; AMBER; CORAL; RED] index;
    _ ← _round_rect x box_y box_w 140 white col 12 1.4;
    _ ← emit (setFillColor col);
    _ ← emit (circle (x + box_w / 2) (box_y + 110) 19 true false);
    _ ← _draw_centered num (x + box_w / 2) (box_y + 104) FONT_HEAD 12 white;
    _ ← _draw_centered title (x + box_w / 2) (box_y + 71) FONT_HEAD 10 INK;
    _ ← _draw_text (JStr note) (x + 20) (box_y + 48) (box_w - 40) FONT_BODY 7 MUTED (Some 10) (Some
        3%nat);
    _ ← when ((index <? 4%Z)%Z) (_arrow (x + box_w + 2) (box_y + 70) (x + box_w + 13) (box_y + 70) MUTED
        1.2);
    mret (x + (box_w + 15))) (enumerate 0 stages) x;
  _ ← _round_rect MARGIN 72 475 202 NAVY NAVY 10 0.7;
  _ ← emit (setFillColor white);
  _ ← emit (setFont FONT_HEAD 11);
  _ ← emit (drawString (MARGIN + 18) 246 "下一轮三件实物交付");
  let deliverables := [
    ("01", "共享执行账本", "fee / order / fill / latency / settlement / risk");
    ("02", "Top-3 Shadow 报告", "路径级 DeltaPnL + 全部零机会 + 容量");
    ("03", "Go / No-Go 表", "失败也出版，不自动进入 micro-live")
  ] in
  let yy := 208 in
  yy ← fold_draw (fun yy '(num, title, note) =>
    _ ← emit (setFillColor TEAL);
    _ ← emit (circle (MARGIN + 31) (yy + 4) 13 true false);
    _ ← _draw_centered num (MARGIN + 31) yy FONT_MONO_BOLD 6.5 white;
    _ ← emit (setFillColor white);
    _ ← emit (setFont FONT_HEAD 8.5);
    _ ← emit (drawString (MARGIN + 53) (yy + 5) title);
    _ ← _draw_text (JStr note) (MARGIN + 170) (yy + 7) 315 FONT_BODY 6.2 (HexColor "#C9D7EE") None (Some
        2%nat);
    mret (yy - 49)) deliverables yy;
  let right_x := MARGIN + 490 in
  let right_w := PAGE_W - MARGIN - right_x in
  _ ← _round_rect right_x 72 right_w 202 white BORDER 10 0.7;
  _ ← emit (setFillColor INK);
  _ ← emit (setFont FONT_HEAD 11);
  _ ← emit (drawString (right_x + 18) 246 "质量与权限收口");
  let facts := [
    ("独立审计", "PASS / P0=0 / P1=0");
    ("Registry tests", "21 / 21 PASS");
    ("完整 make check", "PASS");
    ("AWS / 下单写入", "NONE");
    ("唯一 P2", "B08/E04 深度卡冻结退出规则")
  ] in
  let yy := 213 in
  yy ← fold_draw (fun yy '(label, value) =>
    _ ← emit (setFont FONT_BODY 7.6);
    _ ← emit (setFillColor MUTED);
    _ ← emit (drawString (right_x + 18) yy label);
    _ ← emit (setFont FONT_BODY 6.5);
    _ ← emit (setFillColor (if (substr "PASS" value || String.eqb value "NONE") then TEAL else AMBER));
    _ ← emit (drawRightString (right_x + right_w - 18) yy value);
    mret (yy - 28)) facts yy;
  _finish_page TOTAL_PAGES page_no.

Definition _page_provenance (registry : json) (page_no : Z) : draw unit :=
  y ← _page_header page_no "证据锚：这份报告从哪里来" "Registry、来源文件与版本提交均给出不可变指纹；会话独立审计没有伪装成仓库内持久收据。" "PROVENANCE"
      PURPLE;
  registry_file_sha ← liftD registry_file_sha;
  let commit := "ea6246a44f4d4f6a57f36931fc445810f740b899" in
  _ ← _round_rect MARGIN 372 (PAGE_W - 2 * MARGIN) 88 NAVY NAVY 10 0.7;
  sha ← liftD (getitem registry "registry_sha256");
  sha ← liftD (as_str sha);
  let anchors := [
    ("Registry commit", commit);
    ("Canonical registry SHA", sha);
    ("Registry JSON file SHA", registry_file_sha)
  ] in
  let yy := 433 in
  yy ← fold_draw (fun yy '(label, value) =>
    _ ← emit (setFont FONT_HEAD 7.8);
    _ ← emit (setFillColor (HexColor "#9FB7DA"));
    _ ← emit (drawString (MARGIN + 18) yy label);
    _ ← emit (setFont FONT_MONO 7.2);
    _ ← emit (setFillColor white);
    _ ← emit (drawString (MARGIN + 150) yy value);
    mret (yy - 23)) anchors yy;
  _ ← _round_rect MARGIN 164 (PAGE_W - 2 * MARGIN) 192 white BORDER 10 0.7;
  _ ← emit (setFillColor INK);
  _ ← emit (setFont FONT_HEAD 10.5);
  _ ← emit (drawString (MARGIN + 16) 334 "5 个本地来源绑定");
  let headers := [("角色", 150); ("本地路径", 390); ("SHA-256", 225)] in
  let x := MARGIN + 14 in
  x ← fold_draw (fun x '(label, width) =>
    _ ← emit (setFillColor LIGHT);
    _ ← emit (rect x 298 width 23 true false);
    _ ← _draw_text (JStr label) (x + 5) 311 (width - 10) FONT_HEAD 7 SLATE None (Some 1%nat);
    mret (x + width)) headers x;
  let yy := 274 in
  j1 ← liftD (getitem registry "source_bindings");
  l2 ← liftD (as_list j1);
  yy ← fold_draw (fun yy '(index, binding) =>
    _ ← when (negb ((index mod 2%Z)%Z =? 0)%Z) (
      _ ← emit (setFillColor LIGHT);
      emit (rect (MARGIN + 14) (yy - 11) (PAGE_W - 2 * MARGIN - 28) 31 true false));
    let x := MARGIN + 19 in
    j3 ← liftD (getitem binding "role");
    _ ← _draw_text j3 x (yy + 6) 140 FONT_MONO_BOLD 6.6 PURPLE None (Some 2%nat);
    let x := x + 150 in
    j4 ← liftD (getitem binding "path");
    _ ← _draw_text j4 x (yy + 6) 380 FONT_BODY 6.7 INK None (Some 2%nat);
    let x := x + 390 in
    j5 ← liftD (getitem binding "sha256");
    _ ← _draw_text j5 x (yy + 6) 215 FONT_MONO 6.3 SLATE None (Some 2%nat);
    mret (yy - 31)) (enumerate 0 l2) yy;
  let gap := 14 in
  let box_w := (PAGE_W - 2 * MARGIN - gap) / 2 in
  _ ← _round_rect MARGIN 44 box_w 88 TEAL_LIGHT (HexColor "#B9E4DB") 10 0.7;
  _ ← emit (setFillColor TEAL);
  _ ← emit (setFont FONT_HEAD 9.2);
  _ ← emit (drawString (MARGIN + 15) 112 "校验事实与诚实边界");
  _ ← _draw_text (JStr
      "独立会话审计：PASS / P0=0 / P1=0 / P2=1；Registry tests 21/21，make check PASS。目前没有仓库内独立审计收据，因此本页不以 PDF 自身作循环证明。")
      (MARGIN + 15) 93 (box_w - 30) FONT_BODY 7.3 INK (Some 10) (Some 5%nat);
  let right_x := MARGIN + box_w + gap in
  _ ← _round_rect right_x 44 box_w 88 AMBER_LIGHT (HexColor "#F0D7A7") 10 0.7;
  _ ← emit (setFillColor AMBER);
  _ ← emit (setFont FONT_HEAD 9.2);
  _ ← emit (drawString (right_x + 15) 112 "7/16 的版本化口径");
  _ ← _draw_text (JStr
      "Registry V1 按旧审计排除；后续根因审计判定“维护窗条件可救”。只有逐日质量门、窗口剔除、新收据和新 Registry revision 全部落地后才可纳入。") (right_x +
      15) 93 (box_w - 30) FONT_BODY 7.3 INK (Some 10) (Some 5%nat);
  _finish_page TOTAL_PAGES page_no.

End Pages.
