(* ===== verification/PdfLayout.v ===== *)
(** * Laying a card out on pages of four columns

    tools/render_experiment_registry_pdf.py, [_layout_detail_sections]: the
    sections of a card are cut into blocks, a column takes blocks while there is
    room, and a section that goes on in the next column repeats its heading.
    Page and column indices are the program's; [at_column] is the abstract state
    they implement (the finished columns and the open one), and the lemmas show
    that no column is taller than the page, that no line is lost or moved, that
    every loop ends, and that rounding cannot change a decision. *)

From stdpp Require Import base relations list strings numbers.
From Stdlib Require Import ZArith Lia Lqa Bool QArith Qround Qabs.
From S2P Require Import Prelude PyJson PyText PdfCanvas.

#[local] Open Scope Q_scope.

(** ** Constants *)

Definition DETAIL_MARGIN : Q := 36.
Definition DETAIL_COLS : nat := 4.
Definition DETAIL_COL_GAP : Q := 12.
Definition DETAIL_BOTTOM : Q := 44.
Definition DETAIL_FONT_SIZE : Q := 8.4.
Definition DETAIL_LEADING : Q := 10.7.
Definition DETAIL_SECTION_H : Q := 21.

Section Sizes.
Context `{Reportlab}.

Definition DETAIL_COL_W : Q :=
  (DETAIL_PAGE_W - 2 * DETAIL_MARGIN - inject_Z (Z.of_nat DETAIL_COLS - 1) * DETAIL_COL_GAP)
  / inject_Z (Z.of_nat DETAIL_COLS).
Definition DETAIL_TOP : Q := DETAIL_PAGE_H - 132.
Definition DETAIL_CONTENT_H : Q := DETAIL_TOP - DETAIL_BOTTOM.
End Sizes.

(** ** Blocks and the state of the layout *)

(** The dictionaries of kind ["section"] and ["entry"]. *)
Inductive block :=
| section_block (title : string) (height : Q)
| entry_block (lines : list string) (height : Q).

Definition block_height (b : block) : Q :=
  match b with section_block _ h => h | entry_block _ h => h end.

Abbreviation column := (list block).
Abbreviation page := (list column).

Definition _new_detail_page_layout : page := replicate DETAIL_COLS [].

(** The variables of [_layout_detail_sections]. *)
Record lay := Lay {
  pages : list page;
  page_index : nat;
  column_index : nat;
  used : Q
}.

Definition layout_start : lay := Lay [_new_detail_page_layout] 0 0 0.

Definition advance_column (st : lay) : lay :=
  let column_index := S (column_index st) in
  if (DETAIL_COLS <=? column_index)%nat
  then Lay (pages st ++ [_new_detail_page_layout]) (S (page_index st)) 0 0
  else Lay (pages st) (page_index st) column_index 0.

(** [pages[page_index][column_index].append(block)]; the indices are in range
    in every state that is reached ([add_block_at]). *)
Definition add_block (b : block) (st : lay) : lay :=
  Lay (alter (alter (fun col => col ++ [b]) (column_index st)) (page_index st) (pages st))
      (page_index st) (column_index st) (used st + block_height b).

Definition continued (title : string) : string := title +:+ "（续）".

(** [advance_column()] and the heading again. *)
Definition continue_section (title : string) (st : lay) : lay :=
  add_block (section_block (continued title) DETAIL_SECTION_H) (advance_column st).

(** A bound of a Python slice in a sequence of [n] items. *)
Definition slice_bound (n : nat) (i : Z) : nat :=
  if (i <? 0)%Z then Z.to_nat (Z.max 0 (Z.of_nat n + i)) else Nat.min n (Z.to_nat i).

(** [l[i:j]] *)
Definition slice_list {A} (l : list A) (i j : Z) : list A :=
  let i := slice_bound (length l) i in
  let j := slice_bound (length l) j in
  firstn (j - i) (skipn i l).

Section Layout.
Context `{Reportlab}.

(** [int((remaining - 5) // DETAIL_LEADING)] *)
Definition available_lines (st : lay) : Z :=
  Qfloor ((DETAIL_CONTENT_H - used st - 5) / DETAIL_LEADING).

(** The height of a block of [n] lines. *)
Definition entry_height (n : nat) : Q := inject_Z (Z.of_nat n) * DETAIL_LEADING + 5.

(** [while offset < len(lines): ...]; [None] when the loop has not ended after
    [fuel] rounds. *)
Fixpoint place_lines (fuel : nat) (title : string) (lines : list string) (offset : Z) (st : lay)
    : option lay :=
  if (offset <? Z.of_nat (length lines))%Z then
    match fuel with
    | O => None
    | S fuel =>
        let st := if (available_lines st <? 1)%Z then continue_section title st else st in
        let take := Z.min (available_lines st) (Z.of_nat (length lines) - offset) in
        let chunk := slice_list lines offset (offset + take) in
        let st := add_block (entry_block chunk (entry_height (length chunk))) st in
        let offset := (offset + take)%Z in
        let st := if (offset <? Z.of_nat (length lines))%Z then continue_section title st else st in
        place_lines fuel title lines offset st
    end
  else Some st.

(** The lines of an entry, in the width of a column. *)
Definition entry_lines (entry : string) : list string :=
  match _split_lines (JStr entry) (DETAIL_COL_W - 22) FONT_BODY DETAIL_FONT_SIZE with
  | [] => ["—"]
  | lines => lines
  end.

(** One round of [for entry in entries]: a round of the inner loop places a line
    at least, so there are no more rounds than lines. *)
Definition place_entry (title : string) (st : option lay) (entry : string) : option lay :=
  st ← st;
  let lines := entry_lines entry in
  place_lines (length lines) title lines 0 st.

(** One round of [for section_title, entries in sections]. *)
Definition place_section (st : option lay) (sec : string * list string) : option lay :=
  let '(section_title, entries) := sec in
  st ← st;
  let st := if Qlt_b (DETAIL_CONTENT_H - used st) (DETAIL_SECTION_H + DETAIL_LEADING * 2)
            then advance_column st else st in
  let st := add_block (section_block section_title DETAIL_SECTION_H) st in
  fold_left (place_entry section_title) entries (Some st).

Definition layout_run (sections : list (string * list string)) : option lay :=
  fold_left place_section sections (Some layout_start).

Definition _layout_detail_sections (sections : list (string * list string)) : option (list page) :=
  pages <$> layout_run sections.
End Layout.

(** ** What the layout is for *)

Definition column_height (col : column) : Q := foldr (fun b h => block_height b + h) 0 col.

(** The lines of a column, each with the heading above it in that column. *)
Fixpoint tag (heading : option string) (col : column) : list (option string * string) :=
  match col with
  | [] => []
  | section_block title _ :: col' => tag (Some title) col'
  | entry_block lines _ :: col' => map (pair heading) lines ++ tag heading col'
  end.

(** The heading in force at the end of a column. *)
Fixpoint heading_of (heading : option string) (col : column) : option string :=
  match col with
  | [] => heading
  | section_block title _ :: col' => heading_of (Some title) col'
  | entry_block _ _ :: col' => heading_of heading col'
  end.

(** The headings of a section: its title, and the title of its continuation. *)
Definition heads (title : string) (heading : option string) : Prop :=
  heading = Some title \/ heading = Some (continued title).

(** All lines of the sections in order, each with its section. *)
Definition section_lines `{Reportlab} (sections : list (string * list string))
    : list (string * string) :=
  flat_map (fun '(title, entries) => map (pair title) (flat_map entry_lines entries)) sections.

(** What is shown against what there is to show. *)
Definition shows (got : list (option string * string)) (want : list (string * string)) : Prop :=
  Forall2 (fun g w => heads w.1 g.1 /\ g.2 = w.2) got want.

(** ** The abstract state: finished columns and the open one *)

(** The program's pages hold the finished columns [cols], the open column [cur]
    at its two indices, and empty columns to the end of the page. *)
Definition at_column (st : lay) (cols : list column) (cur : column) : Prop :=
  exists done firsts k,
    pages st = done ++ [firsts ++ cur :: replicate k []] /\
    page_index st = length done /\
    column_index st = length firsts /\
    (length firsts + S k = DETAIL_COLS)%nat /\
    Forall (fun p => length p = DETAIL_COLS) done /\
    cols = concat done ++ firsts /\
    used st == column_height cur.

Lemma column_height_app a b : column_height (a ++ b) == column_height a + column_height b.
Proof. induction a as [|x a IH]; simpl; [ring|]. rewrite IH. ring. Qed.

Lemma column_height_one b : column_height [b] == block_height b.
Proof. simpl. ring. Qed.

Lemma tag_app a : forall h b, tag h (a ++ b) = tag h a ++ tag (heading_of h a) b.
Proof.
  induction a as [|[t x|ls x] a IH]; intros h b; simpl; [done|apply IH|].
  rewrite IH. by rewrite app_assoc.
Qed.

Lemma heading_of_app a : forall h b, heading_of h (a ++ b) = heading_of (heading_of h a) b.
Proof. induction a as [|[t x|ls x] a IH]; intros h b; simpl; [done|apply IH|apply IH]. Qed.

Lemma alter_last {A} (f : A -> A) (l1 l2 : list A) (x : A) :
  alter f (length l1) (l1 ++ x :: l2) = l1 ++ f x :: l2.
Proof. induction l1 as [|y l1 IH]; simpl; [done|]. f_equal. apply IH. Qed.

Lemma start_at : at_column layout_start [] [].
Proof. exists [], [], 3%nat. repeat split. constructor. Qed.

Lemma add_block_at st cols cur b :
  at_column st cols cur -> at_column (add_block b st) cols (cur ++ [b]).
Proof.
  intros (dn & fs & k & Hp & Hi & Hc & Hk & Hf & -> & Hu).
  exists dn, fs, k. unfold add_block; simpl. repeat split; try done.
  - by rewrite Hp, Hi, Hc, !alter_last.
  - rewrite column_height_app, column_height_one, Hu. reflexivity.
Qed.

Lemma advance_at st cols cur :
  at_column st cols cur -> at_column (advance_column st) (cols ++ [cur]) [].
Proof.
  intros (dn & fs & k & Hp & Hi & Hc & Hk & Hf & -> & Hu). unfold advance_column.
  destruct (Nat.leb_spec DETAIL_COLS (S (column_index st))) as [Hl|Hl].
  - assert (k = 0%nat) as -> by lia.
    exists (dn ++ [fs ++ [cur]]), [], 3%nat. simpl in Hp. repeat split; simpl.
    + by rewrite Hp.
    + rewrite length_app; simpl; lia.
    + apply Forall_app; split; [done|]. repeat constructor. rewrite length_app. simpl. lia.
    + rewrite concat_app. simpl. by rewrite !app_nil_r, app_assoc.
  - destruct k as [|k]; [lia|].
    exists dn, (fs ++ [cur]), k. repeat split; simpl; try done.
    + rewrite Hp. f_equal. by rewrite <- app_assoc.
    + rewrite length_app. simpl. lia.
    + rewrite length_app. simpl. lia.
    + by rewrite app_assoc.
Qed.

(** The pages, read column by column. *)
Lemma at_columns st cols cur :
  at_column st cols cur ->
  Forall (fun p => length p = DETAIL_COLS) (pages st) /\
  exists k, concat (pages st) = cols ++ cur :: replicate k [].
Proof.
  intros (dn & fs & k & Hp & Hi & Hc & Hk & Hf & -> & Hu). split.
  - rewrite Hp. apply Forall_app; split; [done|]. repeat constructor.
    rewrite length_app. simpl. rewrite length_replicate. lia.
  - exists k. rewrite Hp, concat_app. simpl. by rewrite app_nil_r, app_assoc.
Qed.

(** ** Every column fits, and every line is under its heading *)

Section Placing.
Context `{Reportlab}.

Definition column_ok (col : column) : Prop :=
  column_height col <= DETAIL_CONTENT_H /\
  match col with entry_block _ _ :: _ => False | _ => True end.

Definition tagged (cols : list column) : list (option string * string) := flat_map (tag None) cols.

(** [st'] continues [st] with [lines] under the heading [title]. *)
Definition placed (title : string) (lines : list string) (st st' : lay) : Prop :=
  forall cols cur,
    at_column st cols cur -> Forall column_ok (cols ++ [cur]) -> heads title (heading_of None cur) ->
    exists cols' cur' new,
      at_column st' cols' cur' /\ Forall column_ok (cols' ++ [cur']) /\
      heads title (heading_of None cur') /\
      tagged (cols' ++ [cur']) = tagged (cols ++ [cur]) ++ new /\
      shows new (map (pair title) lines).

Lemma placed_nil title st : placed title [] st st.
Proof. intros cols cur Ha Hok Hh. exists cols, cur, []. rewrite app_nil_r. repeat split; try done. constructor. Qed.

Lemma placed_trans title l1 l2 st1 st2 st3 :
  placed title l1 st1 st2 -> placed title l2 st2 st3 -> placed title (l1 ++ l2) st1 st3.
Proof.
  intros P1 P2 cols cur Ha Hok Hh.
  destruct (P1 _ _ Ha Hok Hh) as (cols1 & cur1 & n1 & Ha1 & Hok1 & Hh1 & Ht1 & Hs1).
  destruct (P2 _ _ Ha1 Hok1 Hh1) as (cols2 & cur2 & n2 & Ha2 & Hok2 & Hh2 & Ht2 & Hs2).
  exists cols2, cur2, (n1 ++ n2). repeat split; try done.
  - by rewrite Ht2, Ht1, app_assoc.
  - rewrite map_app. by apply Forall2_app.
Qed.

Lemma tagged_app a b : tagged (a ++ b) = tagged a ++ tagged b.
Proof. apply flat_map_app. Qed.

Lemma tagged_one col : tagged [col] = tag None col.
Proof. apply app_nil_r. Qed.

Lemma shows_chunk h title lines : heads title h -> shows (map (pair h) lines) (map (pair title) lines).
Proof. intros Hh. induction lines; constructor; [by split|done]. Qed.

(** Adding a block of lines for which there is room. *)
Lemma placed_entry title lines h st :
  used st + h <= DETAIL_CONTENT_H -> placed title lines st (add_block (entry_block lines h) st).
Proof.
  intros Hr cols cur Ha Hok Hh. apply Forall_app in Hok as [Hok Hcur].
  exists cols, (cur ++ [entry_block lines h]), (map (pair (heading_of None cur)) lines).
  repeat split.
  - by apply add_block_at.
  - apply Forall_app; split; [done|]. apply Forall_singleton.
    apply Forall_singleton in Hcur as [_ Hm]. split.
    + destruct Ha as (? & ? & ? & _ & _ & _ & _ & _ & _ & Hu).
      rewrite column_height_app, column_height_one, <- Hu. done.
    + destruct cur; [|done]. by destruct Hh.
  - by rewrite heading_of_app.
  - rewrite !tagged_app, !tagged_one, tag_app, <- app_assoc. simpl. by rewrite app_nil_r.
  - by apply shows_chunk.
Qed.

Context (room : DETAIL_SECTION_H + DETAIL_LEADING + 5 <= DETAIL_CONTENT_H).

Lemma heading_fits : DETAIL_SECTION_H <= DETAIL_CONTENT_H.
Proof. unfold DETAIL_SECTION_H, DETAIL_LEADING in *. lra. Qed.

(** A heading at the top of a new column. *)
Lemma heading_ok title : column_ok [section_block title DETAIL_SECTION_H].
Proof. split; [|done]. rewrite column_height_one. apply heading_fits. Qed.

Lemma placed_continue title st : placed title [] st (continue_section title st).
Proof.
  intros cols cur Ha Hok Hh.
  exists (cols ++ [cur]), [section_block (continued title) DETAIL_SECTION_H], []. repeat split.
  - apply (add_block_at _ _ []). by apply advance_at.
  - apply Forall_app; split; [done|]. apply Forall_singleton, heading_ok.
  - by right.
  - rewrite app_nil_r, (tagged_app (cols ++ [cur])), tagged_one. simpl. by rewrite app_nil_r.
  - constructor.
Qed.

Lemma available_continue title st : (1 <= available_lines (continue_section title st))%Z.
Proof.
  unfold available_lines, continue_section.
  assert (used (advance_column st) = 0) as E by (unfold advance_column; by destruct (_ <=? _)%nat).
  cbn [add_block used block_height]. rewrite E.
  change 1%Z with (Qfloor 1). apply Qfloor_resp_le.
  apply Qle_shift_div_l; [reflexivity|]. unfold DETAIL_SECTION_H, DETAIL_LEADING in *. lra.
Qed.

(** The lines that are taken fit. *)
Lemma take_fits st n :
  (Z.of_nat n <= available_lines st)%Z -> used st + entry_height n <= DETAIL_CONTENT_H.
Proof.
  intros Hn. unfold entry_height. unfold available_lines in Hn.
  assert (inject_Z (Z.of_nat n) <= (DETAIL_CONTENT_H - used st - 5) / DETAIL_LEADING) as Hq.
  { eapply Qle_trans; [|apply Qfloor_le]. by rewrite <- Zle_Qle. }
  apply Qmult_le_compat_r with (z := DETAIL_LEADING) in Hq; [|discriminate].
  assert ((DETAIL_CONTENT_H - used st - 5) / DETAIL_LEADING * DETAIL_LEADING
          == DETAIL_CONTENT_H - used st - 5) as E by (field; discriminate).
  rewrite E in Hq. lra.
Qed.

Lemma slice_take {A} (l : list A) (o t : nat) :
  (o + t <= length l)%nat ->
  slice_list l (Z.of_nat o) (Z.of_nat o + Z.of_nat t) = firstn t (skipn o l).
Proof.
  intros Ht. unfold slice_list, slice_bound.
  rewrite !(proj2 (Z.ltb_ge _ _)) by lia.
  f_equal; [|f_equal]; lia.
Qed.

Lemma placed_if (b : bool) title st :
  placed title [] st (if b then continue_section title st else st).
Proof. destruct b; [apply placed_continue|apply placed_nil]. Qed.

(** A round of the loop starts with room for a line. *)
Lemma round_room title st :
  (1 <= available_lines (if (available_lines st <? 1)%Z then continue_section title st else st))%Z.
Proof. destruct (Z.ltb_spec (available_lines st) 1); [apply available_continue|done]. Qed.

(** The loop over the lines of an entry ends, and places the lines. *)
Lemma place_lines_placed title lines fuel : forall o st,
  (length lines <= o + fuel)%nat -> (o <= length lines)%nat ->
  exists st', place_lines fuel title lines (Z.of_nat o) st = Some st' /\
              placed title (skipn o lines) st st'.
Proof.
  induction fuel as [|fuel IH]; intros o st Hf Ho; cbn [place_lines];
    destruct (Z.ltb_spec (Z.of_nat o) (Z.of_nat (length lines))) as [Hl|Hl]; try lia.
  1,3: exists st; split; [done|]; rewrite skipn_all2 by lia; apply placed_nil.
  pose proof (round_room title st) as Hr.
  pose proof (placed_if (available_lines st <? 1)%Z title st) as P1.
  set (st1 := if (available_lines st <? 1)%Z then _ else _) in *.
  set (t := Z.to_nat (Z.min (available_lines st1) (Z.of_nat (length lines) - Z.of_nat o))).
  replace (Z.min _ _) with (Z.of_nat t) by lia.
  rewrite slice_take by lia. replace (Z.of_nat o + Z.of_nat t)%Z with (Z.of_nat (o + t)) by lia.
  set (chunk := firstn t (skipn o lines)).
  assert (placed title chunk st1 (add_block (entry_block chunk (entry_height (length chunk))) st1))
    as P2.
  { apply placed_entry, take_fits. unfold chunk. rewrite length_firstn, length_skipn. lia. }
  set (st2 := add_block _ st1) in *.
  pose proof (placed_if (Z.of_nat (o + t) <? Z.of_nat (length lines))%Z title st2) as P3.
  edestruct (IH (o + t)%nat) as (st' & E & P4); [lia..|].
  exists st'. split; [exact E|].
  rewrite <- (firstn_skipn t (skipn o lines)), skipn_skipn, Nat.add_comm.
  exact (placed_trans _ [] _ _ _ _ P1 (placed_trans _ _ _ _ _ _ P2 (placed_trans _ [] _ _ _ _ P3 P4))).
Qed.

Lemma place_entries_placed title entries : forall st,
  exists st', fold_left (place_entry title) entries (Some st) = Some st' /\
              placed title (flat_map entry_lines entries) st st'.
Proof.
  induction entries as [|e entries IH]; intros st; simpl.
  { exists st. split; [done|apply placed_nil]. }
  edestruct (place_lines_placed title (entry_lines e) (length (entry_lines e)) 0 st)
    as (st1 & E1 & P1); [lia..|].
  change (Z.of_nat 0) with 0%Z in E1. rewrite E1.
  destruct (IH st1) as (st2 & E2 & P2). exists st2. split; [done|].
  exact (placed_trans _ _ _ _ _ _ P1 P2).
Qed.

(** A whole section, from any state. *)
Lemma place_section_placed st cols cur title entries :
  at_column st cols cur -> Forall column_ok (cols ++ [cur]) ->
  exists st' cols' cur' new,
    place_section (Some st) (title, entries) = Some st' /\
    at_column st' cols' cur' /\ Forall column_ok (cols' ++ [cur']) /\
    tagged (cols' ++ [cur']) = tagged (cols ++ [cur]) ++ new /\
    shows new (map (pair title) (flat_map entry_lines entries)).
Proof.
  intros Ha Hok. cbn [place_section mbind option_bind].
  set (st1 := if Qlt_b _ _ then _ else _).
  set (st2 := add_block _ st1).
  assert (exists cols1 cur1, at_column st2 cols1 cur1 /\ Forall column_ok (cols1 ++ [cur1]) /\
      heads title (heading_of None cur1) /\ tagged (cols1 ++ [cur1]) = tagged (cols ++ [cur]))
    as (cols1 & cur1 & Ha1 & Hok1 & Hh1 & Ht1).
  { subst st1 st2. unfold Qlt_b. destruct (Qle_bool _ _) eqn:Hq; simpl.
    - apply Qle_bool_iff in Hq. exists cols, (cur ++ [section_block title DETAIL_SECTION_H]).
      apply Forall_app in Hok as [Hok Hcur]. apply Forall_singleton in Hcur as [Hh Hm].
      repeat split.
      + by apply add_block_at.
      + apply Forall_app; split; [done|]. apply Forall_singleton. split.
        * destruct Ha as (? & ? & ? & _ & _ & _ & _ & _ & _ & Hu).
          rewrite column_height_app, column_height_one, <- Hu. simpl.
          unfold DETAIL_SECTION_H, DETAIL_LEADING in *. lra.
        * by destruct cur.
      + rewrite heading_of_app. by left.
      + rewrite !tagged_app, !tagged_one, tag_app. simpl. by rewrite app_nil_r.
    - exists (cols ++ [cur]), [section_block title DETAIL_SECTION_H]. repeat split.
      + apply (add_block_at _ _ []). by apply advance_at.
      + apply Forall_app; split; [done|]. apply Forall_singleton, heading_ok.
      + by left.
      + rewrite (tagged_app (cols ++ [cur])), tagged_one. simpl. by rewrite app_nil_r. }
  destruct (place_entries_placed title entries st2) as (st' & E & P).
  destruct (P _ _ Ha1 Hok1 Hh1) as (cols2 & cur2 & new & Ha2 & Hok2 & _ & Ht2 & Hs).
  exists st', cols2, cur2, new. repeat split; try done. by rewrite Ht2, Ht1.
Qed.
End Placing.

Section Layouts.
Context `{Reportlab}.
Context (room : DETAIL_SECTION_H + DETAIL_LEADING + 5 <= DETAIL_CONTENT_H).

Lemma layout_from sections : forall st cols cur,
  at_column st cols cur -> Forall column_ok (cols ++ [cur]) ->
  exists st' cols' cur' new,
    fold_left place_section sections (Some st) = Some st' /\
    at_column st' cols' cur' /\ Forall column_ok (cols' ++ [cur']) /\
    tagged (cols' ++ [cur']) = tagged (cols ++ [cur]) ++ new /\
    shows new (section_lines sections).
Proof.
  induction sections as [|[title entries] sections IH]; intros st cols cur Ha Hok.
  { exists st, cols, cur, []. rewrite app_nil_r. repeat split; try done. constructor. }
  edestruct (place_section_placed room) as (st1 & cols1 & cur1 & n1 & E1 & Ha1 & Hok1 & Ht1 & Hs1);
    [exact Ha|exact Hok|].
  destruct (IH st1 cols1 cur1 Ha1 Hok1) as (st2 & cols2 & cur2 & n2 & E2 & Ha2 & Hok2 & Ht2 & Hs2).
  exists st2, cols2, cur2, (n1 ++ n2). repeat split; try done.
  - cbn [fold_left]. by rewrite E1.
  - by rewrite Ht2, Ht1, app_assoc.
  - unfold section_lines. cbn [flat_map]. by apply Forall2_app.
Qed.

Lemma empty_column_ok : column_ok [].
Proof. split; [|done]. simpl. unfold DETAIL_SECTION_H, DETAIL_LEADING in *. lra. Qed.

(** The layout is always found; its pages have four columns, its columns fit,
    and they show the lines. *)
Lemma layout_total sections :
  exists pgs, _layout_detail_sections sections = Some pgs /\ pgs <> [] /\
    Forall (fun p => length p = DETAIL_COLS) pgs /\
    Forall column_ok (concat pgs) /\
    shows (tagged (concat pgs)) (section_lines sections).
Proof.
  edestruct (layout_from sections layout_start [] []) as (st & cols & cur & new & E & Ha & Hok & Ht & Hs).
  { apply start_at. }
  { apply Forall_singleton, empty_column_ok. }
  destruct (at_columns _ _ _ Ha) as [Hp [k Hc]].
  exists (pages st). unfold _layout_detail_sections, layout_run. rewrite E. repeat split; try done.
  - intros E0. rewrite E0 in Hc. by destruct cols.
  - rewrite Hc. apply Forall_app in Hok as [Hok Hcur]. apply Forall_app; split; [done|].
    constructor; [by apply Forall_singleton|]. apply Forall_replicate, empty_column_ok.
  - rewrite Hc, cons_middle, app_assoc, tagged_app, Ht.
    assert (tagged (replicate k []) = []) as -> by (clear; by induction k).
    by rewrite app_nil_r.
Qed.
End Layouts.

(** ** Rounding *)

(** The steps of a layout. *)
Inductive layout_step : lay -> lay -> Prop :=
| step_advance st : layout_step st (advance_column st)
| step_heading title st : layout_step st (add_block (section_block title DETAIL_SECTION_H) st)
| step_lines lines st :
    layout_step st (add_block (entry_block lines (entry_height (length lines))) st).

Lemma steps_if (b : bool) st st1 :
  rtc layout_step st st1 -> rtc layout_step st (if b then st1 else st).
Proof. by destruct b. Qed.

Lemma continue_steps title st : rtc layout_step st (continue_section title st).
Proof. eapply rtc_l; [apply step_advance|]. apply rtc_once, step_heading. Qed.

Lemma place_lines_steps `{Reportlab} title lines fuel : forall o st st',
  place_lines fuel title lines o st = Some st' -> rtc layout_step st st'.
Proof.
  induction fuel as [|fuel IH]; intros o st st'; cbn [place_lines];
    destruct (_ <? _)%Z; intros E; simplify_eq; try done.
  etrans; [apply steps_if, continue_steps|].
  etrans; [apply rtc_once, step_lines|].
  etrans; [apply steps_if, continue_steps|]. exact (IH _ _ _ E).
Qed.

Lemma place_entries_steps `{Reportlab} title entries : forall st st',
  fold_left (place_entry title) entries (Some st) = Some st' -> rtc layout_step st st'.
Proof.
  induction entries as [|e entries IH]; intros st st' E; simpl in E; [by simplify_eq|].
  destruct (place_lines _ _ _ _ _) as [st1|] eqn:E1.
  - etrans; [exact (place_lines_steps _ _ _ _ _ _ E1)|by apply IH].
  - clear -E. induction entries; [done|auto].
Qed.

Lemma layout_steps `{Reportlab} sections : forall st st',
  fold_left place_section sections (Some st) = Some st' -> rtc layout_step st st'.
Proof.
  induction sections as [|[title entries] sections IH]; intros st st' E; [by simplify_eq/=|].
  cbn [fold_left place_section mbind option_bind] in E.
  match type of E with
  | fold_left _ _ (fold_left _ _ (Some ?s)) = _ => set (st1 := s) in E
  end.
  assert (rtc layout_step st st1) as R.
  { etrans; [apply steps_if, rtc_once, step_advance|]. apply rtc_once, step_heading. }
  destruct (fold_left (place_entry title) entries (Some st1)) as [st2|] eqn:E1.
  - etrans; [exact R|]. etrans; [exact (place_entries_steps _ _ _ _ E1)|by apply IH].
  - clear -E. exfalso. induction sections as [|[t es] ss IH]; [done|auto].
Qed.

(** What is used of a column is a whole number of tenths of a point. *)
Definition tenths (q : Q) : Prop := exists z : Z, q == z # 10.

Lemma tenths_add a b : tenths a -> tenths b -> tenths (a + b).
Proof. intros [x Hx] [y Hy]. exists (x + y)%Z. rewrite Hx, Hy. unfold Qeq. simpl. lia. Qed.

Lemma step_tenths st st' : layout_step st st' -> tenths (used st) -> tenths (used st').
Proof.
  intros S Hu. destruct S as [st|title st|lines st].
  - unfold advance_column. exists 0%Z. by destruct (_ <=? _)%nat.
  - apply tenths_add; [done|]. by exists 210%Z.
  - apply tenths_add; [done|]. exists (Z.of_nat (length lines) * 107 + 50)%Z.
    unfold block_height, entry_height, DETAIL_LEADING, Qeq, inject_Z. simpl. lia.
Qed.

Lemma reached_tenths st : rtc layout_step layout_start st -> tenths (used st).
Proof.
  intros R. assert (tenths (used layout_start)) as H0 by (by exists 0%Z). revert H0.
  induction R as [|? ? ? S R IH]; [done|]. intros H0. apply IH. by eapply step_tenths.
Qed.

(** The height of A3 in landscape, 297 mm, in points. *)
Definition A3_HEIGHT : Q := 297 * 72 / 25.4.

Lemma floor_unique (q : Q) (k : Z) : inject_Z k <= q -> q < inject_Z (k + 1) -> Qfloor q = k.
Proof.
  intros H1 H2. pose proof (Qfloor_le q) as F1. pose proof (Qlt_floor q) as F2.
  assert (inject_Z k < inject_Z (Qfloor q + 1)) as A1 by (eapply Qle_lt_trans; eassumption).
  assert (inject_Z (Qfloor q) < inject_Z (k + 1)) as A2 by (eapply Qle_lt_trans; eassumption).
  rewrite <- Zlt_Qlt in A1, A2. lia.
Qed.

Lemma Qlt_b_spec a b : reflect (a < b) (Qlt_b a b).
Proof.
  unfold Qlt_b. destruct (Qle_bool b a) eqn:E; constructor.
  - apply Qle_bool_iff in E. by apply Qle_not_lt.
  - apply Qnot_le_lt. intros Hl. apply Qle_bool_iff in Hl. congruence.
Qed.

(** No bound of the layout is within a hundredth of a point of what remains of
    an A3 page. *)
Lemma remaining_apart u b :
  tenths u -> tenths b -> b + (1 # 100) < A3_HEIGHT - 176 - u \/ A3_HEIGHT - 176 - u < b - (1 # 100).
Proof.
  intros [x Hx] [y Hy].
  assert (A3_HEIGHT == 106920 # 127) as HA by reflexivity. rewrite HA.
  destruct (Z_lt_le_dec (x + y) 6659) as [Hl|Hl].
  - left. rewrite Hx, Hy. unfold Qlt, Qminus, Qplus, Qopp. simpl. lia.
  - right. rewrite Hx, Hy. unfold Qlt, Qminus, Qplus, Qopp. simpl. lia.
Qed.

(** Rounding: where the used height of an exact run is off by less than a
    hundredth of a point, both decisions of the layout come out the same. *)
Lemma decisions_apart u r' :
  tenths u -> Qabs (r' - (A3_HEIGHT - 176 - u)) <= 1 # 100 ->
  Qlt_b r' (DETAIL_SECTION_H + DETAIL_LEADING * 2)
    = Qlt_b (A3_HEIGHT - 176 - u) (DETAIL_SECTION_H + DETAIL_LEADING * 2) /\
  Qfloor ((r' - 5) / DETAIL_LEADING) = Qfloor ((A3_HEIGHT - 176 - u - 5) / DETAIL_LEADING).
Proof.
  intros Hu Hr. apply Qabs_Qle_condition in Hr as [Hr1 Hr2].
  set (r := A3_HEIGHT - 176 - u) in *. split.
  - destruct (remaining_apart u (DETAIL_SECTION_H + DETAIL_LEADING * 2) Hu) as [Ha|Ha];
      [by exists 424%Z| |]; fold r in Ha;
      destruct (Qlt_b_spec r' (DETAIL_SECTION_H + DETAIL_LEADING * 2)),
               (Qlt_b_spec r (DETAIL_SECTION_H + DETAIL_LEADING * 2)); try done; exfalso; lra.
  - set (k := Qfloor ((r - 5) / DETAIL_LEADING)).
    pose proof (Qfloor_le ((r - 5) / DETAIL_LEADING)) as F1.
    pose proof (Qlt_floor ((r - 5) / DETAIL_LEADING)) as F2. fold k in F1, F2.
    assert (forall j : Z, tenths (inject_Z j * DETAIL_LEADING + 5)) as Ht.
    { intros j. exists (j * 107 + 50)%Z. unfold DETAIL_LEADING, Qeq, inject_Z. simpl. lia. }
    pose proof (remaining_apart u _ Hu (Ht k)) as Hk.
    pose proof (remaining_apart u _ Hu (Ht (k + 1)%Z)) as Hk1. fold r in Hk, Hk1.
    assert (inject_Z k * DETAIL_LEADING + 5 <= r) as G1.
    { apply (Qmult_le_compat_r _ _ DETAIL_LEADING) in F1; [|discriminate].
      unfold DETAIL_LEADING in *. field_simplify in F1. lra. }
    assert (r < inject_Z (k + 1) * DETAIL_LEADING + 5) as G2.
    { apply (Qmult_lt_compat_r _ _ DETAIL_LEADING) in F2; [|reflexivity].
      unfold DETAIL_LEADING in *. field_simplify in F2. lra. }
    apply floor_unique.
    + apply Qle_shift_div_l; [reflexivity|]. lra.
    + apply Qlt_shift_div_r; [reflexivity|]. lra.
Qed.
