(* ===== verification/PdfCards.v ===== *)
(** * The text of a card

    tools/render_experiment_registry_pdf.py, [_card_detail_sections] and its
    helpers: the twelve sections of a card, each a title and its entries. *)

From stdpp Require Import base list strings numbers.
From Stdlib Require Import ZArith Lia Bool Ascii.
From S2P Require Import Prelude PyJson Sha256 JsonText PyText Builder Validator PdfCanvas PdfLayout.

(** ** Values *)

Definition NOT_APPLICABLE : string := "NOT_APPLICABLE / 不是策略".

(** [_detail_value(value, null_text=null_text)]; the calls inside a dict or a
    list use the default text. *)
Fixpoint _detail_value (null_text : string) (value : json) : string :=
  match value with
  | JNull => null_text
  | JBool b => if b then "TRUE" else "FALSE"
  | JObj [] => "NONE"
  | JObj d =>
      join "; " (map (fun kv => match kv with
                                | (key, item) => key +:+ "=" +:+ _detail_value NOT_APPLICABLE item
                                end) d)
  | JList [] => "NONE"
  | JList l => join " | " (map (_detail_value NOT_APPLICABLE) l)
  | _ => join " " (split_ws 0 (py_str value) EmptyString)
  end.

(** [f"{label} | {_detail_value(value)}"] *)
Definition entry_of (label : string) (value : json) : string :=
  label +:+ " | " +:+ _detail_value NOT_APPLICABLE value.

(** [_detail_entries(mapping, labels)] *)
Definition _detail_entries (mapping : json) (labels : list (string * string))
    : result (list string) :=
  items ← as_items mapping;
  Ok (map (fun '(key, value) =>
        entry_of (match assoc key labels with Some l => l | None => key end) value) items).

(** [f"{label} | {_detail_value(v[k])}"] *)
Definition entry_at (label : string) (v : json) (k : string) : result string :=
  entry_of label <$> getitem v k.

(** ["k=" + _detail_value(v.get(k))], a part of a cost or a gap. *)
Definition part (label : string) (v : json) (k : string) : result string :=
  x ← get v k; Ok (label +:+ "=" +:+ _detail_value NOT_APPLICABLE x).

(** ** Sources *)

(** [s.split("::", 1)[0]] *)
Fixpoint before_colons (s : string) : string :=
  match s with
  | EmptyString => EmptyString
  | String c s' => if startswith "::" s then EmptyString else String c (before_colons s')
  end.

(** [Path(p).name]: the last part that is neither empty nor a dot. *)
Definition path_name (p : string) : string :=
  match rev (List.filter (fun s => negb (String.eqb s EmptyString || String.eqb s "."))
               (split_on "/" p)) with
  | name :: _ => name
  | [] => EmptyString
  end.

(** [v or d] *)
Definition or_else (v d : json) : json := if truthy v then v else d.

(** The binding whose file has the name [basename]. *)
Fixpoint find_binding (basename : string) (bindings : list json) : result (option json) :=
  match bindings with
  | [] => Ok None
  | binding :: bindings' =>
      p ← getitem binding "path";
      p ← match p with JStr s => Ok s | _ => Raise (TypeError "expected str or os.PathLike") end;
      if String.eqb (path_name p) basename then Ok (Some binding)
      else find_binding basename bindings'
  end.

Definition _source_binding_for_observation (registry source : json) : result string :=
  if negb (truthy source) then Ok "NOT_MEASURED"
  else
    source ← match source with JStr s => Ok s | _ => Raise (AttributeError "split") end;
    bindings ← getitem registry "source_bindings";
    bindings ← as_list bindings;
    found ← find_binding (before_colons source) bindings;
    match found with
    | Some binding =>
        role ← getitem binding "role";
        sha ← getitem binding "sha256";
        Ok (source +:+ " | role=" +:+ py_str role +:+ " | " +:+ "sha256=" +:+ py_str sha)
    | None => Ok (source +:+ " | SOURCE_BINDING_NOT_FOUND")
    end.

(** [{source["source_id"]: source for source in sources}] *)
Fixpoint source_catalog (sources : list json) (catalog : list (json * json))
    : result (list (json * json)) :=
  match sources with
  | [] => Ok catalog
  | source :: sources' =>
      id ← getitem source "source_id";
      _ ← need_hashable id;
      source_catalog sources' (dict_put id source catalog)
  end.

Definition provider_row (catalog : list (json * json)) (source_id : json) : result string :=
  _ ← need_hashable source_id;
  match default JNull (dict_get source_id catalog) with
  | JNull => Ok (py_str source_id +:+ "=CATALOG_MISSING")
  | source =>
      status ← getitem source "status";
      live_use ← getitem source "live_use";
      historical ← getitem source "historical_backfill";
      Ok (py_str source_id +:+ ": status=" +:+ py_str status +:+ "; " +:+
          "live_use=" +:+ py_str live_use +:+ "; " +:+
          "historical=" +:+ py_str historical)
  end.

Definition _provider_statuses (registry source_ids : json) : result string :=
  external ← getitem registry "external_source_catalog";
  sources ← getitem external "sources";
  sources ← as_list sources;
  catalog ← source_catalog sources [];
  ids ← as_list source_ids;
  rows ← mapR (provider_row catalog) ids;
  Ok (match rows with [] => "NONE" | _ => join " | " rows end).

(** ** Sections *)

Section Sections.
Context (registry card : json).

(** The first section: identity, classification and authority. *)
Definition status_entries : result (list string) :=
  identity ← getitem card "identity";
  classification ← getitem card "classification";
  e1 ← _detail_entries identity [
    ("experiment_id", "实验卡 ID");
    ("family_code", "家族");
    ("family_name", "家族名称");
    ("version", "卡片版本");
    ("lineage_status", "血缘状态");
    ("source_atomic_id", "原子来源 ID");
    ("registry_id", "Registry ID")];
  e2 ← _detail_entries classification [
    ("target_class", "目标类别");
    ("computed_class", "当前类别");
    ("blocked_from", "阻断自");
    ("lifecycle", "生命周期");
    ("strategy_eligible", "当前策略合格");
    ("promotion_rule", "升级规则")];
  definition_sha256 ← getitem card "definition_sha256";
  scope ← getitem registry "scope";
  action_authority ← getitem scope "action_authority";
  order_authority ← getitem scope "order_authority";
  deployment_authority ← getitem scope "deployment_authority";
  Ok (e1 ++ e2 ++ [
    "definition_sha256 | " +:+ py_str definition_sha256;
    "Registry action authority | " +:+ py_str action_authority;
    "Registry order authority | " +:+ py_str order_authority;
    "Registry deployment authority | " +:+ py_str deployment_authority]).

Definition hypothesis_entries : result (list string) :=
  hypothesis ← getitem card "hypothesis";
  e1 ← entry_at "经济机制 mechanism" hypothesis "mechanism";
  e2 ← entry_at "可证伪陈述 falsifiable_statement" hypothesis "falsifiable_statement";
  e3 ← entry_at "主估计量 primary_estimand" hypothesis "primary_estimand";
  conditions ← getitem hypothesis "failure_conditions";
  conditions ← as_items conditions;
  Ok ([e1; e2; e3] ++
      map (fun '(key, value) => entry_of ("失败条件 " +:+ key) value) conditions).

(** The observation of a card: [card["current_result"].get("observed_signal") or {}]. *)
Definition observed_signal : result json :=
  current_result ← getitem card "current_result";
  observed ← get current_result "observed_signal";
  Ok (or_else observed (JObj [])).

Definition signal_entries : result (list string) :=
  observed ← observed_signal;
  signal ← getitem card "signal";
  e1 ← _detail_entries signal [
    ("trigger", "触发信号");
    ("direction_semantics", "方向语义");
    ("decision_clock", "决策时钟");
    ("forecast_horizon", "预测/持有区间");
    ("falsifier", "信号证伪")];
  current_result ← getitem card "current_result";
  items ← as_items current_result;
  let e2 := flat_map (fun '(key, value) =>
              if String.eqb key "observed_signal" then []
              else [entry_of ("当前证据 " +:+ key) value]) items in
  status ← get observed "status";
  values ← get observed "values";
  source ← get observed "source";
  binding ← _source_binding_for_observation registry source;
  Ok (e1 ++ e2 ++ [
    "observed_signal.status | " +:+ _detail_value "NOT_MEASURED" status;
    "observed_signal.values | " +:+ _detail_value "NOT_MEASURED" values;
    "observed_signal.source | " +:+ binding]).

Definition action_entries : result (list string) :=
  action ← getitem card "action";
  _detail_entries action [
    ("profile_id", "动作 profile");
    ("status", "动作状态");
    ("registered_signal_to_action", "登记的 signal -> action");
    ("signal_to_action_mapping", "具体信号到动作映射");
    ("action_type", "动作类型");
    ("instrument_side", "交易哪一边");
    ("order_style", "订单类型");
    ("price_rule", "价格规则");
    ("quantity_rule", "数量规则");
    ("timing_and_cancel", "时序与撤单");
    ("exit_or_settlement", "退出/结算");
    ("kill_conditions", "停止条件");
    ("current_execution_authority", "当前执行权限")].

Definition venue_baseline_entries : result (list string) :=
  venue ← getitem card "venue";
  e1 ← _detail_entries venue [
    ("execution_venue", "执行场所");
    ("availability_receipt", "场所可用收据");
    ("required_permission", "所需权限")];
  baseline ← getitem card "baseline";
  e2 ← _detail_entries baseline [
    ("baseline_id", "基准 ID");
    ("baseline_type", "基准类型");
    ("policy", "基准策略");
    ("comparability", "可比性");
    ("secondary_baselines", "次级基准")];
  Ok (e1 ++ e2).

Definition pnl_entries : result (list string) :=
  pnl ← getitem card "pnl";
  _detail_entries pnl [
    ("status", "PnL 状态");
    ("basis", "PnL 口径");
    ("formula", "现金 PnL 公式");
    ("incremental_formula", "相对基准增量 PnL");
    ("aggregation_unit", "聚合单元");
    ("denominators", "报告分母");
    ("zero_fill_treatment", "零触发/零成交处理");
    ("capacity_rule", "容量规则");
    ("markout_rule", "markout 边界");
    ("cost_allocation_rule", "成本分摊规则");
    ("roc_definition", "商业 ROC 定义")].

Definition cost_entry (row : Z * json) : result string :=
  let '(index, cost) := row in
  type ← part "type" cost "type";
  status ← part "status" cost "status";
  role ← part "role" cost "role";
  rule ← part "rule" cost "rule";
  Ok ("成本 " +:+ pad_zeros 2 index +:+ " | " +:+ type +:+ "; " +:+ status +:+ "; " +:+
      role +:+ "; " +:+ rule).

Definition cost_entries : result (list string) :=
  costs ← getitem card "costs";
  if truthy costs then
    costs ← as_list costs;
    mapR cost_entry (enumerate 1 costs)
  else Ok ["成本 | NOT_APPLICABLE / 不是策略；未知 PnL 不显示为 0"].

Definition data_entries : result (list string) :=
  data ← getitem card "data";
  es ← mapR (fun '(label, key) => entry_at label data key) [
    ("data profile", "profile_id");
    ("输入 inputs", "inputs");
    ("当前能算 can_compute_now", "can_compute_now");
    ("目前可计算", "currently_calculable");
    ("data blockers", "blockers");
    ("缺失数据 missing", "missing");
    ("采集/建设路径 acquisition_paths", "acquisition_paths")];
  study_dates ← getitem data "study_dates";
  items ← as_items study_dates;
  Ok (es ++ map (fun '(key, value) => entry_of ("study_dates." +:+ key) value) items).

Definition gap_entry (row : Z * json) : result string :=
  let '(index, gap) := row in
  blocker ← part "blocker" gap "blocker";
  stage ← part "stage" gap "blocking_stage";
  missing ← part "missing" gap "missing_evidence";
  path ← part "补数/建设" gap "acquisition_or_build_path";
  api ← part "API candidates" gap "external_api_candidate_ids";
  policy ← part "unknown policy" gap "unknown_value_policy";
  Ok ("缺口 " +:+ pad_zeros 2 index +:+ " | " +:+ blocker +:+ "; " +:+ stage +:+ "; " +:+
      missing +:+ "; " +:+ path +:+ "; " +:+ api +:+ "; " +:+ policy).

Definition gap_entries : result (list string) :=
  data ← getitem card "data";
  e1 ← entry_at "完整卡级 blockers" card "blockers";
  critical_gaps ← getitem data "critical_gaps";
  if truthy critical_gaps then
    gaps ← as_list critical_gaps;
    es ← mapR gap_entry (enumerate 1 gaps);
    Ok (e1 :: es)
  else Ok [e1; "critical_gaps | NONE"].

Definition external_entries : result (list string) :=
  external ← getitem card "external_sports_data";
  es ← _detail_entries external [
    ("dependency", "外部体育依赖");
    ("availability", "可用状态");
    ("required_variables", "所需直接变量");
    ("approved_source", "已批准来源");
    ("provider_candidates", "候选 provider");
    ("asof_clock_status", "时钟状态");
    ("license_status", "许可状态");
    ("historical_backfill_status", "历史点时状态");
    ("missing_policy", "缺失策略");
    ("proxy_policy", "代理禁区");
    ("blockers", "外部数据 blockers")];
  provider_ids ← get external "provider_candidates";
  statuses ← _provider_statuses registry (or_else provider_ids (JList []));
  Ok (es ++ ["候选来源目录状态 | " +:+ statuses]).

Definition design_entries : result (list string) :=
  experiment_design ← getitem card "experiment_design";
  _detail_entries experiment_design [
    ("unit", "检验单元");
    ("eligibility", "入样资格");
    ("clock_rule", "时间规则");
    ("forecast_horizon", "冻结区间");
    ("comparison", "比较方法");
    ("overlap_and_precedence", "重叠与优先级");
    ("split_status", "切分状态");
    ("minimum_evidence", "最低证据");
    ("multiple_testing_family", "多重检验族");
    ("stop_rule", "停止规则")].

Definition next_entries : result (list string) :=
  next_evidence ← getitem card "next_evidence";
  es ← _detail_entries next_evidence [
    ("to_measure_signal", "补齐信号");
    ("to_measure_pnl", "补齐 PnL");
    ("external_source_ids", "外部来源 ID")];
  ids ← get next_evidence "external_source_ids";
  statuses ← _provider_statuses registry (or_else ids (JList []));
  Ok (es ++ ["外部来源目录解析 | " +:+ statuses]).

Definition _card_detail_sections : result (list (string * list string)) :=
  _ ← getitem card "identity";
  _ ← getitem card "classification";
  _ ← observed_signal;
  status ← status_entries;
  hypothesis ← hypothesis_entries;
  signal ← signal_entries;
  action ← action_entries;
  venue_baseline ← venue_baseline_entries;
  pnl ← pnl_entries;
  cost ← cost_entries;
  data ← data_entries;
  gap ← gap_entries;
  external ← external_entries;
  design ← design_entries;
  next ← next_entries;
  Ok [("身份、状态与权限", status);
      ("假设与失败条件", hypothesis);
      ("信号与当前证据", signal);
      ("触发后的具体动作", action);
      ("执行场所与基准策略", venue_baseline);
      ("现金 PnL 合约", pnl);
      ("成本逐项", cost);
      ("当前可算、数据与日期", data);
      ("完整缺口与补数路径", gap);
      ("外部体育数据契约", external);
      ("检验设计", design);
      ("下一步证据", next)].
End Sections.
