(* ===== verification/PdfBuild.v ===== *)
(** * Building the document

    tools/render_experiment_registry_pdf.py, from [_detail_page_header] to
    [main]: the pages of a card, and the whole document.  The files, the fonts
    and the output are parameters. *)

From stdpp Require Import base list strings numbers.
From Stdlib Require Import ZArith Lia Bool Ascii QArith Qminmax.
From S2P Require Import Prelude PyJson Sha256 JsonText PyText Builder Validator RegistryCli.
From S2P Require Import PdfCanvas PdfPages PdfLayout PdfCards.

#[local] Open Scope Q_scope.

Section Detail.
Context `{Reportlab} (TOTAL_PAGES : Z).

(** The labels of the head of a card page. *)
Definition page_chips (card : json) : result (list string) :=
  classification ← getitem card "classification";
  target ← getitem classification "target_class";
  computed ← getitem classification "computed_class";
  action ← getitem card "action";
  action_id ← getitem action "profile_id";
  data ← getitem card "data";
  data_id ← getitem data "profile_id";
  venue ← getitem card "venue";
  execution_venue ← getitem venue "execution_venue";
  Ok ["target " +:+ py_str target; "current " +:+ py_str computed; "action " +:+ py_str action_id;
      "data " +:+ py_str data_id; "venue " +:+ py_str execution_venue; "AUTHORITY NONE"].

Definition draw_chip (accent : color) (x : Q) (row : Z * string) : draw Q :=
  let '(index, chip) := row in
  let chip_color := if ((index =? 1) || (index =? 5))%Z then RED else accent in
  let width := Qmin 225 (Qmax 92 (stringWidth chip FONT_MONO_BOLD 7.2 + 18)) in
  _ ← emit (setFillColor (Fade chip_color 0.12));
  _ ← emit (setStrokeColor chip_color);
  _ ← emit (roundRect x (DETAIL_PAGE_H - 106) width 20 8 true true);
  _ ← _draw_centered chip (x + width / 2) (DETAIL_PAGE_H - 99) FONT_MONO_BOLD 7.2 chip_color;
  mret (x + (width + 8)).

Definition _detail_page_header (card : json) (card_index card_page_index : Z)
    (card_page_count : nat) : draw unit :=
  identity ← liftD (getitem card "identity");
  _ ← liftD (getitem card "classification");
  family ← liftD (getitem identity "family_code");
  accent ← liftD (table_at FAMILY_COLORS family);
  _ ← emit (setPageSize DETAIL_PAGE_W DETAIL_PAGE_H);
  _ ← emit (setFillColor PAPER);
  _ ← emit (rect 0 0 DETAIL_PAGE_W DETAIL_PAGE_H true false);
  _ ← emit (setFillColor accent);
  _ ← emit (roundRect DETAIL_MARGIN (DETAIL_PAGE_H - 40) 150 19 8 true false);
  family_label ← liftD (table_at FAMILY_LABELS family);
  _ ← _draw_centered (py_str family +:+ " · " +:+ family_label) (DETAIL_MARGIN + 75)
        (DETAIL_PAGE_H - 34) FONT_HEAD 8 white;
  _ ← emit (setFillColor INK);
  _ ← emit (setFont FONT_HEAD 18);
  let marker := if (card_page_index =? 1)%Z then "实验卡 ID:" else "实验卡续页:" in
  experiment_id ← liftD (getitem identity "experiment_id");
  _ ← emit (drawString DETAIL_MARGIN (DETAIL_PAGE_H - 76)
              (marker +:+ " " +:+ py_str experiment_id));
  _ ← emit (setFont FONT_HEAD 8.5);
  _ ← emit (setFillColor MUTED);
  _ ← emit (drawRightString (DETAIL_PAGE_W - DETAIL_MARGIN) (DETAIL_PAGE_H - 33)
        ("第 " +:+ pad_zeros 3 card_index +:+ " / 106 张 · 本卡 " +:+ show_Z card_page_index +:+
         " / " +:+ show_nat card_page_count +:+ " 页"));
  chips ← liftD (page_chips card);
  _ ← fold_draw (draw_chip accent) (enumerate 0 chips) DETAIL_MARGIN;
  _ ← emit (setStrokeColor BORDER);
  _ ← emit (setLineWidth 0.8);
  _ ← emit (line_to DETAIL_MARGIN (DETAIL_PAGE_H - 119) (DETAIL_PAGE_W - DETAIL_MARGIN)
              (DETAIL_PAGE_H - 119));
  when (card_page_index =? 1)%Z
    (let bookmark := "card-" +:+ py_str experiment_id in
     _ ← emit (bookmarkPage bookmark);
     emit (addOutlineEntry (py_str experiment_id) bookmark 0 false)).

Definition _detail_page_footer (registry card : json) (page_no : Z) : draw unit :=
  _ ← emit (setStrokeColor BORDER);
  _ ← emit (setLineWidth 0.5);
  _ ← emit (line_to DETAIL_MARGIN 31 (DETAIL_PAGE_W - DETAIL_MARGIN) 31);
  _ ← emit (setFont FONT_MONO 6.8);
  _ ← emit (setFillColor MUTED);
  registry_sha256 ← liftD (getitem registry "registry_sha256");
  _ ← emit (drawString DETAIL_MARGIN 17 ("registry_sha256 " +:+ py_str registry_sha256));
  definition_sha256 ← liftD (getitem card "definition_sha256");
  _ ← emit (drawCentredString (DETAIL_PAGE_W / 2) 17
              ("definition_sha256 " +:+ py_str definition_sha256));
  emit (drawRightString (DETAIL_PAGE_W - DETAIL_MARGIN) 17
          ("NO AUTHORITY · " +:+ page_of page_no TOTAL_PAGES)).

(** One block of a column at [x], from [y] downwards. *)
Definition draw_block (accent : color) (x y : Q) (b : block) : draw Q :=
  _ ← match b with
      | section_block title _ =>
          _ ← emit (setFillColor (Fade accent 0.12));
          _ ← emit (roundRect (x + 6) (y - DETAIL_SECTION_H + 3) (DETAIL_COL_W - 12)
                      (DETAIL_SECTION_H - 5) 5 true false);
          _ ← emit (setFillColor accent);
          _ ← emit (setFont FONT_HEAD 9);
          emit (drawString (x + 13) (y - 11) title)
      | entry_block lines _ =>
          _ ← emit (setFillColor accent);
          _ ← emit (circle (x + 11) (y - 7) 1.7 true false);
          _ ← emit (setFillColor INK);
          _ ← emit (setFont FONT_BODY DETAIL_FONT_SIZE);
          _ ← fold_draw (fun line_y line =>
                _ ← emit (drawString (x + 17) line_y line);
                mret (line_y - DETAIL_LEADING)) lines (y - 10);
          mret tt
      end;
  mret (y - block_height b).

(** One column: its frame, its blocks, and the check that they stayed in it. *)
Definition draw_column (card : json) (accent : color) (card_page_index : Z)
    (row : Z * list block) : draw unit :=
  let '(column_index, blocks) := row in
  let x := DETAIL_MARGIN + inject_Z column_index * (DETAIL_COL_W + DETAIL_COL_GAP) in
  _ ← _round_rect x DETAIL_BOTTOM DETAIL_COL_W DETAIL_CONTENT_H white BORDER 8 0.6;
  y ← fold_draw (draw_block accent x) blocks DETAIL_TOP;
  if Qlt_b y (DETAIL_BOTTOM - 0.1) then
    identity ← liftD (getitem card "identity");
    experiment_id ← liftD (getitem identity "experiment_id");
    liftD (Raise (AssertionError ("detail layout overflow: " +:+ py_str experiment_id +:+ " page " +:+
      show_Z card_page_index +:+ " column " +:+ show_Z (column_index + 1))))
  else mret tt.

(** One page of a card; the number of the next page. *)
Definition draw_detail_page (registry card : json) (accent : color) (card_index : Z)
    (page_count : nat) (page_no : Z) (row : Z * list (list block)) : draw Z :=
  let '(card_page_index, page_layout) := row in
  _ ← _detail_page_header card card_index card_page_index page_count;
  _ ← for_each (enumerate 0 page_layout) (draw_column card accent card_page_index);
  _ ← _detail_page_footer registry card page_no;
  _ ← emit showPage;
  mret (page_no + 1)%Z.

Definition _render_detail_card (registry card : json) (card_index : Z)
    (page_layouts : list (list (list block))) (first_page_no : Z) : draw Z :=
  identity ← liftD (getitem card "identity");
  family ← liftD (getitem identity "family_code");
  accent ← liftD (table_at FAMILY_COLORS family);
  fold_draw (draw_detail_page registry card accent card_index (length page_layouts))
    (enumerate 1 page_layouts) first_page_no.
End Detail.

(** ** The document *)

(** [len(v)] *)
Definition py_len (v : json) : result nat :=
  match v with
  | JList l => Ok (length l)
  | JObj d => Ok (length d)
  | JStr s => Ok (char_count s)
  | _ => Raise (TypeError "object has no len()")
  end.

Definition BODY_FONT_FILE : string := "/System/Library/Fonts/Supplemental/Arial Unicode.ttf".
Definition HEAD_FONT_FILE : string := "/System/Library/Fonts/STHeiti Medium.ttc".

Section Document.
Context `{Reportlab}.
(** Which files exist, and what registering a font from one does. *)
Context (exists_ : string -> bool) (registerFont : string -> string -> result unit).
(** The registry file, and the path of the output with its directory. *)
Context (registry_file : option string) (output_dir output : string).

Definition _register_fonts : result unit :=
  if negb (exists_ BODY_FONT_FILE) || negb (exists_ HEAD_FONT_FILE)
  then Raise (OSError "Required Chinese fonts are unavailable")
  else
    _ ← registerFont FONT_BODY BODY_FONT_FILE;
    registerFont FONT_HEAD HEAD_FONT_FILE.

Definition _load_registry : result json := read_text registry_file.

Definition _sha256_file : result string :=
  match registry_file with
  | None => Raise (OSError "No such file or directory")
  | Some bytes => Ok (sha256_hex bytes)
  end.

(** [detail_payloads]: every card with its layout; [None] when a layout does not end. *)
Fixpoint detail_payloads (registry : json) (cards : list json)
    : option (result (list (json * list (list (list block))))) :=
  match cards with
  | [] => Some (Ok [])
  | card :: cards' =>
      match _card_detail_sections registry card with
      | Raise e => Some (Raise e)
      | Ok sections =>
          layouts ← _layout_detail_sections sections;
          rest ← detail_payloads registry cards';
          Some (rest ← rest; Ok ((card, layouts) :: rest))
      end
  end.

(** The renderers between the cover and the last page of the summary. *)
Definition summary_renderers (TOTAL_PAGES : Z) : list (json -> Z -> draw unit) := [
  _page_dashboard TOTAL_PAGES;
  _page_operating_change TOTAL_PAGES;
  _page_card_anatomy TOTAL_PAGES;
  _page_families TOTAL_PAGES;
  _page_target_vs_current TOTAL_PAGES;
  _page_data_truth TOTAL_PAGES;
  _page_blockers TOTAL_PAGES;
  _page_pnl TOTAL_PAGES;
  _page_rfq TOTAL_PAGES;
  _page_mve TOTAL_PAGES;
  _page_external TOTAL_PAGES;
  _page_priority TOTAL_PAGES;
  _page_roadmap TOTAL_PAGES].

(** The document of the laid out cards. *)
Definition draw_document (registry : json) (payloads : list (json * list (list (list block))))
    : draw string :=
  let TOTAL_PAGES := (SUMMARY_PAGES +
    foldr Z.add 0 (map (fun p => Z.of_nat (length (snd p))) payloads))%Z in
  _ ← emit (mkdir output_dir);
  _ ← emit (newCanvas output PAGE_W PAGE_H);
  _ ← emit (setTitle "DeepResearch V3 统一实验变现 Registry 完整可视化版");
  _ ← emit (setSubject "管理摘要与 106 张完整实验卡：从假设、动作和数据到真实 PnL");
  _ ← emit (setAuthor "Deep03 Experiment Registry");
  _ ← emit (setCreator "tools/render_experiment_registry_pdf.py");
  let page_no := 1%Z in
  _ ← _page_cover TOTAL_PAGES registry page_no;
  let page_no := (page_no + 1)%Z in
  page_no ← fold_draw (fun page_no renderer =>
      _ ← renderer registry page_no;
      mret (page_no + 1)%Z) (summary_renderers TOTAL_PAGES) page_no;
  _ ← _page_provenance TOTAL_PAGES _sha256_file registry page_no;
  let page_no := (page_no + 1)%Z in
  page_no ← fold_draw (fun page_no '(card_index, (card, layouts)) =>
      _render_detail_card TOTAL_PAGES registry card card_index layouts page_no)
    (enumerate 1 payloads) page_no;
  if negb (page_no - 1 =? TOTAL_PAGES)%Z then
    liftD (Raise (AssertionError ("expected " +:+ show_Z TOTAL_PAGES +:+ " pages, rendered " +:+
      show_Z (page_no - 1))))
  else
    _ ← emit save;
    mret output.

(** [build_pdf]; [None] when a layout does not end. *)
Definition build_pdf (registry : json) : option (draw string) :=
  match (_ ← _register_fonts;
         experiments ← getitem registry "experiments";
         n ← py_len experiments;
         if negb (n =? 106)%nat then
           Raise (AssertionError ("expected 106 experiment cards, found " +:+ show_nat n))
         else as_list experiments) with
  | Raise e => Some (Raise e)
  | Ok cards =>
      payloads ← detail_payloads registry cards;
      Some (payloads ← liftD payloads; draw_document registry payloads)
  end.

(** [main]: the exit status, the line that is printed, and the calls that were made. *)
Definition main : option (draw (Z * string)) :=
  match _load_registry with
  | Raise e => Some (Raise e)
  | Ok registry =>
      document ← build_pdf registry;
      Some (path ← document; mret (0%Z, path))
  end.
End Document.
