(* ===== verification/PdfFacts.v ===== *)
(** * The renderer's pages

    A calculus for drawing code ([steps]: it does not raise and does not end a
    page; [page_end]: it does not raise and ends one page with a given foot), the
    rules of the drawing helpers, and what a registry must have for its fifteen
    summary pages and its card pages to be drawn ([renderable]). *)

From stdpp Require Import base list strings numbers.
From Stdlib Require Import ZArith Lia Lqa Bool Ascii QArith Qminmax.
From S2P Require Import Prelude PyJson Sha256 JsonText PyText Builder Validator RegistryCli.
From S2P Require Import PdfCanvas PdfPages PdfLayout PdfCards PdfBuild.

#[local] Open Scope Q_scope.

Definition quiet_call (op : call) : bool :=
  match op with showPage | save => false | _ => true end.

(** Drawing that succeeds and stays on its page. *)
Definition steps {A} (m : draw A) : Prop :=
  exists a ops, m = Ok (a, ops) /\ forallb quiet_call ops = true.

(** Drawing that succeeds and ends its page with the foot [label]. *)
Definition page_end {A} (label : string) (a : A) (m : draw A) : Prop :=
  exists ops x y, m = Ok (a, ops ++ [drawRightString x y label; showPage]) /\
    forallb quiet_call ops = true.

(** ** Rules *)

Lemma steps_ret {A} (a : A) : steps (mret a).
Proof. by exists a, []. Qed.

Lemma steps_emit op : quiet_call op = true -> steps (emit op).
Proof. intros Hq. exists tt, [op]. split; [done|]. simpl. by rewrite Hq. Qed.

Lemma steps_bind {A B} (m : draw A) (f : A -> draw B) :
  steps m -> (forall a, steps (f a)) -> steps (mbind f m).
Proof.
  intros (a & ops & -> & Hq) Hf. destruct (Hf a) as (b & ops' & E & Hq').
  exists b, (ops ++ ops'). unfold mbind, draw_bind. rewrite E. by rewrite forallb_app, Hq, Hq'.
Qed.

Lemma steps_lift {A B} (r : result A) (v : A) (f : A -> draw B) :
  r = Ok v -> steps (f v) -> steps (mbind f (liftD r)).
Proof.
  intros -> (b & ops & E & Hq). exists b, ops. unfold mbind, draw_bind, liftD. by rewrite E.
Qed.

Lemma steps_fold {A S} (f : S -> A -> draw S) l : forall s,
  (forall s a, In a l -> steps (f s a)) -> steps (fold_draw f l s).
Proof.
  induction l as [|a l IH]; intros s Hf; cbn [fold_draw]; [apply steps_ret|].
  apply steps_bind; [apply Hf; by left|]. intros s'. apply IH. intros s0 b Hb. apply Hf. by right.
Qed.

Lemma steps_for_each {A} (l : list A) f :
  (forall a, In a l -> steps (f a)) -> steps (for_each l f).
Proof. intros Hf. apply steps_fold. auto. Qed.

Lemma steps_when b m : steps m -> steps (when b m).
Proof. destruct b; [done|]. intros _. apply steps_ret. Qed.

Lemma page_bind {A B} label b (m : draw A) (f : A -> draw B) :
  steps m -> (forall a, page_end label b (f a)) -> page_end label b (mbind f m).
Proof.
  intros (a & ops & -> & Hq) Hf. destruct (Hf a) as (ops' & x & y & E & Hq').
  exists (ops ++ ops'), x, y. unfold mbind, draw_bind. rewrite E, app_assoc.
  by rewrite forallb_app, Hq, Hq'.
Qed.

Lemma page_lift {A B} label b (r : result A) (v : A) (f : A -> draw B) :
  r = Ok v -> page_end label b (f v) -> page_end label b (mbind f (liftD r)).
Proof.
  intros -> (ops & x & y & E & Hq). exists ops, x, y. unfold mbind, draw_bind, liftD. by rewrite E.
Qed.

Lemma page_last x y label :
  page_end label tt (_ ← emit (drawRightString x y label); emit showPage).
Proof. by exists [], x, y. Qed.

(** ** The drawing helpers *)

(** One step of a walk through drawing code; what a value of the registry must
    be is left as a goal. *)
Ltac draw_step :=
  lazymatch goal with
  | |- forall _, _ => intros ?
  | |- steps (let _ := _ in _) => cbv zeta
  | |- page_end _ _ (let _ := _ in _) => cbv zeta
  | |- steps (match (if ?b then _ else _) with pair _ _ => _ end) => destruct b
  | |- steps (match (_, _) with pair _ _ => _ end) => cbv beta iota
  | |- steps (match ?p with pair _ _ => _ end) => destruct p
  | |- steps (mbind _ (liftD _)) => fail
  | |- page_end _ _ (mbind _ (liftD _)) => fail
  | |- steps (mbind _ _) => apply steps_bind
  | |- page_end _ _ (mbind _ (emit (drawRightString _ _ _))) =>
      first [apply page_last | apply page_bind]
  | |- page_end _ _ (mbind _ _) => apply page_bind
  | |- steps (emit _) => apply steps_emit; reflexivity
  | |- steps (mret _) => apply steps_ret
  | |- steps (when _ _) => apply steps_when
  | |- steps (for_each _ _) => apply steps_for_each
  | |- steps (fold_draw _ _ _) => apply steps_fold
  | |- steps _ => solve [auto with drawdb]
  | |- page_end _ _ _ => solve [auto with drawdb]
  end.

Ltac draw_steps := repeat draw_step.

Create HintDb drawdb discriminated.

Section Helpers.
Context `{Reportlab}.

Lemma limit_lines_ok lines w font size n :
  exists ls, limit_lines lines w font size (Some (S n)) = Ok ls.
Proof.
  unfold limit_lines. destruct (_ <? _)%nat eqn:E; [|eauto].
  destruct lines as [|l lines]; [by apply Nat.ltb_lt in E; simpl in E; lia|].
  cbn [firstn rev]. destruct (rev (firstn n lines) ++ [l]) eqn:E'; [|eauto].
  by destruct (rev (firstn n lines)).
Qed.

Lemma draw_text_steps text x y w font size col leading n :
  steps (_draw_text text x y w font size col leading (Some (S n))).
Proof.
  unfold _draw_text. destruct (limit_lines_ok (_split_lines text w font size) w font size n) as [ls E].
  cbv zeta. eapply steps_lift; [exact E|]. draw_steps.
Qed.

Lemma draw_text_all_steps text x y w font size col leading :
  steps (_draw_text text x y w font size col leading None).
Proof. unfold _draw_text. cbv zeta. eapply steps_lift; [reflexivity|]. draw_steps. Qed.

Lemma draw_centered_steps text x y font size col : steps (_draw_centered text x y font size col).
Proof. unfold _draw_centered. draw_steps. Qed.

Lemma round_rect_steps x y w h fill stroke r lw : steps (_round_rect x y w h fill stroke r lw).
Proof. unfold _round_rect. draw_steps. Qed.

#[local] Hint Resolve draw_text_steps draw_text_all_steps draw_centered_steps round_rect_steps : drawdb.

Lemma badge_steps text x y fill col width : steps (_badge text x y fill col width).
Proof. unfold _badge. draw_steps. Qed.

Lemma metric_card_steps x y w h value label note accent :
  steps (_metric_card x y w h value label note accent).
Proof. unfold _metric_card. draw_steps. Qed.

Lemma page_header_steps n title subtitle sec accent : steps (_page_header n title subtitle sec accent).
Proof. unfold _page_header. draw_steps. Qed.

Lemma arrow_steps x1 y1 x2 y2 col w : steps (_arrow x1 y1 x2 y2 col w).
Proof. unfold _arrow. draw_steps. Qed.

Lemma hbar_chart_steps items x y w row_h col label_w m suffix :
  (m <> 0)%Z -> steps (_hbar_chart items x y w row_h col label_w (Some m) suffix).
Proof.
  intros Hm. apply Z.eqb_neq in Hm. unfold _hbar_chart. rewrite Hm.
  eapply steps_lift; [reflexivity|]. draw_steps. rewrite Hm.
  eapply steps_lift; [reflexivity|]. draw_steps.
Qed.

Lemma donut_steps cx cy r values cols top bottom :
  fold_left Z.add values 0%Z <> 0%Z -> steps (_donut cx cy r values cols top bottom).
Proof.
  intros Hm. apply Z.eqb_neq in Hm. unfold _donut. draw_steps. rewrite Hm.
  eapply steps_lift; [reflexivity|]. draw_steps.
Qed.

Lemma finish_page_end T n : page_end (page_of n T) tt (_finish_page T n).
Proof.
  unfold _finish_page, _footer.
  exists [setStrokeColor BORDER; setLineWidth 0.5; line_to MARGIN 27 (PAGE_W - MARGIN) 27;
          setFont FONT_BODY 6.8; setFillColor MUTED;
          drawString MARGIN 14
        "Deep03 Registry V1 | Snapshot 2026-07-23 | Research directory only - no trading authority"],
    (PAGE_W - MARGIN), 14. split; reflexivity.
Qed.
End Helpers.

#[export] Hint Resolve draw_text_steps draw_text_all_steps draw_centered_steps round_rect_steps
  badge_steps metric_card_steps page_header_steps arrow_steps finish_page_end : drawdb.
#[export] Hint Extern 1 (steps (_hbar_chart _ _ _ _ _ _ _ _ _)) =>
  (apply hbar_chart_steps; discriminate) : drawdb.
#[export] Hint Extern 1 (steps (_draw_text _ _ _ _ _ _ _ _ (Some (Z.to_nat (Zpos _))))) =>
  (apply draw_text_steps) : drawdb.
#[export] Hint Extern 1 (steps (_donut _ _ _ _ _ _ _)) =>
  (apply donut_steps; discriminate) : drawdb.

(** ** The summary pages that read little *)

Lemma enumerate_in {A} (l : list A) : forall s i a,
  In (i, a) (enumerate s l) -> (s <= i < s + Z.of_nat (length l))%Z /\ In a l.
Proof.
  induction l as [|b l IH]; intros s i a; cbn [enumerate In length]; [done|].
  intros [[= <- <-]|Hin]; [split; [lia|by left]|].
  apply IH in Hin as [Hi Ha]. split; [lia|by right].
Qed.

Lemma list_at_steps {A} (l : list A) i : (0 <= i < Z.of_nat (length l))%Z -> steps (list_at l i).
Proof.
  intros Hi. unfold list_at. rewrite (proj2 (Z.ltb_ge _ _)) by lia.
  destruct (nth_error l (Z.to_nat i)) as [a|] eqn:E.
  - by exists a, [].
  - apply nth_error_None in E. lia.
Qed.

#[export] Hint Extern 1 (steps (list_at _ ?i)) =>
  (match goal with
   | Hin : In (i, _) (enumerate _ _) |- _ =>
       apply enumerate_in in Hin as [Hin _]; apply list_at_steps; cbn [length] in *; lia
   end) : drawdb.

Section Pages.
Context `{Reportlab} (T : Z) (registry_file_sha : result string).
Context (registry : json) (n : Z).

Lemma operating_change_end : page_end (page_of n T) tt (_page_operating_change T registry n).
Proof. unfold _page_operating_change. draw_steps. Qed.

Lemma data_truth_end : page_end (page_of n T) tt (_page_data_truth T registry n).
Proof. unfold _page_data_truth. draw_steps. Qed.

Lemma pnl_end : page_end (page_of n T) tt (_page_pnl T registry n).
Proof. unfold _page_pnl. draw_steps. Qed.

Lemma rfq_end : page_end (page_of n T) tt (_page_rfq T registry n).
Proof. unfold _page_rfq. draw_steps. Qed.

Lemma external_end : page_end (page_of n T) tt (_page_external T registry n).
Proof. unfold _page_external. draw_steps. Qed.

Lemma roadmap_end : page_end (page_of n T) tt (_page_roadmap T registry n).
Proof. unfold _page_roadmap. draw_steps. Qed.
End Pages.

(** ** What the renderer reads *)

Definition sha_reads (registry : json) : result string :=
  sha ← getitem registry "registry_sha256"; as_str sha.

Definition target_reads (registry : json) : result (list Q) :=
  summary ← getitem registry "summary";
  target ← getitem summary "target_class_counts";
  mapR (fun k => v ← getitem target k; as_num v) ["EXECUTABLE_STRATEGY"; "SIGNAL"; "RESEARCH_QUESTION"].

Definition card_list (registry : json) : result (list json) :=
  experiments ← getitem registry "experiments"; as_list experiments.

Definition count_reads (registry : json) : result (list string) :=
  cards ← card_list registry;
  _ ← count_from family_code cards [];
  _ ← count_from action_family_code cards [];
  _ ← count_from signal_status cards [];
  counts ← count_from card_blockers cards [];
  mapR (fun '(k, _) => label ← label_or_key BLOCKER_LABELS k; as_str label) (most_common 10 counts).

(** The card that page 4 explains. *)
Definition anatomy_reads (registry : json) : result (list json) :=
  by_id ← _card_by_id registry;
  card ← dict_at by_id "A01-SPREAD-CAPTURE";
  current_result ← getitem card "current_result";
  observed ← getitem current_result "observed_signal";
  values ← getitem observed "values";
  markout ← getitem values "pooled_signed_markout_logodds";
  _ ← mapR (fun horizon => value ← getitem markout horizon; fixed3 value) ["1s"; "5s"; "30s"];
  blockers ← getitem card "blockers";
  blockers ← as_list blockers;
  mapR (label_or_key BLOCKER_LABELS) blockers.

Definition mve_reads (registry : json) : result string :=
  by_id ← _card_by_id registry;
  d10 ← dict_at by_id "D10-MVE-DIRECT-TRADING";
  action ← getitem d10 "action";
  id ← getitem action "profile_id";
  table_at ACTION_LABELS id.

Definition binding_reads (registry : json) : result (list (json * json * json)) :=
  bindings ← getitem registry "source_bindings";
  bindings ← as_list bindings;
  mapR (fun b => role ← getitem b "role"; path ← getitem b "path"; sha ← getitem b "sha256";
                 Ok (role, path, sha)) bindings.

(** The pages of a card. *)
Definition detail_reads (registry card : json) : result (list string) :=
  _ ← _card_detail_sections registry card;
  identity ← getitem card "identity";
  _ ← getitem identity "experiment_id";
  family ← getitem identity "family_code";
  _ ← table_at FAMILY_COLORS family;
  _ ← table_at FAMILY_LABELS family;
  _ ← getitem card "definition_sha256";
  page_chips card.

(** A registry the renderer can draw: everything it reads is there. *)
Definition renderable (registry : json) : bool :=
  is_ok (sha_reads registry) && is_ok (target_reads registry) && is_ok (count_reads registry) &&
  is_ok (anatomy_reads registry) && is_ok (mve_reads registry) && is_ok (binding_reads registry) &&
  match getitem registry "experiments" with
  | Ok (JList cards) =>
      (length cards =? 106)%nat && forallb (fun card => is_ok (detail_reads registry card)) cards
  | _ => false
  end.

Lemma mapR_in {A B} (f : A -> result B) l bs a :
  mapR f l = Ok bs -> In a l -> exists b, f a = Ok b.
Proof.
  revert bs. induction l as [|x l IH]; intros bs E Hin; [done|]. cbn [mapR] in E.
  apply bind_ok in E as (b & Eb & E). apply bind_ok in E as (bs' & Ebs & _).
  destruct Hin as [->|Hin]; eauto.
Qed.

Lemma is_ok_ex {A} (r : result A) : is_ok r = true -> exists a, r = Ok a.
Proof. destruct r; [eauto|done]. Qed.

(** A walk that resolves reads with the facts at hand. *)
Ltac draw_read :=
  first [ eapply page_lift; [first [eassumption | reflexivity]|]
        | eapply steps_lift; [first [eassumption | reflexivity]|] ].
Ltac read_member :=
  match goal with
  | Hin : In ?a ?l, Hm : mapR _ ?l = Ok _ |- _ =>
      let t := fresh "t" in let Et := fresh "Et" in
      destruct (mapR_in _ _ _ _ Hm Hin) as [t Et]; inv_ok
  end.
Ltac draw_walk := repeat first [draw_step | draw_read].

Section ReadingPages.
Context `{Reportlab} (T : Z) (registry_file_sha : result string).
Context (registry : json) (n : Z).

Lemma cover_end : is_ok (sha_reads registry) = true -> page_end (page_of n T) tt (_page_cover T registry n).
Proof. intros [v E]%is_ok_ex. unfold sha_reads in E. inv_ok. unfold _page_cover. draw_walk. Qed.

Lemma dashboard_end :
  is_ok (target_reads registry) = true -> page_end (page_of n T) tt (_page_dashboard T registry n).
Proof.
  intros [v E]%is_ok_ex. unfold target_reads in E. cbn [mapR] in E. inv_ok.
  unfold _page_dashboard. draw_walk.
  match goal with Hin : In _ (enumerate _ _) |- _ =>
    apply enumerate_in in Hin as [_ [[= <- <- <-]|[[= <- <- <-]|[[= <- <- <-]|[]]]]] end; draw_walk.
Qed.

Lemma target_vs_current_end :
  is_ok (target_reads registry) = true -> is_ok (count_reads registry) = true ->
  page_end (page_of n T) tt (_page_target_vs_current T registry n).
Proof.
  intros [v E]%is_ok_ex [v' E']%is_ok_ex. unfold target_reads in E. unfold count_reads, card_list in E'.
  cbn [mapR] in E. inv_ok. unfold _page_target_vs_current. draw_walk.
Qed.

Lemma families_end :
  is_ok (count_reads registry) = true -> page_end (page_of n T) tt (_page_families T registry n).
Proof.
  intros [v E]%is_ok_ex. unfold count_reads, card_list in E. inv_ok. unfold _page_families. draw_walk.
  match goal with Hin : In _ _ |- _ =>
    repeat (destruct Hin as [<-|Hin]; [draw_walk|]); destruct Hin end.
Qed.

Lemma bars_ok (l : list (json * Z)) labels :
  mapR (fun '(k, _) => label ← label_or_key BLOCKER_LABELS k; as_str label) l = Ok labels ->
  exists bars, mapR (fun '(k, v) =>
    label ← label_or_key BLOCKER_LABELS k; label ← as_str label; Ok (label, v)) l = Ok bars.
Proof.
  revert labels. induction l as [|[k c] l IH]; intros labels E; [by exists []|].
  cbn [mapR] in *. inv_ok.
  match goal with Hl : mapR _ l = Ok _ |- _ => destruct (IH _ Hl) as [bars ->] end.
  eexists. repeat match goal with Hk : ?m = Ok _ |- context [?m] => rewrite Hk; cbn [mbind result_bind] end.
  reflexivity.
Qed.

Lemma blockers_end :
  is_ok (count_reads registry) = true -> page_end (page_of n T) tt (_page_blockers T registry n).
Proof.
  intros [v E]%is_ok_ex. unfold count_reads, card_list in E. inv_ok. unfold _page_blockers. draw_walk.
  destruct (bars_ok _ _ E) as [bars Eb].
  draw_walk.
Qed.

Lemma anatomy_end :
  is_ok (anatomy_reads registry) = true -> page_end (page_of n T) tt (_page_card_anatomy T registry n).
Proof.
  intros [v E]%is_ok_ex. unfold anatomy_reads in E. inv_ok. unfold _page_card_anatomy. draw_walk.
  all: read_member; draw_walk.
Qed.

Lemma mve_end : is_ok (mve_reads registry) = true -> page_end (page_of n T) tt (_page_mve T registry n).
Proof. intros [v E]%is_ok_ex. unfold mve_reads in E. inv_ok. unfold _page_mve. draw_walk. Qed.

Lemma priority_end :
  is_ok (anatomy_reads registry) = true -> page_end (page_of n T) tt (_page_priority T registry n).
Proof. intros [v E]%is_ok_ex. unfold anatomy_reads in E. inv_ok. unfold _page_priority. draw_walk. Qed.

Lemma provenance_end :
  is_ok (sha_reads registry) = true -> is_ok (binding_reads registry) = true ->
  is_ok registry_file_sha = true ->
  page_end (page_of n T) tt (_page_provenance T registry_file_sha registry n).
Proof.
  intros [v E]%is_ok_ex [v' E']%is_ok_ex [f Ef]%is_ok_ex. unfold sha_reads in E.
  unfold binding_reads in E'. inv_ok. unfold _page_provenance. draw_walk.
  match goal with Hin : In _ (enumerate _ _) |- _ => apply enumerate_in in Hin as [_ Hin] end.
  read_member. draw_walk.
Qed.
End ReadingPages.

(** ** The pages of a card *)

Section Details.
Context `{Reportlab} (T : Z) (registry card : json).

Lemma draw_block_at accent x y b :
  exists ops, draw_block accent x y b = Ok (y - block_height b, ops) /\ forallb quiet_call ops = true.
Proof.
  assert (forall m : draw unit, steps m ->
    exists ops, (_ ← m; mret (y - block_height b)) = Ok (y - block_height b, ops) /\
      forallb quiet_call ops = true) as Hk.
  { intros m ([] & ops & -> & Hq). exists (ops ++ []). split; [reflexivity|]. by rewrite app_nil_r. }
  unfold draw_block. apply Hk. destruct b; draw_steps.
Qed.

Lemma draw_blocks_at accent x blocks : forall y,
  exists y' ops, fold_draw (draw_block accent x) blocks y = Ok (y', ops) /\
    y' == y - column_height blocks /\ forallb quiet_call ops = true.
Proof.
  induction blocks as [|b blocks IH]; intros y; cbn [fold_draw column_height foldr].
  - exists y, []. repeat split. ring.
  - destruct (draw_block_at accent x y b) as (ops & E & Hq).
    destruct (IH (y - block_height b)) as (y' & ops' & E' & Hy & Hq').
    exists y', (ops ++ ops'). unfold mbind, draw_bind. rewrite E, E'. repeat split.
    + rewrite Hy. unfold column_height. ring.
    + by rewrite forallb_app, Hq, Hq'.
Qed.

(** A column that fits is drawn without the overflow assertion. *)
Lemma draw_column_steps accent page_index row :
  column_ok (snd row) -> steps (draw_column card accent page_index row).
Proof.
  destruct row as [i blocks]. intros [Hh _]. simpl in Hh. unfold draw_column. cbv zeta.
  apply steps_bind; [auto with drawdb|]. intros _.
  destruct (draw_blocks_at accent (DETAIL_MARGIN + inject_Z i * (DETAIL_COL_W + DETAIL_COL_GAP))
              blocks DETAIL_TOP) as (y & ops & E & Hy & Hq).
  exists tt, (ops ++ []). split; [|by rewrite app_nil_r].
  unfold mbind at 1, draw_bind at 1. rewrite E.
  destruct (Qlt_b_spec y (DETAIL_BOTTOM - 0.1)) as [Hl|Hl]; [|reflexivity].
  exfalso. rewrite Hy in Hl. unfold DETAIL_CONTENT_H in Hh. unfold DETAIL_BOTTOM in *. lra.
Qed.

Definition detail_foot (n : Z) : string := "NO AUTHORITY · " +:+ page_of n T.

Hypothesis (reads : is_ok (detail_reads registry card) = true).
Hypothesis (sha : is_ok (sha_reads registry) = true).

Lemma detail_header_steps i k count : steps (_detail_page_header card i k count).
Proof.
  destruct (is_ok_ex _ reads) as [v E]. unfold detail_reads in E.
  apply bind_ok in E as (? & Es & E). unfold _card_detail_sections in Es.
  apply bind_ok in Es as (? & Ei & Es). apply bind_ok in Es as (? & Ec & _). inv_ok.
  unfold _detail_page_header. draw_walk.
  unfold draw_chip. draw_walk.
Qed.

Lemma detail_footer_end n {A} (a : A) :
  page_end (detail_foot n) a (_ ← _detail_page_footer T registry card n; _ ← emit showPage; mret a).
Proof.
  destruct (is_ok_ex _ reads) as [v E]. unfold detail_reads in E.
  apply bind_ok in E as (? & _ & E). destruct (is_ok_ex _ sha) as [w Ew]. unfold sha_reads in Ew.
  inv_ok. unfold _detail_page_footer.
  match goal with H1 : getitem registry "registry_sha256" = _, H2 : getitem card "definition_sha256" = _ |- _ =>
    rewrite H1, H2 end.
  eexists [setStrokeColor BORDER; setLineWidth 0.5;
    line_to DETAIL_MARGIN 31 (DETAIL_PAGE_W - DETAIL_MARGIN) 31; setFont FONT_MONO 6.8;
    setFillColor MUTED; drawString DETAIL_MARGIN 17 _; drawCentredString (DETAIL_PAGE_W / 2) 17 _],
    (DETAIL_PAGE_W - DETAIL_MARGIN), 17. split; reflexivity.
Qed.

Lemma detail_page_end accent i count n row :
  Forall column_ok (snd row) ->
  page_end (detail_foot n) (n + 1)%Z (draw_detail_page T registry card accent i count n row).
Proof.
  destruct row as [k columns]. intros Hok. simpl in Hok. unfold draw_detail_page.
  apply page_bind; [apply detail_header_steps|]. intros _.
  apply page_bind; [|intros _; apply detail_footer_end].
  apply steps_for_each. intros [j column] [_ Hin]%enumerate_in. apply draw_column_steps. simpl.
  rewrite List.Forall_forall in Hok. by apply Hok.
Qed.
End Details.

(** ** The document *)

(** The foot of each page: the last text drawn to the right before it ends. *)
Fixpoint feet (foot : string) (ops : list call) : list string :=
  match ops with
  | [] => []
  | drawRightString _ _ text :: ops' => feet text ops'
  | showPage :: ops' => foot :: feet EmptyString ops'
  | _ :: ops' => feet foot ops'
  end.

Definition no_save (op : call) : bool := match op with save => false | _ => true end.

(** Drawing of whole pages with the given feet. *)
Definition draws {A} (labels : list string) (a : A) (m : draw A) : Prop :=
  exists ops, m = Ok (a, ops) /\ forallb no_save ops = true /\
    forall rest, feet EmptyString (ops ++ rest) = labels ++ feet EmptyString rest.

Lemma draws_bind {A B} l1 l2 a b (m : draw A) (f : A -> draw B) :
  draws l1 a m -> draws l2 b (f a) -> draws (l1 ++ l2) b (mbind f m).
Proof.
  intros (ops & -> & Hs & Hf) (ops' & E & Hs' & Hf'). exists (ops ++ ops').
  unfold mbind, draw_bind. rewrite E. repeat split.
  - by rewrite forallb_app, Hs, Hs'.
  - intros rest. by rewrite <- !app_assoc, Hf, Hf'.
Qed.

Lemma draws_ret {A} (a : A) : draws [] a (mret a).
Proof. by exists []. Qed.

Lemma feet_quiet ops : forall foot x y label rest,
  forallb quiet_call ops = true ->
  feet foot (ops ++ drawRightString x y label :: showPage :: rest) = label :: feet EmptyString rest.
Proof.
  induction ops as [|op ops IH]; intros foot x y label rest Hq; [done|].
  cbn [forallb] in Hq. apply andb_true_iff in Hq as [Ho Hq].
  destruct op; try done; cbn [app feet]; by apply IH.
Qed.

Lemma quiet_no_save ops : forallb quiet_call ops = true -> forallb no_save ops = true.
Proof.
  rewrite !forallb_forall. intros Hq op Hin. specialize (Hq op Hin). by destruct op.
Qed.

Lemma draws_page {A} label (a : A) m : page_end label a m -> draws [label] a m.
Proof.
  intros (ops & x & y & -> & Hq). eexists. split; [reflexivity|]. split.
  - rewrite forallb_app, (quiet_no_save _ Hq). done.
  - intros rest. rewrite <- app_assoc. by apply feet_quiet.
Qed.

(** Drawing of whole pages with the given feet, saved once at the end. *)
Definition saved {A} (labels : list string) (a : A) (m : draw A) : Prop :=
  exists ops, m = Ok (a, ops ++ [save]) /\ forallb no_save ops = true /\
    feet EmptyString ops = labels.

Lemma saved_bind {A B} l1 l2 a b (m : draw A) (f : A -> draw B) :
  draws l1 a m -> saved l2 b (f a) -> saved (l1 ++ l2) b (mbind f m).
Proof.
  intros (ops & -> & Hs & Hf) (ops' & E & Hs' & Hf'). exists (ops ++ ops').
  unfold mbind, draw_bind. rewrite E. repeat split.
  - by rewrite app_assoc.
  - by rewrite forallb_app, Hs, Hs'.
  - by rewrite Hf, Hf'.
Qed.

Lemma saved_emit {B} op l b (f : unit -> draw B) :
  match op with drawRightString _ _ _ | showPage | save => False | _ => True end ->
  saved l b (f tt) -> saved l b (mbind f (emit op)).
Proof.
  intros Ho Hd. apply (saved_bind [] l tt b); [|exact Hd].
  exists [op]. destruct op; by try destruct Ho.
Qed.

Lemma draws_lift {A B} l (r : result A) v b (f : A -> draw B) :
  r = Ok v -> draws l b (f v) -> draws l b (mbind f (liftD r)).
Proof. intros -> Hd. apply (draws_bind [] l v b); [apply draws_ret|exact Hd]. Qed.

(** A loop that draws pages with the feet [label] from the number [n] on. *)
Lemma draws_fold {A} (label : Z -> string) (f : Z -> A -> draw Z) (len : A -> nat) (l : list A) : forall n,
  (forall n a, In a l -> draws (map label (seqZ n (Z.of_nat (len a)))) (n + Z.of_nat (len a))%Z (f n a)) ->
  draws (map label (seqZ n (foldr Z.add 0%Z (map (fun a => Z.of_nat (len a)) l))))
    (n + foldr Z.add 0 (map (fun a => Z.of_nat (len a)) l))%Z (fold_draw f l n).
Proof.
  assert (forall l : list A, 0 <= foldr Z.add 0 (map (fun a => Z.of_nat (len a)) l))%Z as Hpos.
  { clear. induction l as [|a l IH]; simpl; lia. }
  induction l as [|a l IH]; intros n Hf; cbn [fold_draw map foldr].
  - rewrite Z.add_0_r. apply draws_ret.
  - rewrite seqZ_app, map_app, Z.add_assoc by (specialize (Hpos l); lia).
    eapply draws_bind; [apply Hf; by left|]. apply IH. intros n' b Hb. apply Hf. by right.
Qed.
