(* ===== verification/PdfText.v ===== *)
(** * Wrapping text

    [_split_lines] of tools/render_experiment_registry_pdf.py cuts a text into
    lines of a given width, character by character.  The lines have exactly the
    visible characters of the text, in order, and each of them fits unless it is
    a single character. *)

From stdpp Require Import base list strings numbers.
From Stdlib Require Import ZArith Lia Bool Ascii QArith.
From S2P Require Import Prelude PyJson Sha256 JsonText PyText PdfCanvas.

(** The characters of a text that are not white space. *)
Definition visible (s : string) : list string := List.filter (fun ch => negb (is_blank ch)) (chars s).

(** ** Characters *)

(** A character is complete when it stays one whatever follows it. *)
Definition complete (ch : string) : Prop := forall rest, chars (ch +:+ rest) = ch :: chars rest.

Lemma chars_text l : Forall complete l -> forall rest, chars (text_of l +:+ rest) = l ++ chars rest.
Proof.
  induction 1 as [|ch l Hc _ IH]; intros rest; [done|].
  change (text_of (ch :: l)) with (ch +:+ text_of l).
  rewrite append_assoc, Hc, IH. done.
Qed.

Lemma chars_text_of l : Forall complete l -> chars (text_of l) = l.
Proof.
  intros Hl. rewrite <- (append_nil_r (text_of l)), (chars_text l Hl). apply app_nil_r.
Qed.

(** A continuation byte. *)
Definition continues (c : ascii) : bool := let n := nat_of_ascii c in (128 <=? n)%nat && (n <=? 191)%nat.

Fixpoint all_continue (s : string) : bool :=
  match s with String c s' => continues c && all_continue s' | EmptyString => true end.

(** The bytes of one character: a first byte and continuation bytes. *)
Definition one_char (ch : string) : Prop :=
  complete ch /\ (forall rest, utf8_valid (ch +:+ rest) = utf8_valid rest) /\
  exists c t, ch = String c t /\ all_continue t = true.

Definition between (lo hi : nat) (c : ascii) : bool :=
  let n := nat_of_ascii c in (lo <=? n)%nat && (n <=? hi)%nat.

Lemma between_weaken lo hi c :
  (128 <= lo)%nat -> (hi <= 191)%nat -> between lo hi c = true -> continues c = true.
Proof.
  unfold between, continues. intros Hlo Hhi [A%Nat.leb_le B%Nat.leb_le]%andb_true_iff.
  by rewrite (proj2 (Nat.leb_le 128 _)), (proj2 (Nat.leb_le _ 191)) by lia.
Qed.

(** Characters of one, two, three and four bytes. *)
Lemma one_char1 c : (nat_of_ascii c < 128)%nat -> one_char (str1 c).
Proof.
  intros E. split; [|split].
  - intros rest. change (str1 c +:+ rest) with (String c rest). cbn [chars].
    destruct rest; [done|]. by rewrite (proj2 (Nat.ltb_lt (nat_of_ascii c) 192)) by lia.
  - intros rest. change (str1 c +:+ rest) with (String c rest). cbn [utf8_valid].
    by rewrite (proj2 (Nat.ltb_lt (nat_of_ascii c) 128)) by lia.
  - by exists c, EmptyString.
Qed.

Lemma one_char2 c c1 :
  between 194 223 c = true -> between 128 191 c1 = true -> one_char (String c (str1 c1)).
Proof.
  intros E H1. pose proof E as [A%Nat.leb_le B%Nat.leb_le]%andb_true_iff. split; [|split].
  - intros rest. change (String c (str1 c1) +:+ rest) with (String c (String c1 rest)).
    cbn [chars]. by rewrite (proj2 (Nat.ltb_ge (nat_of_ascii c) 192)), (proj2 (Nat.ltb_lt (nat_of_ascii c) 224)) by lia.
  - intros rest. change (String c (str1 c1) +:+ rest) with (String c (String c1 rest)).
    unfold between in *. cbn [utf8_valid].
    by rewrite (proj2 (Nat.ltb_ge (nat_of_ascii c) 128)), E, H1 by lia.
  - exists c, (str1 c1). split; [done|]. cbn [all_continue str1].
    by rewrite (between_weaken _ _ _ (le_n _) (le_n _) H1).
Qed.

Lemma one_char3 c c1 c2 :
  between 224 239 c = true ->
  between (if (nat_of_ascii c =? 224)%nat then 160 else 128)
          (if (nat_of_ascii c =? 237)%nat then 159 else 191) c1 = true ->
  between 128 191 c2 = true -> one_char (String c (String c1 (str1 c2))).
Proof.
  intros E H1 H2. pose proof E as [A%Nat.leb_le B%Nat.leb_le]%andb_true_iff. split; [|split].
  - intros rest.
    change (String c (String c1 (str1 c2)) +:+ rest) with (String c (String c1 (String c2 rest))).
    cbn [chars].
    by rewrite (proj2 (Nat.ltb_ge (nat_of_ascii c) 192)), (proj2 (Nat.ltb_ge (nat_of_ascii c) 224)), (proj2 (Nat.ltb_lt (nat_of_ascii c) 240)) by lia.
  - intros rest.
    change (String c (String c1 (str1 c2)) +:+ rest) with (String c (String c1 (String c2 rest))).
    unfold between in *. cbn [utf8_valid].
    by rewrite (proj2 (Nat.ltb_ge (nat_of_ascii c) 128)), (proj2 (Nat.leb_gt (nat_of_ascii c) 223)), andb_false_r, E, H1, H2 by lia.
  - exists c, (String c1 (str1 c2)). split; [done|]. cbn [all_continue str1].
    rewrite (between_weaken _ _ _ (le_n _) (le_n _) H2).
    assert (continues c1 = true) as ->; [|done].
    eapply between_weaken; [| |exact H1]; repeat (destruct (_ =? _)%nat); lia.
Qed.

Lemma one_char4 c c1 c2 c3 :
  between 240 244 c = true ->
  between (if (nat_of_ascii c =? 240)%nat then 144 else 128)
          (if (nat_of_ascii c =? 244)%nat then 143 else 191) c1 = true ->
  between 128 191 c2 = true -> between 128 191 c3 = true ->
  one_char (String c (String c1 (String c2 (str1 c3)))).
Proof.
  intros E H1 H2 H3. pose proof E as [A%Nat.leb_le B%Nat.leb_le]%andb_true_iff. split; [|split].
  - intros rest. change (String c (String c1 (String c2 (str1 c3))) +:+ rest)
      with (String c (String c1 (String c2 (String c3 rest)))). cbn [chars].
    by rewrite (proj2 (Nat.ltb_ge (nat_of_ascii c) 192)), (proj2 (Nat.ltb_ge (nat_of_ascii c) 224)), (proj2 (Nat.ltb_ge (nat_of_ascii c) 240)) by lia.
  - intros rest. change (String c (String c1 (String c2 (str1 c3))) +:+ rest)
      with (String c (String c1 (String c2 (String c3 rest)))).
    unfold between in *. cbn [utf8_valid].
    by rewrite (proj2 (Nat.ltb_ge (nat_of_ascii c) 128)), (proj2 (Nat.leb_gt (nat_of_ascii c) 223)), (proj2 (Nat.leb_gt (nat_of_ascii c) 239)),
      !andb_false_r, E, H1, H2, H3 by lia.
  - exists c, (String c1 (String c2 (str1 c3))). split; [done|]. cbn [all_continue str1].
    rewrite (between_weaken _ _ _ (le_n _) (le_n _) H2), (between_weaken _ _ _ (le_n _) (le_n _) H3).
    assert (continues c1 = true) as ->; [|done].
    eapply between_weaken; [| |exact H1]; repeat (destruct (_ =? _)%nat); lia.
Qed.

(** A valid text starts with a character. *)
Lemma utf8_first s :
  utf8_valid s = true -> s = EmptyString \/
  exists ch rest, s = ch +:+ rest /\ utf8_valid rest = true /\ one_char ch.
Proof.
  destruct s as [|c s1]; [by left|]. intros Hv. right. revert Hv. cbn [utf8_valid]. cbv zeta.
  destruct (Nat.ltb_spec (nat_of_ascii c) 128) as [E1|_].
  { intros Hv. exists (str1 c), s1. by auto using one_char1. }
  destruct s1 as [|c1 s2]; [done|].
  destruct ((194 <=? _)%nat && _) eqn:E2.
  { intros [H1 Hv]%andb_true_iff. exists (String c (str1 c1)), s2. by auto using one_char2. }
  destruct s2 as [|c2 s3]; [done|].
  destruct ((224 <=? _)%nat && _) eqn:E3.
  { intros [[H1 H2]%andb_true_iff Hv]%andb_true_iff.
    exists (String c (String c1 (str1 c2))), s3. by auto using one_char3. }
  destruct s3 as [|c3 s4]; [done|].
  intros [[[[E4 H1]%andb_true_iff H2]%andb_true_iff H3]%andb_true_iff Hv]%andb_true_iff.
  exists (String c (String c1 (String c2 (str1 c3)))), s4. by auto using one_char4.
Qed.

Lemma one_char_length ch rest : one_char ch -> (String.length rest < String.length (ch +:+ rest))%nat.
Proof.
  intros (_ & _ & c & t & -> & _). rewrite append_cons. cbn [String.length].
  enough (String.length rest <= String.length (t +:+ rest))%nat by lia.
  clear. induction t as [|x t IH]; [done|]. rewrite append_cons. cbn [String.length]. lia.
Qed.

Lemma valid_chars s : utf8_valid s = true -> Forall complete (chars s) /\ text_of (chars s) = s.
Proof.
  remember (String.length s) as n eqn:En. revert s En.
  induction n as [n IH] using lt_wf_ind. intros s -> Hv.
  destruct (utf8_first s Hv) as [->|(ch & rest & -> & Hr & Hc)]; [done|].
  pose proof (one_char_length ch rest Hc) as Hl. destruct (IH _ Hl rest eq_refl Hr) as [Hf Ht].
  destruct Hc as [Hc _]. rewrite Hc. split; [by constructor|].
  change (ch +:+ text_of (chars rest) = ch +:+ rest). by rewrite Ht.
Qed.

Lemma chars_app a b : utf8_valid a = true -> chars (a +:+ b) = chars a ++ chars b.
Proof.
  intros Hv. destruct (valid_chars a Hv) as [Hf Ht]. rewrite <- Ht at 1. by apply chars_text.
Qed.

Lemma visible_app a b : utf8_valid a = true -> visible (a +:+ b) = visible a ++ visible b.
Proof. intros Hv. unfold visible. by rewrite chars_app, List.filter_app. Qed.

(** ** Lines of a text *)

(** A text that does not start inside a character. *)
Definition starts_char (b : string) : bool :=
  match b with String c _ => negb (continues c) | EmptyString => true end.

Lemma continue_prefix t : forall rest a b,
  all_continue t = true -> starts_char b = true -> t +:+ rest = a +:+ b ->
  exists a', a = t +:+ a' /\ rest = a' +:+ b.
Proof.
  induction t as [|x t IH]; intros rest a b Ht Hb E; [by exists a|].
  cbn [all_continue] in Ht. apply andb_true_iff in Ht as [Hx Ht].
  destruct a as [|y a].
  - change (EmptyString +:+ b) with b in E. subst b. rewrite append_cons in Hb. cbn [starts_char] in Hb. by rewrite Hx in Hb.
  - rewrite !append_cons in E. injection E as <- E.
    destruct (IH _ _ _ Ht Hb E) as (a' & -> & ->). exists a'. by rewrite append_cons.
Qed.

(** A valid text is valid on both sides of a character boundary. *)
Lemma valid_split a b :
  utf8_valid (a +:+ b) = true -> starts_char b = true ->
  utf8_valid a = true /\ utf8_valid b = true.
Proof.
  remember (String.length a) as n eqn:En. revert a En.
  induction n as [n IH] using lt_wf_ind. intros a -> Hv Hb.
  destruct a as [|x a]; [done|].
  destruct (utf8_first _ Hv) as [E|(ch & rest & E & Hr & (_ & Hc & c & t & -> & Ht))]; [done|].
  rewrite !append_cons in E. injection E as <- E. symmetry in E.
  destruct (continue_prefix _ _ _ _ Ht Hb E) as (a' & -> & ->).
  destruct (IH (String.length a')) with (a := a') as [Ha Hbv]; try done.
  - cbn [String.length]. rewrite string_length_app. lia.
  - split; [|done]. rewrite <- append_cons, Hc. done.
Qed.

Lemma blank_char c :
  (nat_of_ascii c = 13 \/ (10 <= nat_of_ascii c <= 12) \/ (28 <= nat_of_ascii c <= 30))%nat ->
  is_blank (str1 c) = true /\ starts_char (String c EmptyString) = true /\ (nat_of_ascii c < 128)%nat.
Proof.
  intros Hc. split; [|split; [|lia]].
  - unfold is_blank, space_bytes. cbn [String.get str1].
    destruct (_ || _) eqn:E; [done|]. exfalso.
    rewrite !orb_false_iff, !andb_false_iff, !Nat.eqb_neq, !Nat.leb_gt in E. lia.
  - cbn. unfold continues. apply negb_true_iff, andb_false_iff. rewrite !Nat.leb_gt. lia.
Qed.

(** Cutting a text at a white space character. *)
Lemma cut_blank cur ch rest :
  one_char ch -> is_blank ch = true -> starts_char (ch +:+ rest) = true ->
  utf8_valid (cur +:+ (ch +:+ rest)) = true ->
  utf8_valid cur = true /\ utf8_valid rest = true /\
  visible (cur +:+ (ch +:+ rest)) = visible cur ++ visible rest.
Proof.
  intros (Hc & Hval & _) Hb Hs Hv. destruct (valid_split _ _ Hv Hs) as [H1 H2].
  rewrite Hval in H2. split; [done|]. split; [done|]. rewrite visible_app by done. f_equal.
  unfold visible. rewrite Hc. cbn [List.filter]. by rewrite Hb.
Qed.

(** What is asked of [splitlines s cur]. *)
Definition lines_ok (cur s : string) (lines : list string) : Prop :=
  Forall (fun p => utf8_valid p = true) lines /\ flat_map visible lines = visible (cur +:+ s).

Lemma lines_ok_cut cur ch rest lines :
  one_char ch -> is_blank ch = true -> starts_char (ch +:+ rest) = true ->
  utf8_valid (cur +:+ (ch +:+ rest)) = true ->
  (utf8_valid rest = true -> lines_ok EmptyString rest lines) ->
  lines_ok cur (ch +:+ rest) (cur :: lines).
Proof.
  intros Hc Hb Hs Hv Hl. destruct (cut_blank cur ch rest Hc Hb Hs Hv) as (H1 & H2 & H3).
  destruct (Hl H2) as [Hf He]. split; [by constructor|].
  cbn [flat_map]. rewrite He, H3. done.
Qed.

Lemma lines_ok_next cur c s lines :
  lines_ok (cur +:+ str1 c) s lines -> lines_ok cur (String c s) lines.
Proof. unfold lines_ok. by rewrite append_assoc. Qed.

(** The white space characters of two and three bytes that end a line. *)
Lemma next_line_char c d :
  nat_of_ascii c = 194%nat -> nat_of_ascii d = 133%nat ->
  one_char (String c (str1 d)) /\ is_blank (String c (str1 d)) = true.
Proof.
  intros Hc Hd. split.
  - apply one_char2; unfold between; by rewrite ?Hc, ?Hd.
  - unfold is_blank, space_bytes. cbn [String.get str1]. by rewrite Hc, Hd.
Qed.

Lemma line_separator_char c d e :
  nat_of_ascii c = 226%nat -> nat_of_ascii d = 128%nat ->
  (nat_of_ascii e = 168 \/ nat_of_ascii e = 169)%nat ->
  one_char (String c (String d (str1 e))) /\ is_blank (String c (String d (str1 e))) = true.
Proof.
  intros Hc Hd He. split.
  - apply one_char3; unfold between; rewrite ?Hc, ?Hd; try done. by destruct He as [-> | ->].
  - unfold is_blank, space_bytes. cbn [String.get str1]. rewrite Hc, Hd. by destruct He as [-> | ->].
Qed.

Lemma starts_lead c s : (192 <= nat_of_ascii c)%nat -> starts_char (String c s) = true.
Proof.
  intros Hc. cbn. unfold continues. apply negb_true_iff, andb_false_iff. right.
  apply Nat.leb_gt. lia.
Qed.

Lemma splitlines_ok s : forall cur,
  utf8_valid (cur +:+ s) = true -> lines_ok cur s (splitlines s cur).
Proof.
  remember (String.length s) as n eqn:En. revert s En.
  induction n as [n IH] using lt_wf_ind. intros s -> cur Hv.
  assert (forall t cur', (String.length t < String.length s)%nat -> utf8_valid (cur' +:+ t) = true ->
    lines_ok cur' t (splitlines t cur')) as Hrec by (intros; by eapply IH). clear IH.
  destruct s as [|c s1]; cbn [splitlines].
  { rewrite append_nil_r in Hv. unfold lines_ok. rewrite append_nil_r.
    destruct (String.eqb_spec cur EmptyString) as [->|]; [done|]. split; [by constructor|].
    cbn [flat_map]. apply app_nil_r. }
  assert (forall lines, (utf8_valid s1 = true -> lines_ok EmptyString s1 lines) ->
    (nat_of_ascii c = 13 \/ (10 <= nat_of_ascii c <= 12) \/ (28 <= nat_of_ascii c <= 30))%nat ->
    lines_ok cur (String c s1) (cur :: lines)) as Hcut.
  { intros lines Hl Hc. destruct (blank_char c Hc) as (Hb & Hs & H128).
    apply (lines_ok_cut cur (str1 c) s1); [by apply one_char1|done..]. }
  assert (lines_ok cur (String c s1) (splitlines s1 (cur +:+ str1 c))) as Hnext.
  { apply lines_ok_next, Hrec; [cbn; lia|]. by rewrite append_assoc. }
  destruct (Nat.eqb_spec (nat_of_ascii c) 13) as [E13|_].
  { destruct s1 as [|d s2]; [by apply Hcut; [|lia]|].
    destruct (Nat.eqb_spec (nat_of_ascii d) 10) as [E10|_].
    - apply Hcut; [|lia]. intros Hd. 
      destruct (blank_char d ltac:(lia)) as (Hb & Hs & H128).
      destruct (cut_blank EmptyString (str1 d) s2 (one_char1 d H128) Hb Hs Hd) as (_ & H2 & H3).
      destruct (Hrec s2 EmptyString) as [Hf He]; [cbn; lia|done|].
      split; [done|]. rewrite He. symmetry. exact H3.
    - apply Hcut; [|lia]. intros Hd. apply Hrec; [cbn; lia|done]. }
  destruct (_ || _) eqn:Eb.
  { apply Hcut; [intros Hd; apply Hrec; [cbn; lia|done]|].
    rewrite !orb_true_iff, !andb_true_iff, !Nat.eqb_eq, !Nat.leb_le in Eb. lia. }
  destruct (Nat.eqb_spec (nat_of_ascii c) 194) as [E194|_].
  { destruct s1 as [|d s2].
    { revert Hnext. cbn [splitlines]. destruct (String.eqb_spec (cur +:+ str1 c) EmptyString); [|done].
      by destruct cur. }
    destruct (Nat.eqb_spec (nat_of_ascii d) 133) as [E133|_]; [|exact Hnext].
    destruct (next_line_char c d E194 E133) as [Hc Hb].
    apply (lines_ok_cut cur (String c (str1 d)) s2); try done; [apply starts_lead; lia|].
    intros H2. apply Hrec; [cbn; lia|done]. }
  destruct (Nat.eqb_spec (nat_of_ascii c) 226) as [E226|_]; [|exact Hnext].
  destruct s1 as [|d [|e s3]]; [exact Hnext..|].
  destruct ((nat_of_ascii d =? 128)%nat && _) eqn:Ee; [|exact Hnext].
  rewrite andb_true_iff, orb_true_iff, !Nat.eqb_eq in Ee. destruct Ee as [Ed Ee].
  destruct (line_separator_char c d e E226 Ed Ee) as [Hc Hb].
  apply (lines_ok_cut cur (String c (String d (str1 e))) s3); try done; [apply starts_lead; lia|].
  intros H2. apply Hrec; [cbn; lia|done].
Qed.

(** ** Wrapping *)

Lemma filter_rstrip l :
  List.filter (fun ch => negb (is_blank ch)) (rstrip l) = List.filter (fun ch => negb (is_blank ch)) l.
Proof.
  assert (forall l, List.filter (fun ch => negb (is_blank ch)) (drop_blank l)
                    = List.filter (fun ch => negb (is_blank ch)) l) as Hd.
  { clear. induction l as [|ch l IH]; [done|]. cbn [drop_blank].
    destruct (is_blank ch) eqn:E; [|done]. rewrite IH. cbn [List.filter]. by rewrite E. }
  unfold rstrip. by rewrite List.filter_rev, Hd, List.filter_rev, rev_involutive.
Qed.

Lemma drop_blank_incl l : exists k, drop_blank l = skipn k l.
Proof.
  induction l as [|ch l [k IH]]; [by exists 0%nat|]. cbn [drop_blank].
  destruct (is_blank ch); [by exists (S k)|by exists 0%nat].
Qed.

Lemma rstrip_length l : (length (rstrip l) <= length l)%nat.
Proof.
  unfold rstrip. destruct (drop_blank_incl (rev l)) as [k ->].
  rewrite length_rev, length_skipn, length_rev. lia.
Qed.

Lemma rstrip_complete l : Forall complete l -> Forall complete (rstrip l).
Proof.
  intros Hl. unfold rstrip. destruct (drop_blank_incl (rev l)) as [k ->].
  apply Forall_rev. apply Forall_drop. by apply Forall_rev.
Qed.

Section Wrapping.
Context `{Reportlab} (max_width : Q) (font : string) (size : Q).

Lemma line_visible l :
  Forall complete l -> visible (text_of (rstrip l)) = List.filter (fun ch => negb (is_blank ch)) l.
Proof.
  intros Hl. unfold visible. rewrite chars_text_of by by apply rstrip_complete. apply filter_rstrip.
Qed.

(** The lines of a paragraph have its visible characters. *)
Lemma wrap_visible rest : forall current,
  Forall complete current -> Forall complete rest ->
  flat_map visible (wrap max_width font size current rest)
  = List.filter (fun ch => negb (is_blank ch)) (current ++ rest).
Proof.
  induction rest as [|ch rest IH]; intros current Hc Hr; cbn [wrap].
  { cbn [flat_map]. rewrite !app_nil_r. by apply line_visible. }
  inversion Hr as [|? ? Hch Hrest]; subst. cbv zeta.
  destruct (_ && _).
  - cbn [flat_map]. rewrite line_visible, IH by (try done; unfold lstrip1; destruct (is_blank ch); by repeat constructor).
    rewrite !List.filter_app. f_equal. unfold lstrip1. cbn [List.filter].
    destruct (is_blank ch) eqn:E; cbn [List.filter negb app]; [done|]. by rewrite E.
  - rewrite IH, <- app_assoc; [done| |done]. apply Forall_app. by repeat constructor.
Qed.

(** Every line is a line of characters that fit, or of one character. *)
Definition fits (cur : list string) : Prop :=
  (length cur <= 1)%nat \/ (stringWidth (text_of cur) font size <= max_width)%Q.

Lemma wrap_fits rest : forall current,
  fits current -> Forall complete current -> Forall complete rest ->
  Forall (fun line => exists cur, line = text_of (rstrip cur) /\ Forall complete cur /\ fits cur)
    (wrap max_width font size current rest).
Proof.
  induction rest as [|ch rest IH]; intros current Hf Hc Hr; cbn [wrap].
  { constructor; [|constructor]. by exists current. }
  inversion Hr as [|? ? Hch Hrest]; subst. cbv zeta. destruct (_ && _) eqn:E.
  - constructor; [by exists current|]. unfold lstrip1.
    apply IH; [left; destruct (is_blank ch); cbn; lia| |done]. destruct (is_blank ch); by repeat constructor.
  - apply IH; [|apply Forall_app; by repeat constructor|done]. apply andb_false_iff in E as [E|E].
    + destruct current; [|done]. by left.
    + right. unfold Qlt_b in E. apply negb_false_iff in E. by apply Qle_bool_iff in E.
Qed.

(** [_split_lines] keeps the visible text. *)
Lemma split_lines_keeps s :
  utf8_valid s = true -> flat_map visible (_split_lines (JStr s) max_width font size) = visible s.
Proof.
  intros Hv. unfold _split_lines, paragraphs. cbn [is_none py_str].
  destruct (splitlines_ok s EmptyString Hv) as [Hf He].
  change (EmptyString +:+ s) with s in He. rewrite <- He.
  assert (forall ps, Forall (fun p => utf8_valid p = true) ps ->
    flat_map visible (flat_map (fun p => wrap max_width font size [] (chars p)) ps)
    = flat_map visible ps) as Hps.
  { clear. induction 1 as [|p ps Hp _ IH]; [done|]. cbn [flat_map]. rewrite flat_map_app, IH. f_equal.
    apply (wrap_visible (chars p) []); [constructor|]. by apply valid_chars. }
  destruct (splitlines s EmptyString) as [|p ps] eqn:E; [done|]. by apply Hps.
Qed.
End Wrapping.
