(* ===== verification/PayloadText.v ===== *)
(** * The written text is UTF-8

    The text that [_write_registry] of tools/experiment_registry.py writes is
    valid UTF-8 when the texts of the value are, so that reading it back with
    [read_text] decodes it; the hash of a text is ASCII. *)

From stdpp Require Import base list strings numbers.
From Stdlib Require Import ZArith Lia Bool Ascii Decimal DecimalString.
From S2P Require Import Prelude PyJson Sha256 JsonText PyText PdfCanvas PdfText.

(** ** Concatenation *)

Lemma utf8_app a b : utf8_valid a = true -> utf8_valid (a +:+ b) = utf8_valid b.
Proof.
  remember (String.length a) as n eqn:En. revert a En.
  induction n as [n IH] using lt_wf_ind. intros a -> Ha.
  destruct (utf8_first a Ha) as [->|(ch & rest & -> & Hr & Hc)]; [done|].
  pose proof (one_char_length ch rest Hc) as Hl. destruct Hc as (_ & Hc & _).
  rewrite append_assoc, Hc. by eapply IH.
Qed.

Lemma utf8_both a b : utf8_valid a = true -> utf8_valid b = true -> utf8_valid (a +:+ b) = true.
Proof. intros Ha Hb. by rewrite utf8_app. Qed.

(** Text of bytes below 128. *)
Fixpoint ascii_text (s : string) : bool :=
  match s with String c s' => (nat_of_ascii c <? 128)%nat && ascii_text s' | EmptyString => true end.

Lemma ascii_utf8 s : ascii_text s = true -> utf8_valid s = true.
Proof.
  induction s as [|c s IH]; [done|]. cbn [ascii_text utf8_valid]. intros [-> Hs]%andb_true_iff. auto.
Qed.

Lemma ascii_app a b : ascii_text (a +:+ b) = ascii_text a && ascii_text b.
Proof.
  induction a as [|c a IH]; [done|]. rewrite append_cons. cbn [ascii_text]. by rewrite IH, andb_assoc.
Qed.

(** ** Numbers and hashes *)

Lemma ascii_uint d : ascii_text (NilEmpty.string_of_uint d) = true.
Proof. induction d as [|d IH|d IH|d IH|d IH|d IH|d IH|d IH|d IH|d IH|d IH]; cbn; done. Qed.

Lemma ascii_show_Z z : ascii_text (show_Z z) = true.
Proof.
  unfold show_Z. destruct (Z.to_int z) as [d|d]; cbn [NilZero.string_of_int];
    [|cbn [ascii_text]]; unfold NilZero.string_of_uint; destruct d; try done; apply ascii_uint.
Qed.

Lemma ascii_zeros n : ascii_text (zeros n) = true.
Proof. induction n as [|n IH]; [done|]. exact IH. Qed.

Lemma ascii_show_dec m e : ascii_text (show_dec m e) = true.
Proof.
  unfold show_dec. cbv zeta. rewrite !ascii_app, !ascii_show_Z, ascii_zeros. by destruct (_ <? _)%Z.
Qed.

Lemma ascii_hex_digit n : (n < 16)%nat -> (nat_of_ascii (hex_digit n) <? 128)%nat = true.
Proof. intros Hn. do 16 (destruct n as [|n]; [reflexivity|]). lia. Qed.

Lemma ascii_spaces n : ascii_text (String newline (spaces n)) = true.
Proof. induction n as [|n IH]; [done|]. exact IH. Qed.

(** ** Strings *)

Lemma esc_char_ascii c : (nat_of_ascii c < 128)%nat -> ascii_text (esc_char c) = true.
Proof.
  intros Hc. unfold esc_char. cbv zeta. repeat (destruct (_ =? _)%nat; [done|]).
  destruct (Nat.ltb_spec (nat_of_ascii c) 32) as [H32|_].
  - assert (nat_of_ascii c / 16 < 16)%nat as Hd by (apply Nat.Div0.div_lt_upper_bound; lia).
    assert (nat_of_ascii c mod 16 < 16)%nat as Hm by (apply Nat.mod_upper_bound; lia).
    apply ascii_hex_digit in Hd, Hm.
    remember (hex_digit (nat_of_ascii c / 16)) as h1. remember (hex_digit (nat_of_ascii c mod 16)) as h2.
    change (ascii_text (String h1 (str1 h2)) = true). cbn [ascii_text str1]. by rewrite Hd, Hm.
  - cbn [ascii_text str1]. by rewrite (proj2 (Nat.ltb_lt _ _) Hc).
Qed.

Lemma esc_char_high c : (128 <= nat_of_ascii c)%nat -> esc_char c = str1 c.
Proof.
  intros Hc. unfold esc_char. cbv zeta.
  repeat (rewrite (proj2 (Nat.eqb_neq (nat_of_ascii c) _)) by lia).
  by rewrite (proj2 (Nat.ltb_ge (nat_of_ascii c) 32)) by lia.
Qed.

Lemma esc_high t : forall rest, all_continue t = true -> esc (t +:+ rest) = t +:+ esc rest.
Proof.
  induction t as [|c t IH]; intros rest Ht; [done|]. cbn [all_continue] in Ht.
  apply andb_true_iff in Ht as [Hc Ht]. rewrite append_cons. cbn [esc]. rewrite IH by done.
  unfold continues in Hc. apply andb_true_iff in Hc as [Hc%Nat.leb_le _].
  by rewrite esc_char_high.
Qed.

Lemma continue_invalid t : all_continue t = true -> utf8_valid t = true -> t = EmptyString.
Proof.
  destruct t as [|c s1]; [done|]. cbn [all_continue utf8_valid]. unfold continues.
  intros [[Hlo%Nat.leb_le Hhi%Nat.leb_le]%andb_true_iff _]%andb_true_iff.
  rewrite (proj2 (Nat.ltb_ge (nat_of_ascii c) 128)), (proj2 (Nat.leb_gt 194 (nat_of_ascii c))),
    (proj2 (Nat.leb_gt 224 (nat_of_ascii c))), (proj2 (Nat.leb_gt 240 (nat_of_ascii c))) by lia.
  by destruct s1 as [|? [|? [|? ?]]].
Qed.

Lemma utf8_esc s : utf8_valid s = true -> utf8_valid (esc s) = true.
Proof.
  remember (String.length s) as n eqn:En. revert s En.
  induction n as [n IH] using lt_wf_ind. intros s -> Hs.
  destruct (utf8_first s Hs) as [->|(ch & rest & -> & Hr & Hc)]; [done|].
  pose proof (one_char_length ch rest Hc) as Hl. specialize (IH _ Hl rest eq_refl Hr).
  destruct Hc as (_ & Hval & c & t & -> & Ht). rewrite append_cons. cbn [esc].
  rewrite esc_high by done. destruct (Nat.lt_ge_cases (nat_of_ascii c) 128) as [Hc|Hc].
  - rewrite utf8_app by by apply ascii_utf8, esc_char_ascii.
    assert (t = EmptyString) as ->; [|exact IH]. apply continue_invalid; [done|].
    specialize (Hval EmptyString). rewrite append_nil_r in Hval. cbn [utf8_valid] in Hval.
    by rewrite (proj2 (Nat.ltb_lt _ 128) Hc) in Hval.
  - rewrite esc_char_high by done. change (str1 c +:+ (t +:+ esc rest)) with (String c t +:+ esc rest).
    by rewrite Hval.
Qed.

Lemma utf8_quote s : utf8_valid s = true -> utf8_valid (quote s) = true.
Proof.
  intros Hs. unfold quote. change (utf8_valid (esc s +:+ str1 dquote) = true).
  apply utf8_both; [by apply utf8_esc|done].
Qed.

(** ** The indented text *)

Lemma utf8_join sep l :
  utf8_valid sep = true -> Forall (fun s => utf8_valid s = true) l -> utf8_valid (join sep l) = true.
Proof.
  intros Hsep. induction 1 as [|s l Hs Hl IH]; [done|]. destruct l as [|t l]; [done|].
  change (utf8_valid (s +:+ (sep +:+ join sep (t :: l))) = true). by rewrite !utf8_app.
Qed.

Lemma utf8_nl k : utf8_valid (String newline (spaces k)) = true.
Proof. apply ascii_utf8, ascii_spaces. Qed.

(** Brackets around items, one per line. *)
Lemma utf8_block lvl opening closing l :
  utf8_valid opening = true -> utf8_valid closing = true -> Forall (fun s => utf8_valid s = true) l ->
  utf8_valid (opening +:+ String newline (spaces (2 * S lvl)) +:+
    join ("," +:+ String newline (spaces (2 * S lvl))) l +:+
    String newline (spaces (2 * lvl)) +:+ closing) = true.
Proof.
  intros Ho Hc Hl. rewrite !utf8_app; try done; try apply utf8_nl.
  apply utf8_join; [|done]. apply (utf8_both ","); [done|apply utf8_nl].
Qed.

Lemma utf8_print_indent v : forall lvl, utf8_json v = true -> utf8_valid (print_indent lvl v) = true.
Proof.
  induction v as [| | | | |l IH|d IH] using json_ind; intros lvl Hv; try done.
  - by destruct b.
  - apply ascii_utf8, ascii_show_Z.
  - apply ascii_utf8, ascii_show_dec.
  - by apply utf8_quote.
  - destruct l as [|x l]; [done|]. apply (utf8_block lvl "[" "]"); [done..|].
    apply Forall_map. cbn [utf8_json] in Hv. rewrite forallb_forall in Hv.
    rewrite List.Forall_forall in IH |- *. intros y Hy. apply IH; auto.
  - destruct d as [|x d]; [done|]. apply (utf8_block lvl "{" "}"); [done..|].
    apply Forall_map. cbn [utf8_json] in Hv. rewrite forallb_forall in Hv.
    rewrite List.Forall_forall in IH |- *. intros [k w] Hy. specialize (Hv _ Hy). cbn in Hv.
    apply andb_true_iff in Hv as [Hk Hw]. specialize (IH _ Hy). simpl in IH. simpl.
    rewrite utf8_app by by apply utf8_quote. apply (utf8_both ": "); [done|]. by apply IH.
Qed.

(** Sorting the keys keeps the texts. *)
Lemma utf8_sorted (d : list (string * json)) :
  forallb (fun kv => match kv with (k, w) => utf8_valid k && utf8_json w end) d = true ->
  forallb (fun kv => match kv with (k, w) => utf8_valid k && utf8_json w end) (sort_items d) = true.
Proof.
  rewrite !forallb_forall. intros Hd kv Hin. apply Hd.
  by apply (Permutation_in _ (sort_items_perm d)).
Qed.

Lemma utf8_canon v : utf8_json v = true -> utf8_json (canon v) = true.
Proof.
  induction v as [| | | | |l IH|d IH] using json_ind; intros Hv; try done; cbn [canon utf8_json] in *.
  - rewrite forallb_forall in *. intros x (y & <- & Hy)%in_map_iff.
    rewrite List.Forall_forall in IH. auto.
  - apply utf8_sorted. rewrite forallb_forall in *. intros x ([k w] & <- & Hy)%in_map_iff.
    specialize (Hv _ Hy). simpl in Hv. apply andb_true_iff in Hv as [Hk Hw]. rewrite Hk.
    rewrite List.Forall_forall in IH. by apply (IH _ Hy).
Qed.

Lemma utf8_payload v : utf8_json v = true -> utf8_valid (registry_payload v) = true.
Proof.
  intros Hv. unfold registry_payload. apply utf8_both; [|done].
  by apply utf8_print_indent, utf8_canon.
Qed.

(** ** Hashes *)

Lemma hex_byte_ascii b : (0 <= b < 256)%Z -> ascii_text (hex_byte b) = true.
Proof.
  intros Hb. unfold hex_byte. cbn [ascii_text str1].
  rewrite !ascii_hex_digit; [done| |].
  - pose proof (Z.mod_pos_bound b 16). lia.
  - assert (0 <= b / 16 < 16)%Z; [|lia]. split; [apply Z.div_pos; lia|apply Z.div_lt_upper_bound; lia].
Qed.

Lemma bytes_be_range n : forall x, Forall (fun b => 0 <= b < 256)%Z (bytes_be n x).
Proof.
  induction n as [|n IH]; intros x; cbn [bytes_be]; [constructor|].
  apply Forall_app; split; [apply IH|]. repeat constructor; apply Z.mod_pos_bound; lia.
Qed.

Lemma hex_word_ascii w : ascii_text (hex_word w) = true.
Proof.
  unfold hex_word. induction (bytes_be_range 4 w) as [|b bs Hb _ IH]; [done|].
  cbn [foldr]. by rewrite ascii_app, hex_byte_ascii, IH.
Qed.

Lemma sha256_utf8 data : utf8_valid (sha256_hex data) = true.
Proof.
  apply ascii_utf8. unfold sha256_hex, digest. cbv zeta. by rewrite !ascii_app, !hex_word_ascii.
Qed.

(** ** A quick check of texts that are mostly ASCII *)

Fixpoint quick_utf8 (s : string) : bool :=
  match s with
  | EmptyString => true
  | String (Ascii _ _ _ _ _ _ _ false) s' => quick_utf8 s'
  | _ => utf8_valid s
  end.

Lemma quick_utf8_ok s : quick_utf8 s = true -> utf8_valid s = true.
Proof.
  induction s as [|[b0 b1 b2 b3 b4 b5 b6 b7] s IH]; [done|]. destruct b7; [done|].
  cbn [quick_utf8 utf8_valid]. intros Hq.
  assert ((nat_of_ascii (Ascii b0 b1 b2 b3 b4 b5 b6 false) <? 128)%nat = true) as ->; [|by apply IH].
  by destruct b0, b1, b2, b3, b4, b5, b6.
Qed.

Fixpoint quick_json (v : json) : bool :=
  match v with
  | JStr s => quick_utf8 s
  | JList l => forallb quick_json l
  | JObj d => forallb (fun kv => match kv with (k, w) => quick_utf8 k && quick_json w end) d
  | _ => true
  end.

Lemma quick_json_ok v : quick_json v = true -> utf8_json v = true.
Proof.
  induction v as [| | | | |l IH|d IH] using json_ind; intros Hv; try done; cbn [quick_json utf8_json] in *.
  - by apply quick_utf8_ok.
  - rewrite forallb_forall in *. rewrite List.Forall_forall in IH. auto.
  - rewrite forallb_forall in *. rewrite List.Forall_forall in IH. intros [k w] Hy.
    specialize (Hv _ Hy). simpl in Hv. apply andb_true_iff in Hv as [Hk Hw].
    rewrite (quick_utf8_ok _ Hk). by apply (IH _ Hy).
Qed.
