(* ===== verification/PdfDocument.v ===== *)
(** * The document

    What [build_pdf] and [main] of tools/render_experiment_registry_pdf.py
    produce: for a registry that is [renderable] the whole document is drawn, its
    pages are numbered from the first to the last, and it is saved once, at the
    end; and the registry that the builder writes is [renderable]. *)

From stdpp Require Import base list strings numbers.
From Stdlib Require Import ZArith Lia Bool Ascii QArith.
From S2P Require Import Prelude PyJson Sha256 JsonText JsonRoundtrip PyText.
From S2P Require Import RegistryTables ActionProfiles DataProfiles Seeds Builder Validator.
From S2P Require Import BuilderFacts RegistryFacts RegistryCli.
From S2P Require Import PdfCanvas PdfPages PdfLayout PdfCards PdfBuild PdfFacts PayloadText.

#[local] Open Scope Q_scope.

Lemma enumerate_map_snd {A B} (f : A -> B) (l : list A) : forall s,
  map (fun p => f (snd p)) (enumerate s l) = map f l.
Proof. induction l as [|a l IH]; intros s; simpl; [done|]. by rewrite IH. Qed.

Lemma sum_ones {A} (l : list A) : foldr Z.add 0%Z (map (fun _ => Z.of_nat 1) l) = Z.of_nat (length l).
Proof. induction l; simpl in *; lia. Qed.

Section Document.
Context `{Reportlab} (exists_ : string -> bool) (registerFont : string -> string -> result unit).
Context (registry_file : option string) (output_dir output : string).
Context (room : DETAIL_SECTION_H + DETAIL_LEADING + 5 <= DETAIL_CONTENT_H).
Context (registry : json).

(** The feet of a document of [T] pages. *)
Definition summary_feet (T : Z) : list string := map (fun n => page_of n T) (seqZ 1 15).
Definition document_feet (T : Z) : list string :=
  summary_feet T ++ map (detail_foot T) (seqZ 16 (T - 15)).

(** A laid out card. *)
Definition payload_ok (p : json * list (list (list block))) : Prop :=
  is_ok (detail_reads registry (fst p)) = true /\ Forall column_ok (concat (snd p)).

(** The layout of a card is that of its sections. *)
Definition payload_laid (p : json * list (list (list block))) : Prop :=
  exists sections, _card_detail_sections registry (fst p) = Ok sections /\
    _layout_detail_sections sections = Some (snd p).

Lemma concat_Forall {A} (P : A -> Prop) (ll : list (list A)) l :
  Forall P (concat ll) -> In l ll -> Forall P l.
Proof.
  rewrite !List.Forall_forall. intros Hp Hin x Hx. apply Hp, in_concat. eauto.
Qed.

Lemma render_card_draws T i p n :
  is_ok (sha_reads registry) = true -> payload_ok p ->
  draws (map (detail_foot T) (seqZ n (Z.of_nat (length (snd p))))) (n + Z.of_nat (length (snd p)))%Z
    (_render_detail_card T registry (fst p) i (snd p) n).
Proof.
  intros Hsha [Hr Hok]. destruct p as [card layouts]. simpl in *.
  destruct (is_ok_ex _ Hr) as [v E]. unfold detail_reads in E.
  apply bind_ok in E as (? & _ & E). inv_ok. unfold _render_detail_card.
  replace (Z.of_nat (length layouts))
    with (foldr Z.add 0%Z (map (fun _ : Z * list (list block) => Z.of_nat 1) (enumerate 1 layouts))).
  2: { rewrite sum_ones. f_equal. clear. generalize 1%Z. induction layouts; intros s; simpl; auto. }
  repeat (eapply draws_lift; [eassumption|]).
  apply (draws_fold (detail_foot T) _ (fun _ => 1%nat)). intros m [k pg] [_ Hin]%enumerate_in.
  apply draws_page. apply detail_page_end; [done..|]. simpl. by eapply concat_Forall.
Qed.

Lemma summary_saved T :
  renderable registry = true -> is_ok (_sha256_file registry_file) = true ->
  forall {B} l (b : B) (k : Z -> draw B),
  saved l b (k 16%Z) ->
  saved (summary_feet T ++ l) b
    (_ ← _page_cover T registry 1;
     page_no ← fold_draw (fun page_no renderer =>
         _ ← renderer registry page_no; mret (page_no + 1)%Z) (summary_renderers T) 2%Z;
     _ ← _page_provenance T (_sha256_file registry_file) registry page_no;
     k (page_no + 1)%Z).
Proof.
  intros Hr Hf B l b k Hk. unfold renderable in Hr.
  repeat match goal with Hb : (_ && _)%bool = true |- _ => apply andb_true_iff in Hb as [? ?] end.
  unfold summary_feet. change (seqZ 1 15) with (1%Z :: seqZ 2 13 ++ [15%Z]).
  cbn [map app]. rewrite map_app, <- app_assoc. cbn [map app].
  eapply (saved_bind [_]); [by apply draws_page, cover_end|].
  eapply saved_bind with (a := 15%Z).
  { pose proof (draws_fold (fun n => page_of n T)
      (fun page_no (renderer : json -> Z -> draw unit) =>
         _ ← renderer registry page_no; mret (page_no + 1)%Z)
      (fun _ => 1%nat) (summary_renderers T) 2) as Hd.
    apply Hd. intros n r Hin. apply (draws_bind [_] [] tt); [|apply draws_ret].
    apply draws_page. unfold summary_renderers in Hin.
    repeat (destruct Hin as [<-|Hin]; [by auto using dashboard_end, operating_change_end, anatomy_end,
      families_end, target_vs_current_end, data_truth_end, blockers_end, pnl_end, rfq_end, mve_end,
      external_end, priority_end, roadmap_end|]). destruct Hin. }
  eapply (saved_bind [_]); [by apply draws_page, provenance_end|]. exact Hk.
Qed.

(** Every card is laid out. *)
Lemma payloads_total cards :
  Forall (fun card => is_ok (detail_reads registry card) = true) cards ->
  exists payloads, detail_payloads registry cards = Some (Ok payloads) /\
    map fst payloads = cards /\ Forall payload_ok payloads /\ Forall payload_laid payloads.
Proof.
  induction 1 as [|card cards Hc _ (payloads & E & Hm & Hok & Hl)]; cbn [detail_payloads]; [by exists []|].
  destruct (is_ok_ex _ Hc) as [v Ev]. unfold detail_reads in Ev.
  apply bind_ok in Ev as (secs & Es & _). rewrite Es.
  destruct (layout_total room secs) as (pgs & El & _ & _ & Hcols & _). rewrite El, E.
  exists ((card, pgs) :: payloads). repeat split; [cbn [map fst]; by rewrite Hm|..].
  - constructor; [by split|done].
  - constructor; [|done]. by exists secs.
Qed.

(** The pages of the cards, and of the document. *)
Definition card_pages (payloads : list (json * list (list (list block)))) : Z :=
  foldr Z.add 0%Z (map (fun p => Z.of_nat (length (snd p))) payloads).
Definition total_pages (payloads : list (json * list (list (list block)))) : Z :=
  (SUMMARY_PAGES + card_pages payloads)%Z.

Lemma cards_draw T payloads n :
  is_ok (sha_reads registry) = true -> Forall payload_ok payloads ->
  draws (map (detail_foot T) (seqZ n (card_pages payloads))) (n + card_pages payloads)%Z
    (fold_draw (fun page_no '(card_index, (card, layouts)) =>
       _render_detail_card T registry card card_index layouts page_no) (enumerate 1 payloads) n).
Proof.
  intros Hsha Hok. unfold card_pages.
  rewrite <- (enumerate_map_snd (fun p => Z.of_nat (length (snd p))) payloads 1).
  apply (draws_fold (detail_foot T) _ (fun q => length (snd (snd q)))).
  intros m [i [card layouts]] [_ Hin]%enumerate_in.
  apply (render_card_draws T i (card, layouts)); [done|].
  rewrite List.Forall_forall in Hok. by apply Hok.
Qed.

(** The document of laid out cards: its pages in order, then [save]. *)
Lemma document_saved payloads :
  renderable registry = true -> is_ok (_sha256_file registry_file) = true ->
  Forall payload_ok payloads ->
  saved (document_feet (total_pages payloads)) output
    (draw_document registry_file output_dir output registry payloads).
Proof.
  intros Hr Hf Hok. unfold draw_document. fold (card_pages payloads).
  fold (total_pages payloads). set (T := total_pages payloads). cbv zeta.
  do 6 (apply saved_emit; [exact I|]).
  apply (summary_saved T Hr Hf _ output (fun first =>
    page_no ← fold_draw (fun page_no '(card_index, (card, layouts)) =>
        _render_detail_card T registry card card_index layouts page_no) (enumerate 1 payloads) first;
    if negb (page_no - 1 =? T)%Z then
      liftD (Raise (AssertionError ("expected " +:+ show_Z T +:+ " pages, rendered " +:+
        show_Z (page_no - 1))))
    else _ ← emit save; mret output)).
  rewrite <- (app_nil_r (map _ _)).
  replace (T - 15)%Z with (card_pages payloads) by (unfold T, total_pages, SUMMARY_PAGES; lia).
  eapply saved_bind.
  { apply cards_draw; [|done]. unfold renderable in Hr.
    repeat (apply andb_true_iff in Hr as [Hr _]). exact Hr. }
  replace (16 + card_pages payloads - 1)%Z with T by (unfold T, total_pages, SUMMARY_PAGES; lia).
  rewrite Z.eqb_refl. by exists [].
Qed.

(** A renderable registry is rendered. *)
Lemma build_pdf_total :
  renderable registry = true -> is_ok (_sha256_file registry_file) = true ->
  is_ok (_register_fonts exists_ registerFont) = true ->
  exists doc payloads,
    build_pdf exists_ registerFont registry_file output_dir output registry = Some doc /\
    Ok (JList (map fst payloads)) = getitem registry "experiments" /\
    Forall payload_laid payloads /\
    saved (document_feet (total_pages payloads)) output doc.
Proof.
  intros Hr Hf [v Ef]%is_ok_ex.
  assert (exists cards, getitem registry "experiments" = Ok (JList cards) /\ length cards = 106%nat /\
    Forall (fun card => is_ok (detail_reads registry card) = true) cards) as (cards & E & Hl & Hc).
  { unfold renderable in Hr. apply andb_true_iff in Hr as [_ Hr].
    destruct (getitem registry "experiments") as [[]|]; try done.
    apply andb_true_iff in Hr as [Hl%Nat.eqb_eq Hc]. exists l. repeat split; [done|].
    apply List.Forall_forall. by rewrite forallb_forall in Hc. }
  destruct (payloads_total cards Hc) as (payloads & Ep & Hm & Hok & Hlay).
  eexists _, payloads. repeat split.
  - unfold build_pdf. rewrite Ef, E. cbn [mbind result_bind py_len as_list]. rewrite Hl. cbn [negb Nat.eqb].
    rewrite Ep. reflexivity.
  - by rewrite E, Hm.
  - exact Hlay.
  - cbn [liftD]. apply (saved_bind [] _ payloads); [apply draws_ret|by apply document_saved].
Qed.
End Document.

(** ** The built registry is renderable *)

(** The parts of a card, computed. *)
Definition parts_at (id : string) (s : seed) : result card_parts :=
  action ← build_action s;
  action_type ← getitem action "action_type";
  action_type ← as_strs action_type;
  let has_action := match action_type with [] => false | _ => true end in
  venue ← _venue_for (action_profile s);
  data0 ← _data_profile (data_profile s);
  ext ← _external_contract (external_dependency s) id;
  blockers ← _expected_blockers s data0 ext (seed_costs s) has_action;
  data ← close_missing_signal blockers data0;
  gaps ← mapR (_gap_contract id) blockers;
  base ← _base_class (target_class s) action venue
           (_baseline_for (action_profile s)) (_pnl_for (action_profile s));
  family ← family_of id;
  dsec ← data_section (data_profile s) data gaps;
  policy ← getitem (_baseline_for (action_profile s)) "policy";
  result ← result_section s (observed_signal_of id);
  next ← next_section data ext has_action;
  Ok (CardParts action action_type venue data0 ext blockers data gaps base (fst family) (snd family)
        dsec policy result next).

Lemma parts_at_ok id s p : parts_ok id s p -> parts_at id s = Ok p.
Proof.
  intros [Ea Eat Ev Ed Ee Eb Edt Eg Ebc Ef Eds Ep Ecr Enx]. unfold parts_at.
  rewrite Ea; cbn [mbind result_bind]. rewrite Eat; cbn [mbind result_bind].
  rewrite as_strs_strs; cbn [mbind result_bind]. fold (p_has_action p).
  rewrite Ev; cbn [mbind result_bind]. rewrite Ed; cbn [mbind result_bind].
  rewrite Ee; cbn [mbind result_bind]. rewrite Eb; cbn [mbind result_bind].
  rewrite Edt; cbn [mbind result_bind]. rewrite Eg; cbn [mbind result_bind].
  rewrite Ebc; cbn [mbind result_bind]. rewrite Ef; cbn [mbind result_bind].
  rewrite Eds; cbn [mbind result_bind]. rewrite Ep; cbn [mbind result_bind].
  rewrite Ecr; cbn [mbind result_bind]. rewrite Enx; cbn [mbind result_bind fst snd].
  by destruct p.
Qed.

(** A card and a registry with the given texts in place of the hashes. *)
Definition card_with (sha : string) (id : string) : result json :=
  s ← seed_at seed_table id;
  p ← parts_at id s;
  Ok (JObj (card_body id s p ++ ["definition_sha256" ~> JStr sha])).

Definition registry_with (sha : string -> string) (registry_sha : string) : result json :=
  cards ← mapR (fun id => card_with (sha id) id) ATOMIC_IDS;
  Ok (JObj (registry_body cards ++ ["registry_sha256" ~> JStr registry_sha])).

Lemma renderable_with sha registry_sha :
  is_true (registry ← registry_with sha registry_sha; Ok (renderable (canon registry))) = true.
Proof. exact (eq_refl true). Qed.

(** The hash of a card, by its ID. *)
Definition card_sha (id : string) : string :=
  match (s ← seed_at seed_table id; p ← parts_at id s; Ok (JObj (card_body id s p))) with
  | Ok body => _sha256 body
  | Raise _ => EmptyString
  end.

Lemma card_with_built id card : built_from id card -> card_with (card_sha id) id = Ok card.
Proof.
  intros (s & p & Hs & _ & _ & OK & ->). unfold card_with, card_sha, seed_at. rewrite Hs.
  cbn [or_raise mbind result_bind]. rewrite (parts_at_ok _ _ _ OK). cbn [mbind result_bind].
  unfold card_of. generalize (_sha256 (JObj (card_body id s p))). intros h. exact (eq_refl _).
Qed.

Lemma registry_with_built cards :
  Forall2 built_from ATOMIC_IDS cards ->
  registry_with card_sha (_sha256 (JObj (registry_body cards))) = Ok (registry_of cards).
Proof.
  intros Hb. unfold registry_with.
  assert (mapR (fun id => card_with (card_sha id) id) ATOMIC_IDS = Ok cards) as ->.
  { apply mapR_ok_Forall2. eapply Forall2_impl; [apply card_with_built|exact Hb]. }
  cbn [mbind result_bind]. unfold registry_of.
  generalize (_sha256 (JObj (registry_body cards))). intros h. exact (eq_refl _).
Qed.

Lemma renderable_built cards :
  Forall2 built_from ATOMIC_IDS cards -> renderable (canon (registry_of cards)) = true.
Proof.
  intros Hb. pose proof (renderable_with card_sha (_sha256 (JObj (registry_body cards)))) as Hr.
  rewrite (registry_with_built cards Hb) in Hr. exact Hr.
Qed.

Lemma wf_with sha registry_sha :
  is_true (registry ← registry_with sha registry_sha; Ok (wf_json registry)) = true.
Proof. exact (eq_refl true). Qed.

Lemma wf_built cards : Forall2 built_from ATOMIC_IDS cards -> wf_json (registry_of cards) = true.
Proof.
  intros Hb. pose proof (wf_with card_sha (_sha256 (JObj (registry_body cards)))) as Hr.
  rewrite (registry_with_built cards Hb) in Hr. exact Hr.
Qed.

(** The texts of the cards, their hashes apart, are UTF-8. *)
Lemma bodies_utf8 :
  forallb (fun id => is_true (s ← seed_at seed_table id; p ← parts_at id s;
                              Ok (quick_json (JObj (card_body id s p))))) ATOMIC_IDS = true.
Proof. exact (eq_refl true). Qed.

Lemma head_utf8 : quick_json (JObj (registry_body [])) = true.
Proof. exact (eq_refl true). Qed.

Lemma utf8_obj_app d d' :
  utf8_json (JObj (d ++ d')) = utf8_json (JObj d) && utf8_json (JObj d').
Proof. apply forallb_app. Qed.

Lemma utf8_hash_item k v : utf8_valid k = true -> utf8_json (JObj [k ~> JStr (_sha256 v)]) = true.
Proof.
  intros Hk. cbn [utf8_json forallb]. unfold _sha256. rewrite Hk, sha256_utf8. exact (eq_refl true).
Qed.

Lemma utf8_built_card id card : In id ATOMIC_IDS -> built_from id card -> utf8_json card = true.
Proof.
  intros Hin (s & p & Hs & _ & _ & OK & ->). pose proof bodies_utf8 as Hb.
  rewrite forallb_forall in Hb. specialize (Hb id Hin). unfold seed_at in Hb. rewrite Hs in Hb.
  cbn [or_raise mbind result_bind] in Hb. rewrite (parts_at_ok _ _ _ OK) in Hb.
  cbn [mbind result_bind is_true] in Hb. apply quick_json_ok in Hb.
  unfold card_of. rewrite utf8_obj_app, Hb. by apply utf8_hash_item.
Qed.

Lemma utf8_built cards : Forall2 built_from ATOMIC_IDS cards -> utf8_json (registry_of cards) = true.
Proof.
  intros Hb. unfold registry_of. rewrite utf8_obj_app.
  assert (utf8_json (JObj (registry_body cards)) = true) as ->.
  { pose proof (quick_json_ok _ head_utf8) as Hh.
    assert (forallb utf8_json cards = true) as Hc.
    { apply forallb_forall. intros card Hin. apply list_elem_of_In, list_elem_of_lookup in Hin as [i Hi].
      destruct (Forall2_lookup_r _ _ _ _ _ Hb Hi) as (id & Hid & Hcard).
      apply (utf8_built_card id); [|done]. apply list_elem_of_In, list_elem_of_lookup. by exists i. }
    unfold registry_body in *. revert Hh. generalize (summary_json registry_summary). intros sj.
    cbn [utf8_json forallb]. rewrite Hc. done. }
  by apply utf8_hash_item.
Qed.

(** ** The figures on the summary pages *)

Definition FAMILIES : list string := ["A"; "B"; "C"; "D"; "E"; "F"; "G"; "P"].

(** What the summary pages count: cards and actions by family, signals by
    status, and the ten most frequent blockers. *)
Definition figures (registry : json) : result (list Z * list Z * list Z * list Z) :=
  cards ← card_list registry;
  families ← count_from family_code cards [];
  actions ← count_from action_family_code cards [];
  signals ← count_from signal_status cards [];
  blockers ← count_from card_blockers cards [];
  Ok (map (counter_at families) FAMILIES, map (counter_at actions) FAMILIES,
      map (counter_at signals) ["YES"; "PARTIAL"; "NO"], map snd (most_common 10 blockers)).

Definition registry_figures : list Z * list Z * list Z * list Z :=
  ([23; 17; 10; 10; 6; 17; 12; 11], [23; 16; 10; 6; 4; 11; 0; 10], [40; 44; 22],
   [83; 81; 81; 80; 80; 57; 41; 26; 16; 14])%Z.

Definition same_figures (r : result (list Z * list Z * list Z * list Z)) : bool :=
  match r with Ok f => bool_decide (f = registry_figures) | Raise _ => false end.

Lemma figures_with sha registry_sha :
  same_figures (registry ← registry_with sha registry_sha; figures (canon registry)) = true.
Proof. exact (eq_refl true). Qed.

Lemma figures_built cards :
  Forall2 built_from ATOMIC_IDS cards -> figures (canon (registry_of cards)) = Ok registry_figures.
Proof.
  intros Hb. pose proof (figures_with card_sha (_sha256 (JObj (registry_body cards)))) as Hr.
  rewrite (registry_with_built cards Hb) in Hr. cbn [mbind result_bind] in Hr.
  unfold same_figures in Hr. destruct (figures _) as [f|]; [|discriminate Hr].
  apply bool_decide_eq_true in Hr. by rewrite Hr.
Qed.
