(* ===== verification/ArtifactProperties.v ===== *)
(** * The artifact and its check

    Writing the artifact and checking it, end to end: the check accepts what
    [--write] leaves, and every file with the same content, in whatever order its
    keys are. *)

From stdpp Require Import base list strings numbers.
From Stdlib Require Import ZArith Lia Bool Ascii.
From S2P Require Import Prelude PyJson Sha256 JsonText JsonRoundtrip RegistryTables Builder Validator.
From S2P Require Import BuilderFacts ValidatorFacts RegistryFacts RegistryCli KeyOrder PayloadText PdfDocument.

Lemma summary_line_same v w : same v w -> simR (fun _ _ => True) (summary_line v) (summary_line w).
Proof.
  intros Hs. unfold summary_line. do 6 (eapply simR_bind; [simr|intros ? ? ?]). by apply simR_ok.
Qed.

Lemma summary_line_built cards : exists line, summary_line (registry_of cards) = Ok line.
Proof.
  unfold summary_line, registry_of. generalize (_sha256 (JObj (registry_body cards))). intros h.
  eexists. reflexivity.
Qed.

Section Cli.
Context (ROOT : list string) (file_at : list string -> option file) (exc_text : exn -> string).

(** The last part of [main] on a registry with the content of the built one. *)
Lemma conclude_same cards actual st :
  Forall2 built_from ATOMIC_IDS cards -> build_registry = Ok (registry_of cards) ->
  same (registry_of cards) actual ->
  fst (conclude ROOT file_at exc_text (registry_of cards) actual st) = Ok 0%Z <-> sources_match ROOT file_at.
Proof.
  intros Hb Er Hs. rewrite <- (build_registry_valid ROOT file_at exc_text _ Er).
  rewrite (verdict_same ROOT file_at exc_text _ _ Hs). split.
  - intros H. destruct (conclude _ _ _ _ _ st) as [r st'] eqn:E. cbn [fst] in H. subst r.
    by apply conclude_zero in E as [Hv _].
  - intros Hv. unfold conclude, mbind at 1, cli_bind at 1, cli_lift at 1. rewrite Hv. cbv zeta.
    rewrite (same_py_eq _ _ _ Hs), py_eq_refl by (apply wf_built, Hb). cbn [negb app].
    destruct (summary_line_built cards) as [line El].
    destruct (summary_line_same _ _ Hs line El) as (line' & El' & _).
    unfold _print_summary, mbind, cli_bind, cli_lift, say. by rewrite El'.
Qed.
End Cli.

(** C14: the check of the artifact is complete.  [--write] succeeds exactly when
    the evidence files match (and the file can be written), and leaves a text that
    reads back as a registry with the content of the generated one.  A check of
    any artifact that reads as such a registry, whatever the layout of the text and
    the order of its keys, exits with 0 exactly when the evidence files match. *)
Theorem equivalent_artifact_accepted ROOT file_at exc_text REGISTRY_PATH :
  exists expected, build_registry = Ok expected /\
  (forall args st, a_write args = true ->
     let '(r, st') := RegistryCli.main ROOT file_at exc_text REGISTRY_PATH None args st in
     (r = Ok 0%Z <-> sources_match ROOT file_at) /\
     (r = Ok 0%Z -> exists actual, read_text (artifact st') = Ok actual /\ same expected actual)) /\
  (forall failing_write args st actual, a_write args = false ->
     read_text (artifact st) = Ok actual -> same expected actual ->
     fst (RegistryCli.main ROOT file_at exc_text REGISTRY_PATH failing_write args st) = Ok 0%Z
     <-> sources_match ROOT file_at).
Proof.
  destruct build_registry_ok as (cards & Er & Hb). exists (registry_of cards). split; [exact Er|].
  pose proof (wf_built cards Hb) as Hw. set (bytes := registry_payload (registry_of cards)).
  assert (read_text (Some bytes) = Ok (canon (registry_of cards))) as Hread.
  { unfold read_text. assert (utf8_valid bytes = true) as -> by (apply utf8_payload, utf8_built, Hb).
    apply loads_payload, Hw. }
  pose proof (same_canon _ Hw) as Hsame. unfold RegistryCli.main. rewrite Er. split.
  - intros args st ->. unfold mbind at 1, cli_bind at 1, cli_lift at 1.
    pose proof (main_write_zero ROOT file_at exc_text None (registry_of cards) st) as Hz.
    destruct (main_write _ _ _ _ _ st) as [r st'] eqn:E. split.
    + split.
      * intros ->. destruct (Hz st' eq_refl) as (actual & Ha & Hv & _ & Hp). rewrite Hp in Ha.
        fold bytes in Ha. rewrite Hread in Ha. apply Ok_inj in Ha as <-.
        apply (build_registry_valid ROOT file_at exc_text _ Er), (verdict_same _ _ _ _ _ Hsame), Hv.
      * intros Hm. pose proof (proj2 (build_registry_valid ROOT file_at exc_text _ Er) Hm) as Hv.
        unfold main_write, mbind, cli_bind, cli_lift, _write_registry, _read_registry in E. rewrite Hv in E.
        cbn [artifact] in E. fold bytes in E. rewrite Hread in E.
        apply (conclude_same ROOT file_at exc_text cards _ (CliState (Some bytes) (printed st)) Hb Er Hsame) in Hm.
        rewrite E in Hm. exact Hm.
    + intros ->. destruct (Hz st' eq_refl) as (actual & Ha & _ & _ & Hp). rewrite Hp. fold bytes.
      rewrite Hread. eauto.
  - intros failing_write args st actual -> Ha Hs. unfold mbind at 1, cli_bind at 1, cli_lift at 1.
    unfold main_check. destruct (artifact st) as [text|] eqn:Et; [|discriminate Ha].
    unfold mbind at 1, cli_bind at 1, _read_registry. rewrite Et, Ha. by apply conclude_same.
Qed.
