(* ===== verification/PdfFigures.v ===== *)
(** * The figures on the summary pages

    What the summary pages print, against what the cards of a registry are:
    counting cards by their fields, the texts a page shows, the bars of its
    charts, and the rules to find them in drawing code. *)

From stdpp Require Import base list strings numbers.
From Stdlib Require Import ZArith Lia Lqa Bool Ascii QArith Qminmax.
From S2P Require Import Prelude PyJson Sha256 JsonText PyText RegistryTables Builder Validator.
From S2P Require Import RegistryFacts RegistryCli.
From S2P Require Import PdfCanvas PdfPages PdfLayout PdfCards PdfBuild PdfFacts PdfDocument.

#[local] Open Scope Q_scope.

(** ** Counting cards *)

Definition field_of (card : json) (section field : string) : result json :=
  s ← getitem card section; getitem s field.

(** [card[section][field] == value] *)
Definition has_field (section field value : string) (card : json) : bool :=
  match field_of card section field with Ok v => eq_str v value | Raise _ => false end.

Definition in_family : string -> json -> bool := has_field "identity" "family_code".
Definition is_action : json -> bool := has_field "classification" "target_class" "EXECUTABLE_STRATEGY".
Definition is_blocked : json -> bool := has_field "classification" "computed_class" "BLOCKED".
Definition is_eligible (card : json) : bool :=
  match field_of card "classification" "strategy_eligible" with Ok v => truthy v | Raise _ => true end.

Definition cards_where (test : json -> bool) (cards : list json) : Z :=
  Z.of_nat (length (List.filter test cards)).

(** How often a text is among the values of a card. *)
Definition occurs (k : string) (f : json -> result (list json)) (card : json) : Z :=
  match f card with
  | Ok vs => Z.of_nat (length (List.filter (fun v => eq_str v k) vs))
  | Raise _ => 0
  end.

Lemma py_eq_str_l k v : py_eq (JStr k) v = eq_str v k.
Proof. destruct v; try done. unfold eq_str. cbn [py_eq]. apply String.eqb_sym. Qed.

Lemma counter_at_count k v counts :
  counter_at (count_key v counts) k = (counter_at counts k + if eq_str v k then 1 else 0)%Z.
Proof.
  unfold counter_at. induction counts as [|[k' n] counts IH]; cbn [count_key List.find fst].
  - rewrite py_eq_str_l. by destruct (eq_str v k).
  - destruct (py_eq v k') eqn:Ev; cbn [List.find fst].
    + rewrite !py_eq_str_l. destruct (eq_str k' k) eqn:Ek.
      * apply eq_str_true in Ek as ->. unfold eq_str. rewrite Ev. done.
      * destruct (eq_str v k) eqn:E; [|lia]. apply eq_str_true in E as ->.
        rewrite py_eq_str_l in Ev. congruence.
    + rewrite !py_eq_str_l in *. destruct (eq_str k' k) eqn:Ek; [|exact IH].
      apply eq_str_true in Ek as ->. unfold eq_str. rewrite Ev. lia.
Qed.

Lemma counter_at_all k vs : forall counts counts',
  foldr (fun v k acc => acc' ← count v acc; k acc') (fun acc => Ok acc) vs counts = Ok counts' ->
  counter_at counts' k
  = (counter_at counts k + Z.of_nat (length (List.filter (fun v => eq_str v k) vs)))%Z.
Proof.
  induction vs as [|v vs IH]; intros counts counts' E; cbn [foldr List.filter] in *.
  { apply Ok_inj in E as ->. cbn. lia. }
  apply bind_ok in E as (acc & Ea & E). apply bind_ok in Ea as (u & _ & Ea). apply Ok_inj in Ea as <-.
  rewrite (IH _ _ E), counter_at_count. destruct (eq_str v k); cbn [length]; lia.
Qed.

(** A counter holds how often the values came up. *)
Lemma count_from_occurs k f cards : forall acc counts,
  count_from f cards acc = Ok counts ->
  counter_at counts k = (counter_at acc k + foldr Z.add 0 (map (occurs k f) cards))%Z.
Proof.
  induction cards as [|card cards IH]; intros acc counts E; cbn [count_from map foldr] in *.
  { apply Ok_inj in E as ->. lia. }
  apply bind_ok in E as (vs & Ev & E). apply bind_ok in E as (acc' & Ea & E).
  rewrite (IH _ _ E), (counter_at_all _ _ _ _ Ea). unfold occurs. rewrite Ev. lia.
Qed.

Lemma sum_occurs k f (test : json -> bool) cards :
  (forall card : json, occurs k f card = if test card then 1%Z else 0%Z) ->
  foldr Z.add 0%Z (map (occurs k f) cards) = cards_where test cards.
Proof.
  intros Hf. induction cards as [|card cards IH]; [done|]. cbn [map foldr]. rewrite IH, Hf.
  unfold cards_where. cbn [List.filter]. destruct (test card); cbn [length]; lia.
Qed.

Lemma family_counted f cards counts :
  count_from family_code cards [] = Ok counts ->
  counter_at counts f = cards_where (in_family f) cards.
Proof.
  intros E. rewrite (count_from_occurs f _ _ _ _ E). apply sum_occurs. intros card.
  unfold occurs, in_family, has_field, field_of, family_code.
  destruct (getitem card "identity") as [i|]; [|done]. cbn [mbind result_bind].
  destruct (getitem i "family_code") as [v|]; [|done]. cbn [mbind result_bind List.filter].
  by destruct (eq_str v f).
Qed.

Lemma action_counted f cards counts :
  count_from action_family_code cards [] = Ok counts ->
  counter_at counts f = cards_where (fun card => is_action card && in_family f card) cards.
Proof.
  intros E. rewrite (count_from_occurs f _ _ _ _ E). apply sum_occurs. intros card.
  unfold occurs, is_action, in_family, has_field, field_of, action_family_code, family_code.
  destruct (getitem card "classification") as [c|]; [|done]. cbn [mbind result_bind].
  destruct (getitem c "target_class") as [t|]; [|done]. cbn [mbind result_bind].
  destruct (eq_str t "EXECUTABLE_STRATEGY"); [|done]. cbn [andb].
  destruct (getitem card "identity") as [i|]; [|done]. cbn [mbind result_bind].
  destruct (getitem i "family_code") as [v|]; [|done]. cbn [mbind result_bind List.filter].
  by destruct (eq_str v f).
Qed.

(** ** What a page shows *)

Definition text_shown (op : call) : option string :=
  match op with
  | drawString _ _ s | drawRightString _ _ s | drawCentredString _ _ s => Some s
  | _ => None
  end.

(** The texts of a page, in the order in which they are drawn. *)
Definition printed (ops : list call) : list string := omap text_shown ops.

(** The texts appear one after the other. *)
Definition prints (texts : list string) (ops : list call) : Prop :=
  exists pre post, printed ops = pre ++ texts ++ post.

(** The bars of a chart: each is drawn over its track, in another colour. *)
Fixpoint bars_of (ops : list call) : list (Q * Q) :=
  match ops with
  | [] => []
  | op :: ops' =>
      match op, ops' with
      | roundRect _ _ track _ _ _ _, setFillColor _ :: roundRect _ _ bar _ _ _ _ :: _ =>
          (track, bar) :: bars_of ops'
      | _, _ => bars_of ops'
      end
  end.

(** A chart of [k] bars, none longer than its track and one as long. *)
Definition chart_fits (k : nat) (ops : list call) : Prop :=
  exists pre chart post, ops = pre ++ chart ++ post /\ length (bars_of chart) = k /\
    Forall (fun '(track, bar) => bar <= track) (bars_of chart) /\
    Exists (fun '(track, bar) => bar == track) (bars_of chart).

(** ** Finding it in drawing code *)

(** What drawing draws, if it does not raise. *)
Definition holds {A} (P : list call -> Prop) (m : draw A) : Prop :=
  match m with Ok (_, ops) => P ops | Raise _ => True end.

(** A property of a part of the calls. *)
Definition local (P : list call -> Prop) : Prop := forall pre ops post, P ops -> P (pre ++ ops ++ post).

(** The first texts drawn are these. *)
Definition opens (texts : list string) (ops : list call) : Prop :=
  exists post, printed ops = texts ++ post.

Lemma prints_local texts : local (prints texts).
Proof.
  intros pre ops post (a & b & E). exists (printed pre ++ a), (b ++ printed post).
  unfold printed in *. rewrite !omap_app, E, <- !app_assoc. done.
Qed.

Lemma chart_local k : local (chart_fits k).
Proof.
  intros pre ops post (a & c & b & -> & Hc). exists (pre ++ a), c, (b ++ post).
  by rewrite <- !app_assoc.
Qed.

#[export] Hint Resolve prints_local chart_local : drawdb.

Section Holds.
Context (P : list call -> Prop) (P_local : local P).

Lemma holds_here {A B} (m : draw A) (f : A -> draw B) : holds P m -> holds P (mbind f m).
Proof.
  unfold mbind, draw_bind. destruct m as [[a ops]|e]; [|done]. cbn [holds]. intros Hm.
  destruct (f a) as [[b ops']|e]; [|done]. exact (P_local [] ops ops' Hm).
Qed.

Lemma holds_later {A B} (m : draw A) (f : A -> draw B) : (forall a, holds P (f a)) -> holds P (mbind f m).
Proof.
  unfold mbind, draw_bind. destruct m as [[a ops]|e]; [|done]. intros Hf. specialize (Hf a).
  destruct (f a) as [[b ops']|e]; [|done]. cbn [holds] in *.
  rewrite <- (app_nil_r ops'). by apply P_local.
Qed.

Lemma holds_lift {A B} (r : result A) (f : A -> draw B) :
  (forall a, r = Ok a -> holds P (f a)) -> holds P (mbind f (liftD r)).
Proof.
  unfold mbind, draw_bind, liftD. destruct r as [a|e]; [|done]. intros Hf. specialize (Hf a eq_refl).
  by destruct (f a) as [[b ops']|e].
Qed.

Lemma holds_fold {A S} (f : S -> A -> draw S) l a :
  In a l -> (forall s, holds P (f s a)) -> forall s, holds P (fold_draw f l s).
Proof.
  intros Hin Hf. induction l as [|b l IH]; [done|]. intros s. cbn [fold_draw].
  destruct Hin as [->|Hin]; [apply holds_here; apply Hf|apply holds_later; auto].
Qed.

Lemma holds_for_each {A} (f : A -> draw unit) l a : In a l -> holds P (f a) -> holds P (for_each l f).
Proof. intros Hin Hf. by apply (holds_fold _ _ a Hin). Qed.

End Holds.

Lemma enumerate_mem {A} (a : A) l : In a l -> forall i, exists j, In (j, a) (enumerate i l).
Proof.
  induction l as [|b l IH]; [done|]. intros [->|Hin] i; [by exists i; left|].
  destruct (IH Hin (i + 1)%Z) as [j Hj]. exists j. by right.
Qed.

Lemma holds_opens {A} texts (m : draw A) : holds (opens texts) m -> holds (prints texts) m.
Proof. destruct m as [[a ops]|e]; [|done]. intros (post & E). by exists [], post. Qed.

Lemma opens_nil {A} (m : draw A) : holds (opens []) m.
Proof. destruct m as [[a ops]|e]; [|done]. by exists (printed ops). Qed.

Lemma opens_emit {A} op texts (f : unit -> draw A) :
  match text_shown op, texts with
  | Some s, s' :: texts' => s = s' /\ holds (opens texts') (f tt)
  | None, _ => holds (opens texts) (f tt)
  | Some _, [] => True
  end -> holds (opens texts) (mbind f (emit op)).
Proof.
  unfold mbind, draw_bind, emit. destruct texts as [|s' texts'].
  { intros _. destruct (f tt) as [[a ops]|e]; [|done]. by eexists. }
  destruct (text_shown op) as [s|] eqn:Eo.
  - intros [-> Hf]. destruct (f tt) as [[a ops]|e]; [|done]. destruct Hf as (post & E). exists post.
    unfold printed in *. cbn [app omap list_omap]. by rewrite Eo, E.
  - intros Hf. destruct (f tt) as [[a ops]|e]; [|done]. destruct Hf as (post & E). exists post.
    unfold printed in *. cbn [app omap list_omap]. by rewrite Eo.
Qed.

Lemma opens_last op texts :
  text_shown op = Some texts -> holds (opens [texts]) (emit op).
Proof. intros E. exists []. unfold printed. cbn. by rewrite E. Qed.

Lemma opens_lift {A B} texts (r : result A) (f : A -> draw B) :
  (forall a, r = Ok a -> holds (opens texts) (f a)) -> holds (opens texts) (mbind f (liftD r)).
Proof.
  unfold mbind, draw_bind, liftD. destruct r as [a|e]; [|done]. intros Hf. specialize (Hf a eq_refl).
  by destruct (f a) as [[b ops']|e].
Qed.

(** Walk to the first text of a row, and through the row. *)
Ltac opens_walk :=
  repeat first [ apply opens_nil | apply opens_last; reflexivity
               | apply opens_emit; cbn [text_shown]; try (split; [reflexivity|]) ].

(** Pass over a step of a page. *)
Ltac pass :=
  lazymatch goal with
  | |- holds _ (let _ := _ in _) => cbv zeta
  | |- holds _ (mbind _ (liftD _)) => apply holds_lift; intros ? ?
  | |- holds _ (mbind _ _) => apply holds_later; [solve [auto with drawdb]|intros ?]
  end.

(** Pass over steps up to the badge [text], the loop over [l] or the chart. *)
Ltac seek_badge text :=
  repeat lazymatch goal with |- holds _ (mbind _ (_badge text _ _ _ _ _)) => fail | |- _ => pass end;
  apply holds_here; [solve [auto with drawdb]|].
Ltac seek_loop l :=
  repeat lazymatch goal with
         | |- holds _ (mbind _ (fold_draw _ l _)) => fail
         | |- holds _ (mbind _ (for_each l _)) => fail
         | |- _ => pass
         end;
  apply holds_here; [solve [auto with drawdb]|].
Ltac seek_chart :=
  repeat lazymatch goal with |- holds _ (mbind _ (_hbar_chart _ _ _ _ _ _ _ _ _)) => fail | |- _ => pass end;
  apply holds_here; [solve [auto with drawdb]|].

(** Two reads of one thing give the same. *)
Ltac same_reads :=
  repeat match goal with
         | H1 : ?r = Ok ?a, H2 : ?r = Ok ?b |- _ =>
             assert (b = a) by congruence; subst b; clear H2
         end.

(** ** The helpers *)

Section Shown.
Context `{Reportlab}.

Lemma badge_prints text x y fill col width : holds (prints [text]) (_badge text x y fill col width).
Proof.
  apply holds_opens. unfold _badge. cbv zeta. opens_walk.
  unfold mbind at 1, draw_bind at 1, _draw_centered. by exists [].
Qed.

Lemma metric_card_prints x y w h value label note accent :
  holds (prints [value; label]) (_metric_card x y w h value label note accent).
Proof.
  unfold _metric_card. apply holds_later; [auto with drawdb|]. intros _. apply holds_opens. opens_walk.
Qed.

(** The bar of a row. *)
Definition bar_of (track : Q) (m v : Z) : Q * Q := (track, Qmax 2 (track * inject_Z v / inject_Z m)).

(** A loop whose body does not raise makes the calls of its rounds. *)
Lemma fold_rows {A} (f : unit -> Z * A -> draw unit) (row : Z -> A -> list call) l :
  (forall i a, f tt (i, a) = Ok (tt, row i a)) ->
  forall i, fold_draw f (enumerate i l) tt
            = Ok (tt, concat (map (fun '(j, a) => row j a) (enumerate i l))).
Proof.
  intros Hf. induction l as [|a l IH]; intros i; [done|]. cbn [enumerate fold_draw map concat].
  unfold mbind, draw_bind. by rewrite Hf, IH.
Qed.

(** The calls of a row of a chart. *)
Definition row_calls (x y w row_h : Q) (col : color) (label_w : Q) (m : Z) (suffix : string) (i : Z)
    (item : string * Z) : list call :=
  let yy := y - inject_Z i * row_h in
  let track := w - label_w - 38 in
  [setFont FONT_BODY 8; setFillColor SLATE; drawRightString (x + label_w - 8) (yy + 4) (fst item);
   setFillColor BORDER; roundRect (x + label_w) yy track 11 5 true false; setFillColor col;
   roundRect (x + label_w) yy (snd (bar_of track m (snd item))) 11 5 true false; setFillColor INK;
   setFont FONT_MONO_BOLD 8; drawRightString (x + w) (yy + 2.5) (show_Z (snd item) +:+ suffix)].

(** A chart draws the bar of every value over its track, and each row shows its
    label and its value. *)
Lemma hbar_chart_draws items x y w row_h col label_w m suffix :
  (m <> 0)%Z ->
  exists ops, _hbar_chart items x y w row_h col label_w (Some m) suffix = Ok (tt, ops) /\
    bars_of ops = map (bar_of (w - label_w - 38) m) (map snd items) /\
    forall label v, In (label, v) items -> prints [label; show_Z v +:+ suffix] ops.
Proof.
  intros Hm%Z.eqb_neq. eexists. split.
  { unfold _hbar_chart. rewrite Hm. unfold mbind at 1, draw_bind at 1. cbn [liftD]. cbv zeta.
    unfold for_each. rewrite (fold_rows _ (row_calls x y w row_h col label_w m suffix)); [reflexivity|].
    intros i [label v]. rewrite Hm. reflexivity. }
  cbn [app]. generalize 0%Z. induction items as [|[label v] items IH]; intros i; [done|].
  destruct (IH (i + 1)%Z) as [Hb Hp]. cbn [enumerate map concat].
  split; [cbn [row_calls app bars_of snd]; by rewrite Hb|].
  intros label' v' [[= -> ->]|Hin]; [exists []; by eexists|].
  rewrite <- (app_nil_r (concat (map _ (enumerate (i + 1) items)))). by apply prints_local, Hp.
Qed.
End Shown.

(** ** The pages *)

Lemma mapR_In {A B} (f : A -> result B) l bs a :
  mapR f l = Ok bs -> In a l -> exists b, f a = Ok b /\ In b bs.
Proof.
  revert bs. induction l as [|x l IH]; intros bs E Hin; [done|]. cbn [mapR] in E.
  apply bind_ok in E as (b & Eb & E). apply bind_ok in E as (bs' & Ebs & E). apply Ok_inj in E as <-.
  destruct Hin as [->|Hin]; [exists b; split; [done|by left]|].
  destruct (IH _ Ebs Hin) as (c & Ec & Hc). exists c. split; [done|by right].
Qed.

Lemma family_label f label : In (f, label) FAMILY_LABELS -> table_at FAMILY_LABELS (JStr f) = Ok label.
Proof.
  intros Hin. unfold table_at. cbn [need_hashable hashable mbind result_bind].
  rewrite (in_assoc f label FAMILY_LABELS); [done| |exact Hin]. by apply nodupb_spec.
Qed.

Section PagesShown.
Context `{Reportlab} (T n : Z) (registry : json).

Lemma cover_prints value label :
  In (value, label) [("106", "全部实验"); ("80", "动作型目标"); ("0", "当前实盘合格")] ->
  holds (prints [value; label]) (_page_cover T registry n).
Proof.
  intros Hin. unfold _page_cover.
  seek_loop [("106", "全部实验"); ("80", "动作型目标"); ("0", "当前实盘合格")].
  apply (holds_fold _ (prints_local _) _ _ _ Hin). intros x. apply holds_opens. opens_walk.
Qed.

Lemma dashboard_prints value label note accent :
  In (value, label, note, accent)
    [("106", "全部实验", "8 个家族完整覆盖", BLUE); ("80", "动作型目标", "目标类别，不等于已验证策略", TEAL);
     ("0", "当前合格策略", "未知 PnL 绝不当成 0", RED);
     ("105 + 1", "当前分类", "105 BLOCKED / 1 研究问题", AMBER)] ->
  holds (prints [value; label]) (_page_dashboard T registry n).
Proof.
  intros Hin. unfold _page_dashboard. pass. cbv zeta. apply holds_here; [auto with drawdb|].
  destruct (enumerate_mem _ _ Hin 0%Z) as (i & Hi).
  apply (holds_for_each _ (prints_local _) _ _ _ Hi). apply metric_card_prints.
Qed.

Lemma dashboard_badges text :
  In text ["BLOCKED 105"; "研究问题 1"] -> holds (prints [text]) (_page_dashboard T registry n).
Proof.
  intros [<-|[<-|[]]]; unfold _page_dashboard.
  - seek_badge "BLOCKED 105". apply badge_prints.
  - seek_badge "研究问题 1". apply badge_prints.
Qed.

Lemma families_badges text :
  In text ["动作型目标 80"; "信号/研究 26"] -> holds (prints [text]) (_page_families T registry n).
Proof.
  intros [<-|[<-|[]]]; unfold _page_families.
  - seek_badge "动作型目标 80". apply badge_prints.
  - seek_badge "信号/研究 26". apply badge_prints.
Qed.

Lemma target_badges text :
  In text ["BLOCKED 105"; "研究问题 1"] -> holds (prints [text]) (_page_target_vs_current T registry n).
Proof.
  intros [<-|[<-|[]]]; unfold _page_target_vs_current.
  - seek_badge "BLOCKED 105". apply badge_prints.
  - seek_badge "研究问题 1". apply badge_prints.
Qed.

(** The families page shows, for every family, the number of its cards in the
    chart on the left, and of its actions and other cards on the right. *)
Lemma families_rows cards f label :
  card_list registry = Ok cards -> In (f, label) FAMILY_LABELS ->
  let total := cards_where (in_family f) cards in
  let action := cards_where (fun card => is_action card && in_family f card) cards in
  holds (prints [f +:+ "  " +:+ label; show_Z total]) (_page_families T registry n) /\
  holds (prints [f +:+ " " +:+ label; show_Z action +:+ "/" +:+ show_Z (total - action)])
    (_page_families T registry n).
Proof.
  intros Hc Hf total action. apply bind_ok in Hc as (v & Ev & Ec).
  assert (table_at FAMILY_LABELS (JStr f) = Ok label) as Hl by by apply family_label.
  assert (In f ["A"; "B"; "C"; "F"; "G"; "P"; "D"; "E"] /\ In f FAMILIES) as [Hin Hin'].
  { apply (in_map fst) in Hf. cbn in Hf. split; cbn; tauto. }
  split; unfold _page_families.
  - seek_chart. same_reads.
    match goal with Hm : mapR _ (map _ _) = Ok _ |- _ => rename Hm into Em end.
    eapply mapR_In in Em as (b & Eb & Hb); [|exact (in_map _ _ _ Hin)]. cbv beta iota in Eb.
    rewrite Hl in Eb. apply Ok_inj in Eb as <-.
    match goal with |- holds _ (_hbar_chart ?i ?x ?y ?w ?r ?c ?l (Some ?m) ?s) =>
      destruct (hbar_chart_draws i x y w r c l m s ltac:(lia)) as (ops & -> & _ & Hp) end.
    cbn [holds]. specialize (Hp _ _ Hb). rewrite append_nil_r in Hp.
    erewrite family_counted in Hp; [exact Hp|eassumption].
  - seek_loop ["A"; "B"; "C"; "D"; "E"; "F"; "G"; "P"]. same_reads.
    apply (holds_fold _ (prints_local _) _ _ f Hin'). intros yy. cbv zeta. apply holds_opens. opens_walk.
    apply opens_lift. intros l El. assert (l = label) as -> by congruence. unfold total, action.
    match goal with E1 : count_from family_code _ _ = Ok _, E2 : count_from action_family_code _ _ = Ok _ |- _ =>
      rewrite (family_counted f _ _ E1), (action_counted f _ _ E2) end.
    opens_walk.
Qed.

(** Labelling keeps the values. *)
Lemma mapR_values {A} (g : A * Z -> result (string * Z)) l bars :
  (forall p b, g p = Ok b -> snd b = snd p) -> mapR g l = Ok bars -> map snd bars = map snd l.
Proof.
  intros Hg. revert bars. induction l as [|p l IH]; intros bars E; cbn [mapR] in E.
  { by apply Ok_inj in E as <-. }
  apply bind_ok in E as (b & Eb & E). apply bind_ok in E as (bs & Ebs & E). apply Ok_inj in E as <-.
  cbn [map]. by rewrite (IH _ Ebs), (Hg _ _ Eb).
Qed.

Lemma chart_holds items x y w row_h col label_w m suffix k :
  (m <> 0)%Z ->
  let bars := map (bar_of (w - label_w - 38) m) (map snd items) in
  length items = k -> forallb (fun '(track, bar) => Qle_bool bar track) bars = true ->
  existsb (fun '(track, bar) => Qeq_bool bar track) bars = true ->
  holds (chart_fits k) (_hbar_chart items x y w row_h col label_w (Some m) suffix).
Proof.
  intros Hm bars Hk Hf He.
  destruct (hbar_chart_draws items x y w row_h col label_w m suffix Hm) as (ops & -> & Hb & _).
  exists [], ops, []. rewrite app_nil_r, Hb. split; [done|]. split; [by rewrite !length_map|]. fold bars. split.
  - apply List.Forall_forall. intros [track bar] Hin. rewrite forallb_forall in Hf.
    by apply Qle_bool_iff, (Hf _ Hin).
  - apply existsb_exists in He as ([track bar] & Hin & He). apply List.Exists_exists.
    exists (track, bar). split; [done|]. by apply Qeq_bool_iff.
Qed.

Lemma families_chart : figures registry = Ok registry_figures ->
  holds (chart_fits 8) (_page_families T registry n).
Proof.
  intros Hf. unfold figures, card_list in Hf. inv_ok. unfold _page_families. seek_chart. same_reads.
  match goal with Hm : mapR _ (map _ _) = Ok ?bars |- _ =>
    assert (map snd bars = [23; 17; 10; 17; 12; 11; 10; 6]%Z) as Hv end.
  { erewrite mapR_values; [|shelve|eassumption].
    unfold registry_figures in Hf. cbn [map FAMILIES snd] in *. congruence.
    Unshelve. intros [f v] b Eb. inv_ok. by simplify_eq. }
  apply chart_holds; rewrite ?Hv; [lia| |reflexivity|reflexivity].
  rewrite <- (length_map snd), Hv. reflexivity.
Qed.

Lemma blockers_chart : figures registry = Ok registry_figures ->
  holds (chart_fits 10) (_page_blockers T registry n).
Proof.
  intros Hf. unfold figures, card_list in Hf. inv_ok. unfold _page_blockers. seek_chart. same_reads.
  match goal with Hm : mapR _ (most_common _ _) = Ok ?bars |- _ =>
    assert (map snd bars = [83; 81; 81; 80; 80; 57; 41; 26; 16; 14]%Z) as Hv end.
  { erewrite mapR_values; [|shelve|eassumption]. unfold registry_figures in Hf. congruence.
    Unshelve. intros [k v] b Eb. inv_ok. by simplify_eq. }
  apply chart_holds; rewrite ?Hv; [lia| |reflexivity|reflexivity].
  rewrite <- (length_map snd), Hv. reflexivity.
Qed.
End PagesShown.

(** ** The built registry *)

(** Cards, actions, blocked cards and eligible cards. *)
Definition card_totals (registry : json) : result (Z * Z * Z * Z) :=
  cards ← card_list registry;
  Ok (Z.of_nat (length cards), cards_where is_action cards, cards_where is_blocked cards,
      cards_where is_eligible cards).

Definition same_totals (r : result (Z * Z * Z * Z)) : bool :=
  match r with Ok t => bool_decide (t = (106, 80, 105, 0)%Z) | Raise _ => false end.

Lemma totals_with sha registry_sha :
  same_totals (registry ← registry_with sha registry_sha; card_totals (canon registry)) = true.
Proof. exact (eq_refl true). Qed.

Lemma totals_built cards :
  Forall2 built_from ATOMIC_IDS cards ->
  card_totals (canon (registry_of cards)) = Ok (106, 80, 105, 0)%Z.
Proof.
  intros Hb. pose proof (totals_with card_sha (_sha256 (JObj (registry_body cards)))) as Hr.
  rewrite (registry_with_built cards Hb) in Hr. cbn [mbind result_bind] in Hr.
  unfold same_totals in Hr. destruct (card_totals _) as [f|]; [|discriminate Hr].
  apply bool_decide_eq_true in Hr. by rewrite Hr.
Qed.

(** A page is drawn, with all of these. *)
Definition draws_all (m : draw unit) (parts : list (list call -> Prop)) : Prop :=
  exists ops, m = Ok (tt, ops) /\ Forall (fun part => part ops) parts.

Lemma page_draws label m parts : page_end label tt m -> Forall (fun P => holds P m) parts -> draws_all m parts.
Proof. intros (ops & x & y & -> & _) HP. by eexists. Qed.

(** Every part of a list of parts. *)
Lemma draws_parts {A} (mk : A -> list call -> Prop) (l : list A) (m : draw unit) label parts :
  page_end label tt m -> (forall a, In a l -> holds (mk a) m) -> parts = map mk l -> draws_all m parts.
Proof.
  intros Hm Hl ->. apply (page_draws label); [done|]. apply List.Forall_forall.
  intros P (a & <- & Hin)%in_map_iff. by apply Hl.
Qed.

Section Drawn.
Context `{Reportlab} (T n : Z) (registry : json).

Lemma cover_draws : is_ok (sha_reads registry) = true ->
  draws_all (_page_cover T registry n)
    (map (fun '(value, label) => prints [value; label])
       [("106", "全部实验"); ("80", "动作型目标"); ("0", "当前实盘合格")]).
Proof.
  intros Hs. eapply draws_parts; [by apply cover_end| |reflexivity].
  intros [value label] Hin. by apply cover_prints.
Qed.

Lemma dashboard_draws : is_ok (target_reads registry) = true ->
  draws_all (_page_dashboard T registry n)
    (map prints [["106"; "全部实验"]; ["80"; "动作型目标"]; ["0"; "当前合格策略"]; ["105 + 1"; "当前分类"];
                 ["BLOCKED 105"]; ["研究问题 1"]]).
Proof.
  intros Hs. eapply draws_parts; [by apply dashboard_end| |reflexivity]. intros texts Hin. cbn [In] in Hin.
  destruct Hin as [<-|[<-|[<-|[<-|[<-|[<-|[]]]]]]];
    [eapply dashboard_prints; by left|eapply dashboard_prints; by right; left
    |eapply dashboard_prints; by right; right; left|eapply dashboard_prints; by right; right; right; left
    |apply dashboard_badges; by left|apply dashboard_badges; by right; left].
Qed.

Lemma families_draws : is_ok (count_reads registry) = true -> figures registry = Ok registry_figures ->
  draws_all (_page_families T registry n)
    [prints ["动作型目标 80"]; prints ["信号/研究 26"]; chart_fits 8].
Proof.
  intros Hs Hf. eapply page_draws; [by apply families_end|]. apply List.Forall_forall. intros P Hin. cbn [In] in Hin.
  destruct Hin as [<-|[<-|[<-|[]]]];
    [apply families_badges; by left|apply families_badges; by right; left|by apply families_chart].
Qed.

Lemma target_draws : is_ok (target_reads registry) = true -> is_ok (count_reads registry) = true ->
  draws_all (_page_target_vs_current T registry n) (map prints [["BLOCKED 105"]; ["研究问题 1"]]).
Proof.
  intros Ht Hs. eapply draws_parts; [by apply target_vs_current_end| |reflexivity].
  intros texts Hin. cbn [In] in Hin.
  destruct Hin as [<-|[<-|[]]]; apply target_badges; [by left|by right; left].
Qed.

Lemma blockers_draws : is_ok (count_reads registry) = true -> figures registry = Ok registry_figures ->
  draws_all (_page_blockers T registry n) [chart_fits 10].
Proof.
  intros Hs Hf. eapply page_draws; [by apply blockers_end|]. apply List.Forall_forall. intros P [<-|[]].
  by apply blockers_chart.
Qed.
End Drawn.
