(* ===== verification/PdfProperties.v ===== *)
(** * Properties of the PDF renderer

    The layout of the cards, the wrapping of their text, the numbering of the
    document, and the renderer on the registry that the builder writes. *)

From stdpp Require Import base relations list strings numbers.
From Stdlib Require Import ZArith Lia Lqa Bool Ascii QArith Qround Qabs.
From S2P Require Import Prelude PyJson Sha256 JsonText JsonRoundtrip PyText.
From S2P Require Import RegistryTables Seeds Builder Validator BuilderFacts RegistryFacts RegistryCli.
From S2P Require Import PdfCanvas PdfPages PdfLayout PdfCards PdfBuild PdfFacts PdfText.
From S2P Require Import PayloadText PdfDocument PdfFigures.

#[local] Open Scope Q_scope.

(** A reportlab for the witnesses: A4 and A3 pages, and characters of one width. *)
Definition fixed_width : Reportlab := {|
  stringWidth := fun text font size => inject_Z (Z.of_nat (length (chars text))) * size;
  PAGE_W := 297 * 72 / 25.4;
  PAGE_H := 210 * 72 / 25.4;
  DETAIL_PAGE_W := 420 * 72 / 25.4;
  DETAIL_PAGE_H := A3_HEIGHT
|}.

(** C28: whatever the sections of a card are, its layout ends, every page has
    four columns, and the blocks of a column are never taller than the column:
    the overflow assertion of [_render_detail_card] cannot fire. *)
Theorem layout_columns_fit `{Reportlab} (sections : list (string * list string)) :
  DETAIL_SECTION_H + DETAIL_LEADING + 5 <= DETAIL_CONTENT_H ->
  exists pgs, _layout_detail_sections sections = Some pgs /\
    Forall (fun p => length p = DETAIL_COLS) pgs /\
    Forall (fun col => column_height col <= DETAIL_CONTENT_H) (concat pgs).
Proof.
  intros room. destruct (layout_total room sections) as (pgs & E & _ & Hp & Hc & _).
  exists pgs. split; [done|]. split; [done|]. eapply List.Forall_impl; [|exact Hc]. by intros col [Hh _].
Qed.

Lemma layout_columns_fit_witness :
  exists pgs, @_layout_detail_sections fixed_width [("a", ["b"; "c"]); ("d", [])] = Some pgs /\
    Forall (fun p => length p = DETAIL_COLS) pgs /\
    Forall (fun col => column_height col <= @DETAIL_CONTENT_H fixed_width) (concat pgs).
Proof. apply (@layout_columns_fit fixed_width [("a", ["b"; "c"]); ("d", [])]). vm_compute. discriminate. Defined.

(** The visible characters of lines that are shown with a heading. *)
Definition shown_text (lines : list (option string * string)) : list string :=
  flat_map (fun p => visible (snd p)) lines.

Lemma entry_lines_text `{Reportlab} entry :
  utf8_valid entry = true -> flat_map visible (entry_lines entry) = visible entry.
Proof.
  intros Hv. pose proof (split_lines_keeps (DETAIL_COL_W - 22) FONT_BODY DETAIL_FONT_SIZE entry Hv) as Hk.
  unfold entry_lines. destruct (_split_lines _ _ _ _) eqn:E; [|exact Hk]. exfalso.
  revert E. unfold _split_lines, paragraphs. cbn [is_none].
  assert (forall cur rest w f s, wrap w f s cur rest <> []) as Hw.
  { clear. intros cur rest. revert cur. induction rest as [|ch rest IH]; intros cur w f s; cbn [wrap]; [done|].
    cbv zeta. destruct (_ && _); [done|apply IH]. }
  destruct (splitlines _ _) as [|p ps]; cbn [flat_map]; intros E; apply app_eq_nil in E as [E _];
    by apply Hw in E.
Qed.

Lemma section_lines_text `{Reportlab} sections :
  Forall (fun sec => Forall (fun entry => utf8_valid entry = true) (snd sec)) sections ->
  flat_map (fun p => visible (snd p)) (section_lines sections)
  = flat_map (fun sec => flat_map visible (snd sec)) sections.
Proof.
  induction 1 as [|[title entries] sections Hs _ IH]; [done|]. unfold section_lines in *.
  cbn [flat_map snd]. rewrite flat_map_app, IH. f_equal. clear -Hs. simpl in Hs.
  induction Hs as [|e entries He _ IH]; [done|]. cbn [flat_map].
  rewrite map_app, flat_map_app, IH. f_equal. rewrite <- (entry_lines_text e He).
  generalize (entry_lines e). clear. induction l as [|x l IH]; [done|]. cbn. by rewrite IH.
Qed.

(** C29: no text of a card is lost.  The columns of the layout, read in order, show
    the wrapped lines of the sections in order, each under a heading of its own
    section in its own column (the title, or the title marked as continued); and
    they show every visible character of every entry, in order. *)
Theorem layout_keeps_text `{Reportlab} (sections : list (string * list string)) :
  DETAIL_SECTION_H + DETAIL_LEADING + 5 <= DETAIL_CONTENT_H ->
  Forall (fun sec => Forall (fun entry => utf8_valid entry = true) (snd sec)) sections ->
  exists pgs, _layout_detail_sections sections = Some pgs /\
    shows (tagged (concat pgs)) (section_lines sections) /\
    shown_text (tagged (concat pgs)) = flat_map (fun sec => flat_map visible (snd sec)) sections.
Proof.
  intros room Hv. destruct (layout_total room sections) as (pgs & E & _ & _ & _ & Hs).
  exists pgs. split; [done|]. split; [done|]. rewrite <- (section_lines_text sections Hv).
  unfold shown_text. clear -Hs. induction Hs as [|g w gs ws [_ Hg] _ IH]; [done|].
  cbn [flat_map]. by rewrite IH, Hg.
Qed.

Lemma layout_keeps_text_witness :
  exists pgs, @_layout_detail_sections fixed_width [("标题", ["一二 x"])] = Some pgs /\
    shows (tagged (concat pgs)) (@section_lines fixed_width [("标题", ["一二 x"])]) /\
    shown_text (tagged (concat pgs)) = ["一"; "二"; "x"].
Proof.
  apply (@layout_keeps_text fixed_width [("标题", ["一二 x"])]).
  - vm_compute. discriminate.
  - repeat constructor.
Defined.

(** C32: rounding.  On A3 paper, in every state that a layout reaches, the two
    decisions it takes (is there room for a heading with two lines, how many
    lines fit) come out the same for any value of the remaining height within a
    hundredth of a point of the exact one: an error of that size, which the sums
    of a column in double precision stay far below, does not change a layout. *)
Theorem layout_rounding_safe `{Reportlab} (st : lay) (remaining : Q) :
  DETAIL_PAGE_H == A3_HEIGHT -> rtc layout_step layout_start st ->
  Qabs (remaining - (DETAIL_CONTENT_H - used st)) <= 1 # 100 ->
  Qlt_b remaining (DETAIL_SECTION_H + DETAIL_LEADING * 2)
    = Qlt_b (DETAIL_CONTENT_H - used st) (DETAIL_SECTION_H + DETAIL_LEADING * 2) /\
  Qfloor ((remaining - 5) / DETAIL_LEADING) = available_lines st.
Proof.
  intros HA R Hr. pose proof (reached_tenths st R) as Ht.
  assert (DETAIL_CONTENT_H - used st == A3_HEIGHT - 176 - used st) as Hc.
  { unfold DETAIL_CONTENT_H, DETAIL_TOP, DETAIL_BOTTOM. rewrite HA. ring. }
  destruct (decisions_apart (used st) (DETAIL_CONTENT_H - used st) Ht) as [B1 B2].
  { rewrite Hc. assert (A3_HEIGHT - 176 - used st - (A3_HEIGHT - 176 - used st) == 0) as -> by ring.
    discriminate. }
  destruct (decisions_apart (used st) remaining Ht) as [A1 A2]; [by rewrite <- Hc|].
  unfold available_lines. by rewrite A1, A2, B1, B2.
Qed.

Lemma layout_rounding_safe_witness :
  let st := add_block (section_block "a" DETAIL_SECTION_H) layout_start in
  let remaining := @DETAIL_CONTENT_H fixed_width - used st - (1 # 200) in
  Qlt_b remaining (DETAIL_SECTION_H + DETAIL_LEADING * 2)
    = Qlt_b (@DETAIL_CONTENT_H fixed_width - used st) (DETAIL_SECTION_H + DETAIL_LEADING * 2) /\
  Qfloor ((remaining - 5) / DETAIL_LEADING) = @available_lines fixed_width st.
Proof.
  cbv zeta. apply (@layout_rounding_safe fixed_width).
  - reflexivity.
  - apply rtc_once, step_heading.
  - vm_compute. discriminate.
Defined.

(** C33: the lines of a wrapped text fit.  With a font in which dropping the white
    space at the end of a line does not make it wider, every line of
    [_split_lines] is at most [max_width] wide, unless it is a single character;
    and the lines have exactly the visible characters of the text, in order. *)
Theorem split_lines_fit `{Reportlab} (max_width size : Q) (font s : string) :
  (forall l, Forall complete l ->
     stringWidth (text_of (rstrip l)) font size <= stringWidth (text_of l) font size) ->
  utf8_valid s = true ->
  Forall (fun line => stringWidth line font size <= max_width \/ (length (chars line) <= 1)%nat)
    (_split_lines (JStr s) max_width font size) /\
  flat_map visible (_split_lines (JStr s) max_width font size) = visible s.
Proof.
  intros Hrs Hv. split; [|by apply split_lines_keeps].
  unfold _split_lines. cbn [is_none]. apply List.Forall_forall. intros line [p [Hp Hin]]%in_flat_map.
  assert (utf8_valid p = true) as Hpv.
  { destruct (splitlines_ok s EmptyString Hv) as [Hf _]. unfold paragraphs in Hp. cbn [py_str] in Hp.
    destruct (splitlines s EmptyString) as [|q qs]; [by destruct Hp as [<-|[]]|].
    rewrite List.Forall_forall in Hf. by apply Hf. }
  pose proof (wrap_fits max_width font size (chars p) [] ltac:(left; cbn; lia) ltac:(constructor)
    (proj1 (valid_chars p Hpv))) as Hw. rewrite List.Forall_forall in Hw.
  destruct (Hw line Hin) as (cur & -> & Hc & Hfit). clear Hw.
  destruct Hfit as [Hl|Hw].
  - right. rewrite chars_text_of by by apply rstrip_complete. pose proof (rstrip_length cur). lia.
  - left. eapply Qle_trans; [by apply Hrs|exact Hw].
Qed.

Lemma split_lines_fit_witness :
  Forall (fun line => @stringWidth fixed_width line FONT_BODY 8 <= 24 \/ (length (chars line) <= 1)%nat)
    (@_split_lines fixed_width (JStr "研究 abc") 24 FONT_BODY 8) /\
  flat_map visible (@_split_lines fixed_width (JStr "研究 abc") 24 FONT_BODY 8) = visible "研究 abc".
Proof.
  apply (@split_lines_fit fixed_width); [|reflexivity].
  intros l Hl. cbn [stringWidth fixed_width]. apply Qmult_le_compat_r; [|discriminate].
  rewrite <- Zle_Qle, !chars_text_of by (try apply rstrip_complete; exact Hl).
  apply Nat2Z.inj_le, rstrip_length.
Defined.

(** C30: a registry with everything the renderer reads is rendered.  [build_pdf]
    returns the output path; it draws the fifteen summary pages and then, for
    every card in order, the pages of its layout; the feet of the pages count
    from 1 to the total that [TOTAL_PAGES] announces, the card pages marked as
    without authority; and the document is saved once, after the last page. *)
Theorem document_complete `{Reportlab} (exists_ : string -> bool)
    (registerFont : string -> string -> result unit) (registry_bytes output_dir output : string)
    (registry : json) :
  DETAIL_SECTION_H + DETAIL_LEADING + 5 <= DETAIL_CONTENT_H ->
  is_ok (_register_fonts exists_ registerFont) = true -> renderable registry = true ->
  exists payloads ops,
    build_pdf exists_ registerFont (Some registry_bytes) output_dir output registry
      = Some (Ok (output, ops ++ [save])) /\
    forallb no_save ops = true /\
    getitem registry "experiments" = Ok (JList (map fst payloads)) /\
    Forall (payload_laid registry) payloads /\
    feet EmptyString ops = document_feet (total_pages payloads).
Proof.
  intros room Hf Hr.
  destruct (build_pdf_total exists_ registerFont (Some registry_bytes) output_dir output room registry
              Hr eq_refl Hf) as (doc & payloads & E & Hc & Hl & ops & Ed & Hs & Hfeet).
  exists payloads, ops. by rewrite E, Ed.
Qed.

Lemma document_complete_witness :
  exists registry payloads ops,
    @build_pdf fixed_width (fun _ => true) (fun _ _ => Ok tt) (Some "x") "d" "o" registry
      = Some (Ok ("o", ops ++ [save])) /\
    forallb no_save ops = true /\
    getitem registry "experiments" = Ok (JList (map fst payloads)) /\
    Forall (@payload_laid fixed_width registry) payloads /\
    feet EmptyString ops = document_feet (total_pages payloads).
Proof.
  destruct build_registry_ok as (cards & _ & Hb). exists (canon (registry_of cards)).
  apply (@document_complete fixed_width).
  - vm_compute. discriminate.
  - reflexivity.
  - exact (renderable_built cards Hb).
Defined.

(** C31: from the seeds to the document.  The text that [_write_registry] writes of
    the built registry is read back by the renderer's [_load_registry], and
    [main] draws and saves the whole document and exits with 0: nothing in the
    built registry makes a page raise. *)
Theorem render_after_write `{Reportlab} (exists_ : string -> bool)
    (registerFont : string -> string -> result unit) (output_dir output : string) :
  DETAIL_SECTION_H + DETAIL_LEADING + 5 <= DETAIL_CONTENT_H ->
  is_ok (_register_fonts exists_ registerFont) = true ->
  exists registry payloads ops,
    build_registry = Ok registry /\
    PdfBuild.main exists_ registerFont (Some (registry_payload registry)) output_dir output
      = Some (Ok ((0%Z, output), ops ++ [save])) /\
    forallb no_save ops = true /\ length payloads = 106%nat /\
    feet EmptyString ops = document_feet (total_pages payloads).
Proof.
  intros room Hf. destruct build_registry_ok as (cards & E & Hb).
  set (bytes := registry_payload (registry_of cards)).
  destruct (build_pdf_total exists_ registerFont (Some bytes) output_dir output room
              (canon (registry_of cards)) (renderable_built cards Hb) eq_refl Hf)
    as (doc & payloads & Eb & Hc & _ & ops & Ed & Hs & Hfeet).
  exists (registry_of cards), payloads, ops. split; [exact E|]. split; [|split; [done|split; [|done]]].
  - unfold PdfBuild.main, _load_registry, read_text. fold bytes.
    assert (utf8_valid bytes = true) as -> by (apply utf8_payload, utf8_built, Hb).
    assert (json_loads bytes = Ok (canon (registry_of cards))) as -> by (apply loads_payload, wf_built, Hb).
    rewrite Eb. cbn [mbind option_bind]. rewrite Ed. unfold mbind, draw_bind, mret, draw_ret.
    by rewrite app_nil_r.
  - pose proof (renderable_built cards Hb) as Hr. unfold renderable in Hr.
    apply andb_true_iff in Hr as [_ Hr]. rewrite <- Hc in Hr. cbv iota in Hr.
    apply andb_true_iff in Hr as [Hl%Nat.eqb_eq _]. by rewrite length_map in Hl.
Qed.

Lemma render_after_write_witness :
  exists registry payloads ops,
    build_registry = Ok registry /\
    @PdfBuild.main fixed_width (fun _ => true) (fun _ _ => Ok tt) (Some (registry_payload registry)) "d" "o"
      = Some (Ok ((0%Z, "o"), ops ++ [save])) /\
    forallb no_save ops = true /\ length payloads = 106%nat /\
    feet EmptyString ops = document_feet (total_pages payloads).
Proof.
  apply (@render_after_write fixed_width).
  - vm_compute. discriminate.
  - reflexivity.
Defined.

(** A registry of two cards for a witness. *)
Definition two_cards : json := obj ["experiments" ~> JList [
  obj ["identity" ~> obj ["family_code" ~> JStr "A"];
       "classification" ~> obj ["target_class" ~> JStr "EXECUTABLE_STRATEGY"]];
  obj ["identity" ~> obj ["family_code" ~> JStr "A"];
       "classification" ~> obj ["target_class" ~> JStr "SIGNAL"]]]].

(** C34: the families page counts.  On every registry for which the page is drawn,
    and whatever its cards are, it shows for each of the eight families, next to
    its name, how many cards have that family code, and how many of those are
    actions and how many are not. *)
Theorem families_page_counts `{Reportlab} (T n : Z) (registry : json) (cards : list json)
    (ops : list call) (f label : string) :
  card_list registry = Ok cards -> _page_families T registry n = Ok (tt, ops) ->
  In (f, label) FAMILY_LABELS ->
  let total := cards_where (in_family f) cards in
  let action := cards_where (fun card => is_action card && in_family f card) cards in
  prints [f +:+ "  " +:+ label; show_Z total] ops /\
  prints [f +:+ " " +:+ label; show_Z action +:+ "/" +:+ show_Z (total - action)] ops.
Proof.
  intros Hc Ho Hf. pose proof (families_rows T n registry cards f label Hc Hf) as Hrows.
  cbv zeta in Hrows. rewrite Ho in Hrows. exact Hrows.
Qed.

Lemma families_page_counts_witness :
  exists ops, @_page_families fixed_width 20 two_cards 5 = Ok (tt, ops) /\
    prints ["A  微观结构与做市"; "2"] ops /\ prints ["A 微观结构与做市"; "1/1"] ops.
Proof.
  destruct (@_page_families fixed_width 20 two_cards 5) as [[[] ops]|e] eqn:Eo;
    [|vm_compute in Eo; discriminate Eo].
  exists ops. split; [done|].
  exact (@families_page_counts fixed_width 20 5 two_cards _ ops "A" "微观结构与做市" eq_refl Eo
           (or_introl eq_refl)).
Defined.

(** C35: the figures that the summary pages print as literals are those of the
    built registry, with any drawing library: the cover and the dashboard show its
    number of cards, of actions, of eligible cards and of blocked and other cards,
    the families and the classes pages those numbers on their badges; and in the
    charts of the families and of the blockers, whose scales are literals, no bar
    is longer than its track and the longest fills it. *)
Theorem summary_figures_true `{Reportlab} (T n : Z) :
  exists registry cards, build_registry = Ok registry /\ card_list (canon registry) = Ok cards /\
  let total := Z.of_nat (length cards) in
  let actions := cards_where is_action cards in
  let blocked := cards_where is_blocked cards in
  let eligible := cards_where is_eligible cards in
  draws_all (_page_cover T (canon registry) n)
    [prints [show_Z total; "全部实验"]; prints [show_Z actions; "动作型目标"];
     prints [show_Z eligible; "当前实盘合格"]] /\
  draws_all (_page_dashboard T (canon registry) n)
    [prints [show_Z total; "全部实验"]; prints [show_Z actions; "动作型目标"];
     prints [show_Z eligible; "当前合格策略"];
     prints [show_Z blocked +:+ " + " +:+ show_Z (total - blocked); "当前分类"];
     prints ["BLOCKED " +:+ show_Z blocked]; prints ["研究问题 " +:+ show_Z (total - blocked)]] /\
  draws_all (_page_families T (canon registry) n)
    [prints ["动作型目标 " +:+ show_Z actions]; prints ["信号/研究 " +:+ show_Z (total - actions)];
     chart_fits 8] /\
  draws_all (_page_target_vs_current T (canon registry) n)
    [prints ["BLOCKED " +:+ show_Z blocked]; prints ["研究问题 " +:+ show_Z (total - blocked)]] /\
  draws_all (_page_blockers T (canon registry) n) [chart_fits 10].
Proof.
  destruct build_registry_ok as (cards & E & Hb). exists (registry_of cards).
  pose proof (figures_built cards Hb) as Hf. pose proof (totals_built cards Hb) as Ht.
  pose proof (renderable_built cards Hb) as Hr. set (r := canon (registry_of cards)) in *. clearbody r.
  unfold card_totals in Ht. apply bind_ok in Ht as (cs & Hc & [= Ht Ha Hbl He]%Ok_inj). exists cs.
  split; [exact E|]. split; [exact Hc|]. cbv zeta. rewrite Ht, Ha, Hbl, He. clear Ht Ha Hbl He.
  unfold renderable in Hr. rewrite !andb_true_iff in Hr. destruct Hr as [[[[[[Hsha Htg] Hct] _] _] _] _].
  split; [exact (cover_draws T n r Hsha)|]. split; [exact (dashboard_draws T n r Htg)|].
  split; [exact (families_draws T n r Hct Hf)|]. split; [exact (target_draws T n r Htg Hct)|].
  exact (blockers_draws T n r Hct Hf).
Qed.
