(* ===== verification/CheckRegistry.v ===== *)
(** * The check of the tool registry

    tools/check_registry.py: tools.json against the Makefile.  The two files and
    what exists on disk are parameters; the result is the exit status and what
    was printed. *)

From stdpp Require Import base list strings numbers.
From Stdlib Require Import ZArith Lia Bool Ascii.
From S2P Require Import Prelude PyJson Sha256 JsonText PyText RunTests Dashboard.

Definition SAFETY : list string := ["pure"; "offline"; "network_read"; "live_order"].
Definition KIND : list string := ["test"; "bench"; "probe"; "daemon"; "check"; "example"].
Definition REQUIRED : list string := ["name"; "kind"; "safety"; "cmd"; "description"; "docs"].
Definition NON_TOOLS : list string := ["ixws"; "scratch"].

(** ** The two regular expressions *)

(** [[A-Za-z0-9_]] *)
Definition word_char (c : ascii) : bool :=
  byte_in 65 90 c || byte_in 97 122 c || byte_in 48 57 c || byte_in 95 95 c.

(** The longest run of word characters, and the rest. *)
Fixpoint span_word (s : string) : string * string :=
  match s with
  | String c s' => if word_char c then let '(w, r) := span_word s' in (String c w, r)
                   else (EmptyString, s)
  | EmptyString => (EmptyString, EmptyString)
  end.

(** [re.match(r"^\./(build/([A-Za-z0-9_]+))$", cmd)], its second group; the dollar
    also matches before a newline at the end. *)
Definition build_cmd (cmd : string) : option string :=
  match strip "./build/" cmd with
  | Some rest =>
      let '(w, r) := span_word rest in
      if negb (String.eqb w EmptyString) && (String.eqb r EmptyString || String.eqb r (str1 newline))
      then Some w else None
  | None => None
  end.

(** [^\$\(BUILD\)/([A-Za-z0-9_]+):] at the start of a line. *)
Definition make_target (line : string) : option string :=
  match strip "$(BUILD)/" line with
  | Some rest =>
      let '(w, r) := span_word rest in
      if negb (String.eqb w EmptyString) && startswith ":" r then Some w else None
  | None => None
  end.

(** [s.endswith(p)] *)
Definition endswith (p s : string) : bool :=
  (String.length p <=? String.length s)%nat &&
  String.eqb (String.substring (String.length s - String.length p) (String.length p) s) p.

(** [tool_targets], sorted. *)
Definition tool_targets (mk : string) : list string :=
  sorted_set (List.filter (fun x => negb (str_in x NON_TOOLS) && negb (endswith "_tsan" x))
    (omap make_target (split_nl mk))).

(** ** One tool *)

(** [r in t] for a dict. *)
Definition has_key (t : json) (r : string) : bool :=
  match t with JObj d => match assoc r d with Some _ => true | None => false end | _ => false end.

(** [names], [build_bins] and [errs]. *)
Record check_state := CheckState {
  names : list json;
  build_bins : list (string * json);
  errs : list string
}.

Section Check.
(** [os.path.exists(os.path.join(ROOT, p))] *)
Context (exists_ : string -> bool) (require_built : bool).

Definition when_err (b : bool) (msg : string) : list string := if b then [msg] else [].

(** The part on the fields of a tool named [n]. *)
Definition field_errors (t n : json) : result (list string) :=
  let missing := flat_map (fun r =>
    when_err (negb (has_key t r)) (py_str n +:+ ": missing required field '" +:+ r +:+ "'")) REQUIRED in
  safety ← get t "safety";
  safe ← in_strset safety SAFETY;
  kind ← get t "kind";
  known ← in_strset kind KIND;
  parsed ← in_strset kind ["test"; "check"];
  token ← get t "pass_token";
  Ok (missing ++
      when_err (negb safe) (py_str n +:+ ": invalid safety '" +:+ py_str safety +:+ "'") ++
      when_err (negb known) (py_str n +:+ ": invalid kind '" +:+ py_str kind +:+ "'") ++
      when_err (parsed && negb (truthy token))
        (py_str n +:+ ": kind=" +:+ py_str kind +:+ " requires a pass_token")).

(** The part on its command: the registered binary, and the errors. *)
Definition cmd_errors (t n : json) : result (option string * list string) :=
  cmd ← get_default t "cmd" (JStr EmptyString);
  cmd ← match cmd with JStr s => Ok s | _ => Raise (TypeError "expected string or bytes-like object") end;
  match build_cmd cmd with
  | Some b =>
      build ← get t "build";
      Ok (Some b, when_err (require_built && negb (eq_str build "on_demand") &&
                            negb (exists_ ("build/" +:+ b)))
                    (py_str n +:+ ": binary build/" +:+ b +:+ " not built"))
  | None =>
      let rel := match strip "./" cmd with Some r => r | None => cmd end in
      Ok (None, when_err (negb (exists_ rel)) (py_str n +:+ ": cmd path '" +:+ cmd +:+ "' does not exist"))
  end.

(** One round of [for t in tools]. *)
Definition check_tool (st : check_state) (t : json) : result check_state :=
  n ← get_default t "name" (JStr "<noname>");
  e1 ← field_errors t n;
  _ ← need_hashable n;
  let e2 := when_err (in_list n (names st)) (py_str n +:+ ": duplicate name") in
  bin_e3 ← cmd_errors t n;
  Ok (CheckState (n :: names st)
        (match fst bin_e3 with
         | Some b => assoc_set b t (build_bins st)
         | None => build_bins st
         end)
        (errs st ++ e1 ++ e2 ++ snd bin_e3)).

Fixpoint check_tools (st : check_state) (tools : list json) : result check_state :=
  match tools with
  | [] => Ok st
  | t :: tools' => st' ← check_tool st t; check_tools st' tools'
  end.

(** The coverage errors, in order. *)
Definition coverage_errors (targets bins : list string) : list string :=
  flat_map (fun tg => when_err (negb (str_in tg bins))
    ("Makefile builds '" +:+ tg +:+ "' but it is NOT registered in tools.json")) targets ++
  flat_map (fun b => when_err (negb (str_in b targets))
    ("tools.json registers ./build/" +:+ b +:+ " but no Makefile target builds it")) (sorted_set bins).

(** [sorted(t["name"] for t in tools if t.get("safety") == "live_order")] *)
Definition live_orders (tools : list json) : result (list string) :=
  ls ← mapR (fun t => safety ← get t "safety";
                      if eq_str safety "live_order" then
                        n ← getitem t "name";
                        match n with
                        | JStr s => Ok [s]
                        | _ => Raise (Unmodelled "sorting names that are not text")
                        end
                      else Ok []) tools;
  Ok (map fst (sort_items (map (fun s => (s, tt)) (concat ls)))).

(** The files: [None] when tools.json cannot be opened; what reading the Makefile
    gives; the text of an exception. *)
Context (tools_json : option string) (makefile : result string) (exc_text : exn -> string).

Definition load_tools (bytes : string) : result json :=
  if utf8_valid bytes then json_loads bytes else Raise UnicodeDecodeError.

(** [main]: the exit status and the printed lines. *)
Definition check_main : result (Z * list string) :=
  match tools_json with
  | None => Raise (OSError "No such file or directory")
  | Some bytes =>
      match load_tools bytes with
      | Raise (Unmodelled w) => Raise (Unmodelled w)
      | Raise e => Ok (1%Z, ["REGISTRY FAIL"; "  - tools.json is not valid JSON: " +:+ exc_text e])
      | Ok data =>
          tools ← get_default data "tools" (JList []);
          if negb (truthy tools) then
            Ok (1%Z, ["REGISTRY FAIL"; "  - tools.json has no 'tools' array"])
          else
            tools ← as_list tools;
            st ← check_tools (CheckState [] [] []) tools;
            mk ← makefile;
            match errs st ++ coverage_errors (tool_targets mk) (keys (build_bins st)) with
            | [] =>
                lo ← live_orders tools;
                Ok (0%Z, ["registry ok: " +:+ show_nat (length tools) +:+ " tools, " +:+
                          show_nat (length (tool_targets mk)) +:+
                          " build targets covered; live_order (console-forbidden)=" +:+
                          py_repr (strs lo)])
            | es => Ok (1%Z, "REGISTRY FAIL" :: map (fun e => "  - " +:+ e) es)
            end
      end
  end.

(** ** What a registry must be *)

(** The command of a tool, and the binary it registers. *)
Definition cmd_of (t : json) : result json := get_default t "cmd" (JStr EmptyString).
Definition cmd_bin (t : json) : option string :=
  match cmd_of t with Ok (JStr c) => build_cmd c | _ => None end.

Definition name_of (t : json) : json :=
  match get_default t "name" (JStr "<noname>") with Ok n => n | Raise _ => JNull end.

Definition fields_ok (t : json) : Prop :=
  (forall r, In r REQUIRED -> has_key t r = true) /\
  (exists s, get t "safety" = Ok (JStr s) /\ In s SAFETY) /\
  (exists k, get t "kind" = Ok (JStr k) /\ In k KIND /\
     (k = "test" \/ k = "check" -> exists token, get t "pass_token" = Ok token /\ truthy token = true)).

(** A binary that is built, when that is asked, or a script that exists. *)
Definition cmd_ok (t : json) : Prop :=
  exists cmd, cmd_of t = Ok (JStr cmd) /\
    match build_cmd cmd with
    | Some b => require_built = true -> (forall v, get t "build" = Ok v -> eq_str v "on_demand" = false) ->
                exists_ ("build/" +:+ b) = true
    | None => exists_ (match strip "./" cmd with Some r => r | None => cmd end) = true
    end.

(** Every tool is well described, no name comes twice, and the registered
    binaries are exactly the tools that the Makefile builds. *)
Record registry_ok (mk : string) (tools : list json) : Prop := RegistryOk {
  tools_fields : Forall fields_ok tools;
  tools_cmds : Forall cmd_ok tools;
  tools_distinct : ForallOrdPairs (fun a b => py_eq b a = false) (map name_of tools);
  tools_covered : forall x, In x (tool_targets mk) <-> In x (omap cmd_bin tools)
}.

(** ** The errors are the violations *)

Lemma when_err_nil b msg : when_err b msg = [] <-> b = false.
Proof. by destruct b. Qed.

Lemma flat_map_nil {A B} (f : A -> list B) l : flat_map f l = [] <-> forall a, In a l -> f a = [].
Proof.
  induction l as [|a l IH]; cbn [flat_map In]; [by split|]. split.
  - intros [Ha Hl]%app_eq_nil x [<-|Hx]; [done|]. by apply IH.
  - intros Hf. rewrite (Hf a) by by left. apply IH. intros x Hx. apply Hf. by right.
Qed.

Lemma in_strset_ok v S b : in_strset v S = Ok b -> b = true <-> exists s, v = JStr s /\ In s S.
Proof.
  unfold in_strset. intros Hs. inv_ok. split.
  - destruct v; try done. intros Hb%str_in_spec. eauto.
  - intros (s & -> & Hin). by apply str_in_spec.
Qed.

Lemma app_nil_iff {A} (a b : list A) : a ++ b = [] <-> a = [] /\ b = [].
Proof. split; [apply app_eq_nil|by intros [-> ->]]. Qed.

Lemma field_errors_nil t n es : field_errors t n = Ok es -> es = [] <-> fields_ok t.
Proof.
  unfold field_errors, fields_ok. cbv zeta. intros H. inv_ok.
  rewrite !app_nil_iff, !when_err_nil, flat_map_nil.
  match goal with Hs : in_strset ?v SAFETY = Ok ?b |- _ => rename v into safety, b into safe;
    apply in_strset_ok in Hs; rename Hs into Isafe end.
  match goal with Hs : in_strset ?v KIND = Ok ?b |- _ => rename v into kind, b into known;
    apply in_strset_ok in Hs; rename Hs into Ikind end.
  match goal with Hs : in_strset kind _ = Ok ?b |- _ => rename b into parsed; apply in_strset_ok in Hs;
    rename Hs into Iparsed end.
  match goal with Hs : get t "pass_token" = Ok ?v |- _ => rename v into token end.
  setoid_rewrite when_err_nil. setoid_rewrite negb_false_iff.
  rewrite andb_false_iff, negb_false_iff, <- not_true_iff_false. split.
  - intros (Hm & Hsafe & Hk & Ht). split; [done|]. split.
    + apply Isafe in Hsafe as (s & -> & Hin). eauto.
    + apply Ikind in Hk as (k & -> & Hin). exists k. repeat split; try done. intros Hkk.
      exists token. split; [done|]. destruct Ht as [Ht|Ht]; [|done]. destruct Ht. apply Iparsed.
      exists k. split; [done|]. by destruct Hkk as [-> | ->]; [left|right; left].
  - intros (Hm & (s & Es & Hin) & (k & Ek & Hk & Ht)). split; [done|].
    assert (safety = JStr s) as -> by congruence. assert (kind = JStr k) as -> by congruence.
    split; [apply Isafe; eauto|]. split; [apply Ikind; eauto|].
    destruct (truthy token) eqn:Etok; [by right|left]. intros (k' & [= <-] & Hin')%Iparsed.
    destruct Ht as (tok & Et & Htok); [|congruence].
    destruct Hin' as [<-|[<-|[]]]; auto.
Qed.

Lemma cmd_errors_nil t n b es :
  cmd_errors t n = Ok (b, es) -> b = cmd_bin t /\ (es = [] <-> cmd_ok t).
Proof.
  unfold cmd_errors, cmd_bin, cmd_ok, cmd_of. intros H. apply bind_ok in H as (c & Ec & H). rewrite Ec.
  apply bind_ok in H as (cmd & Es & H). destruct c; try done. apply Ok_inj in Es as <-.
  destruct (build_cmd s) as [bin|] eqn:Eb; inv_ok; simplify_eq/=; rewrite when_err_nil; (split; [done|]).
  - split.
    + intros Hb. exists s. split; [done|]. rewrite Eb. intros Hr Hd. rewrite Hr, (Hd _ E) in Hb.
      by apply negb_false_iff in Hb.
    + intros (cmd & [= <-] & Hc). rewrite Eb in Hc. destruct require_built; [|done].
      destruct (eq_str x "on_demand") eqn:Ed; [done|]. cbn [andb negb]. apply negb_false_iff.
      apply Hc; [done|]. intros v Hv. congruence.
  - rewrite negb_false_iff. split.
    + intros He. exists s. split; [done|]. by rewrite Eb.
    + intros (cmd & [= <-] & Hc). by rewrite Eb in Hc.
Qed.

(** No tool has a name that was seen before. *)
Fixpoint fresh (seen : list json) (tools : list json) : Prop :=
  match tools with
  | [] => True
  | t :: tools' => in_list (name_of t) seen = false /\ fresh (name_of t :: seen) tools'
  end.

Lemma check_tool_step st t st' :
  check_tool st t = Ok st' ->
  names st' = name_of t :: names st /\
  (forall x, In x (keys (build_bins st')) <-> In x (keys (build_bins st)) \/ cmd_bin t = Some x) /\
  (errs st' = [] <-> errs st = [] /\ fields_ok t /\ cmd_ok t /\ in_list (name_of t) (names st) = false).
Proof.
  unfold check_tool. intros H. apply bind_ok in H as (n & En & H). apply bind_ok in H as (e1 & E1 & H).
  apply bind_ok in H as (u & _ & H). apply bind_ok in H as ([b e3] & E3 & H). apply Ok_inj in H as <-.
  assert (name_of t = n) as -> by (unfold name_of; by rewrite En).
  destruct (cmd_errors_nil t n b e3 E3) as [-> Hc]. pose proof (field_errors_nil t n e1 E1) as Hf.
  cbn [names build_bins errs fst snd]. split; [done|]. split.
  - intros x. clear. destruct (cmd_bin t) as [b|]; [rewrite keys_assoc_set_in|]; intuition congruence.
  - rewrite !app_nil_iff, when_err_nil. tauto.
Qed.

Lemma check_tools_spec tools : forall st st',
  check_tools st tools = Ok st' ->
  (forall x, In x (keys (build_bins st')) <-> In x (keys (build_bins st)) \/ In x (omap cmd_bin tools)) /\
  (errs st' = [] <->
   errs st = [] /\ Forall fields_ok tools /\ Forall cmd_ok tools /\ fresh (names st) tools).
Proof.
  induction tools as [|t tools IH]; intros st st' H; cbn [check_tools] in H.
  { apply Ok_inj in H as <-. split; [intros x; cbn; tauto|].
    split; [intros ->; repeat split; constructor|by intros [? _]]. }
  apply bind_ok in H as (st1 & E1 & H). destruct (IH _ _ H) as [Hb He].
  destruct (check_tool_step _ _ _ E1) as (Hn & Hb1 & He1). split.
  - intros x. rewrite Hb, Hb1. cbn [omap list_omap].
    clear. destruct (cmd_bin t) as [b|]; cbn [In]; intuition congruence.
  - rewrite He, He1, Hn. cbn [fresh]. rewrite !List.Forall_cons_iff. tauto.
Qed.

Lemma fresh_pairs tools : forall seen,
  fresh seen tools <->
  Forall (fun t => in_list (name_of t) seen = false) tools /\
  ForallOrdPairs (fun a b => py_eq b a = false) (map name_of tools).
Proof.
  induction tools as [|t tools IH]; intros seen; cbn [fresh map].
  { split; [|done]. intros _. split; constructor. }
  rewrite IH, List.Forall_cons_iff. split.
  - intros (Ht & Hs & Hp). split; [split; [done|]|constructor; [|done]].
    + eapply List.Forall_impl; [|exact Hs]. intros u. cbn. by intros [_ ?]%orb_false_iff.
    + apply Forall_map. eapply List.Forall_impl; [|exact Hs]. intros u. cbn. by intros [? _]%orb_false_iff.
  - intros ([Ht Hs] & Hp). inversion Hp as [|? ? Hhd Htl]; subst. split; [done|]. split; [|done].
    rewrite Forall_map in Hhd. rewrite List.Forall_forall in Hhd, Hs |- *. intros u Hu. cbn.
    apply orb_false_iff. split; [by apply Hhd|by apply Hs].
Qed.

Lemma coverage_nil targets bins :
  coverage_errors targets bins = [] <-> forall x, In x targets <-> In x bins.
Proof.
  unfold coverage_errors. rewrite app_nil_iff, !flat_map_nil.
  setoid_rewrite when_err_nil. setoid_rewrite negb_false_iff. setoid_rewrite str_in_spec. split.
  - intros [H1 H2] x. split; [apply H1|]. intros Hx. apply H2. by apply sorted_set_in.
  - intros Hx. split; intros x Hin; [by apply Hx|]. apply Hx. by apply sorted_set_in.
Qed.
End Check.
