(* ===== verification/ToolProperties.v ===== *)
(** * Properties of the tool registry check

    An exit status of 0 of tools/check_registry.py is the registry being what it
    must be, and what that gives to the operations console. *)

From stdpp Require Import base list strings numbers.
From Stdlib Require Import ZArith Lia Bool Ascii.
From S2P Require Import Prelude PyJson Sha256 JsonText PyText Validator RunTests Dashboard.
From S2P Require Import RunTestsFacts ConsoleFacts CheckRegistry.

(** The registry that a run of the check read. *)
Definition checked (exists_ : string -> bool) (require_built : bool) (tools_json : option string)
    (makefile : result string) (bytes : string) (tools : list json) : Prop :=
  tools_json = Some bytes /\
  (data ← load_tools bytes; tools ← get_default data "tools" (JList []); as_list tools) = Ok tools /\
  tools <> [] /\ exists mk, makefile = Ok mk /\ registry_ok exists_ require_built mk tools.

Lemma truthy_as_list v l : as_list v = Ok l -> truthy v = false <-> l = [].
Proof.
  destruct v as [| | | |s|l'|d]; try done; cbn [as_list truthy]; intros [= <-].
  - destruct s; [done|]. split; done.
  - by destruct l'.
  - by destruct d.
Qed.

Lemma check_errors_spec exists_ require_built tools mk st :
  check_tools exists_ require_built (CheckState [] [] []) tools = Ok st ->
  errs st ++ coverage_errors (tool_targets mk) (keys (build_bins st)) = [] <->
  registry_ok exists_ require_built mk tools.
Proof.
  intros H. destruct (check_tools_spec _ _ _ _ _ H) as [Hb He]. cbn [names build_bins errs] in *.
  rewrite app_nil_iff, coverage_nil, He, fresh_pairs.
  assert (forall x, In x (keys (build_bins st)) <-> In x (omap cmd_bin tools)) as Hb' by
    (intros x; rewrite Hb; cbn; tauto).
  setoid_rewrite Hb'. split.
  - intros [(_ & Hf & Hc & _ & Hp) Hcov]. by constructor.
  - intros [Hf Hc Hp Hcov]. repeat split; try done; try by apply Hcov.
    apply List.Forall_forall. done.
Qed.

(** ** When the check does not raise *)

Definition is_text (v : json) : bool := match v with JStr _ => true | _ => false end.

(** A tool is an object; its safety class and kind are no lists or objects, and
    its name and command are text, when they are there. *)
Definition typed_tool (t : json) : bool :=
  match t with
  | JObj d =>
      forallb (fun k => match assoc k d with Some v => hashable v | None => true end) ["safety"; "kind"] &&
      forallb (fun k => match assoc k d with Some v => is_text v | None => true end) ["name"; "cmd"]
  | _ => false
  end.

(** The files are there, and what is JSON is an object whose tools are a list of
    such tools. *)
Definition typed_input (tools_json : option string) (makefile : result string) : bool :=
  is_ok makefile &&
  match tools_json with
  | None => false
  | Some bytes =>
      match load_tools bytes with
      | Raise (Unmodelled _) => false
      | Raise _ => true
      | Ok data =>
          match get_default data "tools" (JList []) with
          | Ok (JList tools) => forallb typed_tool tools
          | _ => false
          end
      end
  end.

Lemma need_hashable_ok v : hashable v = true -> need_hashable v = Ok tt.
Proof. unfold need_hashable. by intros ->. Qed.

Lemma check_tool_typed exists_ require_built st t :
  typed_tool t = true -> exists st', check_tool exists_ require_built st t = Ok st'.
Proof.
  destruct t as [| | | | | |d]; try done. unfold typed_tool. cbn [forallb]. intros Ht.
  rewrite !andb_true_iff in Ht. destruct Ht as [(Hs & Hk & _) (Hn & Hc & _)].
  unfold check_tool, field_errors, cmd_errors, in_strset, get, get_default, mbind, result_bind.
  rewrite !need_hashable_ok.
  - destruct (assoc "cmd" d) as [[]|]; try done; (destruct (build_cmd _); eexists; reflexivity).
  - destruct (assoc "name" d) as [[]|]; done.
  - by destruct (assoc "kind" d).
  - by destruct (assoc "safety" d).
Qed.

Lemma check_tools_typed exists_ require_built tools : forall st,
  forallb typed_tool tools = true -> exists st', check_tools exists_ require_built st tools = Ok st'.
Proof.
  induction tools as [|t tools IH]; intros st; cbn [forallb check_tools]; [eauto|].
  intros [Ht Hr]%andb_true_iff.
  destruct (check_tool_typed exists_ require_built st t Ht) as [st' ->]. by apply IH.
Qed.

Lemma live_orders_typed tools :
  forallb typed_tool tools = true -> Forall fields_ok tools -> is_ok (live_orders tools) = true.
Proof.
  intros Ht Hf. unfold live_orders.
  match goal with |- context [mapR ?f tools] => assert (is_ok (mapR f tools) = true) as Hm end.
  { revert Ht. induction Hf as [|t tools Ht Hf IH]; cbn [forallb mapR]; [done|].
    intros [Htt Hrest]%andb_true_iff. specialize (IH Hrest).
    destruct Ht as (Hkeys & (s & Hs & _) & _). rewrite Hs. cbn [mbind result_bind].
    match goal with |- context [mapR ?f tools] => destruct (mapR f tools); [|done] end.
    destruct (eq_str (JStr s) "live_order"); [|done].
    specialize (Hkeys "name" ltac:(by left)). destruct t as [| | | | | |d]; try done.
    unfold typed_tool in Htt. apply andb_true_iff in Htt as [_ [Hn _]%andb_true_iff].
    cbn [has_key getitem] in *. destruct (assoc "name" d) as [[]|]; done. }
  destruct (mapR _ tools); done.
Qed.

Lemma check_main_typed exists_ require_built tools_json makefile exc_text :
  typed_input tools_json makefile = true ->
  is_ok (check_main exists_ require_built tools_json makefile exc_text) = true.
Proof.
  unfold typed_input, check_main. destruct makefile as [mk|]; [|done]. cbn [is_ok andb].
  destruct tools_json as [bytes|]; [|done]. destruct (load_tools bytes) as [data|e]; [|by destruct e].
  destruct (get_default data "tools" (JList [])) as [v|]; [|done]. cbn [mbind result_bind].
  destruct v as [| | | | |tools|]; try done. intros Ht. destruct (truthy _); [|done].
  cbn [negb as_list mbind result_bind].
  destruct (check_tools_typed exists_ require_built tools (CheckState [] [] []) Ht) as [st Es].
  rewrite Es. cbn [mbind result_bind]. pose proof (check_errors_spec _ _ _ mk _ Es) as Hs.
  destruct (errs st ++ _) as [|e es]; [|done].
  pose proof (live_orders_typed tools Ht (tools_fields _ _ _ _ (proj1 Hs eq_refl))) as Hl.
  by destruct (live_orders tools).
Qed.

(** The status of a check that does not raise. *)
Lemma check_status exists_ require_built tools_json makefile exc_text :
  match check_main exists_ require_built tools_json makefile exc_text with
  | Ok (status, _) =>
      (status = 0 \/ status = 1)%Z /\
      (status = 0%Z <-> exists bytes tools,
         checked exists_ require_built tools_json makefile bytes tools)
  | Raise _ => True
  end.
Proof.
  unfold check_main, checked. destruct tools_json as [bytes|]; [|done].
  destruct (load_tools bytes) as [data|e] eqn:El.
  2: { destruct e; try exact I; (split; [by right|]); (split; [done|]);
       intros (b & tools & [= <-] & Hl & _); rewrite El in Hl; discriminate Hl. }
  destruct (get_default data "tools" (JList [])) as [v|e] eqn:Eg; [|done]. cbn [mbind result_bind].
  destruct (truthy v) eqn:Et; cbn [negb].
  2: { split; [by right|]. split; [done|]. intros (b & tools & [= <-] & Hl & Hne & _).
       rewrite El in Hl. cbn [mbind result_bind] in Hl. rewrite Eg in Hl. cbn [mbind result_bind] in Hl.
       apply truthy_as_list in Hl. by apply Hl in Et. }
  destruct (as_list v) as [tools|e] eqn:Ea; [|done]. cbn [mbind result_bind].
  destruct (check_tools exists_ require_built (CheckState [] [] []) tools) as [st|e] eqn:Ec; [|done].
  cbn [mbind result_bind]. destruct makefile as [mk|e]; [|done]. cbn [mbind result_bind].
  pose proof (check_errors_spec _ _ _ mk _ Ec) as Hs.
  assert (tools <> []) as Hne.
  { intros ->. pose proof (proj2 (truthy_as_list v [] Ea) eq_refl). congruence. }
  destruct (errs st ++ _) as [|e es].
  - destruct (live_orders tools) as [lo|]; [|done]. cbn [mbind result_bind].
    split; [by left|]. split; [|done]. intros _. exists bytes, tools. rewrite El. cbn [mbind result_bind].
    rewrite Eg. cbn [mbind result_bind]. repeat split; try done. exists mk. split; [done|]. by apply Hs.
  - split; [by right|]. split; [done|]. intros (b & tools' & [= <-] & Hl & _ & mk' & [= <-] & Hok).
    rewrite El in Hl. cbn [mbind result_bind] in Hl. rewrite Eg in Hl. cbn [mbind result_bind] in Hl.
    rewrite Ea in Hl. apply Ok_inj in Hl as <-. by apply Hs in Hok.
Qed.

(** C36: the check is exact.  It exits with 0 or 1, and with 0 exactly when
    tools.json is JSON with a non-empty list of tools that all have the required
    fields, a known safety class and kind, a pass token where output is parsed and
    a command that exists, no two of them one name, and whose binaries are the
    tools that the Makefile builds.  It raises only when a file is missing or the
    tools are not of the expected types. *)
Theorem check_registry_exact (exists_ : string -> bool) (require_built : bool)
    (tools_json : option string) (makefile : result string) (exc_text : exn -> string) :
  match check_main exists_ require_built tools_json makefile exc_text with
  | Ok (status, _) =>
      (status = 0 \/ status = 1)%Z /\
      (status = 0%Z <-> exists bytes tools,
         checked exists_ require_built tools_json makefile bytes tools)
  | Raise _ => typed_input tools_json makefile = false
  end.
Proof.
  pose proof (check_status exists_ require_built tools_json makefile exc_text) as Hs.
  pose proof (check_main_typed exists_ require_built tools_json makefile exc_text) as Ht.
  destruct (check_main _ _ _ _ _); [exact Hs|]. apply not_true_is_false. intros H. by apply Ht in H.
Qed.

(** ** A checked registry in the console *)

Lemma py_eq_text n s : py_eq n (JStr s) = true <-> n = JStr s.
Proof.
  split; [|intros ->; apply String.eqb_refl].
  destruct n; try done; cbn [py_eq]. by intros ->%String.eqb_eq.
Qed.

Lemma py_eq_text_l s n : py_eq (JStr s) n = true <-> n = JStr s.
Proof.
  split; [|intros ->; apply String.eqb_refl].
  destruct n; try done; cbn [py_eq]. by intros ->%String.eqb_eq.
Qed.

Lemma dict_get_put_text s n v d :
  dict_get (JStr s) (dict_put n v d) = if py_eq n (JStr s) then Some v else dict_get (JStr s) d.
Proof.
  induction d as [|[k w] d IH]; cbn [dict_put dict_get].
  - destruct (py_eq n (JStr s)) eqn:E.
    + apply py_eq_text in E as ->. by rewrite (proj2 (py_eq_text_l s (JStr s)) eq_refl).
    + destruct (py_eq (JStr s) n) eqn:E'; [|done]. apply py_eq_text_l in E' as ->.
      by rewrite (proj2 (py_eq_text _ s) eq_refl) in E.
  - destruct (py_eq n k) eqn:Ek; cbn [dict_get].
    + destruct (py_eq (JStr s) k) eqn:Es.
      * apply py_eq_text_l in Es as ->. by rewrite Ek.
      * destruct (py_eq n (JStr s)) eqn:E; [|done]. apply py_eq_text in E as ->. congruence.
    + destruct (py_eq (JStr s) k) eqn:Es; [|apply IH].
      apply py_eq_text_l in Es as ->. by rewrite Ek.
Qed.

(** A tool of a checked registry is found under its name. *)
Lemma by_name_finds tools : forall d by_name t s,
  tools_by_name tools d = Ok by_name ->
  ForallOrdPairs (fun a b => py_eq b a = false) (map name_of tools) ->
  In t tools -> getitem t "name" = Ok (JStr s) -> dict_get (JStr s) by_name = Some t.
Proof.
  assert (forall u n, getitem u "name" = Ok n -> name_of u = n) as Hname.
  { intros u n Hu. unfold name_of, getitem, get_default in *. destruct u; try done.
    apply or_raise_ok in Hu. by rewrite Hu. }
  assert (forall tools d by_name s, tools_by_name tools d = Ok by_name ->
    Forall (fun u => py_eq (name_of u) (JStr s) = false) tools ->
    dict_get (JStr s) by_name = dict_get (JStr s) d) as Hkeep.
  { induction tools0 as [|u us IH]; intros d by_name s E Hf; cbn [tools_by_name] in E.
    - by apply Ok_inj in E as <-.
    - apply bind_ok in E as (n & En & E). apply bind_ok in E as (? & _ & E).
      inversion Hf as [|? ? Hu Hus]; subst. rewrite (IH _ _ _ E Hus), dict_get_put_text.
      rewrite (Hname u n En) in Hu. by rewrite Hu. }
  induction tools as [|u tools IH]; intros d by_name t s E Hp Hin Hs; [done|].
  cbn [tools_by_name map] in *. inversion Hp as [|? ? Hhd Htl]; subst.
  apply bind_ok in E as (n & En & E). apply bind_ok in E as (? & _ & E).
  destruct Hin as [->|Hin]; [|by eapply IH].
  assert (n = JStr s) as -> by congruence. rewrite (Hname t _ Hs) in Hhd.
  rewrite (Hkeep _ _ _ _ E), dict_get_put_text; [by rewrite (proj2 (py_eq_text _ s) eq_refl)|].
  by rewrite Forall_map in Hhd.
Qed.

Lemma tools_by_name_total tools : forall d,
  (forall t, In t tools -> exists n, getitem t "name" = Ok n /\ hashable n = true) ->
  exists by_name, tools_by_name tools d = Ok by_name.
Proof.
  induction tools as [|t tools IH]; intros d Hn; cbn [tools_by_name]; [eauto|].
  destruct (Hn t) as (n & -> & Hh); [by left|]. cbn [mbind result_bind].
  unfold need_hashable. rewrite Hh. cbn [mbind result_bind]. apply IH. intros u Hu. apply Hn. by right.
Qed.

(** The answer of the policy for a known safety class. *)
Lemma may_run_known t s allow :
  get t "safety" = Ok (JStr s) -> In s SAFETY ->
  exists reason, may_run t allow =
    Ok (String.eqb s "pure" || String.eqb s "offline" || (String.eqb s "network_read" && allow), reason).
Proof.
  intros Hs Hin. unfold may_run. rewrite Hs. cbn [mbind result_bind].
  repeat (destruct Hin as [<-|Hin]; [destruct allow; eexists; reflexivity|]). destruct Hin.
Qed.

Lemma checked_hashable exists_ rb tools : forall st st' t,
  check_tools exists_ rb st tools = Ok st' -> In t tools -> hashable (name_of t) = true.
Proof.
  induction tools as [|u tools IH]; intros st st' t H Hin; [done|]. cbn [check_tools] in H.
  apply bind_ok in H as (st1 & E & H). destruct Hin as [->|Hin]; [|by eapply IH].
  unfold check_tool in E. apply bind_ok in E as (n & En & E). apply bind_ok in E as (? & _ & E).
  apply bind_ok in E as (? & Eh & _). unfold name_of. rewrite En. unfold need_hashable in Eh.
  by destruct (hashable n).
Qed.

Lemma field_name t : fields_ok t -> getitem t "name" = Ok (name_of t).
Proof.
  intros [Hr _]. specialize (Hr "name" (or_introl eq_refl)). unfold has_key, name_of, getitem, get_default in *.
  destruct t; try done. by destruct (assoc "name" d).
Qed.

(** What an exit status of 0 leaves: the tools, as the console loads them. *)
Lemma check_zero exists_ rb bytes makefile exc_text lines :
  check_main exists_ rb (Some bytes) makefile exc_text = Ok (0%Z, lines) ->
  exists v tools by_name mk,
    load_registry (Ok bytes) = Ok v /\ as_list v = Ok tools /\ registry_ok exists_ rb mk tools /\
    tools_by_name tools [] = Ok by_name.
Proof.
  unfold check_main. destruct (load_tools bytes) as [data|e] eqn:El; [|by destruct e].
  unfold load_tools in El. destruct (utf8_valid bytes); [|done].
  destruct (get_default data "tools" (JList [])) as [v|e] eqn:Eg; [|done]. cbn [mbind result_bind].
  destruct (truthy v) eqn:Et; [|done]. cbn [negb].
  destruct (as_list v) as [tools|e] eqn:Ea; [|done]. cbn [mbind result_bind].
  destruct (check_tools exists_ rb (CheckState [] [] []) tools) as [st|e] eqn:Ec; [|done].
  cbn [mbind result_bind]. destruct makefile as [mk|e]; [|done]. cbn [mbind result_bind].
  destruct (errs st ++ coverage_errors (tool_targets mk) (keys (build_bins st))) eqn:Ee; [|done].
  apply (check_errors_spec _ _ _ mk _ Ec) in Ee. intros _.
  destruct (tools_by_name_total tools []) as [by_name Eb].
  { intros t Hin. pose proof (tools_fields _ _ _ _ Ee) as Hf. rewrite List.Forall_forall in Hf.
    exists (name_of t). split; [by apply field_name, Hf|by eapply checked_hashable]. }
  exists v, tools, by_name, mk. split; [|exact (conj Ea (conj Ee Eb))].
  unfold load_registry. cbn [mbind result_bind]. rewrite El. cbn [mbind result_bind].
  unfold get_default in Eg. unfold getitem. destruct data; try done.
  destruct (assoc "tools" d); [|by apply Ok_inj in Eg as <-]. by apply Ok_inj in Eg as <-.
Qed.

(** C37: a checked registry makes the console's answers certain.  After the check
    exits with 0 on the registry that the console serves, a request to run a tool
    by its name reaches that very tool, whose safety class is one of the four:
    it is run when it is pure or offline, or reads the network and the server
    allows that; otherwise it is refused and nothing happens, and a tool that can
    place live orders is always refused. *)
Theorem checked_registry_console ROOT os free_port_of key_exists command dur_ms ts_ms
    exists_ require_built bytes makefile exc_text lines :
  check_main exists_ require_built (Some bytes) makefile exc_text = Ok (0%Z, lines) ->
  exists v tools, load_registry (Ok bytes) = Ok v /\ as_list v = Ok tools /\
  forall t name, In t tools -> getitem t "name" = Ok (JStr name) ->
  exists safety, get t "safety" = Ok (JStr safety) /\ In safety SAFETY /\
  forall q body allow w,
    path_of (q_target q) = "/api/run" -> read_body q = Ok body ->
    get_default body "name" (JStr EmptyString) = Ok (JStr name) ->
    let response :=
      do_POST ROOT os free_port_of key_exists command dur_ms ts_ms (Ok bytes) allow q w in
    if String.eqb safety "pure" || String.eqb safety "offline" ||
       (String.eqb safety "network_read" && allow)
    then response = (rec ← run_tool ROOT os free_port_of key_exists command dur_ms t allow;
                     _ ← record ROOT os ts_ms rec; mret (_json 200 rec)) w
    else exists reason, response =
      (Ok (_json 403 (obj ["error" ~> JStr "refused"; "name" ~> JStr name; "reason" ~> JStr reason])), w).
Proof.
  intros H. destruct (check_zero _ _ _ _ _ _ H) as (v & tools & by_name & mk & Hv & Hl & Hok & Hb).
  exists v, tools. split; [done|]. split; [done|]. intros t name Hin Hn.
  destruct Hok as [Hf _ Hp _]. rewrite List.Forall_forall in Hf.
  destruct (Hf t Hin) as (_ & (safety & Hs & Hknown) & _). exists safety. split; [done|]. split; [done|].
  intros q body allow w Hpath Hbody Hname response. subst response.
  rewrite (post_named _ _ _ _ _ _ _ _ _ q body (JStr name) v tools by_name t w Hpath Hbody Hname eq_refl
             Hv Hl Hb (by_name_finds _ _ _ _ _ Hb Hp Hin Hn)).
  destruct (may_run_known t safety allow Hs Hknown) as [reason ->].
  destruct (_ || _); [done|]. by exists reason.
Qed.

Definition ring_tool : json := obj [
  "name" ~> JStr "test_ring"; "kind" ~> JStr "test"; "safety" ~> JStr "pure";
  "cmd" ~> JStr "./build/test_ring"; "pass_token" ~> JStr "ALL PASS";
  "description" ~> JStr "ring"; "docs" ~> JStr "tests/test_ring.cpp"].
Definition order_tool : json := obj [
  "name" ~> JStr "place_order"; "kind" ~> JStr "probe"; "safety" ~> JStr "live_order";
  "cmd" ~> JStr "./tools/order.sh"; "description" ~> JStr "order"; "docs" ~> JStr "docs/order.md"].
Definition two_tools : string := dumps "," ":" (obj ["tools" ~> JList [ring_tool; order_tool]]).
Definition two_targets : string :=
  "$(BUILD)/test_ring: tests/test_ring.cpp" +:+ str1 newline +:+ "$(BUILD)/test_ring_tsan: x".
Definition order_request : request :=
  let body := dumps "," ":" (obj ["name" ~> JStr "place_order"]) in
  Request "/api/run" (Some (show_nat (String.length body))) (fun _ => Ok body).

Lemma checked_registry_console_witness :
  exists reason,
    do_POST ["srv"] (fun _ _ => Ok tt) (fun k => Z.of_nat k) (fun _ => true)
      (fun _ _ => TimedOut) (fun _ => 1%Z) (fun _ => 1%Z) (Ok two_tools) true order_request
      (World [] 0 [] None)
    = (Ok (_json 403 (obj ["error" ~> JStr "refused"; "name" ~> JStr "place_order";
                           "reason" ~> JStr reason])), World [] 0 [] None).
Proof.
  destruct (checked_registry_console ["srv"] (fun _ _ => Ok tt) (fun k => Z.of_nat k) (fun _ => true)
    (fun _ _ => TimedOut) (fun _ => 1%Z) (fun _ => 1%Z) (fun _ => true) true two_tools (Ok two_targets)
    (fun _ => EmptyString)
    ["registry ok: 2 tools, 1 build targets covered; live_order (console-forbidden)=['place_order']"])
    as (v & tools & Hv & Hl & H).
  { vm_compute. reflexivity. }
  assert (load_registry (Ok two_tools) = Ok (JList [ring_tool; order_tool])) as E
    by (vm_compute; reflexivity).
  rewrite E in Hv. apply Ok_inj in Hv as <-. apply Ok_inj in Hl as <-.
  destruct (H order_tool "place_order") as (safety & Hs & _ & Hpost); [by right; left|reflexivity|].
  assert (safety = "live_order") as -> by (apply Ok_inj in Hs; by injection Hs).
  apply (Hpost order_request (obj ["name" ~> JStr "place_order"]) true (World [] 0 [] None));
    vm_compute; reflexivity.
Defined.
