(* ===== verification/LatencyProbe.v ===== *)
(** * The latency probe

    tools/latency_probe_auth.py: signed read-only requests over one connection,
    one line of JSON per sample, a summary at the end.  What the probe does to the
    outside is a trace of [pevent]s; openssl, the server, the clocks and the file
    system are parameters.  Times are exact rationals (a float is one); the index
    of a percentile is computed in binary floating point, as Python does. *)

From stdpp Require Import base list strings numbers.
From Stdlib Require Import ZArith Lia Bool Ascii QArith Qround Qminmax SpecFloat.
From S2P Require Import Prelude PyJson Sha256 JsonText PyText PdfCanvas.

#[local] Open Scope Z_scope.

Definition API_PREFIX : string := "/trade-api/v2".
Definition METHOD : string := "GET".
Definition ENDPOINTS : list (string * Z) := [("/exchange/status", 10); ("/markets?limit=1", 1)].

(** ** Effects *)

Inductive pevent :=
| PCreate (path : string)
| PGenKey (path : string)
| PMakedirs (path : string)
| POpen (path : string)
| PSign (key_path message : string)
| PConnect (host : string)
| PRequest (method path : string) (headers : list (string * string))
| PWrite (line : string)
| PSleep (seconds : Q)
| PPrint (line : string)
| PPrintErr (line : string).

Definition probe (A : Type) : Type := list pevent -> result A * list pevent.

#[export] Instance probe_ret : MRet probe := fun A a tr => (Ok a, tr).
#[export] Instance probe_bind : MBind probe := fun A B f m tr =>
  match m tr with
  | (Ok a, tr') => f a tr'
  | (Raise e, tr') => (Raise e, tr')
  end.

Definition liftP {A} (r : result A) : probe A := fun tr => (r, tr).

(** [try: m  except Exception as e: ...] *)
Definition caught {A} (m : probe A) : probe (result A) := fun tr =>
  let '(r, tr') := m tr in (Ok r, tr').

(** ** Numbers as Python computes and prints them *)

(** [round(q * 10 ** d)] to the nearest integer, ties to even. *)
Definition round_half_even (q : Q) : Z :=
  let f := Qfloor q in
  match Qcompare (q - inject_Z f) (1 # 2) with
  | Lt => f
  | Gt => f + 1
  | Eq => if Z.even f then f else f + 1
  end.

(** [round(x, 2)] as JSON prints it. *)
Definition round2 (x : Q) : json :=
  let '(m, e) := norm_dec (round_half_even (x * 100)) 2 in JDec m e.

(** ["%.1f" % x] *)
Definition fixed1 (x : Q) : string := show_dec (round_half_even (x * 10)) 1.

(** The doubles 0.50, 0.90 and 0.99. *)
Definition P50 : spec_float := S754_finite false 4503599627370496 (-53).
Definition P90 : spec_float := S754_finite false 8106479329266893 (-53).
Definition P99 : spec_float := S754_finite false 8917127262193582 (-53).

(** [int(x)] *)
Definition trunc (x : spec_float) : result Z :=
  match x with
  | S754_zero _ => Ok 0
  | S754_finite s m e =>
      let a := if 0 <=? e then Zpos m * 2 ^ e else Zpos m / 2 ^ (- e) in
      Ok (if s then - a else a)
  | S754_infinity _ => Raise (ValueError "cannot convert float infinity to integer")
  | S754_nan => Raise (ValueError "cannot convert float NaN to integer")
  end.

(** [min(n - 1, int(p * n))] *)
Definition percentile_index (n : nat) (p : spec_float) : result Z :=
  i ← trunc (SFmul 53 1024 p (binary_normalize 53 1024 (Z.of_nat n) 0 false));
  Ok (Z.min (Z.of_nat n - 1) i).

(** [l[i]], from the end when [i] is negative. *)
Definition item_at {A} (l : list A) (i : Z) : result A :=
  let j := if i <? 0 then Z.of_nat (length l) + i else i in
  or_raise IndexError (if j <? 0 then None else nth_error l (Z.to_nat j)).

Definition percentile (sorted_vals : list Q) (p : spec_float) : result Q :=
  match sorted_vals with
  | [] => Ok 0%Q
  | _ => i ← percentile_index (length sorted_vals) p; item_at sorted_vals i
  end.

(** [v.sort()] *)
Fixpoint insert_q (x : Q) (l : list Q) : list Q :=
  match l with
  | [] => [x]
  | y :: l' => if Qle_bool x y then x :: l else y :: insert_q x l'
  end.
Definition sort_q (l : list Q) : list Q := foldr insert_q [] l.

(** ** Text *)

(** The letter of six bits. *)
Definition b64_digit (n : Z) : ascii :=
  ascii_of_N (Z.to_N (if n <? 26 then 65 + n else if n <? 52 then 71 + n else if n <? 62 then n - 4
                      else if n =? 62 then 43 else 47)).

(** [base64.b64encode], three bytes at a time. *)
Fixpoint b64encode (bs : list Z) : string :=
  match bs with
  | a :: b :: c :: bs' =>
      String (b64_digit (a / 4)) (String (b64_digit (a mod 4 * 16 + b / 16))
        (String (b64_digit (b mod 16 * 4 + c / 64)) (String (b64_digit (c mod 64)) (b64encode bs'))))
  | [a; b] =>
      String (b64_digit (a / 4)) (String (b64_digit (a mod 4 * 16 + b / 16))
        (String (b64_digit (b mod 16 * 4)) "="))
  | [a] => String (b64_digit (a / 4)) (String (b64_digit (a mod 4 * 16)) "==")
  | [] => EmptyString
  end.

(** [path.split("?", 1)[0]] *)
Definition without_query (path : string) : string := fst (split_once "?" path).

Fixpoint drop_empty (l : list string) : list string :=
  match l with EmptyString :: l' => drop_empty l' | _ => l end.

(** [os.path.dirname(p)]: what is before the last slash, less the slashes at its
    end unless there is nothing else. *)
Definition dirname (p : string) : string :=
  match rev (split_on "/" p) with
  | _ :: (_ :: _) as parts =>
      let head := join "/" (rev (tl parts)) in
      let stripped := join "/" (rev (drop_empty (tl parts))) in
      if String.eqb stripped EmptyString then head +:+ "/" else stripped
  | _ => EmptyString
  end.

Fixpoint until (stop : ascii -> bool) (s : string) : string :=
  match s with
  | EmptyString => EmptyString
  | String c s' => if stop c then EmptyString else String c (until stop s')
  end.

(** [urllib.parse.urlsplit(url).netloc] of a URL in ASCII without white space or
    control characters; others are not modelled. *)
Definition netloc (url : string) : result string :=
  if negb (forallb (fun c => byte_in 33 126 c) (String.list_ascii_of_string url))
  then Raise (Unmodelled "URL")
  else
    let '(scheme, rest) := split_once ":" url in
    let rest := match rest with
                | Some r =>
                    if match scheme with
                       | EmptyString => false
                       | String c _ =>
                           (byte_in 65 90 c || byte_in 97 122 c) &&
                           forallb (fun c => byte_in 65 90 c || byte_in 97 122 c || byte_in 48 57 c ||
                                             byte_in 43 43 c || byte_in 45 46 c)
                             (String.list_ascii_of_string scheme)
                       end
                    then r else url
                | None => url
                end in
    match strip "//" rest with
    | Some r =>
        let host := until (fun c => byte_in 47 47 c || byte_in 63 63 c || byte_in 35 35 c) r in
        if xorb (has_char "[" host) (has_char "]" host) then Raise (ValueError "Invalid IPv6 URL")
        else if has_char "[" host then Raise (Unmodelled "IPv6 URL")
        else Ok host
    | None => Ok EmptyString
    end.

(** ** The probe *)

(** The outside at one sample: the clock in milliseconds, what openssl does and
    how long it takes, what the exchange of one request gives (status, length of
    the body, milliseconds), the text of the time, and the seconds spent. *)
Record sample := Sample {
  s_ts : Z;
  s_openssl : result (Z * string);
  s_sign_ms : Q;
  s_reply : result (Z * Z * Q);
  s_now : string;
  s_elapsed : Q
}.

Record probe_args := ProbeArgs {
  a_n : Z;
  a_hz : Q;
  a_tag : string;
  a_out : string;
  a_throwaway : bool
}.

(** The variables of the loop: is there a connection, the warm samples of each
    endpoint, the last cold sample, the errors. *)
Record pstate := PState {
  conn : bool;
  rtts : list (string * list Q);
  cold_ms : option Q;
  errors : Z
}.

(** [rtts.setdefault(k, []).append(x)] *)
Definition append_rtt (k : string) (x : Q) (d : list (string * list Q)) : list (string * list Q) :=
  assoc_set k (match assoc k d with Some l => l | None => [] end ++ [x]) d.

Section Probe.
Context (os : list pevent -> pevent -> result unit) (at_sample : Z -> sample).
Context (environ : string -> option string) (exc_text : exn -> string).

Definition perform_p (e : pevent) : probe unit := fun tr => (os tr e, tr ++ [e]).

(** [_sign] *)
Definition _sign (key_path message : string) (env : sample) : probe (string * Q) :=
  _ ← perform_p (PSign key_path message);
  p ← liftP (s_openssl env);
  let '(returncode, stdout) := p in
  if negb (returncode =? 0) || String.eqb stdout EmptyString
  then liftP (Raise (RuntimeError "openssl signing failed"))
  else mret (b64encode (str_bytes stdout), s_sign_ms env).

(** One exchange: connect if there is no connection, then the request. *)
Definition exchange (host path : string) (headers : list (string * string)) (connected : bool)
    (env : sample) : probe (Z * Z * Q) :=
  _ ← (if connected then mret tt else perform_p (PConnect host));
  _ ← perform_p (PRequest METHOD (API_PREFIX +:+ path) headers);
  liftP (s_reply env).

Definition error_line (args : probe_args) (path : string) (env : sample) (e : exn) : string :=
  dumps ", " ": " (obj ["ts_utc" ~> JStr (s_now env); "tag" ~> JStr (a_tag args);
    "endpoint" ~> JStr path; "error" ~> JStr (text_of (firstn 120 (chars (exc_text e))))])
  +:+ str1 newline.

Definition sample_line (args : probe_args) (host key_source path : string) (cost : Z) (cold : bool)
    (sign_ms : Q) (env : sample) (reply : Z * Z * Q) : string :=
  let '(status, body_bytes, rtt_ms) := reply in
  dumps ", " ": " (obj ["ts_utc" ~> JStr (s_now env); "tag" ~> JStr (a_tag args);
    "host" ~> JStr host; "key_source" ~> JStr key_source;
    "endpoint" ~> JStr (without_query path); "cost_tokens" ~> JInt cost;
    "cold" ~> JBool cold; "rtt_ms" ~> round2 rtt_ms; "sign_ms" ~> round2 sign_ms;
    "http_status" ~> JInt status; "body_bytes" ~> JInt body_bytes])
  +:+ str1 newline.

(** [1.0 / args.hz if args.hz > 0 else 0.0] *)
Definition period (args : probe_args) : Q := if Qlt_b 0 (a_hz args) then (1 / a_hz args)%Q else 0%Q.

(** The variables after a reply. *)
Definition count_reply (st : pstate) (cold : bool) (endpoint : string) (reply : Z * Z * Q) : pstate :=
  let '(status, _, rtt_ms) := reply in
  if cold then PState true (rtts st) (Some rtt_ms) (errors st)
  else if status =? 200 then PState true (append_rtt endpoint rtt_ms (rtts st)) (cold_ms st) (errors st)
  else PState true (rtts st) (cold_ms st) (errors st + 1).

(** One round of the loop; [None] when signing fails, which ends [main]. *)
Definition take_sample (args : probe_args) (key_id key_path key_source host : string) (st : pstate)
    (i : Z) : probe (option pstate) :=
  let env := at_sample i in
  endpoint ← liftP (or_raise IndexError (nth_error ENDPOINTS (Z.to_nat (i mod Z.of_nat (length ENDPOINTS)))));
  let '(path, cost) := endpoint in
  let ts := show_Z (s_ts env) in
  let message := ts +:+ METHOD +:+ API_PREFIX +:+ without_query path in
  signed ← caught (_sign key_path message env);
  match signed with
  | Raise e =>
      _ ← perform_p (PPrintErr ("sign error: " +:+ exc_text e));
      mret None
  | Ok (sig, sign_ms) =>
      let headers := [("KALSHI-ACCESS-KEY", key_id); ("KALSHI-ACCESS-SIGNATURE", sig);
                      ("KALSHI-ACCESS-TIMESTAMP", ts); ("Connection", "keep-alive")] in
      let cold := negb (conn st) in
      reply ← caught (exchange host path headers (conn st) env);
      match reply with
      | Raise e =>
          _ ← perform_p (PWrite (error_line args path env e));
          mret (Some (PState false (rtts st) (cold_ms st) (errors st + 1)))
      | Ok reply =>
          _ ← perform_p (PWrite (sample_line args host key_source path cost cold sign_ms env reply));
          _ ← (if Qeq_bool (period args) 0 then mret tt
               else perform_p (PSleep (Qmax 0 (period args - s_elapsed env))));
          mret (Some (count_reply st cold (without_query path) reply))
      end
  end.

Fixpoint take_samples (args : probe_args) (key_id key_path key_source host : string)
    (indices : list Z) (st : pstate) : probe (option pstate) :=
  match indices with
  | [] => mret (Some st)
  | i :: indices' =>
      next ← take_sample args key_id key_path key_source host st i;
      match next with
      | None => mret None
      | Some st' => take_samples args key_id key_path key_source host indices' st'
      end
  end.

(** The line of an endpoint in the summary. *)
Definition endpoint_line (row : string * list Q) : result string :=
  let '(ep, v) := row in
  let v := sort_q v in
  lo ← item_at v 0;
  p50 ← percentile v P50;
  p90 ← percentile v P90;
  p99 ← percentile v P99;
  hi ← item_at v (-1);
  Ok (pad_right 18 ep +:+ " n=" +:+ pad_right 4 (show_nat (length v)) +:+ " min=" +:+ fixed1 lo +:+
      " p50=" +:+ fixed1 p50 +:+ " p90=" +:+ fixed1 p90 +:+ " p99=" +:+ fixed1 p99 +:+
      " max=" +:+ fixed1 hi +:+ " ms").

(** [cold_ms or -1] *)
Definition cold_or_none (cold : option Q) : Q :=
  match cold with
  | Some q => if Qeq_bool q 0 then (-1)%Q else q
  | None => (-1)%Q
  end.

Definition print_summary (args : probe_args) (host : string) (st : pstate) : probe unit :=
  _ ← perform_p (PPrint ("tag=" +:+ a_tag args +:+ " host=" +:+ host +:+ " cold=" +:+
        fixed1 (cold_or_none (cold_ms st)) +:+ "ms errors=" +:+ show_Z (errors st)));
  foldr (fun row k => line ← liftP (endpoint_line row); _ ← perform_p (PPrint line); k)
    (mret tt) (sort_items (rtts st)).

(** [not s] of an environment variable. *)
Definition unset (v : option string) : bool :=
  match v with Some s => String.eqb s EmptyString | None => true end.

Definition THROWAWAY_KEY : string := "/tmp/latency_probe_throwaway_key.pem".
Definition ZERO_ID : string := "00000000-0000-0000-0000-000000000000".

(** [main]: the exit status. *)
Definition probe_main (args : probe_args) : probe Z :=
  keys ← (if a_throwaway args then
            _ ← perform_p (PCreate THROWAWAY_KEY);
            _ ← perform_p (PGenKey THROWAWAY_KEY);
            mret (Some ZERO_ID, Some THROWAWAY_KEY, "throwaway")
          else mret (environ "KALSHI_API_KEY_ID", environ "KALSHI_PRIVATE_KEY_PATH", "env"));
  let '(key_id, key_path, key_source) := keys in
  if unset key_id || unset key_path then
    _ ← perform_p (PPrintErr "KALSHI_API_KEY_ID / KALSHI_PRIVATE_KEY_PATH unset");
    mret 2
  else
    let key_id := default EmptyString key_id in
    let key_path := default EmptyString key_path in
    host ← liftP (netloc (default "https://external-api.kalshi.com" (environ "KALSHI_BASE_URL")));
    let dir := dirname (a_out args) in
    _ ← perform_p (PMakedirs (if String.eqb dir EmptyString then "." else dir));
    _ ← perform_p (POpen (a_out args));
    final ← take_samples args key_id key_path key_source host (seqZ 0 (a_n args))
              (PState false [] None 0);
    match final with
    | None => mret 1
    | Some st =>
        _ ← print_summary args host st;
        mret (if errors st =? 0 then 0 else 1)
    end.
End Probe.
