(* ===== verification/LatencyFacts.v ===== *)
(** * Facts of the latency probe

    Floating-point products of the probe are finite and not negative, so the
    index of a percentile is in range; and what a run of the probe does, as a
    compositional property of its trace. *)

From stdpp Require Import base list strings numbers.
From Stdlib Require Import ZArith Lia Bool Ascii QArith Qround SpecFloat.
From S2P Require Import Prelude PyJson Sha256 JsonText PyText PdfCanvas LatencyProbe.

#[local] Open Scope Z_scope.

(** ** Sizes of mantissas *)

Lemma digits_bounds p : 2 ^ (Zpos (digits2_pos p) - 1) <= Zpos p < 2 ^ Zpos (digits2_pos p).
Proof.
  induction p as [p [IH1 IH2]|p [IH1 IH2]|]; cbn [digits2_pos]; [| |done];
    rewrite Pos2Z.inj_succ; replace (Z.succ (Zpos (digits2_pos p)) - 1) with (Zpos (digits2_pos p)) by lia;
    rewrite Z.pow_succ_r by lia;
    replace (2 ^ Zpos (digits2_pos p)) with (2 * 2 ^ (Zpos (digits2_pos p) - 1)) in *
      by (rewrite <- Z.pow_succ_r by lia; f_equal; lia); lia.
Qed.

Lemma digits_le p k : 0 <= k -> Zpos p < 2 ^ k -> Zpos (digits2_pos p) <= k.
Proof.
  intros Hk Hp. destruct (Z.le_gt_cases (Zpos (digits2_pos p)) k) as [|Hlt]; [done|exfalso].
  pose proof (digits_bounds p) as [H1 _].
  assert (2 ^ k <= 2 ^ (Zpos (digits2_pos p) - 1)) by (apply Z.pow_le_mono_r; lia). lia.
Qed.

Lemma digits_mul a b :
  Zpos (digits2_pos (a * b)) <= Zpos (digits2_pos a) + Zpos (digits2_pos b).
Proof.
  apply digits_le; [lia|]. rewrite Z.pow_add_r by lia. rewrite Pos2Z.inj_mul.
  pose proof (digits_bounds a). pose proof (digits_bounds b).
  apply Z.mul_lt_mono_nonneg; lia.
Qed.

Lemma digits_succ p : Zpos (digits2_pos (Pos.succ p)) <= Zpos (digits2_pos p) + 1.
Proof.
  apply digits_le; [lia|]. rewrite Z.pow_add_r by lia. pose proof (digits_bounds p). lia.
Qed.

(** A mantissa that is not negative and has at most [d] digits. *)
Definition small (d : Z) (m : Z) : Prop := 0 <= m /\ Zdigits2 m <= d.

Lemma small_shr_1 d r : small d (shr_m r) -> small d (shr_m (shr_1 r)).
Proof.
  destruct r as [m br bs]. unfold small. cbn [shr_m]. intros [H0 Hd].
  destruct m as [|[p|p|]|p]; cbn [shr_1 shr_m Zdigits2 digits2_pos] in *;
    rewrite ?Pos2Z.inj_succ in *; lia.
Qed.

Lemma small_iter d p : forall r, small d (shr_m r) -> small d (shr_m (iter_pos shr_1 p r)).
Proof.
  induction p as [p IH|p IH|]; intros r Hr; cbn [iter_pos]; auto using small_shr_1.
Qed.

Lemma shr_fexp_small d m e :
  small d m ->
  let '(r, e') := shr_fexp 53 1024 m e loc_Exact in
  small d (shr_m r) /\ e' <= Z.max e (Z.max (d + e - 53) (-1074)).
Proof.
  intros Hm. unfold shr_fexp, shr, fexp, emin. cbn [shr_record_of_loc].
  destruct (_ - e) as [|k|k] eqn:Ek.
  - split; [done|lia].
  - split; [by apply small_iter|]. destruct Hm. lia.
  - split; [done|lia].
Qed.

Lemma round_small d m l : small d m -> small (d + 1) (round_nearest_even m l).
Proof.
  intros [H0 Hd]. assert (small (d + 1) m) as Hm by (split; lia).
  assert (small (d + 1) (m + 1)) as Hm1.
  { split; [lia|]. destruct m as [|p|p]; [cbn [Zdigits2] in Hd; change (Zdigits2 (0 + 1)) with 1; lia| |lia].
    rewrite Z.add_1_r, <- Pos2Z.inj_succ. cbn [Zdigits2] in *. pose proof (digits_succ p). lia. }
  destruct l as [|[]]; cbn [round_nearest_even]; [done| |done|done]. by destruct (Z.even m).
Qed.

(** A finite value that is not negative. *)
Definition finite (d emax_ : Z) (x : spec_float) : Prop :=
  x = S754_zero false \/
  exists m e, x = S754_finite false m e /\ Zpos (digits2_pos m) <= d /\ e <= emax_.

Lemma round_aux_finite d m e :
  small d m -> 0 <= d <= 400 -> e <= 100 ->
  finite (d + 1) (Z.max e (Z.max (d + e - 53) (-1074)) + d)
    (binary_round_aux 53 1024 false m e loc_Exact).
Proof.
  intros Hm Hd He. unfold binary_round_aux.
  pose proof (shr_fexp_small d m e Hm) as H1. destruct (shr_fexp _ _ m e loc_Exact) as [r e'].
  destruct H1 as [Hr He'].
  pose proof (round_small d _ (loc_of_shr_record r) Hr) as H2.
  pose proof (shr_fexp_small (d + 1) _ e' H2) as H3. destruct (shr_fexp _ _ _ e' loc_Exact) as [r2 e2].
  destruct H3 as [[H30 H3d] He2]. destruct (shr_m r2) as [|q|q]; [by left| |lia].
  destruct (Z.leb_spec e2 (1024 - 53)) as [_|Hb]; [|lia].
  right. exists q, e2. cbn [Zdigits2] in H3d. repeat split; lia.
Qed.

Lemma iter_xO p k : Zpos (Pos.iter xO p k) = Zpos p * 2 ^ Zpos k.
Proof.
  induction k as [|k IH] using Pos.peano_ind; [cbn; lia|].
  rewrite Pos.iter_succ, Pos2Z.inj_succ, Z.pow_succ_r by lia.
  rewrite (Pos2Z.inj_xO (Pos.iter xO p k)), IH. lia.
Qed.

(** A length as a float. *)
Lemma of_length_finite n :
  0 <= n < 2 ^ 53 -> finite 54 53 (binary_normalize 53 1024 n 0 false).
Proof.
  intros Hn. destruct n as [|p|p]; [by left| |lia]. cbn [binary_normalize].
  pose proof (digits_bounds p) as [Hp1 Hp2]. pose proof (digits_le p 53 ltac:(lia) ltac:(lia)) as Hd.
  unfold binary_round, shl_align, fexp, emin. rewrite Z.add_0_r, Z.sub_0_r.
  replace (Z.max (Z.pos (digits2_pos p) - 53) (3 - 1024 - 53)) with (Zpos (digits2_pos p) - 53) by lia.
  destruct (Zpos (digits2_pos p) - 53) as [|k|k] eqn:Ek; [| lia|].
  - apply (round_aux_finite 53); [split; [lia|done]|lia..].
  - assert (small 53 (Zpos (Pos.iter xO p k))) as Hs.
    { split; [lia|]. cbn [Zdigits2]. apply digits_le; [lia|]. rewrite iter_xO.
      replace (2 ^ 53) with (2 ^ Zpos (digits2_pos p) * 2 ^ Zpos k)
        by (rewrite <- Z.pow_add_r by lia; f_equal; lia).
      apply Z.mul_lt_mono_pos_r; lia. }
    destruct (round_aux_finite 53 _ (Zneg k) Hs) as [E|(m & e & E & Hm & He)]; [lia..|by left|].
    right. exists m, e. repeat split; [done|lia|lia].
Qed.

Definition fraction (p : spec_float) : Prop :=
  exists m, p = S754_finite false m (-53) /\ Zpos (digits2_pos m) <= 53.

Lemma fractions : fraction P50 /\ fraction P90 /\ fraction P99.
Proof. repeat split; eexists; (split; [reflexivity|vm_compute; discriminate]). Qed.

Lemma trunc_finite d b x : finite d b x -> exists i, trunc x = Ok i /\ 0 <= i.
Proof.
  intros [->|(m & e & -> & _)]; [by exists 0|]. cbn [trunc]. eexists. split; [reflexivity|].
  destruct (Z.leb_spec 0 e) as [He|He].
  - pose proof (Z.pow_nonneg 2 e). lia.
  - apply Z.div_pos; [lia|apply Z.pow_pos_nonneg; lia].
Qed.

(** The index of a percentile is an index of the list. *)
Lemma percentile_index_range n p :
  fraction p -> (0 < n)%nat -> Z.of_nat n < 2 ^ 53 ->
  exists i, percentile_index n p = Ok i /\ 0 <= i < Z.of_nat n.
Proof.
  intros (m & -> & Hm) H0 Hn. unfold percentile_index.
  assert (exists i, trunc (SFmul 53 1024 (S754_finite false m (-53))
    (binary_normalize 53 1024 (Z.of_nat n) 0 false)) = Ok i /\ 0 <= i) as (i & -> & Hi).
  { destruct (of_length_finite (Z.of_nat n)) as [->|(m' & e & -> & Hm' & He)]; [lia|by exists 0|].
    cbn [SFmul xorb]. eapply trunc_finite, (round_aux_finite 107).
    - split; [lia|]. cbn [Zdigits2]. pose proof (digits_mul m m'). lia.
    - lia.
    - lia. }
  cbn [mbind result_bind]. eexists. split; [reflexivity|]. lia.
Qed.

(** ** What a run does to the outside *)

Definition emits (P : pevent -> Prop) {A} (m : probe A) : Prop :=
  forall tr, exists new, snd (m tr) = tr ++ new /\ Forall P new.

Section Emits.
Context (P : pevent -> Prop).

Lemma emits_ret {A} (a : A) : emits P (mret a).
Proof. intros tr. exists []. by rewrite app_nil_r. Qed.

Lemma emits_lift {A} (r : result A) : emits P (liftP r).
Proof. intros tr. exists []. by rewrite app_nil_r. Qed.

Lemma emits_perform os e : P e -> emits P (perform_p os e).
Proof. intros He tr. exists [e]. split; [done|]. by constructor. Qed.

Lemma emits_bind {A B} (m : probe A) (f : A -> probe B) :
  emits P m -> (forall a, emits P (f a)) -> emits P (mbind f m).
Proof.
  intros Hm Hf tr. unfold mbind, probe_bind. destruct (Hm tr) as (new & E & Hn).
  destruct (m tr) as [[a|e] tr']; cbn [snd] in E; subst tr'; [|by exists new].
  destruct (Hf a (tr ++ new)) as (new' & -> & Hn'). exists (new ++ new'). rewrite app_assoc.
  split; [done|]. by apply Forall_app.
Qed.

Lemma emits_lift_bind {A B} (r : result A) (f : A -> probe B) :
  (forall v, r = Ok v -> emits P (f v)) -> emits P (mbind f (liftP r)).
Proof.
  intros Hf tr. unfold mbind, probe_bind, liftP. destruct r as [v|e]; [by apply Hf|].
  exists []. by rewrite app_nil_r.
Qed.

Lemma emits_caught {A} (m : probe A) : emits P m -> emits P (caught m).
Proof.
  intros Hm tr. destruct (Hm tr) as (new & E & Hn). unfold caught.
  destruct (m tr) as [r tr']. by exists new.
Qed.
End Emits.

Ltac emits_walk :=
  repeat lazymatch goal with
  | |- emits _ (mbind _ _) => apply emits_bind
  | |- emits _ (mret _) => apply emits_ret
  | |- emits _ (liftP _) => apply emits_lift
  | |- emits _ (perform_p _ _) => apply emits_perform
  | |- emits _ (caught _) => apply emits_caught
  | |- emits _ (if ?b then _ else _) => destruct b
  | |- emits _ (match ?x with _ => _ end) => destruct x
  | |- emits _ (let _ := _ in _) => cbv zeta
  | |- forall _, _ => intros ?
  end.

(** Reading requests only: a GET of the status of the exchange or of one market,
    and the time, the method and the path without its query as what is signed. *)
Definition read_only (e : pevent) : Prop :=
  match e with
  | PRequest method path _ =>
      method = "GET" /\
      (path = "/trade-api/v2/exchange/status" \/ path = "/trade-api/v2/markets?limit=1")
  | PSign _ message => exists ts,
      message = show_Z ts +:+ "GET/trade-api/v2/exchange/status" \/
      message = show_Z ts +:+ "GET/trade-api/v2/markets"
  | _ => True
  end.

Section ReadOnly.
Context (os : list pevent -> pevent -> result unit) (at_sample : Z -> sample).
Context (environ : string -> option string) (exc_text : exn -> string).

Lemma take_sample_read_only args key_id key_path key_source host st i :
  emits read_only (take_sample os at_sample exc_text args key_id key_path key_source host st i).
Proof.
  unfold take_sample. cbv zeta. apply emits_lift_bind. intros [path cost] E%or_raise_ok%nth_error_In.
  unfold _sign, exchange. emits_walk; try exact I.
  - exists (s_ts (at_sample i)). destruct E as [[= <- <-]|[[= <- <-]|[]]]; [by left|by right].
  - split; [done|]. destruct E as [[= <- <-]|[[= <- <-]|[]]]; [by left|by right].
Qed.

Lemma take_samples_read_only args key_id key_path key_source host indices : forall st,
  emits read_only (take_samples os at_sample exc_text args key_id key_path key_source host indices st).
Proof.
  induction indices as [|i indices IH]; intros st; cbn [take_samples]; [apply emits_ret|].
  apply emits_bind; [apply take_sample_read_only|]. intros [st'|]; [apply IH|apply emits_ret].
Qed.

Lemma print_summary_read_only args host st : emits read_only (print_summary os args host st).
Proof.
  unfold print_summary. apply emits_bind; [by apply emits_perform|]. intros _.
  induction (sort_items (rtts st)) as [|row rows IH]; cbn [foldr]; [apply emits_ret|].
  emits_walk; done.
Qed.

Lemma probe_main_read_only args : emits read_only (probe_main os at_sample environ exc_text args).
Proof.
  unfold probe_main. emits_walk; try done;
    auto using take_samples_read_only, print_summary_read_only.
Qed.
End ReadOnly.

(** ** The account of a run *)

Definition writes (tr : list pevent) : list string :=
  omap (fun e => match e with PWrite line => Some line | _ => None end) tr.

Lemma writes_app a b : writes (a ++ b) = writes a ++ writes b.
Proof. apply omap_app. Qed.

(** The warm samples of an endpoint. *)
Definition warm_of (ep : string) (st : pstate) : list Q := default [] (assoc ep (rtts st)).

Lemma warm_append ep k x d :
  default [] (assoc ep (append_rtt k x d)) =
  default [] (assoc ep d) ++ (if String.eqb k ep then [x] else []).
Proof.
  unfold append_rtt. destruct (String.eqb_spec k ep) as [->|Hn].
  - rewrite assoc_set_same. by destruct (assoc ep d).
  - rewrite assoc_set_other by congruence. by rewrite app_nil_r.
Qed.

Section Account.
Context (os : list pevent -> pevent -> result unit) (at_sample : Z -> sample).
Context (environ : string -> option string) (exc_text : exn -> string) (args : probe_args).

(** The endpoint of the [i]-th sample. *)
Definition endpoint_at (i : Z) : string * Z :=
  if i mod 2 =? 0 then ("/exchange/status", 10) else ("/markets?limit=1", 1).

(** Was there a connection before the [i]-th sample? *)
Definition warm (i : Z) : bool := (0 <? i) && is_ok (s_reply (at_sample (i - 1))).

(** Does the [i]-th sample count as an error? *)
Definition failed (i : Z) : bool :=
  match s_reply (at_sample i) with
  | Raise _ => true
  | Ok (status, _, _) => warm i && negb (status =? 200)
  end.

(** What the [i]-th sample adds to the times of an endpoint. *)
Definition measured (ep : string) (i : Z) : list Q :=
  match s_reply (at_sample i) with
  | Ok (status, _, rtt) =>
      if warm i && (status =? 200) && String.eqb (without_query (fst (endpoint_at i))) ep then [rtt] else []
  | Raise _ => []
  end.

(** The line of the [i]-th sample. *)
Definition line_at (host key_source : string) (i : Z) : string :=
  let env := at_sample i in
  let '(path, cost) := endpoint_at i in
  match s_reply env with
  | Raise e => error_line exc_text args path env e
  | Ok reply => sample_line args host key_source path cost (negb (warm i)) (s_sign_ms env) env reply
  end.

Hypothesis (os_ok : forall tr e, os tr e = Ok tt).
Hypothesis (signs : forall i, exists out, s_openssl (at_sample i) = Ok (0, out) /\ out <> EmptyString).

Lemma perform_p_ok e tr : perform_p os e tr = (Ok tt, tr ++ [e]).
Proof. unfold perform_p. by rewrite os_ok. Qed.

Lemma sign_ok key_path message i tr :
  exists sig, _sign os key_path message (at_sample i) tr
    = (Ok (sig, s_sign_ms (at_sample i)), tr ++ [PSign key_path message]).
Proof.
  destruct (signs i) as (out & E & Hne). exists (b64encode (str_bytes out)). unfold _sign.
  unfold mbind, probe_bind. rewrite perform_p_ok. unfold liftP. rewrite E.
  destruct (String.eqb_spec out EmptyString); [done|]. done.
Qed.

Lemma exchange_ok host path headers connected i tr :
  exists new, exchange os host path headers connected (at_sample i) tr
    = (s_reply (at_sample i), tr ++ new) /\ writes new = [].
Proof.
  unfold exchange, mbind, probe_bind. destruct connected; unfold mret, probe_ret.
  - exists [PRequest METHOD (API_PREFIX +:+ path) headers]. by rewrite perform_p_ok.
  - exists [PConnect host; PRequest METHOD (API_PREFIX +:+ path) headers].
    rewrite !perform_p_ok. unfold liftP. by rewrite <- app_assoc.
Qed.

Lemma pause_ok q tr :
  exists sl, (if Qeq_bool (period args) 0 then mret tt else perform_p os (PSleep q)) tr
    = (Ok tt, tr ++ sl) /\ writes sl = [].
Proof.
  destruct (Qeq_bool (period args) 0).
  - exists []. by rewrite app_nil_r.
  - exists [PSleep q]. by rewrite perform_p_ok.
Qed.

Lemma endpoint_entry i :
  0 <= i -> nth_error ENDPOINTS (Z.to_nat (i mod Z.of_nat (length ENDPOINTS))) = Some (endpoint_at i).
Proof.
  intros Hi. change (Z.of_nat (length ENDPOINTS)) with 2. unfold endpoint_at.
  pose proof (Z.mod_pos_bound i 2 ltac:(lia)).
  destruct (Z.eqb_spec (i mod 2) 0) as [->|Hn]; [done|].
  by replace (i mod 2) with 1 by lia.
Qed.

(** One sample. *)
Lemma take_sample_account key_id key_path key_source host st i tr :
  0 <= i -> conn st = warm i ->
  exists st' new,
    take_sample os at_sample exc_text args key_id key_path key_source host st i tr
      = (Ok (Some st'), tr ++ new) /\
    conn st' = is_ok (s_reply (at_sample i)) /\
    errors st' = errors st + (if failed i then 1 else 0) /\
    (forall ep, warm_of ep st' = warm_of ep st ++ measured ep i) /\
    (rtts st' = rtts st \/ exists k x, rtts st' = append_rtt k x (rtts st)) /\
    writes new = [line_at host key_source i].
Proof.
  intros Hi Hc. unfold take_sample. cbv zeta. rewrite (endpoint_entry i Hi). cbn [or_raise].
  unfold line_at, failed, measured. destruct (endpoint_at i) as [path cost].
  unfold mbind at 1, probe_bind at 1, liftP at 1.
  unfold mbind at 1, probe_bind at 1, caught at 1.
  destruct (sign_ok key_path (show_Z (s_ts (at_sample i)) +:+ METHOD +:+ API_PREFIX +:+ without_query path)
    i tr) as [sig ->].
  unfold mbind at 1, probe_bind at 1, caught at 1.
  edestruct (exchange_ok host path) as (new & -> & Hw).
  rewrite Hc. destruct (s_reply (at_sample i)) as [[[status body] rtt]|e]; cbn [fst].
  - unfold mbind at 1, probe_bind at 1. rewrite perform_p_ok.
    unfold mbind at 1, probe_bind at 1. edestruct pause_ok as (sl & -> & Hsl).
    eexists _, (_ :: new ++ [_] ++ sl). split; [|split; [|split; [|split; [|split]]]].
    + unfold mret, probe_ret. f_equal. by rewrite <- !app_assoc.
    + unfold count_reply. destruct (negb _); [done|]. by destruct (status =? 200).
    + unfold count_reply. destruct (warm i); cbn [negb andb]; [|cbn; lia].
      destruct (status =? 200); cbn; lia.
    + intros ep. unfold count_reply, warm_of. destruct (warm i); cbn [negb andb].
      * destruct (status =? 200); cbn [rtts andb]; [|by rewrite app_nil_r]. apply warm_append.
      * cbn [rtts]. by rewrite app_nil_r.
    + unfold count_reply. destruct (warm i); cbn [negb]; [|by left].
      destruct (status =? 200); [right; eauto|by left].
    + cbn [writes omap list_omap]. fold (writes (new ++ [PWrite (sample_line args host key_source path cost
        (negb (warm i)) (s_sign_ms (at_sample i)) (at_sample i) (status, body, rtt))] ++ sl)).
      rewrite writes_app, Hw, writes_app, Hsl. done.
  - unfold mbind at 1, probe_bind at 1. rewrite perform_p_ok.
    eexists _, (_ :: new ++ [_]). split; [|split; [|split; [|split; [|split]]]].
    + unfold mret, probe_ret. f_equal. by rewrite <- !app_assoc.
    + done.
    + done.
    + intros ep. by rewrite app_nil_r.
    + by left.
    + cbn [writes omap list_omap]. fold (writes (new ++ [PWrite (error_line exc_text args path (at_sample i) e)])).
      rewrite writes_app, Hw. done.
Qed.

(** The times of each endpoint: one row per endpoint, none of them empty. *)
Definition rows_ok (d : list (string * list Q)) : Prop :=
  List.NoDup (keys d) /\ Forall (fun row => snd row <> []) d.

Lemma assoc_set_forall {A} (R : A -> Prop) k v (d : list (string * A)) :
  R v -> Forall (fun row => R (snd row)) d -> Forall (fun row => R (snd row)) (assoc_set k v d).
Proof.
  intros Hv. induction 1 as [|[k' v'] d Hd Hr IH]; cbn [assoc_set]; [by repeat constructor|].
  destruct (String.eqb k k'); by constructor.
Qed.

Lemma append_rows_ok k x d : rows_ok d -> rows_ok (append_rtt k x d).
Proof.
  intros [Hn Hf]. split; [by apply assoc_set_nodup|].
  apply (assoc_set_forall (fun l => l <> [])); [|done]. by destruct (assoc k d) as [[]|].
Qed.

Lemma take_samples_account key_id key_path key_source host k : forall i st tr,
  0 <= i -> conn st = warm i -> rows_ok (rtts st) ->
  exists st' new,
    take_samples os at_sample exc_text args key_id key_path key_source host (seqZ i (Z.of_nat k)) st tr
      = (Ok (Some st'), tr ++ new) /\
    errors st' = errors st + Z.of_nat (length (List.filter failed (seqZ i (Z.of_nat k)))) /\
    (forall ep, warm_of ep st' = warm_of ep st ++ flat_map (measured ep) (seqZ i (Z.of_nat k))) /\
    rows_ok (rtts st') /\
    writes new = map (line_at host key_source) (seqZ i (Z.of_nat k)).
Proof.
  induction k as [|k IH]; intros i st tr Hi Hc Hr.
  { change (seqZ i (Z.of_nat 0)) with (@nil Z). exists st, []. split; [by rewrite app_nil_r|].
    split; [cbn; lia|]. split; [|done]. intros ep. cbn [flat_map]. by rewrite app_nil_r. }
  rewrite seqZ_cons by lia. replace (Z.pred (Z.of_nat (S k))) with (Z.of_nat k) by lia.
  cbn [take_samples]. destruct (take_sample_account key_id key_path key_source host st i tr Hi Hc)
    as (st1 & new1 & E1 & Hc1 & He1 & Hm1 & Hr1 & Hw1).
  unfold mbind, probe_bind. rewrite E1.
  destruct (IH (Z.succ i) st1 (tr ++ new1)) as (st2 & new2 & E2 & He2 & Hm2 & Hr2 & Hw2).
  - lia.
  - rewrite Hc1. unfold warm. replace (Z.succ i - 1) with i by lia.
    by rewrite (proj2 (Z.ltb_lt 0 (Z.succ i))) by lia.
  - destruct Hr1 as [-> | (ep & x & ->)]; [done|by apply append_rows_ok].
  - exists st2, (new1 ++ new2). rewrite E2. repeat split; try apply Hr2.
    + by rewrite app_assoc.
    + rewrite He2, He1. cbn [List.filter]. destruct (failed i); cbn [length]; lia.
    + intros ep. rewrite Hm2, Hm1. cbn [flat_map]. by rewrite app_assoc.
    + rewrite writes_app, Hw1, Hw2. done.
Qed.

Lemma sort_q_length l : length (sort_q l) = length l.
Proof.
  assert (forall x l, length (insert_q x l) = S (length l)) as Hi.
  { clear. intros x. induction l as [|y l IH]; [done|]. cbn. destruct (Qle_bool x y); cbn; [done|lia]. }
  induction l as [|x l IH]; [done|]. cbn [sort_q foldr]. rewrite Hi. cbn. by f_equal.
Qed.

Lemma item_at_ok {A} (l : list A) i : 0 <= i < Z.of_nat (length l) -> exists x, item_at l i = Ok x.
Proof.
  intros Hi. unfold item_at. rewrite !(proj2 (Z.ltb_ge i 0)) by lia.
  destruct (nth_error l (Z.to_nat i)) as [x|] eqn:E; [by exists x|].
  apply nth_error_None in E. lia.
Qed.

Lemma item_at_last {A} (l : list A) : l <> [] -> exists x, item_at l (-1) = Ok x.
Proof.
  intros Hl. unfold item_at. cbn [Z.ltb Z.compare].
  assert (0 < length l)%nat by (destruct l; [done|cbn; lia]).
  rewrite (proj2 (Z.ltb_ge _ 0)) by lia.
  destruct (nth_error l (Z.to_nat (Z.of_nat (length l) + -1))) as [x|] eqn:E; [by exists x|].
  apply nth_error_None in E. lia.
Qed.

Lemma percentile_ok v p :
  fraction p -> Z.of_nat (length v) < 2 ^ 53 -> exists x, percentile v p = Ok x /\ (v <> [] -> In x v).
Proof.
  intros Hp Hv. destruct v as [|x v]; [by exists 0%Q|]. cbn [percentile].
  destruct (percentile_index_range (length (x :: v)) p Hp) as (i & -> & Hi); [cbn; lia|done|].
  cbn [mbind result_bind]. destruct (item_at_ok (x :: v) i Hi) as [y E]. exists y. split; [done|].
  intros _. unfold item_at in E. rewrite !(proj2 (Z.ltb_ge i 0)) in E by lia.
  apply or_raise_ok in E. by eapply nth_error_In.
Qed.

Lemma endpoint_line_ok row :
  snd row <> [] -> Z.of_nat (length (snd row)) < 2 ^ 53 -> exists line, endpoint_line row = Ok line.
Proof.
  destruct row as [ep v]. cbn [snd]. intros Hne Hlen. unfold endpoint_line. cbv zeta.
  pose proof (sort_q_length v) as Hs. set (w := sort_q v) in *.
  assert (w <> []) as Hw by (intros E; rewrite E in Hs; by destruct v).
  assert (0 < length w)%nat by (destruct w; [done|cbn; lia]).
  destruct fractions as (F50 & F90 & F99).
  destruct (item_at_ok w 0) as [lo ->]; [lia|]. cbn [mbind result_bind].
  destruct (percentile_ok w P50 F50) as (p50 & -> & _); [lia|]. cbn [mbind result_bind].
  destruct (percentile_ok w P90 F90) as (p90 & -> & _); [lia|]. cbn [mbind result_bind].
  destruct (percentile_ok w P99 F99) as (p99 & -> & _); [lia|]. cbn [mbind result_bind].
  destruct (item_at_last w Hw) as [hi ->]. eexists. reflexivity.
Qed.

Lemma print_summary_ok host st tr :
  Forall (fun row => snd row <> [] /\ Z.of_nat (length (snd row)) < 2 ^ 53) (rtts st) ->
  exists new, print_summary os args host st tr = (Ok tt, tr ++ new) /\ writes new = [].
Proof.
  intros Hr. assert (Forall (fun row => snd row <> [] /\ Z.of_nat (length (snd row)) < 2 ^ 53)
    (sort_items (rtts st))) as Hs.
  { rewrite List.Forall_forall in Hr |- *. intros row Hin. apply Hr.
    by apply (Permutation_in _ (sort_items_perm (rtts st))). }
  unfold print_summary. unfold mbind at 1, probe_bind at 1. rewrite perform_p_ok.
  enough (forall tr, exists new,
    foldr (fun row k => line ← liftP (endpoint_line row); _ ← perform_p os (PPrint line); k)
      (mret tt) (sort_items (rtts st)) tr = (Ok tt, tr ++ new) /\ writes new = []) as Hk.
  { edestruct Hk as (new & -> & Hw). eexists (_ :: new). split; [by rewrite <- app_assoc|]. exact Hw. }
  induction Hs as [|row rows [Hne Hlen] _ IH]; intros tr'; cbn [foldr].
  { exists []. by rewrite app_nil_r. }
  destruct (endpoint_line_ok row Hne Hlen) as [line E]. unfold mbind, probe_bind, liftP. rewrite E, perform_p_ok.
  destruct (IH (tr' ++ [PPrint line])) as (new & E' & Hw). unfold mbind, probe_bind, liftP in E'. rewrite E'.
  exists (PPrint line :: new). split; [by rewrite <- app_assoc|exact Hw].
Qed.
End Account.
