(* ===== verification/LatencyProperties.v ===== *)
(** * Properties of the latency probe *)

From stdpp Require Import base list strings numbers.
From Stdlib Require Import ZArith Lia Bool Ascii QArith SpecFloat.
From S2P Require Import Prelude PyJson Sha256 JsonText PyText PdfCanvas LatencyProbe LatencyFacts.

#[local] Open Scope Z_scope.

(** C38: the probe only reads.  Whatever openssl, the server, the clocks, the
    environment and the file system do, every request it sends is a GET of the
    exchange status or of a list of one market, and every message it signs is a
    time, GET and one of the two paths without its query. *)
Theorem probe_only_reads os at_sample environ exc_text args :
  Forall read_only (snd (probe_main os at_sample environ exc_text args [])).
Proof.
  destruct (probe_main_read_only os at_sample environ exc_text args []) as (new & E & Hn).
  rewrite E. exact Hn.
Qed.

(** The key the probe signs with. *)
Definition has_key_pair (environ : string -> option string) (args : probe_args) : bool :=
  a_throwaway args ||
  negb (unset (environ "KALSHI_API_KEY_ID") || unset (environ "KALSHI_PRIVATE_KEY_PATH")).

Definition key_source_of (args : probe_args) : string := if a_throwaway args then "throwaway" else "env".

Lemma flat_map_length_le {A B} (f : A -> list B) l :
  (forall a, (length (f a) <= 1)%nat) -> (length (flat_map f l) <= length l)%nat.
Proof.
  intros Hf. induction l as [|a l IH]; [done|]. cbn [flat_map length]. rewrite length_app.
  specialize (Hf a). lia.
Qed.

(** The times kept for an endpoint are no more than the samples. *)
Lemma rows_bounded at_sample d k :
  rows_ok d -> (forall ep, default [] (assoc ep d) = flat_map (measured at_sample ep) (seqZ 0 (Z.of_nat k))) ->
  Z.of_nat k < 2 ^ 53 ->
  Forall (fun row => snd row <> [] /\ Z.of_nat (length (snd row)) < 2 ^ 53) d.
Proof.
  intros [Hn Hf] Hm Hk. rewrite List.Forall_forall in Hf |- *. intros [ep v] Hin. split; [by apply (Hf _ Hin)|].
  cbn [snd]. apply in_assoc in Hin; [|done]. specialize (Hm ep). rewrite Hin in Hm. change (default [] (Some v)) with v in Hm.
  rewrite Hm. pose proof (flat_map_length_le (measured at_sample ep) (seqZ 0 (Z.of_nat k))) as Hl.
  rewrite length_seqZ in Hl. enough (length (flat_map (measured at_sample ep) (seqZ 0 (Z.of_nat k)))
    <= Z.to_nat (Z.of_nat k))%nat by lia. apply Hl. intros i. unfold measured.
  destruct (s_reply (at_sample i)) as [[[status body] rtt]|]; cbn; [|lia]. destruct (_ && _); cbn; lia.
Qed.

(** C39: the account of a run.  When the file system works and openssl signs, a
    probe of [n] samples writes [n] lines, the line of each sample in order, and
    ends with 0 exactly when no sample failed: a sample fails when the exchange
    raises, or when it is not the first of its connection and the status is not
    200.  The summary never raises. *)
Theorem probe_accounts os at_sample environ exc_text args host :
  (forall tr e, os tr e = Ok tt) ->
  (forall i, exists out, s_openssl (at_sample i) = Ok (0, out) /\ out <> EmptyString) ->
  has_key_pair environ args = true ->
  netloc (default "https://external-api.kalshi.com" (environ "KALSHI_BASE_URL")) = Ok host ->
  0 <= a_n args < 2 ^ 53 ->
  exists tr,
    probe_main os at_sample environ exc_text args []
      = (Ok (if existsb (failed at_sample) (seqZ 0 (a_n args)) then 1 else 0), tr) /\
    writes tr = map (line_at at_sample exc_text args host (key_source_of args)) (seqZ 0 (a_n args)).
Proof.
  intros os_ok signs Hk Hh Hn. unfold probe_main, key_source_of, has_key_pair in *.
  assert (exists key_id key_path source tr0,
    (if a_throwaway args
     then _ ← perform_p os (PCreate THROWAWAY_KEY); _ ← perform_p os (PGenKey THROWAWAY_KEY);
          mret (Some ZERO_ID, Some THROWAWAY_KEY, "throwaway")
     else mret (environ "KALSHI_API_KEY_ID", environ "KALSHI_PRIVATE_KEY_PATH", "env")) []
    = (Ok (key_id, key_path, source), tr0) /\ unset key_id || unset key_path = false /\
    source = (if a_throwaway args then "throwaway" else "env") /\ writes tr0 = [])
    as (key_id & key_path & source & tr0 & E & Hu & Hs & Hw).
  { destruct (a_throwaway args).
    - eexists _, _, _, _. split; [unfold mbind, probe_bind; rewrite !perform_p_ok by done; reflexivity|]. done.
    - eexists _, _, _, _. split; [reflexivity|]. split; [|done]. by apply negb_true_iff in Hk. }
  unfold mbind at 1, probe_bind at 1. rewrite E, Hu, Hh. cbv zeta.
  unfold mbind at 1, probe_bind at 1, liftP at 1.
  unfold mbind at 1, probe_bind at 1. rewrite perform_p_ok by done.
  unfold mbind at 1, probe_bind at 1. rewrite perform_p_ok by done.
  destruct (take_samples_account os at_sample exc_text args os_ok signs (default EmptyString key_id)
    (default EmptyString key_path) source host (Z.to_nat (a_n args)) 0 (PState false [] None 0)
    ((tr0 ++ [PMakedirs (if String.eqb (dirname (a_out args)) EmptyString then "." else dirname (a_out args))])
      ++ [POpen (a_out args)])) as (st & new & E' & He & Hm & Hr & Hw');
    [lia|done|split; constructor|].
  rewrite Z2Nat.id in * by lia.
  unfold mbind at 1, probe_bind at 1. rewrite E'.
  unfold mbind at 1, probe_bind at 1.
  edestruct (print_summary_ok os args os_ok host st) as (new' & -> & Hw'').
  { apply (rows_bounded at_sample _ (Z.to_nat (a_n args))); [done| |lia].
    intros ep. rewrite Z2Nat.id by lia. exact (Hm ep). }
  eexists. split.
  - unfold mret, probe_ret. f_equal. f_equal. cbn [errors] in He. rewrite He.
    clear. induction (seqZ 0 (a_n args)) as [|i l IH]; [done|]. cbn [List.filter existsb].
    destruct (failed at_sample i); [|exact IH]. cbn [orb length].
    by rewrite (proj2 (Z.eqb_neq _ 0)) by lia.
  - rewrite !writes_app, Hw, Hw', Hw'', Hs. cbn. by rewrite app_nil_r.
Qed.

(** A server that answers 200 but for the third request, and closes at the fifth. *)
Definition demo_sample (i : Z) : sample :=
  Sample 1000 (Ok (0, "sig")) 2
    (if i =? 4 then Raise (OSError "closed") else Ok (if i =? 2 then 503 else 200, 10, 30 # 1))
    "2026-07-23T00:00:00Z" 0.
Definition demo_args : probe_args := ProbeArgs 6 2 "mac" "work/out.ndjson" true.

Lemma probe_accounts_witness :
  exists tr,
    probe_main (fun _ _ => Ok tt) demo_sample (fun _ => None) (fun _ => "x") demo_args [] = (Ok 1, tr) /\
    length (writes tr) = 6%nat.
Proof.
  destruct (probe_accounts (fun _ _ => Ok tt) demo_sample (fun _ => None) (fun _ => "x") demo_args
    "external-api.kalshi.com") as (tr & E & Hw).
  - reflexivity.
  - intros i. exists "sig". split; [reflexivity|discriminate].
  - reflexivity.
  - vm_compute. reflexivity.
  - vm_compute. split; [discriminate|reflexivity].
  - exists tr. split; [exact E|]. rewrite Hw. reflexivity.
Defined.

Definition index_is (n : nat) (p : spec_float) (i : Z) : bool :=
  match percentile_index n p with Ok j => j =? i | Raise _ => false end.

Lemma index_is_ok n p i : index_is n p i = true -> percentile_index n p = Ok i.
Proof. unfold index_is. destruct (percentile_index n p); [|done]. by intros ->%Z.eqb_eq. Qed.

Lemma decimal_indices :
  forallb (fun n => index_is n P50 (Z.of_nat n / 2) && index_is n P90 (Z.of_nat n * 9 / 10) &&
                    index_is n P99 (Z.of_nat n * 99 / 100)) (seq 1 400) = true.
Proof. vm_compute. reflexivity. Qed.

(** C40: percentiles.  In binary floating point, for every list of fewer than 2^53
    times, [percentile] gives a time of the list: the index is never out of range,
    and never counts from the end.  Up to 400 samples, the default of the probe,
    the index is that of the decimal fraction, rounding notwithstanding. *)
Theorem percentile_in_list (v : list Q) (p : spec_float) :
  In p [P50; P90; P99] -> v <> [] -> Z.of_nat (length v) < 2 ^ 53 ->
  (exists i, percentile_index (length v) p = Ok i /\ 0 <= i < Z.of_nat (length v)) /\
  (exists x, percentile v p = Ok x /\ In x v) /\
  (Z.of_nat (length v) <= 400 ->
   percentile_index (length v) P50 = Ok (Z.of_nat (length v) / 2) /\
   percentile_index (length v) P90 = Ok (Z.of_nat (length v) * 9 / 10) /\
   percentile_index (length v) P99 = Ok (Z.of_nat (length v) * 99 / 100)).
Proof.
  intros Hp Hv Hn. assert (fraction p) as Hf.
  { destruct fractions as (F1 & F2 & F3). by destruct Hp as [<-|[<-|[<-|[]]]]. }
  assert (0 < length v)%nat as H0 by (destruct v; [done|cbn; lia]).
  split; [by apply percentile_index_range|]. split.
  - destruct (percentile_ok v p Hf Hn) as (x & E & Hx). exists x. auto.
  - intros H400. generalize dependent (length v). clear. intros n _ H0 Hn.
    pose proof decimal_indices as Hall. rewrite forallb_forall in Hall. specialize (Hall n).
    rewrite in_seq in Hall. specialize (Hall ltac:(lia)).
    apply andb_true_iff in Hall as [[H1 H2]%andb_true_iff H3].
    by auto using index_is_ok.
Qed.

Lemma percentile_in_list_witness :
  exists x, percentile [30 # 1; 31 # 1; 40 # 1]%Q P90 = Ok x /\ In x [30 # 1; 31 # 1; 40 # 1]%Q.
Proof.
  apply (percentile_in_list [30 # 1; 31 # 1; 40 # 1]%Q P90).
  - right. left. reflexivity.
  - discriminate.
  - reflexivity.
Defined.
