(* ===== verification/ConsoleStart.v ===== *)
(** * Starting the console

    [main] of dashboard_server.py: from the arguments to the server it binds and
    what it prints.  Binding and serving are parameters. *)

From stdpp Require Import base list strings numbers.
From Stdlib Require Import ZArith Lia Bool Ascii.
From S2P Require Import Prelude PyJson Sha256 JsonText PyText Validator RunTests.

(** The parsed arguments, and their defaults. *)
Record console_args := ConsoleArgs {
  c_metrics : string;
  c_port : Z;
  c_host : string;
  c_backfill : Z;
  c_results : string;
  c_allow_network : bool
}.

Definition console_defaults : console_args :=
  ConsoleArgs "work/metrics.ndjson" 8765 "127.0.0.1" 1000 "work/test_results.ndjson" false.

(** What the server is made of: its address and what its handler is given. *)
Record server := Server {
  sv_host : string;
  sv_port : Z;
  sv_metrics : list string;
  sv_backfill : Z;
  sv_allow_network : bool;
  sv_results_latest : list string;
  sv_daemon_threads : bool
}.

(** How [serve_forever] ends. *)
Inductive serve_end :=
| Interrupted
| Broken (e : exn).

Section Start.
Context (cwd : list string) (exists_ : list string -> bool).

(** The server of the arguments; the latest results lie next to their history. *)
Definition server_of (args : console_args) : server :=
  Server (c_host args) (c_port args) (resolve cwd (c_metrics args)) (c_backfill args)
    (c_allow_network args)
    (removelast (resolve cwd (c_results args)) ++ ["test_results_latest.json"]) true.

Definition banner (args : console_args) : list string :=
  let metrics_path := resolve cwd (c_metrics args) in
  ["Kalshi PoC ops console";
   "  metrics : " +:+ path_text metrics_path +:+
     (if exists_ metrics_path then EmptyString
      else "  (not present yet — will appear when written)");
   "  serving : http://" +:+ c_host args +:+ ":" +:+ show_Z (c_port args);
   "  bind    : " +:+ c_host args +:+ " (localhost only)";
   "  network : " +:+ (if c_allow_network args then "ALLOWED (network_read runnable)"
                       else "blocked (network_read tools disabled)");
   "Read-only console. Ctrl-C to stop; trading is unaffected."].

(** [main]: its end, what was printed, and whether the server was closed. *)
Definition console_main (bind : server -> result unit) (serve : server -> serve_end)
    (args : console_args) : result unit * list string * bool :=
  let sv := server_of args in
  match bind sv with
  | Raise e => (Raise e, [], false)
  | Ok _ =>
      match serve sv with
      | Interrupted => (Ok tt, banner args ++ [String newline "stopped."], true)
      | Broken e => (Raise e, banner args, false)
      end
  end.
End Start.

(** Without arguments the server is bound to the loopback address, hands the
    handler no leave to use the network, and reads and serves files of the working
    directory. *)
Lemma default_start cwd :
  let sv := server_of cwd console_defaults in
  sv_host sv = "127.0.0.1" /\ sv_allow_network sv = false /\
  sv_metrics sv = cwd ++ ["work"; "metrics.ndjson"] /\
  sv_results_latest sv = cwd ++ ["work"; "test_results_latest.json"].
Proof.
  cbv zeta. split; [done|]. split; [done|]. split.
  - change (sv_metrics _) with ((cwd ++ ["work"]) ++ ["metrics.ndjson"]). by rewrite <- app_assoc.
  - change (sv_results_latest _)
      with (removelast ((cwd ++ ["work"]) ++ ["test_results.ndjson"]) ++ ["test_results_latest.json"]).
    by rewrite removelast_last, <- app_assoc.
Qed.
